(* ===== verification/_CoqProject ===== *)
-Q . S2P
Prelude.v
Interleave.v
GoStrings.v
GoCrypto.v
GoJson.v
GoURL.v
GoHTTP.v
GoPath.v
ApiPath.v
GoMux.v
GoFloat.v
GoTime.v
OAuthBackend.v
Cache.v
Samples.v
OAuthStores.v
Keeps.v
JWT.v
OAuthServer.v
OAuthTheorems.v
TokenRace.v
AuthHandlers.v
Config.v
VireClient.v
LogStore.v
Bridge.v
BridgeTheorems.v
Server.v
Pages.v
PagesTheorems.v
ProxyTheorems.v
ProxyRace.v
Routing.v
MCP.v
MCPTheorems.v
App.v
AppTheorems.v
PortalInvariant.v
PortalMain.v
VireData.v
VireInterfaces.v
VireModels.v
VireCommon.v
VireMoney.v
LoggerSetup.v
