(* ===== verification/Prelude.v ===== *)
(** * vire-portal: a verification library

    vire-portal is the web front of the Vire portfolio service, written in Go.
    It serves HTML pages and static files, forwards API calls to the backend
    "vire-server", exposes vire-server's operations as MCP tools, and is the
    OAuth 2.1 authorization server for MCP clients.  This library models the
    parts that carry its own logic, as executable definitions translated from
    the sources under internal/ and cmd/, and proves what makes them correct.

    ** The parts of the program and the files that model them

    Foundations (the language and its standard library, as far as used):
    - [Prelude]: results of fallible functions, the state monad [M], 64-bit
      wrap-around, durations, the tactics and the hint database, lemmas on
      association lists.
    - [Interleave]: any number of threads on a shared state, each a sequence of
      atomic actions that note events: the step relation, the invariants of
      every reachable state, and a function that runs a given schedule.
    - [GoStrings]: strings as byte strings; package strings, strconv, hex.
      Case mapping outside ASCII is a parameter (class [Unicode]).
    - [GoCrypto]: base64url, SHA-256, HMAC and constant-time comparison, all
      executable and checked on published vectors.
    - [GoJson]: JSON values, the encoder (with Go's HTML-safe escapes) and the
      decoder (string escapes, surrogates, numbers, depth limit), decoding into
      structs with Go's case-insensitive field names.  [json_parse_Marshal] is
      the round trip; strings come back with invalid UTF-8 replaced by U+FFFD
      ([to_utf8]), which leaves valid strings alone ([is_utf8_fixed]).
    - [GoURL]: escaping, query strings and [url.Values], with their round
      trips.  [url.Parse] and [URL.String] are parameters (class [NetURL]).
    - [GoHTTP]: headers, requests, the response writer (status and headers are
      frozen by the first write), [http.Error], [http.Redirect], and the class
      [Env] of what surrounds the portal: the servers it talks to ([http_do] on
      a state [srv]), the clock and the random source.  A [World] is a state of
      that environment; code with effects is a function of it.
    - [GoPath]: path/filepath on Unix as a stack of components, the files as
      far as [os.Stat] shows them (class [FileSys]), and the removal of
      duplicate paths both commands do.
    - [ApiPath]: when a URL stays below /api/ of a server: the path as a server
      that resolves dot segments sees it, and which tools and arguments cannot
      climb out of it.
    - [GoMux]: [http.ServeMux]: cleaning of paths, choice of the most specific
      pattern, redirects, and the methods of a 405 answer.
    - [Keeps]: a small program logic for operations on a state and the world:
      what an operation preserves, with rules and automation.
    - [GoFloat]: float64 as IEEE 754 binary64 (the format of the kernel's
      specification [SpecFloat]), the verb %.nf, and the theory of rounding the
      proofs about amounts use.  Products and sums are rounded separately, as
      on machines where the compiler does not fuse them; a conversion to int64
      that does not fit is a parameter ([Int64Conv]).
    - [GoTime]: instants with an offset, their difference with saturation, and
      the calendar date.
    - [Samples]: a concrete environment on which the witnesses run.

    Components:
    - [OAuthBackend] (internal/auth/backend.go): the HTTP client that persists
      OAuth records in vire-server, with the JSON form of the records.
    - [OAuthStores] (internal/auth/store.go, session.go): the client, session,
      code and token stores.  Each is a map with an optional backend; the
      operations write through and read through.  Module [CodeRace] is the
      shared-memory view of [ConsumeCode]: a step relation in which any number
      of threads run its two critical sections and the fetch between them.
    - [JWT] (internal/auth/server.go, authorize.go, internal/handlers/auth.go,
      internal/mcp/handler.go, get_page.go): minting and the three validators.
    - [OAuthServer] (internal/auth/server.go, authorize.go, token.go, dcr.go,
      discovery.go, pkce.go): the state [OAuthServer] holds the four stores;
      every handler is a definition of the same name.  [OAuthTheorems] proves
      its properties.  [TokenRace] cuts the refresh grant and the token store
      into atomic actions that interleave.
    - [AuthHandlers] (internal/handlers/auth.go): logins and callbacks, against
      the interface [OAuthCompleter], of which the OAuth server is an instance.
    - [Cache] (internal/cache/cache.go): the response cache.
    - [VireClient] (internal/client/vire_client.go, internal/seed): the typed
      REST client and what the portal sends at start: service registration,
      administrators, development users.
    - [LogStore] (internal/client/log_store.go): the buffer of log entries; the
      goroutines that send, and [Close] after it has released the mutex, are
      explicit steps.
    - [Config] (internal/config): configuration; reading a file and decoding
      TOML are arguments.
    - [Server] (internal/server): middleware as functions from handler to
      handler, the route table, method dispatch, the writer of the logging
      middleware, and the API proxy on the state [Server].  [ProxyTheorems]
      proves their properties; [ProxyRace] cuts the proxy and the cache into
      atomic actions that interleave; [Routing] states the site map, which
      page answers which method and path, and that the route table follows it.
    - [MCP] (internal/mcp): the proxy to vire-server, the tool catalog, tool
      calls, the page and version tools, the handler with its version watcher
      and authentication, the development endpoint.  The MCP library is a
      parameter ([ToolServer] with its laws, the [streamable] handler), as are
      AES-GCM ([AEAD]) and the printing of float64 ([Float64]).  [MCPTheorems]
      proves their properties.
    - [Pages] (internal/handlers, all but auth.go): every page and the small
      JSON endpoints.  What a handler computes is the data it hands to the
      template; html/template is the class [Templates].  Module [Fanout] is the
      step relation of the goroutines that fetch in parallel; the handlers take
      the order in which they reach the network as an argument.
      [PagesTheorems] proves their properties and that the argument suffices.
    - [App] (internal/app/app.go, internal/server/routes.go, server.go): the
      wiring, and the portal as one handler over [Portal], the OAuth server, the
      MCP handler and the HTTP server with its cache.  [AppTheorems] proves
      what holds of the assembled portal, and [PortalInvariant] what no request
      can change of its state, with the rules of [Keeps].
    - [PortalMain] (cmd/vire-portal/main.go): from the flags to a configuration
      or an exit, and the running process up to its end as a step relation: the
      statements of [main], which wait where the code waits, beside the signals,
      the requests being served, the deadline of the shutdown, the version
      watcher of the MCP handler and the log store.
    - [Bridge] (cmd/vire-mcp): the stdio bridge; the MCP client library, the
      browser and the local ports are the class [ClientLib], the disk is [Disk].
      [BridgeTheorems] proves its properties, alone and against the portal.
    - [VireData] and [VireModels] (internal/vire/models): the data types, and
      the tickers and Markdown documents computed from them.
    - [VireInterfaces] (internal/vire/interfaces): the interfaces as records of
      methods, and the options of a price query.
    - [VireCommon] (internal/vire/common): the shared configuration, freshness
      rules, user context, logger set-up and formatting.  [VireMoney] proves
      what the formatted amounts show, and [LoggerSetup] is the logger each
      command builds from its configuration.

    How they interact: [OAuthServer] calls [OAuthStores], which call
    [OAuthBackend]; [AuthHandlers] calls [OAuthServer] through
    [OAuthCompleter]; [Server] calls [AuthHandlers.IsLoggedIn] and [Cache];
    [MCP] accepts the tokens [OAuthServer] issues; [Pages] calls [VireClient]
    through functions that [App] installs; [Bridge] posts to the portal's
    authorization endpoint.  A handler runs on the pair
    of its component's state and the world ([M (State * World)]).

    ** What the theorems show

    - OAuth.  A code is redeemed at most once, under every interleaving of
      concurrent redemptions ([CodeRace.code_consumed_once]) and along every
      sequence of requests to one server ([code_redeemed_once]); the atomic
      operation refines a one-shot map ([ConsumeCode_refines]); a code stored
      before a restart can be redeemed after it ([code_survives_restart]); the
      two grants and the registration and authorization endpoints behave as
      specified on every branch ([code_grant_spec] for every request to the
      token endpoint); rotation retires a refresh token; and a client
      that registers, authorizes and presents its verifier obtains tokens for
      the user that logged in ([oauth_flow]).  Under every interleaving of
      refresh grants, code grants and clean-ups, tokens issued for a refresh
      token are for its user, client and scope ([refresh_race]); a grant nobody
      disturbs is the sequential one ([grant_alone]).
    - Tokens.  Minted tokens validate until they expire and not after; an
      accepted token carries the HMAC of its own content; the three validators
      agree except on tokens without an expiry time.
    - Cache.  The map-based cache with an eviction scan in an arbitrary order
      is indistinguishable from a bounded FIFO list ([cache_refines_fifo]), and
      never exceeds its bound.
    - API proxy.  What is sent upstream and under which identity; answers are
      replayed only to the user they were obtained for, as long as the cache
      holds them; writes invalidate;
      every response leaves through the hardened middleware chain.  Under every
      interleaving of requests a cached answer is one that vire-server gave the
      same user for the same URI, no older than the time to live and not
      invalidated between storing and reading ([proxy_race_coherent]); a request
      nobody disturbs is the sequential one ([proxy_alone]).
    - MCP.  Every reachable handler serves a validated catalog and the
      portal's own tools; calls of validated tools stay under /api/ of the
      configured server, dot segments resolved, when no path argument consists
      of dots only, and carry the caller's identity; unauthenticated requests are refused
      with a well-formed challenge; OAuth access tokens open the endpoint.
    - Logs and seeding.  Accepted log entries are posted exactly once under
      every order of stores, timer, goroutines and closing ([log_delivery]); a
      synchronisation asks for exactly the promotions that are due
      ([sync_admins_spec]).
    - Login and configuration: the outcome of a login on every branch, the
      completion of an MCP session, the meaning of development mode; a
      configuration the portal starts with is well formed and each of its
      settings comes from the flags, the environment, the last file that sets it
      or the defaults, in this order ([ready_config_wf]).
    - Pages and the assembled portal.  Without a session no personal page is
      shown and nothing is asked of vire-server ([pages_require_session]); what
      pages do ask stays under /api/, dot segments resolved, and under the
      identity of the session, or of the service account for the list of users
      an administrator sees ([page_requests_confined]); the user list is for administrators
      ([admin_page_gate]); no static file outside its directory is read
      ([static_confined]); a request with a clean path is served by the
      handler the site map names, and any other is redirected to its clean path
      ([requests_follow_site_map]).  Along every run of the
      portal the secrets and addresses are those of the configuration, the
      stores, the cache and the tools are well formed and the cache is bounded
      ([portal_invariant]).  The parallel fetch of the dashboards ends and equals
      a sequential one ([fanout_terminates], [fanout_serialises]).
    - The processes.  Shutdown blocks only on requests being served, at most
      until its deadline, and ends with the listener, the version watcher's
      channel and the log store closed ([shutdown_completes]); the token file round-trips; the login the bridge
      prepares is the one the browser finishes
      ([bridge_login_reaches_session]).
    - The shared packages.  A formatted amount is the value rounded to the cent,
      with its digits grouped in threes ([money_display]); amounts are always
      shown in a supported currency ([display_currency_supported]); a plan
      document lists every item once under its status
      ([plan_markdown_complete]); the logger's limits stay positive when the
      configured size overflows ([logger_limits], [command_logs_bounded]).

    Some theorems record behaviour that is weaker than the comments promise:
    [callback_accepts_forged_user], the second half of [proxy_identity],
    [dashboard_url_selects], [bridge_callback_port_mismatch],
    [escaped_write_leaves_stale_entry], [dotdot_argument_reaches_path],
    [CodeRace.Get_race_double_redemption], [MakeKey_collision],
    [unknown_path_logs_out], [prefix_test_accepts_sibling],
    [exit_drops_batch_in_flight], [callback_page_unescaped],
    [android_tablet_is_mobile], [eodhExchange_unknown],
    [signed_pct_negative_zero], [watchlist_drops_unknown_verdict],
    [stale_answer_after_write], [refresh_double_redemption],
    [revoked_token_returns], [authorize_error_open_redirect],
    [null_version_panics], [oversized_answer_cut], [Invalidate_anywhere],
    [update_cache_invalidated], [log_format_ignored], [codes_accumulate].

    ** Bounds, fuel and idealisations

    The JSON parser recurses on fuel; [parse_fuel] is linear in the input, and
    the round-trip theorem shows it is enough for every encoded value within
    the depth limit of 10000 that Go also has.  [sha_blocks] takes the input
    length as fuel, which exceeds the number of blocks.  Cache indices wrap at
    64 bits; the theorems assume fewer than 2^63 insertions.  Times are
    nanoseconds in Z; [clock n] is the n-th reading and the model may take a
    reading the code skips by short-circuit evaluation, which is harmless since
    all readings are arbitrary.  [money_display] is about amounts below 2^62,
    where the conversion to int64 is exact.  Log lines, timeouts and connection handling
    are left out, as are the texts of some errors that are only logged.

    ** Not modelled

    The contents of templates and static files, redirects that the HTTP client
    follows by itself, multipart forms, the test support under tests/common, and signals that arrive before [signal.Notify].  The
    interfaces of internal/vire/interfaces have no implementation in the
    repository, so there is nothing to prove of them.  Log lines, timeouts,
    delays between attempts and the network itself are outside the model.
*)
From Stdlib Require Export ZArith Lia Ascii.
From stdpp Require Export sorting.
From stdpp Require Export base numbers strings list fin_maps gmap list_relations list_monad.

Declare Scope go_scope.
Delimit Scope go_scope with go.
Open Scope Z_scope.

(** ** Results of fallible Go functions: [(value, error)] *)
Inductive result (A : Type) : Type :=
| Ok (a : A)
| Err (msg : string).
Arguments Ok {A} a.
Arguments Err {A} msg.

Definition is_ok {A} (r : result A) : bool :=
  match r with Ok _ => true | Err _ => false end.

Definition result_option {A} (r : result A) : option A :=
  match r with Ok a => Some a | Err _ => None end.

#[global] Instance result_bind : MBind result :=
  fun A B f r => match r with Ok a => f a | Err e => Err e end.
#[global] Instance result_ret : MRet result := @Ok.

(** ** State passing

    A Go method that reads and writes the state [S] reachable from its
    receiver.  Several fields of a state are lifted with [zoom]. *)
Definition M (S A : Type) : Type := S -> A * S.

#[global] Instance M_ret S : MRet (M S) := fun A x s => (x, s).
#[global] Instance M_bind S : MBind (M S) :=
  fun A B f m s => let '(a, s') := m s in f a s'.

Definition gets {S A} (f : S -> A) : M S A := fun s => (f s, s).
Definition modify {S} (f : S -> S) : M S unit := fun s => (tt, f s).
Definition zoom {S T A} (get : S -> T) (set : T -> S -> S) (m : M T A) : M S A :=
  fun s => let '(a, t) := m (get s) in (a, set t s).

Lemma M_bind_unfold {S A B} (m : M S A) (f : A -> M S B) s :
  (m ≫= f) s = let '(a, s') := m s in f a s'.
Proof. reflexivity. Qed.

(** ** Machine integers *)
Definition wrap64 (z : Z) : Z := (z + 2 ^ 63) `mod` 2 ^ 64 - 2 ^ 63.

Lemma wrap64_id z : - 2 ^ 63 <= z < 2 ^ 63 -> wrap64 z = z.
Proof. intros H. unfold wrap64. rewrite Z.mod_small by lia. lia. Qed.

(** ** Durations: [time.Duration] and [time.Time] are counted in nanoseconds *)
Definition Nanosecond : Z := 1.
Definition Millisecond : Z := 1000000.
Definition Second : Z := 1000000000.
Definition Minute : Z := 60 * Second.
Definition Hour : Z := 60 * Minute.

(** [t.After(u)] and [t.Unix()]. *)
Definition After (t u : Z) : bool := u <? t.
Definition Unix (t : Z) : Z := t / Second.

(** ** Automation *)

(** Splits on the scrutinee of the first conditional or match of the goal. *)
Ltac split_one :=
  match goal with
  | |- context [if decide ?P then _ else _] => destruct (decide P)
  | |- context [if ?b then _ else _] => destruct b eqn:?
  | |- context [match ?x with _ => _ end] => destruct x eqn:?
  end.

(** The same in a hypothesis. *)
Ltac split_in H :=
  match type of H with
  | context [if decide ?P then _ else _] => destruct (decide P)
  | context [if ?b then _ else _] => destruct b eqn:?
  | context [match ?x with _ => _ end] => destruct x eqn:?
  end.

Ltac bool_to_prop :=
  repeat match goal with
  | H : (_ && _)%bool = true |- _ => apply andb_true_iff in H as [? ?]
  | H : (_ || _)%bool = false |- _ => apply orb_false_iff in H as [? ?]
  | H : negb _ = true |- _ => apply negb_true_iff in H
  | H : negb _ = false |- _ => apply negb_false_iff in H
  | H : (_ <? _) = true |- _ => apply Z.ltb_lt in H
  | H : (_ <? _) = false |- _ => apply Z.ltb_ge in H
  | H : (_ <=? _) = true |- _ => apply Z.leb_le in H
  | H : (_ <=? _) = false |- _ => apply Z.leb_gt in H
  | H : (_ =? _) = true |- _ => apply Z.eqb_eq in H
  | H : (_ =? _) = false |- _ => apply Z.eqb_neq in H
  | H : bool_decide _ = true |- _ => apply bool_decide_eq_true in H
  | H : bool_decide _ = false |- _ => apply bool_decide_eq_false in H
  | H : After _ _ = true |- _ => unfold After in H
  | H : After _ _ = false |- _ => unfold After in H
  end.

(** The hint database of the development: invariants of the components. *)
Create HintDb vire discriminated.

(** ** Generic lemmas on association lists and sorted lists *)
Section assoc.
Context {V : Type} (P : string -> Prop) `{!forall k, Decision (P k)}.
Implicit Type L : list (string * V).

Lemma filter_keys L : (filter (fun kv => P kv.1) L).*1 = filter P L.*1.
Proof.
  induction L as [|[k v] L IH]; [done|]. rewrite filter_cons. simpl.
  rewrite (filter_cons P). destruct (decide (P k)); [|done]. by f_equal/=.
Qed.

Lemma filter_NoDup_keys L : NoDup L.*1 -> NoDup (filter (fun kv => P kv.1) L).*1.
Proof. intros. rewrite filter_keys. by apply NoDup_filter. Qed.

(** Filtering an association list by key filters the map it denotes. *)
Lemma filter_list_to_map L :
  NoDup L.*1 ->
  list_to_map (filter (fun kv => P kv.1) L) =@{gmap string V}
  filter (fun kv => P kv.1) (list_to_map L).
Proof.
  intros Hn. apply map_eq. intros k. apply option_eq. intros e.
  rewrite map_lookup_filter_Some, <-!elem_of_list_to_map, list_elem_of_filter
    by auto using filter_NoDup_keys.
  simpl. tauto.
Qed.
End assoc.

Lemma StronglySorted_filter {A} (R : A -> A -> Prop) (P : A -> Prop)
    `{!forall x, Decision (P x)} l :
  StronglySorted R l -> StronglySorted R (filter P l).
Proof.
  induction 1 as [|x l Hs IH Hx]; [constructor|]. rewrite filter_cons.
  destruct (decide (P x)); [|done]. constructor; [done|].
  apply Forall_forall. intros y [_ Hy]%list_elem_of_filter. by eapply Forall_forall in Hx.
Qed.
