(* ===== verification/Interleave.v ===== *)
(** * Interleave: requests that run concurrently on one state

    A handler that runs in a goroutine per request is given by its atomic
    actions: a function that takes a request and the phase it is in to the next
    phase, on the shared state.  A run interleaves the actions of any number of
    requests with changes the environment makes.  What an observer notes is the
    trace.  An invariant of the actions is an invariant of all runs. *)
From S2P Require Import Prelude.

Record threads (St Req Phase Ev : Type) := mkThreads {
  th_state : St;
  th_threads : gmap nat (Req * Phase);
  th_trace : list Ev;
}.
Arguments mkThreads {St Req Phase Ev}.
Arguments th_state {St Req Phase Ev}.
Arguments th_threads {St Req Phase Ev}.
Arguments th_trace {St Req Phase Ev}.

Section interleave.
Context {St Req Phase Ev : Type} (action : Req -> Phase -> M St (Phase * list Ev)) (initial : Phase)
  (outside : St -> St -> Prop).
Notation threads := (threads St Req Phase Ev).

(** A request arrives, a request acts, or the environment moves on. *)
Inductive istep : threads -> threads -> Prop :=
| i_arrive t r st th tr :
    th !! t = None -> istep (mkThreads st th tr) (mkThreads st (<[t := (r, initial)]> th) tr)
| i_act t r p p' evs st st' th tr :
    th !! t = Some (r, p) -> action r p st = ((p', evs), st') ->
    istep (mkThreads st th tr) (mkThreads st' (<[t := (r, p')]> th) (tr ++ evs))
| i_outside st st' th tr : outside st st' -> istep (mkThreads st th tr) (mkThreads st' th tr).
Definition start (st : St) : threads := mkThreads st ∅ [].

(** ** Invariants *)
Section invariant.
Context (state_ok : list Ev -> St -> Prop) (phase_ok : list Ev -> Req -> Phase -> Prop)
  (event_ok : list Ev -> Ev -> Prop).
Record threads_ok (x : threads) : Prop := {
  ok_state : state_ok (th_trace x) (th_state x);
  ok_threads : forall t r p, th_threads x !! t = Some (r, p) -> phase_ok (th_trace x) r p;
  ok_trace : forall tr ev tr', th_trace x = tr ++ ev :: tr' -> event_ok tr ev;
}.
(** What an action owes: at most one event, which the trace so far allows. *)
Definition act_ok (tr : list Ev) (r : Req) (x : (Phase * list Ev) * St) : Prop :=
  state_ok (tr ++ x.1.2) x.2 /\ phase_ok (tr ++ x.1.2) r x.1.1 /\
  (x.1.2 = [] \/ exists ev, x.1.2 = [ev] /\ event_ok tr ev).

Lemma act_quiet tr r p st : state_ok tr st -> phase_ok tr r p -> act_ok tr r ((p, []), st).
Proof. intros Hs Hp. unfold act_ok. simpl. rewrite app_nil_r. split_and!; [done..|by left]. Qed.
Lemma act_noted tr r p st ev :
  state_ok (tr ++ [ev]) st -> event_ok tr ev -> phase_ok (tr ++ [ev]) r p -> act_ok tr r ((p, [ev]), st).
Proof. intros Hs He Hp. split_and!; [done..|right; by exists ev]. Qed.

Hypothesis phase_ok_app : forall tr ev r p, phase_ok tr r p -> phase_ok (tr ++ [ev]) r p.
Hypothesis phase_ok_initial : forall tr r, phase_ok tr r initial.
Hypothesis outside_ok : forall tr st st', outside st st' -> state_ok tr st -> state_ok tr st'.
Hypothesis action_ok : forall tr r p st, state_ok tr st -> phase_ok tr r p -> act_ok tr r (action r p st).

Lemma trace_ok_app tr evs :
  (forall a ev b, tr = a ++ ev :: b -> event_ok a ev) ->
  (evs = [] \/ exists ev, evs = [ev] /\ event_ok tr ev) ->
  forall a ev b, tr ++ evs = a ++ ev :: b -> event_ok a ev.
Proof.
  intros Ht [->|(ev0 & -> & Hev)] a ev b E; [apply (Ht a ev b); by rewrite app_nil_r in E|].
  destruct b as [|x b _] using rev_ind.
  - apply app_inj_2 in E as [-> [= ->]]; done.
  - rewrite app_comm_cons, (assoc_L (++)) in E. apply app_inj_2 in E as [E _]; [|done]. by eapply Ht.
Qed.
Lemma istep_ok x y : istep x y -> threads_ok x -> threads_ok y.
Proof.
  intros Hs [Hst Ht Hv]. destruct Hs as [t r st th tr Hn|t r p p' evs st st' th tr Hl Ha|st st' th tr Ho].
  - split; [done| |done]. intros t' r' p' Hl. simpl in Hl.
    destruct (decide (t = t')) as [<-|]; [rewrite lookup_insert_eq in Hl; by simplify_eq|].
    rewrite lookup_insert_ne in Hl by done. by apply (Ht t').
  - pose proof (action_ok tr r p st Hst (Ht t r p Hl)) as Hok. rewrite Ha in Hok. destruct Hok as (Hst' & Hp & Hev).
    simpl in *. split; simpl; [done| |by apply trace_ok_app]. intros t' r' p2 Hl'.
    destruct (decide (t = t')) as [<-|]; [rewrite lookup_insert_eq in Hl'; by simplify_eq|].
    rewrite lookup_insert_ne in Hl' by done. specialize (Ht t' r' p2 Hl').
    destruct Hev as [->|(ev & -> & _)]; [by rewrite app_nil_r|by apply phase_ok_app].
  - split; [by eapply outside_ok|done..].
Qed.
Lemma reachable_ok st x : state_ok [] st -> rtc istep (start st) x -> threads_ok x.
Proof.
  intros Hst Hr. assert (threads_ok (start st)) as H0 by (split; simpl; [done..|by intros [|??] ???]). revert H0.
  induction Hr as [|x y z Hs _ IH]; [done|]. intros Hx. apply IH. by eapply istep_ok.
Qed.
End invariant.

(** ** Schedules: which request arrives or acts next *)
Inductive turn := Arrive (t : nat) (r : Req) | Act (t : nat).
Definition take_turn (x : threads) (o : turn) : threads :=
  match o with
  | Arrive t r =>
      match th_threads x !! t with
      | None => mkThreads (th_state x) (<[t := (r, initial)]> (th_threads x)) (th_trace x)
      | Some _ => x
      end
  | Act t =>
      match th_threads x !! t with
      | Some (r, p) =>
          let '((p', evs), st') := action r p (th_state x) in
          mkThreads st' (<[t := (r, p')]> (th_threads x)) (th_trace x ++ evs)
      | None => x
      end
  end.
Definition run (l : list turn) (x : threads) : threads := foldl take_turn x l.
Lemma take_turn_steps x o : rtc istep x (take_turn x o).
Proof.
  destruct x as [st th tr], o as [t r|t]; simpl; destruct (th !! t) as [[r' p]|] eqn:Hl; try done.
  - apply rtc_once. by constructor.
  - destruct (action r' p st) as [[p' evs] st'] eqn:Ha. apply rtc_once. by econstructor.
Qed.
Lemma run_steps l x : rtc istep x (run l x).
Proof. revert x. induction l as [|o l IH]; intros x; [done|]. simpl. etrans; [apply take_turn_steps|apply IH]. Qed.
End interleave.
Arguments Arrive {Req}.
Arguments Act {Req}.
