(* ===== verification/GoStrings.v ===== *)
(** * GoStrings: the parts of Go's [strings], [strconv], [fmt] and [hex]
    packages that the portal calls, on byte strings. *)
From S2P Require Import Prelude.

(** A Go [string] is a sequence of bytes; so is a Rocq [string]. *)
Definition ord (a : ascii) : Z := Z.of_N (N_of_ascii a).
Definition chr (z : Z) : ascii := ascii_of_N (Z.to_N z).
Definition slen (s : string) : nat := String.length s.

Fixpoint str_drop (n : nat) (s : string) : string :=
  match n, s with
  | S n, String _ r => str_drop n r
  | _, _ => s
  end.
Fixpoint str_take (n : nat) (s : string) : string :=
  match n, s with
  | S n, String a r => String a (str_take n r)
  | _, _ => ""
  end.

Fixpoint str_forall (p : ascii -> bool) (s : string) : bool :=
  match s with "" => true | String a r => p a && str_forall p r end.
Fixpoint str_filter (p : ascii -> bool) (s : string) : string :=
  match s with
  | "" => ""
  | String a r => if p a then String a (str_filter p r) else str_filter p r
  end.
Fixpoint str_map (f : ascii -> ascii) (s : string) : string :=
  match s with "" => "" | String a r => String (f a) (str_map f r) end.

(** ** [strings] *)
Definition HasPrefix (s p : string) : bool := String.prefix p s.
Definition HasSuffix (s x : string) : bool :=
  bool_decide (slen x ≤ slen s)%nat && bool_decide (str_drop (slen s - slen x) s = x).
Fixpoint Contains (s sub : string) : bool :=
  String.prefix sub s ||
  match s with "" => false | String _ r => Contains r sub end.
Definition TrimPrefix (s p : string) : string :=
  if HasPrefix s p then str_drop (slen p) s else s.

(** [strings.Split(s, sep)] and [strings.SplitN(s, sep, n)], [n > 0], for a
    one-byte separator. *)
Fixpoint Split (s : string) (c : ascii) : list string :=
  match s with
  | "" => [""]
  | String a r =>
      if decide (a = c) then "" :: Split r c
      else match Split r c with
           | [] => [String a ""]
           | x :: l => String a x :: l
           end
  end.
Fixpoint SplitN (s : string) (c : ascii) (n : nat) : list string :=
  match n with
  | O => []
  | S O => [s]
  | S n' =>
      match s with
      | "" => [""]
      | String a r =>
          if decide (a = c) then "" :: SplitN r c n'
          else match SplitN r c n with
               | [] => [String a ""]
               | x :: l => String a x :: l
               end
      end
  end.

Fixpoint Join (l : list string) (sep : string) : string :=
  match l with
  | [] => ""
  | [x] => x
  | x :: l => x +:+ sep +:+ Join l sep
  end.

(** [strings.ReplaceAll(s, old, new)] for a non-empty [old]: scan from the
    left, skip over each match.  [skip] counts the bytes of the current match
    still to be dropped. *)
Fixpoint replace_go (s old new : string) (skip : nat) : string :=
  match s with
  | "" => ""
  | String a r =>
      match skip with
      | S k => replace_go r old new k
      | O => if String.prefix old s
             then new +:+ replace_go r old new (slen old - 1)
             else String a (replace_go r old new 0)
      end
  end.
Definition ReplaceAll (s old new : string) : string := replace_go s old new 0.

(** White space of [unicode.IsSpace], as UTF-8 byte sequences. *)
Definition space1 (a : ascii) : bool := Ascii.is_space a.
Definition space2 (a b : ascii) : bool :=
  (ord a =? 194) && ((ord b =? 133) || (ord b =? 160)).
Definition space3 (a b c : ascii) : bool :=
  ((ord a =? 225) && (ord b =? 154) && (ord c =? 128)) ||
  ((ord a =? 226) && (ord b =? 128) &&
     (((128 <=? ord c) && (ord c <=? 138)) || (ord c =? 168) || (ord c =? 169) || (ord c =? 175))) ||
  ((ord a =? 226) && (ord b =? 129) && (ord c =? 159)) ||
  ((ord a =? 227) && (ord b =? 128) && (ord c =? 128)).

(** Drops the white space a string starts with; [sp2]/[sp3] recognise a two-
    and three-byte space read in the direction of the scan. *)
Fixpoint trim_go (sp2 : ascii -> ascii -> bool) (sp3 : ascii -> ascii -> ascii -> bool)
    (s : string) : string :=
  match s with
  | "" => ""
  | String a r =>
      if space1 a then trim_go sp2 sp3 r else
      match r with
      | "" => s
      | String b r2 =>
          if sp2 a b then trim_go sp2 sp3 r2 else
          match r2 with
          | "" => s
          | String c r3 => if sp3 a b c then trim_go sp2 sp3 r3 else s
          end
      end
  end.
Definition trim_left_space (s : string) : string := trim_go space2 space3 s.
Definition trim_right_space (s : string) : string :=
  String.rev (trim_go (fun a b => space2 b a) (fun a b c => space3 c b a) (String.rev s)).
Definition TrimSpace (s : string) : string := trim_right_space (trim_left_space s).

(** [strings.TrimRight(s, "/")], [strings.TrimLeft(s, "/")], [strings.Trim]. *)
Fixpoint trim_left_byte (c : ascii) (s : string) : string :=
  match s with
  | "" => ""
  | String a r => if decide (a = c) then trim_left_byte c r else s
  end.
Definition trim_right_byte (c : ascii) (s : string) : string :=
  String.rev (trim_left_byte c (String.rev s)).
Definition trim_byte (c : ascii) (s : string) : string :=
  trim_right_byte c (trim_left_byte c s).

(** ** Letter case

    Go maps a string without a byte above 0x7f byte by byte and hands every
    other string to the tables of package [unicode], which are a parameter. *)
Class Unicode := {
  unicode_lower : string -> string;
  unicode_upper : string -> string;
  unicode_equal_fold : string -> string -> bool;
  unicode_fold_name : string -> string;
}.

Definition is_ascii (s : string) : bool := str_forall (fun a => ord a <? 128) s.
Definition lower_byte (a : ascii) : ascii :=
  if (65 <=? ord a) && (ord a <=? 90) then chr (ord a + 32) else a.
Definition upper_byte (a : ascii) : ascii :=
  if (97 <=? ord a) && (ord a <=? 122) then chr (ord a - 32) else a.

Section letter_case.
Context `{!Unicode}.
Definition ToLower (s : string) : string :=
  if is_ascii s then str_map lower_byte s else unicode_lower s.
Definition ToUpper (s : string) : string :=
  if is_ascii s then str_map upper_byte s else unicode_upper s.
Definition EqualFold (s t : string) : bool :=
  if is_ascii s && is_ascii t
  then bool_decide (str_map lower_byte s = str_map lower_byte t)
  else unicode_equal_fold s t.
End letter_case.

(** ** [strconv] and the [%d] verb *)
Definition digit (d : Z) : ascii := chr (48 + d).
Fixpoint itoa_go (fuel : nat) (n : Z) (acc : string) : string :=
  match fuel with
  | O => acc
  | S f => if n <? 10 then String (digit n) acc
           else itoa_go f (n / 10) (String (digit (n `mod` 10)) acc)
  end.
(** Twenty digits are enough for every [int64]. *)
Definition Itoa (z : Z) : string :=
  if z <? 0 then "-" +:+ itoa_go 20 (- z) "" else itoa_go 20 z "".

Definition is_digit (a : ascii) : bool := (48 <=? ord a) && (ord a <=? 57).
Fixpoint digits_value (acc : Z) (s : string) : Z :=
  match s with "" => acc | String a r => digits_value (10 * acc + (ord a - 48)) r end.

(** [strconv.Atoi] and [strconv.ParseInt(s, 10, 64)]: an optional sign, at
    least one digit, nothing else, and a value that fits [int64]. *)
Definition ParseInt (s : string) : option Z :=
  let '(neg, d) :=
    match s with
    | String a r =>
        if decide (a = "-"%char) then (true, r)
        else if decide (a = "+"%char) then (false, r) else (false, s)
    | "" => (false, s)
    end in
  if bool_decide (d = "") || negb (str_forall is_digit d) then None else
  let v := digits_value 0 d in
  if neg then (if v <=? 2 ^ 63 then Some (- v) else None)
  else (if v <? 2 ^ 63 then Some v else None).
Definition Atoi := ParseInt.

(** ** [encoding/hex] *)
Definition hex_digit (d : Z) : ascii :=
  if d <? 10 then chr (48 + d) else chr (87 + d).
Fixpoint hex_encode (s : string) : string :=
  match s with
  | "" => ""
  | String a r => String (hex_digit (ord a / 16)) (String (hex_digit (ord a `mod` 16)) (hex_encode r))
  end.

(** ** Lemmas *)
Lemma append_nil_r s : s +:+ "" = s.
Proof. induction s as [|a s IH]; [done|]. by rewrite <-IH at 2. Qed.

Lemma append_cons a s t : String a s +:+ t = String a (s +:+ t).
Proof. reflexivity. Qed.

Lemma append_nil_l s : "" +:+ s = s.
Proof. reflexivity. Qed.

Lemma append_assoc s t u : (s +:+ t) +:+ u = s +:+ t +:+ u.
Proof. induction s as [|a s IH]; [done|]. by rewrite !append_cons, IH. Qed.

Lemma slen_append s t : slen (s +:+ t) = (slen s + slen t)%nat.
Proof. induction s as [|a s IH]; [done|]. rewrite append_cons. unfold slen in *. simpl. lia. Qed.

Lemma HasPrefix_spec s p : HasPrefix s p = true <-> exists r, s = p +:+ r.
Proof.
  unfold HasPrefix. revert s. induction p as [|a p IH]; intros s.
  { split; [intros _; by exists s|by destruct s]. }
  destruct s as [|b s]; simpl.
  { split; [done|intros [r Hr]; by rewrite append_cons in Hr]. }
  destruct (ascii_dec a b) as [->|Hne].
  - rewrite IH. setoid_rewrite append_cons. split; intros [r Hr]; exists r; congruence.
  - split; [done|]. intros [r Hr]. rewrite append_cons in Hr. congruence.
Qed.

Lemma HasPrefix_append p r : HasPrefix (p +:+ r) p = true.
Proof. apply HasPrefix_spec. by exists r. Qed.

Lemma str_drop_append p r : str_drop (slen p) (p +:+ r) = r.
Proof. induction p as [|a p IH]; [by destruct r|]. by rewrite append_cons. Qed.

Lemma TrimPrefix_append p r : TrimPrefix (p +:+ r) p = r.
Proof. unfold TrimPrefix. by rewrite HasPrefix_append, str_drop_append. Qed.

Lemma Contains_spec s sub : Contains s sub = true <-> exists a b, s = a +:+ sub +:+ b.
Proof.
  induction s as [|c s IH].
  - cbn [Contains]. rewrite orb_false_r. change (HasPrefix "" sub = true <-> exists a b, "" = a +:+ sub +:+ b).
    rewrite HasPrefix_spec. split; [intros [r Hr]; by exists "", r|].
    intros (a & b & H). destruct a as [|x a]; [by exists b|by rewrite append_cons in H].
  - cbn [Contains]. rewrite orb_true_iff, IH.
    change (String.prefix sub (String c s)) with (HasPrefix (String c s) sub).
    rewrite HasPrefix_spec. split.
    + intros [[r Hr]|(a & b & Hab)]; [by exists "", r|].
      exists (String c a), b. by rewrite append_cons, Hab.
    + intros ([|x a] & b & H); [left; by exists b|right].
      rewrite append_cons in H. exists a, b. congruence.
Qed.

(** Strings without the byte [c]. *)
Definition no_byte (c : ascii) (s : string) : bool := str_forall (fun a => bool_decide (a ≠ c)) s.

Lemma no_byte_cons c a s : no_byte c (String a s) = true <-> a ≠ c /\ no_byte c s = true.
Proof. unfold no_byte. simpl. by rewrite andb_true_iff, bool_decide_eq_true. Qed.

Lemma no_byte_append c s t : no_byte c (s +:+ t) = no_byte c s && no_byte c t.
Proof.
  induction s as [|a s IH]; [done|]. rewrite append_cons. unfold no_byte in *. simpl.
  by rewrite IH, andb_assoc.
Qed.

(** A field that does not contain the separator is determined by the string
    it is written into. *)
Lemma append_sep_inj c u1 u2 x y :
  no_byte c u1 = true -> no_byte c u2 = true ->
  u1 +:+ String c x = u2 +:+ String c y -> u1 = u2 /\ x = y.
Proof.
  revert u2. induction u1 as [|a u1 IH]; intros [|b u2] H1 H2 Heq.
  - by injection Heq.
  - rewrite append_cons in Heq. injection Heq as <- _. apply no_byte_cons in H2 as []. done.
  - rewrite append_cons in Heq. injection Heq as -> _. apply no_byte_cons in H1 as []. done.
  - rewrite !append_cons in Heq. injection Heq as -> Heq.
    apply no_byte_cons in H1 as [_ H1], H2 as [_ H2].
    destruct (IH u2 H1 H2 Heq) as [-> ->]. done.
Qed.

(** [SplitN] undoes joining with the separator. *)
Lemma SplitN_sep c u x n :
  no_byte c u = true -> SplitN (u +:+ String c x) c (S (S n)) = u :: SplitN x c (S n).
Proof.
  induction u as [|a u IH]; intros H.
  - rewrite append_nil_l. cbn [SplitN]. by rewrite decide_True.
  - apply no_byte_cons in H as [Ha Hu]. rewrite append_cons.
    cbn [SplitN]. rewrite decide_False by done. by rewrite (IH Hu).
Qed.

Lemma SplitN_last c u n : no_byte c u = true -> SplitN u c (S n) = [u].
Proof.
  intros H. destruct n as [|n]; [by destruct u|]. induction u as [|a u IH]; [done|].
  apply no_byte_cons in H as [Ha Hu]. cbn [SplitN]. rewrite decide_False by done.
  by rewrite (IH Hu).
Qed.

(** Joining the parts of [SplitN] gives the string back; fewer than [n] parts
    have no separator left in them. *)
Lemma SplitN_spec c s n :
  let l := SplitN s c (S n) in
  l ≠ [] /\ Join l (String c "") = s /\
  ((length l < S n)%nat -> Forall (fun p => no_byte c p = true) l).
Proof.
  revert n. induction s as [|a s IH]; intros n.
  { destruct n; simpl; (split; [done|split; [done|]]); repeat constructor. }
  destruct n as [|n]; [simpl; (split; [done|split; [done|lia]])|].
  cbn [SplitN]. destruct (decide (a = c)) as [->|Hne].
  - destruct (IH n) as (Hn & Hj & Hf). split; [done|]. split.
    + destruct (SplitN s c (S n)) as [|p l] eqn:E; [done|].
      change (Join ("" :: p :: l) (String c "")) with ("" +:+ String c "" +:+ Join (p :: l) (String c "")).
      by rewrite Hj.
    + simpl. intros Hl. constructor; [done|]. apply Hf. lia.
  - destruct (IH (S n)) as (Hn & Hj & Hf).
    destruct (SplitN s c (S (S n))) as [|p l] eqn:E; [done|]. split; [done|]. split.
    + rewrite <-Hj. destruct l as [|q l]; [done|]. reflexivity.
    + simpl. intros Hl. specialize (Hf Hl). apply Forall_cons in Hf as [Hp Hf].
      constructor; [|done]. by apply no_byte_cons.
Qed.

Lemma SplitN_three c s p0 p1 p2 :
  SplitN s c 4 = [p0; p1; p2] ->
  s = p0 +:+ String c (p1 +:+ String c p2) /\
  no_byte c p0 = true /\ no_byte c p1 = true /\ no_byte c p2 = true.
Proof.
  intros E. destruct (SplitN_spec c s 3) as (_ & Hj & Hf). rewrite E in Hj, Hf.
  split; [by rewrite <-Hj|]. specialize (Hf ltac:(simpl; lia)).
  repeat (apply Forall_cons in Hf as [? Hf]). done.
Qed.

Lemma append_char c s : String c "" +:+ s = String c s.
Proof. done. Qed.

(** *** Trimming *)
Lemma rev_app_append s t u : String.rev_app s (t +:+ u) = String.rev_app s t +:+ u.
Proof. revert t. induction s as [|a s IH]; intros t; [done|]. simpl. by rewrite <-IH, append_cons. Qed.
Lemma rev_cons a s : String.rev (String a s) = String.rev s +:+ String a "".
Proof. unfold String.rev. simpl. by rewrite <-rev_app_append. Qed.
Lemma rev_snoc s a : String.rev (s +:+ String a "") = String a (String.rev s).
Proof. induction s as [|b s IH]; [done|]. by rewrite append_cons, !rev_cons, IH, append_cons. Qed.
Lemma rev_rev s : String.rev (String.rev s) = s.
Proof. induction s as [|a s IH]; [done|]. by rewrite rev_cons, rev_snoc, IH. Qed.
Lemma no_byte_rev c s : no_byte c (String.rev s) = no_byte c s.
Proof.
  induction s as [|a s IH]; [done|]. rewrite rev_cons, no_byte_append, IH. unfold no_byte. simpl.
  by rewrite andb_true_r, andb_comm.
Qed.
Lemma trim_left_no_byte c s : no_byte c s = true -> trim_left_byte c s = s.
Proof. destruct s as [|a s]; [done|]. intros [Ha _]%no_byte_cons. simpl. by rewrite decide_False. Qed.
Lemma trim_no_byte c s : no_byte c s = true -> trim_byte c s = s.
Proof.
  intros Hs. unfold trim_byte, trim_right_byte. rewrite (trim_left_no_byte c s Hs).
  rewrite trim_left_no_byte by (by rewrite no_byte_rev). apply rev_rev.
Qed.
Lemma Contains_no_byte c s : no_byte c s = true -> Contains s (String c "") = false.
Proof.
  intros Hs. destruct (Contains s (String c "")) eqn:E; [|done]. apply Contains_spec in E as (a & b & ->).
  rewrite !no_byte_append in Hs. apply andb_true_iff in Hs as [_ [Hc _]%andb_true_iff].
  unfold no_byte in Hc. simpl in Hc. rewrite andb_true_r in Hc. by apply bool_decide_eq_true in Hc.
Qed.
Lemma str_take_append p r : str_take (slen p) (p +:+ r) = p.
Proof. induction p as [|a p IH]; [by destruct r|]. rewrite append_cons. simpl. by rewrite IH. Qed.

(** ** Cutting *)
Lemma str_take_drop n s : str_take n s +:+ str_drop n s = s.
Proof. revert s. induction n as [|n IH]; intros [|a s]; [done..|]. cbn [str_take str_drop]. by rewrite append_cons, IH. Qed.
Lemma slen_str_take n s : (n <= slen s)%nat -> slen (str_take n s) = n.
Proof. revert s. induction n as [|n IH]; intros [|a s] H; [done|done|cbn in H; lia|]. cbn in *. f_equal. apply IH. unfold slen. lia. Qed.
Lemma slen_str_drop n s : slen (str_drop n s) = (slen s - n)%nat.
Proof. revert s. induction n as [|n IH]; intros [|a s]; cbn; [done..|]. by rewrite IH. Qed.
Lemma HasSuffix_spec s x : HasSuffix s x = true <-> exists r, s = r +:+ x.
Proof.
  unfold HasSuffix. rewrite andb_true_iff, !bool_decide_eq_true. split.
  - intros [_ E]. exists (str_take (slen s - slen x) s). by rewrite <-E at 2; rewrite str_take_drop.
  - intros [r ->]. rewrite slen_append. split; [lia|].
    replace (slen r + slen x - slen x)%nat with (slen r) by lia. apply str_drop_append.
Qed.
