(* ===== verification/GoCrypto.v ===== *)
(** * GoCrypto: the parts of Go's [encoding/base64] and [crypto] packages that
    the portal calls: the unpadded URL-safe base64 encoding, SHA-256, HMAC and
    the constant-time comparisons, executable on byte strings. *)
From S2P Require Import Prelude GoStrings.

(** ** Bytes *)
Lemma ord_range a : 0 <= ord a < 256.
Proof. unfold ord. pose proof (N_ascii_bounded a). lia. Qed.

Lemma chr_ord a : chr (ord a) = a.
Proof. unfold chr, ord. rewrite N2Z.id. apply ascii_N_embedding. Qed.

Lemma ord_chr z : 0 <= z < 256 -> ord (chr z) = z.
Proof. intros H. unfold chr, ord. rewrite N_ascii_embedding by lia. lia. Qed.

Lemma ord_inj a b : ord a = ord b -> a = b.
Proof. intros H. by rewrite <-(chr_ord a), <-(chr_ord b), H. Qed.

(** ** [base64.RawURLEncoding] *)
Definition b64_char (v : Z) : ascii :=
  chr (if v <? 26 then 65 + v else if v <? 52 then 71 + v else if v <? 62 then v - 4
       else if v =? 62 then 45 else 95).
Definition b64_val (a : ascii) : option Z :=
  let v := ord a in
  if (65 <=? v) && (v <=? 90) then Some (v - 65)
  else if (97 <=? v) && (v <=? 122) then Some (v - 71)
  else if (48 <=? v) && (v <=? 57) then Some (v + 4)
  else if v =? 45 then Some 62
  else if v =? 95 then Some 63
  else None.

Fixpoint EncodeToString (s : string) : string :=
  match s with
  | "" => ""
  | String a "" =>
      String (b64_char (ord a / 4)) (String (b64_char (ord a `mod` 4 * 16)) "")
  | String a (String b "") =>
      String (b64_char (ord a / 4))
        (String (b64_char (ord a `mod` 4 * 16 + ord b / 16))
           (String (b64_char (ord b `mod` 16 * 4)) ""))
  | String a (String b (String c r)) =>
      String (b64_char (ord a / 4))
        (String (b64_char (ord a `mod` 4 * 16 + ord b / 16))
           (String (b64_char (ord b `mod` 16 * 4 + ord c / 64))
              (String (b64_char (ord c `mod` 64)) (EncodeToString r))))
  end.

(** The decoder skips carriage returns and line feeds, rejects every other byte
    outside the alphabet and a final quantum of one character, and ignores the
    unused low bits of the last character. *)
Definition is_crlf (a : ascii) : bool := (ord a =? 13) || (ord a =? 10).
Fixpoint b64_decode (s : string) : option string :=
  match s with
  | "" => Some ""
  | String a "" => None
  | String a (String b "") =>
      x ← b64_val a; y ← b64_val b;
      Some (String (chr (x * 4 + y / 16)) "")
  | String a (String b (String c "")) =>
      x ← b64_val a; y ← b64_val b; z ← b64_val c;
      Some (String (chr (x * 4 + y / 16)) (String (chr (y `mod` 16 * 16 + z / 4)) ""))
  | String a (String b (String c (String d r))) =>
      x ← b64_val a; y ← b64_val b; z ← b64_val c; w ← b64_val d;
      t ← b64_decode r;
      Some (String (chr (x * 4 + y / 16)) (String (chr (y `mod` 16 * 16 + z / 4))
              (String (chr (z `mod` 4 * 64 + w)) t)))
  end.
Definition DecodeString (s : string) : option string :=
  b64_decode (str_filter (fun a => negb (is_crlf a)) s).

(** ** [crypto/sha256] *)
Definition w32 (x : Z) : Z := Z.land x 0xffffffff.
Definition rotr (n x : Z) : Z := Z.lor (Z.shiftr x n) (w32 (Z.shiftl x (32 - n))).

(** The constants of FIPS 180-4: the first 32 bits of the fractional parts of the
    cube roots (K) and square roots (H) of the first primes.  [cube_root_go]
    fills in the bits of the integer cube root from the top. *)
Fixpoint cube_root_go (bits : nat) (n r : Z) : Z :=
  match bits with
  | O => r
  | S k => let r' := Z.setbit r (Z.of_nat k) in cube_root_go k n (if r' ^ 3 <=? n then r' else r)
  end.
Definition cube_root_frac (p : Z) : Z := w32 (cube_root_go 36 (p * 2 ^ 96) 0).
Definition square_root_frac (p : Z) : Z := w32 (Z.sqrt (p * 2 ^ 64)).
Definition is_prime (n : Z) : bool :=
  forallb (fun d => negb (n mod d =? 0)) (seqZ 2 (Z.sqrt n - 1)).
Definition primes : list Z := Eval vm_compute in List.filter is_prime (seqZ 2 310).
Definition sha_K : list Z := Eval vm_compute in cube_root_frac <$> take 64 primes.
Definition sha_H0 : list Z := Eval vm_compute in square_root_frac <$> take 8 primes.

Fixpoint bytes_of (s : string) : list Z :=
  match s with "" => [] | String a r => ord a :: bytes_of r end.
Fixpoint string_of (l : list Z) : string :=
  match l with [] => "" | b :: l => String (chr b) (string_of l) end.

Definition be_bytes (n : nat) (x : Z) : list Z :=
  map (fun i => Z.land (Z.shiftr x (8 * Z.of_nat i)) 255) (rev (seq 0 n)).
Definition sha_pad (l : list Z) : list Z :=
  let n := Z.of_nat (length l) in
  l ++ [128] ++ replicate (Z.to_nat ((55 - n) `mod` 64)) 0 ++ be_bytes 8 (8 * n).

Fixpoint words (n : nat) (l : list Z) : list Z :=
  match n, l with
  | S n, a :: b :: c :: d :: r =>
      Z.lor (Z.shiftl a 24) (Z.lor (Z.shiftl b 16) (Z.lor (Z.shiftl c 8) d)) :: words n r
  | _, _ => []
  end.

(** The message schedule, most recent word first. *)
Definition sched_step (w : list Z) : list Z :=
  let w15 := nth 14 w 0 in let w2 := nth 1 w 0 in
  let s0 := Z.lxor (rotr 7 w15) (Z.lxor (rotr 18 w15) (Z.shiftr w15 3)) in
  let s1 := Z.lxor (rotr 17 w2) (Z.lxor (rotr 19 w2) (Z.shiftr w2 10)) in
  w32 (nth 15 w 0 + s0 + nth 6 w 0 + s1) :: w.
Definition schedule (block : list Z) : list Z :=
  rev (Nat.iter 48 sched_step (rev (words 16 block))).

Definition round (st : list Z) (kw : Z * Z) : list Z :=
  match st with
  | [a; b; c; d; e; f; g; h] =>
      let S1 := Z.lxor (rotr 6 e) (Z.lxor (rotr 11 e) (rotr 25 e)) in
      let ch := Z.lxor (Z.land e f) (Z.land (w32 (Z.lnot e)) g) in
      let t1 := h + S1 + ch + kw.1 + kw.2 in
      let S0 := Z.lxor (rotr 2 a) (Z.lxor (rotr 13 a) (rotr 22 a)) in
      let maj := Z.lxor (Z.land a b) (Z.lxor (Z.land a c) (Z.land b c)) in
      [w32 (t1 + S0 + maj); a; b; c; w32 (d + t1); e; f; g]
  | _ => st
  end.
Definition compress (h : list Z) (block : list Z) : list Z :=
  zip_with (fun x y => w32 (x + y)) h (foldl round h (zip sha_K (schedule block))).

(** One block of 64 bytes per unit of fuel; the length bounds their number. *)
Fixpoint sha_blocks (fuel : nat) (h l : list Z) : list Z :=
  match fuel, l with
  | S f, _ :: _ => sha_blocks f (compress h (take 64 l)) (drop 64 l)
  | _, _ => h
  end.
Definition sha256_bytes (l : list Z) : list Z :=
  let p := sha_pad l in
  sha_blocks (length p) sha_H0 p ≫= be_bytes 4.
Definition Sum256 (s : string) : string := string_of (sha256_bytes (bytes_of s)).

(** ** [crypto/hmac] with SHA-256 (block size 64) *)
Definition hmac_sha256 (key msg : string) : string :=
  let k := bytes_of key in
  let k := if bool_decide (64 < length k)%nat then sha256_bytes k else k in
  let k := k ++ replicate (64 - length k) 0 in
  let inner := sha256_bytes (map (Z.lxor 54) k ++ bytes_of msg) in
  string_of (sha256_bytes (map (Z.lxor 92) k ++ inner)).

(** [subtle.ConstantTimeCompare(x, y) == 1] and [hmac.Equal]. *)
Definition ConstantTimeCompare (x y : string) : bool := bool_decide (x = y).

Example Sum256_abc : hex_encode (Sum256 "abc") =
  "ba7816bf8f01cfea414140de5dae2223b00361a396177a9cb410ff61f20015ad".
Proof. vm_compute. reflexivity. Qed.

Example hmac_rfc4231_2 : hex_encode (hmac_sha256 "Jefe" "what do ya want for nothing?") =
  "5bdcc146bf60754e6a042426089575c75a003f089d2739839dec58b964ec3843".
Proof. vm_compute. reflexivity. Qed.

(** ** Base64 round trip *)
Definition b64_alphabet (a : ascii) : bool := match b64_val a with Some _ => true | None => false end.

Lemma b64_val_char v : 0 <= v < 64 -> b64_val (b64_char v) = Some v.
Proof.
  intros H. assert (Hall : forallb (fun n => bool_decide (b64_val (b64_char (Z.of_nat n)) = Some (Z.of_nat n))) (seq 0 64) = true)
    by (vm_compute; reflexivity).
  rewrite forallb_forall in Hall. specialize (Hall (Z.to_nat v)).
  rewrite bool_decide_eq_true, Z2Nat.id in Hall by lia. apply Hall, in_seq. lia.
Qed.

Lemma str_forall_impl (p q : ascii -> bool) s :
  (forall a, p a = true -> q a = true) -> str_forall p s = true -> str_forall q s = true.
Proof.
  intros H. induction s as [|a s IH]; [done|]. simpl. intros [Ha Hs]%andb_true_iff.
  rewrite (H a Ha). auto.
Qed.

Lemma str_filter_all (p : ascii -> bool) s : str_forall p s = true -> str_filter p s = s.
Proof.
  induction s as [|a s IH]; [done|]. simpl. intros [-> Hs]%andb_true_iff. by rewrite IH.
Qed.

Lemma b64_char_alphabet v : 0 <= v < 64 -> b64_alphabet (b64_char v) = true.
Proof. intros H. unfold b64_alphabet. by rewrite b64_val_char. Qed.

(** Induction by quanta of three bytes. *)
Lemma string_ind3 (P : string -> Prop) :
  P "" -> (forall a, P (String a "")) -> (forall a b, P (String a (String b ""))) ->
  (forall a b c r, P r -> P (String a (String b (String c r)))) -> forall s, P s.
Proof.
  intros H0 H1 H2 H3. fix go 1. intros [|a [|b [|c r]]]; [done|auto|auto|].
  apply H3, go.
Qed.

Ltac zdiv := Z.div_mod_to_equations; lia.

Lemma EncodeToString_alphabet s : str_forall b64_alphabet (EncodeToString s) = true.
Proof.
  induction s as [|a|a b|a b c r IH] using string_ind3; simpl; try done;
    pose proof (ord_range a); try pose proof (ord_range b); try pose proof (ord_range c);
    rewrite ?b64_char_alphabet by zdiv; auto.
Qed.

Lemma b64_decode_encode s : b64_decode (EncodeToString s) = Some s.
Proof.
  induction s as [|a|a b|a b c r IH] using string_ind3; cbn [EncodeToString b64_decode]; try done;
    pose proof (ord_range a); try pose proof (ord_range b); try pose proof (ord_range c);
    rewrite !b64_val_char by zdiv; simpl; rewrite ?IH; simpl;
    repeat match goal with |- context [chr ?z] =>
      first [replace z with (ord a) by zdiv | replace z with (ord b) by zdiv
            |replace z with (ord c) by zdiv]; rewrite chr_ord end; done.
Qed.

Lemma alphabet_not_crlf a : b64_alphabet a = true -> negb (is_crlf a) = true.
Proof.
  unfold b64_alphabet, b64_val, is_crlf. intros H.
  destruct (Z.eqb_spec (ord a) 13) as [E|], (Z.eqb_spec (ord a) 10) as [E'|]; try done.
  all: rewrite ?E, ?E' in H; vm_compute in H; done.
Qed.

Lemma alphabet_not_byte c a :
  b64_alphabet c = false -> b64_alphabet a = true -> bool_decide (a ≠ c) = true.
Proof. intros Hc Ha. apply bool_decide_eq_true. intros ->. congruence. Qed.

(** Decoding undoes encoding, for every byte string. *)
Lemma DecodeString_EncodeToString s : DecodeString (EncodeToString s) = Some s.
Proof.
  unfold DecodeString. rewrite str_filter_all; [apply b64_decode_encode|].
  eapply str_forall_impl; [apply alphabet_not_crlf|apply EncodeToString_alphabet].
Qed.

(** An encoded string contains no byte outside the alphabet, no dot in particular. *)
Lemma EncodeToString_no_byte c s : b64_alphabet c = false -> no_byte c (EncodeToString s) = true.
Proof.
  intros Hc. eapply str_forall_impl; [|apply EncodeToString_alphabet].
  intros a Ha. by apply alphabet_not_byte.
Qed.
