(* ===== verification/GoJson.v ===== *)
(** * GoJson: Go's [encoding/json], as far as the portal uses it.

    A JSON document is a tree; [Marshal] prints it the way Go does (compact,
    with HTML escaping), [Unmarshal] and [Decode] parse it, and the [dec_*]
    functions store a tree into Go values. *)
From S2P Require Import Prelude GoStrings GoCrypto.

(** A number keeps its literal text, as Go's scanner hands it to [strconv]. *)
Inductive json :=
| JNull
| JBool (b : bool)
| JNum (lit : string)
| JStr (s : string)
| JArr (l : list json)
| JObj (l : list (string * json)).

(** ** UTF-8, as [unicode/utf8] recognises it *)
Definition cont (a : ascii) : bool := (128 <=? ord a) && (ord a <=? 191).
Definition utf8_2 (a b : ascii) : bool := (194 <=? ord a) && (ord a <=? 223) && cont b.
Definition utf8_3 (a b c : ascii) : bool :=
  (((ord a =? 224) && (160 <=? ord b) && (ord b <=? 191)) ||
   ((225 <=? ord a) && (ord a <=? 236) && cont b) ||
   ((ord a =? 237) && (128 <=? ord b) && (ord b <=? 159)) ||
   ((238 <=? ord a) && (ord a <=? 239) && cont b)) && cont c.
Definition utf8_4 (a b c d : ascii) : bool :=
  (((ord a =? 240) && (144 <=? ord b) && (ord b <=? 191)) ||
   ((241 <=? ord a) && (ord a <=? 243) && cont b) ||
   ((ord a =? 244) && (128 <=? ord b) && (ord b <=? 143))) && cont c && cont d.

Definition utf8_encode (u : Z) : string :=
  string_of
    (if u <? 128 then [u]
     else if u <? 2048 then [192 + u / 64; 128 + u `mod` 64]
     else if u <? 65536 then [224 + u / 4096; 128 + u / 64 `mod` 64; 128 + u `mod` 64]
     else [240 + u / 262144; 128 + u / 4096 `mod` 64; 128 + u / 64 `mod` 64; 128 + u `mod` 64]).
Definition replacement : string := utf8_encode 65533.

(** What a string reads as when it is taken rune by rune: every byte that is not
    part of valid UTF-8 is replaced by U+FFFD. *)
Fixpoint to_utf8 (s : string) : string :=
  match s with
  | "" => ""
  | String a r =>
      if ord a <? 128 then String a (to_utf8 r) else
      match r with
      | "" => replacement
      | String b r2 =>
          if utf8_2 a b then String a (String b (to_utf8 r2)) else
          match r2 with
          | "" => replacement +:+ to_utf8 r
          | String c r3 =>
              if utf8_3 a b c then String a (String b (String c (to_utf8 r3))) else
              match r3 with
              | "" => replacement +:+ to_utf8 r
              | String d r4 =>
                  if utf8_4 a b c d then String a (String b (String c (String d (to_utf8 r4))))
                  else replacement +:+ to_utf8 r
              end
          end
      end
  end.
Definition is_utf8 (s : string) : bool := bool_decide (to_utf8 s = s).

(** ** Printing *)
Definition quote : ascii := "034"%char.
Definition backslash : ascii := "092"%char.

Definition u_escape (code : Z) : string :=
  String backslash (String "u" (hex_encode (string_of [code / 256; code `mod` 256]))).
Definition escape_byte (a : ascii) : string :=
  let o := ord a in
  if (o =? 34) || (o =? 92) then String backslash (String a "")
  else if o =? 8 then String backslash "b"
  else if o =? 12 then String backslash "f"
  else if o =? 10 then String backslash "n"
  else if o =? 13 then String backslash "r"
  else if o =? 9 then String backslash "t"
  else if (o <? 32) || (o =? 60) || (o =? 62) || (o =? 38) then u_escape o
  else String a "".

(** Bytes that are not valid UTF-8 are replaced, U+2028 and U+2029 escaped. *)
Fixpoint escape (s : string) : string :=
  match s with
  | "" => ""
  | String a r =>
      if ord a <? 128 then escape_byte a +:+ escape r else
      match r with
      | "" => u_escape 65533
      | String b r2 =>
          if utf8_2 a b then String a (String b (escape r2)) else
          match r2 with
          | "" => u_escape 65533 +:+ escape r
          | String c r3 =>
              if utf8_3 a b c then
                if (ord a =? 226) && (ord b =? 128) && ((ord c =? 168) || (ord c =? 169))
                then u_escape (8064 + ord c) +:+ escape r3
                else String a (String b (String c (escape r3)))
              else
                match r3 with
                | "" => u_escape 65533 +:+ escape r
                | String d r4 =>
                    if utf8_4 a b c d then String a (String b (String c (String d (escape r4))))
                    else u_escape 65533 +:+ escape r
                end
          end
      end
  end.
Definition quoted (s : string) : string := String quote (escape s +:+ String quote "").

Fixpoint Marshal (v : json) : string :=
  match v with
  | JNull => "null"
  | JBool true => "true"
  | JBool false => "false"
  | JNum lit => lit
  | JStr s => quoted s
  | JArr l =>
      "[" +:+ (fix elems (l : list json) : string :=
         match l with
         | [] => "]"
         | [x] => Marshal x +:+ "]"
         | x :: l => Marshal x +:+ "," +:+ elems l
         end) l
  | JObj l =>
      "{" +:+ (fix members (l : list (string * json)) : string :=
         match l with
         | [] => "}"
         | [(k, x)] => quoted k +:+ ":" +:+ Marshal x +:+ "}"
         | (k, x) :: l => quoted k +:+ ":" +:+ Marshal x +:+ "," +:+ members l
         end) l
  end.

(** [json.NewEncoder(w).Encode(v)] ends the document with a newline. *)
Definition Encode (v : json) : string := Marshal v +:+ String "010"%char "".

(** ** Parsing *)
Definition is_ws (a : ascii) : bool :=
  let o := ord a in (o =? 32) || (o =? 9) || (o =? 10) || (o =? 13).
Fixpoint skip_ws (s : string) : string :=
  match s with "" => "" | String a r => if is_ws a then skip_ws r else s end.

Definition hex_val (a : ascii) : option Z :=
  let o := ord a in
  if (48 <=? o) && (o <=? 57) then Some (o - 48)
  else if (97 <=? o) && (o <=? 102) then Some (o - 87)
  else if (65 <=? o) && (o <=? 70) then Some (o - 55) else None.
Definition hex4 (s : string) : option (Z * string) :=
  match s with
  | String a (String b (String c (String d r))) =>
      w ← hex_val a; x ← hex_val b; y ← hex_val c; z ← hex_val d;
      Some (4096 * w + 256 * x + 16 * y + z, r)
  | _ => None
  end.
Definition simple_escape (e : ascii) : option ascii :=
  let o := ord e in
  if (o =? 34) || (o =? 92) || (o =? 47) then Some e
  else if o =? 98 then Some "008"%char
  else if o =? 102 then Some "012"%char
  else if o =? 110 then Some "010"%char
  else if o =? 114 then Some "013"%char
  else if o =? 116 then Some "009"%char else None.

Definition push (p : string) (r : option (string * string)) : option (string * string) :=
  '(t, rest) ← r; Some (p +:+ t, rest).

(** The low half of a surrogate pair that follows a high half [u]: the code
    point and the rest of the input. *)
Definition low_surrogate (u : Z) (s : string) : option (Z * string) :=
  match s with
  | String a (String b r) =>
      if decide (a = backslash) then
        if decide (b = "u"%char) then
          '(u2, r2) ← hex4 r;
          if (u <? 56320) && (56320 <=? u2) && (u2 <=? 57343)
          then Some (65536 + (u - 55296) * 1024 + (u2 - 56320), r2) else None
        else None
      else None
  | _ => None
  end.

(** A string literal after its opening quote; every step consumes a byte. *)
Fixpoint unquote (fuel : nat) (s : string) : option (string * string) :=
  match fuel, s with
  | S f, String a r =>
      if decide (a = quote) then Some ("", r)
      else if decide (a = backslash) then
        match r with
        | "" => None
        | String e r2 =>
            match simple_escape e with
            | Some c => push (String c "") (unquote f r2)
            | None =>
                if decide (e = "u"%char) then
                  '(u, r3) ← hex4 r2;
                  if (55296 <=? u) && (u <=? 57343) then
                    match low_surrogate u r3 with
                    | Some (cp, r4) => push (utf8_encode cp) (unquote f r4)
                    | None => push replacement (unquote f r3)
                    end
                  else push (utf8_encode u) (unquote f r3)
                else None
            end
        end
      else if ord a <? 32 then None
      else if ord a <? 128 then push (String a "") (unquote f r)
      else
        match r with
        | String b r2 =>
            if utf8_2 a b then push (String a (String b "")) (unquote f r2) else
            match r2 with
            | String c r3 =>
                if utf8_3 a b c then push (String a (String b (String c ""))) (unquote f r3) else
                match r3 with
                | String d r4 =>
                    if utf8_4 a b c d
                    then push (String a (String b (String c (String d "")))) (unquote f r4)
                    else push replacement (unquote f r)
                | "" => push replacement (unquote f r)
                end
            | "" => push replacement (unquote f r)
            end
        | "" => push replacement (unquote f r)
        end
  | _, _ => None
  end.
Definition parse_string (s : string) : option (string * string) := unquote (S (slen s)) s.

(** Number literals. *)
Fixpoint span_digits (s : string) : string * string :=
  match s with
  | "" => ("", "")
  | String a r => if is_digit a then let '(d, t) := span_digits r in (String a d, t) else ("", s)
  end.
Definition parse_int_part (s : string) : option (string * string) :=
  match s with
  | String a r =>
      if decide (a = "0"%char) then Some ("0", r)
      else if is_digit a then Some (span_digits s) else None
  | "" => None
  end.
Definition parse_frac (s : string) : option (string * string) :=
  match s with
  | String a r =>
      if decide (a = "."%char) then
        let '(d, t) := span_digits r in if decide (d = "") then None else Some (String a d, t)
      else Some ("", s)
  | "" => Some ("", "")
  end.
Definition parse_exp (s : string) : option (string * string) :=
  match s with
  | String a r =>
      if (ord a =? 101) || (ord a =? 69) then
        let '(sgn, r2) := match r with
          | String b t => if (ord b =? 43) || (ord b =? 45) then (String b "", t) else ("", r)
          | "" => ("", r) end in
        let '(d, t) := span_digits r2 in
        if decide (d = "") then None else Some (String a (sgn +:+ d), t)
      else Some ("", s)
  | "" => Some ("", "")
  end.
Definition parse_number (s : string) : option (string * string) :=
  let '(sgn, s1) := match s with
    | String a r => if decide (a = "-"%char) then ("-", r) else ("", s)
    | "" => ("", s) end in
  '(i, s2) ← parse_int_part s1;
  '(fr, s3) ← parse_frac s2;
  '(ex, s4) ← parse_exp s3;
  Some (sgn +:+ i +:+ fr +:+ ex, s4).

Definition expect (lit : string) (v : json) (s : string) : option (json * string) :=
  if HasPrefix s lit then Some (v, str_drop (slen lit) s) else None.

(** Values nested deeper than ten thousand levels are rejected by Go. *)
Definition max_depth : Z := 10000.

Fixpoint parse_value (fuel : nat) (depth : Z) (s : string) : option (json * string) :=
  match fuel with
  | O => None
  | S f =>
    match skip_ws s with
    | "" => None
    | String a r =>
        if decide (a = "{"%char) then
          if max_depth <=? depth then None else
          match skip_ws r with
          | String b t =>
              if decide (b = "}"%char) then Some (JObj [], t)
              else '(l, t) ← parse_members f (depth + 1) r; Some (JObj l, t)
          | "" => None
          end
        else if decide (a = "["%char) then
          if max_depth <=? depth then None else
          match skip_ws r with
          | String b t =>
              if decide (b = "]"%char) then Some (JArr [], t)
              else '(l, t) ← parse_elems f (depth + 1) r; Some (JArr l, t)
          | "" => None
          end
        else if decide (a = quote) then '(x, t) ← parse_string r; Some (JStr x, t)
        else if decide (a = "t"%char) then expect "true" (JBool true) (String a r)
        else if decide (a = "f"%char) then expect "false" (JBool false) (String a r)
        else if decide (a = "n"%char) then expect "null" JNull (String a r)
        else '(lit, t) ← parse_number (String a r); Some (JNum lit, t)
    end
  end
with parse_elems (fuel : nat) (depth : Z) (s : string) : option (list json * string) :=
  match fuel with
  | O => None
  | S f =>
      '(v, t) ← parse_value f depth s;
      match skip_ws t with
      | String a r =>
          if decide (a = ","%char) then '(l, u) ← parse_elems f depth r; Some (v :: l, u)
          else if decide (a = "]"%char) then Some ([v], r) else None
      | "" => None
      end
  end
with parse_members (fuel : nat) (depth : Z) (s : string) : option (list (string * json) * string) :=
  match fuel with
  | O => None
  | S f =>
      match skip_ws s with
      | String q r0 =>
          if decide (q = quote) then
            '(k, t0) ← parse_string r0;
            match skip_ws t0 with
            | String c t1 =>
                if decide (c = ":"%char) then
                  '(v, t) ← parse_value f depth t1;
                  match skip_ws t with
                  | String a r =>
                      if decide (a = ","%char)
                      then '(l, u) ← parse_members f depth r; Some ((k, v) :: l, u)
                      else if decide (a = "}"%char) then Some ([(k, v)], r) else None
                  | "" => None
                  end
                else None
            | "" => None
            end
          else None
      | "" => None
      end
  end.

(** Nested values and separators consume at least one byte for two units of
    fuel, so this bound is never reached on a valid document. *)
Definition parse_fuel (s : string) : nat := 2 * slen s + 2.

(** [json.Unmarshal] wants the document and nothing but white space after it;
    [json.NewDecoder(r).Decode] stops after the first value. *)
Definition json_parse (s : string) : option json :=
  '(v, t) ← parse_value (parse_fuel s) 0 s;
  if decide (skip_ws t = "") then Some v else None.
Definition json_decode (s : string) : option json :=
  fst <$> parse_value (parse_fuel s) 0 s.

(** ** Printing and parsing are inverse *)

(** The documents of the round trip have integer literals only ([json_nums]);
    those with valid UTF-8 strings come back as they were ([json_ok]), others
    with their strings made valid ([json_utf8]). *)
Definition int_digits (s : string) : bool :=
  match s with
  | "" => false
  | String a r => is_digit a && str_forall is_digit r && (bool_decide (r = "") || negb (bool_decide (a = "0"%char)))
  end.
Definition int_lit (s : string) : bool :=
  match s with
  | String a r => if decide (a = "-"%char) then int_digits r else int_digits s
  | "" => false
  end.
Fixpoint json_ok (v : json) : bool :=
  match v with
  | JNull | JBool _ => true
  | JNum lit => int_lit lit
  | JStr s => is_utf8 s
  | JArr l => forallb json_ok l
  | JObj l => forallb (fun kv => is_utf8 kv.1 && json_ok kv.2) l
  end.
Fixpoint json_nums (v : json) : bool :=
  match v with
  | JNum lit => int_lit lit
  | JArr l => forallb json_nums l
  | JObj l => forallb (fun kv => json_nums kv.2) l
  | _ => true
  end.
Fixpoint json_utf8 (v : json) : json :=
  match v with
  | JStr s => JStr (to_utf8 s)
  | JArr l => JArr (json_utf8 <$> l)
  | JObj l => JObj ((fun kv => (to_utf8 kv.1, json_utf8 kv.2)) <$> l)
  | v => v
  end.
Fixpoint json_depth (v : json) : Z :=
  match v with
  | JArr l => 1 + foldr (fun x m => Z.max (json_depth x) m) 0 l
  | JObj l => 1 + foldr (fun kv m => Z.max (json_depth kv.2) m) 0 l
  | _ => 0
  end.
Fixpoint json_fuel (v : json) : nat :=
  match v with
  | JArr l => S (foldr (fun x m => S (json_fuel x + m)) 0 l)%nat
  | JObj l => S (foldr (fun kv m => S (json_fuel kv.2 + m)) 0 l)%nat
  | _ => 1%nat
  end.

Section json_induction.
Context (P : json -> Prop).
Context (Hnull : P JNull) (Hbool : forall b, P (JBool b)) (Hnum : forall l, P (JNum l))
  (Hstr : forall s, P (JStr s)) (Harr : forall l, Forall P l -> P (JArr l))
  (Hobj : forall l, Forall (fun kv => P kv.2) l -> P (JObj l)).
Fixpoint json_ind' (v : json) : P v :=
  match v with
  | JNull => Hnull
  | JBool b => Hbool b
  | JNum l => Hnum l
  | JStr s => Hstr s
  | JArr l => Harr l
      ((fix go l : Forall P l :=
          match l with [] => Forall_nil_2 _ | x :: l => Forall_cons_2 _ _ _ (json_ind' x) (go l) end) l)
  | JObj l => Hobj l
      ((fix go l : Forall (fun kv => P kv.2) l :=
          match l with [] => Forall_nil_2 _ | x :: l => Forall_cons_2 _ _ _ (json_ind' x.2) (go l) end) l)
  end.
End json_induction.

(** *** Strings *)
Lemma unquote_escape_byte f a t :
  ord a < 128 -> unquote (S f) (escape_byte a +:+ t) = push (String a "") (unquote f t).
Proof.
  intros H. destruct a as [[] [] [] [] [] [] [] []]; try (vm_compute in H; discriminate);
    reflexivity.
Qed.

Lemma is_utf8_fixed s : is_utf8 s = true -> to_utf8 s = s.
Proof. unfold is_utf8. by intros Hs%bool_decide_eq_true. Qed.
Lemma to_utf8_ne a s : to_utf8 (String a s) ≠ "".
Proof.
  cbn [to_utf8]. destruct (ord a <? 128); [done|]. destruct s as [|b s]; [done|].
  destruct (utf8_2 a b); [done|]. destruct s as [|c s]; [done|]. destruct (utf8_3 a b c); [done|].
  destruct s as [|d s]; [done|]. by destruct (utf8_4 a b c d).
Qed.
Lemma ascii_utf8 s : is_ascii s = true -> to_utf8 s = s.
Proof.
  unfold is_ascii. induction s as [|a s IH]; [done|]. simpl. intros [-> Hs]%andb_true_iff. by rewrite IH.
Qed.
Lemma cont_high a : cont a = true -> (ord a <? 128) = false.
Proof. unfold cont. intros ?. bool_to_prop. lia. Qed.

(** A group of bytes that [escape] copies is read back at once. *)
Lemma unquote_high f a r : (ord a <? 128) = false ->
  unquote (S f) (String a r) =
    match r with
    | String b r2 =>
        if utf8_2 a b then push (String a (String b "")) (unquote f r2) else
        match r2 with
        | String c r3 =>
            if utf8_3 a b c then push (String a (String b (String c ""))) (unquote f r3) else
            match r3 with
            | String d r4 =>
                if utf8_4 a b c d then push (String a (String b (String c (String d "")))) (unquote f r4)
                else push replacement (unquote f r)
            | "" => push replacement (unquote f r)
            end
        | "" => push replacement (unquote f r)
        end
    | "" => push replacement (unquote f r)
    end.
Proof.
  intros Ha. apply Z.ltb_ge in Ha. cbn [unquote]. rewrite !decide_False by (intros ->; vm_compute in Ha; congruence).
  rewrite (proj2 (Z.ltb_ge _ _)) by lia. by rewrite (proj2 (Z.ltb_ge _ _)) by lia.
Qed.
Lemma unquote_fffd f t : unquote (S f) (u_escape 65533 +:+ t) = push replacement (unquote f t).
Proof. reflexivity. Qed.
Lemma unquote_separator f a b c t :
  (ord a =? 226) && (ord b =? 128) && ((ord c =? 168) || (ord c =? 169)) = true ->
  unquote (S f) (u_escape (8064 + ord c) +:+ t) = push (String a (String b (String c ""))) (unquote f t).
Proof.
  intros [[Ha Hb]%andb_true_iff Hc]%andb_true_iff. apply Z.eqb_eq in Ha, Hb.
  assert (a = "226"%char) as -> by (apply ord_inj; by rewrite Ha).
  assert (b = "128"%char) as -> by (apply ord_inj; by rewrite Hb).
  apply orb_true_iff in Hc as [Hc|Hc]; apply Z.eqb_eq in Hc.
  - assert (c = "168"%char) as -> by (apply ord_inj; by rewrite Hc). reflexivity.
  - assert (c = "169"%char) as -> by (apply ord_inj; by rewrite Hc). reflexivity.
Qed.

Lemma unquote_escape n : forall s f rest,
  (slen s <= n)%nat -> (slen s < f)%nat ->
  unquote f (escape s +:+ String quote rest) = Some (to_utf8 s, rest).
Proof.
  induction n as [|n IH]; intros [|a s] [|f] rest Hn Hf; try (unfold slen in *; simpl in *; lia); try reflexivity.
  assert (forall t, (slen t <= slen s)%nat ->
    unquote f (escape t +:+ String quote rest) = Some (to_utf8 t, rest)) as IH'.
  { intros t Ht. apply IH; unfold slen in *; simpl in *; lia. }
  cbn [escape to_utf8]. destruct (ord a <? 128) eqn:Ha.
  { rewrite append_assoc, unquote_escape_byte by (by apply Z.ltb_lt). by rewrite IH'. }
  assert (forall t, (slen t <= slen s)%nat ->
    unquote (S f) ((u_escape 65533 +:+ escape t) +:+ String quote rest) = Some (replacement +:+ to_utf8 t, rest)) as Hbad.
  { intros t Ht. by rewrite append_assoc, unquote_fffd, IH'. }
  destruct s as [|b s]; [by apply (Hbad "")|].
  destruct (utf8_2 a b) eqn:H2.
  { rewrite !append_cons, unquote_high, H2 by done. rewrite IH'; [done|]. unfold slen. simpl. lia. }
  destruct s as [|c s]; [by apply Hbad|]. destruct (utf8_3 a b c) eqn:H3.
  { assert (slen s <= slen (String b (String c s)))%nat as Hs by (unfold slen; simpl; lia).
    destruct (_ && _) eqn:Hsep.
    - rewrite append_assoc, (unquote_separator f a b c) by done. by rewrite IH'.
    - rewrite !append_cons, unquote_high, H2, H3 by done. by rewrite IH'. }
  destruct s as [|d s]; [by apply Hbad|]. destruct (utf8_4 a b c d) eqn:H4; [|by apply Hbad].
  rewrite !append_cons, unquote_high, H2, H3, H4 by done. rewrite IH'; [done|]. unfold slen. simpl. lia.
Qed.

Lemma escape_byte_len a : (1 <= slen (escape_byte a))%nat.
Proof. unfold escape_byte. repeat case_match; unfold slen; simpl; lia. Qed.

Lemma u_escape_len code t : (slen (u_escape code +:+ t) = 6 + slen t)%nat.
Proof. rewrite slen_append. reflexivity. Qed.
Lemma slen_cons a s : slen (String a s) = S (slen s).
Proof. reflexivity. Qed.
Lemma escape_len n : forall s, (slen s <= n)%nat -> (slen s <= slen (escape s))%nat.
Proof.
  induction n as [|n IH]; intros [|a s] Hn; rewrite ?slen_cons in *; try (unfold slen in *; simpl in *; lia).
  pose proof (IH s ltac:(lia)) as Hs. cbn [escape]. destruct (ord a <? 128).
  { rewrite slen_append. pose proof (escape_byte_len a). lia. }
  destruct s as [|b s]; [rewrite <-(append_nil_r (u_escape _)), u_escape_len; lia|].
  rewrite slen_cons in *. destruct (utf8_2 a b); [rewrite !slen_cons; pose proof (IH s); lia|].
  destruct s as [|c s]; [rewrite u_escape_len; lia|]. rewrite slen_cons in *.
  destruct (utf8_3 a b c); [destruct (_ && _); rewrite ?u_escape_len, ?slen_cons; pose proof (IH s); lia|].
  destruct s as [|d s]; [rewrite u_escape_len; lia|]. rewrite slen_cons in *.
  destruct (utf8_4 a b c d); [rewrite !slen_cons; pose proof (IH s); lia|rewrite u_escape_len; lia].
Qed.

Lemma parse_string_escape s rest :
  parse_string (escape s +:+ String quote rest) = Some (to_utf8 s, rest).
Proof.
  unfold parse_string. apply (unquote_escape (slen s)); [done|].
  rewrite slen_append. pose proof (escape_len (slen s) s). lia.
Qed.

(** *** Numbers *)
Definition delim (s : string) : Prop :=
  match s with
  | "" => True
  | String a _ => a = ","%char \/ a = "]"%char \/ a = "}"%char \/ is_ws a = true
  end.

Lemma span_digits_app d rest :
  str_forall is_digit d = true -> delim rest -> span_digits (d +:+ rest) = (d, rest).
Proof.
  intros Hd Hr. induction d as [|a d IH].
  - rewrite append_nil_l. destruct rest as [|b rest]; [done|]. simpl.
    assert (is_digit b = false) as ->; [|done].
    destruct Hr as [->|[->|[->|Hw]]]; [done..|].
    unfold is_ws, is_digit in *. apply not_true_iff_false. intros ?. bool_to_prop.
    repeat (apply orb_true_iff in Hw as [Hw|Hw]); bool_to_prop; lia.
  - simpl in Hd. apply andb_true_iff in Hd as [Ha Hd]. rewrite append_cons. simpl.
    rewrite Ha, (IH Hd). done.
Qed.

Lemma delim_frac rest : delim rest -> parse_frac rest = Some ("", rest).
Proof.
  destruct rest as [|b rest]; [done|]. intros Hr. simpl. rewrite decide_False; [done|].
  intros ->. destruct Hr as [H|[H|[H|H]]]; done.
Qed.
Lemma delim_exp rest : delim rest -> parse_exp rest = Some ("", rest).
Proof.
  destruct rest as [|b rest]; [done|]. intros Hr. unfold parse_exp.
  assert ((ord b =? 101) || (ord b =? 69) = false) as ->; [|done].
  destruct Hr as [->|[->|[->|H]]]; [done..|]. apply orb_false_iff. unfold is_ws in H.
  repeat (apply orb_true_iff in H as [H|H]); bool_to_prop; split; apply Z.eqb_neq; lia.
Qed.

Lemma parse_int_part_digits d rest :
  int_digits d = true -> delim rest -> parse_int_part (d +:+ rest) = Some (d, rest).
Proof.
  destruct d as [|a r]; [done|]. cbn [int_digits]. intros [[Ha Hr]%andb_true_iff Hz]%andb_true_iff Hd.
  rewrite append_cons. unfold parse_int_part. destruct (decide (a = "0"%char)) as [->|Hne].
  - rewrite orb_false_r in Hz. apply bool_decide_eq_true in Hz as ->. done.
  - rewrite Ha. rewrite <-append_cons. rewrite span_digits_app; [done| |done]. simpl. by rewrite Ha.
Qed.

Lemma parse_number_int lit rest :
  int_lit lit = true -> delim rest -> parse_number (lit +:+ rest) = Some (lit, rest).
Proof.
  destruct lit as [|a r]; [done|]. unfold int_lit, parse_number.
  intros H Hd. rewrite append_cons. destruct (decide (a = "-"%char)) as [->|Hne].
  - rewrite parse_int_part_digits by done. simpl. rewrite delim_frac by done. simpl.
    rewrite delim_exp by done. simpl. by rewrite !append_nil_r.
  - rewrite <-append_cons, parse_int_part_digits by done. simpl. rewrite delim_frac by done. simpl.
    rewrite delim_exp by done. simpl. by rewrite append_nil_l, !append_nil_r.
Qed.

(** *** Values *)
Fixpoint marshal_elems (l : list json) : string :=
  match l with
  | [] => "]"
  | [x] => Marshal x +:+ "]"
  | x :: l => Marshal x +:+ "," +:+ marshal_elems l
  end.
Fixpoint marshal_members (l : list (string * json)) : string :=
  match l with
  | [] => "}"
  | [(k, x)] => quoted k +:+ ":" +:+ Marshal x +:+ "}"
  | (k, x) :: l => quoted k +:+ ":" +:+ Marshal x +:+ "," +:+ marshal_members l
  end.

Lemma Marshal_arr l : Marshal (JArr l) = "[" +:+ marshal_elems l.
Proof. reflexivity. Qed.
Lemma Marshal_obj l : Marshal (JObj l) = "{" +:+ marshal_members l.
Proof. reflexivity. Qed.

(** The first byte of a document: neither white space nor a closing bracket. *)
Definition value_head (a : ascii) : Prop :=
  is_ws a = false /\ a ≠ "]"%char /\ a ≠ "}"%char.

Lemma is_digit_head a : is_digit a = true -> value_head a.
Proof.
  unfold is_digit, value_head, is_ws. intros ?. bool_to_prop. split_and!.
  - apply not_true_iff_false. intros H'. repeat (apply orb_true_iff in H' as [H'|H']); bool_to_prop; lia.
  - intros ->. done.
  - intros ->. done.
Qed.

Lemma Marshal_head v : json_nums v = true -> exists a r, Marshal v = String a r /\ value_head a.
Proof.
  destruct v as [|[]|lit|s|l|l]; intros Hok; try (do 2 eexists; split; [reflexivity|done]).
  destruct lit as [|a r]; [done|]. exists a, r. split; [done|].
  simpl in Hok. unfold int_lit in Hok. destruct (decide (a = "-"%char)) as [->|]; [done|].
  simpl in Hok. apply andb_true_iff in Hok as [[Ha _]%andb_true_iff _]. by apply is_digit_head.
Qed.

Lemma skip_ws_Marshal v rest : json_nums v = true -> skip_ws (Marshal v +:+ rest) = Marshal v +:+ rest.
Proof.
  intros (a & r & -> & Hw & _)%Marshal_head. rewrite append_cons. simpl. by rewrite Hw.
Qed.

Lemma skip_ws_quoted k rest : skip_ws (quoted k +:+ rest) = quoted k +:+ rest.
Proof. reflexivity. Qed.

(** What [parse_value] must do on a printed value. *)
Definition parses (v : json) : Prop := forall f d rest,
  json_nums v = true -> d + json_depth v <= max_depth -> (json_fuel v <= f)%nat -> delim rest ->
  parse_value f d (Marshal v +:+ rest) = Some (json_utf8 v, rest).

Lemma parse_elems_marshal l : forall f d rest,
  Forall parses l -> l ≠ [] -> forallb json_nums l = true ->
  d + foldr (fun x m => Z.max (json_depth x) m) 0 l <= max_depth ->
  (foldr (fun x m => S (json_fuel x + m)) 0 l <= f)%nat ->
  parse_elems f d (marshal_elems l +:+ rest) = Some (json_utf8 <$> l, rest).
Proof.
  induction l as [|x l IH]; intros f d rest HP Hne Hok Hd Hf; [done|].
  apply Forall_cons in HP as [Hx HP]. simpl in Hok. apply andb_true_iff in Hok as [Hxok Hok].
  cbn [foldr] in Hd, Hf. destruct f as [|f]; [lia|].
  destruct l as [|y l].
  - cbn [marshal_elems parse_elems]. rewrite append_assoc, Hx; [done|done|lia|lia|].
    right; left. done.
  - change (marshal_elems (x :: y :: l)) with (Marshal x +:+ "," +:+ marshal_elems (y :: l)).
    rewrite !append_assoc. cbn [parse_elems]. rewrite Hx; [|done|lia|lia|by left].
    cbn [mbind option_bind]. rewrite append_cons. cbn [skip_ws]. change (is_ws ",") with false.
    cbv iota. rewrite decide_True by done. rewrite append_nil_l, IH; [done|done|done|done|lia|lia].
Qed.

Lemma parse_members_marshal l : forall f d rest,
  Forall (fun kv => parses kv.2) l -> l ≠ [] ->
  forallb (fun kv => json_nums kv.2) l = true ->
  d + foldr (fun kv m => Z.max (json_depth kv.2) m) 0 l <= max_depth ->
  (foldr (fun kv m => S (json_fuel kv.2 + m)) 0 l <= f)%nat ->
  parse_members f d (marshal_members l +:+ rest) = Some ((fun kv => (to_utf8 kv.1, json_utf8 kv.2)) <$> l, rest).
Proof.
  induction l as [|[k x] l IH]; intros f d rest HP Hne Hok Hd Hf; [done|].
  apply Forall_cons in HP as [Hx HP]. cbn [forallb fst snd] in Hok, Hx.
  apply andb_true_iff in Hok as [Hxok Hok].
  cbn [foldr snd] in Hd, Hf. destruct f as [|f]; [lia|].
  assert (Hkey : forall t, parse_members (S f) d (quoted k +:+ ":" +:+ t) =
    ('(v, t) ← parse_value f d t;
     match skip_ws t with
     | String a r => if decide (a = ","%char)
         then '(l, u) ← parse_members f d r; Some ((to_utf8 k, v) :: l, u)
         else if decide (a = "}"%char) then Some ([(to_utf8 k, v)], r) else None
     | "" => None end)).
  { intros t. cbn [parse_members]. rewrite skip_ws_quoted. unfold quoted.
    rewrite append_cons, decide_True by done. rewrite append_assoc.
    change (String quote "" +:+ ":" +:+ t) with (String quote (":" +:+ t)).
    rewrite parse_string_escape. reflexivity. }
  destruct l as [|y l].
  - change (marshal_members [(k, x)]) with (quoted k +:+ ":" +:+ Marshal x +:+ "}").
    rewrite !append_assoc, Hkey, Hx; [done|done|lia|lia|]. right; right; left. done.
  - change (marshal_members ((k, x) :: y :: l))
      with (quoted k +:+ ":" +:+ Marshal x +:+ "," +:+ marshal_members (y :: l)).
    rewrite !append_assoc, Hkey, Hx; [|done|lia|lia|by left].
    cbn [mbind option_bind]. rewrite append_cons. cbn [skip_ws]. change (is_ws ",") with false.
    cbv iota. rewrite decide_True by done. rewrite append_nil_l, IH; [done|done|done|done|lia|lia].
Qed.

Lemma marshal_elems_head x l rest : json_nums x = true ->
  exists a r, skip_ws (marshal_elems (x :: l) +:+ rest) = String a r /\ a ≠ "]"%char.
Proof.
  intros Hx. destruct (Marshal_head x Hx) as (a & r & Ha & Hw & Hb & _).
  destruct l; simpl; rewrite Ha, !append_cons; simpl; rewrite Hw; eauto.
Qed.

Lemma expect_append lit v rest : expect lit v (lit +:+ rest) = Some (v, rest).
Proof. unfold expect. by rewrite HasPrefix_append, str_drop_append. Qed.

Lemma parses_all v : parses v.
Proof.
  induction v as [|[]|lit|s|l IH|l IH] using json_ind'; intros [|f] d rest Hok Hd Hf Hr;
    try (simpl in Hf; lia).
  - exact (expect_append "null" JNull rest).
  - exact (expect_append "true" (JBool true) rest).
  - exact (expect_append "false" (JBool false) rest).
  - destruct lit as [|a r]; [done|]. cbn [Marshal parse_value]. cbn [json_nums] in Hok.
    destruct (Marshal_head (JNum (String a r))) as (a' & r' & [= <- <-] & Hw & _); [done|].
    rewrite append_cons. cbn [skip_ws]. rewrite Hw, <-append_cons, parse_number_int by done.
    assert (Ha : is_digit a = true \/ a = "-"%char).
    { unfold int_lit in Hok. destruct (decide (a = "-"%char)); [by right|left].
      simpl in Hok. by apply andb_true_iff in Hok as [[Ha _]%andb_true_iff _]. }
    rewrite !decide_False; [done|..]; intros ->; by destruct Ha.
  - cbn [Marshal parse_value]. unfold quoted. rewrite !append_cons. cbn [skip_ws].
    change (is_ws quote) with false. cbv iota. rewrite append_assoc.
    rewrite append_cons, append_nil_l, parse_string_escape. reflexivity.
  - rewrite Marshal_arr, append_assoc, append_cons, append_nil_l. cbn [parse_value skip_ws].
    change (is_ws "[") with false. cbv iota. rewrite decide_False, decide_True by done.
    cbn [json_nums json_depth json_fuel json_utf8] in *. rewrite (proj2 (Z.leb_gt max_depth d)).
    2:{ assert (0 <= foldr (fun x m => Z.max (json_depth x) m) 0 l) by (clear; induction l; simpl; lia). lia. }
    destruct l as [|x l]; [reflexivity|].
    destruct (marshal_elems_head x l rest) as (a & r & -> & Hne);
      [simpl in Hok; by apply andb_true_iff in Hok as []|].
    rewrite decide_False by done. by rewrite parse_elems_marshal by (done || lia).
  - rewrite Marshal_obj, append_assoc, append_cons, append_nil_l. cbn [parse_value skip_ws].
    change (is_ws "{") with false. cbv iota. rewrite decide_True by done.
    cbn [json_nums json_depth json_fuel json_utf8] in *. rewrite (proj2 (Z.leb_gt max_depth d)).
    2:{ assert (0 <= foldr (fun kv m => Z.max (json_depth kv.2) m) 0 l) by (clear; induction l; simpl; lia). lia. }
    destruct l as [|[k x] l]; [reflexivity|].
    assert (Hh : exists r, skip_ws (marshal_members ((k, x) :: l) +:+ rest) = String quote r)
      by (destruct l; eexists; reflexivity).
    destruct Hh as [r ->]. rewrite decide_False by done.
    by rewrite parse_members_marshal by (done || lia).
Qed.

Lemma json_fuel_len v : json_nums v = true -> (json_fuel v <= 2 * slen (Marshal v))%nat.
Proof.
  induction v as [|[]|lit|s|l IH|l IH] using json_ind'; intros Hok; try (unfold slen; simpl; lia).
  - destruct (Marshal_head _ Hok) as (a & r & -> & _). unfold slen. simpl. lia.
  - rewrite Marshal_arr, slen_append. cbn [json_fuel json_nums] in *.
    assert (foldr (fun x m => S (json_fuel x + m)) 0 l <= 2 * slen (marshal_elems l))%nat.
    { induction IH as [|x l Hx _ IHl]; [simpl; lia|]. simpl in Hok.
      apply andb_true_iff in Hok as [Hxo Hok]. specialize (IHl Hok). specialize (Hx Hxo).
      destruct l as [|y l]; [simpl; rewrite slen_append; unfold slen in *; simpl in *; lia|].
      change (marshal_elems (x :: y :: l)) with (Marshal x +:+ "," +:+ marshal_elems (y :: l)).
      cbn [foldr] in *. rewrite !slen_append. change (slen ",") with 1%nat. lia. }
    change (slen "[") with 1%nat. lia.
  - rewrite Marshal_obj, slen_append. cbn [json_fuel json_nums] in *.
    assert (foldr (fun kv m => S (json_fuel kv.2 + m)) 0 l <= 2 * slen (marshal_members l))%nat.
    { induction IH as [|[k x] l Hx _ IHl]; [simpl; lia|]. simpl in Hok.
      apply andb_true_iff in Hok as [Hxo Hok]. specialize (IHl Hok).
      specialize (Hx Hxo). simpl in Hx.
      destruct l as [|y l].
      { simpl. rewrite !slen_append. change (slen ":") with 1%nat. lia. }
      change (marshal_members ((k, x) :: y :: l))
        with (quoted k +:+ ":" +:+ Marshal x +:+ "," +:+ marshal_members (y :: l)).
      cbn [foldr snd] in *. rewrite !slen_append. change (slen ",") with 1%nat. lia. }
    change (slen "{") with 1%nat. lia.
Qed.

Lemma parse_Marshal v rest :
  json_nums v = true -> json_depth v <= max_depth -> delim rest ->
  parse_value (parse_fuel (Marshal v +:+ rest)) 0 (Marshal v +:+ rest) = Some (json_utf8 v, rest).
Proof.
  intros Hok Hd Hr. apply parses_all; [done|lia| |done].
  pose proof (json_fuel_len v Hok). unfold parse_fuel. rewrite slen_append. lia.
Qed.

(** A printed document parses to itself with its strings made valid, ... *)
Lemma json_parse_utf8 v :
  json_nums v = true -> json_depth v <= max_depth -> json_parse (Marshal v) = Some (json_utf8 v).
Proof.
  intros Hok Hd. unfold json_parse. rewrite <-(append_nil_r (Marshal v)). by rewrite parse_Marshal.
Qed.
Lemma json_decode_Encode_utf8 v :
  json_nums v = true -> json_depth v <= max_depth -> json_decode (Encode v) = Some (json_utf8 v).
Proof.
  intros Hok Hd. unfold json_decode, Encode. rewrite parse_Marshal; [done..|]. right; right; right. done.
Qed.
Lemma json_decode_utf8 v :
  json_nums v = true -> json_depth v <= max_depth -> json_decode (Marshal v) = Some (json_utf8 v).
Proof.
  intros Hok Hd. unfold json_decode. rewrite <-(append_nil_r (Marshal v)). by rewrite parse_Marshal.
Qed.

(** ... so to itself when they are valid. *)
Lemma json_ok_spec v : json_ok v = true -> json_nums v = true /\ json_utf8 v = v.
Proof.
  induction v as [|b|lit|s|l IH|l IH] using json_ind'; cbn [json_ok json_nums json_utf8]; try done.
  - unfold is_utf8. intros Hs%bool_decide_eq_true. by rewrite Hs.
  - intros Hok. assert (forallb json_nums l = true /\ json_utf8 <$> l = l) as [Hn Hu]; [|by split; [|f_equal]].
    induction IH as [|x l Hx _ IHl]; [done|]. simpl in *. apply andb_true_iff in Hok as [Hxo Hok].
    destruct (Hx Hxo) as [-> Hv], (IHl Hok) as [-> Hu]. split; [done|]. by f_equal.
  - intros Hok. assert (forallb (fun kv => json_nums kv.2) l = true /\
      (fun kv => (to_utf8 kv.1, json_utf8 kv.2)) <$> l = l) as [Hn Hu]; [|by split; [|f_equal]].
    induction IH as [|[k x] l Hx _ IHl]; [done|]. simpl in *.
    apply andb_true_iff in Hok as [[Hk%bool_decide_eq_true Hxo]%andb_true_iff Hok].
    destruct (Hx Hxo) as [-> Hv], (IHl Hok) as [-> Hu]. split; [done|]. f_equal; [by rewrite Hk, Hv|done].
Qed.
Lemma json_parse_Marshal v :
  json_ok v = true -> json_depth v <= max_depth -> json_parse (Marshal v) = Some v.
Proof. intros [Hn Hu]%json_ok_spec Hd. by rewrite json_parse_utf8, Hu. Qed.
Lemma json_decode_Encode v :
  json_ok v = true -> json_depth v <= max_depth -> json_decode (Encode v) = Some v.
Proof. intros [Hn Hu]%json_ok_spec Hd. by rewrite json_decode_Encode_utf8, Hu. Qed.
Lemma json_decode_Marshal v :
  json_ok v = true -> json_depth v <= max_depth -> json_decode (Marshal v) = Some v.
Proof. intros [Hn Hu]%json_ok_spec Hd. by rewrite json_decode_utf8, Hu. Qed.

(** *** Integers *)
Definition JInt (z : Z) : json := JNum (Itoa z).

Lemma digit_is_digit d : 0 <= d < 10 -> is_digit (digit d) = true /\ ord (digit d) = 48 + d.
Proof.
  intros H. unfold is_digit, digit. rewrite ord_chr by lia. split; [|done].
  apply andb_true_iff. split; apply Z.leb_le; lia.
Qed.

Lemma digits_value_app d acc r :
  0 <= d < 10 -> digits_value acc (String (digit d) r) = digits_value (10 * acc + d) r.
Proof. intros H. simpl. destruct (digit_is_digit d H) as [_ ->]. f_equal. lia. Qed.

Lemma itoa_go_spec f : forall n acc,
  0 <= n < 10 ^ Z.of_nat f -> (0 < f)%nat -> str_forall is_digit acc = true ->
  str_forall is_digit (itoa_go f n acc) = true /\
  digits_value 0 (itoa_go f n acc) = digits_value n acc /\
  exists a r, itoa_go f n acc = String a r /\ (a = "0"%char -> n = 0 /\ r = acc).
Proof.
  induction f as [|f IH]; intros n acc Hn Hf Hacc; [lia|]. cbn [itoa_go].
  destruct (Z.ltb_spec n 10) as [Hlt|Hge].
  - destruct (digit_is_digit n) as [Hd Ho]; [lia|]. split_and!.
    + simpl. by rewrite Hd.
    + rewrite digits_value_app by lia. f_equal.
    + do 2 eexists. split; [done|]. intros H0. split; [|done].
      rewrite H0 in Ho. change (ord "0") with 48 in Ho. lia.
  - assert (0 <= n / 10 < 10 ^ Z.of_nat f).
    { split; [apply Z.div_pos; lia|]. apply Z.div_lt_upper_bound; [lia|].
      rewrite Nat2Z.inj_succ, Z.pow_succ_r in Hn by lia. lia. }
    assert (0 <= n `mod` 10 < 10) by (apply Z.mod_pos_bound; lia).
    assert (0 < f)%nat.
    { destruct f; [|lia]. simpl in *. assert (1 <= n / 10) by (apply Z.div_le_lower_bound; lia). lia. }
    destruct (IH (n / 10) (String (digit (n `mod` 10)) acc)) as (Hd1 & Hd2 & a & r & Ha & Hz); [done..| |].
    { simpl. destruct (digit_is_digit (n `mod` 10)) as [-> _]; done. }
    split_and!; [done| |].
    + rewrite Hd2, digits_value_app by done. f_equal. pose proof (Z.div_mod n 10). lia.
    + exists a, r. split; [done|]. intros ->. destruct Hz as [Hz _]; [done|].
      assert (1 <= n / 10) by (apply Z.div_le_lower_bound; lia). lia.
Qed.

(** The decimal digits of a natural number below 10^20. *)
Definition nat_digits (n : Z) : string := itoa_go 20 n "".
Lemma nat_digits_spec n : 0 <= n < 10 ^ 20 ->
  int_digits (nat_digits n) = true /\ str_forall is_digit (nat_digits n) = true /\
  digits_value 0 (nat_digits n) = n.
Proof.
  intros Hn. unfold nat_digits.
  destruct (itoa_go_spec 20 n "") as (H1 & H2 & a & r & Ha & Hz); [done|lia|done|].
  split_and!; [|done|done]. rewrite Ha in *. unfold int_digits. simpl in H1.
  apply andb_true_iff in H1 as [-> ->]. destruct (bool_decide (a = "0"%char)) eqn:E; [|by rewrite orb_true_r].
  apply bool_decide_eq_true in E. destruct (Hz E) as [_ ->]. done.
Qed.

Lemma digits_not_sign c s : str_forall is_digit s = true -> is_digit c = false ->
  forall r, s = String c r -> False.
Proof. intros H Hc r ->. simpl in H. by rewrite Hc in H. Qed.

Lemma Itoa_int_lit z : - 2 ^ 63 <= z < 2 ^ 63 -> int_lit (Itoa z) = true.
Proof.
  intros Hz. unfold Itoa. fold (nat_digits (- z)) (nat_digits z). destruct (Z.ltb_spec z 0).
  - apply nat_digits_spec. lia.
  - destruct (nat_digits_spec z) as (Hi & Hd & _); [lia|]. unfold int_lit.
    destruct (nat_digits z) as [|a r]; [done|]. rewrite decide_False; [done|].
    intros ->. done.
Qed.

Lemma Itoa_ascii z : - 2 ^ 63 <= z < 2 ^ 63 -> is_ascii (Itoa z) = true.
Proof.
  intros Hz%Itoa_int_lit.
  assert (forall s, str_forall is_digit s = true -> is_ascii s = true) as Hd.
  { intros s. apply str_forall_impl. intros a Ha. unfold is_digit in Ha. bool_to_prop. lia. }
  destruct (Itoa z) as [|a r]; [done|]. unfold int_lit in Hz. case_decide as Hm.
  - subst a. destruct r as [|b r]; [done|]. unfold int_digits in Hz. apply andb_true_iff in Hz as [Hz _]. by apply (Hd (String b r)) in Hz.
  - unfold int_digits in Hz. apply andb_true_iff in Hz as [Hz _]. by apply (Hd (String a r)) in Hz.
Qed.
Lemma ParseInt_Itoa z : - 2 ^ 63 <= z < 2 ^ 63 -> ParseInt (Itoa z) = Some z.
Proof.
  intros Hz. unfold Itoa, ParseInt. fold (nat_digits (- z)) (nat_digits z). destruct (Z.ltb_spec z 0).
  - destruct (nat_digits_spec (- z)) as (Hi & Hd & Hv); [lia|]. rewrite append_cons, append_nil_l.
    rewrite decide_True by done. rewrite Hd, Hv.
    rewrite bool_decide_eq_false_2 by (intros E; by rewrite E in Hi). simpl.
    rewrite (proj2 (Z.leb_le (- z) _)) by lia. f_equal. lia.
  - destruct (nat_digits_spec z) as (Hi & Hd & Hv); [lia|].
    destruct (nat_digits z) as [|a r] eqn:E; [done|].
    rewrite !decide_False by (intros ->; done). rewrite Hd, Hv. simpl.
    by rewrite (proj2 (Z.ltb_lt z _)) by lia.
Qed.

(** ** Storing a document into Go values

    A struct field is found by its exact name or else by case folding; [null]
    leaves a value unchanged; a value of the wrong type is an error. *)
Section decode.
Context `{!Unicode}.

Definition fold_name (k : string) : string :=
  if is_ascii k then str_map upper_byte k else unicode_fold_name k.

Definition decoder (A : Type) := A -> json -> option A.

Definition dec_string : decoder string := fun old v =>
  match v with JStr s => Some s | JNull => Some old | _ => None end.
Definition dec_bool : decoder bool := fun old v =>
  match v with JBool b => Some b | JNull => Some old | _ => None end.
Definition dec_int64 : decoder Z := fun old v =>
  match v with JNum lit => ParseInt lit | JNull => Some old | _ => None end.
Definition dec_list {A} (zero : A) (dec : decoder A) : decoder (list A) := fun old v =>
  match v with JArr l => mapM (dec zero) l | JNull => Some [] | _ => None end.

(** The members of an object stored into one field, in document order. *)
Definition dec_field {A} (name : string) (dec : decoder A) (zero : A)
    (l : list (string * json)) : option A :=
  foldl (fun acc kv => old ← acc;
           if decide (fold_name kv.1 = fold_name name) then dec old kv.2 else Some old)
    (Some zero) l.

(** The members a struct is decoded from. *)
Definition dec_struct (v : json) : option (list (string * json)) :=
  match v with JObj l => Some l | JNull => Some [] | _ => None end.

(** [map[string]string]: later members override earlier ones. *)
Definition dec_string_map (v : json) : option (gmap string string) :=
  match v with
  | JObj l => foldl (fun acc kv => m ← acc; s ← dec_string "" kv.2; Some (<[kv.1 := s]> m))
                (Some ∅) l
  | JNull => Some ∅
  | _ => None
  end.
End decode.

(** A Go [map[string]string] is printed with its keys in increasing order. *)
Definition JStrMap (l : list (string * string)) : json :=
  JObj ((fun kv => (kv.1, JStr kv.2)) <$> merge_sort (fun a b => String.le a.1 b.1) l).
Definition JStrs (l : list string) : json := JArr (JStr <$> l).
(** A field with [omitempty]. *)
Definition omitempty (name s : string) : list (string * json) :=
  if decide (s = "") then [] else [(name, JStr s)].
