(* ===== verification/GoURL.v ===== *)
(** * GoURL: Go's [net/url].

    Percent-escaping and query strings are defined here and proved inverse;
    [url.Parse] and [URL.String] are a parameter, of which the portal only
    uses the fields of the parsed value. *)
From S2P Require Import Prelude GoStrings GoCrypto.

(** ** Escaping *)
Definition is_alnum (a : ascii) : bool :=
  let o := ord a in
  ((97 <=? o) && (o <=? 122)) || ((65 <=? o) && (o <=? 90)) || ((48 <=? o) && (o <=? 57)).
(** Unreserved marks: - _ . ~ *)
Definition is_mark (a : ascii) : bool :=
  let o := ord a in (o =? 45) || (o =? 95) || (o =? 46) || (o =? 126).
(** Kept by [PathEscape] as well: $ & + : = @ *)
Definition path_kept (a : ascii) : bool :=
  let o := ord a in
  (o =? 36) || (o =? 38) || (o =? 43) || (o =? 58) || (o =? 61) || (o =? 64).

Definition upper_hex (d : Z) : ascii := if d <? 10 then chr (48 + d) else chr (55 + d).
Definition pct (a : ascii) : string :=
  String "%" (String (upper_hex (ord a / 16)) (String (upper_hex (ord a `mod` 16)) "")).

Definition query_byte (a : ascii) : string :=
  if is_alnum a || is_mark a then String a ""
  else if ord a =? 32 then "+" else pct a.
Fixpoint QueryEscape (s : string) : string :=
  match s with "" => "" | String a r => query_byte a +:+ QueryEscape r end.

Definition path_byte (a : ascii) : string :=
  if is_alnum a || is_mark a || path_kept a then String a "" else pct a.
Fixpoint PathEscape (s : string) : string :=
  match s with "" => "" | String a r => path_byte a +:+ PathEscape r end.

Definition hexv (a : ascii) : option Z :=
  let o := ord a in
  if (48 <=? o) && (o <=? 57) then Some (o - 48)
  else if (97 <=? o) && (o <=? 102) then Some (o - 87)
  else if (65 <=? o) && (o <=? 70) then Some (o - 55) else None.

(** [plus] is set for query strings, where [+] stands for a space. *)
Fixpoint unescape (plus : bool) (s : string) : option string :=
  match s with
  | "" => Some ""
  | String a r =>
      if decide (a = "%"%char) then
        match r with
        | String h (String l r2) =>
            x ← hexv h; y ← hexv l; t ← unescape plus r2; Some (String (chr (16 * x + y)) t)
        | _ => None
        end
      else t ← unescape plus r;
           Some (String (if plus && bool_decide (a = "+"%char) then " "%char else a) t)
  end.
Definition QueryUnescape (s : string) : option string := unescape true s.
Definition PathUnescape (s : string) : option string := unescape false s.

(** ** [url.Values] *)
Abbreviation Values := (gmap string (list string)).

Definition Values_Get (v : Values) (k : string) : string :=
  match v !! k with Some (x :: _) => x | _ => "" end.
Definition Values_Set (k x : string) (v : Values) : Values := <[k := [x]]> v.

(** Keys in increasing order, the values of a key in order. *)
Definition sorted_keys (v : Values) : list string := merge_sort String.le ((map_to_list v).*1).
Definition encode_key (v : Values) (k : string) : list string :=
  (fun x => QueryEscape k +:+ "=" +:+ QueryEscape x) <$> default [] (v !! k).
Definition Values_Encode (v : Values) : string := Join (sorted_keys v ≫= encode_key v) "&".

(** [URL.Query()]: pairs with a semicolon or a bad escape are dropped. *)
Definition cut_eq (s : string) : string * string :=
  match SplitN s "=" 2 with
  | [k; x] => (k, x)
  | _ => (s, "")
  end.
Definition add_pair (v : Values) (pair : string) : Values :=
  if decide (pair = "") then v
  else if negb (no_byte ";" pair) then v
  else let '(k, x) := cut_eq pair in
       match QueryUnescape k, QueryUnescape x with
       | Some k, Some x => <[k := default [] (v !! k) ++ [x]]> v
       | _, _ => v
       end.
Definition ParseQuery (s : string) : Values := foldl add_pair ∅ (Split s "&").

(** ** Parsed URLs *)
Record URL := mkURL {
  Scheme : string;
  Opaque : string;
  UserInfo : string;
  UHost : string;
  UPath : string;
  RawQuery : string;
  Fragment : string;
}.
Definition set_RawQuery (q : string) (u : URL) : URL :=
  mkURL (Scheme u) (Opaque u) (UserInfo u) (UHost u) (UPath u) q (Fragment u).

Class NetURL := {
  url_Parse : string -> option URL;
  url_String : URL -> string;
}.

(** ** Round trips *)
Lemma hexv_upper_hex d : 0 <= d < 16 -> hexv (upper_hex d) = Some d.
Proof.
  intros H. assert (Hall : forallb (fun n => bool_decide (hexv (upper_hex (Z.of_nat n)) = Some (Z.of_nat n))) (seq 0 16) = true)
    by (vm_compute; reflexivity).
  rewrite forallb_forall in Hall. specialize (Hall (Z.to_nat d)).
  rewrite bool_decide_eq_true, Z2Nat.id in Hall by lia. apply Hall, in_seq. lia.
Qed.

Lemma unescape_pct plus a t :
  unescape plus (pct a +:+ t) = (r ← unescape plus t; Some (String a r)).
Proof.
  pose proof (ord_range a). unfold pct. rewrite !append_cons, append_nil_l. cbn [unescape].
  rewrite decide_True by done. rewrite !hexv_upper_hex by zdiv. simpl.
  replace (16 * (ord a / 16) + ord a `mod` 16) with (ord a) by zdiv. by rewrite chr_ord.
Qed.

Lemma unescape_query_byte a t :
  unescape true (query_byte a +:+ t) = (r ← unescape true t; Some (String a r)).
Proof.
  unfold query_byte. destruct (is_alnum a || is_mark a) eqn:E.
  - rewrite append_cons, append_nil_l. cbn [unescape].
    rewrite decide_False by (intros ->; done).
    rewrite bool_decide_eq_false_2 by (intros ->; done). done.
  - destruct (Z.eqb_spec (ord a) 32) as [Ha|]; [|apply unescape_pct].
    change 32 with (ord " ") in Ha. by apply ord_inj in Ha as ->.
Qed.

Lemma QueryUnescape_QueryEscape s : QueryUnescape (QueryEscape s) = Some s.
Proof.
  unfold QueryUnescape. induction s as [|a s IH]; [done|]. cbn [QueryEscape].
  by rewrite unescape_query_byte, IH.
Qed.

Lemma unescape_path_byte a t :
  unescape false (path_byte a +:+ t) = (r ← unescape false t; Some (String a r)).
Proof.
  unfold path_byte. destruct (is_alnum a || is_mark a || path_kept a) eqn:E; [|apply unescape_pct].
  rewrite append_cons, append_nil_l. cbn [unescape]. by rewrite decide_False by (intros ->; done).
Qed.

Lemma PathUnescape_PathEscape s : PathUnescape (PathEscape s) = Some s.
Proof.
  unfold PathUnescape. induction s as [|a s IH]; [done|]. cbn [PathEscape].
  by rewrite unescape_path_byte, IH.
Qed.

(** Bytes that an escaped string never contains. *)
Lemma pct_no_byte c a : is_alnum c = false -> c ≠ "%"%char -> no_byte c (pct a) = true.
Proof.
  intros Hc Hp. pose proof (ord_range a). unfold pct.
  assert (Hh : forall d, 0 <= d < 16 -> upper_hex d ≠ c).
  { intros d Hd <-. assert (Hall : forallb (fun n => is_alnum (upper_hex (Z.of_nat n))) (seq 0 16) = true)
      by (vm_compute; reflexivity).
    rewrite forallb_forall in Hall. specialize (Hall (Z.to_nat d)). rewrite Z2Nat.id in Hall by lia.
    rewrite Hall in Hc; [done|]. apply in_seq. lia. }
  rewrite !no_byte_cons. split_and!; [done|apply Hh; zdiv|apply Hh; zdiv|done].
Qed.

Lemma QueryEscape_no_byte c s :
  is_alnum c = false -> is_mark c = false -> c ≠ "%"%char -> c ≠ "+"%char ->
  no_byte c (QueryEscape s) = true.
Proof.
  intros H1 H2 H3 H4. induction s as [|a s IH]; [done|]. cbn [QueryEscape].
  rewrite no_byte_append, IH, andb_true_r. unfold query_byte.
  destruct (is_alnum a || is_mark a) eqn:E.
  - apply no_byte_cons. split; [|done]. intros ->. by rewrite H1, H2 in E.
  - destruct (_ =? _); [|by apply pct_no_byte]. by apply no_byte_cons.
Qed.

Lemma PathEscape_no_byte c s :
  is_alnum c = false -> is_mark c = false -> path_kept c = false -> c ≠ "%"%char ->
  no_byte c (PathEscape s) = true.
Proof.
  intros H1 H2 H3 H4. induction s as [|a s IH]; [done|]. cbn [PathEscape].
  rewrite no_byte_append, IH, andb_true_r. unfold path_byte.
  destruct (is_alnum a || is_mark a || path_kept a) eqn:E; [|by apply pct_no_byte].
  apply no_byte_cons. split; [|done]. intros ->. by rewrite H1, H2, H3 in E.
Qed.

(** *** Queries *)
Lemma Split_sep c u x : no_byte c u = true -> Split (u +:+ String c x) c = u :: Split x c.
Proof.
  induction u as [|a u IH]; intros H.
  - rewrite append_nil_l. cbn [Split]. by rewrite decide_True.
  - apply no_byte_cons in H as [Ha Hu]. rewrite append_cons. cbn [Split].
    rewrite decide_False by done. by rewrite (IH Hu).
Qed.
Lemma Split_last c u : no_byte c u = true -> Split u c = [u].
Proof.
  induction u as [|a u IH]; intros H; [done|].
  apply no_byte_cons in H as [Ha Hu]. cbn [Split]. rewrite decide_False by done. by rewrite (IH Hu).
Qed.

Lemma Split_Join l :
  l ≠ [] -> Forall (fun s => no_byte "&" s = true) l -> Split (Join l "&") "&" = l.
Proof.
  intros Hne Hl. induction Hl as [|x l Hx Hl IH]; [done|]. destruct l as [|y l].
  - by apply Split_last.
  - change (Join (x :: y :: l) "&") with (x +:+ String "&" (Join (y :: l) "&")).
    rewrite Split_sep by done. by rewrite IH.
Qed.

Definition enc_pair (kx : string * string) : string := QueryEscape kx.1 +:+ "=" +:+ QueryEscape kx.2.
Definition put_pair (v : Values) (kx : string * string) : Values :=
  <[kx.1 := default [] (v !! kx.1) ++ [kx.2]]> v.

Lemma enc_pair_no_byte c kx :
  is_alnum c = false -> is_mark c = false -> c ≠ "%"%char -> c ≠ "+"%char -> c ≠ "="%char ->
  no_byte c (enc_pair kx) = true.
Proof.
  intros. unfold enc_pair. rewrite !no_byte_append, !QueryEscape_no_byte by done.
  rewrite andb_true_r. simpl. by apply no_byte_cons.
Qed.

Lemma add_pair_enc v kx : add_pair v (enc_pair kx) = put_pair v kx.
Proof.
  unfold add_pair. rewrite decide_False.
  2:{ unfold enc_pair. destruct (QueryEscape kx.1); [done|by rewrite append_cons]. }
  rewrite enc_pair_no_byte by done. simpl. unfold cut_eq, enc_pair.
  change ("=" +:+ QueryEscape kx.2) with (String "=" (QueryEscape kx.2)).
  rewrite (SplitN_sep "=" _ _ 0) by (by apply QueryEscape_no_byte).
  rewrite SplitN_last by (by apply QueryEscape_no_byte).
  by rewrite !QueryUnescape_QueryEscape.
Qed.

(** The pairs of the values of one key, appended in order. *)
Lemma put_pairs_key k xs : forall v : Values,
  xs ≠ [] -> foldl put_pair v ((fun x => (k, x)) <$> xs) = <[k := default [] (v !! k) ++ xs]> v.
Proof.
  induction xs as [|x xs IH]; intros v Hne; [done|]. simpl. destruct xs as [|y xs]; [done|].
  rewrite IH by done. unfold put_pair. simpl. rewrite lookup_insert_eq. simpl.
  by rewrite insert_insert_eq, <-app_assoc.
Qed.

Definition pairs_of (v : Values) (k : string) : list (string * string) :=
  (fun x => (k, x)) <$> default [] (v !! k).
Definition values_wf (v : Values) : Prop := map_Forall (fun _ xs => xs ≠ []) v.

Lemma put_pairs_all v ks : forall w : Values,
  values_wf v -> NoDup ks -> (forall k, k ∈ ks -> is_Some (v !! k) /\ w !! k = None) ->
  forall k, foldl put_pair w (ks ≫= pairs_of v) !! k =
            if decide (k ∈ ks) then v !! k else w !! k.
Proof.
  intros w Hv. revert w. induction ks as [|k0 ks IH]; intros w Hnd Hks k; [done|].
  apply NoDup_cons in Hnd as [Hk0 Hnd]. rewrite bind_cons, foldl_app.
  destruct (Hks k0) as [[xs Hxs] Hw]; [set_solver|].
  assert (pairs_of v k0 = (fun x => (k0, x)) <$> xs) as -> by (unfold pairs_of; by rewrite Hxs).
  rewrite put_pairs_key by (by eapply Hv).
  rewrite Hw. simpl. rewrite IH; [|done|].
  - destruct (decide (k ∈ ks)) as [Hin|Hin].
    { by rewrite decide_True by (by right). }
    rewrite lookup_insert. destruct (decide (k0 = k)) as [->|Hne].
    + by rewrite decide_True by (by left).
    + rewrite decide_False; [done|]. by intros [->|?]%elem_of_cons.
  - intros k' Hk'. destruct (Hks k') as [? ?]; [set_solver|].
    split; [done|]. rewrite lookup_insert_ne; [done|set_solver].
Qed.

Lemma sorted_keys_perm v : sorted_keys v ≡ₚ (map_to_list v).*1.
Proof. apply merge_sort_Permutation. Qed.

(** Parsing an encoded query gives the values back. *)
Lemma ParseQuery_Encode v : values_wf v -> ParseQuery (Values_Encode v) = v.
Proof.
  intros Hv. unfold ParseQuery, Values_Encode.
  assert (Hnd : NoDup (sorted_keys v)) by (rewrite sorted_keys_perm; apply NoDup_fst_map_to_list).
  assert (Hin : forall k, k ∈ sorted_keys v <-> is_Some (v !! k)).
  { intros k. rewrite sorted_keys_perm, list_elem_of_fmap. split.
    - intros [[k' x] [-> Hx%elem_of_map_to_list]]. eauto.
    - intros [x Hx%elem_of_map_to_list]. by exists (k, x). }
  assert (Henc : sorted_keys v ≫= encode_key v = enc_pair <$> (sorted_keys v ≫= pairs_of v)).
  { clear. generalize (sorted_keys v). intros ks. induction ks as [|k ks IH]; [done|].
    rewrite !bind_cons, fmap_app, IH. f_equal. unfold encode_key, pairs_of.
    by rewrite <-list_fmap_compose. }
  rewrite Henc. destruct (sorted_keys v ≫= pairs_of v) as [|p ps] eqn:Ep.
  - change (∅ = v). apply map_eq. intros k. rewrite lookup_empty. destruct (v !! k) as [xs|] eqn:Ek; [|done].
    assert (Hk : k ∈ sorted_keys v) by (apply Hin; eauto).
    destruct xs as [|x xs]; [by apply Hv in Ek|].
    assert (Hx : (k, x) ∈ sorted_keys v ≫= pairs_of v).
    { apply list_elem_of_bind. exists k. split; [|done]. unfold pairs_of. rewrite Ek. set_solver. }
    rewrite Ep in Hx. set_solver.
  - rewrite Split_Join; [|done|apply Forall_fmap, Forall_true; intros; by apply enc_pair_no_byte].
    rewrite <-Ep. apply map_eq. intros k.
    assert (Hfold : forall l w, foldl add_pair w (enc_pair <$> l) = foldl put_pair w l).
    { intros l. induction l as [|q l IHl]; intros w; [done|]. simpl. by rewrite add_pair_enc. }
    rewrite Hfold, put_pairs_all; [|done|done|].
    + destruct (decide (k ∈ sorted_keys v)) as [|Hk]; [done|].
      rewrite Hin in Hk. symmetry. by apply eq_None_not_Some.
    + intros k' Hk'. rewrite lookup_empty. split; [by apply Hin|done].
Qed.

(** Parsed queries have no empty value lists. *)
Lemma values_wf_Set k x v : values_wf v -> values_wf (Values_Set k x v).
Proof. intros Hv. by apply map_Forall_insert_2. Qed.

Lemma ParseQuery_wf s : values_wf (ParseQuery s).
Proof.
  unfold ParseQuery. assert (values_wf ∅) as Hv by apply map_Forall_empty. revert Hv.
  generalize (∅ : Values). induction (Split s "&") as [|p l IH]; intros v Hv; [done|]. simpl. apply IH.
  unfold add_pair. case_decide; [done|]. destruct (negb _); [done|]. destruct (cut_eq p) as [k x].
  destruct (QueryUnescape k) as [k'|]; simpl; [|done]. destruct (QueryUnescape x) as [x'|]; simpl; [|done].
  apply map_Forall_insert_2; [|done]. by destruct (default [] (v !! k')).
Qed.

Lemma Values_Get_Set k x v : Values_Get (Values_Set k x v) k = x.
Proof. unfold Values_Get, Values_Set. by rewrite lookup_insert_eq. Qed.
Lemma Values_Get_Set_ne k k' x v : k ≠ k' -> Values_Get (Values_Set k x v) k' = Values_Get v k'.
Proof. intros Hne. unfold Values_Get, Values_Set. by rewrite lookup_insert_ne. Qed.
