(* ===== verification/GoHTTP.v ===== *)
(** * GoHTTP: Go's [net/http] as the handlers see it, and the environment.

    Requests as the server hands them to a handler, the response writer, the
    client side, and the [Env] class: the clock, the random source and
    everything reached over the network are parameters of the model. *)
From S2P Require Import Prelude GoStrings GoCrypto GoJson GoURL.

(** ** Status codes *)
Definition StatusOK : Z := 200.
Definition StatusCreated : Z := 201.
Definition StatusMovedPermanently : Z := 301.
Definition StatusFound : Z := 302.
Definition StatusBadRequest : Z := 400.
Definition StatusUnauthorized : Z := 401.
Definition StatusForbidden : Z := 403.
Definition StatusNotFound : Z := 404.
Definition StatusMethodNotAllowed : Z := 405.
Definition StatusInternalServerError : Z := 500.
Definition StatusBadGateway : Z := 502.
Definition StatusServiceUnavailable : Z := 503.

(** ** [http.Header]: canonical keys, several values per key *)
Abbreviation Header := (gmap string (list string)).

Definition token_mark (a : ascii) : bool :=
  existsb (fun b => bool_decide (a = b))
    ["!"; "#"; "$"; "%"; "&"; "'"; "*"; "+"; "-"; "."; "^"; "_"; "`"; "|"; "~"]%char.
Definition token_byte (a : ascii) : bool := is_alnum a || token_mark a.
Fixpoint canon_go (upper : bool) (s : string) : string :=
  match s with
  | "" => ""
  | String a r =>
      String (if upper then upper_byte a else lower_byte a) (canon_go (bool_decide (a = "-"%char)) r)
  end.
Definition CanonicalKey (k : string) : string :=
  if str_forall token_byte k then canon_go true k else k.

Definition Header_Get (h : Header) (k : string) : string :=
  match h !! CanonicalKey k with Some (x :: _) => x | _ => "" end.
Definition Header_Set (k x : string) (h : Header) : Header := <[CanonicalKey k := [x]]> h.
Definition Header_Add (k x : string) (h : Header) : Header :=
  <[CanonicalKey k := default [] (h !! CanonicalKey k) ++ [x]]> h.
(** [for key, values := range src { for _, v := range values { dst.Add(key, v) } }]:
    the keys of [src] are distinct, so the order of the range does not matter. *)
Definition Header_AddAll (src dst : Header) : Header :=
  union_with (fun a b => Some (a ++ b)) dst src.

(** ** Requests

    [FormErr] and [Form] are what [r.ParseForm] gives where a handler calls it. *)
Record Request := mkRequest {
  Method : string;
  Path : string;              (* r.URL.Path, decoded *)
  EscPath : string;           (* r.URL.EscapedPath() *)
  RawQ : string;              (* r.URL.RawQuery *)
  Host : string;
  TLS : bool;                 (* r.TLS != nil *)
  ReqHeader : Header;
  Cookies : list (string * string);   (* r.Cookies(), parsed *)
  FormErr : bool;             (* r.ParseForm() fails *)
  Form : Values;              (* r.Form *)
  ReqBody : option string;    (* r.Body; None when reading it fails *)
}.
Definition Query (r : Request) : Values := ParseQuery (RawQ r).
Definition FormValue (r : Request) (k : string) : string := Values_Get (Form r) k.
Definition get_header (r : Request) (k : string) : string := Header_Get (ReqHeader r) k.
Definition UserAgent (r : Request) : string := get_header r "User-Agent".

(** [r.Cookie(name)]: the value of the first cookie of that name. *)
Definition Cookie (r : Request) (name : string) : option string :=
  snd <$> find (fun c => bool_decide (c.1 = name)) (Cookies r).
(** [cookie, err := r.Cookie(name)] followed by [err != nil || cookie.Value == ""]. *)
Definition CookieValue (r : Request) (name : string) : string := default "" (Cookie r name).

(** [r.URL.RequestURI()] of a request with a rooted path and no opaque part. *)
Definition RequestURI (r : Request) : string :=
  let p := if decide (EscPath r = "") then "/" else EscPath r in
  if decide (RawQ r = "") then p else p +:+ "?" +:+ RawQ r.

(** ** The response writer *)
Inductive SameSite := SameSiteDefault | SameSiteLax | SameSiteStrict.
Record SetCookie := mkSetCookie {
  ck_name : string;
  ck_value : string;
  ck_path : string;
  ck_maxage : Z;
  ck_httponly : bool;
  ck_samesite : SameSite;
}.

(** [rw_sent] is the status and header block once they are written; headers set
    later are lost.  Set-Cookie headers are kept apart, in order. *)
Record ResponseWriter := mkRW {
  rw_header : Header;
  rw_cookies : list SetCookie;
  rw_sent : option (Z * Header * list SetCookie);
  rw_body : string;
}.
Definition rw0 : ResponseWriter := mkRW ∅ [] None "".

Definition rw_set (k x : string) (w : ResponseWriter) : ResponseWriter :=
  mkRW (Header_Set k x (rw_header w)) (rw_cookies w) (rw_sent w) (rw_body w).
Definition rw_add_all (h : Header) (w : ResponseWriter) : ResponseWriter :=
  mkRW (Header_AddAll h (rw_header w)) (rw_cookies w) (rw_sent w) (rw_body w).
Definition set_cookie (c : SetCookie) (w : ResponseWriter) : ResponseWriter :=
  mkRW (rw_header w) (rw_cookies w ++ [c]) (rw_sent w) (rw_body w).
Definition WriteHeader (code : Z) (w : ResponseWriter) : ResponseWriter :=
  match rw_sent w with
  | Some _ => w
  | None => mkRW (rw_header w) (rw_cookies w) (Some (code, rw_header w, rw_cookies w)) (rw_body w)
  end.
Definition Write (data : string) (w : ResponseWriter) : ResponseWriter :=
  let w := WriteHeader StatusOK w in
  mkRW (rw_header w) (rw_cookies w) (rw_sent w) (rw_body w +:+ data).

(** What the client receives. *)
Definition rw_status (w : ResponseWriter) : Z :=
  match rw_sent w with Some (c, _, _) => c | None => StatusOK end.
Definition sent_header (w : ResponseWriter) : Header :=
  match rw_sent w with Some (_, h, _) => h | None => rw_header w end.
Definition sent_cookies (w : ResponseWriter) : list SetCookie :=
  match rw_sent w with Some (_, _, c) => c | None => rw_cookies w end.

Definition newline : string := String "010"%char "".
Definition http_Error (w : ResponseWriter) (msg : string) (code : Z) : ResponseWriter :=
  Write (msg +:+ newline) (WriteHeader code
    (rw_set "X-Content-Type-Options" "nosniff"
       (rw_set "Content-Type" "text/plain; charset=utf-8" w))).
(** Content type, status, then the JSON document. *)
Definition write_json (status : Z) (v : json) (w : ResponseWriter) : ResponseWriter :=
  Write (Encode v) (WriteHeader status (rw_set "Content-Type" "application/json" w)).

(** [path.Clean] of a rooted path. *)
Definition clean_step (st : list string) (x : string) : list string :=
  if decide (x = "" \/ x = ".") then st
  else if decide (x = "..") then tail st else x :: st.
Definition path_Clean (p : string) : string :=
  "/" +:+ Join (rev (foldl clean_step [] (Split p "/"))) "/".
(** The directory part of a path, up to and including the last slash. *)
Definition path_dir (p : string) : string :=
  let segs := Split p "/" in Join (take (length segs - 1) segs ++ [""]) "/".
(** Bytes above 0x7f of a Location are percent-encoded in lower case. *)
Fixpoint hexEscapeNonASCII (s : string) : string :=
  match s with
  | "" => ""
  | String a r => (if ord a <? 128 then String a "" else String "%" (hex_encode (String a "")))
                    +:+ hexEscapeNonASCII r
  end.

Section redirect.
Context `{!NetURL}.
(** [http.Redirect]: a URL without scheme and host is taken relative to the
    directory of the request and cleaned. *)
Definition redirect_location (req_path url : string) : string :=
  match url_Parse url with
  | Some u =>
      if decide (Scheme u = "" /\ UHost u = "") then
        let old := if decide (req_path = "") then "/" else req_path in
        let url := if HasPrefix url "/" then url else path_dir old +:+ url in
        let '(p, q) := match SplitN url "?" 2 with
          | [p; q] => (p, "?" +:+ q) | _ => (url, "") end in
        let c := path_Clean p in
        (if HasSuffix p "/" && negb (HasSuffix c "/") then c +:+ "/" else c) +:+ q
      else url
  | None => url
  end.
(** The short HTML body for browsers is not modelled. *)
Definition Redirect (w : ResponseWriter) (r : Request) (url : string) (code : Z) : ResponseWriter :=
  WriteHeader code (rw_set "Location" (hexEscapeNonASCII (redirect_location (Path r) url)) w).
End redirect.

(** ** The client side and the environment *)
Record HTTPRequest := mkHTTPRequest {
  hq_method : string;
  hq_url : string;
  hq_header : Header;
  hq_body : option string;    (* None: no body, or one that cannot be read *)
  hq_host : string;           (* "" : the host of the URL *)
  hq_follow : bool;           (* follows redirects *)
}.
Record HTTPResponse := mkHTTPResponse {
  hr_status : Z;
  hr_header : Header;
  hr_body : string;
  hr_body_err : bool;         (* the connection breaks after [hr_body] *)
}.

(** [io.ReadAll(io.LimitReader(resp.Body, n))]. *)
Definition ReadLimited (n : Z) (r : HTTPResponse) : result string :=
  if n <=? Z.of_nat (slen (hr_body r)) then Ok (str_take (Z.to_nat n) (hr_body r))
  else if hr_body_err r then Err "unexpected EOF" else Ok (hr_body r).

(** The environment of the portal.  [srv] is the state of vire-server and of
    whatever else is on the network, [http_do] one HTTP exchange with it;
    [clock n] is the n-th reading of the clock and [rand_read n k] the k bytes
    of the n-th read of the random source, or its failure. *)
Class Env := {
  srv : Type;
  http_do : HTTPRequest -> srv -> result HTTPResponse * srv;
  clock : nat -> Z;
  rand_read : nat -> nat -> option string;
}.

Section world.
Context `{!Env} `{!NetURL}.

Record World := mkWorld {
  w_srv : srv;
  w_tick : nat;
  w_draw : nat;
}.

Definition time_Now : M World Z := fun w =>
  (clock (w_tick w), mkWorld (w_srv w) (S (w_tick w)) (w_draw w)).
Definition rand_Read (n : nat) : M World (option string) := fun w =>
  (rand_read (w_draw w) n, mkWorld (w_srv w) (w_tick w) (S (w_draw w))).
Definition client_Do (q : HTTPRequest) : M World (result HTTPResponse) := fun w =>
  let '(r, s) := http_do q (w_srv w) in (r, mkWorld s (w_tick w) (w_draw w)).

(** [http.NewRequest]: a valid method token and a URL that parses. *)
Definition NewRequest (method url : string) (body : option string) : option HTTPRequest :=
  if negb (bool_decide (method = "")) && str_forall token_byte method then
    match url_Parse url with
    | Some _ => Some (mkHTTPRequest method url ∅ body "" true)
    | None => None
    end
  else None.
Definition req_set (k x : string) (q : HTTPRequest) : HTTPRequest :=
  mkHTTPRequest (hq_method q) (hq_url q) (Header_Set k x (hq_header q)) (hq_body q) (hq_host q) (hq_follow q).
Definition req_with (h : Header) (q : HTTPRequest) : HTTPRequest :=
  mkHTTPRequest (hq_method q) (hq_url q) (Header_AddAll h (hq_header q)) (hq_body q) (hq_host q) (hq_follow q).
End world.

(** ** Lemmas *)
Lemma WriteHeader_sent code w x : rw_sent w = Some x -> WriteHeader code w = w.
Proof. unfold WriteHeader. by intros ->. Qed.

Lemma rw_status_WriteHeader code w : rw_sent w = None -> rw_status (WriteHeader code w) = code.
Proof. unfold rw_status, WriteHeader. by intros ->. Qed.

Lemma rw_status_Write d w : rw_sent w ≠ None -> rw_status (Write d w) = rw_status w.
Proof. unfold rw_status, Write, WriteHeader. by destruct (rw_sent w) as [[[? ?] ?]|] eqn:E; simpl; rewrite ?E. Qed.

Lemma rw_status_http_Error w msg code :
  rw_sent w = None -> rw_status (http_Error w msg code) = code.
Proof.
  intros H. unfold http_Error. rewrite rw_status_Write; [by rewrite rw_status_WriteHeader|].
  unfold WriteHeader. simpl. by rewrite H.
Qed.

Lemma rw_status_write_json w v code :
  rw_sent w = None -> rw_status (write_json code v w) = code.
Proof.
  intros H. unfold write_json. rewrite rw_status_Write; [by rewrite rw_status_WriteHeader|].
  unfold WriteHeader. simpl. by rewrite H.
Qed.

Lemma Header_Get_Set h k x : Header_Get (Header_Set k x h) k = x.
Proof. unfold Header_Get, Header_Set. by rewrite lookup_insert_eq. Qed.

Lemma Header_Get_Set_ne h k k' x :
  CanonicalKey k' ≠ CanonicalKey k -> Header_Get (Header_Set k' x h) k = Header_Get h k.
Proof. intros H. unfold Header_Get, Header_Set. by rewrite lookup_insert_ne. Qed.

Lemma NewRequest_ok `{!Env} `{!NetURL} method url body :
  negb (bool_decide (method = "")) && str_forall token_byte method = true ->
  is_Some (url_Parse url) ->
  NewRequest method url body = Some (mkHTTPRequest method url ∅ body "" true).
Proof. intros Hm [u Hu]. unfold NewRequest. by rewrite Hm, Hu. Qed.

Lemma Header_AddAll_empty h : Header_AddAll h ∅ = h.
Proof. unfold Header_AddAll. apply (left_id _ _). Qed.

(** ** What a computation sends

    [log] lists the requests that have reached the network in a state of it. *)
Section sends.
Context `{!Env} (log : srv -> list HTTPRequest).

(** Every request [m] makes satisfies [Q]. *)
Definition sends {A} (Q : HTTPRequest -> Prop) (m : M World A) : Prop :=
  forall w, exists l, log (w_srv (m w).2) = log (w_srv w) ++ l /\ Forall Q l.

Lemma sends_ret {A} Q (x : A) : sends Q (mret x).
Proof. intros w. exists []. by rewrite app_nil_r. Qed.
Lemma sends_bind {A B} Q (m : M World A) (f : A -> M World B) :
  sends Q m -> (forall w, sends Q (f (m w).1)) -> sends Q (m ≫= f).
Proof.
  intros Hm Hf w. rewrite M_bind_unfold. destruct (Hm w) as (l1 & E1 & F1). specialize (Hf w (m w).2).
  destruct (m w) as [a w']. destruct Hf as (l2 & E2 & F2). exists (l1 ++ l2). simpl in *.
  rewrite E2, E1, app_assoc. split; [done|by apply Forall_app].
Qed.

Hypothesis log_do : forall q s, log (http_do q s).2 = log s ++ [q].
Lemma log_client_Do q w : log (w_srv (client_Do q w).2) = log (w_srv w) ++ [q].
Proof. unfold client_Do. pose proof (log_do q (w_srv w)) as Hl. by destruct (http_do q (w_srv w)). Qed.
Lemma sends_do (Q : HTTPRequest -> Prop) q : Q q -> sends Q (client_Do q).
Proof. intros Hq w. exists [q]. rewrite log_client_Do. split; [done|by constructor]. Qed.
End sends.
