(* ===== verification/GoPath.v ===== *)
(** * GoPath: package path/filepath on Unix, and the file system.

    [Clean], [Join] and [Abs] are executable; the files themselves are the
    class [FileSys]. *)
From S2P Require Import Prelude GoStrings GoURL GoHTTP.

(** ** Cleaning a path lexically *)
Definition step_path (rooted : bool) (st : list string) (x : string) : list string :=
  if decide (x = "" \/ x = ".") then st
  else if decide (x = "..") then
    match st with
    | [] => if rooted then [] else [".."]
    | y :: st' => if decide (y = "..") then ".." :: st else st'
    end
  else x :: st.
Definition stack_of (rooted : bool) (p : string) : list string :=
  foldl (step_path rooted) [] (Split p "/").
Definition render (rooted : bool) (st : list string) : string :=
  if rooted then "/" +:+ Join (rev st) "/"
  else match st with [] => "." | _ => Join (rev st) "/" end.
Definition IsAbs (p : string) : bool := HasPrefix p "/".
Definition filepath_Clean (p : string) : string := render (IsAbs p) (stack_of (IsAbs p) p).
(** [filepath.Join] of two elements; empty ones are ignored. *)
Definition filepath_Join (a b : string) : string :=
  if decide (a = "") then (if decide (b = "") then "" else filepath_Clean b)
  else filepath_Clean (a +:+ "/" +:+ b).

(** The files: [os.Stat] gives whether a name is a directory, [os.Getwd] may
    fail. *)
Class FileSys := {
  os_Stat : string -> option bool;
  os_Getwd : option string;
}.
(** [abs, _ := filepath.Abs(p)]: "" when the working directory is unknown. *)
Definition filepath_Abs `{!FileSys} (p : string) : string :=
  if IsAbs p then filepath_Clean p
  else match os_Getwd with Some wd => filepath_Join wd p | None => "" end.

Definition filepath_Dir (p : string) : string := filepath_Clean (path_dir p).

(** The loop both commands use to drop paths that name the same file: a path is
    kept unless an earlier one has the same absolute path. *)
Definition abs_key `{!FileSys} (p : string) : string :=
  match os_Getwd with Some _ => filepath_Abs p | None => if IsAbs p then filepath_Abs p else p end.
Fixpoint dedup_paths `{!FileSys} (seen : gset string) (paths : list string) : list string :=
  match paths with
  | [] => []
  | p :: paths => if decide (abs_key p ∈ seen) then dedup_paths seen paths
                  else p :: dedup_paths ({[abs_key p]} ∪ seen) paths
  end.

(** [dir] itself or a name below it. *)
Definition under (dir name : string) : Prop := name = dir \/ exists rest, name = dir +:+ "/" +:+ rest.

(** ** Lemmas *)
Lemma Split_nonnil s c : Split s c ≠ [].
Proof. destruct s as [|a s]; simpl; [done|]. destruct (decide _); [done|]. by destruct (Split s c). Qed.

Lemma Split_no_byte s c : Forall (fun x => no_byte c x = true) (Split s c).
Proof.
  induction s as [|a s IH]; simpl; [by repeat constructor|].
  destruct (decide (a = c)) as [->|Hn]; [by constructor|].
  destruct (Split s c) as [|x l]; [constructor; [|done]; by apply no_byte_cons|].
  inversion IH; subst. constructor; [by apply no_byte_cons|done].
Qed.

Lemma Split_app s t c : Split (s +:+ String c t) c = Split s c ++ Split t c.
Proof.
  induction s as [|a s IH]; simpl.
  { by rewrite decide_True. }
  rewrite IH. destruct (decide (a = c)); [done|].
  pose proof (Split_nonnil s c). by destruct (Split s c).
Qed.

Lemma Split_Join_segs l :
  l ≠ [] -> Forall (fun x => no_byte "/" x = true) l -> Split (Join l "/") "/" = l.
Proof.
  intros Hn HF. induction l as [|x l IH]; [done|]. inversion HF; subst.
  destruct l as [|y l]; [by rewrite Split_last|].
  change (Join (x :: y :: l) "/") with (x +:+ String "/" "" +:+ Join (y :: l) "/").
  rewrite append_char, Split_app, Split_last by done. by rewrite IH.
Qed.

Lemma Join_app l1 l2 sep : l1 ≠ [] -> l2 ≠ [] -> Join (l1 ++ l2) sep = Join l1 sep +:+ sep +:+ Join l2 sep.
Proof.
  intros H1 H2. induction l1 as [|x l1 IH]; [done|]. destruct l1 as [|y l1].
  { by destruct l2. }
  change ((x :: y :: l1) ++ l2) with (x :: (y :: l1) ++ l2).
  change (Join (x :: (y :: l1) ++ l2) sep) with (x +:+ sep +:+ Join ((y :: l1) ++ l2) sep).
  rewrite IH by done.
  change (Join (x :: y :: l1) sep) with (x +:+ sep +:+ Join (y :: l1) sep). by rewrite !append_assoc.
Qed.

(** A plain segment: neither empty nor a dot name, and without a slash. *)
Definition plain (x : string) : Prop :=
  x ≠ "" /\ x ≠ "." /\ x ≠ ".." /\ no_byte "/" x = true.
(** What the cleaning loop leaves: plain segments above leading dot-dots. *)
Inductive clean_stack (rooted : bool) : list string -> Prop :=
| cs_nil : clean_stack rooted []
| cs_dots st : rooted = false -> Forall (eq "..") st -> clean_stack rooted (".." :: st)
| cs_plain x st : plain x -> clean_stack rooted st -> clean_stack rooted (x :: st).
#[export] Hint Constructors clean_stack : vire.

Lemma step_path_clean rooted st x :
  no_byte "/" x = true -> clean_stack rooted st -> clean_stack rooted (step_path rooted st x).
Proof.
  intros Hb Hst. unfold step_path. destruct (decide (x = "" \/ x = ".")) as [|Hd]; [done|].
  destruct (decide (x = "..")) as [->|Hn].
  - inversion Hst as [|st' Hr Hf|y st' Hp Hc]; subst.
    + destruct rooted; [constructor|]. by constructor.
    + rewrite decide_True by done. constructor; [done|]. by constructor.
    + rewrite decide_False by (by destruct Hp as (_ & _ & ? & _)). done.
  - apply cs_plain; [|done]. unfold plain. tauto.
Qed.

Lemma stack_of_clean rooted p : clean_stack rooted (stack_of rooted p).
Proof.
  unfold stack_of. pose proof (Split_no_byte p "/") as HF. revert HF.
  assert (clean_stack rooted []) as H0 by constructor. revert H0. generalize (@nil string) as st.
  induction (Split p "/") as [|x l IH]; intros st H0 HF; simpl; [done|].
  inversion HF; subst. apply IH; [|done]. by apply step_path_clean.
Qed.

Lemma clean_stack_segs rooted st : clean_stack rooted st -> Forall (fun x => no_byte "/" x = true) st.
Proof.
  induction 1 as [| st _ Hf |x st (_ & _ & _ & Hx) _ IH]; [done| |by constructor].
  constructor; [done|]. eapply Forall_impl; [exact Hf|]. by intros ? <-.
Qed.

Lemma step_path_push rooted x st : clean_stack rooted (x :: st) -> step_path rooted st x = x :: st.
Proof.
  inversion 1 as [| st' Hr Hf |y st' (H1 & H2 & H3 & _) _]; subst; unfold step_path.
  - rewrite decide_False by naive_solver. rewrite decide_True by done.
    destruct st as [|y st]; [done|]. inversion Hf; subst. by rewrite decide_True.
  - rewrite decide_False by tauto. by rewrite decide_False.
Qed.

(** Cleaning twice is cleaning once. *)
Lemma restack rooted st : clean_stack rooted st -> foldl (step_path rooted) [] (rev st) = st.
Proof.
  induction st as [|x st IH]; [done|]. intros Hc. simpl. rewrite foldl_app. simpl.
  rewrite IH; [by apply step_path_push|].
  inversion Hc as [| ? Hr Hf |]; subst; [|done]. clear -Hf. induction Hf as [|y l <- Hf IH]; by constructor.
Qed.

Lemma render_stack rooted st :
  st ≠ [] -> clean_stack rooted st -> stack_of rooted (render rooted st) = st.
Proof.
  intros Hn Hc. pose proof (clean_stack_segs _ _ Hc) as HF.
  assert (Split (Join (rev st) "/") "/" = rev st) as Hs.
  { apply Split_Join_segs; [intros E; apply Hn; by rewrite <-(rev_involutive st), E|].
    apply Forall_forall. intros x Hx. eapply Forall_forall in HF; [exact HF|].
    rewrite list_elem_of_In in *. by apply in_rev. }
  unfold stack_of, render. destruct rooted.
  - change ("/" +:+ Join (rev st) "/") with ("" +:+ String "/" (Join (rev st) "/")).
    rewrite Split_app, Hs. simpl. by apply restack.
  - destruct st as [|x st]; [done|]. rewrite Hs. by apply restack.
Qed.

Lemma render_rooted rooted st : st ≠ [] -> clean_stack rooted st -> IsAbs (render rooted st) = rooted.
Proof.
  intros Hn Hc. unfold render, IsAbs. destruct rooted; [apply HasPrefix_append|]. destruct st as [|x st]; [done|].
  pose proof (clean_stack_segs _ _ Hc) as HF.
  assert (exists y l, rev (x :: st) = y :: l /\ y ≠ "" /\ no_byte "/" y = true) as (y & l & -> & Hy & Hb).
  { destruct (rev (x :: st)) as [|y l] eqn:E; [by apply (f_equal (@rev string)) in E; rewrite rev_involutive in E|].
    assert (y ∈ x :: st) as Hin by (apply list_elem_of_In, in_rev; rewrite E; by left).
    exists y, l. split; [done|]. split; [|by eapply Forall_forall in HF].
    clear -Hc Hin. revert Hin. induction Hc as [| st' Hr Hf |z st' Hz Hc IH]; [by intros ?%not_elem_of_nil| |].
    - intros [->|Hin]%elem_of_cons; [done|]. eapply Forall_forall in Hf; [|done]. by subst.
    - intros [->|Hin]%elem_of_cons; [by destruct Hz|auto]. }
  destruct y as [|a y]; [done|]. apply no_byte_cons in Hb as [Ha _].
  assert (exists rest, Join (String a y :: l) "/" = String a rest) as [rest ->].
  { destruct l as [|z l]; simpl; rewrite ?append_cons; eauto. }
  unfold HasPrefix. simpl. by case_match.
Qed.

(** Without dot-dot segments the loop only adds plain segments. *)
Lemma stack_no_dotdot rooted segs : forall st,
  Forall (fun x => no_byte "/" x = true) segs -> ".." ∉ segs ->
  exists added, foldl (step_path rooted) st segs = added ++ st /\ Forall plain added.
Proof.
  induction segs as [|x segs IH]; intros st HF Hd; [by exists []|]. inversion HF; subst.
  apply not_elem_of_cons in Hd as [Hx Hd]. simpl.
  unfold step_path at 2. destruct (decide (x = "" \/ x = ".")) as [|Hn]; [by apply IH|].
  rewrite decide_False by done. destruct (IH (x :: st)) as (added & -> & Ha); [done..|].
  exists (added ++ [x]). rewrite <-app_assoc. split; [done|]. apply Forall_app. split; [done|].
  constructor; [|done]. unfold plain. naive_solver.
Qed.

(** Joining a name without dot-dot segments to a clean directory stays below it. *)
Lemma filepath_Join_under rooted st name :
  st ≠ [] -> clean_stack rooted st -> ".." ∉ Split name "/" ->
  under (render rooted st) (filepath_Join (render rooted st) name).
Proof.
  intros Hn Hc Hd. set (dir := render rooted st).
  pose proof (render_rooted rooted st Hn Hc) as Hr. fold dir in Hr.
  pose proof (render_stack rooted st Hn Hc) as Hs. fold dir in Hs.
  assert (dir ≠ "") as Hne by (intros E; rewrite E in Hs; by subst st).
  unfold filepath_Join. rewrite decide_False by done.
  assert (IsAbs (dir +:+ "/" +:+ name) = rooted) as Ha.
  { clearbody dir. clear -Hr Hne. unfold IsAbs, HasPrefix in *. destruct dir as [|a d]; [done|].
    assert (forall s, String.prefix "" s = true) as Hp by (by intros []).
    rewrite append_cons. simpl in *. rewrite Hp in *. exact Hr. }
  unfold filepath_Clean. rewrite Ha, append_char. unfold stack_of in *. rewrite Split_app, foldl_app, Hs.
  destruct (stack_no_dotdot rooted (Split name "/") st (Split_no_byte _ _) Hd) as (added & -> & Hp).
  destruct (decide (added = [])) as [->|Hadd]; [by left|]. right. exists (Join (rev added) "/").
  assert (rev added ≠ []) as Hra by (intros E; apply Hadd; by rewrite <-(rev_involutive added), E).
  assert (rev st ≠ []) as Hrs by (intros E; apply Hn; by rewrite <-(rev_involutive st), E).
  unfold dir, render. rewrite rev_app_distr, Join_app by done. destruct rooted; [by rewrite !append_assoc|].
  destruct st; [done|]. by destruct (added ++ s :: st) eqn:E; [destruct added|].
Qed.

(** ** Dropping duplicates *)
Section dedup.
Context `{!FileSys}.

Lemma dedup_fresh paths : forall seen p, p ∈ dedup_paths seen paths -> abs_key p ∉ seen.
Proof.
  induction paths as [|q paths IH]; intros seen p; simpl; [by intros ?%not_elem_of_nil|].
  destruct (decide (abs_key q ∈ seen)); [apply IH|].
  intros [->|Hp]%elem_of_cons; [done|]. apply IH in Hp. set_solver.
Qed.
Lemma dedup_NoDup paths : forall seen, NoDup (abs_key <$> dedup_paths seen paths).
Proof.
  induction paths as [|q paths IH]; intros seen; simpl; [constructor|].
  destruct (decide (abs_key q ∈ seen)); [apply IH|]. constructor; [|apply IH].
  intros (p & Hp & Hin)%list_elem_of_fmap. apply dedup_fresh in Hin. set_solver.
Qed.
(** Whether a file is there depends on where the path leads; then the first
    path found is the same with and without the duplicates. *)
Lemma dedup_find (there : string -> bool) paths : forall seen,
  (forall p q, abs_key p = abs_key q -> there p = there q) ->
  (forall p, abs_key p ∈ seen -> there p = false) ->
  find there (dedup_paths seen paths) = find there paths.
Proof.
  intros seen Hth. revert seen. induction paths as [|q paths IH]; intros seen Hs; simpl; [done|].
  destruct (decide (abs_key q ∈ seen)) as [Hin|Hin]; [by rewrite (Hs q Hin), IH|].
  simpl. destruct (there q) eqn:Hq; [done|]. apply IH. intros p [Hp%elem_of_singleton|Hp]%elem_of_union; [|auto].
  by rewrite (Hth p q).
Qed.
End dedup.
