(* ===== verification/ApiPath.v ===== *)
(** * ApiPath: which requests stay under /api of the server

    A request URL is the configured base followed by a path; where it ends up is
    the path part (what precedes the query and the fragment) with its dot
    segments resolved, as [path.Clean] resolves them. *)
From S2P Require Import Prelude GoStrings GoURL GoHTTP GoPath.

(** The path part of a URL reference: up to a question mark or a hash. *)
Definition path_end (a : ascii) : bool := bool_decide (a = "?"%char) || bool_decide (a = "#"%char).
Fixpoint url_path (s : string) : string :=
  match s with
  | "" => ""
  | String a r => if path_end a then "" else String a (url_path r)
  end.
(** The resolved path is /api or lies below it. *)
Definition under_api (path : string) : Prop :=
  let c := path_Clean (url_path path) in c = "/api" \/ HasPrefix c "/api/" = true.

(** ** Walking the segments

    [climbs d l] walks [l] from a directory [d] levels below /api and fails when
    it leaves /api. *)
Fixpoint climbs (d : nat) (l : list string) : bool :=
  match l with
  | [] => true
  | x :: l =>
      if decide (x = "" \/ x = ".") then climbs d l
      else if decide (x = "..") then match d with O => false | S d => climbs d l end
      else climbs (S d) l
  end.

Lemma climbs_stack l : forall st, climbs (length st) l = true ->
  exists st', foldl clean_step (st ++ ["api"]) l = st' ++ ["api"].
Proof.
  induction l as [|x l IH]; intros st Hc; [by exists st|]. cbn [foldl climbs] in *. unfold clean_step at 2.
  destruct (decide (x = "" \/ x = ".")); [by apply IH|]. destruct (decide (x = "..")).
  - destruct st as [|y st]; [done|]. by apply IH.
  - by apply (IH (x :: st)).
Qed.
Lemma Join_head x l : Join (x :: l) "/" = x \/ HasPrefix (Join (x :: l) "/") (x +:+ "/") = true.
Proof.
  destruct l as [|y l]; [by left|right]. change (Join (x :: y :: l) "/") with (x +:+ "/" +:+ Join (y :: l) "/").
  rewrite <-append_assoc. apply HasPrefix_append.
Qed.
Lemma climbs_under path rest :
  url_path path = "/api/" +:+ rest -> climbs 0 (Split rest "/") = true -> under_api path.
Proof.
  intros Hp Hc. unfold under_api, path_Clean. rewrite Hp.
  change ("/api/" +:+ rest) with ("" +:+ String "/" ("api" +:+ String "/" rest)).
  rewrite (Split_app "" ("api" +:+ String "/" rest) "/"), (Split_app "api" rest "/"). 
  change (foldl clean_step [] (Split "" "/" ++ Split "api" "/" ++ Split rest "/"))
    with (foldl clean_step ([] ++ ["api"]) (Split rest "/")).
  destruct (climbs_stack (Split rest "/") [] Hc) as [st ->]. rewrite rev_app_distr. cbv zeta.
  change (rev ["api"] ++ rev st) with ("api" :: rev st).
  destruct (Join_head "api" (rev st)) as [-> | [r ->]%HasPrefix_spec]; [by left|right].
  exact (HasPrefix_append "/api/" r).
Qed.

Lemma url_path_app s t : no_byte "?" s = true -> no_byte "#" s = true -> url_path (s +:+ t) = s +:+ url_path t.
Proof.
  induction s as [|a s IH]; [done|]. intros [H1 ?]%no_byte_cons [H2 ?]%no_byte_cons. rewrite !append_cons. simpl.
  unfold path_end. by rewrite !bool_decide_false, IH.
Qed.
Lemma url_path_no_byte c s : no_byte c s = true -> no_byte c (url_path s) = true.
Proof.
  induction s as [|a s IH]; [done|]. intros [Ha Hs]%no_byte_cons. simpl. destruct (path_end a); [done|].
  apply no_byte_cons. auto.
Qed.

(** A segment that names something. *)
Definition named (x : string) : Prop := x ≠ "" /\ x ≠ "." /\ x ≠ "..".
Definition one_segment (x : string) : Prop := no_byte "/" x = true /\ no_byte "?" x = true /\ no_byte "#" x = true.
Lemma climbs_named d x l : named x -> climbs d (x :: l) = climbs (S d) l.
Proof. intros (H1 & H2 & H3). cbn [climbs]. by rewrite !decide_False by tauto. Qed.
(** From one level below /api one segment, whatever it is, does not leave it. *)
Lemma climbs_one x l : (forall d, climbs d l = true) -> climbs 1 (x :: l) = true.
Proof. intros Hl. cbn [climbs]. repeat case_decide; apply Hl. Qed.

Lemma under_api_one dir x :
  one_segment dir -> named dir -> no_byte "/" x = true -> under_api ("/api/" +:+ dir +:+ "/" +:+ x).
Proof.
  intros (H1 & H2 & H3) Hd Hx. apply (climbs_under _ (dir +:+ "/" +:+ url_path x)).
  { by rewrite !url_path_app by done. }
  rewrite append_char, Split_app, (Split_last "/" dir), (Split_last "/" (url_path x)) by
    (done || by apply url_path_no_byte).
  cbn [app]. rewrite climbs_named by done. by apply climbs_one.
Qed.
Lemma under_api_two dir x y :
  one_segment dir -> named dir -> one_segment x -> no_byte "/" y = true -> named (url_path y) ->
  under_api ("/api/" +:+ dir +:+ "/" +:+ x +:+ "/" +:+ y).
Proof.
  intros (H1 & H2 & H3) Hd (H1' & H2' & H3') Hy Hn. apply (climbs_under _ (dir +:+ "/" +:+ x +:+ "/" +:+ url_path y)).
  { by rewrite !url_path_app by done. }
  rewrite (append_char "/" (x +:+ _)), Split_app, (Split_last "/" dir), append_char, Split_app,
    (Split_last "/" x), (Split_last "/" (url_path y)) by (done || by apply url_path_no_byte).
  cbn [app]. rewrite climbs_named by done. apply climbs_one. intros d. by rewrite climbs_named.
Qed.
Lemma PathEscape_segment x : one_segment (PathEscape x).
Proof. split_and!; by apply PathEscape_no_byte. Qed.

(** ** Paths without a dot-dot segment

    [no_dotdot st s] reads [s] segment by segment, the segments ended by a slash,
    a question mark or a hash; [st] counts the dots of the current one as long as
    it has nothing else. *)
Definition seg_end (a : ascii) : bool := bool_decide (a = "/"%char) || path_end a.
Definition one_dot (st : option nat) : option nat :=
  match st with Some O => Some 1%nat | Some (S O) => Some 2%nat | _ => None end.
Definition is_two (st : option nat) : bool := match st with Some 2%nat => true | _ => false end.
Fixpoint no_dotdot (st : option nat) (s : string) : bool :=
  match s with
  | "" => negb (is_two st)
  | String a r =>
      if seg_end a then negb (is_two st) && no_dotdot (Some 0%nat) r
      else if decide (a = "."%char) then no_dotdot (one_dot st) r
      else no_dotdot None r
  end.

Lemma no_dotdot_none st s : no_dotdot st s = true -> no_dotdot None s = true.
Proof.
  revert st. induction s as [|a s IH]; intros st; simpl; [done|].
  destruct (seg_end a); [by intros [_ ?]%andb_true_iff|]. case_decide; [apply IH|done].
Qed.
Lemma no_dotdot_tail st x s : no_dotdot st (x +:+ s) = true -> no_dotdot None s = true.
Proof.
  revert st. induction x as [|a x IH]; intros st; [apply no_dotdot_none|]. rewrite append_cons. simpl.
  destruct (seg_end a); [intros [_ ?]%andb_true_iff; eauto|]. case_decide; apply IH.
Qed.
(** Text without separators that is not dots alone ends up inside a segment that
    is no dot segment. *)
Definition dots_only (s : string) : bool := str_forall (fun a => bool_decide (a = "."%char)) s.
Lemma no_dotdot_none_app x s : one_segment x -> no_dotdot None (x +:+ s) = no_dotdot None s.
Proof.
  induction x as [|a x IH]; [done|]. intros ([H1 H1']%no_byte_cons & [H2 H2']%no_byte_cons & [H3 H3']%no_byte_cons).
  rewrite append_cons. simpl. unfold seg_end, path_end. rewrite !bool_decide_false by done. cbn [orb one_dot].
  case_decide; by apply IH.
Qed.
Lemma no_dotdot_text st x s :
  one_segment x -> dots_only x = false -> no_dotdot st (x +:+ s) = no_dotdot None s.
Proof.
  revert st. induction x as [|a x IH]; intros st; [done|].
  intros ([H1 H1']%no_byte_cons & [H2 H2']%no_byte_cons & [H3 H3']%no_byte_cons) Ho.
  unfold dots_only in Ho. cbn [str_forall] in Ho. rewrite append_cons. simpl. unfold seg_end, path_end. rewrite !bool_decide_false by done. cbn [orb].
  case_decide as Hd; [|by apply no_dotdot_none_app].
  rewrite bool_decide_true in Ho by done. by apply IH.
Qed.

(** Replacing pieces of a path by such text makes no dot-dot segment. *)
Lemma no_dotdot_replace_go new old s : one_segment new -> dots_only new = false -> old ≠ "" ->
  forall skip st, no_dotdot st (str_drop skip s) = true -> no_dotdot st (replace_go s old new skip) = true.
Proof.
  intros Hn Hd Ho. induction s as [|a s IH]; intros skip st Hs; [by destruct skip|].
  destruct skip as [|k]; [|by apply IH]. cbn [str_drop] in Hs. cbn [replace_go].
  destruct (String.prefix old (String a s)) eqn:Hp.
  - rewrite no_dotdot_text by done. apply IH.
    apply (HasPrefix_spec (String a s) old) in Hp as [r Hr]. destruct old as [|b old]; [done|].
    rewrite append_cons in Hr. injection Hr as -> ->.
    replace (slen (String b old) - 1)%nat with (slen old) by (simpl; lia). rewrite str_drop_append.
    by apply (no_dotdot_tail st (String b old)).
  - simpl in *. destruct (seg_end a).
    + apply andb_true_iff in Hs as [-> Hs]. by apply (IH 0%nat).
    + case_decide; by apply (IH 0%nat).
Qed.
Lemma dots_only_PathEscape v : dots_only (PathEscape v) = dots_only v.
Proof.
  unfold dots_only. induction v as [|a v IH]; [done|]. cbn [PathEscape str_forall]. rewrite <-IH. unfold path_byte.
  destruct (is_alnum a || is_mark a || path_kept a) eqn:Hk; [done|]. unfold pct. rewrite !append_cons. cbn [str_forall].
  rewrite (bool_decide_false ("%"%char = _)) by done. cbn [andb]. by rewrite bool_decide_false by (intros ->; done).
Qed.
Lemma no_dotdot_replace s name v :
  dots_only v = false -> no_dotdot (Some 0%nat) s = true ->
  no_dotdot (Some 0%nat) (ReplaceAll s ("{" +:+ name +:+ "}") (PathEscape v)) = true.
Proof.
  intros Hv Hs. apply no_dotdot_replace_go; [apply PathEscape_segment|by rewrite dots_only_PathEscape|done|done].
Qed.

Lemma Contains_cons a s x : Contains (String a s) x = false -> Contains s x = false.
Proof. simpl. by intros [_ ?]%orb_false_iff. Qed.
Lemma no_dotdot_plain s : Contains s ".." = false -> forall st,
  (st = Some 1%nat -> HasPrefix s "." = false) -> is_two st = false -> no_dotdot st s = true.
Proof.
  induction s as [|a s IH]; intros Hc st H1 H2; [simpl; by rewrite H2|].
  pose proof (IH (Contains_cons _ _ _ Hc)) as IH'. simpl. destruct (seg_end a).
  { rewrite H2. simpl. by apply IH'. }
  case_decide as Ha; [subst a|by apply IH'].
  assert (HasPrefix s "." = false) as Hs.
  { simpl in Hc. apply orb_false_iff in Hc as [Hc _]. exact Hc. }
  destruct st as [[|[|k]]|]; cbn [one_dot] in *.
  - by apply IH'.
  - specialize (H1 eq_refl). change (String "." s) with ("." +:+ s) in H1. by rewrite HasPrefix_append in H1.
  - by apply IH'.
  - by apply IH'.
Qed.

(** A path under /api/ without a dot-dot segment stays under it. *)
Lemma no_dotdot_segs s : forall st, no_dotdot st s = true ->
  match Split (url_path s) "/" with
  | [] => True
  | x :: l => (st = Some 0%nat -> x ≠ "..") /\ (st = Some 1%nat -> x ≠ ".") /\ (st = Some 2%nat -> x ≠ "") /\ Forall (fun y => y ≠ "..") l
  end.
Proof.
  induction s as [|a s IH]; intros st Hs; simpl in *.
  { split_and!; try done. by intros ->. }
  unfold seg_end in Hs. destruct (path_end a) eqn:Ep; simpl.
  { rewrite orb_true_r in Hs. split_and!; try done. by intros ->. }
  rewrite orb_false_r in Hs. case_bool_decide as Ha.
  - apply andb_true_iff in Hs as [H2 Hs]. rewrite decide_True by done. specialize (IH _ Hs).
    destruct (Split (url_path s) "/") as [|x l]; split_and!; try done; try (by intros ->).
    constructor; [by apply IH|apply IH].
  - rewrite decide_False by done. case_decide as Hd.
    + subst a. specialize (IH _ Hs). destruct (Split (url_path s) "/") as [|x l] eqn:E; [by apply Split_nonnil in E|].
      destruct IH as (I0 & I1 & I2 & Il). split_and!; try done.
      * intros -> [= ->]. by apply I1.
      * intros -> [= ->]. by apply I2.
    + specialize (IH _ Hs). destruct (Split (url_path s) "/") as [|x l].
      * split_and!; try done; intros _ [= ->]; done.
      * destruct IH as (_ & _ & _ & Il). split_and!; try done; intros _ [= -> _]; done.
Qed.
Lemma climbs_no_dotdot l : Forall (fun y => y ≠ "..") l -> forall d, climbs d l = true.
Proof. induction 1 as [|x l Hx _ IH]; intros d; [done|]. cbn [climbs]. case_decide; [done|]. by rewrite decide_False. Qed.
Lemma no_dotdot_under path :
  HasPrefix path "/api/" = true -> no_dotdot (Some 0%nat) path = true -> under_api path.
Proof.
  intros [rest ->]%HasPrefix_spec Hn. apply (climbs_under _ (url_path rest)); [done|].
  apply climbs_no_dotdot. apply no_dotdot_segs in Hn.
  change (url_path ("/api/" +:+ rest)) with ("" +:+ String "/" ("api" +:+ String "/" (url_path rest))) in Hn.
  rewrite (Split_app "" _ "/"), (Split_app "api" _ "/") in Hn. simpl in Hn.
  destruct Hn as (_ & _ & _ & [_ Hn]%Forall_cons). exact Hn.
Qed.
