(* ===== verification/GoMux.v ===== *)
(** * GoMux: the request multiplexer [http.ServeMux]

    Which handler a request reaches: paths are cleaned, patterns are matched
    segment by segment on the escaped path, a missing trailing slash and a path
    that is not clean are answered by a redirect. *)
From S2P Require Import Prelude GoStrings GoURL GoHTTP GoPath.

(** [cleanPath]: rooted, cleaned, with the trailing slash kept. *)
Definition cleanPath (p : string) : string :=
  if decide (p = "") then "/"
  else
    let p := if HasPrefix p "/" then p else "/" +:+ p in
    let np := filepath_Clean p in
    if HasSuffix p "/" && negb (bool_decide (np = "/")) then np +:+ "/" else np.

(** The segments of a path that starts with a slash; a trailing slash leaves an
    empty last one. *)
Definition path_segs (p : string) : list string := tail (Split p "/").
Definition unescape_seg (s : string) : string := default s (PathUnescape s).

(** A pattern: a method ("" for any; GET also serves HEAD) and a path, which
    stands for its subtree when it ends in a slash.  [/x/{name...}] matches what
    [/x/] does. *)
Definition method_matches (pat m : string) : bool :=
  bool_decide (pat = "") || bool_decide (pat = m) || (bool_decide (pat = "GET") && bool_decide (m = "HEAD")).
Definition is_tree (pat : string) : bool := HasSuffix pat "/".
Definition literals (pat : string) : list string :=
  if is_tree pat then removelast (path_segs pat) else path_segs pat.
Definition path_matches (pat p : string) : bool :=
  let lits := literals pat in
  let xs := unescape_seg <$> path_segs p in
  if is_tree pat then bool_decide (take (length lits) xs = lits) && (length lits <? length xs)%nat
  else bool_decide (xs = lits).

Section mux.
Context {Route : Type}.
Notation pattern := (string * string * Route)%type.

(** The more specific of two patterns that match: the longer path, then the one
    with a method. *)
Definition more_specific (a b : pattern) : bool :=
  (slen b.1.2 <? slen a.1.2)%nat || ((slen b.1.2 =? slen a.1.2)%nat && bool_decide (b.1.1 = "")).
Definition match_step (m p : string) (best : option pattern) (x : pattern) :=
  if method_matches x.1.1 m && path_matches x.1.2 p
  then match best with
       | None => Some x
       | Some b => if more_specific x b then Some x else best
       end
  else best.
Definition mux_pattern (routes : list pattern) (m p : string) : option pattern := foldl (match_step m p) None routes.
Definition mux_match (routes : list pattern) (m p : string) : option Route := snd <$> mux_pattern routes m p.

(** [exactMatch]: a subtree pattern is matched exactly by its own path only. *)
Definition exact_match (x : option pattern) (p : string) : bool :=
  match x with
  | None => false
  | Some x => if negb (is_tree x.1.2) then true
              else HasSuffix p "/" && bool_decide (length (path_segs x.1.2) = length (path_segs p))
  end.
(** The path to which a request without the trailing slash of a subtree goes. *)
Definition slash_redirect (routes : list pattern) (m p : string) : bool :=
  negb (exact_match (mux_pattern routes m p) p) && negb (HasSuffix p "/") &&
  exact_match (mux_pattern routes m (p +:+ "/")) (p +:+ "/").

Inductive mux_result :=
| ToRoute (route : Route)
| MovedTo (path : string)       (* with the query of the request *)
| NotAllowed (methods : list string)
| NoHandler.

(** The methods for which some pattern matches the path. *)
Definition allowed_methods (routes : list pattern) (p : string) : list string :=
  let ms := omap (fun x : pattern => if negb (bool_decide (x.1.1 = "")) &&
                      (path_matches x.1.2 p || negb (HasSuffix p "/") && path_matches x.1.2 (p +:+ "/"))
                    then Some x.1.1 else None) routes in
  merge_sort String.le (remove_dups (ms ++ (if decide ("GET" ∈ ms) then ["HEAD"] else []))).
Definition chosen (routes : list pattern) (m p : string) : mux_result :=
  match mux_match routes m p with
  | Some route => ToRoute route
  | None => match allowed_methods routes p with [] => NoHandler | ms => NotAllowed ms end
  end.
(** [findHandler] for the patterns of a server without host names. *)
Definition find_handler (routes : list pattern) (r : Request) : mux_result :=
  if decide (Method r = "CONNECT") then
    if slash_redirect routes (Method r) (EscPath r) then MovedTo (cleanPath (Path r) +:+ "/")
    else chosen routes (Method r) (EscPath r)
  else
    let path := cleanPath (EscPath r) in
    if slash_redirect routes (Method r) path then MovedTo (cleanPath (Path r) +:+ "/")
    else if negb (bool_decide (path = EscPath r)) then MovedTo path
    else chosen routes (Method r) path.
End mux.
Arguments mux_result : clear implicits.

Example cleanPath_vectors :
  cleanPath "" = "/" /\ cleanPath "a//b/./c/../" = "/a/b/" /\ cleanPath "/../x" = "/x" /\ cleanPath "//" = "/" /\
  cleanPath "/a/.." = "/" /\ cleanPath "/a/%2e%2e/b" = "/a/%2e%2e/b".
Proof. vm_compute. auto 10. Qed.
Example mux_vectors :
  let routes := [("", "/", 0); ("", "/static/", 1); ("GET", "/dashboard", 2); ("GET", "/dashboard/", 3); ("", "/mcp", 4)] in
  mux_match routes "GET" "/dashboard" = Some 2 /\ mux_match routes "HEAD" "/dashboard/x/y" = Some 3 /\
  mux_match routes "POST" "/dashboard" = Some 0 /\ mux_match routes "GET" "/dashboard%2Fx" = Some 0 /\
  mux_match routes "GET" "/dash%62oard" = Some 2 /\ slash_redirect routes "GET" "/static" = true /\
  slash_redirect routes "GET" "/mcp" = false /\ slash_redirect routes "GET" "/other" = false.
Proof. vm_compute. auto 10. Qed.

(** ** Cleaning settles at once *)
Lemma Split_trailing s : Split (s +:+ "/") "/" = Split s "/" ++ [""].
Proof. apply (Split_app s "" "/"). Qed.
Lemma Split_rooted st : st ≠ [] -> clean_stack true st -> Split (render true st) "/" = "" :: rev st.
Proof.
  intros Hn Hc. unfold render. change ("/" +:+ Join (rev st) "/") with ("" +:+ String "/" (Join (rev st) "/")).
  rewrite Split_app, Split_Join_segs; [done|intros E; apply Hn; by rewrite <-(rev_involutive st), E|].
  apply Forall_forall. intros x Hx. pose proof (clean_stack_segs _ _ Hc) as HF. eapply Forall_forall in HF; [exact HF|].
  rewrite list_elem_of_In in *. by apply in_rev.
Qed.
Lemma render_no_slash st : st ≠ [] -> clean_stack true st -> HasSuffix (render true st) "/" = false.
Proof.
  intros Hn Hc. destruct (HasSuffix (render true st) "/") eqn:E; [|done]. apply HasSuffix_spec in E as [r E].
  pose proof (Split_rooted st Hn Hc) as Hs. rewrite E, Split_trailing in Hs.
  destruct Hc as [|st' Hr _|x st' Hx Hc]; [done|done|]. simpl in Hs.
  rewrite app_comm_cons in Hs. apply app_inj_2 in Hs as [_ [= <-]]; [|done]. by destruct Hx.
Qed.
Lemma filepath_Clean_rooted p : HasPrefix p "/" = true -> filepath_Clean p = render true (stack_of true p).
Proof. unfold filepath_Clean, IsAbs. by intros ->. Qed.
Lemma render_slash st : HasPrefix (render true st) "/" = true.
Proof. apply HasPrefix_append. Qed.
Lemma render_root st : clean_stack true st -> render true st = "/" -> st = [].
Proof.
  intros Hc E. destruct (decide (st = [])) as [|Hn]; [done|].
  pose proof (render_no_slash st Hn Hc) as H. by rewrite E in H.
Qed.

(** A cleaned path is either the root, or its segments with or without a
    trailing slash. *)
Lemma cleanPath_cases p :
  exists st, clean_stack true st /\ (cleanPath p = render true st \/ st ≠ [] /\ cleanPath p = render true st +:+ "/").
Proof.
  unfold cleanPath. destruct (decide (p = "")); [exists []; split; [constructor|by left]|].
  set (q := if HasPrefix p "/" then p else "/" +:+ p).
  assert (HasPrefix q "/" = true) as Hq by (unfold q; destruct (HasPrefix p "/") eqn:E; [done|apply HasPrefix_append]).
  exists (stack_of true q). rewrite (filepath_Clean_rooted q Hq). split; [apply stack_of_clean|].
  destruct (HasSuffix q "/" && _) eqn:E; [|by left]. right. bool_to_prop. split; [|done].
  intros Hst. rewrite Hst in *. tauto.
Qed.
Lemma cleanPath_idem p : cleanPath (cleanPath p) = cleanPath p.
Proof.
  destruct (cleanPath_cases p) as (st & Hc & [->|[Hn ->]]).
  - unfold cleanPath. rewrite decide_False by (unfold render; discriminate). rewrite render_slash.
    rewrite filepath_Clean_rooted by apply render_slash.
    destruct (decide (st = [])) as [->|Hn]; [done|]. by rewrite render_stack, render_no_slash by done.
  - unfold cleanPath. rewrite decide_False by (unfold render; discriminate).
    assert (HasPrefix (render true st +:+ "/") "/" = true) as Hp
      by (unfold render; rewrite append_assoc; apply HasPrefix_append).
    rewrite Hp, filepath_Clean_rooted by done. unfold stack_of. rewrite Split_trailing, foldl_app.
    fold (stack_of true (render true st)). rewrite render_stack by done. cbn [foldl].
    assert (step_path true st "" = st) as -> by (unfold step_path; by rewrite decide_True by (by left)).
    assert (HasSuffix (render true st +:+ "/") "/" = true) as -> by (apply HasSuffix_spec; by eexists).
    rewrite bool_decide_false; [done|]. intros E. by apply Hn, render_root.
Qed.
Lemma cleanPath_slash p : HasPrefix (cleanPath p) "/" = true.
Proof.
  destruct (cleanPath_cases p) as (st & _ & [->|[_ ->]]); [apply render_slash|].
  unfold render. rewrite append_assoc. apply HasPrefix_append.
Qed.
