(* ===== verification/GoFloat.v ===== *)
(** * GoFloat: float64 and its printing with the verb %.nf

    A float64 is a [spec_float] of the Standard Library with a 53-bit mantissa
    and exponents below 1024; the operations are those of IEEE 754 with rounding
    to nearest even, without the fusing of operations that Go allows on some
    machines. *)
From Stdlib Require Import SpecFloat.
From S2P Require Import Prelude GoStrings.

Definition float64 : Type := spec_float.
Definition f64_wf (x : float64) : bool := valid_binary 53 1024 x.
Definition f64_add : float64 -> float64 -> float64 := SFadd 53 1024.
Definition f64_sub : float64 -> float64 -> float64 := SFsub 53 1024.
Definition f64_mul : float64 -> float64 -> float64 := SFmul 53 1024.
Definition f64_div : float64 -> float64 -> float64 := SFdiv 53 1024.
Definition f64_neg : float64 -> float64 := SFopp.
Definition f64_lt : float64 -> float64 -> bool := SFltb.
Definition f64_ge (x y : float64) : bool := SFleb y x.
Definition f64_gt (x y : float64) : bool := SFltb y x.
(** [float64(z)], and the literal m * 2^e. *)
Definition f64_of_Z (z : Z) : float64 := binary_normalize 53 1024 z 0 false.
Definition f64_lit (m e : Z) : float64 := binary_normalize 53 1024 m e false.
Definition f64_0 : float64 := S754_zero false.
Definition f64_half : float64 := f64_lit 1 (-1).

(** The integral part, where there is one. *)
Definition f64_trunc (x : float64) : option Z :=
  match x with
  | S754_zero _ => Some 0
  | S754_finite s m e => Some (cond_Zopp s (Z.shiftl (Zpos m) e))
  | S754_infinity _ | S754_nan => None
  end.
(** [int64(x)] of a value that does not fit depends on the machine. *)
Class Int64Conv := { int64_unrepresentable : float64 -> Z }.
Definition int64_of `{!Int64Conv} (x : float64) : Z :=
  match f64_trunc x with
  | Some z => if (- 2 ^ 63 <=? z) && (z <? 2 ^ 63) then z else int64_unrepresentable x
  | None => int64_unrepresentable x
  end.

(** ** The verb %.nf: the exact value rounded to n places, half to even *)
Definition round_half_even (num den : Z) : Z :=
  let q := num / den in
  let r := num `mod` den in
  if 2 * r <? den then q else if den <? 2 * r then q + 1 else if Z.even q then q else q + 1.
Definition scaled (n : nat) (m : positive) (e : Z) : Z :=
  if 0 <=? e then Zpos m * 2 ^ e * 10 ^ Z.of_nat n
  else round_half_even (Zpos m * 10 ^ Z.of_nat n) (2 ^ (- e)).
Definition decimal (z : Z) : string := itoa_go (Z.to_nat (Z.log2 z + 2)) z "".
Fixpoint zeros (n : nat) : string := match n with O => "" | S n => String "0" (zeros n) end.
(** At least [n + 1] digits, the last [n] behind the point. *)
Definition with_point (n : nat) (digits : string) : string :=
  let s := zeros (S n - slen digits) +:+ digits in
  match n with
  | O => s
  | _ => str_take (slen s - n) s +:+ "." +:+ str_drop (slen s - n) s
  end.
Definition fmt_f (n : nat) (x : float64) : string :=
  match x with
  | S754_nan => "NaN"
  | S754_infinity s => if s then "-Inf" else "+Inf"
  | S754_zero s => (if s then "-" else "") +:+ with_point n "0"
  | S754_finite s m e => (if s then "-" else "") +:+ with_point n (decimal (scaled n m e))
  end.
(** [%02d] of a number that is not negative. *)
Definition fmt_02d (z : Z) : string := if z <? 10 then "0" +:+ Itoa z else Itoa z.

Example fmt_f_vectors :
  fmt_f 2 (f64_lit 1 (-3)) = "0.12" /\ fmt_f 2 (f64_lit 3 (-3)) = "0.38" /\
  fmt_f 2 (f64_div (f64_of_Z 2675) (f64_of_Z 1000)) = "2.67" /\ fmt_f 1 (f64_of_Z (-25)) = "-25.0" /\
  fmt_f 0 (f64_lit 5 (-1)) = "2" /\ fmt_f 2 (S754_zero true) = "-0.00" /\
  fmt_f 2 (f64_of_Z (10 ^ 22)) = "10000000000000000000000.00".
Proof. vm_compute. done. Qed.

(** ** Rounding

    The value of a finite number, scaled by 2^4000 to an integer. *)
Definition dyad (m e : Z) : Z := m * 2 ^ (e + 4000).
Definition f64_value (x : float64) : option Z :=
  match x with
  | S754_zero _ => Some 0
  | S754_finite s m e => Some (cond_Zopp s (dyad (Zpos m) e))
  | S754_infinity _ | S754_nan => None
  end.

Lemma dyad_shift m e k : 0 <= k -> -4000 <= e -> dyad (m * 2 ^ k) e = dyad m (e + k).
Proof.
  intros Hk He. unfold dyad. replace (e + k + 4000) with (k + (e + 4000)) by lia.
  rewrite (Z.pow_add_r 2 k (e + 4000)) by lia. ring.
Qed.

Lemma digits2_pos_bounds m : 2 ^ (Zpos (digits2_pos m) - 1) <= Zpos m < 2 ^ Zpos (digits2_pos m).
Proof.
  assert (forall m, Zpos (digits2_pos m) = Z.log2 (Zpos m) + 1) as E.
  { clear m. induction m as [m IH|m IH|]; simpl digits2_pos; [..|done];
      rewrite Pos2Z.inj_succ, IH;
      [rewrite Pos2Z.inj_xI, Z.log2_succ_double by lia|rewrite Pos2Z.inj_xO, Z.log2_double by lia]; lia. }
  rewrite E. replace (Z.log2 (Zpos m) + 1 - 1) with (Z.log2 (Zpos m)) by lia.
  rewrite Z.add_1_r. apply Z.log2_spec. lia.
Qed.

(** A shift of the record is a division; the bits tell whether it was exact. *)
Lemma shr_1_spec m r s :
  0 <= m -> exists r', shr_1 (Build_shr_record m r s) = Build_shr_record (m / 2) r' (r || s) /\ (r' = false <-> m = 2 * (m / 2)).
Proof.
  intros Hm. destruct m as [|[p|p|]|p]; [by exists false| | |by exists true|lia].
  - exists true. assert (Zpos p~1 / 2 = Zpos p) as E.
    { rewrite Pos2Z.inj_xI, Z.mul_comm, Z.div_add_l by lia. by rewrite Z.add_0_r. }
    rewrite E. simpl. split; [done|]. split; [done|lia].
  - exists false. assert (Zpos p~0 / 2 = Zpos p) as E by (rewrite Pos2Z.inj_xO, Z.mul_comm, Z.div_mul; lia).
    rewrite E. by simpl.
Qed.
Lemma iter_pos_iter {A} (f : A -> A) p x : SpecFloat.iter_pos f p x = Nat.iter (Pos.to_nat p) f x.
Proof.
  assert (forall n k x, Nat.iter n f (Nat.iter k f x) = Nat.iter (n + k) f x) as Hadd.
  { clear. intros n k x. induction n as [|n IH]; simpl; [done|by rewrite IH]. }
  revert x. induction p as [p IH|p IH|]; intros x; cbn [SpecFloat.iter_pos]; [| |done]; rewrite !IH.
  - rewrite (Hadd _ _ (f x)). change (f x) with (Nat.iter 1 f x). rewrite Hadd. f_equal. lia.
  - rewrite Hadd. f_equal. lia.
Qed.
Lemma shr_iter m p :
  0 <= m -> exists r s, SpecFloat.iter_pos shr_1 p (Build_shr_record m false false) = Build_shr_record (m / 2 ^ Zpos p) r s /\
    (r = false /\ s = false <-> m = 2 ^ Zpos p * (m / 2 ^ Zpos p)).
Proof.
  intros Hm. assert (forall n : nat, exists r s, Nat.iter n shr_1 (Build_shr_record m false false) =
    Build_shr_record (m / 2 ^ Z.of_nat n) r s /\ (r = false /\ s = false <-> m = 2 ^ Z.of_nat n * (m / 2 ^ Z.of_nat n))) as H.
  { induction n as [|n (r & s & IH & Hx)]; [exists false, false; split; [by rewrite Z.div_1_r|by rewrite Z.div_1_r, Z.mul_1_l]|].
    simpl Nat.iter. rewrite IH. set (q := m / 2 ^ Z.of_nat n) in *.
    assert (0 <= q) as Hq by (apply Z.div_pos; lia).
    destruct (shr_1_spec q r s Hq) as (r' & -> & Hr'). exists r', (r || s).
    assert (m / 2 ^ Z.of_nat (S n) = q / 2) as ->.
    { unfold q. rewrite Z.div_div by lia. f_equal. rewrite Nat2Z.inj_succ, Z.pow_succ_r by lia. ring. }
    split; [done|]. rewrite orb_false_iff, Hr', Hx, Nat2Z.inj_succ, Z.pow_succ_r by lia.
    pose proof (Z.mul_div_le q 2 ltac:(lia)) as H1. pose proof (Z.mul_div_le m (2 ^ Z.of_nat n) ltac:(lia)) as H2.
    fold q in H2. set (h := q / 2) in *. set (w := 2 ^ Z.of_nat n) in *. assert (0 < w) by lia.
    split; [intros [E1 E2]; nia|]. intros E. assert (w * q <= m) by lia. assert (2 * h = q) by nia. split; nia. }
  destruct (H (Pos.to_nat p)) as (r & s & E & Hx). rewrite positive_nat_Z in E, Hx.
  exists r, s. rewrite iter_pos_iter. by split.
Qed.


(** [x] is a number that is not negative, with the value [v]. *)
Definition nonneg (x : float64) (v : Z) : Prop :=
  (x = S754_zero false /\ v = 0) \/
  (exists m e, x = S754_finite false m e /\ -1074 <= e /\ v = dyad (Zpos m) e).

(** Packing a mantissa of at most 53 bits loses nothing. *)
Lemma pack_spec q e :
  0 <= q <= 2 ^ 53 -> -1074 <= e <= 960 ->
  nonneg (let '(mrs, e') := shr_fexp 53 1024 q e loc_Exact in
          match shr_m mrs with
          | 0 => S754_zero false
          | Zpos m => if e' <=? 1024 - 53 then S754_finite false m e' else S754_infinity false
          | Zneg _ => S754_nan
          end) (dyad q e).
Proof.
  intros Hq He. unfold shr_fexp, fexp, emin. cbn [shr_record_of_loc].
  change (3 - 1024 - 53) with (-1074). destruct (decide (q = 2 ^ 53)) as [->|Hne].
  - replace (Z.max (Zdigits2 (2 ^ 53) + e - 53) (-1074) - e) with 1 by (change (Zdigits2 (2 ^ 53)) with 54; lia).
    cbn [shr]. change (SpecFloat.iter_pos shr_1 1 (Build_shr_record (2 ^ 53) false false))
      with (Build_shr_record (2 ^ 52) false false). cbn [shr_m].
    change (2 ^ 52) with (Zpos (2 ^ 52)). rewrite (proj2 (Z.leb_le (e + 1) (1024 - 53))) by lia.
    right. exists (2 ^ 52)%positive, (e + 1). split; [done|]. split; [lia|].
    change (2 ^ 53) with (Zpos (2 ^ 52) * 2 ^ 1). rewrite dyad_shift by lia. done.
  - assert (Zdigits2 q <= 53) as Hd.
    { destruct q as [|q|]; simpl; [lia| |lia]. destruct (digits2_pos_bounds q) as [Hlo _].
      apply Z.lt_succ_r. apply Z.nle_gt. intros Hge.
      assert (2 ^ 53 <= 2 ^ (Zpos (digits2_pos q) - 1)) by (apply Z.pow_le_mono_r; lia). lia. }
    assert (shr (Build_shr_record q false false) e (Z.max (Zdigits2 q + e - 53) (-1074) - e) = (Build_shr_record q false false, e)) as ->.
    { destruct (Z.max (Zdigits2 q + e - 53) (-1074) - e) eqn:E; [done|lia|done]. }
    cbn [shr_m]. destruct q as [|q|]; [by left| |lia]. rewrite (proj2 (Z.leb_le e (1024 - 53))) by lia.
    right. exists q, e. split; [done|]. split; [lia|done].
Qed.

Lemma round_cases m e :
  0 < m -> -3000 <= e -> dyad m e < dyad 1 900 ->
  exists k q, 0 <= k /\ (k = 0 \/ k = Z.max (Zdigits2 m + e - 53) (-1074) - e) /\ -1074 <= e + k /\
    (q = m / 2 ^ k \/ q = m / 2 ^ k + 1 /\ m ≠ 2 ^ k * (m / 2 ^ k)) /\
    nonneg (binary_round_aux 53 1024 false m e loc_Exact) (dyad q (e + k)).
Proof.
  intros Hm He Hlt. destruct m as [|m|]; [lia| |lia]. destruct (digits2_pos_bounds m) as [Hlo Hhi].
  set (d := Zpos (digits2_pos m)) in *. assert (0 < d) by (unfold d; lia).
  assert (d + e <= 900) as Hde.
  { apply Z.nlt_ge. intros Hgt. unfold dyad in Hlt.
    assert (2 ^ (d - 1) * 2 ^ (e + 4000) <= Zpos m * 2 ^ (e + 4000)) by (apply Z.mul_le_mono_nonneg_r; lia).
    assert (2 ^ (900 + 4000) <= 2 ^ (d - 1) * 2 ^ (e + 4000)) by
      (rewrite <-Z.pow_add_r by lia; apply Z.pow_le_mono_r; lia). lia. }
  unfold binary_round_aux, shr_fexp at 1, fexp at 1, emin at 1. cbn [shr_record_of_loc Zdigits2]. fold d.
  change (3 - 1024 - 53) with (-1074). set (K := Z.max (d + e - 53) (-1074) - e).
  destruct K as [|p|p] eqn:EK; cbn [shr].
  - exists 0, (Zpos m). rewrite Z.add_0_r, Z.pow_0_r, Z.div_1_r. split_and!; [lia|by left|lia|by left|].
    apply pack_spec; [|lia]. cbn. split; [lia|]. assert (2 ^ d <= 2 ^ 53) by (apply Z.pow_le_mono_r; lia). lia.
  - destruct (shr_iter (Zpos m) p) as (r & s & -> & Hx); [lia|]. cbn [shr_m loc_of_shr_record].
    set (q := Zpos m / 2 ^ Zpos p) in *.
    assert (0 <= q < 2 ^ 53) as Hq.
    { split; [apply Z.div_pos; lia|]. apply Z.div_lt_upper_bound; [lia|]. rewrite <-Z.pow_add_r by lia.
      assert (2 ^ d <= 2 ^ (Zpos p + 53)) by (apply Z.pow_le_mono_r; lia). lia. }
    assert (forall q', q' = q \/ q' = q + 1 /\ Zpos m ≠ 2 ^ Zpos p * q -> nonneg
       (let '(mrs'', e'') := shr_fexp 53 1024 q' (e + Zpos p) loc_Exact in
        match shr_m mrs'' with
        | 0 => S754_zero false
        | Zpos m0 => if e'' <=? 1024 - 53 then S754_finite false m0 e'' else S754_infinity false
        | Zneg _ => S754_nan
        end) (dyad q' (e + Zpos p))) as Hpack by (intros q' Hq'; apply pack_spec; lia).
    exists (Zpos p). assert (exists q', (q' = q \/ q' = q + 1 /\ Zpos m ≠ 2 ^ Zpos p * q) /\
      round_nearest_even q (if r then (if s then loc_Inexact Gt else loc_Inexact Eq) else if s then loc_Inexact Lt else loc_Exact) = q')
      as (q' & Hq' & Er).
    { destruct r, s; simpl; [| |by exists q; split; [left|]..].
      - exists (q + 1). split; [right; split; [done|]|done]. naive_solver.
      - destruct (Z.even q); [by exists q; split; [left|]|]. exists (q + 1). split; [right; split; [done|]|done]. naive_solver. }
    exists q'. split_and!; [lia|right; lia|lia|done|]. specialize (Hpack q' Hq'). rewrite <-Er in Hpack at 1.
    destruct r, s; exact Hpack.
  - exists 0, (Zpos m). rewrite Z.add_0_r, Z.pow_0_r, Z.div_1_r. split_and!; [lia|by left|lia|by left|].
    apply pack_spec; [|lia]. cbn. split; [lia|]. assert (2 ^ d <= 2 ^ 53) by (apply Z.pow_le_mono_r; lia). lia.
Qed.

Lemma dyad_mono m n e : m <= n -> dyad m e <= dyad n e.
Proof. intros. unfold dyad. apply Z.mul_le_mono_nonneg_r; lia. Qed.
Lemma nonneg_pos x v : nonneg x v -> 0 <= v.
Proof. intros [[_ ->]|(m & e & _ & _ & ->)]; [done|]. unfold dyad. lia. Qed.

(** [v] is on the same side as [exact] of every number of 53 bits. *)
Definition rounds (exact v : Z) : Prop :=
  forall B b, 0 <= B < 2 ^ 53 -> -1074 <= b <= 800 ->
    (exact <= dyad B b -> v <= dyad B b) /\ (dyad B b <= exact -> dyad B b <= v).
Lemma rounds_refl v : rounds v v.
Proof. by intros B b _ _. Qed.
(** So a number of 53 bits is rounded to itself. *)
Lemma rounds_exact B b v : 0 <= B < 2 ^ 53 -> -1074 <= b <= 800 -> rounds (dyad B b) v -> v = dyad B b.
Proof. intros HB Hb Hr. destruct (Hr B b HB Hb) as [H1 H2]. lia. Qed.

(** The exponent after rounding is at most that of a bound that is not passed. *)
Lemma grid_le m e k B b :
  -3000 <= e -> 0 <= B < 2 ^ 53 -> -1074 <= b <= 800 ->
  k = Z.max (Zpos (digits2_pos m) + e - 53) (-1074) - e -> dyad (Zpos m) e <= dyad B b -> e + k <= b.
Proof.
  intros He HB Hb Hk Hle. destruct (digits2_pos_bounds m) as [Hlo _]. set (d := Zpos (digits2_pos m)) in *.
  assert (0 < d) by (unfold d; lia).
  destruct (Z.max_spec (d + e - 53) (-1074)) as [[_ E]|[_ E]]; rewrite E in Hk; [lia|].
  assert (2 ^ (d - 1 + (e + 4000)) < 2 ^ (53 + (b + 4000))) as Hp.
  { rewrite (Z.pow_add_r 2 (d - 1) (e + 4000)), (Z.pow_add_r 2 53 (b + 4000)) by lia. unfold dyad in *.
    assert (2 ^ (d - 1) * 2 ^ (e + 4000) <= Zpos m * 2 ^ (e + 4000)) by (apply Z.mul_le_mono_nonneg_r; lia).
    assert (B * 2 ^ (b + 4000) < 2 ^ 53 * 2 ^ (b + 4000)) by (apply Z.mul_lt_mono_pos_r; lia). lia. }
  apply Z.pow_lt_mono_r_iff in Hp; lia.
Qed.
Lemma dyad_le_cancel m n e : -4000 <= e -> dyad m e <= dyad n e <-> m <= n.
Proof. intros He. unfold dyad. symmetry. apply Z.mul_le_mono_pos_r. apply Z.pow_pos_nonneg; lia. Qed.
(** A bound on the grid [e + k] is a multiple of [2 ^ k] on the grid [e]. *)
Lemma dyad_on_grid B b e k :
  -3000 <= e -> 0 <= k -> e + k <= b -> dyad B b = dyad (B * 2 ^ (b - (e + k)) * 2 ^ k) e.
Proof. intros. rewrite <-Z.mul_assoc, <-Z.pow_add_r, dyad_shift by lia. f_equal. lia. Qed.

Lemma round_rounds m e :
  0 < m -> -3000 <= e -> dyad m e < dyad 1 900 ->
  exists v, nonneg (binary_round_aux 53 1024 false m e loc_Exact) v /\ rounds (dyad m e) v.
Proof.
  intros Hm He Hlt. destruct (round_cases m e Hm He Hlt) as (k & q & Hk & Hkd & Hek & Hq & Hnn).
  exists (dyad q (e + k)). split; [done|]. intros B b HB Hb. rewrite <-dyad_shift by lia.
  pose proof (Z.mul_div_le m (2 ^ k) ltac:(lia)) as Hfl. destruct m as [|m|]; [lia| |lia]. split; intros Hle.
  - destruct Hq as [->|[-> Hnd]]; [etrans; [|exact Hle]; apply dyad_mono; lia|].
    destruct Hkd as [->|Hkd]; [rewrite Z.pow_0_r, Z.div_1_r in Hnd; lia|].
    pose proof (grid_le m e k B b He HB Hb Hkd Hle) as Hg. rewrite (dyad_on_grid B b e k) in * by lia.
    set (N := B * 2 ^ (b - (e + k))) in *. apply dyad_le_cancel in Hle; [|lia]. apply dyad_mono.
    assert (Zpos m ≠ N * 2 ^ k) as Hne by (intros E; apply Hnd; rewrite E, Z.div_mul by lia; lia).
    assert (Zpos m / 2 ^ k < N) by (apply Z.div_lt_upper_bound; lia). nia.
  - assert (dyad B b <= dyad (Zpos m / 2 ^ k * 2 ^ k) e) as Hfloor.
    { destruct (decide (e + k <= b)) as [Hg|Hg].
      - rewrite (dyad_on_grid B b e k) in * by lia. set (N := B * 2 ^ (b - (e + k))) in *.
        apply dyad_le_cancel in Hle; [|lia]. apply dyad_mono. apply Z.mul_le_mono_nonneg_r; [lia|].
        apply Z.div_le_lower_bound; lia.
      - destruct Hkd as [->|Hkd]; [by rewrite Z.pow_0_r, Z.div_1_r, Z.mul_1_r|].
        destruct (digits2_pos_bounds m) as [Hlo _]. cbn [Zdigits2] in Hkd. set (d := Zpos (digits2_pos m)) in *.
        assert (d = k + 53) as Hd by lia.
        assert (2 ^ 52 <= Zpos m / 2 ^ k) as Hq52.
        { apply Z.div_le_lower_bound; [lia|]. rewrite <-Z.pow_add_r by lia. etrans; [|exact Hlo].
          apply Z.pow_le_mono_r; lia. }
        rewrite dyad_shift by lia. etrans; [|apply (dyad_mono _ _ _ Hq52)]. unfold dyad.
        rewrite <-Z.pow_add_r by lia. apply Z.le_trans with (2 ^ 53 * 2 ^ (b + 4000)).
        + apply Z.mul_le_mono_nonneg_r; lia.
        + rewrite <-Z.pow_add_r by lia. apply Z.pow_le_mono_r; lia. }
    etrans; [exact Hfloor|]. apply dyad_mono. apply Z.mul_le_mono_nonneg_r; [lia|]. lia.
Qed.

(** *** The operations on numbers that are not negative *)
Lemma iter_xO mx d : Zpos (Pos.iter xO mx d) = Zpos mx * 2 ^ Zpos d.
Proof.
  revert mx. induction d as [|d IH] using Pos.peano_ind; intros mx; [by rewrite Z.mul_comm|].
  rewrite Pos.iter_succ, Pos2Z.inj_xO, IH, Pos2Z.inj_succ, Z.pow_succ_r by lia. ring.
Qed.
Lemma shl_align_value mx ex ez :
  -3000 <= ez -> -3000 <= ex ->
  let '(m, e) := shl_align mx ex ez in dyad (Zpos m) e = dyad (Zpos mx) ex /\ Z.min ex ez <= e <= ex /\ (ez <= ex -> e = ez).
Proof.
  intros Hz Hx. unfold shl_align. destruct (ez - ex) as [|d|d] eqn:E; [split; [done|lia]..|].
  split; [|lia]. rewrite iter_xO, dyad_shift by lia. f_equal. lia.
Qed.

Lemma binary_round_aux_of mx ex :
  -3000 <= ex ->
  exists m e, binary_round 53 1024 false mx ex = binary_round_aux 53 1024 false (Zpos m) e loc_Exact /\
    dyad (Zpos m) e = dyad (Zpos mx) ex /\ -3000 <= e.
Proof.
  intros Hx. unfold binary_round. set (ez := fexp 53 1024 (Zpos (digits2_pos mx) + ex)).
  assert (-1074 <= ez) by (unfold ez, fexp, emin; lia).
  pose proof (shl_align_value mx ex ez ltac:(lia) Hx) as Hs. destruct (shl_align mx ex ez) as [m e].
  exists m, e. destruct Hs as (Hv & He & _). split_and!; [done|done|lia].
Qed.

Lemma normalize_rounds D e :
  0 <= D -> -3000 <= e -> dyad D e < dyad 1 900 ->
  exists v, nonneg (binary_normalize 53 1024 D e false) v /\ rounds (dyad D e) v.
Proof.
  intros HD He Hlt. destruct D as [|D|]; [|simpl|lia].
  - exists 0. split; [by left|apply rounds_refl].
  - destruct (binary_round_aux_of D e He) as (m & e' & -> & Hv & He'). rewrite <-Hv in *. by apply round_rounds.
Qed.
Lemma of_Z_rounds z : 0 <= z -> dyad z 0 < dyad 1 900 -> exists v, nonneg (f64_of_Z z) v /\ rounds (dyad z 0) v.
Proof. intros. by apply normalize_rounds. Qed.

Lemma dyad_pos m e : -4000 <= e -> 0 < m -> 0 < dyad m e.
Proof. intros. unfold dyad. apply Z.mul_pos_pos; [done|]. apply Z.pow_pos_nonneg; lia. Qed.

(** Two numbers on a common grid. *)
Lemma aligned mx ex my ey :
  -1074 <= ex -> -1074 <= ey -> exists mx' my' : positive,
    fst (shl_align mx ex (Z.min ex ey)) = mx' /\ fst (shl_align my ey (Z.min ex ey)) = my' /\
    dyad (Zpos mx') (Z.min ex ey) = dyad (Zpos mx) ex /\ dyad (Zpos my') (Z.min ex ey) = dyad (Zpos my) ey.
Proof.
  intros Hx Hy. pose proof (shl_align_value mx ex (Z.min ex ey) ltac:(lia) ltac:(lia)) as H1.
  pose proof (shl_align_value my ey (Z.min ex ey) ltac:(lia) ltac:(lia)) as H2.
  destruct (shl_align mx ex _) as [mx' ex'], (shl_align my ey _) as [my' ey'].
  destruct H1 as (E1 & _ & H1), H2 as (E2 & _ & H2). rewrite H1 in E1 by lia. rewrite H2 in E2 by lia.
  by exists mx', my'.
Qed.

Lemma sub_rounds x y vx vy :
  nonneg x vx -> nonneg y vy -> vy <= vx -> vx < dyad 1 900 ->
  exists v, nonneg (f64_sub x y) v /\ rounds (vx - vy) v.
Proof.
  intros [[-> ->]|(mx & ex & -> & Hex & ->)] [[-> ->]|(my & ey & -> & Hey & ->)] Hle Hlt.
  - exists 0. split; [by left|apply rounds_refl].
  - exfalso. pose proof (dyad_pos (Zpos my) ey). lia.
  - exists (dyad (Zpos mx) ex). split; [right; by exists mx, ex|rewrite Z.sub_0_r; apply rounds_refl].
  - unfold f64_sub, SFsub. cbn [cond_Zopp]. destruct (aligned mx ex my ey Hex Hey) as (mx' & my' & -> & -> & Ex & Ey).
    rewrite <-Ex, <-Ey in *. apply dyad_le_cancel in Hle; [|lia]. pose proof (dyad_pos (Zpos my') (Z.min ex ey)).
    assert (dyad (Zpos mx') (Z.min ex ey) - dyad (Zpos my') (Z.min ex ey) = dyad (Zpos mx' - Zpos my') (Z.min ex ey)) as E
      by (unfold dyad; ring).
    rewrite E. apply normalize_rounds; [lia..|]. rewrite <-E. lia.
Qed.
Lemma add_rounds x y vx vy :
  nonneg x vx -> nonneg y vy -> vx + vy < dyad 1 900 -> exists v, nonneg (f64_add x y) v /\ rounds (vx + vy) v.
Proof.
  intros [[-> ->]|(mx & ex & -> & Hex & ->)] [[-> ->]|(my & ey & -> & Hey & ->)] Hlt.
  - exists 0. split; [by left|apply rounds_refl].
  - exists (dyad (Zpos my) ey). split; [right; by exists my, ey|apply rounds_refl].
  - exists (dyad (Zpos mx) ex). split; [right; by exists mx, ex|rewrite Z.add_0_r; apply rounds_refl].
  - unfold f64_add, SFadd. cbn [cond_Zopp]. destruct (aligned mx ex my ey Hex Hey) as (mx' & my' & -> & -> & Ex & Ey).
    rewrite <-Ex, <-Ey in *.
    assert (dyad (Zpos mx') (Z.min ex ey) + dyad (Zpos my') (Z.min ex ey) = dyad (Zpos mx' + Zpos my') (Z.min ex ey)) as E
      by (unfold dyad; ring).
    rewrite E in *. apply normalize_rounds; lia.
Qed.
Lemma mul_rounds x y vx vy exact :
  nonneg x vx -> nonneg y vy -> vx * vy = 2 ^ 4000 * exact -> exact < dyad 1 900 ->
  exists v, nonneg (f64_mul x y) v /\ rounds exact v.
Proof.
  intros Hnx Hny He Hlt.
  destruct Hnx as [[-> ->]|(mx & ex & -> & Hex & ->)], Hny as [[-> ->]|(my & ey & -> & Hey & ->)];
    try (exists 0; split; [by left|replace exact with 0 by lia; apply rounds_refl]).
  unfold f64_mul, SFmul. cbn [xorb].
  assert (dyad (Zpos mx) ex * dyad (Zpos my) ey = 2 ^ 4000 * dyad (Zpos (mx * my)) (ex + ey)) as E.
  { unfold dyad. rewrite Pos2Z.inj_mul. rewrite (Z.mul_assoc (2 ^ 4000)), (Z.mul_comm (2 ^ 4000)), <-!Z.mul_assoc.
    rewrite <-Z.pow_add_r by lia. replace (4000 + (ex + ey + 4000)) with ((ex + 4000) + (ey + 4000)) by lia.
    rewrite (Z.pow_add_r 2 (ex + 4000)) by lia. ring. }
  rewrite E in He. apply Z.mul_reg_l in He; [|apply Z.pow_nonzero; lia]. subst exact. apply round_rounds; lia.
Qed.

Lemma trunc_value x v : nonneg x v -> f64_trunc x = Some (v / 2 ^ 4000).
Proof.
  intros [[-> ->]|(m & e & -> & He & ->)]; [done|]. simpl. f_equal. unfold dyad.
  destruct (decide (0 <= e)) as [Hp|Hn].
  - rewrite Z.shiftl_mul_pow2 by done. rewrite Z.pow_add_r, Z.mul_assoc by lia. by rewrite Z.div_mul by lia.
  - rewrite <-Z.shiftr_div_pow2 by lia. rewrite <-Z.shiftl_mul_pow2 by lia. rewrite Z.shiftr_shiftl_l by lia. f_equal. lia.
Qed.
