(* ===== verification/GoTime.v ===== *)
(** * GoTime: instants, durations and the layout 2006-01-02 of package time

    A [Time] is an instant in nanoseconds since 1970 with the offset of its
    location at that instant in seconds; dates are computed in the proleptic
    Gregorian calendar. *)
From S2P Require Import Prelude GoStrings GoFloat.

Record Time := mkTime { t_ns : Z; t_off : Z }.
(** January 1, year 1, 00:00 UTC. *)
Definition zero_time : Time := mkTime (-62135596800 * Second) 0.
Definition IsZero (t : Time) : bool := t_ns t =? t_ns zero_time.

(** A [time.Duration] is an int64; [Sub] saturates. *)
Definition saturate (d : Z) : Z := Z.max (- 2 ^ 63) (Z.min d (2 ^ 63 - 1)).
Definition time_Sub (t u : Z) : Z := saturate (t - u).
Definition Hours (d : Z) : float64 :=
  f64_add (f64_of_Z (Z.quot d Hour)) (f64_div (f64_of_Z (Z.rem d Hour)) (f64_of_Z Hour)).

(** ** Calendar *)
(** Year, month and day of a day counted from 1970-01-01; eras of 400 years
    start on March 1. *)
Definition date_of_day (day : Z) : Z * Z * Z :=
  let z := day + 719468 in
  let doe := z `mod` 146097 in
  let yoe := (doe - doe / 1460 + doe / 36524 - doe / 146096) / 365 in
  let doy := doe - (365 * yoe + yoe / 4 - yoe / 100) in
  let mp := (5 * doy + 2) / 153 in
  let m := if mp <? 10 then mp + 3 else mp - 9 in
  (yoe + z / 146097 * 400 + (if m <=? 2 then 1 else 0), m, doy - (153 * mp + 2) / 5 + 1).
Definition pad (n : nat) (z : Z) : string :=
  let s := Itoa (Z.abs z) in (if z <? 0 then "-" else "") +:+ zeros (n - slen s) +:+ s.
(** [t.Format("2006-01-02")] *)
Definition format_date (t : Time) : string :=
  let '(y, m, d) := date_of_day ((t_ns t / Second + t_off t) / 86400) in
  pad 4 y +:+ "-" +:+ pad 2 m +:+ "-" +:+ pad 2 d.

Example dates :
  format_date (mkTime 0 0) = "1970-01-01" /\ format_date zero_time = "0001-01-01" /\
  format_date (mkTime (1709164800 * Second) 0) = "2024-02-29" /\
  format_date (mkTime (1709164800 * Second) (-3600)) = "2024-02-28" /\
  format_date (mkTime (4107542400 * Second) 0) = "2100-03-01".
Proof. vm_compute. done. Qed.
