(* ===== verification/OAuthBackend.v ===== *)
(** * OAuthBackend: the HTTP client that persists OAuth state in vire-server
    (internal/auth/backend.go), and the JSON form of the records it sends. *)
From S2P Require Import Prelude GoStrings GoCrypto GoJson GoURL GoHTTP.

(** ** The stored records (internal/auth/store.go, session.go) *)
Record OAuthClient := mkOAuthClient {
  ClientID : string;
  ClientSecret : string;
  ClientName : string;
  RedirectURIs : list string;
  GrantTypes : list string;
  ResponseTypes : list string;
  TokenEndpointAuthMethod : string;
  CreatedAt : Z;
}.

Record AuthSession := mkAuthSession {
  SessionID : string;
  s_ClientID : string;
  s_RedirectURI : string;
  s_State : string;
  s_CodeChallenge : string;
  s_CodeMethod : string;
  s_Scope : string;
  s_CreatedAt : Z;
  s_UserID : string;
}.

Record AuthCode := mkAuthCode {
  Code : string;
  c_ClientID : string;
  c_UserID : string;
  c_RedirectURI : string;
  c_CodeChallenge : string;
  c_Scope : string;
  c_ExpiresAt : Z;
  Used : bool;
}.

Record RefreshToken := mkRefreshToken {
  Token : string;
  t_UserID : string;
  t_ClientID : string;
  t_Scope : string;
  t_ExpiresAt : Z;
}.

(** The JSON form of a [time.Time], an RFC 3339 string in the local zone, is a
    parameter: it depends on the zone database of the machine. *)
Class TimeCodec := {
  time_Format : Z -> string;
  time_Parse : string -> option Z;
}.

Section backend.
Context `{!Env} `{!NetURL} `{!Unicode} `{!TimeCodec}.

Definition JTime (t : Z) : json := JStr (time_Format t).
Definition dec_time : decoder Z := fun old v =>
  match v with JStr s => time_Parse s | JNull => Some old | _ => None end.
(** The zero [time.Time], January 1 of year 1, on the Unix scale. *)
Definition zero_time : Z := - 62135596800 * Second.

(** *** Marshalling *)
Definition client_json (c : OAuthClient) : json :=
  JObj ([("client_id", JStr (ClientID c))] ++ omitempty "client_secret" (ClientSecret c) ++
        [("client_name", JStr (ClientName c)); ("redirect_uris", JStrs (RedirectURIs c));
         ("grant_types", JStrs (GrantTypes c)); ("response_types", JStrs (ResponseTypes c));
         ("token_endpoint_auth_method", JStr (TokenEndpointAuthMethod c))] ++
        (if CreatedAt c =? 0 then [] else [("client_id_issued_at", JInt (CreatedAt c))])).
Definition session_json (s : AuthSession) : json :=
  JObj ([("session_id", JStr (SessionID s)); ("client_id", JStr (s_ClientID s));
         ("redirect_uri", JStr (s_RedirectURI s)); ("state", JStr (s_State s));
         ("code_challenge", JStr (s_CodeChallenge s)); ("code_method", JStr (s_CodeMethod s));
         ("scope", JStr (s_Scope s)); ("created_at", JTime (s_CreatedAt s))] ++
        omitempty "user_id" (s_UserID s)).
Definition code_json (c : AuthCode) : json :=
  JObj [("code", JStr (Code c)); ("client_id", JStr (c_ClientID c)); ("user_id", JStr (c_UserID c));
        ("redirect_uri", JStr (c_RedirectURI c)); ("code_challenge", JStr (c_CodeChallenge c));
        ("scope", JStr (c_Scope c)); ("expires_at", JTime (c_ExpiresAt c)); ("used", JBool (Used c))].
Definition token_json (t : RefreshToken) : json :=
  JObj [("token", JStr (Token t)); ("user_id", JStr (t_UserID t)); ("client_id", JStr (t_ClientID t));
        ("scope", JStr (t_Scope t)); ("expires_at", JTime (t_ExpiresAt t))].

(** *** Unmarshalling *)
Definition dec_client (v : json) : option OAuthClient :=
  l ← dec_struct v;
  id ← dec_field "client_id" dec_string "" l;
  sec ← dec_field "client_secret" dec_string "" l;
  nm ← dec_field "client_name" dec_string "" l;
  ru ← dec_field "redirect_uris" (dec_list "" dec_string) [] l;
  gt ← dec_field "grant_types" (dec_list "" dec_string) [] l;
  rt ← dec_field "response_types" (dec_list "" dec_string) [] l;
  am ← dec_field "token_endpoint_auth_method" dec_string "" l;
  ca ← dec_field "client_id_issued_at" dec_int64 0 l;
  Some (mkOAuthClient id sec nm ru gt rt am ca).
Definition dec_session (v : json) : option AuthSession :=
  l ← dec_struct v;
  id ← dec_field "session_id" dec_string "" l;
  cl ← dec_field "client_id" dec_string "" l;
  ru ← dec_field "redirect_uri" dec_string "" l;
  st ← dec_field "state" dec_string "" l;
  cc ← dec_field "code_challenge" dec_string "" l;
  cm ← dec_field "code_method" dec_string "" l;
  sc ← dec_field "scope" dec_string "" l;
  ca ← dec_field "created_at" dec_time zero_time l;
  us ← dec_field "user_id" dec_string "" l;
  Some (mkAuthSession id cl ru st cc cm sc ca us).
Definition dec_code (v : json) : option AuthCode :=
  l ← dec_struct v;
  co ← dec_field "code" dec_string "" l;
  cl ← dec_field "client_id" dec_string "" l;
  us ← dec_field "user_id" dec_string "" l;
  ru ← dec_field "redirect_uri" dec_string "" l;
  cc ← dec_field "code_challenge" dec_string "" l;
  sc ← dec_field "scope" dec_string "" l;
  ex ← dec_field "expires_at" dec_time zero_time l;
  ud ← dec_field "used" dec_bool false l;
  Some (mkAuthCode co cl us ru cc sc ex ud).
Definition dec_token (v : json) : option RefreshToken :=
  l ← dec_struct v;
  to ← dec_field "token" dec_string "" l;
  us ← dec_field "user_id" dec_string "" l;
  cl ← dec_field "client_id" dec_string "" l;
  sc ← dec_field "scope" dec_string "" l;
  ex ← dec_field "expires_at" dec_time zero_time l;
  Some (mkRefreshToken to us cl sc ex).

(** ** The client *)
Record OAuthBackend := mkOAuthBackend { b_apiURL : string }.
Definition NewOAuthBackend (apiURL : string) : OAuthBackend := mkOAuthBackend apiURL.

(** [doRequest]: any status below 400 is success. *)
Definition doRequest (b : OAuthBackend) (method path : string) (body : option string)
    : M World (result unit) :=
  match NewRequest method (b_apiURL b +:+ path) body with
  | None => mret (Err "create request")
  | Some req =>
      let req := match body with
        | Some _ => req_set "Content-Type" "application/json" req | None => req end in
      resp ← client_Do req;
      mret (match resp with
            | Err e => Err ("backend request: " +:+ e)
            | Ok r => if 400 <=? hr_status r
                      then Err ("backend returned " +:+ Itoa (hr_status r)) else Ok tt
            end)
  end.
Definition postJSON (b : OAuthBackend) (path : string) (v : json) : M World (result unit) :=
  doRequest b "POST" path (Some (Marshal v)).
Definition patchJSON (b : OAuthBackend) (path : string) (v : option json) : M World (result unit) :=
  doRequest b "PATCH" path (Marshal <$> v).

(** How a lookup answer is read: 404 is "not found", 200 is decoded. *)
Definition read_found {A} (dec : json -> option A) (resp : result HTTPResponse) : result (option A) :=
  match resp with
  | Err e => Err ("backend request: " +:+ e)
  | Ok r =>
      if hr_status r =? StatusNotFound then Ok None
      else if negb (hr_status r =? StatusOK)
      then Err ("backend returned " +:+ Itoa (hr_status r))
      else match json_decode (hr_body r) ≫= dec with
           | Some a => Ok (Some a)
           | None => Err "decode response"
           end
  end.
Definition getJSON {A} (b : OAuthBackend) (path : string) (dec : json -> option A)
    : M World (result (option A)) :=
  match NewRequest "GET" (b_apiURL b +:+ path) None with
  | None => mret (Err "create request")
  | Some req => resp ← client_Do req; mret (read_found dec resp)
  end.

(** *** Operations *)
Definition SaveSession (b : OAuthBackend) (s : AuthSession) : M World (result unit) :=
  postJSON b "/api/internal/oauth/sessions" (session_json s).
Definition GetSession (b : OAuthBackend) (id : string) : M World (result (option AuthSession)) :=
  getJSON b ("/api/internal/oauth/sessions/" +:+ id) dec_session.
Definition GetSessionByClientID (b : OAuthBackend) (id : string) : M World (result (option AuthSession)) :=
  getJSON b ("/api/internal/oauth/sessions?client_id=" +:+ id) dec_session.
Definition UpdateSessionUserID (b : OAuthBackend) (id userID : string) : M World (result unit) :=
  patchJSON b ("/api/internal/oauth/sessions/" +:+ id) (Some (JStrMap [("user_id", userID)])).
Definition DeleteSession (b : OAuthBackend) (id : string) : M World (result unit) :=
  doRequest b "DELETE" ("/api/internal/oauth/sessions/" +:+ id) None.
Definition SaveClient (b : OAuthBackend) (c : OAuthClient) : M World (result unit) :=
  postJSON b "/api/internal/oauth/clients" (client_json c).
Definition GetClient (b : OAuthBackend) (id : string) : M World (result (option OAuthClient)) :=
  getJSON b ("/api/internal/oauth/clients/" +:+ id) dec_client.
Definition SaveCode (b : OAuthBackend) (c : AuthCode) : M World (result unit) :=
  postJSON b "/api/internal/oauth/codes" (code_json c).
Definition GetCode (b : OAuthBackend) (code : string) : M World (result (option AuthCode)) :=
  getJSON b ("/api/internal/oauth/codes/" +:+ code) dec_code.
Definition MarkCodeUsed (b : OAuthBackend) (code : string) : M World (result unit) :=
  patchJSON b ("/api/internal/oauth/codes/" +:+ code +:+ "/used") None.
Definition SaveToken (b : OAuthBackend) (t : RefreshToken) : M World (result unit) :=
  postJSON b "/api/internal/oauth/tokens" (token_json t).
Definition LookupToken (b : OAuthBackend) (plaintext : string) : M World (result (option RefreshToken)) :=
  match NewRequest "POST" (b_apiURL b +:+ "/api/internal/oauth/tokens/lookup")
          (Some (Marshal (JStrMap [("token", plaintext)]))) with
  | None => mret (Err "create request")
  | Some req =>
      resp ← client_Do (req_set "Content-Type" "application/json" req);
      mret (read_found dec_token resp)
  end.
Definition RevokeToken (b : OAuthBackend) (plaintext : string) : M World (result unit) :=
  postJSON b "/api/internal/oauth/tokens/revoke" (JStrMap [("token", plaintext)]).
End backend.

(** ** Backend calls read neither the clock nor the random source *)
Section quiet.
Context `{!Env} `{!NetURL} `{!Unicode} `{!TimeCodec}.

Definition quiet {A} (m : M World A) : Prop :=
  forall w, w_tick (m w).2 = w_tick w /\ w_draw (m w).2 = w_draw w.

Lemma quiet_ret {A} (a : A) : quiet (mret a).
Proof. done. Qed.
Lemma quiet_bind {A B} (m : M World A) (f : A -> M World B) :
  quiet m -> (forall a, quiet (f a)) -> quiet (m ≫= f).
Proof.
  intros Hm Hf w. rewrite M_bind_unfold. specialize (Hm w). destruct (m w) as [a w']; simpl in *.
  destruct (Hf a w'), Hm. split; congruence.
Qed.
Lemma quiet_client_Do q : quiet (client_Do q).
Proof. intros w. unfold client_Do. by destruct (http_do q (w_srv w)). Qed.
Lemma quiet_doRequest b m p body : quiet (doRequest b m p body).
Proof.
  unfold doRequest. destruct (NewRequest _ _ _); [|apply quiet_ret].
  apply quiet_bind; [apply quiet_client_Do|intros; apply quiet_ret].
Qed.
Lemma quiet_getJSON {A} b p (d : json -> option A) : quiet (getJSON b p d).
Proof.
  unfold getJSON. destruct (NewRequest _ _ _); [|apply quiet_ret].
  apply quiet_bind; [apply quiet_client_Do|intros; apply quiet_ret].
Qed.
Lemma quiet_LookupToken b t : quiet (LookupToken b t).
Proof.
  unfold LookupToken. destruct (NewRequest _ _ _); [|apply quiet_ret].
  apply quiet_bind; [apply quiet_client_Do|intros; apply quiet_ret].
Qed.
End quiet.
#[export] Hint Resolve quiet_ret quiet_client_Do quiet_doRequest quiet_getJSON quiet_LookupToken : vire.
#[export] Hint Unfold GetSession GetSessionByClientID GetClient GetCode SaveSession SaveClient SaveCode
  SaveToken RevokeToken DeleteSession MarkCodeUsed UpdateSessionUserID postJSON patchJSON : vire.
#[export] Hint Extern 2 (quiet _) => progress autounfold with vire : vire.
