(* ===== verification/Cache.v ===== *)
(** * Cache: the response cache of the API proxy (internal/cache/cache.go).

    State, operations and invariant of [ResponseCache], its refinement of a
    bounded FIFO queue of fresh entries, and the step relation of its critical
    sections, which covers every interleaving of concurrent callers. *)
From S2P Require Import Prelude GoStrings.

Record CachedResponse := mkCachedResponse {
  StatusCode : Z;
  Headers : gmap string (list string);
  Body : string;
}.

Record entry := mkEntry {
  resp : CachedResponse;
  expiry : Z;
  insertIdx : Z;
}.

Record ResponseCache := mkResponseCache {
  items : gmap string entry;
  ttl : Z;
  maxEntries : Z;
  nextIdx : Z;
}.

Definition cache_New (ttl maxEntries : Z) : ResponseCache :=
  mkResponseCache ∅ ttl maxEntries 0.

Definition MakeKey (userID method path : string) : string :=
  userID +:+ ":" +:+ method +:+ ":" +:+ path.

Definition with_items (m : gmap string entry) (c : ResponseCache) : ResponseCache :=
  mkResponseCache m (ttl c) (maxEntries c) (nextIdx c).

(** The second critical section of [Get]: re-check under the write lock and
    drop the entry if it is still expired. *)
Definition Get_expire (key : string) (now : Z) (c : ResponseCache) : ResponseCache :=
  match items c !! key with
  | Some e2 => if After now (expiry e2) then with_items (delete key (items c)) c else c
  | None => c
  end.

(** [Get] reads the clock once to test the entry it found and a second time
    inside the write lock. *)
Definition ResponseCache_Get (key : string) (now now2 : Z) (c : ResponseCache)
    : option CachedResponse * ResponseCache :=
  match items c !! key with
  | None => (None, c)
  | Some e => if After now (expiry e) then (None, Get_expire key now2 c)
              else (Some (resp e), c)
  end.

(** The loop of [evictOldest]; Go visits the entries in an arbitrary order [l]. *)
Definition evict_step (acc : string * Z) (ke : string * entry) : string * Z :=
  if (acc.2 =? -1) || (insertIdx ke.2 <? acc.2) then (ke.1, insertIdx ke.2) else acc.
Definition evict_scan (l : list (string * entry)) : string * Z :=
  foldl evict_step ("", -1) l.
Definition evictOldest_in (l : list (string * entry)) (c : ResponseCache) : ResponseCache :=
  let oldestKey := (evict_scan l).1 in
  if decide (oldestKey = "") then c else with_items (delete oldestKey (items c)) c.
Definition evictOldest (c : ResponseCache) : ResponseCache :=
  evictOldest_in (map_to_list (items c)) c.

Definition ResponseCache_Set (key : string) (r : CachedResponse) (now : Z)
    (c0 : ResponseCache) : ResponseCache :=
  let e := mkEntry r (now + ttl c0) (nextIdx c0) in
  let c := mkResponseCache (items c0) (ttl c0) (maxEntries c0) (wrap64 (nextIdx c0 + 1)) in
  match items c !! key with
  | Some _ => with_items (<[key := e]> (items c)) c
  | None =>
      let c := if maxEntries c <=? Z.of_nat (size (items c)) then evictOldest c else c in
      with_items (<[key := e]> (items c)) c
  end.

Definition InvalidatePrefix (prefix : string) (c : ResponseCache) : ResponseCache :=
  with_items (filter (fun ke => Contains ke.1 prefix = false) (items c)) c.

(** ** Invariant *)
Record cache_wf (c : ResponseCache) : Prop := {
  wf_idx : forall k e, items c !! k = Some e -> 0 <= insertIdx e < nextIdx c;
  wf_inj : forall k1 k2 e1 e2, items c !! k1 = Some e1 -> items c !! k2 = Some e2 ->
             insertIdx e1 = insertIdx e2 -> k1 = k2;
  wf_size : Z.of_nat (size (items c)) <= Z.max 1 (maxEntries c);
  wf_key : items c !! "" = None;
  wf_next : 0 <= nextIdx c;
}.

(** A sub-map of a well-formed cache is well formed. *)
Lemma cache_wf_subset c m :
  cache_wf c -> m ⊆ items c -> cache_wf (with_items m c).
Proof.
  intros [Hi Hj Hs Hk Hn] Hsub.
  assert (Hlk : forall k e, m !! k = Some e -> items c !! k = Some e)
    by (intros; by eapply lookup_weaken).
  split; simpl; [by eauto|by eauto| | |done].
  - assert (size m <= size (items c))%nat by (by apply map_subseteq_size). lia.
  - destruct (m !! "") eqn:E; [|done]. apply Hlk in E. congruence.
Qed.

Lemma with_items_id c : with_items (items c) c = c.
Proof. by destruct c. Qed.

Lemma Get_expire_items_subset key now c : items (Get_expire key now c) ⊆ items c.
Proof. unfold Get_expire. repeat split_one; simpl; [apply delete_subseteq|done..]. Qed.

Lemma Get_expire_with_items key now c :
  Get_expire key now c = with_items (items (Get_expire key now c)) c.
Proof. unfold Get_expire. repeat split_one; by destruct c. Qed.

Lemma InvalidatePrefix_subset p c : items (InvalidatePrefix p c) ⊆ items c.
Proof. apply map_filter_subseteq. Qed.

(** *** The eviction loop finds the entry with the smallest index *)
Lemma evict_scan_spec l :
  l ≠ [] -> (forall ke, ke ∈ l -> 0 <= insertIdx ke.2) ->
  exists e, ((evict_scan l).1, e) ∈ l /\ insertIdx e = (evict_scan l).2 /\
    forall ke, ke ∈ l -> insertIdx e <= insertIdx ke.2.
Proof.
  unfold evict_scan. induction l as [|x l IH] using rev_ind; intros Hne Hpos; [done|].
  rewrite foldl_snoc. destruct (decide (l = [])) as [->|Hl].
  - exists x.2. destruct x; simpl. set_solver.
  - destruct IH as (e & Hin & He & Hmin); [done|set_solver|].
    set (acc := foldl evict_step ("", -1) l) in *.
    assert (Hacc : 0 <= acc.2) by (rewrite <-He; apply (Hpos (acc.1, e)); set_solver).
    unfold evict_step. replace (acc.2 =? -1) with false by (symmetry; apply Z.eqb_neq; lia).
    destruct (Z.ltb_spec (insertIdx x.2) acc.2); simpl.
    + exists x.2. destruct x as [kx ex]; simpl in *. split; [set_solver|split; [done|]].
      intros ke [Hk| ->%list_elem_of_singleton]%elem_of_app; [|done].
      specialize (Hmin ke Hk). lia.
    + exists e. split; [set_solver|split; [done|]].
      intros ke [Hk| ->%list_elem_of_singleton]%elem_of_app; [auto|lia].
Qed.

(** On a well-formed, non-empty cache the loop removes the key with the least
    index, whatever the order in which the entries are visited. *)
Lemma evictOldest_in_spec l c :
  cache_wf c -> l ≡ₚ map_to_list (items c) -> items c ≠ ∅ ->
  exists k e, items c !! k = Some e /\
    (forall k' e', items c !! k' = Some e' -> insertIdx e <= insertIdx e') /\
    evictOldest_in l c = with_items (delete k (items c)) c.
Proof.
  intros Hwf Hl Hne.
  assert (Hin : forall k e, (k, e) ∈ l <-> items c !! k = Some e)
    by (intros k e; rewrite Hl; apply elem_of_map_to_list).
  destruct (evict_scan_spec l) as (e & He & _ & Hmin).
  - intros ->. apply Permutation_nil_l in Hl. symmetry in Hl.
    by apply map_to_list_empty_iff in Hl.
  - intros [k e] Hk%Hin. by eapply wf_idx in Hk as []; eauto.
  - exists (evict_scan l).1, e. split_and!; [by apply Hin| |].
    + intros k' e' Hk'. by apply (Hmin (k', e')), Hin.
    + unfold evictOldest_in. rewrite decide_False; [done|]. intros Heq.
      apply Hin in He. rewrite Heq, (wf_key c) in He by done. done.
Qed.

Lemma evictOldest_in_empty l c : l ≡ₚ map_to_list (items c) -> items c = ∅ -> evictOldest_in l c = c.
Proof.
  intros Hl Hc. rewrite Hc, map_to_list_empty in Hl.
  apply Permutation_nil_r in Hl as ->. done.
Qed.

Lemma evictOldest_subset l c : items (evictOldest_in l c) ⊆ items c.
Proof. unfold evictOldest_in. repeat split_one; simpl; [done|apply delete_subseteq]. Qed.

Lemma evictOldest_in_with_items l c :
  evictOldest_in l c = with_items (items (evictOldest_in l c)) c.
Proof. unfold evictOldest_in. split_one; by destruct c. Qed.

(** *** [Set] inserts the entry into a part of the old items *)
Definition set_base (key : string) (c : ResponseCache) : gmap string entry :=
  match items c !! key with
  | Some _ => items c
  | None => if maxEntries c <=? Z.of_nat (size (items c)) then items (evictOldest c) else items c
  end.

Lemma Set_unfold key r now c :
  ResponseCache_Set key r now c =
  mkResponseCache (<[key := mkEntry r (now + ttl c) (nextIdx c)]> (set_base key c))
    (ttl c) (maxEntries c) (wrap64 (nextIdx c + 1)).
Proof.
  unfold ResponseCache_Set, set_base, evictOldest. simpl.
  destruct (items c !! key); [done|]. destruct (_ <=? _); [|done].
  unfold evictOldest_in. simpl. by split_one.
Qed.

Lemma set_base_subset key c : set_base key c ⊆ items c.
Proof. unfold set_base. repeat split_one; [done|apply evictOldest_subset|done]. Qed.

Lemma set_base_size key e c :
  cache_wf c -> Z.of_nat (size (<[key := e]> (set_base key c))) <= Z.max 1 (maxEntries c).
Proof.
  intros Hwf. unfold set_base. destruct (items c !! key) eqn:Hk.
  { rewrite map_size_insert_Some by eauto. by apply wf_size. }
  destruct (Z.leb_spec (maxEntries c) (Z.of_nat (size (items c)))).
  - assert (items (evictOldest c) !! key = None).
    { eapply lookup_weaken_None; [exact Hk|apply evictOldest_subset]. }
    rewrite map_size_insert_None by done.
    destruct (decide (items c = ∅)) as [He|Hne].
    + unfold evictOldest. rewrite evictOldest_in_empty by done. rewrite He, map_size_empty. lia.
    + unfold evictOldest.
      destruct (evictOldest_in_spec (map_to_list (items c)) c) as (k & e' & He' & _ & ->); [done..|].
      simpl. rewrite map_size_delete, He'.
      assert (size (items c) ≠ 0%nat) by (intros Hz%map_size_empty_inv; by rewrite Hz in He').
      pose proof (wf_size c Hwf). simpl. lia.
  - rewrite map_size_insert_None by done. lia.
Qed.

(** *** The invariant is preserved by every operation *)
Lemma cache_New_wf t n : cache_wf (cache_New t n).
Proof. split; simpl; rewrite ?map_size_empty; try done; try lia; intros; simplify_map_eq. Qed.

Lemma Set_wf key r now c :
  cache_wf c -> key ≠ "" -> nextIdx c < 2 ^ 63 - 1 ->
  cache_wf (ResponseCache_Set key r now c).
Proof.
  intros Hwf Hkey Hov. rewrite Set_unfold.
  assert (Hsub := set_base_subset key c). pose proof (wf_next c Hwf).
  rewrite wrap64_id by lia.
  assert (Hold : forall k e, set_base key c !! k = Some e -> 0 <= insertIdx e < nextIdx c).
  { intros k e He. eapply wf_idx; [done|]. by eapply lookup_weaken. }
  split; simpl; [| |by apply set_base_size| |lia].
  - intros k e [[<- <-]|[_ He]]%lookup_insert_Some; simpl; [lia|].
    specialize (Hold _ _ He). lia.
  - intros k1 k2 e1 e2 [[<- <-]|[? H1]]%lookup_insert_Some [[<- <-]|[? H2]]%lookup_insert_Some;
      simpl; intros Heq; [done| | |].
    + specialize (Hold _ _ H2). lia.
    + specialize (Hold _ _ H1). lia.
    + eapply (wf_inj c Hwf); eauto using lookup_weaken.
  - rewrite lookup_insert_ne by done. eapply lookup_weaken_None; [by apply wf_key|done].
Qed.

Lemma Get_expire_wf key now c : cache_wf c -> cache_wf (Get_expire key now c).
Proof.
  intros. rewrite Get_expire_with_items. by apply cache_wf_subset, Get_expire_items_subset.
Qed.

Lemma Get_wf key n1 n2 c : cache_wf c -> cache_wf (ResponseCache_Get key n1 n2 c).2.
Proof. intros. unfold ResponseCache_Get. repeat split_one; simpl; auto using Get_expire_wf. Qed.

Lemma Invalidate_wf p c : cache_wf c -> cache_wf (InvalidatePrefix p c).
Proof. intros. by apply cache_wf_subset, InvalidatePrefix_subset. Qed.

#[export] Hint Resolve cache_New_wf Set_wf Get_expire_wf Get_wf Invalidate_wf : vire.

(** ** Abstract specification: a bounded FIFO queue

    The queue holds the cached responses with their expiry, oldest first. *)
Notation fifo := (list (string * (CachedResponse * Z))).

Definition fifo_remove (k : string) (l : fifo) : fifo := filter (fun kv => kv.1 ≠ k) l.
Definition fifo_lookup (k : string) (l : fifo) : option (CachedResponse * Z) :=
  list_to_map (M := gmap string _) l !! k.

Definition fifo_set (cap : Z) (k : string) (r : CachedResponse) (exp : Z) (l : fifo) : fifo :=
  (if decide (k ∈ l.*1) then fifo_remove k l
   else if cap <=? Z.of_nat (length l) then tail l else l) ++ [(k, (r, exp))].
Definition fifo_get (k : string) (now : Z) (l : fifo) : option CachedResponse * fifo :=
  match fifo_lookup k l with
  | Some (r, exp) => if exp <? now then (None, fifo_remove k l) else (Some r, l)
  | None => (None, l)
  end.
Definition fifo_invalidate (p : string) (l : fifo) : fifo :=
  filter (fun kv => Contains kv.1 p = false) l.

(** The refinement relation: the queue lists the items by increasing index. *)
Definition erase (ke : string * entry) : string * (CachedResponse * Z) :=
  (ke.1, (resp ke.2, expiry ke.2)).
Definition older (a b : string * entry) : Prop := insertIdx a.2 < insertIdx b.2.

Record cache_repr_by (L : list (string * entry)) (c : ResponseCache) (l : fifo) : Prop := {
  repr_sorted : StronglySorted older L;
  repr_nodup : NoDup L.*1;
  repr_items : items c = list_to_map L;
  repr_queue : l = erase <$> L;
}.
Definition cache_repr (c : ResponseCache) (l : fifo) : Prop := exists L, cache_repr_by L c l.

Lemma erase_keys (L : list (string * entry)) : (erase <$> L).*1 = L.*1.
Proof. by rewrite <-list_fmap_compose. Qed.

Lemma repr_elem L c l k e : cache_repr_by L c l -> (k, e) ∈ L <-> items c !! k = Some e.
Proof. intros [_ Hn -> _]. by apply elem_of_list_to_map. Qed.

Lemma repr_filter (P : string -> Prop) `{!forall k, Decision (P k)} L c l :
  cache_repr_by L c l ->
  cache_repr_by (filter (fun ke => P ke.1) L)
    (with_items (filter (fun ke => P ke.1) (items c)) c) (filter (fun kv => P kv.1) l).
Proof.
  intros [Hs Hn Hi ->]. split; simpl.
  - by apply StronglySorted_filter.
  - by apply filter_NoDup_keys.
  - rewrite Hi. symmetry. by apply filter_list_to_map.
  - clear. induction L as [|[k e] L IH]; [done|]. rewrite fmap_cons, filter_cons, filter_cons. simpl.
    destruct (decide (P k)); [rewrite fmap_cons; f_equal|]; exact IH.
Qed.

Lemma delete_as_filter (k : string) (m : gmap string entry) :
  delete k m = filter (fun ke => ke.1 ≠ k) m.
Proof.
  apply map_eq. intros j. apply option_eq. intros e.
  rewrite lookup_delete_Some, map_lookup_filter_Some. naive_solver.
Qed.

Lemma repr_lookup c l k : cache_repr c l ->
  fifo_lookup k l = (fun e => (resp e, expiry e)) <$> items c !! k.
Proof.
  intros [L [_ _ -> ->]]. unfold fifo_lookup. rewrite <-lookup_fmap.
  by rewrite <-(list_to_map_fmap (M := gmap string) (fun e => (resp e, expiry e)) L).
Qed.

Lemma repr_keys c l k : cache_repr c l -> k ∈ l.*1 <-> is_Some (items c !! k).
Proof.
  intros [L [_ _ -> ->]]. rewrite erase_keys. split.
  - intros Hk. destruct (list_to_map L !! k) eqn:E; [eauto|].
    apply not_elem_of_list_to_map in E. done.
  - intros [e He]. apply elem_of_list_to_map_2 in He.
    change k with (fst (k, e)). by apply list_elem_of_fmap_2.
Qed.

Lemma repr_length c l : cache_repr c l -> length l = size (items c).
Proof.
  intros [L [_ Hn -> ->]]. rewrite length_fmap. by rewrite map_size_list_to_map.
Qed.

(** The eviction loop removes the head of the queue. *)
Lemma evictOldest_tail p L c l :
  cache_wf c -> cache_repr_by L c l -> p ≡ₚ map_to_list (items c) ->
  cache_repr_by (tail L) (evictOldest_in p c) (tail l).
Proof.
  intros Hwf HL Hp. destruct (decide (items c = ∅)) as [He|Hne].
  { rewrite evictOldest_in_empty by done. destruct L as [|[k e] L].
    - by destruct HL as [? ? ? ->].
    - assert (Hk : items c !! k = Some e) by (eapply repr_elem; [done|set_solver]).
      by rewrite He in Hk. }
  destruct (evictOldest_in_spec p c) as (k & e & Hk & Hmin & ->); [done..|].
  destruct L as [|[k0 e0] L].
  { apply (repr_elem _ _ _ _ _ HL) in Hk. set_solver. }
  assert (H0 : items c !! k0 = Some e0) by (eapply repr_elem; [done|set_solver]).
  assert (k = k0) as ->.
  { apply (repr_elem _ _ _ _ _ HL), elem_of_cons in Hk as [Hk|Hk]; [congruence|].
    destruct HL as [[? Hf]%StronglySorted_inv _ _ _].
    eapply Forall_forall in Hf; [|exact Hk]. unfold older in Hf. simpl in Hf.
    specialize (Hmin _ _ H0). lia. }
  destruct HL as [[Hs _]%StronglySorted_inv Hn Hi ->]. simpl in *.
  apply NoDup_cons in Hn as [Hk0 Hn]. split; simpl; try done.
  rewrite Hi. simpl. apply delete_insert_id. by apply not_elem_of_list_to_map.
Qed.

(** *** Each operation refines the queue operation *)
Lemma repr_snoc key e L m q c :
  cache_wf c -> cache_repr_by L (with_items m c) q -> m ⊆ items c -> m !! key = None ->
  insertIdx e = nextIdx c ->
  cache_repr (mkResponseCache (<[key := e]> m) (ttl c) (maxEntries c) (nextIdx c + 1))
    (q ++ [erase (key, e)]).
Proof.
  intros Hwf HL Hm Hkey He. exists (L ++ [(key, e)]).
  assert (Hin : forall k x, (k, x) ∈ L -> items c !! k = Some x).
  { intros k x Hx. eapply lookup_weaken; [|exact Hm]. by apply (repr_elem _ _ _ _ _ HL). }
  destruct HL as [Hs Hn Hi ->]. simpl in Hi. subst m.
  assert (key ∉ L.*1) by (by apply not_elem_of_list_to_map).
  split; simpl.
  - apply StronglySorted_app. split_and!; [|done|repeat constructor].
    intros [k x] y Hx ->%list_elem_of_singleton. unfold older. simpl. rewrite He.
    by apply Hin, (wf_idx c Hwf) in Hx as [].
  - rewrite fmap_app. apply NoDup_app. split_and!; [done| |apply NoDup_singleton]. set_solver.
  - symmetry. by apply list_to_map_snoc.
  - by rewrite fmap_app.
Qed.

Lemma Set_repr key r now c l :
  cache_wf c -> nextIdx c < 2 ^ 63 - 1 -> cache_repr c l ->
  cache_repr (ResponseCache_Set key r now c) (fifo_set (maxEntries c) key r (now + ttl c) l).
Proof.
  intros Hwf Hov Hrepr. rewrite Set_unfold. unfold fifo_set, set_base.
  pose proof (wf_next c Hwf). rewrite wrap64_id by lia.
  set (e := mkEntry r (now + ttl c) (nextIdx c)). change (key, (r, now + ttl c)) with (erase (key, e)).
  destruct (decide (key ∈ l.*1)) as [Hk|Hk]; rewrite (repr_keys c l key Hrepr) in Hk.
  - destruct Hk as [e0 Hk]. rewrite Hk. destruct Hrepr as [L HL].
    rewrite <-(insert_delete_eq (items c)), delete_as_filter.
    eapply repr_snoc; [done|exact (repr_filter (fun k => k ≠ key) L c l HL)|apply map_filter_subseteq| |done].
    rewrite <-delete_as_filter. apply lookup_delete_eq.
  - apply eq_None_not_Some in Hk. rewrite Hk, (repr_length c l Hrepr). destruct Hrepr as [L HL].
    destruct (_ <=? _).
    + eapply repr_snoc; [done| |apply evictOldest_subset| |done].
      * unfold evictOldest. rewrite <-evictOldest_in_with_items. by apply evictOldest_tail.
      * eapply lookup_weaken_None; [exact Hk|apply evictOldest_subset].
    + eapply repr_snoc; [done|by rewrite with_items_id|done..].
Qed.

Lemma Get_repr key now c l :
  cache_repr c l ->
  (ResponseCache_Get key now now c).1 = (fifo_get key now l).1 /\
  cache_repr (ResponseCache_Get key now now c).2 (fifo_get key now l).2.
Proof.
  intros Hrepr. unfold ResponseCache_Get, fifo_get. rewrite (repr_lookup c l key Hrepr).
  destruct (items c !! key) as [e|] eqn:Hk; simpl; [|done].
  unfold After. destruct (expiry e <? now) eqn:He; simpl; [|done]. split; [done|].
  unfold Get_expire. rewrite Hk. unfold After. rewrite He.
  destruct Hrepr as [L HL]. rewrite delete_as_filter.
  eexists. exact (repr_filter (fun k => k ≠ key) L c l HL).
Qed.

Lemma Invalidate_repr p c l :
  cache_repr c l -> cache_repr (InvalidatePrefix p c) (fifo_invalidate p l).
Proof.
  intros [L HL]. eexists. exact (repr_filter (fun k => Contains k p = false) L c l HL).
Qed.

(** ** Critical sections, in any order

    Every method holds the mutex for one of these steps, so an execution with
    any number of concurrent callers is a sequence of them.  Keys come from
    [MakeKey], so they are never empty; the insertion counter is an [int64]. *)
Inductive cache_step : ResponseCache -> ResponseCache -> Prop :=
| step_set c key r now :
    key ≠ "" -> nextIdx c < 2 ^ 63 - 1 -> cache_step c (ResponseCache_Set key r now c)
| step_expire c key now : cache_step c (Get_expire key now c)
| step_invalidate c p : cache_step c (InvalidatePrefix p c).

Lemma cache_step_wf c c' : cache_step c c' -> cache_wf c -> cache_wf c'.
Proof. destruct 1; auto with vire. Qed.

Lemma cache_step_max c c' : cache_step c c' -> maxEntries c' = maxEntries c.
Proof. destruct 1; [by rewrite Set_unfold|by rewrite Get_expire_with_items|done]. Qed.

Lemma cache_reachable_wf t n c :
  rtc cache_step (cache_New t n) c -> cache_wf c /\ maxEntries c = n.
Proof.
  intros Hr. remember (cache_New t n) as c0 eqn:E.
  assert (cache_wf c0 /\ maxEntries c0 = n) as H by (subst; auto with vire). clear E.
  induction Hr as [|c1 c2 c3 Hs _ IH]; [done|]. apply IH.
  destruct H as [Hw Hm]. split; [by eapply cache_step_wf|]. by rewrite (cache_step_max _ _ Hs).
Qed.

(** ** Runs of operations *)
Inductive cache_op :=
| OpGet (key : string) (now : Z)
| OpSet (key : string) (r : CachedResponse) (now : Z)
| OpInvalidate (prefix : string).

Definition exec_op (o : cache_op) (c : ResponseCache) : option CachedResponse * ResponseCache :=
  match o with
  | OpGet k now => ResponseCache_Get k now now c
  | OpSet k r now => (None, ResponseCache_Set k r now c)
  | OpInvalidate p => (None, InvalidatePrefix p c)
  end.
Definition spec_op (cap t : Z) (o : cache_op) (l : fifo) : option CachedResponse * fifo :=
  match o with
  | OpGet k now => fifo_get k now l
  | OpSet k r now => (None, fifo_set cap k r (now + t) l)
  | OpInvalidate p => (None, fifo_invalidate p l)
  end.
Fixpoint exec_ops (ops : list cache_op) (c : ResponseCache) : list (option CachedResponse) :=
  match ops with
  | [] => []
  | o :: ops => let '(r, c') := exec_op o c in r :: exec_ops ops c'
  end.
Fixpoint spec_ops (cap t : Z) (ops : list cache_op) (l : fifo) : list (option CachedResponse) :=
  match ops with
  | [] => []
  | o :: ops => let '(r, l') := spec_op cap t o l in r :: spec_ops cap t ops l'
  end.
Definition op_key_ok (o : cache_op) : Prop := match o with OpSet k _ _ => k ≠ "" | _ => True end.

Lemma exec_op_params o c :
  nextIdx c < 2 ^ 63 - 1 -> 0 <= nextIdx c ->
  ttl (exec_op o c).2 = ttl c /\ maxEntries (exec_op o c).2 = maxEntries c /\
  nextIdx (exec_op o c).2 <= nextIdx c + 1.
Proof.
  intros H H0. destruct o; simpl.
  - unfold ResponseCache_Get. repeat split_one; simpl; try rewrite Get_expire_with_items; simpl; lia.
  - rewrite Set_unfold. simpl. rewrite wrap64_id by lia. lia.
  - lia.
Qed.

Lemma exec_op_refines o c l :
  cache_wf c -> cache_repr c l -> nextIdx c < 2 ^ 63 - 1 -> op_key_ok o ->
  cache_wf (exec_op o c).2 /\
  (exec_op o c).1 = (spec_op (maxEntries c) (ttl c) o l).1 /\
  cache_repr (exec_op o c).2 (spec_op (maxEntries c) (ttl c) o l).2.
Proof.
  intros Hwf Hr Hov Hk. destruct o; simpl in *.
  - split; [auto with vire|by apply Get_repr].
  - split; [auto with vire|split; [done|by apply Set_repr]].
  - split; [auto with vire|split; [done|by apply Invalidate_repr]].
Qed.

Lemma exec_ops_refines ops : forall c l,
  cache_wf c -> cache_repr c l -> nextIdx c + Z.of_nat (length ops) < 2 ^ 63 ->
  Forall op_key_ok ops ->
  exec_ops ops c = spec_ops (maxEntries c) (ttl c) ops l.
Proof.
  induction ops as [|o ops IH]; intros c l Hwf Hr Hov Hk; [done|].
  apply Forall_cons in Hk as [Hk Hks]. cbn [length] in Hov. pose proof (wf_next c Hwf).
  destruct (exec_op_refines o c l) as (Hwf' & Ho & Hr'); [done..|lia|done|].
  destruct (exec_op_params o c) as (Ht & Hm & Hn); [lia..|].
  simpl. destruct (exec_op o c) as [x c'], (spec_op _ _ o l) as [y l']. simpl in *. subst y.
  f_equal. rewrite <-Ht, <-Hm. apply IH; [done..|lia|done].
Qed.

(** ** Properties *)

(** However many goroutines use the cache and however their critical
    sections interleave, it never holds more than [maxEntries] responses (one,
    if [maxEntries] is not positive), and the insertion indices it evicts by are
    distinct and below the counter. *)
Lemma cache_bounded t n c :
  rtc cache_step (cache_New t n) c ->
  Z.of_nat (size (items c)) <= Z.max 1 n /\ cache_wf c.
Proof.
  intros Hr. destruct (cache_reachable_wf t n c Hr) as [Hw <-]. split; [by apply wf_size|done].
Qed.

(** C14. From a new cache, every sequence of [Get], [Set] and [InvalidatePrefix]
    answers exactly as a bounded FIFO queue of (key, response, expiry) would:
    [Set] moves the key to the back and drops the oldest entry when full, [Get]
    hits until the expiry has passed. *)
Theorem cache_refines_fifo t n ops :
  Forall op_key_ok ops -> Z.of_nat (length ops) < 2 ^ 63 ->
  exec_ops ops (cache_New t n) = spec_ops n t ops [].
Proof.
  intros Hk Hl. rewrite (exec_ops_refines ops (cache_New t n) []); auto with vire.
  exists []. by split; [constructor|constructor| |].
Qed.

Definition sample_resp (b : string) : CachedResponse := mkCachedResponse 200 ∅ b.
Definition sample_ops : list cache_op :=
  [OpSet "u:GET:/a" (sample_resp "1") 0; OpSet "u:GET:/b" (sample_resp "2") 1;
   OpSet "u:GET:/c" (sample_resp "3") 2; OpGet "u:GET:/a" 3; OpGet "u:GET:/c" 3;
   OpGet "u:GET:/c" 13].

Lemma cache_refines_fifo_witness :
  exec_ops sample_ops (cache_New 10 2) =
  [None; None; None; None; Some (sample_resp "3"); None].
Proof.
  rewrite (cache_refines_fifo 10 2 sample_ops).
  - vm_compute. reflexivity.
  - repeat constructor; discriminate.
  - vm_compute. reflexivity.
Defined.


(** Eviction does not depend on the order in which Go's map iteration visits
    the entries: on a well-formed cache every order removes the same key. *)
Lemma evictOldest_order c l1 l2 :
  cache_wf c -> l1 ≡ₚ map_to_list (items c) -> l2 ≡ₚ map_to_list (items c) ->
  evictOldest_in l1 c = evictOldest_in l2 c.
Proof.
  intros Hwf H1 H2. destruct (decide (items c = ∅)) as [He|Hne].
  { by rewrite !evictOldest_in_empty. }
  destruct (evictOldest_in_spec l1 c) as (k1 & e1 & Hk1 & Hm1 & ->); [done..|].
  destruct (evictOldest_in_spec l2 c) as (k2 & e2 & Hk2 & Hm2 & ->); [done..|].
  specialize (Hm1 _ _ Hk2). specialize (Hm2 _ _ Hk1).
  assert (k1 = k2) as -> by (eapply (wf_inj c Hwf); eauto; lia). done.
Qed.


Lemma MakeKey_sep u1 m1 p1 u2 m2 p2 :
  no_byte ":" u1 = true -> no_byte ":" u2 = true ->
  no_byte ":" m1 = true -> no_byte ":" m2 = true ->
  MakeKey u1 m1 p1 = MakeKey u2 m2 p2 -> u1 = u2 /\ m1 = m2 /\ p1 = p2.
Proof.
  unfold MakeKey. intros Hu1 Hu2 Hm1 Hm2 H.
  apply append_sep_inj in H as [-> H]; [|done..].
  by apply append_sep_inj in H as [-> ->].
Qed.

(** Cache keys separate users: as long as user ids and methods contain no
    colon, two requests share a key only if user, method and request URI agree. *)
Lemma MakeKey_inj u1 m1 p1 u2 m2 p2 :
  no_byte ":" u1 = true -> no_byte ":" u2 = true ->
  no_byte ":" m1 = true -> no_byte ":" m2 = true ->
  MakeKey u1 m1 p1 = MakeKey u2 m2 p2 -> u1 = u2 /\ m1 = m2 /\ p1 = p2.
Proof. apply MakeKey_sep. Qed.


(** A user id with a colon can collide with another user's key. *)
Lemma MakeKey_collision :
  MakeKey "a" "GET" "/x:GET:/y" = MakeKey "a:GET:/x" "GET" "/y".
Proof. reflexivity. Qed.

(** The path of a write removes every key that holds it anywhere, of all users. *)
Lemma Invalidate_anywhere r now :
  items (InvalidatePrefix "/api/funds" (ResponseCache_Set "bob:GET:/api/archive/api/funds" r now (cache_New 1 10))) = ∅.
Proof. vm_compute. reflexivity. Qed.

(** Write-then-read on the cache: after [Set] a [Get] of the same key returns
    that response until [ttl] has elapsed and nothing afterwards, and after
    [InvalidatePrefix path] no key whose request URI starts with [path] is served. *)
Lemma cache_get_after c u m path q r now now1 now2 :
  (ResponseCache_Get (MakeKey u m (path +:+ q)) now1 now2
     (ResponseCache_Set (MakeKey u m (path +:+ q)) r now c)).1 =
    (if now + ttl c <? now1 then None else Some r) /\
  (ResponseCache_Get (MakeKey u m (path +:+ q)) now1 now2 (InvalidatePrefix path c)).1 = None.
Proof.
  split.
  - rewrite Set_unfold. unfold ResponseCache_Get. simpl. rewrite lookup_insert_eq. simpl.
    unfold After. by destruct (_ <? _).
  - unfold ResponseCache_Get, InvalidatePrefix. simpl.
    replace (filter _ (items c) !! MakeKey u m (path +:+ q)) with (@None entry); [done|].
    symmetry. apply map_lookup_filter_None. right. intros e _. simpl.
    assert (Contains (MakeKey u m (path +:+ q)) path = true) as ->; [|done].
    apply Contains_spec. exists (u +:+ ":" +:+ m +:+ ":"), q.
    unfold MakeKey. by rewrite !append_assoc.
Qed.
