(* ===== verification/Samples.v ===== *)
(** * Samples: concrete instances of the environment parameters

    The witnesses of the theorems run the model against these: a vire-server
    that keeps the OAuth documents it is sent in a map, a counter for the clock,
    a deterministic random source, decimal times and a small URL parser. *)
From S2P Require Import Prelude GoStrings GoCrypto GoJson GoURL GoHTTP GoFloat OAuthBackend.

Definition sample_unicode : Unicode := {|
  unicode_lower := str_map lower_byte;
  unicode_upper := str_map upper_byte;
  unicode_equal_fold := fun s t => bool_decide (str_map lower_byte s = str_map lower_byte t);
  unicode_fold_name := str_map upper_byte;
|}.

Definition sample_time : TimeCodec := {| time_Format := Itoa; time_Parse := ParseInt |}.

(** [scheme://host/path?query#fragment]; anything else is a path with a query. *)
Definition split_query (s : string) : string * string :=
  match SplitN s "?" 2 with [p; q] => (p, q) | _ => (s, "") end.
Definition sample_parse (s : string) : option URL :=
  let '(main, frag) := match SplitN s "#" 2 with [p; f] => (p, f) | _ => (s, "") end in
  match SplitN main ":" 2 with
  | [scheme; rest] =>
      if negb (HasPrefix rest "//") then None else
      let '(hp, q) := split_query (str_drop 2 rest) in
      match SplitN hp "/" 2 with
      | [host; p] => Some (mkURL scheme "" "" host ("/" +:+ p) q frag)
      | _ => Some (mkURL scheme "" "" hp "" q frag)
      end
  | _ => let '(p, q) := split_query main in Some (mkURL "" "" "" "" p q frag)
  end.
Definition sample_string (u : URL) : string :=
  (if decide (Scheme u = "") then "" else Scheme u +:+ "://") +:+ UHost u +:+ UPath u +:+
  (if decide (RawQuery u = "") then "" else "?" +:+ RawQuery u) +:+
  (if decide (Fragment u = "") then "" else "#" +:+ Fragment u).
Definition sample_neturl : NetURL := {| url_Parse := sample_parse; url_String := sample_string |}.

(** ** A document server *)
Definition json_field (k : string) (v : json) : string :=
  match v with
  | JObj l => match find (fun kv => bool_decide (kv.1 = k)) l with
              | Some (_, JStr s) => s | _ => "" end
  | _ => ""
  end.
(** The id under which a document posted to a collection is kept. *)
Definition doc_id (url : string) (v : json) : string :=
  if HasSuffix url "/sessions" then json_field "session_id" v
  else if HasSuffix url "/clients" then json_field "client_id" v
  else if HasSuffix url "/codes" then json_field "code" v
  else json_field "token" v.
Definition http_resp (status : Z) (body : string) : HTTPResponse := mkHTTPResponse status ∅ body false.

Definition sample_do (q : HTTPRequest) (st : gmap string string) : result HTTPResponse * gmap string string :=
  let url := hq_url q in
  let body := default "" (hq_body q) in
  if decide (hq_method q = "GET") then
    (Ok (match st !! url with Some d => http_resp 200 d | None => http_resp 404 "" end), st)
  else if decide (hq_method q = "DELETE") then (Ok (http_resp 204 ""), delete url st)
  else if decide (hq_method q = "POST") then
    match json_parse body with
    | None => (Ok (http_resp 400 ""), st)
    | Some v =>
        if HasSuffix url "/tokens/lookup" then
          let key := str_take (slen url - 6) url +:+ json_field "token" v in
          (Ok (match st !! key with Some d => http_resp 200 d | None => http_resp 404 "" end), st)
        else if HasSuffix url "/tokens/revoke" then
          (Ok (http_resp 204 ""), delete (str_take (slen url - 6) url +:+ json_field "token" v) st)
        else (Ok (http_resp 201 ""), <[url +:+ "/" +:+ doc_id url v := body]> st)
    end
  else (Ok (http_resp 204 ""), st).

(** One second between clock readings; the n-th read of the random source
    repeats one byte. *)
Definition sample_env : Env := {|
  srv := gmap string string;
  http_do := sample_do;
  clock := fun n => (1700000000 + Z.of_nat n) * Second;
  rand_read := fun n k => Some (String.concat "" (repeat (String (chr (Z.of_nat n `mod` 256)) "") k));
|}.
(** A server that keeps the requests it gets and answers with an empty list. *)
Definition logging_env : Env := {|
  srv := list HTTPRequest;
  http_do := fun q l => (Ok (http_resp 200 "[]"), l ++ [q]);
  clock := fun n => (1700000000 + Z.of_nat n) * Second;
  rand_read := fun _ _ => None;
|}.
Definition sample_world : @World sample_env := @mkWorld sample_env ∅ 0 0.

(** The conversion of amd64: the smallest integer. *)
Definition amd64_conv : Int64Conv := {| int64_unrepresentable := fun _ => - 2 ^ 63 |}.

(** Imported where witnesses are run. *)
Module SampleInstances.
#[export] Existing Instances sample_unicode sample_time sample_neturl sample_env.
End SampleInstances.
