(* ===== verification/OAuthStores.v ===== *)
(** * OAuthStores: the client, session, code and token stores
    (internal/auth/store.go, internal/auth/session.go).

    A store is a map guarded by a mutex, with an optional backend it writes
    through to and reads through from.  The maps hold pointers; an object is
    reachable from one key only, so the model keeps the objects themselves.
    An operation runs on the store and the world.  The operations that release
    the mutex during a backend call are atomic here; the interleavings of
    [ConsumeCode] are modelled in [CodeRace]. *)
From S2P Require Import Prelude GoStrings GoCrypto GoJson GoURL GoHTTP OAuthBackend Samples.

(** [sessionTTL] and the time of the TTL check, [CreatedAt.Add(sessionTTL)]. *)
Definition sessionTTL : Z := 10 * Minute.
Definition session_expired (now : Z) (s : AuthSession) : bool :=
  After now (s_CreatedAt s + sessionTTL).
Definition code_expired (now : Z) (c : AuthCode) : bool := After now (c_ExpiresAt c).
Definition token_expired (now : Z) (t : RefreshToken) : bool := After now (t_ExpiresAt t).
(** [c.Used = true]. *)
Definition set_Used (c : AuthCode) : AuthCode :=
  mkAuthCode (Code c) (c_ClientID c) (c_UserID c) (c_RedirectURI c) (c_CodeChallenge c)
    (c_Scope c) (c_ExpiresAt c) true.

Section stores.
Context `{!Env} `{!NetURL} `{!Unicode} `{!TimeCodec}.

Record ClientStore := mkClientStore {
  clients : gmap string OAuthClient; cl_backend : option OAuthBackend }.
Record SessionStore := mkSessionStore {
  sessions : gmap string AuthSession; se_backend : option OAuthBackend }.
Record CodeStore := mkCodeStore {
  codes : gmap string AuthCode; co_backend : option OAuthBackend }.
Record TokenStore := mkTokenStore {
  tokens : gmap string RefreshToken; to_backend : option OAuthBackend }.

Definition NewClientStore : ClientStore := mkClientStore ∅ None.
Definition NewSessionStore : SessionStore := mkSessionStore ∅ None.
Definition NewCodeStore : CodeStore := mkCodeStore ∅ None.
Definition NewTokenStore : TokenStore := mkTokenStore ∅ None.
Definition ClientStore_SetBackend (b : OAuthBackend) (s : ClientStore) : ClientStore :=
  mkClientStore (clients s) (Some b).
Definition SessionStore_SetBackend (b : OAuthBackend) (s : SessionStore) : SessionStore :=
  mkSessionStore (sessions s) (Some b).
Definition CodeStore_SetBackend (b : OAuthBackend) (s : CodeStore) : CodeStore :=
  mkCodeStore (codes s) (Some b).
Definition TokenStore_SetBackend (b : OAuthBackend) (s : TokenStore) : TokenStore :=
  mkTokenStore (tokens s) (Some b).

(** Reading and writing the map, the world, and the backend when there is one. *)
Definition store {S} (f : S -> S) : M (S * World) unit := modify (fun p => (f p.1, p.2)).
Definition read {S A} (f : S -> A) : M (S * World) A := gets (fun p => f p.1).
Definition io {S A} (m : M World A) : M (S * World) A := zoom snd (fun w p => (p.1, w)) m.
(** A failing write-through is logged and otherwise ignored. *)
Definition through {S} (b : option OAuthBackend) (f : OAuthBackend -> M World (result unit))
    : M (S * World) unit :=
  match b with Some b => io (f b) ;; mret tt | None => mret tt end.
(** A failing read-through counts as "not found". *)
Definition fetch {S A} (b : option OAuthBackend) (f : OAuthBackend -> M World (result (option A)))
    : M (S * World) (option A) :=
  match b with
  | Some b => r ← io (f b); mret (match r with Ok x => x | Err _ => None end)
  | None => mret None
  end.

(** ** ClientStore *)
Definition set_clients (f : gmap string OAuthClient -> gmap string OAuthClient) (s : ClientStore) :=
  mkClientStore (f (clients s)) (cl_backend s).
Definition ClientStore_Put (c : OAuthClient) : M (ClientStore * World) unit :=
  store (set_clients <[ClientID c := c]>) ;;
  b ← read cl_backend;
  through b (fun b => SaveClient b c).
Definition ClientStore_Get (id : string) : M (ClientStore * World) (option OAuthClient) :=
  hit ← read (fun s => clients s !! id);
  match hit with
  | Some c => mret (Some c)
  | None =>
      b ← read cl_backend;
      got ← fetch b (fun b => GetClient b id);
      match got with
      | Some c => store (set_clients <[ClientID c := c]>) ;; mret (Some c)
      | None => mret None
      end
  end.

(** ** SessionStore *)
Definition set_sessions (f : gmap string AuthSession -> gmap string AuthSession) (s : SessionStore) :=
  mkSessionStore (f (sessions s)) (se_backend s).
Definition SessionStore_Put (x : AuthSession) : M (SessionStore * World) unit :=
  store (set_sessions <[SessionID x := x]>) ;;
  b ← read se_backend;
  through b (fun b => SaveSession b x).
(** The expiry check that ends [Get]. *)
Definition if_live {S A} (expired : Z -> A -> bool) (x : A) : M (S * World) (option A) :=
  now ← io time_Now;
  mret (if expired now x then None else Some x).
Definition SessionStore_Get (id : string) : M (SessionStore * World) (option AuthSession) :=
  hit ← read (fun s => sessions s !! id);
  match hit with
  | Some x => if_live session_expired x
  | None =>
      b ← read se_backend;
      got ← fetch b (fun b => GetSession b id);
      match got with
      | Some x => store (set_sessions <[SessionID x := x]>) ;; if_live session_expired x
      | None => mret None
      end
  end.
Definition SessionStore_Delete (id : string) : M (SessionStore * World) unit :=
  store (set_sessions (delete id)) ;;
  b ← read se_backend;
  through b (fun b => DeleteSession b id).

(** The loop of [GetByClientID]: a session replaces the best one so far only
    when it was created strictly later. *)
Definition best_step (clientID : string) (now : Z) (best : option AuthSession)
    (kv : string * AuthSession) : option AuthSession :=
  let x := kv.2 in
  if negb (bool_decide (s_ClientID x = clientID)) then best
  else if session_expired now x then best
  else match best with
       | None => Some x
       | Some y => if After (s_CreatedAt x) (s_CreatedAt y) then Some x else best
       end.
Definition best_in (clientID : string) (now : Z) (l : list (string * AuthSession)) : option AuthSession :=
  foldl (best_step clientID now) None l.
Definition GetByClientID (clientID : string) : M (SessionStore * World) (option AuthSession) :=
  now ← io time_Now;
  best ← read (fun s => best_in clientID now (map_to_list (sessions s)));
  match best with
  | Some x => mret (Some x)
  | None =>
      b ← read se_backend;
      got ← fetch b (fun b => GetSessionByClientID b clientID);
      match got with
      | Some x =>
          if session_expired now x then mret None
          else store (set_sessions <[SessionID x := x]>) ;; mret (Some x)
      | None => mret None
      end
  end.
Definition SessionStore_Cleanup : M (SessionStore * World) unit :=
  now ← io time_Now;
  store (set_sessions (filter (fun kv => session_expired now kv.2 = false))).

(** ** CodeStore *)
Definition set_codes (f : gmap string AuthCode -> gmap string AuthCode) (s : CodeStore) :=
  mkCodeStore (f (codes s)) (co_backend s).
Definition CodeStore_Put (c : AuthCode) : M (CodeStore * World) unit :=
  store (set_codes <[Code c := c]>) ;;
  b ← read co_backend;
  through b (fun b => SaveCode b c).
Definition CodeStore_Get (code : string) : M (CodeStore * World) (option AuthCode) :=
  hit ← read (fun s => codes s !! code);
  match hit with
  | Some c => if_live code_expired c
  | None =>
      b ← read co_backend;
      got ← fetch b (fun b => GetCode b code);
      match got with
      | Some c => store (set_codes <[Code c := c]>) ;; if_live code_expired c
      | None => mret None
      end
  end.
Definition MarkUsed (code : string) : M (CodeStore * World) unit :=
  store (set_codes (alter set_Used code)) ;;
  b ← read co_backend;
  through b (fun b => MarkCodeUsed b code).

(** The part of [ConsumeCode] under the mutex once the code is in the map:
    expiry, then the used flag, then the flag is set on the stored object. *)
Definition consume_held (code : string) (now : Z) (m : gmap string AuthCode)
    : option AuthCode * gmap string AuthCode :=
  match m !! code with
  | None => (None, m)
  | Some c =>
      if code_expired now c then (None, m)
      else if Used c then (None, m)
      else (Some (set_Used c), <[code := set_Used c]> m)
  end.
(** The re-check after a fetch: a copy cached meanwhile is kept. *)
Definition cache_fetched (code : string) (c : AuthCode) (m : gmap string AuthCode) : gmap string AuthCode :=
  match m !! code with Some _ => m | None => <[code := c]> m end.
Definition consume_in (code : string) : M (CodeStore * World) (option AuthCode) :=
  now ← io time_Now;
  r ← read (fun s => consume_held code now (codes s));
  store (set_codes (fun _ => r.2)) ;; mret r.1.
Definition ConsumeCode (code : string) : M (CodeStore * World) (option AuthCode) :=
  hit ← read (fun s => codes s !! code);
  b ← read co_backend;
  r ← match hit with
      | Some _ => consume_in code
      | None =>
          got ← fetch b (fun b => GetCode b code);
          match got with
          | Some c => store (set_codes (cache_fetched code c)) ;; consume_in code
          | None => mret None
          end
      end;
  match r with
  | Some c => through b (fun b => MarkCodeUsed b code) ;; mret (Some c)
  | None => mret None
  end.
Definition CodeStore_Cleanup : M (CodeStore * World) unit :=
  now ← io time_Now;
  store (set_codes (filter (fun kv => code_expired now kv.2 = false))).

(** ** TokenStore *)
Definition set_tokens (f : gmap string RefreshToken -> gmap string RefreshToken) (s : TokenStore) :=
  mkTokenStore (f (tokens s)) (to_backend s).
Definition TokenStore_Put (t : RefreshToken) : M (TokenStore * World) unit :=
  store (set_tokens <[Token t := t]>) ;;
  b ← read to_backend;
  through b (fun b => SaveToken b t).
Definition TokenStore_Get (token : string) : M (TokenStore * World) (option RefreshToken) :=
  hit ← read (fun s => tokens s !! token);
  match hit with
  | Some t => if_live token_expired t
  | None =>
      b ← read to_backend;
      got ← fetch b (fun b => LookupToken b token);
      match got with
      | Some t => store (set_tokens <[Token t := t]>) ;; if_live token_expired t
      | None => mret None
      end
  end.
Definition TokenStore_Delete (token : string) : M (TokenStore * World) unit :=
  store (set_tokens (delete token)) ;;
  b ← read to_backend;
  through b (fun b => RevokeToken b token).
Definition TokenStore_Cleanup : M (TokenStore * World) unit :=
  now ← io time_Now;
  store (set_tokens (filter (fun kv => token_expired now kv.2 = false))).
End stores.

(** ** Concurrent redemption of authorization codes

    The interleavings of the critical sections of [ConsumeCode] (and of
    [Put], [MarkUsed] and [Cleanup], which hold the mutex throughout).  A
    consumer that misses the map releases the mutex, asks the backend, and
    takes the mutex again.  [answers code c]: the backend may answer [c] for
    [code]; [issued c]: some request may [Put] the code [c]. *)
Module CodeRace.
Section race.
Context (backend : bool) (answers : string -> AuthCode -> Prop) (issued : AuthCode -> Prop).

Inductive phase := Start | Fetched (c : AuthCode) | Done (r : option AuthCode).
Record rstate := mkR {
  r_now : Z;
  r_codes : gmap string AuthCode;
  r_threads : gmap nat (string * phase);
}.
Definition finish (t : nat) (code : string) (m : gmap string AuthCode) (s : rstate) : rstate :=
  let '(r, m') := consume_held code (r_now s) m in
  mkR (r_now s) m' (<[t := (code, Done r)]> (r_threads s)).

Inductive rstep : rstate -> rstate -> Prop :=
| R_tick s now : r_now s <= now -> rstep s (mkR now (r_codes s) (r_threads s))
| R_spawn s t code : r_threads s !! t = None ->
    rstep s (mkR (r_now s) (r_codes s) (<[t := (code, Start)]> (r_threads s)))
| R_put s c : issued c ->
    rstep s (mkR (r_now s) (<[Code c := c]> (r_codes s)) (r_threads s))
| R_mark s code : rstep s (mkR (r_now s) (alter set_Used code (r_codes s)) (r_threads s))
| R_cleanup s :
    rstep s (mkR (r_now s) (filter (fun kv => code_expired (r_now s) kv.2 = false) (r_codes s))
               (r_threads s))
| R_hit s t code : r_threads s !! t = Some (code, Start) -> is_Some (r_codes s !! code) ->
    rstep s (finish t code (r_codes s) s)
| R_miss s t code : r_threads s !! t = Some (code, Start) -> r_codes s !! code = None ->
    backend = false ->
    rstep s (mkR (r_now s) (r_codes s) (<[t := (code, Done None)]> (r_threads s)))
| R_fetch s t code c : r_threads s !! t = Some (code, Start) -> r_codes s !! code = None ->
    backend = true -> answers code c ->
    rstep s (mkR (r_now s) (r_codes s) (<[t := (code, Fetched c)]> (r_threads s)))
| R_fetch_none s t code : r_threads s !! t = Some (code, Start) -> r_codes s !! code = None ->
    backend = true ->
    rstep s (mkR (r_now s) (r_codes s) (<[t := (code, Done None)]> (r_threads s)))
| R_store s t code c : r_threads s !! t = Some (code, Fetched c) ->
    rstep s (finish t code (cache_fetched code c (r_codes s)) s).

(** The redemption of [k] with expiry [E] that thread [t] won. *)
Definition won (k : string) (s : rstate) (t : nat) : Prop :=
  exists c, r_threads s !! t = Some (k, Done (Some c)).
Record race_inv (k : string) (E : Z) (s : rstate) : Prop := {
  ri_map : forall c, r_codes s !! k = Some c -> c_ExpiresAt c = E;
  ri_fetched : forall t c, r_threads s !! t = Some (k, Fetched c) -> c_ExpiresAt c = E;
  ri_won : forall t, won k s t ->
    E < r_now s \/ exists c, r_codes s !! k = Some c /\ Used c = true;
  ri_once : forall t t', won k s t -> won k s t' -> t = t';
}.

Section inv.
Context (k : string) (E : Z).
Hypothesis issued_fresh : forall c, issued c -> Code c ≠ k.
Hypothesis answers_expiry : forall c, answers k c -> c_ExpiresAt c = E.

Lemma won_insert now m s t x t' :
  won k (mkR now m (<[t := x]> (r_threads s))) t' ->
  (t' = t /\ exists c, x = (k, Done (Some c))) \/ won k s t'.
Proof.
  intros [c Hc]; simpl in Hc. destruct (decide (t' = t)) as [->|].
  - rewrite lookup_insert_eq in Hc. left. naive_solver.
  - rewrite lookup_insert_ne in Hc by done. right. by exists c.
Qed.

Lemma fetched_insert (th : gmap nat (string * phase)) t x t' c :
  <[t := x]> th !! t' = Some (k, Fetched c) -> x = (k, Fetched c) \/ th !! t' = Some (k, Fetched c).
Proof.
  destruct (decide (t' = t)) as [->|]; [rewrite lookup_insert_eq|rewrite lookup_insert_ne by done]; naive_solver.
Qed.

(** A step that moves one thread without winning keeps the invariant. *)
Lemma move_inv s t x :
  race_inv k E s -> (forall c, x = (k, Fetched c) -> c_ExpiresAt c = E) ->
  (forall c, x ≠ (k, Done (Some c))) ->
  race_inv k E (mkR (r_now s) (r_codes s) (<[t := x]> (r_threads s))).
Proof.
  intros [Hm Hf Hw Ho] Hx Hd. split; simpl; [done| | |].
  - intros t' c [?|?]%fetched_insert; eauto.
  - intros t' [[_ [c ?]]|?]%won_insert; [naive_solver|eauto].
  - intros t1 t2 [[_ [c ?]]|?]%won_insert [[_ [c' ?]]|?]%won_insert;
      [exfalso; by eapply Hd..|auto].
Qed.

(** A step that changes the map only. *)
Lemma map_inv s m :
  race_inv k E s ->
  (forall c, m !! k = Some c -> c_ExpiresAt c = E) ->
  (forall c, r_codes s !! k = Some c -> Used c = true ->
     E < r_now s \/ exists c', m !! k = Some c' /\ Used c' = true) ->
  race_inv k E (mkR (r_now s) m (r_threads s)).
Proof.
  intros [Hm Hf Hw Ho] Hx Hu. split; simpl; [done..| |done].
  intros t Ht. destruct (Hw t Ht) as [?|(c & Hc & HU)]; eauto.
Qed.

Lemma consume_held_won code now m c m' :
  consume_held code now m = (Some c, m') ->
  m' = <[code := c]> m /\ Used c = true /\
  exists c0, m !! code = Some c0 /\ Used c0 = false /\ now <= c_ExpiresAt c0 /\ c = set_Used c0.
Proof.
  unfold consume_held. destruct (m !! code) as [c0|] eqn:Hm; [|done].
  destruct (code_expired now c0) eqn:He; [done|]. destruct (Used c0) eqn:Hu; [done|].
  intros [= <- <-]. unfold code_expired in He. bool_to_prop. eauto 10.
Qed.

Lemma consume_held_lost code now m m' : consume_held code now m = (None, m') -> m' = m.
Proof. unfold consume_held. intros H. repeat split_in H; by simplify_eq. Qed.

Lemma finish_inv s t code m :
  race_inv k E (mkR (r_now s) m (r_threads s)) -> race_inv k E (finish t code m s).
Proof.
  intros Hi. unfold finish. destruct (consume_held code (r_now s) m) as [[c|] m'] eqn:Hc.
  - apply consume_held_won in Hc as (-> & HU & c0 & Hc0 & Hu0 & Hnow & ->).
    destruct Hi as [Hm Hf Hw Ho]; simpl in *. destruct (decide (code = k)) as [->|Hne].
    + assert (forall t', ~ won k s t') as Hno.
      { intros t' Ht'. destruct (Hw t' Ht') as [?|(c' & ? & ?)]; [|congruence].
        specialize (Hm _ Hc0). lia. }
      split; simpl.
      * intros c. rewrite lookup_insert_eq. intros [= <-]. exact (Hm c0 Hc0).
      * intros t' c' [?|?]%fetched_insert; [naive_solver|eauto].
      * intros _ _. right. exists (set_Used c0). by rewrite lookup_insert_eq.
      * intros t1 t2 [[-> _]|H1]%won_insert [[-> _]|H2]%won_insert; [done|..];
          by destruct (Hno _ H1) || destruct (Hno _ H2).
    + pose proof (move_inv (mkR (r_now s) (<[code := set_Used c0]> m) (r_threads s)) t
        (code, Done (Some (set_Used c0)))) as Hmv; simpl in Hmv.
      apply Hmv; [|naive_solver..].
      split; simpl; rewrite ?lookup_insert_ne by done; eauto.
  - apply consume_held_lost in Hc as ->.
    by pose proof (move_inv (mkR (r_now s) m (r_threads s)) t (code, Done None)) as Hmv;
      apply Hmv; [|naive_solver..].
Qed.

Lemma cache_fetched_inv s code c :
  race_inv k E s -> (code = k -> c_ExpiresAt c = E) ->
  race_inv k E (mkR (r_now s) (cache_fetched code c (r_codes s)) (r_threads s)).
Proof.
  intros Hi Hc. apply map_inv; [done| |]; unfold cache_fetched.
  - intros c'. destruct (r_codes s !! code) eqn:Hd; [apply (ri_map _ _ _ Hi)|].
    destruct (decide (code = k)) as [->|]; [rewrite lookup_insert_eq|rewrite lookup_insert_ne by done].
    + intros [= <-]. auto.
    + apply (ri_map _ _ _ Hi).
  - intros c' Hk HU. right. destruct (r_codes s !! code) eqn:Hd; [eauto|].
    rewrite lookup_insert_ne by naive_solver. eauto.
Qed.

Lemma rstep_inv s s' : rstep s s' -> race_inv k E s -> race_inv k E s'.
Proof.
  intros Hs Hi. destruct Hs as [s now Hn|s t code _|s c Hc|s code|s|s t code Ht Hm|s t code Ht Hm _
    |s t code c Ht Hm _ Ha|s t code Ht Hm _|s t code c Ht].
  - destruct Hi as [Hm Hf Hw Ho]. split; simpl; [done..| |done].
    intros t Ht. destruct (Hw t Ht); [left; lia|eauto].
  - apply move_inv; naive_solver.
  - apply map_inv; [done| |]; rewrite lookup_insert_ne by auto; [apply (ri_map _ _ _ Hi)|eauto].
  - apply map_inv; [done| |]; destruct (decide (code = k)) as [->|].
    + rewrite lookup_alter_eq. intros c (c0 & Hc0 & ->)%fmap_Some. by apply (ri_map _ _ _ Hi) in Hc0.
    + rewrite lookup_alter_ne by done. apply (ri_map _ _ _ Hi).
    + intros c Hc _. right. exists (set_Used c). by rewrite lookup_alter_eq, Hc.
    + rewrite lookup_alter_ne by done. eauto.
  - apply map_inv; [done| |].
    + intros c [Hc _]%map_lookup_filter_Some. by apply (ri_map _ _ _ Hi) in Hc.
    + intros c Hc HU. destruct (code_expired (r_now s) c) eqn:He.
      * left. apply (ri_map _ _ _ Hi) in Hc as <-. unfold code_expired in He. by bool_to_prop.
      * right. exists c. by rewrite map_lookup_filter_Some.
  - apply finish_inv. by destruct s.
  - apply move_inv; naive_solver.
  - apply move_inv; [done| |done]. intros c' [= -> ->]. eauto.
  - apply move_inv; naive_solver.
  - apply finish_inv, cache_fetched_inv; [done|]. intros ->. by apply (ri_fetched _ _ _ Hi) in Ht.
Qed.
End inv.

(** C1. An authorization code is redeemed at most once, whatever the
    interleaving: no two consumers of [k], of any number running
    concurrently with [Put]s of other codes, [MarkUsed], [Cleanup] and the
    passage of time, both succeed, even when the backend keeps answering
    unused copies.  Copies of [k] carry one expiry. *)
Theorem code_consumed_once k E s0 s t t' :
  (forall c, issued c -> Code c ≠ k) ->
  (forall c, answers k c -> c_ExpiresAt c = E) ->
  (forall c, r_codes s0 !! k = Some c -> c_ExpiresAt c = E) ->
  r_threads s0 = ∅ ->
  rtc rstep s0 s -> won k s t -> won k s t' -> t = t'.
Proof.
  intros Hi Ha Hm Ht Hr. assert (race_inv k E s0) as H0.
  { split; [done|..]; unfold won; rewrite Ht.
    - by intros ? ? ?%lookup_empty_Some.
    - by intros ? [? ?%lookup_empty_Some].
    - by intros ? ? [? ?%lookup_empty_Some]. }
  clear Hm Ht. assert (race_inv k E s) as Hs.
  { induction Hr as [|x y z Hxy _ IH]; [done|]. apply IH. by apply (rstep_inv k E Hi Ha x). }
  apply (ri_once _ _ _ Hs).
Qed.

(** A concurrent [Get] that missed: it keeps the fetched copy while others run,
    then caches it without looking at the map again. *)
Inductive gstep : rstate * option AuthCode -> rstate * option AuthCode -> Prop :=
| G_race s s' g : rstep s s' -> gstep (s, g) (s', g)
| G_get_fetch s code c : r_codes s !! code = None -> backend = true -> answers code c ->
    gstep (s, None) (s, Some c)
| G_get_store s c :
    gstep (s, Some c) (mkR (r_now s) (<[Code c := c]> (r_codes s)) (r_threads s), None).
End race.

Definition sample_code : AuthCode := mkAuthCode "k" "client" "alice" "http://l/cb" "ch" "openid" 100 false.
Definition two_started : rstate :=
  mkR 0 ∅ (<[2%nat := ("k", Start)]> (<[1%nat := ("k", Start)]> ∅)).
Definition only_sample (code : string) (c : AuthCode) : Prop := code = "k" /\ c = sample_code.

(** Two consumers both miss and fetch an unused copy; the first to store it wins. *)
Definition two_fetched : rstate :=
  mkR 0 ∅ (<[1%nat := ("k", Fetched sample_code)]> (<[2%nat := ("k", Fetched sample_code)]> (r_threads two_started))).
Definition first_won : rstate := finish 1 "k" (cache_fetched "k" sample_code ∅) two_fetched.
Definition second_done : rstate :=
  finish 2 "k" (cache_fetched "k" sample_code (r_codes first_won)) first_won.

Lemma race_to_fetched issued :
  rtc (rstep true only_sample issued) (mkR 0 ∅ ∅) two_fetched.
Proof.
  eapply rtc_l; [by apply (R_spawn _ _ _ _ 1 "k")|].
  eapply rtc_l; [by apply (R_spawn _ _ _ _ 2 "k")|].
  eapply rtc_l; [by apply (R_fetch _ _ _ _ 2 "k" sample_code)|].
  eapply rtc_l; [by apply (R_fetch _ _ _ _ 1 "k" sample_code)|]. done.
Qed.

Lemma race_to_first issued : rtc (rstep true only_sample issued) (mkR 0 ∅ ∅) first_won.
Proof. eapply rtc_r; [apply race_to_fetched|]. by apply (R_store _ _ _ two_fetched 1 "k" sample_code). Qed.

Lemma code_consumed_once_witness :
  won "k" second_done 1 /\ forall t, won "k" second_done t -> t = 1%nat.
Proof.
  assert (won "k" second_done 1) as H1 by (eexists; vm_compute; reflexivity).
  split; [done|]. intros t Ht.
  apply (code_consumed_once true only_sample (fun _ => False) "k" 100 (mkR 0 ∅ ∅) second_done t 1);
    [done|by intros c [_ ->]|done|done| |done|done].
  eapply rtc_r; [apply race_to_first|]. by apply (R_store _ _ _ first_won 2 "k" sample_code).
Defined.

(** [CodeStore.Get] does not re-check the map after its fetch: run beside two
    consumers it can replace the used copy by a stale unused one, and both
    consumers redeem the same code. *)
Lemma Get_race_double_redemption :
  exists s t t', rtc (gstep true only_sample (fun _ => False)) (mkR 0 ∅ ∅, None) (s, None) /\
    won "k" s t /\ won "k" s t' /\ t ≠ t'.
Proof.
  set (stale := mkR 0 (<["k" := sample_code]> (r_codes first_won)) (r_threads first_won)).
  exists (finish 2 "k" (cache_fetched "k" sample_code (r_codes stale)) stale), 1%nat, 2%nat.
  split; [|repeat split; [eexists; vm_compute; reflexivity..|done]].
  eapply rtc_l; [by apply (G_get_fetch _ _ _ _ "k" sample_code)|].
  transitivity (first_won, Some sample_code).
  { generalize (race_to_first (fun _ => False)). generalize (mkR 0 ∅ ∅), first_won.
    induction 1; [done|]. eapply rtc_l; [by constructor|done]. }
  eapply rtc_l; [apply G_get_store|]. apply rtc_once, G_race.
  by apply (R_store _ _ _ stale 2 "k" sample_code).
Qed.
End CodeRace.

(** ** Functional behaviour of the operations *)
Section run.
Context `{!Env} `{!NetURL} `{!Unicode} `{!TimeCodec}.

(** What a write-through or a read-through does to the world. *)
Definition through_world (b : option OAuthBackend) (f : OAuthBackend -> M World (result unit)) (w : World) : World :=
  match b with Some b => (f b w).2 | None => w end.
Definition fetched {A} (b : option OAuthBackend) (f : OAuthBackend -> M World (result (option A))) (w : World) : option A :=
  match b with
  | Some b => match (f b w).1 with Ok x => x | Err _ => None end
  | None => None
  end.
Definition fetch_world {A} (b : option OAuthBackend) (f : OAuthBackend -> M World (result (option A))) (w : World) : World :=
  match b with Some b => (f b w).2 | None => w end.

Lemma through_eq {S} b f (s : S) w : through b f (s, w) = (tt, (s, through_world b f w)).
Proof.
  destruct b as [b|]; [|done]. unfold through, through_world, io, zoom, mbind, M_bind; simpl.
  by destruct (f b w).
Qed.
Lemma fetch_eq {S A} b (f : OAuthBackend -> M World (result (option A))) (s : S) w :
  fetch b f (s, w) = (fetched b f w, (s, fetch_world b f w)).
Proof.
  destruct b as [b|]; [|done]. unfold fetch, fetched, fetch_world, io, zoom, mbind, M_bind; simpl.
  by destruct (f b w).
Qed.

(** Running the first operation of a sequence. *)
Lemma read_bind {S A B} (f : S -> A) (k : A -> M (S * World) B) s w :
  (read f ≫= k) (s, w) = k (f s) (s, w).
Proof. done. Qed.
Lemma store_bind {S B} (f : S -> S) (k : unit -> M (S * World) B) s w :
  (store f ≫= k) (s, w) = k tt (f s, w).
Proof. done. Qed.
Lemma now_bind {S B} (k : Z -> M (S * World) B) s w :
  (io time_Now ≫= k) (s, w) =
  k (clock (w_tick w)) (s, mkWorld (w_srv w) (Datatypes.S (w_tick w)) (w_draw w)).
Proof. done. Qed.
Lemma through_bind {S B} b f (k : unit -> M (S * World) B) s w :
  (through b f ≫= k) (s, w) = k tt (s, through_world b f w).
Proof. by rewrite M_bind_unfold, through_eq. Qed.
Lemma fetch_bind {S A B} b (f : OAuthBackend -> M World (result (option A))) (k : option A -> M (S * World) B) s w :
  (fetch b f ≫= k) (s, w) = k (fetched b f w) (s, fetch_world b f w).
Proof. by rewrite M_bind_unfold, fetch_eq. Qed.
Lemma ret_bind {S A B} (a : A) (k : A -> M (S * World) B) s : (mret a ≫= k) s = k a s.
Proof. done. Qed.
Lemma assoc_bind {S A B C} (m : M (S * World) A) (f : A -> M (S * World) B) (k : B -> M (S * World) C) s :
  ((m ≫= f) ≫= k) s = (m ≫= fun a => f a ≫= k) s.
Proof. rewrite !M_bind_unfold. by destruct (m s). Qed.

Lemma fetch_world_quiet {A} b (f : OAuthBackend -> M World (result (option A))) w :
  (forall b, quiet (f b)) ->
  w_tick (fetch_world b f w) = w_tick w /\ w_draw (fetch_world b f w) = w_draw w.
Proof. intros Hq. destruct b as [b|]; [apply (Hq b)|done]. Qed.
Lemma through_world_quiet b f w :
  (forall b, quiet (f b)) ->
  w_tick (through_world b f w) = w_tick w /\ w_draw (through_world b f w) = w_draw w.
Proof. intros Hq. destruct b as [b|]; [apply (Hq b)|done]. Qed.

End run.

Ltac mrun := repeat first
  [rewrite assoc_bind | rewrite ret_bind | rewrite read_bind | rewrite store_bind | rewrite now_bind
  |rewrite through_bind | rewrite fetch_bind | rewrite through_eq | rewrite fetch_eq
  |progress cbn beta iota].

Section facts.
Context `{!Env} `{!NetURL} `{!Unicode} `{!TimeCodec}.

Lemma if_live_eq {S A} (e : Z -> A -> bool) x (s : S) w :
  if_live e x (s, w) = (if e (clock (w_tick w)) x then None else Some x,
                        (s, mkWorld (w_srv w) (Datatypes.S (w_tick w)) (w_draw w))).
Proof. done. Qed.
Lemma consume_in_eq code s w :
  consume_in code (s, w) =
  ((consume_held code (clock (w_tick w)) (codes s)).1,
   (mkCodeStore (consume_held code (clock (w_tick w)) (codes s)).2 (co_backend s),
    mkWorld (w_srv w) (Datatypes.S (w_tick w)) (w_draw w))).
Proof. done. Qed.

(** [ConsumeCode] up to the backend notification. *)
Lemma ConsumeCode_eq code s w :
  let b := co_backend s in
  let s1 := match codes s !! code with
    | Some _ => s
    | None => match fetched b (fun b => GetCode b code) w with
              | Some c => set_codes (cache_fetched code c) s | None => s end
    end in
  let now := clock (w_tick w) in
  exists w', ConsumeCode code (s, w) =
    ((consume_held code now (codes s1)).1, (mkCodeStore (consume_held code now (codes s1)).2 b, w')) /\
    w_draw w' = w_draw w /\
    (is_Some (consume_held code now (codes s1)).1 -> w_tick w' = S (w_tick w)).
Proof.
  intros b s1 now.
  assert (forall w1 c, w_draw w1 = w_draw w -> w_tick w1 = S (w_tick w) ->
    let w' := through_world (co_backend s) (fun b => MarkCodeUsed b code) w1 in
    w_draw w' = w_draw w /\ (is_Some (Some (c : AuthCode)) -> w_tick w' = S (w_tick w))) as Hthr.
  { intros w1 c Hd Ht. destruct (through_world_quiet (co_backend s) (fun b => MarkCodeUsed b code) w1)
      as [Ht' Hd']; [auto with vire|]. cbv zeta. rewrite Hd'. split; [done|]. intros _. by rewrite Ht'. }
  unfold ConsumeCode, s1, b. mrun.
  destruct (codes s !! code) as [c|] eqn:Hc.
  - rewrite M_bind_unfold, consume_in_eq. fold now.
    destruct (consume_held code now (codes s)) as [[r|] m]; simpl; mrun;
      (eexists; split; [reflexivity|]); [by apply Hthr|split; [done|by intros []]].
  - mrun. destruct (fetch_world_quiet (co_backend s) (fun b => GetCode b code) w) as [Ht Hd]; [auto with vire|].
    destruct (fetched _ _ w) as [c|]; mrun.
    + rewrite M_bind_unfold, consume_in_eq, Ht. fold now. simpl.
      destruct (consume_held code now _) as [[r|] m]; simpl; mrun;
        (eexists; split; [reflexivity|]); [by apply Hthr|split; [done|by intros []]].
    + simpl. unfold consume_held. rewrite Hc. destruct s. eexists; split; [reflexivity|].
      split; [done|by intros []].
Qed.

(** The copy of a code a redemption works on: the cached one, else the backend's. *)
Definition code_copy (code : string) (s : CodeStore) (w : World) : option AuthCode :=
  match codes s !! code with
  | Some c => Some c
  | None => fetched (co_backend s) (fun b => GetCode b code) w
  end.

Lemma ConsumeCode_cases code s w :
  let '(r, (s', w')) := ConsumeCode code (s, w) in
  co_backend s' = co_backend s /\
  match code_copy code s w with
  | Some c =>
      if code_expired (clock (w_tick w)) c || Used c
      then r = None /\ codes s' = <[code := c]> (codes s)
      else r = Some (set_Used c) /\ codes s' = <[code := set_Used c]> (codes s)
  | None => r = None /\ codes s' = codes s
  end.
Proof.
  destruct (ConsumeCode_eq code s w) as (w' & -> & _). unfold code_copy. split; [done|].
  destruct (codes s !! code) as [c|] eqn:Hc; simpl.
  - unfold consume_held. rewrite Hc. destruct (code_expired _ c), (Used c); simpl;
      rewrite ?(insert_id _ _ _ Hc); auto.
  - destruct (fetched _ _ w) as [c|]; simpl; [|unfold consume_held; by rewrite Hc].
    unfold cache_fetched, consume_held. rewrite Hc, lookup_insert_eq.
    destruct (code_expired _ c), (Used c); simpl; auto. by rewrite insert_insert_eq.
Qed.

(** [ConsumeCode] succeeds exactly when a copy of the code is cached or
    known to the backend, it has not expired by the clock reading taken under
    the mutex, and it is unused; the copy kept in the map is then marked used.
    A refused copy stays cached, and a missing code changes nothing. *)
Lemma ConsumeCode_spec code s w :
  let '(r, (s', w')) := ConsumeCode code (s, w) in
  co_backend s' = co_backend s /\
  match code_copy code s w with
  | Some c =>
      if code_expired (clock (w_tick w)) c || Used c
      then r = None /\ codes s' = <[code := c]> (codes s)
      else r = Some (set_Used c) /\ codes s' = <[code := set_Used c]> (codes s)
  | None => r = None /\ codes s' = codes s
  end.
Proof. apply ConsumeCode_cases. Qed.

(** The atomic [ConsumeCode] is one of the interleaved executions: run
    alone it goes through the steps of the transition system, with the
    backend's answers, and ends with the same result and the same map. *)
Lemma ConsumeCode_refines code s w t :
  let '(r, (s', w')) := ConsumeCode code (s, w) in
  rtc (CodeRace.rstep (bool_decide (is_Some (co_backend s)))
         (fun k c => fetched (co_backend s) (fun b => GetCode b k) w = Some c) (fun _ => False))
    (CodeRace.mkR (clock (w_tick w)) (codes s) {[t := (code, CodeRace.Start)]})
    (CodeRace.mkR (clock (w_tick w)) (codes s') {[t := (code, CodeRace.Done r)]}).
Proof.
  destruct (ConsumeCode_eq code s w) as (w' & -> & _); simpl. set (now := clock (w_tick w)).
  assert (forall m p, CodeRace.finish t code m (CodeRace.mkR now (codes s) {[t := (code, p)]}) =
    CodeRace.mkR now (consume_held code now m).2 {[t := (code, CodeRace.Done (consume_held code now m).1)]}) as Hf.
  { intros m p. unfold CodeRace.finish; simpl. destruct (consume_held code now m); simpl.
    by rewrite insert_singleton_eq. }
  destruct (codes s !! code) as [c|] eqn:Hc; simpl.
  - rewrite <-(Hf (codes s) CodeRace.Start). apply rtc_once, CodeRace.R_hit; simpl; [|by rewrite Hc].
    apply lookup_singleton_eq.
  - assert (forall v, CodeRace.mkR now (codes s) {[t := (code, v)]} =
      CodeRace.mkR now (codes s) (<[t := (code, v)]> {[t := (code, CodeRace.Start)]})) as Hi
      by (intros; by rewrite insert_singleton_eq).
    destruct (fetched _ _ w) as [c|] eqn:Hg; simpl.
    + rewrite <-(Hf _ (CodeRace.Fetched c)). eapply rtc_l.
      * apply (CodeRace.R_fetch _ _ _ _ t code c); simpl; [apply lookup_singleton_eq|done| |done].
        apply bool_decide_eq_true. unfold fetched in Hg. destruct (co_backend s); [done|discriminate].
      * rewrite <-Hi. apply rtc_once, CodeRace.R_store. apply lookup_singleton_eq.
    + unfold consume_held. rewrite Hc. simpl. rewrite (Hi (CodeRace.Done None)). apply rtc_once.
      destruct (co_backend s) as [b|].
      * apply (CodeRace.R_fetch_none _ _ _ (CodeRace.mkR _ _ _)); [apply lookup_singleton_eq|done|done].
      * apply (CodeRace.R_miss _ _ _ (CodeRace.mkR _ _ _)); [apply lookup_singleton_eq|done|done].
Qed.

(** *** Lookups with expiry *)
(** A session is served for exactly [sessionTTL], from the map or through the
    backend, and a fetched one is cached under its own id. *)
Lemma SessionStore_Get_eq id s w :
  let got := match sessions s !! id with
    | Some x => Some x | None => fetched (se_backend s) (fun b => GetSession b id) w end in
  let '(r, (s', w')) := SessionStore_Get id (s, w) in
  r = (x ← got; if session_expired (clock (w_tick w)) x then None else Some x) /\
  se_backend s' = se_backend s /\ w_draw w' = w_draw w /\ (is_Some got -> w_tick w' = S (w_tick w)) /\
  sessions s' = match sessions s !! id, got with
    | None, Some x => <[SessionID x := x]> (sessions s) | _, _ => sessions s end.
Proof.
  unfold SessionStore_Get. mrun. destruct (sessions s !! id) as [x|].
  - by rewrite if_live_eq.
  - mrun. destruct (fetch_world_quiet (se_backend s) (fun b => GetSession b id) w) as [Ht Hd]; [auto with vire|].
    destruct (fetched _ _ w) as [x|]; mrun.
    + rewrite if_live_eq. simpl. by rewrite Ht, Hd.
    + split_and!; [done|done|done|by intros []|done].
Qed.

Lemma TokenStore_Get_eq tok s w :
  let got := match tokens s !! tok with
    | Some x => Some x | None => fetched (to_backend s) (fun b => LookupToken b tok) w end in
  let '(r, (s', w')) := TokenStore_Get tok (s, w) in
  r = (x ← got; if token_expired (clock (w_tick w)) x then None else Some x) /\
  to_backend s' = to_backend s /\ w_draw w' = w_draw w /\ (is_Some got -> w_tick w' = S (w_tick w)) /\
  tokens s' = match tokens s !! tok, got with
    | None, Some x => <[Token x := x]> (tokens s) | _, _ => tokens s end.
Proof.
  unfold TokenStore_Get. mrun. destruct (tokens s !! tok) as [x|].
  - by rewrite if_live_eq.
  - mrun. destruct (fetch_world_quiet (to_backend s) (fun b => LookupToken b tok) w) as [Ht Hd]; [auto with vire|].
    destruct (fetched _ _ w) as [x|]; mrun.
    + rewrite if_live_eq. simpl. by rewrite Ht, Hd.
    + split_and!; [done|done|done|by intros []|done].
Qed.

(** *** The pending session of a client *)
Definition pending (cid : string) (now : Z) (x : AuthSession) : Prop :=
  s_ClientID x = cid /\ session_expired now x = false.

(** [b] is at least as recent as [x]. *)
Definition covers (b : option AuthSession) (x : AuthSession) : Prop :=
  exists y, b = Some y /\ s_CreatedAt x <= s_CreatedAt y.

Lemma best_step_spec cid now b k v :
  let b' := best_step cid now b (k, v) in
  (forall x, b' = Some x -> b = Some x \/ (x = v /\ pending cid now v)) /\
  (forall x, covers b x -> covers b' x) /\ (pending cid now v -> covers b' v).
Proof.
  unfold best_step, pending, covers; simpl.
  destruct (bool_decide (s_ClientID v = cid)) eqn:Hc; bool_to_prop; simpl; [|naive_solver].
  destruct (session_expired now v) eqn:He; [naive_solver|].
  destruct b as [y|]; [|naive_solver lia].
  destruct (After (s_CreatedAt v) (s_CreatedAt y)) eqn:Ha; bool_to_prop; naive_solver lia.
Qed.

Lemma best_in_spec cid now l b :
  let b' := foldl (best_step cid now) b l in
  (forall x, b' = Some x -> b = Some x \/ (x ∈ l.*2 /\ pending cid now x)) /\
  (forall x, covers b x -> covers b' x) /\
  (forall x, x ∈ l.*2 -> pending cid now x -> covers b' x).
Proof.
  revert b. induction l as [|[k v] l IH]; intros b; cbn [foldl fmap list_fmap snd].
  - repeat split; [by auto|by auto|by intros ? ?%not_elem_of_nil].
  - destruct (best_step_spec cid now b k v) as (S1 & S2 & S3).
    destruct (IH (best_step cid now b (k, v))) as (I1 & I2 & I3). repeat split.
    + intros x [[?|[-> ?]]%S1|[? ?]]%I1; [by left|right; split; [left|done]|right; split; [by right|done]].
    + auto.
    + intros x [->|?]%elem_of_cons ?; auto.
Qed.

(** [GetByClientID] answers from the map the most recently created pending
    session of the client, whatever the iteration order of the map: the
    result belongs to the client, has not expired, and no pending session of
    that client is more recent; only when the client has none is the
    backend's answer used, and only if it has not expired. *)
Lemma GetByClientID_spec cid s w l :
  let now := clock (w_tick w) in
  l ≡ₚ map_to_list (sessions s) ->
  match best_in cid now l with
  | Some x =>
      (exists id, sessions s !! id = Some x) /\ pending cid now x /\
      (forall id y, sessions s !! id = Some y -> pending cid now y -> s_CreatedAt y <= s_CreatedAt x)
  | None =>
      (forall id y, sessions s !! id = Some y -> ~ pending cid now y) /\
      (GetByClientID cid (s, w)).1 =
        (x ← fetched (se_backend s) (fun b => GetSessionByClientID b cid)
               (mkWorld (w_srv w) (S (w_tick w)) (w_draw w));
         if session_expired now x then None else Some x)
  end.
Proof.
  intros now Hl.
  assert (forall l id y, l ≡ₚ map_to_list (sessions s) -> sessions s !! id = Some y -> y ∈ l.*2) as Hin.
  { intros l' id y Hp Hy. apply list_elem_of_fmap. exists (id, y). split; [done|].
    rewrite Hp. by apply elem_of_map_to_list. }
  unfold best_in. destruct (best_in_spec cid now l None) as (H1' & _ & H3').
  destruct (foldl _ None l) as [x|] eqn:Hb.
  - destruct (H1' x eq_refl) as [?|[Hx Hp]]; [done|]. repeat split; try apply Hp.
    + apply list_elem_of_fmap in Hx as ([id y] & -> & Hy). exists id.
      rewrite Hl in Hy. by apply elem_of_map_to_list.
    + intros id y Hy Hq. destruct (H3' y (Hin l id y Hl Hy) Hq) as (z & [= <-] & ?). done.
  - assert (forall id y, sessions s !! id = Some y -> ~ pending cid now y) as Hno.
    { intros id y Hy Hq. by destruct (H3' y (Hin l id y Hl Hy) Hq) as (z & ? & ?). }
    split; [done|]. unfold GetByClientID, best_in. mrun. fold now.
    destruct (best_in_spec cid now (map_to_list (sessions s)) None) as (H1'' & _ & _).
    destruct (foldl _ None (map_to_list (sessions s))) as [x|].
    { destruct (H1'' x eq_refl) as [?|[([id y] & -> & Hy)%list_elem_of_fmap Hp]]; [done|].
      apply elem_of_map_to_list in Hy. by destruct (Hno id y). }
    mrun. destruct (fetched _ _ _) as [x|]; [|done]. simpl. by destruct (session_expired now x).
Qed.
End facts.

(** ** Persistence across restarts

    What the stores rely on vire-server for: a document posted to a collection
    is accepted, and a GET of its id that follows returns that document, as its
    JSON reads: with the bytes that are not valid UTF-8 replaced. *)
Section restart.
Context `{!Env} `{!NetURL} `{!Unicode} `{!TimeCodec}.

Definition keeps_documents (b : OAuthBackend) (coll idkey : string) : Prop :=
  forall post st l id,
    hq_method post = "POST" -> hq_url post = b_apiURL b +:+ coll ->
    hq_body post = Some (Marshal (JObj l)) -> head l = Some (idkey, JStr id) ->
    is_utf8 id = true -> json_nums (JObj l) = true -> json_depth (JObj l) <= max_depth ->
    exists r st', http_do post st = (Ok r, st') /\ hr_status r < 400 /\
    forall get, hq_method get = "GET" -> hq_url get = b_apiURL b +:+ coll +:+ "/" +:+ id ->
      exists r', (http_do get st').1 = Ok r' /\ hr_status r' = StatusOK /\
                 json_decode (hr_body r') = Some (json_utf8 (JObj l)).
(** Times between the years 1678 and 2262 are kept to the nanosecond, and print
    in ASCII. *)
Definition time_ok (t : Z) : Prop := - 2 ^ 63 <= t < 2 ^ 63.
Class TimeLaws : Prop := {
  time_round t : time_ok t -> time_Parse (time_Format t) = Some t;
  time_ascii t : time_ok t -> is_ascii (time_Format t) = true }.
Context `{!TimeLaws}.

Lemma dec_code_json c : time_ok (c_ExpiresAt c) -> dec_code (code_json c) = Some c.
Proof.
  intros Ht. destruct c; simpl in Ht. unfold dec_code, code_json, JTime. cbn -[time_Parse]. by rewrite time_round by done.
Qed.
(** A code as its document reads. *)
Definition utf8_code (c : AuthCode) : AuthCode :=
  mkAuthCode (to_utf8 (Code c)) (to_utf8 (c_ClientID c)) (to_utf8 (c_UserID c)) (to_utf8 (c_RedirectURI c))
    (to_utf8 (c_CodeChallenge c)) (to_utf8 (c_Scope c)) (c_ExpiresAt c) (Used c).
Lemma code_json_utf8 c :
  time_ok (c_ExpiresAt c) -> json_utf8 (code_json c) = code_json (utf8_code c).
Proof.
  intros Ht. unfold code_json, JTime. cbn -[to_utf8]. rewrite (ascii_utf8 (time_Format _)) by by apply time_ascii. reflexivity.
Qed.
Lemma utf8_code_fixed c :
  forallb is_utf8 [Code c; c_ClientID c; c_UserID c; c_RedirectURI c; c_CodeChallenge c; c_Scope c] = true ->
  utf8_code c = c.
Proof. destruct c. cbn -[is_utf8]. intros Hu. bool_to_prop. unfold utf8_code. cbn -[to_utf8]. by rewrite !is_utf8_fixed. Qed.
Lemma dec_session_json x : time_ok (s_CreatedAt x) -> dec_session (session_json x) = Some x.
Proof.
  intros Ht. destruct x as [i c r st ch m sc t u]; simpl in Ht. unfold dec_session, session_json, JTime.
  destruct u as [|a u]; cbn -[time_Parse]; by rewrite time_round by done.
Qed.

Lemma saved_then_fetched {A} b coll idkey v l id (dec : json -> option A) x w :
  keeps_documents b coll idkey -> v = JObj l -> head l = Some (idkey, JStr id) ->
  is_utf8 id = true -> json_nums v = true -> json_depth v <= max_depth -> dec (json_utf8 v) = Some x ->
  is_Some (url_Parse (b_apiURL b +:+ coll)) ->
  is_Some (url_Parse (b_apiURL b +:+ coll +:+ "/" +:+ id)) ->
  (getJSON b (coll +:+ "/" +:+ id) dec (postJSON b coll v w).2).1 = Ok (Some x).
Proof.
  intros Hk -> Hid Hi Hok Hdep Hdec Hu Hu'.
  unfold postJSON, doRequest, getJSON. rewrite !NewRequest_ok by done.
  rewrite !M_bind_unfold. unfold client_Do at 2.
  destruct (Hk (req_set "Content-Type" "application/json"
    (mkHTTPRequest "POST" (b_apiURL b +:+ coll) ∅ (Some (Marshal (JObj l))) "" true)) (w_srv w) l id)
    as (r & st' & Hp & _ & Hget); [done..|].
  rewrite Hp. cbn -[http_do]. unfold client_Do. cbn -[http_do].
  destruct (Hget (mkHTTPRequest "GET" (b_apiURL b +:+ coll +:+ "/" +:+ id) ∅ None "" true))
    as (r' & Hr & Hs & Hd); [done..|].
  destruct (http_do _ st') as [x' st'']. simpl in Hr. subst x'. simpl.
  unfold read_found. rewrite Hs. cbn -[json_utf8 json_decode]. rewrite Hd. cbn -[json_utf8]. by rewrite Hdec.
Qed.

Lemma code_depth c : json_depth (code_json c) <= max_depth.
Proof. done. Qed.

Definition codes_path : string := "/api/internal/oauth/codes".
Definition reaches (b : OAuthBackend) (id : string) : Prop :=
  is_Some (url_Parse (b_apiURL b +:+ codes_path)) /\
  is_Some (url_Parse (b_apiURL b +:+ codes_path +:+ "/" +:+ id)).

(** C26. Codes survive a restart: given a vire-server that is reachable and keeps
    the documents posted to it, a code stored by one portal process is redeemed,
    once, by a fresh process on the same vire-server that asks for it next,
    unless it has expired by then.  The redeemed code has the expiry it was
    stored with and the client, user, redirect URI, challenge and scope as JSON
    carries them: intact where they are valid UTF-8, with U+FFFD for each other
    byte.  (The code itself is valid UTF-8, as the hex the portal draws is, and
    its expiry lies between 1678 and 2262.) *)
Theorem code_survives_restart b c m w :
  keeps_documents b codes_path "code" -> reaches b (Code c) ->
  is_utf8 (Code c) = true -> time_ok (c_ExpiresAt c) -> Used c = false ->
  let w1 := (CodeStore_Put c (mkCodeStore m (Some b), w)).2.2 in
  let fresh := CodeStore_SetBackend b NewCodeStore in
  (ConsumeCode (Code c) (fresh, w1)).1 =
    (if code_expired (clock (w_tick w)) c then None else Some (set_Used (utf8_code c))) /\
  (code_expired (clock (w_tick w)) c = false ->
   (ConsumeCode (Code c) (ConsumeCode (Code c) (fresh, w1)).2).1 = None) /\
  (forallb is_utf8 [c_ClientID c; c_UserID c; c_RedirectURI c; c_CodeChallenge c; c_Scope c] = true ->
   utf8_code c = c).
Proof.
  intros Hk [Hu Hu'] Hok Hte Hused w1 fresh.
  match goal with |- ?A /\ ?B /\ _ => enough (A /\ B) as [HA HB] end.
  { split; [exact HA|]. split; [exact HB|]. intros Hf. apply utf8_code_fixed. cbn [forallb] in *. by rewrite Hok, Hf. }
  assert (w1 = (SaveCode b c w).2) as Hw1.
  { unfold w1, CodeStore_Put. mrun. done. }
  assert (w_tick w1 = w_tick w) as Ht.
  { rewrite Hw1. apply (quiet_doRequest b). }
  assert (code_copy (Code c) fresh w1 = Some (utf8_code c)) as Hcopy.
  { unfold code_copy. simpl. unfold fetched. simpl. rewrite Hw1. unfold GetCode, SaveCode.
    change ("/api/internal/oauth/codes/" +:+ Code c) with ("/api/internal/oauth/codes" +:+ "/" +:+ Code c).
    assert (dec_code (json_utf8 (code_json c)) = Some (utf8_code c)) as Hdec
      by (rewrite code_json_utf8 by done; by apply dec_code_json).
    pose proof (saved_then_fetched b codes_path "code" (code_json c) _ (Code c) dec_code (utf8_code c) w Hk eq_refl
      eq_refl Hok eq_refl (code_depth c) Hdec Hu Hu') as Hg. unfold codes_path in Hg. by rewrite Hg. }
  pose proof (ConsumeCode_cases (Code c) fresh w1) as Hs1. rewrite Hcopy, Ht in Hs1.
  change (Used (utf8_code c)) with (Used c) in Hs1. rewrite Hused, orb_false_r in Hs1.
  change (code_expired _ (utf8_code c)) with (code_expired (clock (w_tick w)) c) in Hs1.
  destruct (ConsumeCode (Code c) (fresh, w1)) as [r1 [s1 w2]]. destruct Hs1 as [_ Hs1]. simpl.
  destruct (code_expired (clock (w_tick w)) c) eqn:He; destruct Hs1 as [-> Hs1]; (split; [done|]); [done|].
  intros _. pose proof (ConsumeCode_cases (Code c) s1 w2) as Hs2. unfold code_copy in Hs2.
  rewrite Hs1, lookup_insert_eq, orb_true_r in Hs2.
  destruct (ConsumeCode (Code c) (s1, w2)) as [r2 [s2 w3]]. by destruct Hs2 as [_ [-> _]].
Qed.
End restart.

(** ** Witnesses *)
Section witnesses.
Import SampleInstances.

Definition sample_backend : OAuthBackend := mkOAuthBackend "http://vire:8080".
Lemma sample_keeps_codes : keeps_documents sample_backend codes_path "code".
Proof.
  intros post st l id Hm Hu Hb Hl Hi Hok Hd. destruct l as [|[k v] l]; [done|].
  injection Hl as -> ->. simpl. unfold sample_do. rewrite Hm, Hu, Hb.
  cbn -[Marshal json_parse]. rewrite json_parse_utf8 by done.
  eexists _, _. split; [reflexivity|]. split; [simpl; lia|].
  intros get -> ->. simpl. eexists. split; [reflexivity|].
  change (sample_backend.(b_apiURL) +:+ codes_path +:+ "/" +:+ id)
    with ((b_apiURL sample_backend +:+ codes_path) +:+ "/" +:+ id).
  replace (doc_id _ _) with id by (symmetry; exact (is_utf8_fixed id Hi)). rewrite lookup_insert_eq.
  split; [done|]. exact (json_decode_utf8 (JObj (("code", JStr id) :: l)) Hok Hd).
Qed.
#[local] Instance sample_time_laws : TimeLaws.
Proof. split; intros t Ht; [by apply ParseInt_Itoa|by apply Itoa_ascii]. Qed.

Definition live_code : AuthCode :=
  mkAuthCode "k" "client" "alice" "http://l/cb" "ch" "openid" (1700000300 * Second) false.
Lemma code_survives_restart_witness :
  (ConsumeCode (Code live_code) (CodeStore_SetBackend sample_backend NewCodeStore,
     (CodeStore_Put live_code (mkCodeStore ∅ (Some sample_backend), sample_world)).2.2)).1 =
  Some (set_Used live_code).
Proof.
  assert (reaches sample_backend (Code live_code)) as Hr by (split; eexists; vm_compute; reflexivity).
  assert (time_ok (c_ExpiresAt live_code)) as Ht by (split; vm_compute; congruence).
  pose proof (code_survives_restart sample_backend live_code ∅ sample_world
    sample_keeps_codes Hr eq_refl Ht eq_refl) as (Hs & _ & Hf).
  rewrite Hf in Hs by reflexivity.
  replace (code_expired (clock (w_tick sample_world)) live_code) with false in Hs by (vm_compute; reflexivity).
  exact Hs.
Defined.
End witnesses.
