(* ===== verification/Keeps.v ===== *)
(** * Keeps: what an operation preserves of the state it runs on

    [leads I J m]: from a state with [I] the operation [m] ends in a state with
    [J], whatever the world; [keeps I m] is [leads I I m].  The rules follow the
    operations programs are written with; the hint database [keeps] and the
    tactic [keep] apply them. *)
From S2P Require Import Prelude GoStrings GoCrypto GoJson GoURL GoHTTP OAuthBackend OAuthStores.

Section keeps.
Context `{!Env}.
Definition leads {S A} (I J : S -> Prop) (m : M (S * World) A) : Prop :=
  forall s w, I s -> J (m (s, w)).2.1.

Lemma leads_bind {S A B} (I J K : S -> Prop) (m : M (S * World) A) (f : A -> M (S * World) B) :
  leads I J m -> (forall a, leads J K (f a)) -> leads I K (m ≫= f).
Proof.
  intros Hm Hf s w Hs. rewrite M_bind_unfold. specialize (Hm s w Hs). destruct (m (s, w)) as [a [s' w']]. by apply Hf.
Qed.
Lemma leads_ret {S A} (I J : S -> Prop) (a : A) : (forall s, I s -> J s) -> leads I J (mret a).
Proof. intros Hf s w. apply Hf. Qed.
Lemma leads_store {S} (I J : S -> Prop) f : (forall s, I s -> J (f s)) -> leads I J (store f).
Proof. intros Hf s w. apply Hf. Qed.
Lemma leads_mono {S A} (I I' J J' : S -> Prop) (m : M (S * World) A) :
  (forall s, I' s -> I s) -> (forall s, J s -> J' s) -> leads I J m -> leads I' J' m.
Proof. intros Hi Hj Hm s w Hs. by apply Hj, Hm, Hi. Qed.
(** An operation on a part of the state. *)
Lemma leads_zoom {S T A} (I I' : S -> Prop) (J J' : T -> Prop) (get : S * World -> T * World)
    (set : T * World -> S * World -> S * World) (m : M (T * World) A) :
  (forall s w, I s -> J (get (s, w)).1) ->
  (forall q s w, I s -> J' q.1 -> I' (set q (s, w)).1) ->
  leads J J' m -> leads I I' (zoom get set m).
Proof.
  intros Hg Hs Hm s w Hi. unfold zoom. specialize (Hm (get (s, w)).1 (get (s, w)).2 (Hg s w Hi)).
  rewrite <-surjective_pairing in Hm. destruct (m (get (s, w))) as [a q]. by apply (Hs q s w).
Qed.

Definition keeps {S A} (I : S -> Prop) : M (S * World) A -> Prop := leads I I.
Context {S : Type} (I : S -> Prop).
Lemma keeps_bind {A B} (m : M (S * World) A) (f : A -> M (S * World) B) :
  keeps I m -> (forall a, keeps I (f a)) -> keeps I (m ≫= f).
Proof. apply leads_bind. Qed.
Lemma keeps_ret {A} (a : A) : keeps I (mret a).
Proof. by apply leads_ret. Qed.
Lemma keeps_read {A} (f : S -> A) : keeps I (read f).
Proof. by intros s w. Qed.
Lemma keeps_store f : (forall s, I s -> I (f s)) -> keeps I (store f).
Proof. apply leads_store. Qed.
Lemma keeps_io {A} (m : M World A) : keeps I (io m).
Proof. intros s w Hs. unfold io, zoom. simpl. by destruct (m w). Qed.
Lemma keeps_through b f : keeps I (through b f).
Proof. destruct b; simpl; [|apply keeps_ret]. apply keeps_bind; [apply keeps_io|intros; apply keeps_ret]. Qed.
Lemma keeps_fetch {A} b (f : OAuthBackend -> M World (result (option A))) : keeps I (fetch b f).
Proof. destruct b; simpl; [|apply keeps_ret]. apply keeps_bind; [apply keeps_io|intros; apply keeps_ret]. Qed.
Lemma keeps_if_live {A} expired (x : A) : keeps I (if_live expired x).
Proof. apply keeps_bind; [apply keeps_io|intros; apply keeps_ret]. Qed.
End keeps.

Create HintDb keeps.
#[export] Hint Resolve keeps_ret keeps_read keeps_io keeps_through keeps_fetch keeps_if_live : keeps.
(** Along the text of an operation: binds, branches, and the known operations. *)
Ltac keep := repeat first
  [ progress intros
  | solve [eauto with keeps]
  | apply keeps_bind
  | match goal with |- keeps _ (match ?x with _ => _ end) => destruct x end ].
