(* ===== verification/JWT.v ===== *)
(** * JWT: the tokens of the portal

    The three validators ([extractSessionUserID] of internal/auth/authorize.go,
    [ValidateJWT] of internal/handlers/auth.go, [validateJWT] of
    internal/mcp/handler.go), the two readers that skip validation, and the two
    minters ([mintAccessToken] of internal/auth/server.go, [mintLoopbackJWT] of
    internal/mcp/get_page.go).  A validator reads the clock once, at its expiry
    check; [now] is that reading. *)
From S2P Require Import Prelude GoStrings GoCrypto GoJson Samples.

Section jwt.
Context `{!Unicode}.

(** ** Signing *)
Definition jwt_header : string :=
  EncodeToString (Marshal (JObj [("alg", JStr "HS256"); ("typ", JStr "JWT")])).
Definition jwt_sign (secret payload : string) : string :=
  let sigInput := jwt_header +:+ "." +:+ EncodeToString payload in
  sigInput +:+ "." +:+ EncodeToString (hmac_sha256 secret sigInput).

Definition access_claims (now : Z) (userID scope clientID issuer : string) : json :=
  JObj [("client_id", JStr clientID); ("exp", JInt (Unix (now + 1 * Hour)));
        ("iat", JInt (Unix now)); ("iss", JStr issuer); ("scope", JStr scope); ("sub", JStr userID)].
Definition mintAccessToken (secret : string) (now : Z) (userID scope clientID issuer : string) : string :=
  jwt_sign secret (Marshal (access_claims now userID scope clientID issuer)).

(** [loopbackJWTTTL.Seconds()] is 30. *)
Definition loopbackJWTTTL : Z := 30 * Second.
Definition loopback_claims (now : Z) (userID : string) : json :=
  JObj [("sub", JStr userID); ("iss", JStr "vire-portal-loopback"); ("iat", JInt (Unix now));
        ("exp", JInt (Unix now + loopbackJWTTTL / Second))].
Definition mintLoopbackJWT (now : Z) (userID secret : string) : string :=
  jwt_sign secret (Marshal (loopback_claims now userID)).

(** ** Validation *)

(** Format, signature (skipped when the secret is empty) and payload: the part
    the validators share.  [e_fmt] and [e_payload] are their error texts. *)
Definition jwt_payload (e_fmt e_payload token secret : string) : result string :=
  match SplitN token "." 4 with
  | [p0; p1; p2] =>
      let decode := match DecodeString p1 with
        | Some payload => Ok payload | None => Err e_payload end in
      if decide (secret = "") then decode
      else match DecodeString p2 with
           | None => Err "invalid JWT signature encoding"
           | Some actualSig =>
               if ConstantTimeCompare (hmac_sha256 secret (p0 +:+ "." +:+ p1)) actualSig
               then decode else Err "invalid JWT signature"
           end
  | parts => Err (e_fmt +:+ ": expected 3 parts, got " +:+ Itoa (Z.of_nat (length parts)))
  end.

(** *** internal/handlers/auth.go *)
Record JWTClaims := mkJWTClaims {
  Sub : string; Email : string; Name : string; Provider : string; Iss : string; Iat : Z; Exp : Z }.
Definition dec_JWTClaims (v : json) : option JWTClaims :=
  l ← dec_struct v;
  sub ← dec_field "sub" dec_string "" l;
  email ← dec_field "email" dec_string "" l;
  name ← dec_field "name" dec_string "" l;
  provider ← dec_field "provider" dec_string "" l;
  iss ← dec_field "iss" dec_string "" l;
  iat ← dec_field "iat" dec_int64 0 l;
  exp ← dec_field "exp" dec_int64 0 l;
  Some (mkJWTClaims sub email name provider iss iat exp).
Definition ValidateJWT (token secret : string) (now : Z) : result JWTClaims :=
  payload ← jwt_payload "invalid JWT format" "invalid JWT payload encoding" token secret;
  match json_parse payload ≫= dec_JWTClaims with
  | None => Err "invalid JWT payload JSON"
  | Some claims =>
      if Exp claims =? 0 then Err "JWT missing exp claim"
      else if Exp claims <? Unix now then Err "JWT expired"
      else Ok claims
  end.

(** *** internal/mcp/handler.go *)
Record jwtClaims := mkjwtClaims {
  m_Sub : string; m_Exp : Z; m_Iss : string; m_ClientID : string; m_Scope : string }.
Definition dec_jwtClaims (v : json) : option jwtClaims :=
  l ← dec_struct v;
  sub ← dec_field "sub" dec_string "" l;
  exp ← dec_field "exp" dec_int64 0 l;
  iss ← dec_field "iss" dec_string "" l;
  cid ← dec_field "client_id" dec_string "" l;
  scope ← dec_field "scope" dec_string "" l;
  Some (mkjwtClaims sub exp iss cid scope).
Definition validateJWT (token secret : string) (now : Z) : result jwtClaims :=
  payload ← jwt_payload "invalid JWT" "invalid JWT payload" token secret;
  match json_parse payload ≫= dec_jwtClaims with
  | None => Err "invalid JWT JSON"
  | Some claims =>
      if (0 <? m_Exp claims) && (m_Exp claims <? Unix now) then Err "JWT expired"
      else Ok claims
  end.
(** [extractJWTSub], and [extractJWTSubFromToken] of internal/handlers/auth.go:
    the payload is read without looking at the signature. *)
Definition dec_sub (v : json) : option string := l ← dec_struct v; dec_field "sub" dec_string "" l.
Definition extractJWTSub (token : string) : string :=
  match SplitN token "." 3 with
  | _ :: p1 :: _ => default "" (payload ← DecodeString p1; json_parse payload ≫= dec_sub)
  | _ => ""
  end.

(** *** internal/auth/authorize.go *)
Definition dec_sub_exp (v : json) : option (string * Z) :=
  l ← dec_struct v;
  sub ← dec_field "sub" dec_string "" l;
  exp ← dec_field "exp" dec_int64 0 l;
  Some (sub, exp).
(** [extractSessionUserID] on the value of the cookie. *)
Definition session_user (cookie secret : string) (now : Z) : string :=
  if decide (cookie = "") then "" else
  match jwt_payload "" "" cookie secret with
  | Err _ => ""
  | Ok payload =>
      match json_parse payload ≫= dec_sub_exp with
      | None => ""
      | Some (sub, exp) => if (0 <? exp) && (exp <? Unix now) then "" else sub
      end
  end.
End jwt.

(** ** Theorems *)
Section theorems.
Context `{!Unicode}.

Lemma jwt_header_no_dot : no_byte "." jwt_header = true.
Proof. by apply EncodeToString_no_byte. Qed.

Lemma jwt_payload_sign e1 e2 secret payload :
  jwt_payload e1 e2 (jwt_sign secret payload) secret = Ok payload.
Proof.
  unfold jwt_payload, jwt_sign.
  set (sig := EncodeToString (hmac_sha256 _ _)). rewrite !append_assoc, !append_char.
  rewrite (SplitN_sep "." jwt_header) by apply jwt_header_no_dot.
  rewrite SplitN_sep by by apply EncodeToString_no_byte.
  rewrite SplitN_last by by apply EncodeToString_no_byte.
  rewrite !DecodeString_EncodeToString. case_decide; [done|].
  unfold sig, ConstantTimeCompare. rewrite DecodeString_EncodeToString.
  by rewrite bool_decide_true.
Qed.

(** Acceptance requires three parts and, unless the secret is empty, the MAC
    of the first two under the secret. *)
Lemma jwt_payload_sound e1 e2 token secret payload :
  jwt_payload e1 e2 token secret = Ok payload ->
  exists p0 p1 p2,
    token = p0 +:+ "." +:+ p1 +:+ "." +:+ p2 /\
    no_byte "." p0 = true /\ no_byte "." p1 = true /\ no_byte "." p2 = true /\
    DecodeString p1 = Some payload /\
    (secret ≠ "" -> DecodeString p2 = Some (hmac_sha256 secret (p0 +:+ "." +:+ p1))).
Proof.
  unfold jwt_payload. destruct (SplitN token "." 4) as [|p0 [|p1 [|p2 [|]]]] eqn:Hs; try done.
  apply SplitN_three in Hs as (-> & H0 & H1 & H2). intros Hp. exists p0, p1, p2.
  repeat (split; [done|]). case_decide as Hsec.
  - destruct (DecodeString p1) as [x|]; [|done]. split; [congruence|done].
  - destruct (DecodeString p2) as [x|] eqn:E; [|done].
    unfold ConstantTimeCompare in Hp. case_bool_decide as Hx; [|done]. subst x.
    destruct (DecodeString p1) as [x|]; [|done]. split; [congruence|done].
Qed.

(** Clock readings an int64 of nanoseconds after 1970 can hold, less an hour. *)
Definition clock_ok (now : Z) : Prop := 0 <= now < 2 ^ 63 - Hour.

Lemma Unix_range now : clock_ok now -> 0 <= Unix now < 2 ^ 62.
Proof.
  unfold clock_ok, Unix, Hour, Minute, Second. intros Hn.
  split; [apply Z.div_pos; lia|apply Z.div_lt_upper_bound; lia].
Qed.
Lemma Unix_add now k : Unix (now + k * Second) = Unix now + k.
Proof. unfold Unix, Second. by rewrite Z.div_add by done. Qed.

(** The payloads have integer literals only, and what a reader gets of their
    strings is their valid UTF-8. *)
Lemma access_claims_nums now u sc c i :
  clock_ok now -> json_nums (access_claims now u sc c i) = true.
Proof.
  intros Hn. pose proof (Unix_range now Hn). unfold access_claims. simpl.
  replace (now + 1 * Hour) with (now + 3600 * Second) by done.
  by rewrite Unix_add, !Itoa_int_lit by lia.
Qed.
Lemma loopback_claims_nums now u : clock_ok now -> json_nums (loopback_claims now u) = true.
Proof.
  intros Hn. pose proof (Unix_range now Hn). unfold loopback_claims. simpl.
  change (loopbackJWTTTL / Second) with 30. by rewrite !Itoa_int_lit by lia.
Qed.
Lemma access_claims_utf8 now u sc c i :
  json_utf8 (access_claims now u sc c i) =
  access_claims now (to_utf8 u) (to_utf8 sc) (to_utf8 c) (to_utf8 i).
Proof. reflexivity. Qed.
Lemma loopback_claims_utf8 now u : json_utf8 (loopback_claims now u) = loopback_claims now (to_utf8 u).
Proof. reflexivity. Qed.

Lemma dec_access c exp iat i sc u e :
  ParseInt exp = Some e ->
  dec_jwtClaims (JObj [("client_id", JStr c); ("exp", JNum exp); ("iat", JNum iat); ("iss", JStr i);
                       ("scope", JStr sc); ("sub", JStr u)]) = Some (mkjwtClaims u e i c sc).
Proof. intros He. unfold dec_jwtClaims. cbn -[ParseInt]. rewrite He. reflexivity. Qed.
Lemma dec_loopback u i iat exp n e :
  ParseInt iat = Some n -> ParseInt exp = Some e ->
  dec_JWTClaims (JObj [("sub", JStr u); ("iss", JStr i); ("iat", JNum iat); ("exp", JNum exp)]) =
  Some (mkJWTClaims u "" "" "" i n e).
Proof. intros Hn He. unfold dec_JWTClaims. cbn -[ParseInt]. rewrite Hn, He. reflexivity. Qed.

Lemma minted_valid secret now now' u sc c i :
  clock_ok now ->
  validateJWT (mintAccessToken secret now u sc c i) secret now' =
    (if Unix now + 3600 <? Unix now' then Err "JWT expired"
     else Ok (mkjwtClaims (to_utf8 u) (Unix now + 3600) (to_utf8 i) (to_utf8 c) (to_utf8 sc))).
Proof.
  intros Hn. pose proof (Unix_range now Hn).
  unfold validateJWT, mintAccessToken. rewrite jwt_payload_sign.
  cbn [mbind result_bind]. rewrite json_parse_utf8 by (done || by apply access_claims_nums).
  rewrite access_claims_utf8.
  assert (forall u sc c i, dec_jwtClaims (access_claims now u sc c i) =
    Some (mkjwtClaims u (Unix now + 3600) i c sc)) as Hd.
  { intros. unfold access_claims. replace (now + 1 * Hour) with (now + 3600 * Second) by done.
    rewrite Unix_add. apply dec_access. apply ParseInt_Itoa. lia. }
  cbn [mbind option_bind]. rewrite Hd. simpl.
  destruct (Z.ltb_spec 0 (Unix now + 3600)); [|lia]. by destruct (Z.ltb_spec (Unix now + 3600) (Unix now')).
Qed.

(** C16. Round trip of access tokens, for a clock between 1970 and 2262 (an hour
    before the last nanosecond an int64 holds): what [mintAccessToken] issues
    for any user, scope, client and issuer is accepted by the MCP validator
    under the same secret, up to and including the second one hour after
    minting, and is refused as expired from then on.  The claims read back are
    the strings it was minted for with each byte that is not part of valid
    UTF-8 replaced by U+FFFD, as [json.Marshal] does; a valid UTF-8 string, so
    every ASCII one, is read back as it is. *)
Theorem access_token_roundtrip secret now now' u sc c i :
  clock_ok now ->
  validateJWT (mintAccessToken secret now u sc c i) secret now' =
    (if Unix now + 3600 <? Unix now' then Err "JWT expired"
     else Ok (mkjwtClaims (to_utf8 u) (Unix now + 3600) (to_utf8 i) (to_utf8 c) (to_utf8 sc))) /\
  (forall s, is_utf8 s = true -> to_utf8 s = s) /\ (forall s, is_ascii s = true -> to_utf8 s = s).
Proof.
  intros Hn. split_and!; [by apply minted_valid|apply is_utf8_fixed|apply ascii_utf8].
Qed.

(** A loopback token is a portal session of its user for thirty seconds: the
    page handlers' validator accepts it up to that second and no longer. *)
Lemma loopback_token_roundtrip secret now now' u :
  clock_ok now ->
  ValidateJWT (mintLoopbackJWT now u secret) secret now' =
    (if Unix now + 30 <? Unix now' then Err "JWT expired"
     else Ok (mkJWTClaims (to_utf8 u) "" "" "" "vire-portal-loopback" (Unix now) (Unix now + 30))).
Proof.
  intros Hn. pose proof (Unix_range now Hn).
  unfold ValidateJWT, mintLoopbackJWT. rewrite jwt_payload_sign.
  cbn [mbind result_bind]. rewrite json_parse_utf8 by (done || by apply loopback_claims_nums).
  rewrite loopback_claims_utf8.
  assert (forall u, dec_JWTClaims (loopback_claims now u) =
    Some (mkJWTClaims u "" "" "" "vire-portal-loopback" (Unix now) (Unix now + 30))) as Hd.
  { intros. unfold loopback_claims. change (loopbackJWTTTL / Second) with 30.
    apply dec_loopback; apply ParseInt_Itoa; lia. }
  cbn [mbind option_bind]. rewrite Hd. simpl.
  destruct (Z.eqb_spec (Unix now + 30) 0); [lia|]. by destruct (Z.ltb_spec (Unix now + 30) (Unix now')).
Qed.

(** C15. No validator accepts a token that is not signed: with a configured
    secret, a token that [ValidateJWT], [validateJWT] or the session-cookie
    check of the authorization server accepts is three dot-free parts whose
    last one decodes to the HMAC-SHA256 of the first two under the secret. *)
Theorem accepted_tokens_signed token secret now :
  secret ≠ "" ->
  is_ok (ValidateJWT token secret now) = true \/ is_ok (validateJWT token secret now) = true \/
  session_user token secret now ≠ "" ->
  exists p0 p1 p2, token = p0 +:+ "." +:+ p1 +:+ "." +:+ p2 /\
    no_byte "." p0 = true /\ no_byte "." p1 = true /\ no_byte "." p2 = true /\
    DecodeString p2 = Some (hmac_sha256 secret (p0 +:+ "." +:+ p1)).
Proof.
  intros Hs Hor.
  assert (exists e1 e2 payload, jwt_payload e1 e2 token secret = Ok payload) as (e1 & e2 & payload & Hp).
  { destruct Hor as [Hv|[Hv|Hv]];
      [unfold ValidateJWT in Hv|unfold validateJWT in Hv|unfold session_user in Hv; case_decide; [done|]].
    all: match type of Hv with context [jwt_payload ?a ?b _ _] =>
      destruct (jwt_payload a b token secret) as [pl|] eqn:E; [by exists a, b, pl|done] end. }
  apply jwt_payload_sound in Hp as (p0 & p1 & p2 & ? & ? & ? & ? & _ & Hsig).
  exists p0, p1, p2. auto 10.
Qed.

Lemma jwt_payload_msgs e1 e2 e1' e2' token secret payload :
  jwt_payload e1 e2 token secret = Ok payload -> jwt_payload e1' e2' token secret = Ok payload.
Proof. unfold jwt_payload. intros Hp. repeat (split_in Hp; try done). Qed.

Lemma claims_agree v c m :
  dec_JWTClaims v = Some c -> dec_jwtClaims v = Some m ->
  Sub c = m_Sub m /\ Exp c = m_Exp m /\ dec_sub_exp v = Some (m_Sub m, m_Exp m).
Proof.
  unfold dec_JWTClaims, dec_jwtClaims, dec_sub_exp. intros Hc Hm.
  destruct (dec_struct v) as [l|]; [|done]. cbn [mbind option_bind] in *.
  destruct (dec_field "sub" dec_string "" l) as [sub|]; [|done]. cbn [mbind option_bind] in *.
  destruct (dec_field "exp" dec_int64 0 l) as [exp|]; cbn [mbind option_bind] in *; [|done].
  repeat match goal with
  | H : context [dec_field ?a ?b ?c l] |- _ => destruct (dec_field a b c l); [|discriminate]; cbn [mbind option_bind] in H
  end. by simplify_eq.
Qed.

(** C39. The validators agree but for tokens without an expiry: on a token that
    passes the signature check and whose payload fits both claim types they
    read the same subject, the portal accepts exactly the unexpired tokens
    that carry an expiry, and the MCP endpoint and the session check of the
    authorization server also accept those whose expiry is absent, zero or
    negative. *)
Theorem validators_agree token secret now payload c m :
  token ≠ "" ->
  jwt_payload "" "" token secret = Ok payload ->
  json_parse payload ≫= dec_JWTClaims = Some c -> json_parse payload ≫= dec_jwtClaims = Some m ->
  Sub c = m_Sub m /\
  is_ok (ValidateJWT token secret now) = negb (Exp c =? 0) && (Unix now <=? Exp c) /\
  is_ok (validateJWT token secret now) = (Exp c <=? 0) || (Unix now <=? Exp c) /\
  session_user token secret now = (if (Exp c <=? 0) || (Unix now <=? Exp c) then Sub c else "").
Proof.
  intros Ht Hp Hc Hm. unfold ValidateJWT, validateJWT, session_user.
  rewrite !(jwt_payload_msgs "" "" _ _ _ _ _ Hp), decide_False by done. simpl.
  destruct (json_parse payload) as [v|]; [|done]. simpl in *.
  destruct (claims_agree v c m Hc Hm) as (Hs & He & Hd). rewrite Hc, Hm, Hd, <-He, <-Hs.
  split; [done|]. rewrite Z.leb_antisym, (Z.leb_antisym 0). 
  destruct (Exp c =? 0), (Exp c <? Unix now), (0 <? Exp c); done.
Qed.
End theorems.

(** ** Witnesses *)
Section witnesses.
#[local] Existing Instance sample_unicode.

Lemma access_token_roundtrip_witness :
  validateJWT (mintAccessToken "secret" 0 "alice" (String (chr 255) "") "c1" "http://l") "secret" 0 =
  Ok (mkjwtClaims "alice" 3600 "http://l" "c1" replacement).
Proof.
  destruct (access_token_roundtrip "secret" 0 0 "alice" (String (chr 255) "") "c1" "http://l") as (Hv & _);
    [split; [lia|reflexivity]|].
  rewrite Hv. reflexivity.
Defined.
Definition sample_token : string := mintLoopbackJWT 0 "alice" "secret".
Lemma sample_token_valid : is_ok (ValidateJWT sample_token "secret" 0) = true.
Proof. vm_compute. reflexivity. Qed.
Lemma accepted_tokens_signed_witness :
  exists p0 p1 p2, sample_token = p0 +:+ "." +:+ p1 +:+ "." +:+ p2 /\
    no_byte "." p0 = true /\ no_byte "." p1 = true /\ no_byte "." p2 = true /\
    DecodeString p2 = Some (hmac_sha256 "secret" (p0 +:+ "." +:+ p1)).
Proof.
  apply (accepted_tokens_signed sample_token "secret" 0); [discriminate|left; apply sample_token_valid].
Defined.

(** A signed token without an expiry. *)
Definition eternal_token : string := jwt_sign "secret" (Marshal (JObj [("sub", JStr "alice")])).
Lemma validators_agree_witness :
  is_ok (ValidateJWT eternal_token "secret" 0) = false /\
  is_ok (validateJWT eternal_token "secret" 0) = true /\ session_user eternal_token "secret" 0 = "alice".
Proof.
  apply (validators_agree eternal_token "secret" 0 (Marshal (JObj [("sub", JStr "alice")]))
    (mkJWTClaims "alice" "" "" "" "" 0 0) (mkjwtClaims "alice" 0 "" "" ""));
    [vm_compute; discriminate|apply jwt_payload_sign|vm_compute; reflexivity..].
Defined.
End witnesses.
