(* ===== verification/OAuthServer.v ===== *)
(** * OAuthServer: the OAuth 2.1 authorization server
    (internal/auth/server.go, authorize.go, token.go, dcr.go, discovery.go,
    pkce.go).

    A handler takes the response writer and the request and runs on the state
    of the server and the world. *)
From S2P Require Import Prelude GoStrings GoCrypto GoJson GoURL GoHTTP OAuthBackend Samples OAuthStores JWT.

(** ** PKCE (pkce.go) *)
Definition GenerateCodeChallenge (verifier : string) : string := EncodeToString (Sum256 verifier).
Definition VerifyPKCE (verifier challenge : string) : bool :=
  let computed := EncodeToString (Sum256 verifier) in
  ConstantTimeCompare computed challenge.

Section server.
Context `{!Env} `{!NetURL} `{!Unicode} `{!TimeCodec}.

(** ** State (server.go) *)
Record OAuthServer := mkOAuthServer {
  o_baseURL : string;
  o_jwtSecret : string;
  o_clients : ClientStore;
  o_sessions : SessionStore;
  o_codes : CodeStore;
  o_tokens : TokenStore;
}.
Definition NewOAuthServer (baseURL apiURL jwtSecret : string) : OAuthServer :=
  let s := mkOAuthServer (trim_right_byte "/" (TrimSpace baseURL)) jwtSecret
             NewClientStore NewSessionStore NewCodeStore NewTokenStore in
  if decide (apiURL = "") then s
  else let backend := NewOAuthBackend apiURL in
       mkOAuthServer (o_baseURL s) (o_jwtSecret s)
         (ClientStore_SetBackend backend (o_clients s)) (SessionStore_SetBackend backend (o_sessions s))
         (CodeStore_SetBackend backend (o_codes s)) (TokenStore_SetBackend backend (o_tokens s)).

Notation MO := (M (OAuthServer * World)).
(** The operations of a store on the server that holds it. *)
Definition on_clients {A} (m : M (ClientStore * World) A) : MO A :=
  zoom (fun p => (o_clients p.1, p.2))
    (fun q p => (mkOAuthServer (o_baseURL p.1) (o_jwtSecret p.1) q.1 (o_sessions p.1) (o_codes p.1) (o_tokens p.1), q.2)) m.
Definition on_sessions {A} (m : M (SessionStore * World) A) : MO A :=
  zoom (fun p => (o_sessions p.1, p.2))
    (fun q p => (mkOAuthServer (o_baseURL p.1) (o_jwtSecret p.1) (o_clients p.1) q.1 (o_codes p.1) (o_tokens p.1), q.2)) m.
Definition on_codes {A} (m : M (CodeStore * World) A) : MO A :=
  zoom (fun p => (o_codes p.1, p.2))
    (fun q p => (mkOAuthServer (o_baseURL p.1) (o_jwtSecret p.1) (o_clients p.1) (o_sessions p.1) q.1 (o_tokens p.1), q.2)) m.
Definition on_tokens {A} (m : M (TokenStore * World) A) : MO A :=
  zoom (fun p => (o_tokens p.1, p.2))
    (fun q p => (mkOAuthServer (o_baseURL p.1) (o_jwtSecret p.1) (o_clients p.1) (o_sessions p.1) (o_codes p.1) q.1, q.2)) m.

(** ** Random identifiers *)
Definition generateRandomHex (n : nat) : M World (option string) :=
  b ← rand_Read n; mret (hex_encode <$> b).
(** Version and variant bits of bytes 6 and 8, then hex groups of 4, 2, 2, 2 and 6. *)
Definition uuid_bits (b : list Z) : list Z :=
  alter (fun x => Z.lor (Z.land x 0x3f) 0x80) 8%nat (alter (fun x => Z.lor (Z.land x 0x0f) 0x40) 6%nat b).
Definition uuid_of (b : list Z) : string :=
  let hex i j := hex_encode (string_of (take (j - i) (drop i b))) in
  hex 0%nat 4%nat +:+ "-" +:+ hex 4%nat 6%nat +:+ "-" +:+ hex 6%nat 8%nat +:+ "-" +:+
  hex 8%nat 10%nat +:+ "-" +:+ hex 10%nat 16%nat.
Definition generateUUID : M World (option string) :=
  b ← rand_Read 16; mret ((fun s => uuid_of (uuid_bits (bytes_of s))) <$> b).

(** ** Completing an authorization (server.go) *)
Definition redirect_with (u : URL) (code state : string) : string :=
  let q := ParseQuery (RawQuery u) in
  url_String (set_RawQuery (Values_Encode (Values_Set "state" state (Values_Set "code" code q))) u).
Definition new_code (code userID : string) (sess : AuthSession) (now : Z) : AuthCode :=
  mkAuthCode code (s_ClientID sess) userID (s_RedirectURI sess) (s_CodeChallenge sess)
    (s_Scope sess) (now + 5 * Minute) false.
Definition CompleteAuthorization (sessionID userID : string) : MO (result string) :=
  got ← on_sessions (SessionStore_Get sessionID);
  match got with
  | None => mret (Err "session not found or expired")
  | Some sess =>
      code ← io (generateRandomHex 16);
      match code with
      | None => mret (Err "failed to generate auth code")
      | Some code =>
          now ← io time_Now;
          on_codes (CodeStore_Put (new_code code userID sess now)) ;;
          on_sessions (SessionStore_Delete sessionID) ;;
          mret (match url_Parse (s_RedirectURI sess) with
                | None => Err "invalid redirect URI"
                | Some u => Ok (redirect_with u code (s_State sess))
                end)
      end
  end.
Definition server_mintAccessToken (userID scope clientID issuer : string) : MO string :=
  now ← io time_Now;
  secret ← read o_jwtSecret;
  mret (mintAccessToken secret now userID scope clientID issuer).

(** ** Responses *)
Definition writeJSON (w : ResponseWriter) (status : Z) (v : json) : ResponseWriter := write_json status v w.
Definition writeOAuthError (w : ResponseWriter) (status : Z) (code description : string) : ResponseWriter :=
  write_json status (JStrMap [("error", code); ("error_description", description)]) w.
Definition redirectWithError (w : ResponseWriter) (r : Request)
    (redirectURI errorCode description state : string) : ResponseWriter :=
  match url_Parse redirectURI with
  | None => http_Error w "invalid redirect_uri" StatusBadRequest
  | Some u =>
      let q := Values_Set "error_description" description
                 (Values_Set "error" errorCode (ParseQuery (RawQuery u))) in
      let q := if decide (state = "") then q else Values_Set "state" state q in
      Redirect w r (url_String (set_RawQuery (Values_Encode q) u)) StatusFound
  end.
Fixpoint containsString (slice : list string) (val : string) : bool :=
  match slice with
  | [] => false
  | s :: rest => if decide (s = val) then true else containsString rest val
  end.

(** ** Discovery (discovery.go) *)
Definition baseURLFromRequest (r : Request) : string :=
  (if TLS r || EqualFold (get_header r "X-Forwarded-Proto") "https" then "https" else "http")
    +:+ "://" +:+ Host r.
Definition metadata_handler (w : ResponseWriter) (r : Request) (metadata : json) : ResponseWriter :=
  if decide (Method r ≠ "GET" /\ Method r ≠ "HEAD") then WriteHeader StatusMethodNotAllowed w
  else Write (Encode metadata)
         (rw_set "Cache-Control" "public, max-age=3600" (rw_set "Content-Type" "application/json" w)).
Definition authorization_server_metadata (baseURL : string) : json :=
  JObj [("authorization_endpoint", JStr (baseURL +:+ "/authorize"));
        ("code_challenge_methods_supported", JStrs ["S256"]);
        ("grant_types_supported", JStrs ["authorization_code"; "refresh_token"]);
        ("issuer", JStr baseURL);
        ("registration_endpoint", JStr (baseURL +:+ "/register"));
        ("response_types_supported", JStrs ["code"]);
        ("scopes_supported", JStrs ["openid"; "portfolio:read"; "portfolio:write"; "tools:invoke"]);
        ("token_endpoint", JStr (baseURL +:+ "/token"));
        ("token_endpoint_auth_methods_supported", JStrs ["client_secret_post"; "none"])].
Definition protected_resource_metadata (baseURL : string) : json :=
  JObj [("authorization_servers", JStrs [baseURL]);
        ("bearer_methods_supported", JStrs ["header"]);
        ("resource", JStr baseURL);
        ("scopes_supported", JStrs ["portfolio:read"; "portfolio:write"; "tools:invoke"])].
Definition HandleAuthorizationServer (w : ResponseWriter) (r : Request) : ResponseWriter :=
  metadata_handler w r (authorization_server_metadata (baseURLFromRequest r)).
Definition HandleProtectedResource (w : ResponseWriter) (r : Request) : ResponseWriter :=
  metadata_handler w r (protected_resource_metadata (baseURLFromRequest r)).
(** The older handler of the same endpoints; it keeps a base URL it never uses. *)
Record DiscoveryHandler := mkDiscoveryHandler { dh_baseURL : string }.
Definition NewDiscoveryHandler (baseURL : string) : DiscoveryHandler :=
  mkDiscoveryHandler (trim_right_byte "/" (TrimSpace baseURL)).
Definition DiscoveryHandler_HandleAuthorizationServer (h : DiscoveryHandler) (w : ResponseWriter) (r : Request) : ResponseWriter :=
  metadata_handler w r (authorization_server_metadata (baseURLFromRequest r)).
Definition DiscoveryHandler_HandleProtectedResource (h : DiscoveryHandler) (w : ResponseWriter) (r : Request) : ResponseWriter :=
  metadata_handler w r (protected_resource_metadata (baseURLFromRequest r)).

(** ** Authorization (authorize.go) *)
Definition defaultScope : string := "openid portfolio:read tools:invoke".
Definition createAuthSession (clientID redirectURI responseType codeChallenge codeChallengeMethod
    state scope : string) : MO (result string) :=
  found ← on_clients (ClientStore_Get clientID);
  client ← match found with
    | Some c => mret c
    | None =>
        now ← io time_Now;
        let c := mkOAuthClient clientID "" "auto-registered" [redirectURI]
                   ["authorization_code"; "refresh_token"] ["code"] "none" (Unix now) in
        on_clients (ClientStore_Put c) ;; mret c
    end;
  if negb (containsString (RedirectURIs client) redirectURI)
  then mret (Err "redirect_uri does not match registered URI")
  else
    let scope := if decide (scope = "") then defaultScope else scope in
    sid ← io (generateRandomHex 16);
    match sid with
    | None => mret (Err "rand")
    | Some sid =>
        now ← io time_Now;
        on_sessions (SessionStore_Put
          (mkAuthSession sid clientID redirectURI state codeChallenge codeChallengeMethod scope now "")) ;;
        mret (Ok sid)
    end.

Definition extractSessionUserID (r : Request) : MO string :=
  now ← io time_Now;
  secret ← read o_jwtSecret;
  mret (session_user (CookieValue r "vire_session") secret now).
Definition mcp_session_cookie (sessionID : string) : SetCookie :=
  mkSetCookie "mcp_session_id" sessionID "/" 600 true SameSiteLax.
Definition setSessionCookieAndRedirect (w : ResponseWriter) (r : Request) (sessionID : string)
    : MO ResponseWriter :=
  let login := Redirect (set_cookie (mcp_session_cookie sessionID) w) r
                 ("/?mcp_session=" +:+ sessionID) StatusFound in
  userID ← extractSessionUserID r;
  if decide (userID = "") then mret login
  else
    done ← CompleteAuthorization sessionID userID;
    mret (match done with
          | Ok redirectURL => Redirect w r redirectURL StatusFound
          | Err _ => login
          end).

(** [url.Parse(redirectURI)] succeeds with a host. *)
Definition redirect_ok (redirectURI : string) : bool :=
  match url_Parse redirectURI with Some u => negb (bool_decide (UHost u = "")) | None => false end.
Definition handleAuthorizeGET (w : ResponseWriter) (r : Request) : MO ResponseWriter :=
  let q := Query r in
  let clientID := Values_Get q "client_id" in
  let redirectURI := Values_Get q "redirect_uri" in
  if decide (redirectURI = "") then
    let missing := http_Error w "missing redirect_uri" StatusBadRequest in
    if decide (clientID = "") then mret missing
    else
      sess ← on_sessions (GetByClientID clientID);
      match sess with
      | Some x => setSessionCookieAndRedirect w r (SessionID x)
      | None => mret missing
      end
  else if negb (redirect_ok redirectURI) then mret (http_Error w "invalid redirect_uri" StatusBadRequest)
  else
    let responseType := Values_Get q "response_type" in
    let codeChallenge := Values_Get q "code_challenge" in
    let codeChallengeMethod := Values_Get q "code_challenge_method" in
    let state := Values_Get q "state" in
    let scope := Values_Get q "scope" in
    if decide (clientID = "" \/ responseType = "" \/ codeChallenge = "" \/ codeChallengeMethod = "" \/ state = "")
    then mret (redirectWithError w r redirectURI "invalid_request" "missing required parameters" state)
    else if negb (bool_decide (responseType = "code"))
    then mret (redirectWithError w r redirectURI "unsupported_response_type" "only code is supported" state)
    else if negb (bool_decide (codeChallengeMethod = "S256"))
    then mret (redirectWithError w r redirectURI "invalid_request"
                 "only S256 code_challenge_method is supported" state)
    else
      sid ← createAuthSession clientID redirectURI responseType codeChallenge codeChallengeMethod state scope;
      match sid with
      | Err e => mret (http_Error w e StatusBadRequest)
      | Ok sid => setSessionCookieAndRedirect w r sid
      end.

Definition json_error (w : ResponseWriter) (status : Z) (msg : string) : ResponseWriter :=
  writeJSON w status (JStrMap [("error", msg)]).
Definition handleAuthorizePOST (w : ResponseWriter) (r : Request) : MO ResponseWriter :=
  if FormErr r then mret (http_Error w "invalid form data" StatusBadRequest)
  else
    let clientID := FormValue r "client_id" in
    let redirectURI := FormValue r "redirect_uri" in
    let responseType := FormValue r "response_type" in
    let codeChallenge := FormValue r "code_challenge" in
    let codeChallengeMethod := FormValue r "code_challenge_method" in
    let state := FormValue r "state" in
    let scope := FormValue r "scope" in
    if decide (redirectURI = "") then mret (json_error w StatusBadRequest "missing redirect_uri")
    else if negb (redirect_ok redirectURI) then mret (json_error w StatusBadRequest "invalid redirect_uri")
    else if decide (clientID = "" \/ responseType = "" \/ codeChallenge = "" \/ codeChallengeMethod = "" \/ state = "")
    then mret (json_error w StatusBadRequest "missing required parameters")
    else if negb (bool_decide (responseType = "code"))
    then mret (json_error w StatusBadRequest "unsupported response_type")
    else if negb (bool_decide (codeChallengeMethod = "S256"))
    then mret (json_error w StatusBadRequest "only S256 code_challenge_method supported")
    else
      sid ← createAuthSession clientID redirectURI responseType codeChallenge codeChallengeMethod state scope;
      mret (match sid with
            | Err e => json_error w StatusBadRequest e
            | Ok sid => writeJSON w StatusOK (JStrMap [("session_id", sid)])
            end).
Definition HandleAuthorize (w : ResponseWriter) (r : Request) : MO ResponseWriter :=
  if decide (Method r = "GET") then handleAuthorizeGET w r
  else if decide (Method r = "POST") then handleAuthorizePOST w r
  else mret (WriteHeader StatusMethodNotAllowed w).
Definition HandleAuthorizeResume (w : ResponseWriter) (r : Request) : MO ResponseWriter :=
  if negb (bool_decide (Method r = "GET")) then mret (WriteHeader StatusMethodNotAllowed w)
  else
    let sessionID := Values_Get (Query r) "s" in
    if decide (sessionID = "") then mret (http_Error w "missing session parameter" StatusBadRequest)
    else
      got ← on_sessions (SessionStore_Get sessionID);
      match got with
      | None => mret (http_Error w "invalid or expired session" StatusBadRequest)
      | Some _ => setSessionCookieAndRedirect w r sessionID
      end.

(** ** Token endpoint (token.go) *)
Definition bad_grant (w : ResponseWriter) (description : string) : ResponseWriter :=
  writeOAuthError w StatusBadRequest "invalid_grant" description.
Definition token_response (w : ResponseWriter) (accessToken refreshToken scope : string) : ResponseWriter :=
  Write (Encode (JObj [("access_token", JStr accessToken); ("expires_in", JInt 3600);
                       ("refresh_token", JStr refreshToken); ("scope", JStr scope);
                       ("token_type", JStr "Bearer")]))
    (rw_set "Cache-Control" "no-store" (rw_set "Content-Type" "application/json" w)).
(** Minting the access token, then the refresh token, storing it and answering:
    the common end of the two grants. *)
Definition issue_tokens (w : ResponseWriter) (r : Request) (userID scope clientID : string)
    : MO ResponseWriter :=
  accessToken ← server_mintAccessToken userID scope clientID (baseURLFromRequest r);
  refresh ← io generateUUID;
  match refresh with
  | None => mret (writeOAuthError w StatusInternalServerError "server_error" "failed to generate refresh token")
  | Some refresh =>
      now ← io time_Now;
      on_tokens (TokenStore_Put (mkRefreshToken refresh userID clientID scope (now + 7 * 24 * Hour))) ;;
      mret (token_response w accessToken refresh scope)
  end.
Definition handleAuthCodeGrant (w : ResponseWriter) (r : Request) : MO ResponseWriter :=
  let code := FormValue r "code" in
  let clientID := FormValue r "client_id" in
  let redirectURI := FormValue r "redirect_uri" in
  let codeVerifier := FormValue r "code_verifier" in
  if decide (code = "" \/ clientID = "" \/ redirectURI = "" \/ codeVerifier = "")
  then mret (writeOAuthError w StatusBadRequest "invalid_request" "missing required parameters")
  else
    authCode ← on_codes (ConsumeCode code);
    match authCode with
    | None => mret (bad_grant w "authorization code not found, expired, or already used")
    | Some authCode =>
        if negb (bool_decide (c_ClientID authCode = clientID)) then mret (bad_grant w "client_id mismatch")
        else if negb (bool_decide (c_RedirectURI authCode = redirectURI))
        then mret (bad_grant w "redirect_uri mismatch")
        else if negb (VerifyPKCE codeVerifier (c_CodeChallenge authCode))
        then mret (bad_grant w "PKCE verification failed")
        else issue_tokens w r (c_UserID authCode) (c_Scope authCode) (c_ClientID authCode)
    end.
Definition handleRefreshTokenGrant (w : ResponseWriter) (r : Request) : MO ResponseWriter :=
  let refreshTokenStr := FormValue r "refresh_token" in
  let clientID := FormValue r "client_id" in
  if decide (refreshTokenStr = "" \/ clientID = "")
  then mret (writeOAuthError w StatusBadRequest "invalid_request" "missing required parameters")
  else
    refreshToken ← on_tokens (TokenStore_Get refreshTokenStr);
    match refreshToken with
    | None => mret (bad_grant w "refresh token not found or expired")
    | Some t =>
        if negb (bool_decide (t_ClientID t = clientID)) then mret (bad_grant w "client_id mismatch")
        else
          on_tokens (TokenStore_Delete refreshTokenStr) ;;
          issue_tokens w r (t_UserID t) (t_Scope t) (t_ClientID t)
    end.
Definition HandleToken (w : ResponseWriter) (r : Request) : MO ResponseWriter :=
  if negb (bool_decide (Method r = "POST")) then mret (WriteHeader StatusMethodNotAllowed w)
  else if FormErr r then mret (writeOAuthError w StatusBadRequest "invalid_request" "invalid form body")
  else
    let grantType := FormValue r "grant_type" in
    if decide (grantType = "authorization_code") then handleAuthCodeGrant w r
    else if decide (grantType = "refresh_token") then handleRefreshTokenGrant w r
    else mret (writeOAuthError w StatusBadRequest "unsupported_grant_type"
                 "grant_type must be authorization_code or refresh_token").

(** ** Dynamic client registration (dcr.go) *)
Record dcrRequest := mkdcrRequest {
  d_ClientName : string; d_RedirectURIs : list string; d_GrantTypes : list string;
  d_ResponseTypes : list string; d_TokenEndpointAuthMethod : string }.
Definition dec_dcrRequest (v : json) : option dcrRequest :=
  l ← dec_struct v;
  nm ← dec_field "client_name" dec_string "" l;
  ru ← dec_field "redirect_uris" (dec_list "" dec_string) [] l;
  gt ← dec_field "grant_types" (dec_list "" dec_string) [] l;
  rt ← dec_field "response_types" (dec_list "" dec_string) [] l;
  am ← dec_field "token_endpoint_auth_method" dec_string "" l;
  Some (mkdcrRequest nm ru gt rt am).
Definition if_empty {A} (l d : list A) : list A := match l with [] => d | _ => l end.
Definition HandleRegister (w : ResponseWriter) (r : Request) : MO ResponseWriter :=
  if negb (bool_decide (Method r = "POST")) then mret (WriteHeader StatusMethodNotAllowed w)
  else
    match (b ← ReqBody r; v ← json_decode b; dec_dcrRequest v) with
    | None => mret (writeOAuthError w StatusBadRequest "invalid_request" "invalid JSON body")
    | Some req =>
        match d_RedirectURIs req with
        | [] => mret (writeOAuthError w StatusBadRequest "invalid_request" "redirect_uris is required")
        | _ =>
            clientID ← io generateUUID;
            match clientID with
            | None => mret (writeOAuthError w StatusInternalServerError "server_error" "failed to generate client_id")
            | Some clientID =>
                clientSecret ← io (generateRandomHex 32);
                match clientSecret with
                | None => mret (writeOAuthError w StatusInternalServerError "server_error"
                                  "failed to generate client_secret")
                | Some clientSecret =>
                    now ← io time_Now;
                    let client := mkOAuthClient clientID clientSecret (d_ClientName req) (d_RedirectURIs req)
                      (if_empty (d_GrantTypes req) ["authorization_code"; "refresh_token"])
                      (if_empty (d_ResponseTypes req) ["code"])
                      (if decide (d_TokenEndpointAuthMethod req = "") then "none" else d_TokenEndpointAuthMethod req)
                      (Unix now) in
                    on_clients (ClientStore_Put client) ;;
                    mret (write_json StatusCreated (client_json client) w)
                end
            end
        end
    end.
End server.
