(* ===== verification/OAuthTheorems.v ===== *)
(** * OAuthTheorems: correctness of the authorization server *)
From S2P Require Import Prelude GoStrings GoCrypto GoJson GoURL GoHTTP OAuthBackend Samples OAuthStores JWT OAuthServer.

Section run.
Context `{!Env} `{!NetURL} `{!Unicode} `{!TimeCodec}.

Definition set_o_codes (q : CodeStore) (s : OAuthServer) : OAuthServer :=
  mkOAuthServer (o_baseURL s) (o_jwtSecret s) (o_clients s) (o_sessions s) q (o_tokens s).
Definition set_o_tokens (q : TokenStore) (s : OAuthServer) : OAuthServer :=
  mkOAuthServer (o_baseURL s) (o_jwtSecret s) (o_clients s) (o_sessions s) (o_codes s) q.
Definition set_o_sessions (q : SessionStore) (s : OAuthServer) : OAuthServer :=
  mkOAuthServer (o_baseURL s) (o_jwtSecret s) (o_clients s) q (o_codes s) (o_tokens s).
Definition set_o_clients (q : ClientStore) (s : OAuthServer) : OAuthServer :=
  mkOAuthServer (o_baseURL s) (o_jwtSecret s) q (o_sessions s) (o_codes s) (o_tokens s).
Definition tick (w : World) : World := mkWorld (w_srv w) (S (w_tick w)) (w_draw w).
Definition draw (w : World) : World := mkWorld (w_srv w) (w_tick w) (S (w_draw w)).

Lemma on_codes_bind {A B} (m : M (CodeStore * World) A) (k : A -> M (OAuthServer * World) B) s w :
  (on_codes m ≫= k) (s, w) =
  let '(a, (q, w')) := m (o_codes s, w) in k a (set_o_codes q s, w').
Proof. rewrite M_bind_unfold. unfold on_codes, zoom; simpl. by destruct (m (o_codes s, w)) as [a [q w']]. Qed.
Lemma on_tokens_bind {A B} (m : M (TokenStore * World) A) (k : A -> M (OAuthServer * World) B) s w :
  (on_tokens m ≫= k) (s, w) =
  let '(a, (q, w')) := m (o_tokens s, w) in k a (set_o_tokens q s, w').
Proof. rewrite M_bind_unfold. unfold on_tokens, zoom; simpl. by destruct (m (o_tokens s, w)) as [a [q w']]. Qed.
Lemma on_sessions_bind {A B} (m : M (SessionStore * World) A) (k : A -> M (OAuthServer * World) B) s w :
  (on_sessions m ≫= k) (s, w) =
  let '(a, (q, w')) := m (o_sessions s, w) in k a (set_o_sessions q s, w').
Proof. rewrite M_bind_unfold. unfold on_sessions, zoom; simpl. by destruct (m (o_sessions s, w)) as [a [q w']]. Qed.
Lemma on_clients_bind {A B} (m : M (ClientStore * World) A) (k : A -> M (OAuthServer * World) B) s w :
  (on_clients m ≫= k) (s, w) =
  let '(a, (q, w')) := m (o_clients s, w) in k a (set_o_clients q s, w').
Proof. rewrite M_bind_unfold. unfold on_clients, zoom; simpl. by destruct (m (o_clients s, w)) as [a [q w']]. Qed.
Lemma hex_bind {S B} n (k : option string -> M (S * World) B) s w :
  (io (generateRandomHex n) ≫= k) (s, w) = k (hex_encode <$> rand_read (w_draw w) n) (s, draw w).
Proof. done. Qed.
Definition uuid_from (b : string) : string := uuid_of (uuid_bits (bytes_of b)).
Lemma uuid_bind {S B} (k : option string -> M (S * World) B) s w :
  (io generateUUID ≫= k) (s, w) = k (uuid_from <$> rand_read (w_draw w) 16) (s, draw w).
Proof. done. Qed.

(** The stores' write operations, in one equation each. *)
Lemma CodeStore_Put_eq c q w :
  CodeStore_Put c (q, w) = (tt, (set_codes <[Code c := c]> q, through_world (co_backend q) (fun b => SaveCode b c) w)).
Proof. unfold CodeStore_Put. by mrun. Qed.
Lemma TokenStore_Put_eq t q w :
  TokenStore_Put t (q, w) = (tt, (set_tokens <[Token t := t]> q, through_world (to_backend q) (fun b => SaveToken b t) w)).
Proof. unfold TokenStore_Put. by mrun. Qed.
Lemma TokenStore_Delete_eq t q w :
  TokenStore_Delete t (q, w) = (tt, (set_tokens (delete t) q, through_world (to_backend q) (fun b => RevokeToken b t) w)).
Proof. unfold TokenStore_Delete. by mrun. Qed.
Lemma SessionStore_Put_eq x q w :
  SessionStore_Put x (q, w) = (tt, (set_sessions <[SessionID x := x]> q, through_world (se_backend q) (fun b => SaveSession b x) w)).
Proof. unfold SessionStore_Put. by mrun. Qed.
Lemma SessionStore_Delete_eq i q w :
  SessionStore_Delete i (q, w) = (tt, (set_sessions (delete i) q, through_world (se_backend q) (fun b => DeleteSession b i) w)).
Proof. unfold SessionStore_Delete. by mrun. Qed.
Lemma ClientStore_Put_eq c q w :
  ClientStore_Put c (q, w) = (tt, (set_clients <[ClientID c := c]> q, through_world (cl_backend q) (fun b => SaveClient b c) w)).
Proof. unfold ClientStore_Put. by mrun. Qed.
End run.

Ltac orun := repeat first
  [rewrite on_codes_bind | rewrite on_tokens_bind | rewrite on_sessions_bind | rewrite on_clients_bind
  |rewrite hex_bind | rewrite uuid_bind
  |rewrite CodeStore_Put_eq | rewrite TokenStore_Put_eq | rewrite TokenStore_Delete_eq
  |rewrite SessionStore_Put_eq | rewrite SessionStore_Delete_eq | rewrite ClientStore_Put_eq
  |progress mrun].

Section token.
Context `{!Env} `{!NetURL} `{!Unicode} `{!TimeCodec}.

(** What issuing tokens answers and stores. *)
Definition issued_refresh (b : string) (now : Z) (u sc cl : string) : RefreshToken :=
  mkRefreshToken (uuid_from b) u cl sc (now + 7 * 24 * Hour).
Lemma issue_tokens_eq rw r u sc cl s w :
  exists w', issue_tokens rw r u sc cl (s, w) =
  match rand_read (w_draw w) 16 with
  | None => (writeOAuthError rw StatusInternalServerError "server_error" "failed to generate refresh token",
             (s, draw (tick w)))
  | Some b =>
      (token_response rw (mintAccessToken (o_jwtSecret s) (clock (w_tick w)) u sc cl (baseURLFromRequest r))
         (uuid_from b) sc,
       (set_o_tokens (set_tokens <[uuid_from b := issued_refresh b (clock (S (w_tick w))) u sc cl]> (o_tokens s)) s, w'))
  end.
Proof.
  unfold issue_tokens, server_mintAccessToken. orun. simpl.
  destruct (rand_read (w_draw w) 16) as [b|]; simpl.
  - orun. eexists. reflexivity.
  - by exists w.
Qed.

(** ** The authorization-code grant *)
(** A well-formed code request: POST, a readable form, the grant type and every
    required parameter. *)
Definition is_code_request (r : Request) : Prop :=
  Method r = "POST" /\ FormErr r = false /\ FormValue r "grant_type" = "authorization_code" /\
  FormValue r "code" ≠ "" /\ FormValue r "client_id" ≠ "" /\ FormValue r "redirect_uri" ≠ "" /\
  FormValue r "code_verifier" ≠ "".
(** The request matches what the code was issued for. *)
Definition matches_code (r : Request) (c : AuthCode) : bool :=
  bool_decide (c_ClientID c = FormValue r "client_id") &&
  bool_decide (c_RedirectURI c = FormValue r "redirect_uri") &&
  bool_decide (c_CodeChallenge c = GenerateCodeChallenge (FormValue r "code_verifier")).
(** The unused, unexpired code the request names. *)
Definition live_code_of (r : Request) (s : OAuthServer) (w : World) : option AuthCode :=
  c ← code_copy (FormValue r "code") (o_codes s) w;
  if code_expired (clock (w_tick w)) c || Used c then None else Some c.

Lemma VerifyPKCE_spec v c : VerifyPKCE v c = bool_decide (c = GenerateCodeChallenge v).
Proof.
  unfold VerifyPKCE, ConstantTimeCompare, GenerateCodeChallenge.
  apply bool_decide_ext. naive_solver.
Qed.

Lemma HandleToken_code r s w :
  is_code_request r -> HandleToken rw0 r (s, w) = handleAuthCodeGrant rw0 r (s, w).
Proof.
  intros (Hm & Hf & Hg & _). unfold HandleToken. rewrite Hm, Hf, Hg. done.
Qed.

Lemma writeOAuthError_status rw st c d : rw_sent rw = None -> rw_status (writeOAuthError rw st c d) = st.
Proof. apply rw_status_write_json. Qed.

(** What [ConsumeCode] does inside a handler. *)
Lemma consume_live r s w :
  exists q w', ConsumeCode (FormValue r "code") (o_codes s, w) = (set_Used <$> live_code_of r s w, (q, w')) /\
    w_draw w' = w_draw w /\ (is_Some (live_code_of r s w) -> w_tick w' = S (w_tick w)) /\
    co_backend q = co_backend (o_codes s) /\
    (forall k, k ≠ FormValue r "code" -> codes q !! k = codes (o_codes s) !! k) /\
    (forall c, code_copy (FormValue r "code") (o_codes s) w = Some c ->
       codes q !! FormValue r "code" = Some (if code_expired (clock (w_tick w)) c then c else set_Used c)).
Proof.
  pose proof (ConsumeCode_cases (FormValue r "code") (o_codes s) w) as Hs.
  destruct (ConsumeCode_eq (FormValue r "code") (o_codes s) w) as (w' & Heq & Hd & Ht).
  rewrite Heq in Hs. destruct Hs as [Hb Hs]. rewrite Heq. unfold live_code_of.
  revert Ht Hs. destruct (consume_held _ _ _) as [res m]; simpl. intros Ht Hs.
  exists (mkCodeStore m (co_backend (o_codes s))), w'.
  destruct (code_copy _ _ w) as [c|]; simpl.
  - assert (set_Used c = c \/ Used c = false) as Hu by (destruct c as [? ? ? ? ? ? ? []]; auto).
    destruct (code_expired _ c) eqn:He; simpl in *.
    + destruct Hs as [-> ->]. split; [done|]. split; [done|]. split; [by intros []|]. split; [done|].
      split; [intros; by rewrite lookup_insert_ne|]. intros c' [= <-]. by rewrite He, lookup_insert_eq.
    + assert (res = (if Used c then None else Some (set_Used c)) /\ m = <[FormValue r "code" := set_Used c]> (codes (o_codes s)))
        as [-> ->] by (destruct (Used c), Hu as [Hu|]; rewrite ?Hu; intuition congruence).
      split; [by destruct (Used c)|]. split; [done|]. split.
      { intros Hi. apply Ht. destruct (Used c); [by destruct Hi|eauto]. }
      split; [done|]. split; [intros; by rewrite lookup_insert_ne|].
      intros c' [= <-]. by rewrite He, lookup_insert_eq.
  - destruct Hs as [-> ->]. split; [done|]. split; [done|]. split; [by intros []|]. by split_and!.
Qed.

(** What the answer [rw] to [r] and the state [s'] after it are. *)
Definition code_outcome (r : Request) (s : OAuthServer) (w : World) (rw : ResponseWriter) (s' : OAuthServer) : Prop :=
  match live_code_of r s w with
  | None => rw_status rw = StatusBadRequest /\ o_tokens s' = o_tokens s
  | Some c =>
      codes (o_codes s') !! FormValue r "code" = Some (set_Used c) /\
      if matches_code r c then
        match rand_read (w_draw w) 16 with
        | Some b =>
            rw = token_response rw0
                   (mintAccessToken (o_jwtSecret s) (clock (S (w_tick w))) (c_UserID c) (c_Scope c)
                      (c_ClientID c) (baseURLFromRequest r))
                   (uuid_from b) (c_Scope c) /\
            tokens (o_tokens s') =
              <[uuid_from b := issued_refresh b (clock (S (S (w_tick w)))) (c_UserID c) (c_Scope c) (c_ClientID c)]>
                (tokens (o_tokens s))
        | None => rw_status rw = StatusInternalServerError /\ o_tokens s' = o_tokens s
        end
      else rw_status rw = StatusBadRequest /\ o_tokens s' = o_tokens s
  end.

Lemma code_grant_cases r s w :
  is_code_request r ->
  let '(rw, (s', w')) := HandleToken rw0 r (s, w) in code_outcome r s w rw s'.
Proof.
  intros Hr. rewrite (HandleToken_code r s w Hr). destruct Hr as (_ & _ & _ & H3' & H4' & H5' & H6').
  unfold handleAuthCodeGrant, code_outcome. rewrite decide_False by tauto. orun.
  destruct (consume_live r s w) as (q & w' & -> & Hd & Ht & _ & _ & Hc).
  destruct (live_code_of r s w) as [c|] eqn:Hl; simpl; [|done].
  specialize (Ht (ex_intro _ c eq_refl)).
  assert (codes q !! FormValue r "code" = Some (set_Used c)) as Hq.
  { unfold live_code_of in Hl. destruct (code_copy _ _ w) as [c'|]; [|done]. simpl in Hl.
    destruct (code_expired _ c') eqn:He; [done|]. destruct (Used c'); [done|]. simpl in Hl. injection Hl as ->.
    by rewrite (Hc c eq_refl), He. }
  unfold matches_code. rewrite VerifyPKCE_spec.
  do 3 (case_bool_decide; simpl; [|done]).
  destruct (issue_tokens_eq rw0 r (c_UserID c) (c_Scope c) (c_ClientID c) (set_o_codes q s) w') as [w'' ->].
  rewrite Hd, Ht. by destruct (rand_read (w_draw w) 16).
Qed.

(** ** Sequences of token requests *)
#[local] Instance is_code_request_dec r : Decision (is_code_request r).
Proof. unfold is_code_request. apply _. Defined.

Lemma issue_tokens_codes rw r u sc cl s w :
  o_codes (issue_tokens rw r u sc cl (s, w)).2.1 = o_codes s.
Proof.
  destruct (issue_tokens_eq rw r u sc cl s w) as [w' ->]. by destruct (rand_read (w_draw w) 16).
Qed.
Lemma refresh_codes rw r s w : o_codes (handleRefreshTokenGrant rw r (s, w)).2.1 = o_codes s.
Proof.
  unfold handleRefreshTokenGrant. case_decide; [done|]. orun.
  destruct (TokenStore_Get _ (o_tokens s, w)) as [[t|] [q w']]; simpl; [|done].
  destruct (negb _); [done|]. orun. by rewrite issue_tokens_codes.
Qed.
(** Only a well-formed code request touches the codes. *)
Lemma HandleToken_codes r s w :
  ~ is_code_request r -> o_codes (HandleToken rw0 r (s, w)).2.1 = o_codes s.
Proof.
  intros Hr. unfold HandleToken. case_bool_decide as Hm; simpl; [|done].
  destruct (FormErr r) eqn:Hf; [done|]. case_decide as Hg.
  - unfold handleAuthCodeGrant. case_decide as Hp; [done|]. exfalso. apply Hr.
    unfold is_code_request. tauto.
  - case_decide; [apply refresh_codes|done].
Qed.
Lemma HandleToken_codes_request r s w :
  is_code_request r ->
  o_codes (HandleToken rw0 r (s, w)).2.1 = (ConsumeCode (FormValue r "code") (o_codes s, w)).2.1.
Proof.
  intros Hr. rewrite (HandleToken_code r s w Hr). destruct Hr as (_ & _ & _ & ? & ? & ? & ?).
  unfold handleAuthCodeGrant. rewrite decide_False by tauto. orun.
  destruct (ConsumeCode _ (o_codes s, w)) as [[c|] [q w']]; simpl; [|done].
  repeat (case_bool_decide; simpl; [|done]). destruct (VerifyPKCE _ _); simpl; [|done].
  by rewrite issue_tokens_codes.
Qed.

Lemma HandleToken_other_codes r s w k :
  k ≠ FormValue r "code" ->
  codes (o_codes (HandleToken rw0 r (s, w)).2.1) !! k = codes (o_codes s) !! k.
Proof.
  intros Hk. destruct (decide (is_code_request r)) as [Hr|Hr]; [|by rewrite HandleToken_codes].
  rewrite HandleToken_codes_request by done.
  destruct (consume_live r s w) as (q & w' & -> & _ & _ & _ & Hne & _). by apply Hne.
Qed.

(** C3. The token endpoint, request by request.  A request that is not a POST is
    answered 405; one whose form cannot be read, whose grant type is neither of
    the two, or that asks for the authorization-code grant without one of its
    four parameters, 400; all of these leave the server as it was, so a code
    they name is not spent.  A complete code request issues tokens exactly when
    the code is known, unexpired and unused, was issued for that client and
    redirect URI, and carries the S256 challenge of the submitted verifier: the
    access token is minted, and the refresh token stored, for the user, scope
    and client of the code (or, when the random source fails, it is answered
    500 and nothing is issued).  Otherwise it is answered 400 and issues
    nothing; a live code is spent all the same when the client, redirect URI
    or verifier does not match.  The refresh grant touches no code, and no request touches a
    code other than the one it names. *)
Theorem code_grant_spec r s w :
  let '(rw, (s', w')) := HandleToken rw0 r (s, w) in
  (if decide (Method r ≠ "POST") then rw_status rw = StatusMethodNotAllowed /\ s' = s
   else if FormErr r then rw_status rw = StatusBadRequest /\ s' = s
   else if decide (FormValue r "grant_type" = "refresh_token") then o_codes s' = o_codes s
   else if decide (FormValue r "grant_type" ≠ "authorization_code" \/ FormValue r "code" = "" \/
                   FormValue r "client_id" = "" \/ FormValue r "redirect_uri" = "" \/
                   FormValue r "code_verifier" = "")
   then rw_status rw = StatusBadRequest /\ s' = s
   else code_outcome r s w rw s') /\
  (forall k, k ≠ FormValue r "code" -> codes (o_codes s') !! k = codes (o_codes s) !! k).
Proof.
  pose proof (HandleToken_other_codes r s w) as Hk. pose proof (code_grant_cases r s w) as Hg.
  pose proof (HandleToken_codes r s w) as Hn. unfold HandleToken in *.
  destruct (decide (Method r ≠ "POST")) as [Hm|Hm]; case_bool_decide as Hm'; cbn [negb] in *; try tauto.
  { split; [done|exact Hk]. }
  destruct (FormErr r) eqn:Hf; [by split; [|exact Hk]|].
  destruct (decide (FormValue r "grant_type" = "refresh_token")) as [Ht|Ht];
    destruct (decide (FormValue r "grant_type" = "authorization_code")) as [Ha|Ha]; try congruence.
  - destruct (handleRefreshTokenGrant _ _ _) as [rw [s' w']]. split; [|exact Hk].
    apply Hn. unfold is_code_request. tauto.
  - destruct (decide (_ \/ _)) as [Hp|Hp].
    + unfold handleAuthCodeGrant. by rewrite decide_True by tauto.
    + destruct (handleAuthCodeGrant _ _ _) as [rw [s' w']]. split; [|exact Hk].
      apply Hg. unfold is_code_request. tauto.
  - destruct (decide (_ \/ _)) as [Hp|Hp]; [|tauto]. split; [done|exact Hk].
Qed.

(** [k] is cached and used. *)
Definition spent (k : string) (s : OAuthServer) : Prop :=
  exists c, codes (o_codes s) !! k = Some c /\ Used c = true.
Definition redeems (k : string) (r : Request) (rw : ResponseWriter) : Prop :=
  is_code_request r /\ FormValue r "code" = k /\ rw_status rw = StatusOK.
#[local] Instance redeems_dec k r rw : Decision (redeems k r rw).
Proof. unfold redeems. apply _. Defined.

Lemma spent_step k r s w : spent k s -> spent k (HandleToken rw0 r (s, w)).2.1.
Proof.
  intros (c & Hc & Hu). unfold spent. destruct (decide (is_code_request r)) as [Hr|Hr].
  - rewrite HandleToken_codes_request by done.
    destruct (consume_live r s w) as (q & w' & -> & _ & _ & _ & Hne & Heq). simpl.
    destruct (decide (k = FormValue r "code")) as [->|]; [|rewrite Hne; eauto].
    rewrite (Heq c) by (unfold code_copy; by rewrite Hc).
    eexists. split; [reflexivity|]. by destruct (code_expired _ c).
  - rewrite HandleToken_codes by done. eauto.
Qed.
Lemma spent_refused k r s w : spent k s -> ~ redeems k r (HandleToken rw0 r (s, w)).1.
Proof.
  intros (c & Hc & Hu) (Hr & <- & Hst). pose proof (code_grant_cases r s w Hr) as Hg. unfold code_outcome in Hg.
  destruct (HandleToken rw0 r (s, w)) as [rw [s' w']]. unfold live_code_of, code_copy in Hg.
  rewrite Hc in Hg. simpl in Hg. rewrite Hu, orb_true_r in Hg. destruct Hg as [Hg _].
  simpl in Hst. by rewrite Hg in Hst.
Qed.
Lemma redeemed_spent k r s w :
  redeems k r (HandleToken rw0 r (s, w)).1 -> spent k (HandleToken rw0 r (s, w)).2.1.
Proof.
  intros (Hr & <- & Hst). pose proof (code_grant_cases r s w Hr) as Hg. unfold code_outcome in Hg.
  destruct (HandleToken rw0 r (s, w)) as [rw [s' w']]. simpl in *.
  destruct (live_code_of r s w) as [c|]; [|destruct Hg as [Hg _]; by rewrite Hg in Hst].
  destruct Hg as [Hg _]. by exists (set_Used c).
Qed.

Fixpoint run_tokens (rs : list Request) (st : OAuthServer * World)
    : list (Request * ResponseWriter) * (OAuthServer * World) :=
  match rs with
  | [] => ([], st)
  | r :: rs =>
      let '(rw, st) := HandleToken rw0 r st in
      let '(out, st) := run_tokens rs st in ((r, rw) :: out, st)
  end.
Lemma run_spent k rs : forall s w, spent k s ->
  filter (fun x => redeems k x.1 x.2) (run_tokens rs (s, w)).1 = [].
Proof.
  induction rs as [|r rs IH]; intros s w Hs; [done|]. simpl.
  pose proof (spent_step k r s w Hs) as Hs'. pose proof (spent_refused k r s w Hs) as Hn.
  destruct (HandleToken rw0 r (s, w)) as [rw [s' w']]. simpl in *. specialize (IH s' w' Hs').
  destruct (run_tokens rs (s', w')) as [out st]. simpl in *. by rewrite filter_cons_False.
Qed.

(** Single use at the endpoint: in any sequence of token requests, valid or
    not, of either grant and for any codes, at most one is answered with
    tokens for a given authorization code. *)
Lemma code_redeemed_once k rs s w :
  (length (filter (fun x => redeems k x.1 x.2) (run_tokens rs (s, w)).1) <= 1)%nat.
Proof.
  revert s w. induction rs as [|r rs IH]; intros s w; [simpl; lia|]. simpl.
  pose proof (redeemed_spent k r s w) as Hsp. specialize (IH (HandleToken rw0 r (s, w)).2.1).
  destruct (HandleToken rw0 r (s, w)) as [rw [s' w']]. simpl in *. specialize (IH w').
  pose proof (fun H => run_spent k rs s' w' (Hsp H)) as Hrest.
  destruct (run_tokens rs (s', w')) as [out st]. simpl in *.
  destruct (decide (redeems k r rw)) as [Hr|Hr].
  - rewrite filter_cons_True by done. simpl. rewrite (Hrest Hr). done.
  - by rewrite filter_cons_False.
Qed.

(** ** The refresh grant *)
Definition is_refresh_request (r : Request) : Prop :=
  Method r = "POST" /\ FormErr r = false /\ FormValue r "grant_type" = "refresh_token" /\
  FormValue r "refresh_token" ≠ "" /\ FormValue r "client_id" ≠ "".
Definition token_copy (tok : string) (q : TokenStore) (w : World) : option RefreshToken :=
  match tokens q !! tok with
  | Some t => Some t
  | None => fetched (to_backend q) (fun b => LookupToken b tok) w
  end.
(** The map after the lookup: a fetched token is cached under its own name. *)
Definition after_lookup (tok : string) (q : TokenStore) (w : World) : gmap string RefreshToken :=
  match tokens q !! tok, token_copy tok q w with
  | None, Some t => <[Token t := t]> (tokens q)
  | _, _ => tokens q
  end.

(** What the answer [rw] to [r] and the state [s'] after it are. *)
Definition refresh_outcome (r : Request) (s : OAuthServer) (w : World) (rw : ResponseWriter) (s' : OAuthServer) : Prop :=
  let tok := FormValue r "refresh_token" in
  match (t ← token_copy tok (o_tokens s) w; if token_expired (clock (w_tick w)) t then None else Some t) with
  | None => rw_status rw = StatusBadRequest /\ tokens (o_tokens s') = after_lookup tok (o_tokens s) w
  | Some t =>
      if bool_decide (t_ClientID t = FormValue r "client_id") then
        match rand_read (w_draw w) 16 with
        | Some b =>
            rw = token_response rw0
                   (mintAccessToken (o_jwtSecret s) (clock (S (w_tick w))) (t_UserID t) (t_Scope t)
                      (t_ClientID t) (baseURLFromRequest r))
                   (uuid_from b) (t_Scope t) /\
            tokens (o_tokens s') =
              <[uuid_from b := issued_refresh b (clock (S (S (w_tick w)))) (t_UserID t) (t_Scope t) (t_ClientID t)]>
                (delete tok (after_lookup tok (o_tokens s) w))
        | None => rw_status rw = StatusInternalServerError /\
            tokens (o_tokens s') = delete tok (after_lookup tok (o_tokens s) w)
        end
      else rw_status rw = StatusBadRequest /\ tokens (o_tokens s') = after_lookup tok (o_tokens s) w
  end.

Lemma refresh_grant_cases r s w :
  is_refresh_request r ->
  let '(rw, (s', w')) := HandleToken rw0 r (s, w) in
  o_codes s' = o_codes s /\ to_backend (o_tokens s') = to_backend (o_tokens s) /\
  refresh_outcome r s w rw s'.
Proof.
  intros (Hm & Hf & Hg & Ht & Hc). unfold HandleToken, refresh_outcome.
  set (tok := FormValue r "refresh_token"). rewrite Hm, Hf, Hg. simpl.
  unfold handleRefreshTokenGrant. rewrite decide_False by tauto. orun.
  pose proof (TokenStore_Get_eq tok (o_tokens s) w) as Hget. fold tok.
  destruct (TokenStore_Get tok (o_tokens s, w)) as [res [q w1]]. destruct Hget as (Hres & Hb & Hd & Htk & Hq).
  fold (token_copy tok (o_tokens s) w) in Hres, Htk, Hq.
  assert (tokens q = after_lookup tok (o_tokens s) w) as Hq'.
  { rewrite Hq. unfold after_lookup, token_copy. by destruct (tokens (o_tokens s) !! tok). }
  rewrite <-Hres. destruct res as [t|]; simpl; [|done].
  destruct (token_copy tok (o_tokens s) w) as [t'|] eqn:Ec; [|done].
  specialize (Htk (ex_intro _ t' eq_refl)).
  case_bool_decide as Hcl; simpl; [|done]. orun.
  destruct (through_world_quiet (to_backend q) (fun b => RevokeToken b tok) w1) as [Ht1 Hd1]; [auto with vire|].
  edestruct (issue_tokens_eq rw0 r (t_UserID t) (t_Scope t) (t_ClientID t)) as [w2 ->].
  cbn [o_tokens set_o_tokens]. rewrite Hd1, Hd, Ht1, Htk. destruct (rand_read (w_draw w) 16); simpl; by rewrite Hq'.
Qed.

(** C27. The refresh grant: tokens are issued exactly for a refresh token that is
    known, unexpired and presented by the client it belongs to; the new
    tokens carry the user, scope and client of the old one, which is removed
    from the store before the new one is put.  Any other request is answered
    400 and issues nothing. *)
Theorem refresh_grant_spec r s w :
  is_refresh_request r ->
  let '(rw, (s', w')) := HandleToken rw0 r (s, w) in refresh_outcome r s w rw s'.
Proof.
  intros Hr. pose proof (refresh_grant_cases r s w Hr) as Hc.
  destruct (HandleToken rw0 r (s, w)) as [rw [s' w']]. by destruct Hc as (_ & _ & Hc).
Qed.

(** C4. Rotation: once a refresh token has been exchanged, presenting it again is
    refused, unless the backend still answers it after the revocation. *)
Theorem refresh_rotation r r2 s w t b :
  is_refresh_request r -> is_refresh_request r2 ->
  let tok := FormValue r "refresh_token" in
  FormValue r2 "refresh_token" = tok ->
  tokens (o_tokens s) !! tok = Some t -> token_expired (clock (w_tick w)) t = false ->
  t_ClientID t = FormValue r "client_id" ->
  rand_read (w_draw w) 16 = Some b -> uuid_from b ≠ tok ->
  let '(rw, (s', w')) := HandleToken rw0 r (s, w) in
  rw_status rw = StatusOK /\ tokens (o_tokens s') !! tok = None /\
  (fetched (to_backend (o_tokens s)) (fun bk => LookupToken bk tok) w' = None ->
   rw_status (HandleToken rw0 r2 (s', w')).1 = StatusBadRequest).
Proof.
  intros Hr Hr2 tok Htok Ht He Hcl Hb Hne.
  pose proof (refresh_grant_cases r s w Hr) as H1'. unfold refresh_outcome in H1'. fold tok in H1'.
  destruct (HandleToken rw0 r (s, w)) as [rw [s' w']]. destruct H1' as (_ & Hbk & H1').
  unfold token_copy, after_lookup in H1'. rewrite Ht in H1'. simpl in H1'.
  rewrite He, bool_decide_true, Hb in H1' by done. destruct H1' as [-> Hmap].
  assert (tokens (o_tokens s') !! tok = None) as Hnone.
  { rewrite Hmap, lookup_insert_ne by done. apply lookup_delete_eq. }
  split; [done|]. split; [done|]. intros Hf.
  pose proof (refresh_grant_cases r2 s' w' Hr2) as H2'. unfold refresh_outcome in H2'. rewrite Htok in H2'.
  destruct (HandleToken rw0 r2 (s', w')) as [rw2 [s2 w2]]. destruct H2' as (_ & _ & H2').
  unfold token_copy in H2'. rewrite Hnone, Hbk, Hf in H2'. by destruct H2' as [H2' _].
Qed.
End token.

(** ** From the pending session to the tokens *)
Section flow.
Context `{!Env} `{!NetURL} `{!Unicode} `{!TimeCodec}.

Definition redirect_query (u : URL) (code state : string) : Values :=
  Values_Set "state" state (Values_Set "code" code (ParseQuery (RawQuery u))).
(** A parsed URL whose query is replaced is printed so that it parses back. *)
Definition prints_back (u : URL) (q : Values) : Prop :=
  url_Parse (url_String (set_RawQuery (Values_Encode q) u)) = Some (set_RawQuery (Values_Encode q) u).

Lemma redirect_query_back u code state :
  ParseQuery (Values_Encode (redirect_query u code state)) = redirect_query u code state.
Proof. apply ParseQuery_Encode. by repeat apply values_wf_Set; apply ParseQuery_wf. Qed.

(** [CompleteAuthorization] on a pending session held locally. *)
Lemma CompleteAuthorization_eq sid uid s w sess u b :
  sessions (o_sessions s) !! sid = Some sess ->
  session_expired (clock (w_tick w)) sess = false ->
  rand_read (w_draw w) 16 = Some b -> url_Parse (s_RedirectURI sess) = Some u ->
  exists s1 w1,
    CompleteAuthorization sid uid (s, w) = (Ok (redirect_with u (hex_encode b) (s_State sess)), (s1, w1)) /\
    codes (o_codes s1) = <[hex_encode b := new_code (hex_encode b) uid sess (clock (S (w_tick w)))]> (codes (o_codes s)) /\
    sessions (o_sessions s1) = delete sid (sessions (o_sessions s)) /\
    o_jwtSecret s1 = o_jwtSecret s /\ o_tokens s1 = o_tokens s /\
    w_tick w1 = S (S (w_tick w)) /\ w_draw w1 = S (w_draw w).
Proof.
  intros Hs He Hb Hu. unfold CompleteAuthorization. orun.
  pose proof (SessionStore_Get_eq sid (o_sessions s) w) as Hg. rewrite Hs in Hg.
  destruct (SessionStore_Get sid (o_sessions s, w)) as [res [q w']].
  destruct Hg as (-> & Hbk & Hd & Ht & Hq). simpl. rewrite He. orun. rewrite Hd, Hb. simpl. orun.
  specialize (Ht (ex_intro _ sess eq_refl)).
  eexists _, _. split; [rewrite Hu; reflexivity|]. simpl.
  match goal with |- context [w_tick (through_world ?b1 ?f1 (through_world ?b2 ?f2 ?w2))] =>
    destruct (through_world_quiet b1 f1 (through_world b2 f2 w2)) as [Ht1 Hd1]; [auto with vire|];
    destruct (through_world_quiet b2 f2 w2) as [Ht2 Hd2]; [auto with vire|] end.
  rewrite Ht1, Ht2, Hd1, Hd2, Hq. simpl. rewrite Ht, Hd. done.
Qed.

(** C2. The authorization flow, end to end: completing a pending session for a
    user yields a redirect that parses back to the client's URI with its own
    query parameters, the state of the request and a code; and a token
    request with that code, the session's client and redirect URI and a
    verifier of the session's challenge, made within five minutes, is
    answered with an access token minted for that user with the session's
    client and scope.  The session is gone. *)
Theorem oauth_flow sid uid s w sess u b b2 :
  sessions (o_sessions s) !! sid = Some sess ->
  session_expired (clock (w_tick w)) sess = false ->
  rand_read (w_draw w) 16 = Some b -> rand_read (S (w_draw w)) 16 = Some b2 ->
  url_Parse (s_RedirectURI sess) = Some u ->
  prints_back u (redirect_query u (hex_encode b) (s_State sess)) ->
  clock (S (S (w_tick w))) <= clock (S (w_tick w)) + 5 * Minute ->
  let '(res, (s1, w1)) := CompleteAuthorization sid uid (s, w) in
  sessions (o_sessions s1) !! sid = None /\
  exists url u', res = Ok url /\ url_Parse url = Some u' /\
    Scheme u' = Scheme u /\ UHost u' = UHost u /\ UPath u' = UPath u /\
    let q := ParseQuery (RawQuery u') in
    Values_Get q "state" = s_State sess /\
    (forall k, k ≠ "state" -> k ≠ "code" -> Values_Get q k = Values_Get (ParseQuery (RawQuery u)) k) /\
    forall r, is_code_request r ->
      FormValue r "code" = Values_Get q "code" -> FormValue r "client_id" = s_ClientID sess ->
      FormValue r "redirect_uri" = s_RedirectURI sess ->
      GenerateCodeChallenge (FormValue r "code_verifier") = s_CodeChallenge sess ->
      (HandleToken rw0 r (s1, w1)).1 =
        token_response rw0
          (mintAccessToken (o_jwtSecret s) (clock (S (S (S (w_tick w))))) uid (s_Scope sess)
             (s_ClientID sess) (baseURLFromRequest r)) (uuid_from b2) (s_Scope sess).
Proof.
  intros Hs He Hb Hb2 Hu Hp Hclk.
  destruct (CompleteAuthorization_eq sid uid s w sess u b Hs He Hb Hu)
    as (s1 & w1 & -> & Hcodes & Hsess & Hsec & _ & Ht & Hd).
  split; [by rewrite Hsess, lookup_delete_eq|].
  set (code := hex_encode b) in *. set (qv := redirect_query u code (s_State sess)) in *.
  exists (redirect_with u code (s_State sess)), (set_RawQuery (Values_Encode qv) u).
  split; [done|]. split; [exact Hp|]. do 3 (split; [done|]). cbn [RawQuery set_RawQuery].
  unfold qv. rewrite redirect_query_back. cbv zeta. unfold redirect_query.
  split; [apply Values_Get_Set|]. split.
  { intros k H1' H2'. by rewrite !Values_Get_Set_ne by done. }
  rewrite Values_Get_Set_ne, Values_Get_Set by done.
  intros r Hr Hcode Hcl Hru Hch. pose proof (code_grant_cases r s1 w1 Hr) as Hg.
  destruct (HandleToken rw0 r (s1, w1)) as [rw [s2 w2]]. simpl. unfold code_outcome in Hg.
  unfold live_code_of, code_copy in Hg. rewrite Hcodes, Hcode, lookup_insert_eq in Hg. simpl in Hg.
  rewrite Ht, Hd, Hb2, Hsec in Hg. rewrite orb_false_r in Hg.
  assert (code_expired (clock (S (S (w_tick w)))) (new_code code uid sess (clock (S (w_tick w)))) = false) as Hexp.
  { unfold code_expired, After. apply Z.ltb_ge. exact Hclk. }
  rewrite Hexp in Hg. destruct Hg as [_ Hg]. unfold matches_code in Hg. simpl in Hg.
  rewrite !bool_decide_true in Hg by done. simpl in Hg. by destruct Hg as [-> _].
Qed.
End flow.

(** ** Starting an authorization *)
Section authorize.
Context `{!Env} `{!NetURL} `{!Unicode} `{!TimeCodec}.

Lemma containsString_spec l x : containsString l x = bool_decide (x ∈ l).
Proof.
  induction l as [|y l IH]; simpl; [done|]. destruct (decide (y = x)) as [->|Hy].
  - symmetry. apply bool_decide_true. by left.
  - rewrite IH. apply bool_decide_ext. rewrite elem_of_cons. naive_solver.
Qed.

(** The client a request names: registered here, known to the backend, or
    registered on the fly with the redirect URI of the request. *)
Definition client_copy (id : string) (q : ClientStore) (w : World) : option OAuthClient :=
  match clients q !! id with
  | Some c => Some c
  | None => fetched (cl_backend q) (fun b => GetClient b id) w
  end.
(** The redirect URI test of the code: one of the registered URIs of a known
    client, any URI for an unknown one, which is registered with it. *)
Definition redirect_allowed (id redirectURI : string) (q : ClientStore) (w : World) : bool :=
  match client_copy id q w with Some c => bool_decide (redirectURI ∈ RedirectURIs c) | None => true end.
Definition session_of (sid cid ru st ch cm sc : string) (now : Z) : AuthSession :=
  mkAuthSession sid cid ru st ch cm (if decide (sc = "") then defaultScope else sc) now "".

(** The client [createAuthSession] registers for an unknown client id, and the
    clients after it: an unknown one is registered, one found by the backend
    may be cached. *)
Definition auto_client (id redirectURI : string) (now : Z) : OAuthClient :=
  mkOAuthClient id "" "auto-registered" [redirectURI] ["authorization_code"; "refresh_token"] ["code"] "none" (Unix now).
Definition clients_after (id redirectURI : string) (q : ClientStore) (w : World) (m : gmap string OAuthClient) : Prop :=
  match client_copy id q w with
  | None => exists n, m = <[id := auto_client id redirectURI (clock n)]> (clients q)
  | Some c => m = (match clients q !! id with Some _ => clients q | None => <[ClientID c := c]> (clients q) end)
  end.

Lemma ClientStore_Get_cases id q w :
  let '(r, (q', w')) := ClientStore_Get id (q, w) in
  r = client_copy id q w /\ w_draw w' = w_draw w /\
  clients q' = match clients q !! id, r with None, Some c => <[ClientID c := c]> (clients q) | _, _ => clients q end.
Proof.
  unfold ClientStore_Get, client_copy. mrun. destruct (clients q !! id) as [c|]; [done|].
  mrun. destruct (fetch_world_quiet (cl_backend q) (fun b => GetClient b id) w) as [_ Hd]; [auto with vire|].
  by destruct (fetched _ _ w).
Qed.

(** A session is created exactly when the client is unknown (it is registered
    then) or has the redirect URI registered, and the random source works;
    otherwise the sessions are untouched. *)
Lemma createAuthSession_cases cid ru rt ch cm st sc s w :
  let '(res, (s', w')) := createAuthSession cid ru rt ch cm st sc (s, w) in
  o_codes s' = o_codes s /\ o_tokens s' = o_tokens s /\
  clients_after cid ru (o_clients s) w (clients (o_clients s')) /\
  match res with
  | Ok sid =>
      redirect_allowed cid ru (o_clients s) w = true /\
      (exists b, rand_read (w_draw w) 16 = Some b /\ sid = hex_encode b) /\
      exists n, sessions (o_sessions s') =
        <[sid := session_of sid cid ru st ch cm sc (clock n)]> (sessions (o_sessions s))
  | Err _ =>
      o_sessions s' = o_sessions s /\
      (redirect_allowed cid ru (o_clients s) w = false \/ rand_read (w_draw w) 16 = None)
  end.
Proof.
  unfold createAuthSession. orun. pose proof (ClientStore_Get_cases cid (o_clients s) w) as Hg.
  destruct (ClientStore_Get cid (o_clients s, w)) as [res [q w1]]. destruct Hg as (-> & Hd & Hq).
  unfold redirect_allowed, clients_after.
  destruct (client_copy cid (o_clients s) w) as [c|] eqn:Hcc; orun; rewrite containsString_spec.
  - assert (clients q = match clients (o_clients s) !! cid with
      Some _ => clients (o_clients s) | None => <[ClientID c := c]> (clients (o_clients s)) end) as Hq'
      by (rewrite Hq; by destruct (clients (o_clients s) !! cid)).
    case_bool_decide; simpl; [|by auto 10]. orun. rewrite Hd.
    destruct (rand_read (w_draw w) 16) as [b|]; simpl; [|by auto 10]. orun. simpl. eauto 12.
  - assert (clients q = clients (o_clients s)) as Hq' by (rewrite Hq; by destruct (clients (o_clients s) !! cid)).
    rewrite bool_decide_true by (simpl; by left). simpl. orun.
    match goal with |- context [w_draw (through_world ?b1 ?f1 ?w2)] =>
      destruct (through_world_quiet b1 f1 w2) as [_ Hd1]; [auto with vire|] end.
    rewrite Hd1. simpl. rewrite Hd. unfold auto_client.
    destruct (rand_read (w_draw w) 16) as [b|]; simpl; orun; simpl; rewrite Hq'; eauto 12.
Qed.

(** A complete S256 code request with a usable redirect URI. *)
Definition authorize_params_ok (r : Request) : Prop :=
  FormErr r = false /\ FormValue r "client_id" ≠ "" /\ FormValue r "code_challenge" ≠ "" /\
  FormValue r "state" ≠ "" /\ FormValue r "response_type" = "code" /\
  FormValue r "code_challenge_method" = "S256" /\
  FormValue r "redirect_uri" ≠ "" /\ redirect_ok (FormValue r "redirect_uri") = true.
#[export] Instance authorize_params_ok_dec r : Decision (authorize_params_ok r).
Proof. unfold authorize_params_ok. apply _. Defined.

Lemma refused (o : option string) (P Q C D E : Prop) (B : string -> Prop) `{!Decision P, !Decision Q} :
  ~ P -> C -> D -> (if decide P then E else C) /\ match o with Some b => if decide (P /\ Q) then B b else D | None => D end.
Proof. intros HP HC HD. rewrite decide_False by done. split; [done|]. destruct o; [by rewrite decide_False by tauto|done]. Qed.

(** C28. POST /authorize answers 200 and stores a new pending session, with the
    submitted client, redirect URI, state and S256 challenge (and the default
    scope if none was given), under a fresh random id, exactly when the request
    is complete, its redirect URI has a host, the random source works, and the
    client is either known, here or to vire-server, with that URI among its
    registered ones, or not known at all; otherwise it answers 400 and creates
    no session.  A complete request that names an unknown client registers that
    client with the submitted redirect URI as its only one, so for such a
    client no registration restricts the URI; an incomplete one changes no
    client. *)
Theorem authorize_post_spec r s w :
  Method r = "POST" ->
  let '(rw, (s', w')) := HandleAuthorize rw0 r (s, w) in
  let cid := FormValue r "client_id" in let ru := FormValue r "redirect_uri" in
  (if decide (authorize_params_ok r) then clients_after cid ru (o_clients s) w (clients (o_clients s'))
   else o_clients s' = o_clients s) /\
  match rand_read (w_draw w) 16 with
  | Some b =>
      if decide (authorize_params_ok r /\ redirect_allowed cid ru (o_clients s) w = true) then
        rw_status rw = StatusOK /\
        exists n, sessions (o_sessions s') =
          <[hex_encode b := session_of (hex_encode b) cid ru (FormValue r "state")
              (FormValue r "code_challenge") "S256" (FormValue r "scope") (clock n)]>
            (sessions (o_sessions s))
      else rw_status rw = StatusBadRequest /\ o_sessions s' = o_sessions s
  | None => rw_status rw = StatusBadRequest /\ o_sessions s' = o_sessions s
  end.
Proof.
  intros Hm. unfold HandleAuthorize. rewrite Hm. simpl. unfold handleAuthorizePOST.
  destruct (FormErr r) eqn:Hf; [apply refused; [unfold authorize_params_ok; intuition congruence|done..]|].
  case_decide; [apply refused; [unfold authorize_params_ok; intuition congruence|done..]|].
  destruct (redirect_ok _) eqn:Hok; simpl; [|apply refused; [unfold authorize_params_ok; intuition congruence|done..]].
  case_decide; [apply refused; [unfold authorize_params_ok; intuition congruence|done..]|].
  case_bool_decide as Hrt; simpl; [|apply refused; [unfold authorize_params_ok; intuition congruence|done..]].
  case_bool_decide as Hcm; simpl; [|apply refused; [unfold authorize_params_ok; intuition congruence|done..]].
  assert (authorize_params_ok r) as Hp by (unfold authorize_params_ok; tauto).
  destruct (decide (authorize_params_ok r)) as [_|]; [|done]. rewrite M_bind_unfold.
  match goal with |- context [createAuthSession ?a ?b ?c ?d ?e ?f ?g (s, w)] =>
    pose proof (createAuthSession_cases a b c d e f g s w) as Hc;
    destruct (createAuthSession a b c d e f g (s, w)) as [[sid|e'] [s' w']] end.
  - destruct Hc as (_ & _ & Hcl & Hall & (b & -> & ->) & Hs). cbn -[redirect_allowed].
    split; [done|]. rewrite decide_True by done. by rewrite Hcm in Hs.
  - destruct Hc as (_ & _ & Hcl & Hs & Hno). cbn -[redirect_allowed]. split; [done|].
    destruct Hno as [Hno|Hno]; rewrite Hno; [|done].
    destruct (rand_read _ _); [|done]. by rewrite decide_False by (intros [_ ?]; congruence).
Qed.
End authorize.

(** ** Registration and identifiers *)
Section register.
Context `{!Env} `{!NetURL} `{!Unicode} `{!TimeCodec}.

(** The client a registration creates from a decoded request. *)
Definition registered (req : dcrRequest) (id secret : string) (now : Z) : OAuthClient :=
  mkOAuthClient id secret (d_ClientName req) (d_RedirectURIs req)
    (if_empty (d_GrantTypes req) ["authorization_code"; "refresh_token"])
    (if_empty (d_ResponseTypes req) ["code"])
    (if decide (d_TokenEndpointAuthMethod req = "") then "none" else d_TokenEndpointAuthMethod req) (Unix now).
Definition dcr_of (r : Request) : option dcrRequest :=
  b ← ReqBody r; v ← json_decode b; dec_dcrRequest v.

Lemma dec_strs l : dec_list "" dec_string [] (JStrs l) = Some l.
Proof.
  change (mapM (dec_string "") (JStr <$> l) = Some l).
  apply mapM_Some, Forall2_fmap_l, Forall_Forall2_diag, Forall_forall. done.
Qed.

Lemma dec_client_parts id sec nm ru gt rt am ca lit :
  ParseInt lit = Some ca ->
  dec_client (JObj ([("client_id", JStr id)] ++ omitempty "client_secret" sec ++
        [("client_name", JStr nm); ("redirect_uris", JStrs ru); ("grant_types", JStrs gt);
         ("response_types", JStrs rt); ("token_endpoint_auth_method", JStr am)] ++
        [("client_id_issued_at", JNum lit)])) = Some (mkOAuthClient id sec nm ru gt rt am ca).
Proof.
  intros Hca. pose proof (dec_strs ru) as H1'. pose proof (dec_strs gt) as H2'. pose proof (dec_strs rt) as H3'.
  revert H1' H2' H3'. generalize (JStrs ru), (JStrs gt), (JStrs rt). intros j1 j2 j3 H1' H2' H3'.
  unfold omitempty. destruct (decide (sec = "")) as [->|]; cbv -[dec_list dec_string ParseInt];
    by rewrite ?H1', ?H2', ?H3', ?Hca.
Qed.

Lemma json_nums_strs l : json_nums (JStrs l) = true.
Proof. unfold JStrs. simpl. by induction l. Qed.
Lemma json_utf8_strs l : json_utf8 (JStrs l) = JStrs (to_utf8 <$> l).
Proof.
  unfold JStrs. cbn [json_utf8]. f_equal. induction l as [|x l IH]; [done|].
  rewrite !fmap_cons. by f_equal.
Qed.
(** A client as its document reads. *)
Definition utf8_client (c : OAuthClient) : OAuthClient :=
  mkOAuthClient (to_utf8 (ClientID c)) (to_utf8 (ClientSecret c)) (to_utf8 (ClientName c))
    (to_utf8 <$> RedirectURIs c) (to_utf8 <$> GrantTypes c) (to_utf8 <$> ResponseTypes c)
    (to_utf8 (TokenEndpointAuthMethod c)) (CreatedAt c).
Definition client_strings (c : OAuthClient) : list string :=
  [ClientID c; ClientSecret c; ClientName c; TokenEndpointAuthMethod c] ++
  RedirectURIs c ++ GrantTypes c ++ ResponseTypes c.
Lemma to_utf8_list l : forallb is_utf8 l = true -> to_utf8 <$> l = l.
Proof.
  induction l as [|x l IH]; [done|]. cbn [forallb]. intros Hx. bool_to_prop.
  rewrite fmap_cons, is_utf8_fixed by done. by f_equal; apply IH.
Qed.
Lemma utf8_client_fixed c : forallb is_utf8 (client_strings c) = true -> utf8_client c = c.
Proof.
  destruct c. unfold client_strings. rewrite !forallb_app. cbn -[is_utf8]. intros Hu. bool_to_prop.
  unfold utf8_client. cbn -[to_utf8 fmap]. by rewrite !is_utf8_fixed, !to_utf8_list.
Qed.
Lemma json_nums_client c :
  - 2 ^ 63 <= CreatedAt c < 2 ^ 63 -> json_nums (client_json c) = true.
Proof.
  intros Hca. unfold client_json, omitempty. cbn [json_nums].
  rewrite !forallb_app. cbn -[JStrs JInt]. rewrite !json_nums_strs.
  case_decide; destruct (CreatedAt c =? 0); cbn -[JStrs JInt]; try done; simpl; by rewrite Itoa_int_lit by lia.
Qed.
Lemma client_json_utf8 c : json_utf8 (client_json c) = client_json (utf8_client c).
Proof.
  unfold client_json, omitempty. cbn [json_utf8 utf8_client ClientSecret CreatedAt ClientID ClientName RedirectURIs
    GrantTypes ResponseTypes TokenEndpointAuthMethod]. rewrite !fmap_app, <-!json_utf8_strs.
  f_equal. f_equal. f_equal; [|f_equal; by destruct (CreatedAt c =? 0)].
  destruct (ClientSecret c) as [|a x] eqn:Hs; [done|]. rewrite decide_False by done. rewrite decide_False; [done|].
  by apply to_utf8_ne.
Qed.

Lemma json_depth_strs l : json_depth (JStrs l) = 1.
Proof.
  unfold JStrs. cbn [json_depth].
  assert (foldr (fun x m => Z.max (json_depth x) m) 0 (JStr <$> l) = 0) as ->; [|done].
  induction l as [|x l IH]; [done|]. rewrite fmap_cons. cbn [foldr json_depth]. rewrite IH. done.
Qed.
Lemma json_depth_client c : json_depth (client_json c) <= max_depth.
Proof.
  unfold client_json, omitempty. cbn [json_depth].
  case_decide; destruct (CreatedAt c =? 0); cbn [app foldr json_depth snd fst JInt]; rewrite !json_depth_strs; done.
Qed.

Lemma dec_client_json c :
  - 2 ^ 63 <= CreatedAt c < 2 ^ 63 -> CreatedAt c ≠ 0 -> dec_client (client_json c) = Some c.
Proof.
  intros Hca Hnz. destruct c as [id sec nm ru gt rt am ca]. unfold client_json. simpl in *.
  rewrite (proj2 (Z.eqb_neq ca 0) Hnz). apply dec_client_parts. by apply ParseInt_Itoa.
Qed.

(** C29. Dynamic registration: a POST whose body is a JSON object with at least
    one redirect URI stores a client under a fresh UUID, with a fresh secret,
    exactly the submitted name and redirect URIs and, for what is missing, the
    code's defaults: authentication method "none", response type "code" and the
    grant types authorization_code and refresh_token (RFC 7591 itself has
    client_secret_basic and authorization_code alone).  It answers 201 with the
    client as JSON, which (for a clock after 1970 that fits an int64) decodes to the stored
    client with the bytes of its strings that are not valid UTF-8 replaced, so
    to the stored client itself when they are.  When the random source fails it
    answers 500, any other body 400, any other method 405, and nothing is stored. *)
Theorem register_spec r s w :
  let '(rw, (s', w')) := HandleRegister rw0 r (s, w) in
  if decide (Method r ≠ "POST") then rw_status rw = StatusMethodNotAllowed /\ s' = s else
  match dcr_of r with
  | None => rw_status rw = StatusBadRequest /\ s' = s
  | Some req =>
      if decide (d_RedirectURIs req = []) then rw_status rw = StatusBadRequest /\ s' = s
      else match rand_read (w_draw w) 16, rand_read (S (w_draw w)) 32 with
           | Some b, Some b' =>
               let c := registered req (uuid_from b) (hex_encode b') (clock (w_tick w)) in
               clients (o_clients s') = <[uuid_from b := c]> (clients (o_clients s)) /\
               rw = write_json StatusCreated (client_json c) rw0 /\
               (0 < CreatedAt c < 2 ^ 63 ->
                json_decode (rw_body rw) ≫= dec_client = Some (utf8_client c)) /\
               (forallb is_utf8 (client_strings c) = true -> utf8_client c = c)
           | _, _ => rw_status rw = StatusInternalServerError /\ s' = s
           end
  end.
Proof.
  unfold HandleRegister. destruct (decide (Method r ≠ "POST")) as [Hm|Hm]; case_bool_decide; cbn [negb]; try tauto; [done|].
  fold (dcr_of r). destruct (dcr_of r) as [req|]; [|done].
  destruct (d_RedirectURIs req) as [|x l] eqn:Hru; [done|]. destruct (decide (x :: l = [])); [done|].
  orun. destruct (rand_read (w_draw w) 16) as [b|]; simpl; [|done]. orun. simpl.
  destruct (rand_read (S (w_draw w)) 32) as [b'|]; simpl; [|done]. orun. simpl.
  rewrite <-Hru. fold (registered req (uuid_from b) (hex_encode b') (clock (w_tick w))).
  set (c := registered _ _ _ _). split; [done|]. split; [done|]. split; [|exact (utf8_client_fixed c)]. intros Hca.
  change (rw_body _) with ("" +:+ Encode (client_json c)). rewrite append_nil_l.
  rewrite json_decode_Encode_utf8; [|apply json_nums_client; simpl in *; lia|apply json_depth_client].
  rewrite client_json_utf8. apply dec_client_json; simpl in *; lia.
Qed.
End register.

Lemma version_nibble (a : ascii) :
  hex_digit (ord (chr (Z.lor (Z.land (ord a) 0x0f) 0x40)) / 16) = "4"%char.
Proof. destruct a as [[] [] [] [] [] [] [] []]; reflexivity. Qed.
Lemma variant_nibble (a : ascii) :
  hex_digit (ord (chr (Z.lor (Z.land (ord a) 0x3f) 0x80)) / 16) ∈ ["8"; "9"; "a"; "b"]%char.
Proof. destruct a as [[] [] [] [] [] [] [] []]; apply (bool_decide_unpack _); reflexivity. Qed.

(** Refresh tokens and client ids are version 4 UUIDs: for every sixteen
    random bytes the string is 36 characters long with dashes after 8, 13, 18
    and 23, version digit 4 and a variant digit of 8, 9, a or b. *)
Lemma uuid_v4_format b :
  slen b = 16%nat ->
  let u := uuid_from b in
  slen u = 36%nat /\
  (forall i, i ∈ [8; 13; 18; 23]%nat -> String.get i u = Some "-"%char) /\
  String.get 14 u = Some "4"%char /\
  exists v, String.get 19 u = Some v /\ v ∈ ["8"; "9"; "a"; "b"]%char.
Proof.
  intros Hb.
  destruct b as [|a0 [|a1 [|a2 [|a3 [|a4 [|a5 [|a6 [|a7 [|a8 [|a9 [|a10 [|a11 [|a12 [|a13 [|a14 [|a15 [|]]]]]]]]]]]]]]]]];
    try discriminate Hb.
  cbv zeta. split; [reflexivity|]. split; [|split].
  - intros i Hi. repeat (apply elem_of_cons in Hi as [->|Hi]; [reflexivity|]). by apply not_elem_of_nil in Hi.
  - exact (f_equal Some (version_nibble a6)).
  - eexists. split; [reflexivity|]. exact (variant_nibble a8).
Qed.

(** ** Witnesses *)
Section witnesses.
Import SampleInstances.

Definition form_request (path : string) (form : list (string * string)) : Request :=
  mkRequest "POST" path path "" "portal.test" false ∅ [] false
    (list_to_map ((fun kv => (kv.1, [kv.2])) <$> form)) (Some "").
(** The verifier and challenge of RFC 7636, appendix B. *)
Definition rfc_verifier : string := "dBjftJeZ4CVP-mB92K27uhbUJU1p1r_wW1gFWFOEjXk".
Definition rfc_challenge : string := "E9Melhoa2OwvFrEMTJguCHaoeK1t8URWbuGJSstw-cM".
Example rfc7636_vector : GenerateCodeChallenge rfc_verifier = rfc_challenge.
Proof. vm_compute. reflexivity. Qed.

Definition flow_session : AuthSession :=
  mkAuthSession "s1" "c1" "http://l/cb?a=1" "xyz" rfc_challenge "S256" "openid" (1700000000 * Second) "".
Definition flow_server : OAuthServer :=
  set_o_sessions (mkSessionStore {["s1" := flow_session]} (Some sample_backend))
    (NewOAuthServer "http://portal.test/" "http://vire:8080" "secret").
Definition token_request (code : string) : Request :=
  form_request "/token" [("grant_type", "authorization_code"); ("code", code); ("client_id", "c1");
    ("redirect_uri", "http://l/cb?a=1"); ("code_verifier", rfc_verifier)].

Lemma oauth_flow_witness :
  sessions (o_sessions (CompleteAuthorization "s1" "alice" (flow_server, sample_world)).2.1) !! "s1" = None.
Proof.
  pose proof (oauth_flow "s1" "alice" flow_server sample_world flow_session
    (mkURL "http" "" "" "l" "/cb" "a=1" "") (String.concat "" (repeat (String "000" "") 16))
    (String.concat "" (repeat (String "001" "") 16))) as Hf.
  do 6 (specialize (Hf ltac:(vm_compute; reflexivity))). specialize (Hf ltac:(vm_compute; discriminate)).
  destruct (CompleteAuthorization _ _ _) as [res [s1 w1]]. apply Hf.
Defined.

(** The whole flow, run: 200, and the access token names alice. *)
Example oauth_flow_runs :
  let '(_, st) := CompleteAuthorization "s1" "alice" (flow_server, sample_world) in
  rw_status (HandleToken rw0 (token_request (hex_encode (String.concat "" (repeat (String "000" "") 16)))) st).1 = 200.
Proof. vm_compute. reflexivity. Qed.

Definition code_server : OAuthServer :=
  set_o_codes (mkCodeStore {["k" := mkAuthCode "k" "c1" "alice" "http://l/cb?a=1" rfc_challenge "openid"
    (1700000300 * Second) false]} None) (NewOAuthServer "" "" "secret").
Lemma token_request_ok code : code ≠ "" -> is_code_request (token_request code).
Proof. intros Hc. unfold is_code_request. split_and!; try done; vm_compute; try reflexivity; discriminate. Qed.
Definition refresh_request : Request :=
  form_request "/token" [("grant_type", "refresh_token"); ("refresh_token", "t"); ("client_id", "c1")].
Definition refresh_server : OAuthServer :=
  set_o_tokens (mkTokenStore {["t" := mkRefreshToken "t" "alice" "c1" "openid" (1700000300 * Second)]} None)
    (NewOAuthServer "" "" "secret").
Lemma refresh_request_ok : is_refresh_request refresh_request.
Proof. split_and!; try done; vm_compute; try reflexivity; discriminate. Qed.
Lemma refresh_grant_spec_witness :
  let '(rw, (s', _)) := HandleToken rw0 refresh_request (refresh_server, sample_world) in
  refresh_outcome refresh_request refresh_server sample_world rw s'.
Proof.
  pose proof (refresh_grant_spec refresh_request refresh_server sample_world refresh_request_ok) as Hg.
  destruct (HandleToken _ _ _) as [rw [s' w']]. exact Hg.
Defined.
Lemma refresh_rotation_witness :
  let '(rw, (s', w')) := HandleToken rw0 refresh_request (refresh_server, sample_world) in
  rw_status rw = StatusOK /\ rw_status (HandleToken rw0 refresh_request (s', w')).1 = StatusBadRequest.
Proof.
  pose proof (refresh_rotation refresh_request refresh_request refresh_server sample_world
    (mkRefreshToken "t" "alice" "c1" "openid" (1700000300 * Second))
    (String.concat "" (repeat (String "000" "") 16)) refresh_request_ok refresh_request_ok eq_refl) as Hg.
  cbv zeta in Hg. do 4 (specialize (Hg ltac:(vm_compute; reflexivity))).
  specialize (Hg ltac:(vm_compute; discriminate)).
  destruct (HandleToken rw0 refresh_request (refresh_server, sample_world)) as [rw [s' w']].
  destruct Hg as (Hs & _ & Hr). split; [exact Hs|]. apply Hr. reflexivity.
Defined.

Definition authorize_request : Request :=
  form_request "/authorize" [("client_id", "c1"); ("redirect_uri", "http://l/cb"); ("response_type", "code");
    ("code_challenge", rfc_challenge); ("code_challenge_method", "S256"); ("state", "xyz")].
Lemma authorize_post_spec_witness :
  rw_status (HandleAuthorize rw0 authorize_request (flow_server, sample_world)).1 = StatusOK.
Proof.
  pose proof (authorize_post_spec authorize_request flow_server sample_world eq_refl) as Hg.
  destruct (HandleAuthorize _ _ _) as [rw [s' w']]. cbv zeta in Hg.
  change (rand_read (w_draw sample_world) 16) with (Some (String.concat "" (repeat (String "000" "") 16))) in Hg.
  destruct Hg as [_ Hg]. cbv beta iota in Hg. destruct (decide _) as [_|Hn] in Hg; [apply Hg|].
  destruct Hn. apply (bool_decide_unpack _). vm_compute. reflexivity.
Defined.

Definition register_request : Request :=
  mkRequest "POST" "/register" "/register" "" "portal.test" false ∅ [] false ∅
    (Some (Marshal (JObj [("client_name", JStr "cli"); ("redirect_uris", JStrs ["http://l/cb"])]))).
Lemma register_spec_witness :
  let '(rw, (s', _)) := HandleRegister rw0 register_request (flow_server, sample_world) in
  rw_status rw = StatusCreated /\
  is_Some (clients (o_clients s') !! uuid_from (String.concat "" (repeat (String "000" "") 16))).
Proof.
  pose proof (register_spec register_request flow_server sample_world) as Hg.
  destruct (HandleRegister _ _ _) as [rw [s' w']]. rewrite decide_False in Hg by (intros []; reflexivity).
  replace (dcr_of register_request) with (Some (mkdcrRequest "cli" ["http://l/cb"] [] [] ""))
    in Hg by (vm_compute; reflexivity).
  cbv beta iota in Hg. rewrite decide_False in Hg by discriminate.
  change (rand_read (w_draw sample_world) 16) with (Some (String.concat "" (repeat (String "000" "") 16))) in Hg.
  change (rand_read (S (w_draw sample_world)) 32) with (Some (String.concat "" (repeat (String "001" "") 32))) in Hg.
  destruct Hg as (Hc & -> & _). split; [reflexivity|]. rewrite Hc, lookup_insert_eq. eauto.
Defined.

(** Errors of GET /authorize go to whatever redirect URI the request names: no
    client is registered, and the browser is sent to the given host. *)
Lemma authorize_error_open_redirect :
  let r := mkRequest "GET" "/authorize" "/authorize"
    "client_id=nobody&redirect_uri=https://evil.test/x&response_type=token&code_challenge=c&code_challenge_method=S256&state=s"
    "portal.test" false ∅ [] false ∅ (Some "") in
  let rw := (HandleAuthorize rw0 r (NewOAuthServer "http://portal.test" "" "secret", sample_world)).1 in
  rw_status rw = 302 /\ HasPrefix (Header_Get (rw_header rw) "Location") "https://evil.test/x?" = true.
Proof. vm_compute. auto. Qed.
End witnesses.
