(* ===== verification/TokenRace.v ===== *)
(** * TokenRace: concurrent refresh grants

    [handleRefreshTokenGrant] (internal/auth/token.go) on the shared token store
    (internal/auth/store.go), cut into its atomic actions: the critical sections
    of [TokenStore], the lookup at the backend that [Get] makes without the
    lock, and what is local to the request.  [Delete] and [Put] hold the lock
    while they write through and are one action each. *)
From S2P Require Import Prelude Interleave GoStrings GoCrypto GoJson GoURL GoHTTP OAuthBackend Samples OAuthStores JWT OAuthServer OAuthTheorems.

Module TokenRace.
(** What asks for tokens: a refresh request, or the end of a code grant, which
    issues tokens for the user, scope and client of the code. *)
Inductive grant_request :=
| Refresh (r : Request)
| AfterCode (r : Request) (userID scope clientID : string).
Definition request_of (q : grant_request) : Request := match q with Refresh r | AfterCode r _ _ _ => r end.

Inductive grant_phase :=
| Begun
| Fetching                                  (* [Get] missed; before the backend *)
| Fetched (t : RefreshToken)                (* before caching it locally *)
| Held (t : RefreshToken)                   (* before the expiry check *)
| Valid (t : RefreshToken)                  (* before the rotation *)
| Issuing (t : option RefreshToken)         (* before minting *)
| Minted (t : option RefreshToken) (access : string) (new : RefreshToken)
| Done (w : ResponseWriter).

Inductive token_event :=
| Found (token : string) (t : RefreshToken)  (* copied from the map *)
| Looked (token : string) (t : RefreshToken) (* answered by the backend *)
| Cached (t : RefreshToken)
| Live (r : Request) (t : RefreshToken) (now : Z)
| Revoked (token : string)
| Issued (q : grant_request) (t : option RefreshToken) (new : RefreshToken).

Section race.
Context `{!Env} `{!NetURL} `{!Unicode} `{!TimeCodec}.
Notation MO := (M (OAuthServer * World)).

(** Whom the tokens are for: the presented token's data, or the code's. *)
Definition grantee (q : grant_request) (t : option RefreshToken) : string * string * string :=
  match t, q with
  | Some t, _ => (t_UserID t, t_Scope t, t_ClientID t)
  | None, AfterCode _ u s c => (u, s, c)
  | None, Refresh _ => ("", "", "")
  end.

Definition grant_action (q : grant_request) (p : grant_phase) : MO (grant_phase * list token_event) :=
  let r := request_of q in
  let token := FormValue r "refresh_token" in
  let clientID := FormValue r "client_id" in
  let refused := Done (bad_grant rw0 "refresh token not found or expired") in
  match p with
  | Begun =>
      match q with
      | AfterCode _ _ _ _ => mret (Issuing None, [])
      | Refresh _ =>
          if decide (token = "" \/ clientID = "")
          then mret (Done (writeOAuthError rw0 StatusBadRequest "invalid_request" "missing required parameters"), [])
          else
            hit ← on_tokens (read (fun s => tokens s !! token));
            b ← on_tokens (read to_backend);
            mret (match hit with
                  | Some t => (Held t, [Found token t])
                  | None => match b with Some _ => (Fetching, []) | None => (refused, []) end
                  end)
      end
  | Fetching =>
      b ← on_tokens (read to_backend);
      got ← on_tokens (fetch b (fun b => LookupToken b token));
      mret (match got with Some t => (Fetched t, [Looked token t]) | None => (refused, []) end)
  | Fetched t => on_tokens (store (set_tokens <[Token t := t]>)) ;; mret (Held t, [Cached t])
  | Held t =>
      now ← io time_Now;
      mret (if token_expired now t then (refused, [])
            else if negb (bool_decide (t_ClientID t = clientID)) then (Done (bad_grant rw0 "client_id mismatch"), [])
            else (Valid t, [Live r t now]))
  | Valid t => on_tokens (TokenStore_Delete token) ;; mret (Issuing (Some t), [Revoked token])
  | Issuing t =>
      let '(u, s, c) := grantee q t in
      access ← server_mintAccessToken u s c (baseURLFromRequest r);
      uuid ← io generateUUID;
      match uuid with
      | None => mret (Done (writeOAuthError rw0 StatusInternalServerError "server_error" "failed to generate refresh token"), [])
      | Some uuid => now ← io time_Now; mret (Minted t access (mkRefreshToken uuid u c s (now + 7 * 24 * Hour)), [])
      end
  | Minted t access new =>
      on_tokens (TokenStore_Put new) ;;
      mret (Done (token_response rw0 access (Token new) (t_Scope new)), [Issued q t new])
  | Done w => mret (Done w, [])
  end.

Lemma set_o_tokens_same s : set_o_tokens (o_tokens s) s = s.
Proof. by destruct s. Qed.
(** The small operations on the token store of the server. *)
Lemma tokens_read_bind {A B} (f : TokenStore -> A) (k : A -> MO B) s w :
  (on_tokens (read f) ≫= k) (s, w) = k (f (o_tokens s)) (s, w).
Proof. rewrite on_tokens_bind. cbn. by rewrite set_o_tokens_same. Qed.
Lemma tokens_store_bind {B} f (k : unit -> MO B) s w :
  (on_tokens (store f) ≫= k) (s, w) = k tt (set_o_tokens (f (o_tokens s)) s, w).
Proof. done. Qed.
Lemma tokens_fetch_bind {A B} b (f : OAuthBackend -> M World (result (option A))) (k : option A -> MO B) s w :
  (on_tokens (fetch b f) ≫= k) (s, w) = k (fetched b f w) (s, fetch_world b f w).
Proof. by rewrite on_tokens_bind, fetch_eq, set_o_tokens_same. Qed.
Ltac trun := repeat first
  [rewrite tokens_read_bind | rewrite tokens_store_bind | rewrite tokens_fetch_bind | progress orun].

(** ** Alone, a refresh request does what [handleRefreshTokenGrant] does *)
Fixpoint actions (n : nat) (q : grant_request) (p : grant_phase) : MO grant_phase :=
  match n with O => mret p | S n => x ← grant_action q p; actions n q x.1 end.
Lemma actions_S n q p st : actions (S n) q p st = let '(x, st') := grant_action q p st in actions n q x.1 st'.
Proof. done. Qed.
Lemma actions_done n q w st : actions n q (Done w) st = (Done w, st).
Proof. induction n; [done|]. rewrite actions_S. simpl. done. Qed.

Ltac settle := cbn [mret M_ret fst snd]; trun; rewrite ?actions_done; try reflexivity.
Ltac act := rewrite actions_S; cbn [grant_action request_of]; trun; cbn [mret M_ret fst snd].
Lemma issue_alone r t n s w :
  actions (2 + n) (Refresh r) (Issuing (Some t)) (s, w) =
    let '(rw, st) := issue_tokens rw0 r (t_UserID t) (t_Scope t) (t_ClientID t) (s, w) in (Done rw, st).
Proof.
  change (2 + n)%nat with (S (S n)). act. unfold issue_tokens, server_mintAccessToken. cbn [grantee]. orun.
  destruct (rand_read _ 16); cbn [fmap option_fmap option_map]; orun; settle. act. settle.
Qed.
Lemma held_alone r t n s w :
  actions (4 + n) (Refresh r) (Held t) (s, w) =
    let '(res, (q, w')) := if_live token_expired t (o_tokens s, w) in
    let '(rw, st) := match res with
      | None => (bad_grant rw0 "refresh token not found or expired", (set_o_tokens q s, w'))
      | Some t =>
          (if negb (bool_decide (t_ClientID t = FormValue r "client_id")) then mret (bad_grant rw0 "client_id mismatch")
           else on_tokens (TokenStore_Delete (FormValue r "refresh_token")) ;;
                issue_tokens rw0 r (t_UserID t) (t_Scope t) (t_ClientID t)) (set_o_tokens q s, w')
      end in (Done rw, st).
Proof.
  change (4 + n)%nat with (S (S (2 + n))). act. rewrite if_live_eq. rewrite set_o_tokens_same.
  destruct (token_expired _ t); [settle|]. destruct (negb _); [settle|]. settle. act. by rewrite issue_alone.
Qed.

(** A refresh request that nobody disturbs is finished after at most seven
    actions, with the answer, the stores and the world of
    [handleRefreshTokenGrant]. *)
Lemma grant_alone r s w :
  actions 7 (Refresh r) Begun (s, w) =
    let '(rw, st) := handleRefreshTokenGrant rw0 r (s, w) in (Done rw, st).
Proof.
  act. unfold handleRefreshTokenGrant. destruct (decide _); [settle|]. settle. unfold TokenStore_Get. mrun.
  destruct (tokens (o_tokens s) !! FormValue r "refresh_token") as [t|]; settle.
  - rewrite (held_alone r t 2). rewrite !if_live_eq. by destruct (token_expired _ _).
  - destruct (to_backend (o_tokens s)) as [b|] eqn:Hb; [|cbn [fetched fetch_world]; settle; by rewrite set_o_tokens_same].
    settle. act. rewrite Hb. destruct (fetched (Some b) _ w) as [t|]; settle; [|by rewrite set_o_tokens_same].
    act. rewrite (held_alone r t 0). rewrite !if_live_eq. by destruct (token_expired _ _).
Qed.

(** ** Interleavings

    Clean-ups remove tokens; the clock, vire-server and the other stores move
    on their own. *)
Definition elsewhere (x y : OAuthServer * World) : Prop :=
  tokens (o_tokens y.1) ⊆ tokens (o_tokens x.1) /\ to_backend (o_tokens y.1) = to_backend (o_tokens x.1).
Notation grants := (threads (OAuthServer * World) grant_request grant_phase token_event).
Notation tstep := (istep grant_action Begun elsewhere).

Section invariant.
Context (q0 : TokenStore).
(** The entry [t] under [k]: there from the start, cached after the backend
    answered it, or issued by the portal, and not revoked since. *)
Definition origin (tr : list token_event) (k : string) (t : RefreshToken) : Prop :=
  (tokens q0 !! k = Some t /\ Revoked k ∉ tr) \/
  (exists tr1 tr2 ev, tr = tr1 ++ ev :: tr2 /\ k = Token t /\ Revoked k ∉ tr2 /\
    ((exists k', ev = Cached t /\ Looked k' t ∈ tr1) \/ (exists q t0, ev = Issued q t0 t))).
(** [t] was presented by [r], alive and by its client. *)
Definition known (tr : list token_event) (r : Request) (t : RefreshToken) : Prop :=
  Found (FormValue r "refresh_token") t ∈ tr \/ Looked (FormValue r "refresh_token") t ∈ tr.
Definition admitted (tr : list token_event) (r : Request) (t : RefreshToken) : Prop :=
  known tr r t /\ t_ClientID t = FormValue r "client_id" /\ exists now, Live r t now ∈ tr /\ now <= t_ExpiresAt t.
Definition entitled (tr : list token_event) (q : grant_request) (t : option RefreshToken) : Prop :=
  match t, q with
  | Some t, Refresh r => admitted tr r t /\ Revoked (FormValue r "refresh_token") ∈ tr
  | None, AfterCode _ _ _ _ => True
  | _, _ => False
  end.
Definition carries (new : RefreshToken) (g : string * string * string) : Prop :=
  (t_UserID new, t_Scope new, t_ClientID new) = g.

Definition store_ok (tr : list token_event) (x : OAuthServer * World) : Prop :=
  to_backend (o_tokens x.1) = to_backend q0 /\
  (forall k t, tokens (o_tokens x.1) !! k = Some t -> origin tr k t).
Definition phase_ok (tr : list token_event) (q : grant_request) (p : grant_phase) : Prop :=
  match p with
  | Fetching => exists r, q = Refresh r
  | Fetched t => exists r, q = Refresh r /\ Looked (FormValue r "refresh_token") t ∈ tr
  | Held t => exists r, q = Refresh r /\ known tr r t
  | Valid t => exists r, q = Refresh r /\ admitted tr r t
  | Issuing t => entitled tr q t
  | Minted t _ new => entitled tr q t /\ carries new (grantee q t)
  | _ => True
  end.
Definition event_ok (tr : list token_event) (ev : token_event) : Prop :=
  match ev with
  | Found k t => origin tr k t
  | Looked _ _ => to_backend q0 ≠ None
  | Issued q t new => entitled tr q t /\ carries new (grantee q t)
  | _ => True
  end.

Lemma origin_app tr k t ev : ev ≠ Revoked k -> origin tr k t -> origin (tr ++ [ev]) k t.
Proof.
  intros Hne [[Hm Hn]|(tr1 & tr2 & e & -> & Hk & Hn & Ho)]; [left|right].
  - split; [done|]. intros [?|?%list_elem_of_singleton]%elem_of_app; congruence.
  - exists tr1, (tr2 ++ [ev]), e. rewrite <-(assoc_L (++)). split_and!; try done.
    intros [?|?%list_elem_of_singleton]%elem_of_app; congruence.
Qed.
Lemma admitted_app tr ev r t : admitted tr r t -> admitted (tr ++ [ev]) r t.
Proof. intros ([?|?] & ? & now & ? & ?); (split; [|split; [done|]]); [left|..|right|]; try set_solver; exists now; set_solver. Qed.
Lemma entitled_app tr ev q t : entitled tr q t -> entitled (tr ++ [ev]) q t.
Proof. destruct t, q; simpl; try done. intros [Ha Hr]. split; [by apply admitted_app|set_solver]. Qed.
Lemma grant_phase_app tr ev q p : phase_ok tr q p -> phase_ok (tr ++ [ev]) q p.
Proof.
  destruct p; simpl; try done.
  - intros (r & -> & ?). exists r. set_solver.
  - intros (r & -> & [?|?]); exists r; (split; [done|]); [left|right]; set_solver.
  - intros (r & -> & ?). exists r. split; [done|by apply admitted_app].
  - apply entitled_app.
  - intros [? ?]. split; [by apply entitled_app|done].
Qed.
Notation kept := (act_ok store_ok phase_ok event_ok).

(** An action that leaves the map alone, or forgets some of it. *)
Lemma token_quiet tr q s w w' p : store_ok tr (s, w) -> phase_ok tr q p -> kept tr q ((p, []), (s, w')).
Proof. intros Hs Hp. by apply act_quiet. Qed.
Lemma token_noted tr q s w w' p ev :
  store_ok tr (s, w) -> (forall k, ev ≠ Revoked k) -> event_ok tr ev -> phase_ok (tr ++ [ev]) q p ->
  kept tr q ((p, [ev]), (s, w')).
Proof.
  intros [Hb Hm] Hne He Hp. apply act_noted; [|done..]. split; [done|]. intros k t Hk. apply origin_app; [done|by apply Hm].
Qed.
(** An action that puts a token whose origin is the event. *)
Lemma put_ok tr q s w w' p ev t :
  store_ok tr (s, w) -> (forall k, ev ≠ Revoked k) -> event_ok tr ev -> phase_ok (tr ++ [ev]) q p ->
  ((exists k, ev = Cached t /\ Looked k t ∈ tr) \/ (exists q t0, ev = Issued q t0 t)) ->
  kept tr q ((p, [ev]), (set_o_tokens (set_tokens <[Token t := t]> (o_tokens s)) s, w')).
Proof.
  intros [Hb Hm] Hne He Hp Ho. apply act_noted; [|done..]. split; [done|]. intros k t' Hk. simpl in Hk.
  destruct (decide (k = Token t)) as [->|Hkt].
  - rewrite lookup_insert_eq in Hk. injection Hk as <-. right. exists tr, [], ev. split_and!; [done|done|set_solver|].
    destruct Ho as [(k & ? & ?)|?]; [left; by exists k|by right].
  - rewrite lookup_insert_ne in Hk by done. apply origin_app; [done|by apply Hm].
Qed.
Lemma revoked_ok tr q s w w' p tok :
  store_ok tr (s, w) -> phase_ok (tr ++ [Revoked tok]) q p ->
  kept tr q ((p, [Revoked tok]), (set_o_tokens (set_tokens (delete tok) (o_tokens s)) s, w')).
Proof.
  intros [Hb Hm] Hp. apply act_noted; [|done..]. split; [done|]. intros k t Hk. simpl in Hk. apply lookup_delete_Some in Hk as [Hne Hk].
   apply origin_app; [congruence|by apply Hm].
Qed.

Lemma grant_action_ok tr q p s w :
  store_ok tr (s, w) -> phase_ok tr q p -> kept tr q (grant_action q p (s, w)).
Proof.
  intros Hs Hp. destruct p as [| |t|t|t|t|t access new|rw]; cbn [grant_action]; trun.
  - destruct q as [r|r u sc cl]; cbn [request_of]; [|by apply (token_quiet tr _ s w)].
    destruct (decide _); [by apply (token_quiet tr _ s w)|]. trun.
    destruct (tokens (o_tokens s) !! _) as [t|] eqn:Hl.
    + apply (token_noted tr _ s w); [done|done|by apply Hs|]. exists r. split; [done|]. left. set_solver.
    + destruct (to_backend (o_tokens s)); apply (token_quiet tr _ s w); try done. by exists r.
  - destruct Hp as [r ->]. cbn [request_of]. pose proof Hs as [Hb _]. cbn [fst] in Hb.
    destruct (fetched _ _ w) as [t|] eqn:Hf; [|by apply (token_quiet tr _ s w)].
    apply (token_noted tr _ s w); [done|done| |exists r; split; [done|set_solver]].
    simpl. rewrite <-Hb. by destruct (to_backend (o_tokens s)).
  - destruct Hp as (r & -> & Hl). apply (put_ok tr _ s w); [done|done|done| |left; by eexists].
    exists r. split; [done|]. right. set_solver.
  - destruct Hp as (r & -> & Hk). cbn [request_of]. destruct (token_expired _ t) eqn:He; [by apply (token_quiet tr _ s w)|].
    case_bool_decide as Hc; simpl; [|by apply (token_quiet tr _ s w)].
    apply (token_noted tr _ s w); [done|done|done|]. exists r. split; [done|].
    unfold token_expired, After in He. apply Z.ltb_ge in He.
    split; [destruct Hk; [left|right]; set_solver|]. split; [done|]. eexists. split; [|exact He]. set_solver.
  - destruct Hp as (r & -> & Ha). cbn [request_of]. apply (revoked_ok tr _ s w); [done|].
    split; [by apply admitted_app|set_solver].
  - unfold server_mintAccessToken. destruct (grantee q t) as [[u sc] cl] eqn:Hg. trun.
    destruct (rand_read _ 16); cbn [fmap option_fmap option_map]; trun; [|by apply (token_quiet tr _ s w)].
    apply (token_quiet tr _ s w); [done|]. split; [done|]. by rewrite Hg.
  - apply (put_ok tr _ s w); [done|done|done|done|right; by eexists _, _].
  - by apply (token_quiet tr _ s w).
Qed.
End invariant.

Lemma grants_ok s w (x : grants) :
  rtc tstep (start (s, w)) x -> threads_ok (store_ok (o_tokens s)) (phase_ok) (event_ok (o_tokens s)) x.
Proof.
  apply (reachable_ok grant_action Begun elsewhere).
  - apply grant_phase_app.
  - done.
  - intros tr [s1 w1] [s2 w2] [Hsub Hb] [Hb1 Hm]. simpl in *. split; [simpl; congruence|].
    intros k t Hk. apply Hm. by eapply lookup_weaken.
  - intros tr q p [s1 w1]. apply grant_action_ok.
  - split; [done|]. intros k t Hk. left. split; [done|]. by intros ?%not_elem_of_nil.
Qed.

(** C5. Refreshing under concurrency: however the refresh grants, code grants and
    clean-ups of the token store interleave, tokens issued for a refresh token
    are for the user, client and scope that token was issued to, on behalf of a
    request that presented it with its client id while it had not expired, and
    the presented token has been revoked before.  The request read it from the
    store when it had not been revoked since it was put there, or the backend
    answered it; without a backend, a request that reads the store after the
    revocation is therefore never served. *)
Theorem refresh_race s w (x : grants) tr q t new tr' :
  rtc tstep (start (s, w)) x -> th_trace x = tr ++ Issued q (Some t) new :: tr' ->
  exists r, q = Refresh r /\
    let tok := FormValue r "refresh_token" in
    (t_UserID new, t_Scope new, t_ClientID new) = (t_UserID t, t_Scope t, t_ClientID t) /\
    t_ClientID t = FormValue r "client_id" /\ (exists now, Live r t now ∈ tr /\ now <= t_ExpiresAt t) /\
    Revoked tok ∈ tr /\
    ((exists tr1 tr2, tr = tr1 ++ Found tok t :: tr2 /\ origin (o_tokens s) tr1 tok t) \/
     (to_backend (o_tokens s) ≠ None /\ Looked tok t ∈ tr)).
Proof.
  intros Hr E. destruct (grants_ok s w x Hr) as [_ _ Hv]. destruct (Hv tr _ tr' E) as [He Hc].
  destruct q as [r|]; [|done]. exists r. split; [done|]. destruct He as [([Hf|Hl] & Hcl & Hlive) Hrev].
  - split_and!; try done. left. apply list_elem_of_split in Hf as (tr1 & tr2 & ->). exists tr1, tr2. split; [done|].
    rewrite <-(assoc_L (++)), <-app_comm_cons in E. apply (Hv tr1 _ _ E).
  - split_and!; try done. right. split; [|done]. apply list_elem_of_split in Hl as (tr1 & tr2 & ->).
    rewrite <-(assoc_L (++)), <-app_comm_cons in E. apply (Hv tr1 _ _ E).
Qed.
End race.

Section witnesses.
Import SampleInstances.
Notation grants := (threads (OAuthServer * World) grant_request grant_phase token_event).
Notation turns := (run grant_action Begun).
(** How a request was answered, and the tokens a trace issues for the token [k]. *)
Definition status_of (t : nat) (x : grants) : option Z :=
  match th_threads x !! t with Some (_, Done w) => Some (rw_status w) | _ => None end.
Definition issued_for (k : string) (tr : list token_event) : list RefreshToken :=
  omap (fun ev => match ev with
    | Issued _ (Some t) new => if decide (Token t = k) then Some new else None | _ => None end) tr.

(** Two requests that present one refresh token can both be served: both read
    it before either has revoked it. *)
Definition both_served : grants :=
  turns [Arrive 1 (Refresh refresh_request); Act 1; Act 1; Arrive 2 (Refresh refresh_request); Act 2; Act 2;
         Act 1; Act 1; Act 1; Act 2; Act 2; Act 2] (start (refresh_server, sample_world)).
Lemma refresh_double_redemption :
  status_of 1 both_served = Some 200 /\ status_of 2 both_served = Some 200 /\
  length (issued_for "t" (th_trace both_served)) = 2%nat /\ NoDup (Token <$> issued_for "t" (th_trace both_served)).
Proof. split_and!; [vm_compute; reflexivity..|]. apply (bool_decide_unpack _). vm_compute. reflexivity. Qed.

(** A portal restarted on a vire-server that knows the token. *)
Definition restarted : OAuthServer :=
  set_o_tokens (mkTokenStore ∅ (Some sample_backend)) (NewOAuthServer "" "http://vire:8080" "secret").
Definition stocked_world : World :=
  (TokenStore_Put (mkRefreshToken "t" "alice" "c1" "openid" (1700000300 * Second))
     (mkTokenStore ∅ (Some sample_backend), sample_world)).2.2.
Definition wrong_client : Request :=
  form_request "/token" [("grant_type", "refresh_token"); ("refresh_token", "t"); ("client_id", "other")].
(** A revoked token comes back: the lookup of a request of another client was
    answered before the revocation and is cached after it.  When the rotation is
    complete and the backend no longer knows the token, a new request presents
    it and is served. *)
Definition token_returns : grants :=
  turns [Arrive 1 (Refresh wrong_client); Act 1; Act 1;
         Arrive 2 (Refresh refresh_request); Act 2; Act 2; Act 2; Act 2; Act 2; Act 2; Act 2;
         Act 1; Act 1] (start (restarted, stocked_world)).
Lemma revoked_token_returns :
  let later := turns [Arrive 3 (Refresh refresh_request); Act 3; Act 3; Act 3; Act 3; Act 3] token_returns in
  status_of 2 token_returns = Some 200 /\ status_of 1 token_returns = Some 400 /\
  fetched (Some sample_backend) (fun b => LookupToken b "t") (th_state token_returns).2 = None /\
  status_of 3 later = Some 200.
Proof. split_and!; vm_compute; reflexivity. Qed.

Lemma both_served_steps : rtc (istep grant_action Begun elsewhere) (start (refresh_server, sample_world)) both_served.
Proof. apply run_steps. Qed.
Definition first_issue (tr : list token_event) : option (list token_event * grant_request * RefreshToken * RefreshToken * list token_event) :=
  (fix go (a l : list token_event) := match l with
    | Issued q (Some t) new :: l => Some (rev a, q, t, new, l)
    | ev :: l => go (ev :: a) l
    | [] => None end) [] tr.
Lemma first_issue_split tr a q t new b :
  first_issue tr = Some (a, q, t, new, b) -> tr = a ++ Issued q (Some t) new :: b.
Proof.
  unfold first_issue. change tr with (rev [] ++ tr) at 2. generalize (@nil token_event) as acc.
  induction tr as [|ev tr IH]; intros acc; [done|]. intros E.
  assert (rev acc ++ ev :: tr = rev (ev :: acc) ++ tr) as Es by (simpl; by rewrite <-(assoc_L (++))).
  destruct ev as [| | | | |q' [t'|] new']; try (rewrite Es; by apply IH). by injection E as <- <- <- <- <-.
Qed.
Lemma refresh_race_witness :
  exists r t new, t_UserID t = "alice" /\ t_ClientID t = FormValue r "client_id" /\ t_UserID new = t_UserID t.
Proof.
  assert ((fun z => t_UserID z.1.1.2) <$> first_issue (th_trace both_served) = Some "alice") as Hu by (vm_compute; reflexivity).
  destruct (first_issue (th_trace both_served)) as [[[[[a q] t] new] b]|] eqn:E; [|discriminate Hu].
  destruct (refresh_race refresh_server sample_world both_served a q t new b both_served_steps (first_issue_split _ _ _ _ _ _ E))
    as (r & _ & Hg & Hc & _). exists r, t, new. injection Hu as Hu. injection Hg as Hn _ _. split; [exact Hu|]. split; [exact Hc|exact Hn].
Defined.
End witnesses.
End TokenRace.
