(* ===== verification/AuthHandlers.v ===== *)
(** * AuthHandlers: browser login (internal/handlers/auth.go).

    The handlers run on the state of an [OAuthCompleter], the interface through
    which they finish a pending MCP authorization, and the world. *)
From S2P Require Import Prelude GoStrings GoCrypto GoJson GoURL GoHTTP OAuthBackend Samples OAuthStores JWT OAuthServer OAuthTheorems.

(** ** The interface [OAuthCompleter] *)
Class OAuthCompleter `{!Env} (S : Type) :=
  complete_authorization : string -> string -> M (S * World) (result string).
#[export] Instance OAuthServer_completer `{!Env} `{!NetURL} `{!Unicode} `{!TimeCodec} : OAuthCompleter OAuthServer :=
  CompleteAuthorization.

Record AuthHandler := mkAuthHandler {
  h_devMode : bool;
  h_apiURL : string;
  h_callbackURL : string;
  h_jwtSecret : string;
  h_oauthServer : bool;        (* SetOAuthServer was called *)
}.
Definition NewAuthHandler (devMode : bool) (apiURL callbackURL jwtSecret : string) : AuthHandler :=
  mkAuthHandler devMode apiURL callbackURL jwtSecret false.
Definition SetOAuthServer (h : AuthHandler) : AuthHandler :=
  mkAuthHandler (h_devMode h) (h_apiURL h) (h_callbackURL h) (h_jwtSecret h) true.

Section handlers.
Context `{!Env} `{!NetURL} `{!Unicode}.

(** [IsLoggedIn]: the test header first, then the session cookie. *)
Definition IsLoggedIn (r : Request) (secret : string) : M World (option JWTClaims) :=
  let testToken := get_header r "X-Test-Session" in
  now ← time_Now;
  match (if decide (testToken = "") then None else result_option (ValidateJWT testToken secret now)) with
  | Some claims => mret (Some claims)
  | None =>
      let cookie := CookieValue r "vire_session" in
      if decide (cookie = "") then mret None
      else now ← time_Now; mret (result_option (ValidateJWT cookie secret now))
  end.

Context {S : Type} `{!OAuthCompleter S}.
Notation MS := (M (S * World)).

Definition error_redirect (w : ResponseWriter) (r : Request) (reason : string) : ResponseWriter :=
  Redirect w r ("/error?reason=" +:+ reason) StatusFound.
Definition vire_session_cookie (token : string) : SetCookie :=
  mkSetCookie "vire_session" token "/" 0 true SameSiteLax.
Definition clear_cookie (name : string) : SetCookie :=
  mkSetCookie name "" "/" (-1) true SameSiteLax.

(** [extractJWTSubFromToken] *)
Definition extractJWTSubFromToken (token : string) : string := extractJWTSub token.

(** [tryCompleteMCPSession]: the writer after it, and the redirect URL when the
    MCP flow answered the request, "" otherwise. *)
Definition tryCompleteMCPSession (h : AuthHandler) (w : ResponseWriter) (r : Request) (token : string)
    : MS (ResponseWriter * string) :=
  if negb (h_oauthServer h) then mret (w, "")
  else
    let mcpCookie := CookieValue r "mcp_session_id" in
    if decide (mcpCookie = "") then mret (w, "")
    else
      let sub := extractJWTSubFromToken token in
      if decide (sub = "") then mret (w, "")
      else
        res ← complete_authorization mcpCookie sub;
        mret (match res with
              | Err _ => (w, "")
              | Ok redirectURL =>
                  (Redirect (set_cookie (clear_cookie "mcp_session_id") w) r redirectURL StatusFound, redirectURL)
              end).
(** The common end of a login: the MCP redirect, or the session cookie. *)
Definition finish_login (h : AuthHandler) (w : ResponseWriter) (r : Request) (token : string)
    : MS ResponseWriter :=
  mcp ← tryCompleteMCPSession h w r token;
  mret (if decide (mcp.2 = "")
        then Redirect (set_cookie (vire_session_cookie token) mcp.1) r "/dashboard" StatusFound
        else mcp.1).

(** The answer of POST /api/auth/login: [data.token]. *)
Definition dec_token_data : decoder string := fun old v =>
  match v with
  | JObj l => dec_field "token" dec_string old l
  | JNull => Some old
  | _ => None
  end.
Definition dec_login (v : json) : option string :=
  l ← dec_struct v;
  _ ← dec_field "status" dec_string "" l;
  dec_field "data" dec_token_data "" l.
Definition post_login (h : AuthHandler) (username password : string) : M World (result HTTPResponse) :=
  match NewRequest "POST" (h_apiURL h +:+ "/api/auth/login")
          (Some (Marshal (JStrMap [("username", username); ("password", password)]))) with
  | None => mret (Err "parse")
  | Some q => client_Do (req_set "Content-Type" "application/json" q)
  end.
(** A login attempt: the token, or what the handlers report. *)
Inductive login_failure := BadForm | MissingCredentials | Unavailable | ReadFailed | Rejected | BadAnswer.
Definition try_login (h : AuthHandler) (r : Request) : M World (login_failure + string) :=
  if FormErr r then mret (inl BadForm)
  else
    let username := TrimSpace (FormValue r "username") in
    let password := FormValue r "password" in
    if decide (username = "" \/ password = "") then mret (inl MissingCredentials)
    else
      resp ← post_login h username password;
      mret (match resp with
            | Err _ => inl Unavailable
            | Ok resp =>
                match ReadLimited (2 ^ 20) resp with
                | Err _ => inl ReadFailed
                | Ok body =>
                    if negb (hr_status resp =? StatusOK) then inl Rejected
                    else match json_parse body ≫= dec_login with
                         | None => inl BadAnswer
                         | Some token => if decide (token = "") then inl BadAnswer else inr token
                         end
                end
            end).

Definition HandleLogin (h : AuthHandler) (w : ResponseWriter) (r : Request) : MS ResponseWriter :=
  res ← io (try_login h r);
  match res with
  | inl BadForm => mret (error_redirect w r "bad_request")
  | inl MissingCredentials => mret (error_redirect w r "missing_credentials")
  | inl Unavailable => mret (error_redirect w r "server_unavailable")
  | inl ReadFailed => mret (error_redirect w r "auth_failed")
  | inl Rejected => mret (error_redirect w r "invalid_credentials")
  | inl BadAnswer => mret (error_redirect w r "auth_failed")
  | inr token => finish_login h w r token
  end.

(** Error bodies of the test endpoint: the JSON text of one error member. *)
Definition test_error (w : ResponseWriter) (e : string) (code : Z) : ResponseWriter :=
  http_Error w (Marshal (JObj [("error", JStr e)])) code.
Definition HandleTestLogin (h : AuthHandler) (w : ResponseWriter) (r : Request) : MS ResponseWriter :=
  if negb (h_devMode h) then mret (http_Error w "Not available in production" StatusForbidden)
  else
    res ← io (try_login h r);
    mret (match res with
          | inl BadForm => test_error w "bad_request" StatusBadRequest
          | inl MissingCredentials => test_error w "missing_credentials" StatusBadRequest
          | inl Unavailable => test_error w "server_unavailable" StatusServiceUnavailable
          | inl ReadFailed => test_error w "read_failed" StatusInternalServerError
          | inl Rejected => test_error w "invalid_credentials" StatusUnauthorized
          | inl BadAnswer => test_error w "invalid_response" StatusInternalServerError
          | inr token =>
              Write (Encode (JStrMap [("status", "ok"); ("token", token);
                ("message", "Use this token in X-Test-Session header or set as vire_session cookie")]))
                (rw_set "Content-Type" "application/json" w)
          end).

(** ** Provider logins *)
(** A GET to vire-server under the portal's public host, redirects not followed. *)
Definition provider_request (h : AuthHandler) (url : string) : option HTTPRequest :=
  q ← NewRequest "GET" url None;
  let host := if decide (h_callbackURL h = "") then ""
              else match url_Parse (h_callbackURL h) with Some u => UHost u | None => "" end in
  Some (mkHTTPRequest (hq_method q) (hq_url q) (hq_header q) (hq_body q) host false).
Definition proxyOAuthRedirect (h : AuthHandler) (w : ResponseWriter) (r : Request) (provider : string)
    : MS ResponseWriter :=
  let serverURL := h_apiURL h +:+ "/api/auth/login/" +:+ provider +:+ "?callback=" +:+ QueryEscape (h_callbackURL h) in
  match provider_request h serverURL with
  | None => mret (error_redirect w r "auth_failed")
  | Some q =>
      resp ← io (client_Do q);
      mret (match resp with
            | Err _ => error_redirect w r "auth_unavailable"
            | Ok resp =>
                let location := Header_Get (hr_header resp) "Location" in
                if decide (location = "") then error_redirect w r "auth_failed"
                else Redirect w r location StatusFound
            end)
  end.
Definition HandleGoogleLogin (h : AuthHandler) (w : ResponseWriter) (r : Request) : MS ResponseWriter :=
  proxyOAuthRedirect h w r "google".
Definition HandleGitHubLogin (h : AuthHandler) (w : ResponseWriter) (r : Request) : MS ResponseWriter :=
  proxyOAuthRedirect h w r "github".

Definition proxyOAuthCallback (h : AuthHandler) (w : ResponseWriter) (r : Request) : MS ResponseWriter :=
  let targetURL := h_apiURL h +:+ Path r +:+ (if decide (RawQ r = "") then "" else "?" +:+ RawQ r) in
  match provider_request h targetURL with
  | None => mret (error_redirect w r "auth_failed")
  | Some q =>
      resp ← io (client_Do q);
      mret (match resp with
            | Err _ => error_redirect w r "auth_unavailable"
            | Ok resp => Write (hr_body resp) (WriteHeader (hr_status resp) (rw_add_all (hr_header resp) w))
            end)
  end.
Definition HandleGoogleCallback (h : AuthHandler) (w : ResponseWriter) (r : Request) : MS ResponseWriter :=
  proxyOAuthCallback h w r.
Definition HandleGitHubCallback (h : AuthHandler) (w : ResponseWriter) (r : Request) : MS ResponseWriter :=
  proxyOAuthCallback h w r.

Definition HandleOAuthCallback (h : AuthHandler) (w : ResponseWriter) (r : Request) : MS ResponseWriter :=
  let token := Values_Get (Query r) "token" in
  if decide (token = "") then mret (error_redirect w r "auth_failed")
  else finish_login h w r token.

Definition HandleLogout (w : ResponseWriter) (r : Request) : ResponseWriter :=
  Redirect (set_cookie (clear_cookie "vire_session") w) r "/" StatusFound.
End handlers.

(** ** Theorems *)
Section theorems.
Context `{!Env} `{!NetURL} `{!Unicode}.

(** A request is logged in exactly when its X-Test-Session header, or failing
    that its vire_session cookie, is a token that [ValidateJWT] accepts; the
    claims are those of that token. *)
Lemma IsLoggedIn_spec r secret w :
  let test := get_header r "X-Test-Session" in
  let cookie := CookieValue r "vire_session" in
  let now := clock (w_tick w) in
  (IsLoggedIn r secret w).1 =
    match ValidateJWT test secret now with
    | Ok claims => Some claims
    | Err _ => result_option (ValidateJWT cookie secret (clock (S (w_tick w))))
    end.
Proof.
  assert (forall now, result_option (ValidateJWT "" secret now) = None) as He by done.
  intros test cookie now. unfold IsLoggedIn. rewrite M_bind_unfold. cbn [time_Now]. fold test now cookie.
  destruct (decide (test = "")) as [->|Ht].
  - specialize (He now) as Hn. destruct (ValidateJWT "" secret now); [done|].
    destruct (decide (cookie = "")) as [->|]; [by rewrite He|done].
  - destruct (ValidateJWT test secret now); simpl; [done|].
    destruct (decide (cookie = "")) as [->|]; [by rewrite He|done].
Qed.

(** Checking the session reads the clock and nothing else. *)
Lemma IsLoggedIn_srv r secret w : w_srv (IsLoggedIn r secret w).2 = w_srv w.
Proof.
  unfold IsLoggedIn. rewrite M_bind_unfold. cbn [time_Now].
  destruct (if decide _ then _ else _); [done|]. by destruct (decide _).
Qed.

Context {S : Type} `{!OAuthCompleter S}.

Lemma io_bind {A B} (m : M World A) (k : A -> M (S * World) B) s w :
  (io m ≫= k) (s, w) = k (m w).1 (s, (m w).2).
Proof. rewrite M_bind_unfold. unfold io, zoom. simpl. by destruct (m w). Qed.

Definition login_reason (f : login_failure) : string :=
  match f with
  | BadForm => "bad_request" | MissingCredentials => "missing_credentials"
  | Unavailable => "server_unavailable" | ReadFailed => "auth_failed"
  | Rejected => "invalid_credentials" | BadAnswer => "auth_failed"
  end.

(** Password login: a failed attempt, whatever the cause, redirects to the
    error page with its reason, sets no cookie and leaves the authorization
    server alone; a successful one without a pending MCP session sets the
    session cookie to the token vire-server issued and goes to the dashboard. *)
Lemma HandleLogin_spec h r (s : S) w :
  let '(rw, (s', w')) := HandleLogin h rw0 r (s, w) in
  match (try_login h r w).1 with
  | inl f => rw = error_redirect rw0 r (login_reason f) /\ sent_cookies rw = [] /\ s' = s
  | inr token =>
      (h_oauthServer h = false \/ CookieValue r "mcp_session_id" = "" -> s' = s /\
         sent_cookies rw = [vire_session_cookie token] /\ rw_status rw = StatusFound)
  end.
Proof.
  unfold HandleLogin. rewrite io_bind.
  destruct (try_login h r w) as [[f|token] w']; simpl; [by destruct f|].
  unfold finish_login, tryCompleteMCPSession. rewrite M_bind_unfold.
  destruct (h_oauthServer h) eqn:Ho; simpl; [|done].
  destruct (decide (CookieValue r "mcp_session_id" = "")) as [Hc|Hc]; [done|].
  match goal with |- context [if decide (?x = "") then _ else _] => destruct (decide (x = "")) end.
  { simpl. intros [?|?]; done. }
  rewrite M_bind_unfold. destruct (complete_authorization _ _ _) as [x [s' w'']]. by intros [?|?].
Qed.
End theorems.

Section mcp_login.
Context `{!Env} `{!NetURL} `{!Unicode}.

(** The unverified readers see the subject of any well-formed token, whatever
    key signed it. *)
Lemma extractJWTSub_sign key l sub :
  json_ok (JObj l) = true -> json_depth (JObj l) <= max_depth ->
  dec_field "sub" dec_string "" l = Some sub ->
  extractJWTSub (jwt_sign key (Marshal (JObj l))) = sub.
Proof.
  intros Hok Hd Hs. unfold extractJWTSub, jwt_sign.
  set (sig := EncodeToString (hmac_sha256 _ _)). rewrite !append_assoc, !append_char.
  rewrite (SplitN_sep "." jwt_header) by apply jwt_header_no_dot.
  rewrite SplitN_sep by by apply EncodeToString_no_byte.
  rewrite DecodeString_EncodeToString. cbn [mbind option_bind].
  rewrite json_parse_Marshal by done. cbn [mbind option_bind]. unfold dec_sub. cbn [dec_struct mbind option_bind].
  by rewrite Hs.
Qed.

Section iface.
Context {S : Type} `{!OAuthCompleter S}.
Implicit Type s : S.

Lemma finish_login_mcp h rw r token s w url s' w' :
  h_oauthServer h = true -> CookieValue r "mcp_session_id" ≠ "" -> extractJWTSub token ≠ "" -> url ≠ "" ->
  complete_authorization (CookieValue r "mcp_session_id") (extractJWTSub token) (s, w) = (Ok url, (s', w')) ->
  finish_login h rw r token (s, w) =
    (Redirect (set_cookie (clear_cookie "mcp_session_id") rw) r url StatusFound, (s', w')).
Proof.
  intros Ho Hc Hsub Hu Hca. unfold finish_login, tryCompleteMCPSession, extractJWTSubFromToken.
  rewrite Ho. cbn [negb]. rewrite !decide_False by done. rewrite !M_bind_unfold, Hca. simpl.
  by rewrite decide_False.
Qed.

(** C30. Finishing an MCP authorization from a browser login: when the request
    carries a pending MCP session and the completer accepts it, the browser
    is redirected to the completer's URL, the mcp_session_id cookie is
    cleared and no portal session is opened, for the password login and
    for the provider callback alike. *)
Theorem mcp_login_spec h r token s w url s' w' :
  h_oauthServer h = true -> CookieValue r "mcp_session_id" ≠ "" -> extractJWTSub token ≠ "" -> url ≠ "" ->
  let complete := complete_authorization (CookieValue r "mcp_session_id") (extractJWTSub token) in
  let answer := Redirect (set_cookie (clear_cookie "mcp_session_id") rw0) r url StatusFound in
  ((try_login h r w).1 = inr token -> complete (s, (try_login h r w).2) = (Ok url, (s', w')) ->
   HandleLogin h rw0 r (s, w) = (answer, (s', w'))) /\
  (token ≠ "" -> Values_Get (Query r) "token" = token -> complete (s, w) = (Ok url, (s', w')) ->
   HandleOAuthCallback h rw0 r (s, w) = (answer, (s', w'))) /\
  sent_cookies answer = [clear_cookie "mcp_session_id"].
Proof.
  intros Ho Hc Hsub Hu complete answer. split_and!; [| |done].
  - intros Hl Hca. unfold HandleLogin. rewrite io_bind, Hl. by apply finish_login_mcp.
  - intros Ht Hq Hca. unfold HandleOAuthCallback. rewrite Hq, decide_False by done. by apply finish_login_mcp.
Qed.
End iface.

Context `{!TimeCodec}.

(** C40. The provider callback does not verify the token before it completes an
    MCP authorization: with any signing key, an attacker who holds a pending
    session obtains an authorization code issued for the user id of his
    choice (any id in valid UTF-8), even though the portal has a JWT secret
    configured: the code is stored, unused, for that id and the session's
    client, and the answer redirects to the session's redirect URI with it. *)
Theorem callback_accepts_forged_user h key victim r s w sess u b :
  h_oauthServer h = true -> is_utf8 victim = true -> victim ≠ "" ->
  Values_Get (Query r) "token" = jwt_sign key (Marshal (JObj [("sub", JStr victim)])) ->
  CookieValue r "mcp_session_id" ≠ "" ->
  sessions (o_sessions s) !! CookieValue r "mcp_session_id" = Some sess ->
  session_expired (clock (w_tick w)) sess = false ->
  rand_read (w_draw w) 16 = Some b -> url_Parse (s_RedirectURI sess) = Some u ->
  let '(rw, (s', w')) := HandleOAuthCallback h rw0 r (s, w) in
  exists c, codes (o_codes s') !! hex_encode b = Some c /\ c_UserID c = victim /\ Used c = false /\
            c_ClientID c = s_ClientID sess /\
            (redirect_with u (hex_encode b) (s_State sess) ≠ "" ->
             rw = Redirect (set_cookie (clear_cookie "mcp_session_id") rw0) r
                    (redirect_with u (hex_encode b) (s_State sess)) StatusFound).
Proof.
  intros Ho Ha Hv Hq Hc Hs He Hb Hu.
  assert (extractJWTSub (jwt_sign key (Marshal (JObj [("sub", JStr victim)]))) = victim) as Hsub.
  { apply extractJWTSub_sign; [simpl; by rewrite Ha|done|done]. }
  unfold HandleOAuthCallback. rewrite Hq. rewrite decide_False.
  2:{ unfold jwt_sign, jwt_header. by intros [=]. }
  unfold finish_login, tryCompleteMCPSession, extractJWTSubFromToken. rewrite Ho. cbn [negb].
  rewrite !decide_False by (done || by rewrite Hsub). rewrite Hsub, !M_bind_unfold.
  unfold complete_authorization, OAuthServer_completer.
  destruct (CompleteAuthorization_eq (CookieValue r "mcp_session_id") victim s w sess u b Hs He Hb Hu)
    as (s1 & w1 & -> & Hcodes & _). simpl.
  set (url := redirect_with _ _ _). destruct (decide (url = "")) as [Hurl|Hurl]; simpl.
  all: exists (new_code (hex_encode b) victim sess (clock (S (w_tick w)))); by rewrite Hcodes, lookup_insert_eq.
Qed.
End mcp_login.

(** ** Witnesses *)
Section witnesses.
Import SampleInstances.

Definition portal : AuthHandler := SetOAuthServer (NewAuthHandler false "http://vire:8080" "" "secret").
Definition forged_token : string := jwt_sign "attacker" (Marshal (JObj [("sub", JStr "admin")])).
Definition callback_request : Request :=
  mkRequest "GET" "/auth/callback" "/auth/callback" ("token=" +:+ QueryEscape forged_token) "portal.test"
    false ∅ [("mcp_session_id", "s1")] false ∅ (Some "").
Definition zero16 : string := String.concat "" (repeat (String "000" "") 16).

Lemma callback_accepts_forged_user_witness :
  exists c, codes (o_codes (HandleOAuthCallback portal rw0 callback_request (flow_server, sample_world)).2.1)
              !! hex_encode zero16 = Some c /\ c_UserID c = "admin".
Proof.
  pose proof (callback_accepts_forged_user portal "attacker" "admin" callback_request flow_server sample_world
    flow_session (mkURL "http" "" "" "l" "/cb" "a=1" "") zero16) as Hf.
  specialize (Hf eq_refl eq_refl ltac:(discriminate) ltac:(vm_compute; reflexivity) ltac:(discriminate)).
  do 4 (specialize (Hf ltac:(vm_compute; reflexivity))).
  destruct (HandleOAuthCallback _ _ _ _) as [rw [s' w']]. destruct Hf as (c & Hc & Hu & _). eauto.
Defined.
Lemma mcp_login_spec_witness :
  sent_cookies (HandleOAuthCallback portal rw0 callback_request (flow_server, sample_world)).1 =
  [clear_cookie "mcp_session_id"].
Proof.
  destruct (CompleteAuthorization_eq "s1" "admin" flow_server sample_world flow_session
    (mkURL "http" "" "" "l" "/cb" "a=1" "") zero16) as (s1 & w1 & Hca & _); [vm_compute; reflexivity..|].
  destruct (mcp_login_spec portal callback_request forged_token flow_server sample_world
    (redirect_with (mkURL "http" "" "" "l" "/cb" "a=1" "") (hex_encode zero16) "xyz") s1 w1)
    as (_ & Hcb & Hck); [reflexivity|discriminate|vm_compute; discriminate|vm_compute; discriminate|].
  rewrite Hcb; [exact Hck|vm_compute; discriminate|vm_compute; reflexivity|].
  replace (extractJWTSub forged_token) with "admin" by (vm_compute; reflexivity). exact Hca.
Defined.
End witnesses.
