(* ===== verification/Config.v ===== *)
(** * Config: configuration (internal/config/config.go, defaults.go, version.go).

    Reading a file, parsing TOML (github.com/pelletier/go-toml) and the process
    environment are parameters. *)
From S2P Require Import Prelude GoStrings GoCrypto GoJson GoURL GoHTTP OAuthBackend Samples.

Record AuthConfig := mkAuthConfig { JWTSecret : string; CallbackURL : string; PortalURL : string }.
Record ServiceConfig := mkServiceConfig { Key : string; PortalID : string }.
Record ServerConfig := mkServerConfig { Port : Z; SrvHost : string }.
Record UserConfig := mkUserConfig { Portfolios : list string; DisplayCurrency : string }.
Record LoggingConfig := mkLoggingConfig {
  Level : string; Format : string; Outputs : list string; FilePath : string; MaxSizeMB : Z; MaxBackups : Z }.
Record Config := mkConfig {
  Environment : string;
  AdminUsers : string;
  cfg_Server : ServerConfig;
  API_URL : string;
  Portal_URL : string;
  Auth : AuthConfig;
  Service : ServiceConfig;
  User : UserConfig;
  Logging : LoggingConfig;
  CatalogRetries : Z;
}.

Definition NewDefaultConfig : Config :=
  mkConfig "prod" "" (mkServerConfig 8080 "0.0.0.0") "http://localhost:8080" "http://localhost:8080"
    (mkAuthConfig "" "http://localhost:8080/auth/callback" "") (mkServiceConfig "" "")
    (mkUserConfig [] "") (mkLoggingConfig "info" "text" ["console"; "file"] "logs/vire-portal.log" 0 0) 3.

Section config.
Context `{!Unicode}.

Definition IsDevMode (c : Config) : bool := bool_decide (ToLower (TrimSpace (Environment c)) = "dev").
Definition AdminEmails (c : Config) : list string :=
  if decide (TrimSpace (AdminUsers c) = "") then []
  else filter (fun e => e ≠ "") ((fun p => ToLower (TrimSpace p)) <$> Split (AdminUsers c) ",").
Definition normalizeEnvironment (env : string) : string :=
  let e := ToLower (TrimSpace env) in
  if decide (e = "development") then "dev" else if decide (e = "production") then "prod" else env.
Definition BaseURL (c : Config) : string :=
  if decide (PortalURL (Auth c) = "") then
    let host := SrvHost (cfg_Server c) in
    let host := if decide (host = "" \/ host = "0.0.0.0") then "localhost" else host in
    "http://" +:+ host +:+ ":" +:+ Itoa (Port (cfg_Server c))
  else trim_right_byte "/" (PortalURL (Auth c)).
Definition Validate (c : Config) : list string :=
  (if decide (TrimSpace (API_URL c) = "")
   then ["api.url is required (set in TOML or via VIRE_API_URL)"] else []) ++
  (if negb (IsDevMode c) && bool_decide (TrimSpace (JWTSecret (Auth c)) = "")
   then ["auth.jwt_secret is required in production (set in TOML, via VIRE_AUTH_JWT_SECRET, or use environment=dev)"]
   else []) ++
  (if (Port (cfg_Server c) <? 1) || (65535 <? Port (cfg_Server c))
   then ["server.port must be between 1 and 65535 (got " +:+ Itoa (Port (cfg_Server c)) +:+ ")"] else []).

(** ** Loading *)
Context (getenv : string -> string).
Context (ReadFile : string -> option string) (toml_Unmarshal : string -> Config -> option Config).

(** [if v := os.Getenv(name); v != ""]. *)
Definition env_or (name old : string) : string :=
  if decide (getenv name = "") then old else getenv name.
Definition applyEnvOverrides (c : Config) : Config :=
  let port := match getenv "VIRE_SERVER_PORT" with
    | "" => Port (cfg_Server c) | p => default (Port (cfg_Server c)) (Atoi p) end in
  let portal := getenv "VIRE_PORTAL_URL" in
  mkConfig (env_or "VIRE_ENV" (Environment c)) (env_or "VIRE_ADMIN_USERS" (AdminUsers c))
    (mkServerConfig port (env_or "VIRE_SERVER_HOST" (SrvHost (cfg_Server c))))
    (env_or "VIRE_API_URL" (API_URL c))
    (if decide (portal = "") then Portal_URL c else portal)
    (mkAuthConfig (env_or "VIRE_AUTH_JWT_SECRET" (JWTSecret (Auth c)))
       (env_or "VIRE_AUTH_CALLBACK_URL" (CallbackURL (Auth c)))
       (if decide (portal = "") then PortalURL (Auth c) else portal))
    (mkServiceConfig (env_or "VIRE_SERVICE_KEY" (Key (Service c))) (env_or "VIRE_PORTAL_ID" (PortalID (Service c))))
    (mkUserConfig
       (if decide (getenv "VIRE_DEFAULT_PORTFOLIO" = "") then Portfolios (User c) else [getenv "VIRE_DEFAULT_PORTFOLIO"])
       (env_or "VIRE_DISPLAY_CURRENCY" (DisplayCurrency (User c))))
    (mkLoggingConfig (env_or "VIRE_LOG_LEVEL" (Level (Logging c))) (env_or "VIRE_LOG_FORMAT" (Format (Logging c)))
       (Outputs (Logging c)) (FilePath (Logging c)) (MaxSizeMB (Logging c)) (MaxBackups (Logging c)))
    (CatalogRetries c).
Fixpoint load_files (paths : list string) (c : Config) : result Config :=
  match paths with
  | [] => Ok c
  | path :: paths =>
      if decide (path = "") then load_files paths c
      else match ReadFile path with
           | None => Err ("failed to read config file " +:+ path)
           | Some data =>
               match toml_Unmarshal data c with
               | None => Err ("failed to parse config file " +:+ path)
               | Some c => load_files paths c
               end
           end
  end.
Definition set_Environment (e : string) (c : Config) : Config :=
  mkConfig e (AdminUsers c) (cfg_Server c) (API_URL c) (Portal_URL c) (Auth c) (Service c) (User c) (Logging c)
    (CatalogRetries c).
Definition LoadFromFiles (paths : list string) : result Config :=
  c ← load_files paths NewDefaultConfig;
  let c := applyEnvOverrides c in
  Ok (set_Environment (normalizeEnvironment (Environment c)) c).
Definition LoadFromFile (path : string) : result Config :=
  if decide (path = "") then LoadFromFiles [] else LoadFromFiles [path].
Definition ApplyFlagOverrides (c : Config) (port : Z) (host : string) : Config :=
  mkConfig (Environment c) (AdminUsers c)
    (mkServerConfig (if 0 <? port then port else Port (cfg_Server c))
       (if decide (host = "") then SrvHost (cfg_Server c) else host))
    (API_URL c) (Portal_URL c) (Auth c) (Service c) (User c) (Logging c) (CatalogRetries c).
End config.

(** Version variables, set at link time (version.go). *)
Record BuildInfo := mkBuildInfo { Version : string; Build : string; GitCommit : string }.
Definition GetFullVersion (b : BuildInfo) : string :=
  Version b +:+ " (build: " +:+ Build b +:+ ", commit: " +:+ GitCommit b +:+ ")".

(** ** Theorems *)
Section theorems.
Context `{!Unicode}.

Definition is_dev_name (e : string) : bool :=
  let e := ToLower (TrimSpace e) in bool_decide (e = "dev") || bool_decide (e = "development").

Lemma normalize_dev env :
  bool_decide (ToLower (TrimSpace (normalizeEnvironment env)) = "dev") = is_dev_name env.
Proof.
  unfold normalizeEnvironment, is_dev_name.
  destruct (decide (ToLower (TrimSpace env) = "development")) as [->|H1]; [done|].
  destruct (decide (ToLower (TrimSpace env) = "production")) as [->|H2]; [done|].
  rewrite (bool_decide_false (ToLower (TrimSpace env) = "development")) by done. by rewrite orb_false_r.
Qed.

(** Development mode of a loaded configuration: it is on exactly when the
    environment name, from VIRE_ENV if that is set and from the files
    otherwise, is dev or development up to case and surrounding space; every
    other name, an empty one included, is production. *)
Lemma loaded_dev_mode getenv ReadFile toml paths c0 :
  load_files ReadFile toml paths NewDefaultConfig = Ok c0 ->
  exists c, LoadFromFiles getenv ReadFile toml paths = Ok c /\
    IsDevMode c = is_dev_name (if decide (getenv "VIRE_ENV" = "") then Environment c0 else getenv "VIRE_ENV").
Proof.
  intros Hl. unfold LoadFromFiles. rewrite Hl. eexists. split; [reflexivity|].
  unfold IsDevMode. simpl. rewrite normalize_dev. unfold env_or. by destruct (decide _).
Qed.

(** A configuration is accepted exactly when an API URL is set, a JWT secret is
    set unless in development mode, and the port is in range; loading without
    files, secret or environment is refused for the missing secret alone. *)
Lemma Validate_spec c :
  (Validate c = [] <->
   TrimSpace (API_URL c) ≠ "" /\ (IsDevMode c = true \/ TrimSpace (JWTSecret (Auth c)) ≠ "") /\
   1 <= Port (cfg_Server c) <= 65535) /\
  length (Validate NewDefaultConfig) = 1%nat.
Proof.
  split; [|done]. unfold Validate. split.
  - intros (Ha & (Hj & Hp)%app_nil)%app_nil.
    destruct (decide (TrimSpace (API_URL c) = "")); [done|]. split; [done|]. split.
    + destruct (IsDevMode c); [by left|right]. simpl in Hj. by case_bool_decide.
    + destruct (_ || _) eqn:E; [done|]. bool_to_prop. lia.
  - intros (Ha & Hj & Hp). rewrite decide_False by done.
    assert (negb (IsDevMode c) && bool_decide (TrimSpace (JWTSecret (Auth c)) = "") = false) as ->.
    { destruct Hj as [->|Hj]; [done|]. rewrite bool_decide_false by done. apply andb_false_r. }
    assert ((Port (cfg_Server c) <? 1) || (65535 <? Port (cfg_Server c)) = false) as ->; [|done].
    apply orb_false_iff. split; apply Z.ltb_ge; lia.
Qed.
End theorems.
