(* ===== verification/VireClient.v ===== *)
(** * VireClient: the typed REST client and start-up seeding
    (internal/client/vire_client.go, internal/seed).

    A client is its base URL.  Error texts of the JSON decoder, of the URL
    parser and of the transport are left as the environment gives them or
    dropped after the prefix the code adds. *)
From S2P Require Import Prelude GoStrings GoJson GoURL GoHTTP Samples.

(** ** Data (vire_client.go) *)
Record UserProfile := mkUserProfile {
  up_Username : string; up_Email : string; up_Role : string;
  up_NavexaKeySet : bool; up_NavexaKeyPreview : string }.
Record OAuthResponse := mkOAuthResponse { or_Token : string; or_User : UserProfile }.
Record SeedUser := mkSeedUser {
  su_Username : string; su_Email : string; su_Password : string; su_Role : string; su_NavexaKey : string }.
Record AdminUser := mkAdminUser {
  au_ID : string; au_Email : string; au_Name : string; au_Role : string; au_Provider : string;
  au_CreatedAt : string }.
Record VireClient := mkVireClient { v_baseURL : string }.
Definition NewVireClient (baseURL : string) : VireClient := mkVireClient baseURL.

Definition zero_profile : UserProfile := mkUserProfile "" "" "" false "".
Definition zero_admin : AdminUser := mkAdminUser "" "" "" "" "" "".
Definition seed_json (u : SeedUser) : json :=
  JObj [("username", JStr (su_Username u)); ("email", JStr (su_Email u)); ("password", JStr (su_Password u));
        ("role", JStr (su_Role u)); ("navexa_key", JStr (su_NavexaKey u))].

Section client.
Context `{!Env} `{!NetURL} `{!Unicode}.

(** *** Decoding answers *)
Definition dec_profile : decoder UserProfile := fun old v =>
  l ← dec_struct v;
  us ← dec_field "username" dec_string (up_Username old) l;
  em ← dec_field "email" dec_string (up_Email old) l;
  ro ← dec_field "role" dec_string (up_Role old) l;
  ks ← dec_field "navexa_key_set" dec_bool (up_NavexaKeySet old) l;
  kp ← dec_field "navexa_key_preview" dec_string (up_NavexaKeyPreview old) l;
  Some (mkUserProfile us em ro ks kp).
Definition dec_oauth_response : decoder OAuthResponse := fun old v =>
  l ← dec_struct v;
  tk ← dec_field "token" dec_string (or_Token old) l;
  us ← dec_field "user" dec_profile (or_User old) l;
  Some (mkOAuthResponse tk us).
Definition dec_admin : decoder AdminUser := fun old v =>
  l ← dec_struct v;
  id ← dec_field "id" dec_string (au_ID old) l;
  em ← dec_field "email" dec_string (au_Email old) l;
  nm ← dec_field "name" dec_string (au_Name old) l;
  ro ← dec_field "role" dec_string (au_Role old) l;
  pr ← dec_field "provider" dec_string (au_Provider old) l;
  ca ← dec_field "created_at" dec_string (au_CreatedAt old) l;
  Some (mkAdminUser id em nm ro pr ca).
(** [{ status, data }] *)
Definition dec_envelope {A} (dec : decoder A) (zero : A) (v : json) : option A :=
  l ← dec_struct v;
  _ ← dec_field "status" dec_string "" l;
  dec_field "data" dec zero l.
Definition dec_service (v : json) : option string := l ← dec_struct v; dec_field "service_user_id" dec_string "" l.
Definition dec_users (v : json) : option (list AdminUser) :=
  l ← dec_struct v; dec_field "users" (dec_list zero_admin dec_admin) [] l.

(** *** One exchange: send, read at most 1 MiB, check the status *)
Definition server_error (status : Z) (body : string) : string :=
  "server returned " +:+ Itoa status +:+ ": " +:+ body.
Definition exchange (q : HTTPRequest) : M World (result (Z * string)) :=
  resp ← client_Do q;
  mret (match resp with
        | Err e => Err ("failed to reach vire-server: " +:+ e)
        | Ok resp =>
            match ReadLimited (2 ^ 20) resp with
            | Err e => Err ("failed to read response: " +:+ e)
            | Ok body => Ok (hr_status resp, body)
            end
        end).
Definition expect_status (ok : Z -> bool) (x : Z * string) : result string :=
  if ok x.1 then Ok x.2 else Err (server_error x.1 x.2).
Definition parsed {A} (dec : json -> option A) (body : string) : result A :=
  match json_parse body ≫= dec with Some a => Ok a | None => Err "failed to parse response" end.
Definition is_200 (status : Z) : bool := status =? StatusOK.

(** [httpClient.Get] and [httpClient.Post], whose request may not build. *)
Definition client_Get (url : string) : M World (result (Z * string)) :=
  match NewRequest "GET" url None with
  | None => mret (Err "failed to reach vire-server: invalid URL")
  | Some q => exchange q
  end.
Definition client_Post (url : string) (body : json) : M World (result (Z * string)) :=
  match NewRequest "POST" url (Some (Marshal body)) with
  | None => mret (Err "failed to reach vire-server: invalid URL")
  | Some q => exchange (req_set "Content-Type" "application/json" q)
  end.

Definition GetUser (c : VireClient) (userID : string) : M World (result UserProfile) :=
  r ← client_Get (v_baseURL c +:+ "/api/users/" +:+ userID);
  mret (x ← r;
        if x.1 =? StatusNotFound then Err ("user not found: " +:+ userID)
        else body ← expect_status is_200 x; parsed (dec_envelope dec_profile zero_profile) body).
Definition ListUsers (c : VireClient) : M World (result (list UserProfile)) :=
  r ← client_Get (v_baseURL c +:+ "/api/users");
  mret (x ← r; body ← expect_status is_200 x;
        parsed (dec_envelope (dec_list zero_profile dec_profile) []) body).
Definition ExchangeOAuth (c : VireClient) (provider code state : string) : M World (result OAuthResponse) :=
  r ← client_Post (v_baseURL c +:+ "/api/auth/oauth")
        (JStrMap [("provider", provider); ("code", code); ("state", state)]);
  mret (x ← r; body ← expect_status is_200 x;
        parsed (dec_envelope dec_oauth_response (mkOAuthResponse "" zero_profile)) body).
Definition UpsertUser (c : VireClient) (user : SeedUser) : M World (result unit) :=
  r ← client_Post (v_baseURL c +:+ "/api/users/upsert") (seed_json user);
  mret (x ← r; _ ← expect_status (fun st => (st =? StatusOK) || (st =? StatusCreated)) x; Ok tt).
Definition client_RegisterService (c : VireClient) (serviceID serviceKey : string) : M World (result string) :=
  r ← client_Post (v_baseURL c +:+ "/api/services/register")
        (JStrMap [("service_id", serviceID); ("service_key", serviceKey); ("service_type", "portal")]);
  mret (x ← r; body ← expect_status is_200 x; parsed dec_service body).

Definition list_request (c : VireClient) (serviceID : string) : option HTTPRequest :=
  req_set "X-Vire-Service-ID" serviceID <$> NewRequest "GET" (v_baseURL c +:+ "/api/admin/users") None.
Definition AdminListUsers (c : VireClient) (serviceID : string) : M World (result (list AdminUser)) :=
  match list_request c serviceID with
  | None => mret (Err "invalid request")
  | Some q => r ← exchange q; mret (x ← r; body ← expect_status is_200 x; parsed dec_users body)
  end.
Definition role_request (c : VireClient) (serviceID userID role : string) : option HTTPRequest :=
  (fun q => req_set "X-Vire-Service-ID" serviceID (req_set "Content-Type" "application/json" q)) <$>
    NewRequest "PATCH" (v_baseURL c +:+ "/api/admin/users/" +:+ userID +:+ "/role")
      (Some (Marshal (JStrMap [("role", role)]))).
Definition AdminUpdateUserRole (c : VireClient) (serviceID userID role : string) : M World (result unit) :=
  match role_request c serviceID userID role with
  | None => mret (Err "invalid request")
  | Some q => r ← exchange q; mret (x ← r; _ ← expect_status is_200 x; Ok tt)
  end.
Definition ProxyGet (c : VireClient) (path userID : string) : M World (result string) :=
  match NewRequest "GET" (v_baseURL c +:+ path) None with
  | None => mret (Err "failed to create request")
  | Some q =>
      r ← exchange (if decide (userID = "") then q else req_set "X-Vire-User-ID" userID q);
      mret (x ← r; expect_status (fun st => (200 <=? st) && (st <? 300)) x)
  end.
Definition UpdateUser (c : VireClient) (userID : string) (fields : gmap string string)
    : M World (result UserProfile) :=
  match NewRequest "PUT" (v_baseURL c +:+ "/api/users/" +:+ userID)
          (Some (Marshal (JStrMap (map_to_list fields)))) with
  | None => mret (Err "invalid request")
  | Some q =>
      r ← exchange (req_set "Content-Type" "application/json" q);
      mret (x ← r; body ← expect_status is_200 x; parsed (dec_envelope dec_profile zero_profile) body)
  end.

(** ** Seeding (internal/seed) *)
Definition seedRetryAttempts : nat := 3.
(** The retry loops: up to [n] attempts, the last error. *)
Fixpoint retry {A} (n : nat) (m : M World (result A)) (last : string) : M World (result A) :=
  match n with
  | O => mret (Err last)
  | S n => r ← m; match r with Ok a => mret (Ok a) | Err e => retry n m e end
  end.

(** *** service.go *)
Definition RegisterService (apiURL serviceID serviceKey : string) : M World (result string) :=
  r ← retry seedRetryAttempts (client_RegisterService (NewVireClient apiURL) serviceID serviceKey) "";
  mret (match r with
        | Ok id => Ok id
        | Err e => Err ("service registration failed after 3 attempts: " +:+ e)
        end).

(** *** admin.go *)
Definition users_by_email (users : list AdminUser) : gmap string AdminUser :=
  foldl (fun m u => <[ToLower (au_Email u) := u]> m) ∅ users.
(** The loop over the configured addresses, with [failed] and [lastErr]. *)
Fixpoint sync_go (c : VireClient) (serviceUserID : string) (byEmail : gmap string AdminUser)
    (emails : list string) (failed : Z) (lastErr : option string) : M World (result unit) :=
  match emails with
  | [] => mret (match lastErr with
                | None => Ok tt
                | Some e => Err ("admin sync: " +:+ Itoa failed +:+ " update(s) failed, last error: " +:+ e)
                end)
  | email :: emails =>
      match byEmail !! ToLower email with
      | None => sync_go c serviceUserID byEmail emails failed lastErr
      | Some user =>
          if decide (au_Role user = "admin") then sync_go c serviceUserID byEmail emails failed lastErr
          else
            r ← AdminUpdateUserRole c serviceUserID (au_ID user) "admin";
            match r with
            | Err e => sync_go c serviceUserID byEmail emails (failed + 1) (Some e)
            | Ok _ => sync_go c serviceUserID byEmail emails failed lastErr
            end
      end
  end.
Definition syncAdminsOnce (c : VireClient) (adminEmails : list string) (serviceUserID : string)
    : M World (result unit) :=
  users ← AdminListUsers c serviceUserID;
  match users with
  | Err e => mret (Err e)
  | Ok users => sync_go c serviceUserID (users_by_email users) adminEmails 0 None
  end.
Definition syncAdminsWithRetry (c : VireClient) (adminEmails : list string) (serviceUserID : string) : M World unit :=
  retry seedRetryAttempts (syncAdminsOnce c adminEmails serviceUserID) "" ;; mret tt.
Definition SyncAdmins (apiURL : string) (adminEmails : list string) (serviceUserID : string) : M World unit :=
  match adminEmails with
  | [] => mret tt
  | _ => syncAdminsWithRetry (NewVireClient apiURL) adminEmails serviceUserID
  end.

(** *** seed.go *)
Definition usersFileName : string := "import/users.json".
Definition dec_seed : decoder SeedUser := fun old v =>
  l ← dec_struct v;
  us ← dec_field "username" dec_string (su_Username old) l;
  em ← dec_field "email" dec_string (su_Email old) l;
  pw ← dec_field "password" dec_string (su_Password old) l;
  ro ← dec_field "role" dec_string (su_Role old) l;
  nk ← dec_field "navexa_key" dec_string (su_NavexaKey old) l;
  Some (mkSeedUser us em pw ro nk).
Definition zero_seed : SeedUser := mkSeedUser "" "" "" "" "".
Definition dec_usersFile (v : json) : option (list SeedUser) :=
  l ← dec_struct v; dec_field "users" (dec_list zero_seed dec_seed) [] l.
(** [exe_path] is the users file beside the executable, when the path of the
    executable is known; [os_ReadFile] fails on a file that is not there, as
    [os.Stat] does. *)
Definition findUsersFile (exe_path : option string) (os_Stat : string -> bool) : string :=
  match exe_path with
  | Some p => if os_Stat p then p else if os_Stat usersFileName then usersFileName else ""
  | None => if os_Stat usersFileName then usersFileName else ""
  end.
Definition loadUsersFile (os_ReadFile : string -> result string) (path : string) : result (list SeedUser) :=
  match os_ReadFile path with
  | Err e => Err ("read file: " +:+ e)
  | Ok data => match json_parse data ≫= dec_usersFile with
               | Some us => Ok us | None => Err "parse JSON" end
  end.
Fixpoint seedAll (c : VireClient) (users : list SeedUser) : M World (result unit) :=
  match users with
  | [] => mret (Ok tt)
  | u :: users =>
      r ← UpsertUser c u;
      match r with
      | Err e => mret (Err ("upsert " +:+ su_Username u +:+ ": " +:+ e))
      | Ok _ => seedAll c users
      end
  end.
Definition seedWithRetry (c : VireClient) (users : list SeedUser) : M World unit :=
  retry seedRetryAttempts (seedAll c users) "" ;; mret tt.
Definition DevUsers (exe_path : option string) (os_Stat : string -> bool) (os_ReadFile : string -> result string)
    (apiURL : string) : M World unit :=
  let path := findUsersFile exe_path os_Stat in
  if decide (path = "") then mret tt
  else match loadUsersFile os_ReadFile path with
       | Err _ => mret tt
       | Ok [] => mret tt
       | Ok users => seedWithRetry (NewVireClient apiURL) users
       end.
End client.

(** ** Theorems *)
Section theorems.
Context `{!Env} `{!NetURL} `{!Unicode}.

(** The users a synchronisation promotes, in the order of the configured
    addresses. *)
Definition to_promote (users : list AdminUser) (emails : list string) : list AdminUser :=
  omap (fun email => u ← users_by_email users !! ToLower email;
                     if decide (au_Role u = "admin") then None else Some u) emails.
Definition errors_of (rs : list (result unit)) : list string :=
  omap (fun r => match r with Err e => Some e | Ok _ => None end) rs.
Definition sync_result (rs : list (result unit)) : result unit :=
  match last (errors_of rs) with
  | None => Ok tt
  | Some e => Err ("admin sync: " +:+ Itoa (Z.of_nat (length (errors_of rs))) +:+
                   " update(s) failed, last error: " +:+ e)
  end.

Lemma users_by_email_spec users e u :
  users_by_email users !! e = Some u <->
  exists l1 l2, users = l1 ++ u :: l2 /\ ToLower (au_Email u) = e /\
    Forall (fun v => ToLower (au_Email v) ≠ e) l2.
Proof.
  unfold users_by_email. induction users as [|v users IH] using rev_ind.
  { simpl. rewrite lookup_empty. split; [done|]. by intros ([|] & l2 & ? & _). }
  rewrite foldl_app. simpl. destruct (decide (ToLower (au_Email v) = e)) as [<-|Hne].
  - rewrite lookup_insert_eq. split.
    + intros [= <-]. by exists users, [].
    + intros (l1 & l2 & Hl & He & Hf). destruct l2 as [|y l2 _] using rev_ind.
      * apply app_inj_tail in Hl as [_ ->]. done.
      * rewrite app_comm_cons, app_assoc in Hl. apply app_inj_tail in Hl as [_ <-].
        apply Forall_app in Hf as [_ Hf]. rewrite Forall_singleton in Hf. by destruct Hf.
  - rewrite lookup_insert_ne, IH by done. split.
    + intros (l1 & l2 & -> & He & Hf). exists l1, (l2 ++ [v]). split; [by rewrite <-app_assoc|].
      split; [done|]. apply Forall_app. split; [done|by apply Forall_singleton].
    + intros (l1 & l2 & Hl & He & Hf). destruct l2 as [|y l2 _] using rev_ind.
      * apply app_inj_tail in Hl as [_ ->]. done.
      * rewrite app_comm_cons, app_assoc in Hl. apply app_inj_tail in Hl as [-> <-].
        apply Forall_app in Hf as [Hf _]. by exists l1, l2.
Qed.

Lemma sync_go_updates c sid users emails : forall failed lastErr w,
  sync_go c sid (users_by_email users) emails failed lastErr w =
  (rs ← mapM (fun u => AdminUpdateUserRole c sid (au_ID u) "admin") (to_promote users emails);
   mret (match last (errors_of rs), lastErr with
         | None, None => Ok tt
         | Some e, _ | None, Some e =>
             Err ("admin sync: " +:+ Itoa (failed + Z.of_nat (length (errors_of rs))) +:+
                  " update(s) failed, last error: " +:+ e)
         end)) w.
Proof.
  induction emails as [|email emails IH]; intros failed lastErr w; simpl.
  { rewrite M_bind_unfold. simpl. rewrite Z.add_0_r. by destruct lastErr. }
  destruct (users_by_email users !! ToLower email) as [u|]; simpl; [|apply IH].
  destruct (decide (au_Role u = "admin")); [apply IH|]. simpl. rewrite !M_bind_unfold.
  destruct (AdminUpdateUserRole c sid (au_ID u) "admin" w) as [[[]|e] w1]; rewrite IH, !M_bind_unfold;
    destruct (mapM (M := M World) _ _ w1) as [rs w2]; simpl; [done|].
  rewrite last_cons, Nat2Z.inj_succ. replace (failed + 1 + Z.of_nat (length (errors_of rs))) with
    (failed + Z.succ (Z.of_nat (length (errors_of rs)))) by lia. fold (errors_of rs). by destruct (last (errors_of rs)).
Qed.

(** C35. Administrator synchronisation: one attempt lists the users and then asks for
    exactly the promotions that are due, one per configured address that
    belongs to a user who is not an administrator yet (addresses compared
    without case, the last listed user winning), in the configured order and
    whatever the outcome of earlier ones; it succeeds when all of them do and
    otherwise reports their number and the last error.  Nobody is demoted and
    no other user is touched. *)
Theorem sync_admins_spec c emails sid w :
  syncAdminsOnce c emails sid w =
    (users ← AdminListUsers c sid;
     match users with
     | Err e => mret (Err e)
     | Ok users =>
         rs ← mapM (fun u => AdminUpdateUserRole c sid (au_ID u) "admin") (to_promote users emails);
         mret (sync_result rs)
     end) w /\
  forall users u, u ∈ to_promote users emails <->
    au_Role u ≠ "admin" /\ exists email l1 l2, email ∈ emails /\ users = l1 ++ u :: l2 /\
      ToLower (au_Email u) = ToLower email /\ Forall (fun v => ToLower (au_Email v) ≠ ToLower email) l2.
Proof.
  split.
  - unfold syncAdminsOnce. rewrite !M_bind_unfold. destruct (AdminListUsers c sid w) as [[users|e] w1]; [|done].
    rewrite sync_go_updates, !M_bind_unfold. destruct (mapM (M := M World) _ _ w1) as [rs w2]. unfold sync_result.
    simpl. by destruct (last (errors_of rs)).
  - intros users u. unfold to_promote. rewrite list_elem_of_omap. split.
    + intros (email & Hin & Hu). destruct (users_by_email users !! ToLower email) as [v|] eqn:Hv; [|done].
      simpl in Hu. destruct (decide (au_Role v = "admin")); [done|]. injection Hu as <-.
      apply users_by_email_spec in Hv as (l1 & l2 & ? & ? & ?). split; [done|]. by exists email, l1, l2.
    + intros (Hr & email & l1 & l2 & Hin & Hl & He & Hf). exists email. split; [done|].
      assert (users_by_email users !! ToLower email = Some u) as ->
        by (apply users_by_email_spec; by exists l1, l2).
      simpl. by rewrite decide_False.
Qed.
End theorems.
