(* ===== verification/LogStore.v ===== *)
(** * LogStore: the remote log store (internal/client/log_store.go)

    Entries are buffered under a mutex and posted in batches to vire-server.
    [flushLocked] hands the buffer to a goroutine, and [Close] takes the rest of
    the buffer, lets go of the mutex and sends it itself; what has been taken from
    the buffer and not been sent yet is an element of [ls_spawned]. *)
From S2P Require Import Prelude GoStrings GoJson GoURL GoHTTP OAuthBackend Samples OAuthStores.

Definition logFlushSize : nat := 50.
Definition logMaxBatch : nat := 500.

(** The levels of github.com/phuslu/log. *)
Inductive Level :=
| TraceLevel | DebugLevel | InfoLevel | WarnLevel | ErrorLevel | FatalLevel | PanicLevel | OtherLevel (n : Z).
Definition levelString (l : Level) : string :=
  match l with
  | TraceLevel => "trace" | DebugLevel => "debug" | InfoLevel => "info" | WarnLevel => "warn"
  | ErrorLevel => "error" | FatalLevel => "fatal" | PanicLevel => "panic" | OtherLevel _ => "info"
  end.

(** The fields of [models.LogEvent] that are read.  A field value is the JSON it
    encodes to, or None when [json.Marshal] refuses it. *)
Abbreviation Fields := (gmap string (option json)).
Record LogEvent := mkLogEvent {
  ev_Timestamp : Z; ev_Level : Level; ev_Message : string; ev_CorrelationID : string;
  ev_Prefix : string; ev_Error : string; ev_Function : string; ev_Fields : Fields }.
Record logIngestEntry := mkLogIngestEntry {
  en_Timestamp : Z; en_Level : string; en_Message : string; en_CorrelationID : string;
  en_Prefix : string; en_Error : string; en_Function : string; en_Fields : Fields }.
Definition ingest_entry (e : LogEvent) : logIngestEntry :=
  mkLogIngestEntry (ev_Timestamp e) (levelString (ev_Level e)) (ev_Message e) (ev_CorrelationID e)
    (ev_Prefix e) (ev_Error e) (ev_Function e) (ev_Fields e).

(** [timer_armed]: the flush timer is running. *)
Record HTTPLogStore := mkHTTPLogStore {
  l_baseURL : string; l_serviceID : string;
  l_buf : list logIngestEntry; l_armed : bool; l_closed : bool }.
Record LogSys := mkLogSys { ls_store : HTTPLogStore; ls_spawned : list (list logIngestEntry) }.
Definition NewHTTPLogStore (baseURL serviceID : string) : LogSys :=
  mkLogSys (mkHTTPLogStore baseURL serviceID [] true false) [].

Definition set_buf (b : list logIngestEntry) (s : HTTPLogStore) : HTTPLogStore :=
  mkHTTPLogStore (l_baseURL s) (l_serviceID s) b (l_armed s) (l_closed s).
Definition flushLocked (y : LogSys) : LogSys :=
  match l_buf (ls_store y) with
  | [] => y
  | entries => mkLogSys (set_buf [] (ls_store y)) (ls_spawned y ++ [entries])
  end.
Definition Store (entry : LogEvent) (y : LogSys) : result unit * LogSys :=
  let s := ls_store y in
  if l_closed s then (Err "log store closed", y)
  else
    let y := mkLogSys (set_buf (l_buf s ++ [ingest_entry entry]) s) (ls_spawned y) in
    (Ok tt, if (logFlushSize <=? length (l_buf (ls_store y)))%nat then flushLocked y else y).
(** [Close] under the mutex: the store is closed, the timer stopped, and the
    buffer taken. *)
Definition Close_locked (y : LogSys) : list logIngestEntry * LogSys :=
  let s := ls_store y in
  (l_buf s, mkLogSys (mkHTTPLogStore (l_baseURL s) (l_serviceID s) [] false true) (ls_spawned y)).
Definition set_armed (b : bool) (y : LogSys) : LogSys :=
  let s := ls_store y in
  mkLogSys (mkHTTPLogStore (l_baseURL s) (l_serviceID s) (l_buf s) b (l_closed s)) (ls_spawned y).
(** The timer has fired, so it is no longer armed until [Reset]. *)
Definition timerFlush (y : LogSys) : LogSys :=
  if l_closed (ls_store y) then y else set_armed true (flushLocked y).

Section send.
Context `{!Env} `{!NetURL} `{!TimeCodec}.

Definition fields_json (f : Fields) : option (list (string * json)) :=
  mapM (fun kv => v ← kv.2; Some (kv.1, v)) (merge_sort (fun a b => String.le a.1 b.1) (map_to_list f)).
Definition entry_json (e : logIngestEntry) : option json :=
  fs ← fields_json (en_Fields e);
  Some (JObj ([("timestamp", JTime (en_Timestamp e)); ("level", JStr (en_Level e));
               ("message", JStr (en_Message e))] ++
        omitempty "correlation_id" (en_CorrelationID e) ++ omitempty "prefix" (en_Prefix e) ++
        omitempty "error" (en_Error e) ++ omitempty "caller" (en_Function e) ++
        (match fs with [] => [] | _ => [("fields", JObj fs)] end))).
Definition payload_json (batch : list logIngestEntry) : option json :=
  es ← mapM entry_json batch; Some (JObj [("source", JStr "portal"); ("entries", JArr es)]).

(** The request for a batch, unless it cannot be encoded or built. *)
Definition ingest_request (s : HTTPLogStore) (batch : list logIngestEntry) : option HTTPRequest :=
  payload ← payload_json batch;
  q ← NewRequest "POST" (l_baseURL s +:+ "/api/logs/ingest") (Some (Encode payload));
  Some (req_set "X-Vire-Service-ID" (l_serviceID s) (req_set "Content-Type" "application/json" q)).
(** Errors and bad statuses are printed to stderr; the entries are dropped. *)
Definition send_batch (s : HTTPLogStore) (batch : list logIngestEntry) : M World unit :=
  match ingest_request s batch with
  | None => mret tt
  | Some q => client_Do q ;; mret tt
  end.
(** The slices [entries[i:end]] of the loop; the length is enough fuel. *)
Fixpoint batches_go (fuel : nat) (entries : list logIngestEntry) : list (list logIngestEntry) :=
  match fuel, entries with
  | S f, _ :: _ => take logMaxBatch entries :: batches_go f (drop logMaxBatch entries)
  | _, _ => []
  end.
Definition batches (entries : list logIngestEntry) := batches_go (length entries) entries.
Fixpoint send_all (s : HTTPLogStore) (bs : list (list logIngestEntry)) : M World unit :=
  match bs with [] => mret tt | b :: bs => send_batch s b ;; send_all s bs end.
Definition log_send (s : HTTPLogStore) (entries : list logIngestEntry) : M World unit :=
  send_all s (batches entries).

(** [Close], run without interruption. *)
Definition send_remaining (s : HTTPLogStore) (remaining : list logIngestEntry) : M World unit :=
  match remaining with [] => mret tt | _ => log_send s remaining end.
Definition log_Close : M (LogSys * World) unit := fun p =>
  let '(remaining, y) := Close_locked p.1 in
  let '(_, w) := send_remaining (ls_store y) remaining p.2 in (tt, (y, w)).
End send.

(** ** Delivery *)
Section delivery.
Context `{!Env} `{!NetURL} `{!TimeCodec}.
Context (log : srv -> list HTTPRequest).
Hypothesis log_do : forall q s, log (http_do q s).2 = log s ++ [q].

(** The store, its goroutines, the world, and the entries [Store] accepted. *)
Record lstate := mkL { lw_sys : LogSys; lw_world : World; lw_accepted : list logIngestEntry }.
(** What is taken by [Close] is sent by its caller once the mutex is released. *)
Definition closing (y : LogSys) : LogSys :=
  let '(remaining, y) := Close_locked y in
  match remaining with [] => y | _ => mkLogSys (ls_store y) (ls_spawned y ++ [remaining]) end.
(** One critical section or one sender at a time: a call of [Store], the timer,
    [Close] up to the release of the mutex, and one of those that are to send a
    batch, a goroutine or the caller of [Close]. *)
Inductive lstep : lstate -> lstate -> Prop :=
| l_store e y w acc :
    lstep (mkL y w acc)
      (mkL (Store e y).2 w (if is_ok (Store e y).1 then acc ++ [ingest_entry e] else acc))
| l_timer y w acc : lstep (mkL y w acc) (mkL (timerFlush y) w acc)
| l_send y w acc p1 es p2 :
    ls_spawned y = p1 ++ es :: p2 ->
    lstep (mkL y w acc) (mkL (mkLogSys (ls_store y) (p1 ++ p2)) (log_send (ls_store y) es w).2 acc)
| l_close y w acc : lstep (mkL y w acc) (mkL (closing y) w acc).

(** The steps of [Close], one after the other. *)
Lemma log_Close_steps y w acc :
  rtc lstep (mkL y w acc) (mkL (log_Close (y, w)).2.1 (log_Close (y, w)).2.2 acc).
Proof.
  eapply rtc_l; [apply l_close|]. unfold closing, log_Close, Close_locked. cbn [fst snd].
  destruct (l_buf (ls_store y)) as [|e b]; [apply rtc_refl|]. cbn [send_remaining].
  match goal with |- rtc _ (mkL ?y1 _ _) _ => pose proof (l_send y1 w acc (ls_spawned y) (e :: b) [] eq_refl) as Hs end.
  rewrite app_nil_r in Hs. apply rtc_once. cbn [ls_store] in *. by destruct (log_send _ _ w).
Qed.

Definition encodable (e : logIngestEntry) : Prop := is_Some (entry_json e).
Definition flushable (b : list logIngestEntry) : Prop := (0 < length b <= logFlushSize)%nat.
(** Every accepted entry is in exactly one place, in order: [flushed] are the
    batches in the order they left the buffer, [sent] those posted so far. *)
Record delivered (log0 : list HTTPRequest) (s0 : HTTPLogStore) (st : lstate)
    (flushed sent : list (list logIngestEntry)) (reqs : list HTTPRequest) : Prop := {
  dl_accepted : lw_accepted st = concat flushed ++ l_buf (ls_store (lw_sys st));
  dl_flushed : flushed ≡ₚ sent ++ ls_spawned (lw_sys st);
  dl_batches : Forall flushable flushed;
  dl_requests : Forall2 (fun b q => ingest_request s0 b = Some q) sent reqs;
  dl_log : log (w_srv (lw_world st)) = log0 ++ reqs;
  dl_buffer : (length (l_buf (ls_store (lw_sys st))) < logFlushSize)%nat;
  dl_closed : l_closed (ls_store (lw_sys st)) = true -> l_buf (ls_store (lw_sys st)) = [];
  dl_target : l_baseURL (ls_store (lw_sys st)) = l_baseURL s0 /\
              l_serviceID (ls_store (lw_sys st)) = l_serviceID s0;
}.

Lemma ingest_request_target s s0 b :
  l_baseURL s = l_baseURL s0 /\ l_serviceID s = l_serviceID s0 -> ingest_request s b = ingest_request s0 b.
Proof. unfold ingest_request. by intros [-> ->]. Qed.
Lemma ingest_request_some s b :
  is_Some (url_Parse (l_baseURL s +:+ "/api/logs/ingest")) -> Forall encodable b -> is_Some (ingest_request s b).
Proof.
  intros Hu Hb. unfold ingest_request, payload_json.
  assert (is_Some (mapM entry_json b)) as [es ->] by (by apply mapM_is_Some_2). simpl.
  rewrite NewRequest_ok by done. simpl. eauto.
Qed.
Lemma batches_one b : flushable b -> batches b = [b].
Proof.
  intros [Hb1 Hb2]. destruct b as [|e b]; simpl in *; [lia|]. unfold batches. cbn [batches_go length].
  assert (length (e :: b) <= logMaxBatch)%nat by (simpl; unfold logFlushSize, logMaxBatch in *; lia).
  rewrite take_ge, drop_ge by done. by destruct (length b).
Qed.
(** Posting one flushed batch adds its request to the log. *)
Lemma log_send_one s b w q :
  flushable b -> ingest_request s b = Some q ->
  log (w_srv (log_send s b w).2) = log (w_srv w) ++ [q].
Proof.
  intros Hb Hq. unfold log_send. rewrite (batches_one b Hb). simpl. rewrite M_bind_unfold.
  unfold send_batch. rewrite Hq, M_bind_unfold. rewrite <-(log_client_Do log log_do q w).
  by destruct (client_Do q w).
Qed.

Lemma delivered_flush log0 s0 y w acc flushed sent reqs :
  l_closed (ls_store y) = false -> (length (l_buf (ls_store y)) <= logFlushSize)%nat ->
  acc = concat flushed ++ l_buf (ls_store y) -> flushed ≡ₚ sent ++ ls_spawned y ->
  Forall flushable flushed -> Forall2 (fun b q => ingest_request s0 b = Some q) sent reqs ->
  log (w_srv w) = log0 ++ reqs ->
  l_baseURL (ls_store y) = l_baseURL s0 /\ l_serviceID (ls_store y) = l_serviceID s0 ->
  exists flushed', delivered log0 s0 (mkL (flushLocked y) w acc) flushed' sent reqs.
Proof.
  intros Hc Hlen Ha Hf Hb Hr Hl Ht. unfold flushLocked. destruct (l_buf (ls_store y)) as [|e b] eqn:E.
  - exists flushed. split; simpl; rewrite ?E; try done. unfold logFlushSize; simpl; lia.
  - exists (flushed ++ [e :: b]). split; simpl; try done.
    + by rewrite concat_app, Ha; simpl; rewrite !app_nil_r.
    + by rewrite Hf, app_assoc.
    + apply Forall_app. split; [done|]. rewrite Forall_singleton. split; [simpl; lia|done].
    + unfold logFlushSize. lia.
Qed.

Lemma post_flushed log0 s0 s w flushed sent reqs p1 b p2 :
  is_Some (url_Parse (l_baseURL s0 +:+ "/api/logs/ingest")) ->
  l_baseURL s = l_baseURL s0 /\ l_serviceID s = l_serviceID s0 ->
  flushed ≡ₚ sent ++ p1 ++ b :: p2 -> Forall flushable flushed -> Forall encodable b ->
  Forall2 (fun b q => ingest_request s0 b = Some q) sent reqs -> log (w_srv w) = log0 ++ reqs ->
  exists reqs', log (w_srv (log_send s b w).2) = log0 ++ reqs' /\
    Forall2 (fun b q => ingest_request s0 b = Some q) (sent ++ [b]) reqs' /\
    flushed ≡ₚ (sent ++ [b]) ++ p1 ++ p2.
Proof.
  intros Hu Ht Hf Hb He Hr Hl. destruct (ingest_request_some s0 b Hu He) as [q Hq].
  exists (reqs ++ [q]). split_and!.
  - rewrite (log_send_one s b w q), Hl, app_assoc; [done| |by rewrite (ingest_request_target _ s0)].
    rewrite Hf in Hb. apply Forall_app in Hb as [_ [_ Hb]%Forall_app]. by apply Forall_cons in Hb as [? _].
  - by apply Forall2_app, Forall2_cons.
  - rewrite Hf, <-app_assoc. apply Permutation_app_head. simpl. symmetry. apply Permutation_middle.
Qed.

Lemma accepted_batch acc flushed sent spawned buf b p1 p2 :
  acc = concat flushed ++ buf -> flushed ≡ₚ sent ++ spawned -> spawned = p1 ++ b :: p2 ->
  Forall encodable acc -> Forall encodable b.
Proof.
  intros -> Hf -> [He _]%Forall_app. rewrite Hf, !concat_app in He.
  apply Forall_app in He as [_ [_ He]%Forall_app]. by apply Forall_app in He as [? _].
Qed.

(** The invariant is kept by every step. *)
Lemma lstep_delivered log0 s0 st st' flushed sent reqs :
  is_Some (url_Parse (l_baseURL s0 +:+ "/api/logs/ingest")) -> lstep st st' ->
  Forall encodable (lw_accepted st') -> delivered log0 s0 st flushed sent reqs ->
  exists flushed' sent' reqs', delivered log0 s0 st' flushed' sent' reqs'.
Proof.
  intros Hu Hs He [Ha Hf Hb Hr Hl Hn Hc Ht].
  destruct Hs as [e y w acc|y w acc|y w acc p1 es p2 Hp|y w acc]; simpl in *.
  - unfold Store in *. destruct (l_closed (ls_store y)) eqn:Ec; simpl in *.
    { exists flushed, sent, reqs. split; simpl; rewrite ?Ec; auto. }
    set (y1 := mkLogSys _ _). assert (length (l_buf (ls_store y1)) <= logFlushSize)%nat as Hlen.
    { simpl. rewrite length_app. simpl. lia. }
    assert (acc ++ [ingest_entry e] = concat flushed ++ l_buf (ls_store y1)) as Ha1
      by (simpl; by rewrite Ha, app_assoc).
    match goal with |- context [if ?b then _ else _] => destruct b eqn:El end.
    + destruct (delivered_flush log0 s0 y1 w (acc ++ [ingest_entry e]) flushed sent reqs) as [flushed' Hd]; eauto.
    + exists flushed, sent, reqs. apply (Nat.leb_gt logFlushSize (length (l_buf (ls_store y1)))) in El. split; simpl; rewrite ?Ec; auto; done.
  - unfold timerFlush. destruct (l_closed (ls_store y)) eqn:Ec.
    { exists flushed, sent, reqs. split; simpl; rewrite ?Ec; auto. }
    destruct (delivered_flush log0 s0 y w acc flushed sent reqs) as [flushed' [Ha' Hf' Hb' Hr' Hl' Hn' Hc' Ht']]; auto; [lia|].
    exists flushed', sent, reqs. by split.
  - assert (Forall encodable es) as Hes by by eapply accepted_batch.
    rewrite Hp in Hf. destruct (post_flushed log0 s0 (ls_store y) w flushed sent reqs p1 es p2)
      as (reqs' & Hl' & Hr' & Hf'); [done..|]. exists flushed, (sent ++ [es]), reqs'. by split.
  - unfold closing, Close_locked. destruct (l_buf (ls_store y)) as [|e b] eqn:Eb.
    { exists flushed, sent, reqs. by split. }
    exists (flushed ++ [e :: b]), sent, reqs. split; simpl; try done.
    + by rewrite concat_app, Ha; simpl; rewrite !app_nil_r.
    + by rewrite Hf, app_assoc.
    + apply Forall_app. split; [done|]. rewrite Forall_singleton. split; simpl in *; lia.
    + unfold logFlushSize. lia.
Qed.

(** C18. Log delivery: whatever the order of calls to [Store], of the flush timer, of
    the sending goroutines and of [Close], every entry [Store] accepted is in
    exactly one place: in the buffer, with a goroutine or a caller of [Close]
    that has yet to send it, or in exactly one request posted to the ingest endpoint; the batches are
    consecutive slices of the accepted entries, of at most 50 entries, far below
    the server's limit.  After [Close], once these have sent, every
    accepted entry has been posted exactly once.  (Provided the entries can be
    encoded; a batch with an entry that cannot be is dropped as a whole.) *)
Theorem log_delivery base sid w0 st :
  is_Some (url_Parse (base +:+ "/api/logs/ingest")) ->
  rtc lstep (mkL (NewHTTPLogStore base sid) w0 []) st ->
  Forall encodable (lw_accepted st) ->
  exists flushed sent reqs,
    delivered (log (w_srv w0)) (ls_store (NewHTTPLogStore base sid)) st flushed sent reqs /\
    (l_closed (ls_store (lw_sys st)) = true -> ls_spawned (lw_sys st) = [] ->
       concat sent ≡ₚ lw_accepted st).
Proof.
  intros Hu Hsteps He. set (s0 := ls_store (NewHTTPLogStore base sid)).
  enough (exists flushed sent reqs, delivered (log (w_srv w0)) s0 st flushed sent reqs) as (flushed & sent & reqs & Hd).
  { exists flushed, sent, reqs. split; [done|]. intros Hcl Hsp. destruct Hd as [Ha Hf _ _ _ _ Hc _].
    rewrite Ha, (Hc Hcl), app_nil_r. rewrite Hsp, app_nil_r in Hf. by rewrite Hf. }
  revert st Hsteps He. refine (rtc_ind_r _ _ _ _).
  - intros _. exists [], [], []. split; simpl; try done; rewrite ?app_nil_r; try done. unfold logFlushSize; lia.
  - intros st st' _ Hs IH He. destruct IH as (flushed & sent & reqs & Hd); [|by eapply (lstep_delivered _ s0 st st')].
    destruct Hs; simpl in *; try done. destruct (is_ok _); [|done]. by apply Forall_app in He as [? _].
Qed.
End delivery.

(** ** Witness *)
Section witnesses.
Import SampleInstances.
Definition hello : LogEvent := mkLogEvent 0 InfoLevel "hello" "" "" "" "" ∅.
Definition idle : lstate (H := logging_env) :=
  mkL (H := logging_env) (NewHTTPLogStore "http://vire:8080" "portal") (@mkWorld logging_env [] 0 0) [].
Definition after_close : lstate (H := logging_env) :=
  let y := (Store hello (NewHTTPLogStore "http://vire:8080" "portal")).2 in
  let p := (log_Close (H := logging_env) (y, @mkWorld logging_env [] 0 0)).2 in
  mkL (H := logging_env) p.1 p.2 [ingest_entry hello].
Lemma after_close_reached : rtc (lstep (H := logging_env)) idle after_close.
Proof.
  eapply rtc_l; [apply (l_store (H := logging_env) hello)|].
  apply (log_Close_steps (H := logging_env)).
Qed.
Lemma log_delivery_witness : exists sent : list (list logIngestEntry), concat sent ≡ₚ [ingest_entry hello].
Proof.
  destruct (log_delivery (H := logging_env) id (fun q s => eq_refl) "http://vire:8080" "portal"
    (@mkWorld logging_env [] 0 0) after_close) as (flushed & sent & reqs & _ & Hs).
  - eexists. vm_compute. reflexivity.
  - exact after_close_reached.
  - apply Forall_singleton. eexists. vm_compute. reflexivity.
  - exists sent. apply Hs; vm_compute; reflexivity.
Defined.
End witnesses.
