(* ===== verification/Bridge.v ===== *)
(** * Bridge: the vire-mcp command (cmd/vire-mcp/main.go, oauth.go, tokenstore.go).

    The MCP client and its OAuth handler (github.com/mark3labs/mcp-go), the
    network, the local ports and the browser are the class [ClientLib]; a step
    of the command is a function of its state [lib]. *)
From S2P Require Import Prelude GoStrings GoCrypto GoJson GoURL GoHTTP GoPath OAuthBackend Samples OAuthStores Config.

(** [transport.OAuthAuthorizationRequiredError], found by [errors.As], or any
    other error. *)
Inductive client_error := AuthorizationRequired (msg : string) | OtherError (msg : string).
Definition error_text (e : client_error) : string :=
  match e with AuthorizationRequired m | OtherError m => m end.

Class ClientLib := {
  lib : Type;
  client_Start : M lib (option client_error);
  client_Initialize : M lib (option client_error);
  client_ListTools : M lib (result (list string));
  client_CallTool : string -> json -> M lib (client_error + json);
  GetServerMetadata : M lib (result unit);
  GetClientID : M lib string;
  RegisterClient : string -> M lib (result unit);
  GenerateCodeVerifier : M lib (result string);
  GenerateCodeChallenge : string -> string;
  GenerateState : M lib (result string);
  SetExpectedState : string -> M lib unit;
  GetAuthorizationURL : string -> string -> M lib (result string);
  ProcessAuthorizationResponse : string -> string -> string -> M lib (result unit);
  PostForm : string -> Values -> M lib (result Z);          (* the status of the answer *)
  (* the first request for /callback on a port of 127.0.0.1; None: five minutes pass *)
  await_callback : Z -> M lib (option Request);
  exec_Start : list string -> M lib (result unit);
  net_Listen : M lib (result Z);                            (* a free port of 127.0.0.1 *)
}.

(** ** Configuration (main.go) *)
Section config.
Context `{!Unicode} `{!FileSys}.
Context (getenv : string -> string) (ReadFile : string -> option string)
  (toml_Unmarshal : string -> Config -> option Config) (os_Executable : option string).

Definition binDir : string := match os_Executable with Some exe => filepath_Dir exe | None => "." end.
Definition configSearchPaths : list string :=
  dedup_paths ∅ [filepath_Join binDir "vire-mcp.toml"; filepath_Join binDir "config/vire-mcp.toml";
                 "vire-mcp.toml"; "config/vire-mcp.toml"].
Definition homeDir : string :=
  if decide (getenv "HOME" = "") then
    if decide (getenv "USERPROFILE" = "") then "." else getenv "USERPROFILE"
  else getenv "HOME".

Definition set_logging (f : LoggingConfig -> LoggingConfig) (c : Config) : Config :=
  mkConfig (Environment c) (AdminUsers c) (cfg_Server c) (API_URL c) (Portal_URL c) (Auth c) (Service c) (User c)
    (f (Logging c)) (CatalogRetries c).
Definition set_portal (url : string) (c : Config) : Config :=
  mkConfig (Environment c) (AdminUsers c) (cfg_Server c) (API_URL c) url (Auth c) (Service c) (User c)
    (Logging c) (CatalogRetries c).
(** The first file of the list that is there, if it loads. *)
Definition found_config : option Config :=
  path ← find (fun p => bool_decide (os_Stat p ≠ None)) configSearchPaths;
  result_option (LoadFromFile getenv ReadFile toml_Unmarshal path).
Definition bridge_default : Config :=
  set_logging (fun l => mkLoggingConfig "info" (Format l) ["console"; "file"] "logs/vire-mcp.log" 10 3) NewDefaultConfig.
Definition loadConfig : Config :=
  let cfg := default bridge_default found_config in
  let cfg := set_portal (env_or getenv "VIRE_PORTAL_URL" (Portal_URL cfg)) cfg in
  set_logging (fun l =>
    let path := FilePath l in
    mkLoggingConfig (env_or getenv "VIRE_LOG_LEVEL" (Level l)) (Format l) (Outputs l)
      (if negb (bool_decide (path = "")) && negb (IsAbs path) then filepath_Join binDir path else path)
      (MaxSizeMB l) (MaxBackups l)) cfg.

(** [strings.Index(s, sub)], where found. *)
Fixpoint index_of (sub s : string) : option nat :=
  if HasPrefix s sub then Some 0%nat
  else match s with "" => None | String _ r => S <$> index_of sub r end.
(** The direct endpoint and the portal it belongs to, or the portal to log in to. *)
Inductive mode := Direct (mcpURL portalURL : string) | WithOAuth (portalURL : string).
Definition connection_mode (cfg : Config) : mode :=
  let mcpURL := getenv "VIRE_MCP_URL" in
  if decide (mcpURL = "") then WithOAuth (trim_right_byte "/" (Portal_URL cfg))
  else
    let mcpURL := trim_right_byte "/" mcpURL in
    Direct mcpURL (match index_of "/mcp/" mcpURL with
                   | Some (S n) => str_take (S n) mcpURL
                   | _ => mcpURL
                   end).
End config.

(** ** The OAuth flow (oauth.go) *)
Record callbackResult := mkCallbackResult { cb_code : string; cb_state : string; cb_err : option string }.
(** The handler of /callback: what it sends on the channel, and its page. *)
Definition failed_page (desc : string) : string :=
  "<html><body><h1>Authorization Failed</h1><p>" +:+ desc +:+ "</p><p>You can close this tab.</p></body></html>".
Definition ok_page : string :=
  "<html><body><h1>Authorization Successful</h1><p>You can close this tab and return to the terminal.</p></body></html>".
Definition handle_callback (w : ResponseWriter) (r : Request) : callbackResult * ResponseWriter :=
  let q := Query r in
  let errCode := Values_Get q "error" in
  if decide (errCode = "") then
    (mkCallbackResult (Values_Get q "code") (Values_Get q "state") None,
     Write ok_page (rw_set "Content-Type" "text/html" w))
  else
    let desc := Values_Get q "error_description" in
    (mkCallbackResult "" "" (Some (errCode +:+ ": " +:+ desc)),
     Write (failed_page desc) (rw_set "Content-Type" "text/html" w)).

(** The token store (tokenstore.go); its operations are below. *)
Record FileTokenStore := mkFileTokenStore { ts_path : string }.
Definition NewFileTokenStore (path : string) : FileTokenStore := mkFileTokenStore path.

Section flow.
Context `{!ClientLib} `{!NetURL} `{!Unicode}.
Context (GOOS : string) (getenv : string -> string) (docker : bool) (proc_version : option string).

Definition isDocker : bool := docker.        (* os.Stat of /.dockerenv succeeds *)
Definition isWSL : bool :=
  if decide (getenv "WSL_DISTRO_NAME" = "") then
    match proc_version with
    | None => false
    | Some data => let lower := ToLower data in Contains lower "microsoft" || Contains lower "wsl"
    end
  else true.
(** The command line that opens the browser, or why there is none. *)
Definition browser_command (url : string) : result (list string) :=
  if isDocker then Err "running inside Docker container, no browser available"
  else if decide (GOOS = "linux") then
    Ok (if isWSL then ["cmd.exe"; "/c"; "start"; url] else ["xdg-open"; url])
  else if decide (GOOS = "darwin") then Ok ["open"; url]
  else if decide (GOOS = "windows") then Ok ["cmd"; "/c"; "start"; url]
  else Err ("unsupported platform: " +:+ GOOS).
Definition openBrowser (url : string) : M lib (result unit) :=
  match browser_command url with Err e => mret (Err e) | Ok args => exec_Start args end.

Definition base_of (u : URL) : string := Scheme u +:+ "://" +:+ UHost u.
Definition prepareAuthSession (authURL : string) : M lib (result unit) :=
  match url_Parse authURL with
  | None => mret (Err "parse authorize URL")
  | Some u =>
      resp ← PostForm (base_of u +:+ "/authorize") (ParseQuery (RawQuery u));
      mret (match resp with
            | Err e => Err ("POST /authorize: " +:+ e)
            | Ok status => if negb (status =? StatusOK) then Err ("POST /authorize returned " +:+ Itoa status) else Ok tt
            end)
  end.
(** The short URL the browser opens once the session is prepared. *)
Definition short_url (u : URL) : string :=
  base_of u +:+ "/authorize?client_id=" +:+ QueryEscape (Values_Get (ParseQuery (RawQuery u)) "client_id").
Definition browser_url (authURL : string) (prepared : result unit) : string :=
  match prepared, url_Parse authURL with
  | Ok _, Some u => short_url u
  | _, _ => authURL
  end.

(** One step of the flow that may fail, with its context in the error. *)
Definition attempt {A B} (what : string) (m : M lib (result A)) (k : A -> M lib (result B)) : M lib (result B) :=
  r ← m; match r with Ok a => k a | Err e => mret (Err (what +:+ ": " +:+ e)) end.
Definition doOAuthFlow (callbackPort : Z) : M lib (result unit) :=
  attempt "metadata discovery" GetServerMetadata (fun _ =>
  id ← GetClientID;
  attempt "client registration" (if decide (id = "") then RegisterClient "vire-mcp" else mret (Ok tt)) (fun _ =>
  attempt "PKCE verifier" GenerateCodeVerifier (fun codeVerifier =>
  let codeChallenge := GenerateCodeChallenge codeVerifier in
  attempt "state generation" GenerateState (fun state =>
  SetExpectedState state ;;
  attempt "authorization URL" (GetAuthorizationURL state codeChallenge) (fun authURL =>
  prepared ← prepareAuthSession authURL;
  openBrowser (browser_url authURL prepared) ;;        (* a failure is reported and the URL printed *)
  request ← await_callback callbackPort;
  match request with
  | None => mret (Err "authorization timed out")
  | Some r =>
      let result := (handle_callback rw0 r).1 in
      match cb_err result with
      | Some e => mret (Err ("callback: " +:+ e))
      | None => attempt "token exchange"
                  (ProcessAuthorizationResponse (cb_code result) (cb_state result) codeVerifier) (fun _ => mret (Ok tt))
      end
  end))))).

(** ** Connecting (main.go) *)
(** [None]: the flow has run and the step may be tried again. *)
Definition runOAuthIfNeeded (e : client_error) (callbackPort : Z) : M lib (option string) :=
  match e with
  | OtherError m => mret (Some m)
  | AuthorizationRequired _ =>
      r ← doOAuthFlow callbackPort;
      mret (match r with Ok _ => None | Err e => Some ("OAuth flow: " +:+ e) end)
  end.
(** A step of the connection: once more after a successful flow. *)
Definition with_oauth (what : string) (m : M lib (option client_error)) (callbackPort : Z) : M lib (result unit) :=
  r ← m;
  match r with
  | None => mret (Ok tt)
  | Some e =>
      f ← runOAuthIfNeeded e callbackPort;
      match f with
      | Some msg => mret (Err (what +:+ ": " +:+ msg))
      | None =>
          r ← m;
          mret (match r with None => Ok tt | Some e => Err (what +:+ " after auth: " +:+ error_text e) end)
      end
  end.
Definition connectWithOAuth (callbackPort : Z) : M lib (result unit) :=
  started ← with_oauth "start" client_Start callbackPort;
  match started with
  | Err e => mret (Err e)
  | Ok _ => with_oauth "initialize" client_Initialize callbackPort
  end.
Definition connectDirect : M lib (result unit) :=
  r ← client_Start;
  match r with
  | Some e => mret (Err ("start: " +:+ error_text e))
  | None => r ← client_Initialize;
            mret (match r with Some e => Err ("initialize: " +:+ error_text e) | None => Ok tt end)
  end.

Definition simpleProxyHandler (toolName : string) (args : json) : M lib (client_error + json) :=
  client_CallTool toolName args.
(** The variant that logs in again; [main] does not use it. *)
Definition proxyHandler (toolName : string) (callbackPort : Z) (args : json) : M lib (client_error + json) :=
  r ← client_CallTool toolName args;
  match r with
  | inr x => mret (inr x)
  | inl (AuthorizationRequired _) =>
      f ← doOAuthFlow callbackPort;
      match f with
      | Err e => mret (inl (OtherError ("re-auth failed: " +:+ e)))
      | Ok _ => client_CallTool toolName args
      end
  | inl e => mret (inl e)
  end.
Definition findFreePort : M lib (result Z) := net_Listen.

(** [transport.OAuthConfig], as far as it is set. *)
Record OAuthConfig := mkOAuthConfig {
  RedirectURI : string; TokenStore : FileTokenStore; PKCEEnabled : bool; AuthServerMetadataURL : string }.
Definition redirect_uri (port : Z) : string := "http://127.0.0.1:" +:+ Itoa port +:+ "/callback".
Definition oauth_config (portalURL : string) (port : Z) : OAuthConfig :=
  mkOAuthConfig (redirect_uri port)
    (NewFileTokenStore (filepath_Join (homeDir getenv) ".vire/credentials.json")) true
    (portalURL +:+ "/.well-known/oauth-authorization-server").

(** [main] up to the connection: the URL connected to, the OAuth configuration
    and the port of the callback server, or the exit with status 1.  The
    library is created from the configuration by [NewStreamableHTTP]. *)
Record connected := mkConnected { cn_url : string; cn_oauth : option (OAuthConfig * Z) }.
Context (NewStreamableHTTP : string -> option OAuthConfig -> M lib (result unit)).
Definition bridge_connect (m : mode) : M lib (result connected) :=
  match m with
  | Direct mcpURL _ =>
      r ← NewStreamableHTTP mcpURL None;
      match r with
      | Err e => mret (Err e)
      | Ok _ => r ← connectDirect; mret (_ ← r; Ok (mkConnected mcpURL None))
      end
  | WithOAuth portalURL =>
      p ← findFreePort;
      match p with
      | Err e => mret (Err e)
      | Ok port =>
          let conf := oauth_config portalURL port in
          r ← NewStreamableHTTP (portalURL +:+ "/mcp") (Some conf);
          match r with
          | Err e => mret (Err e)
          | Ok _ =>
              q ← findFreePort;                                   (* callbackPort, _ := findFreePort() *)
              let callbackPort := default 0 (result_option q) in
              r ← connectWithOAuth callbackPort;
              mret (_ ← r; Ok (mkConnected (portalURL +:+ "/mcp") (Some (conf, callbackPort))))
          end
      end
  end.
(** The tools re-exposed over stdio, each with the handler that forwards its
    calls; a failed listing leaves none. *)
Definition bridge_tools : M lib (list (string * (json -> M lib (client_error + json)))) :=
  r ← client_ListTools;
  mret ((fun t => (t, simpleProxyHandler t)) <$> default [] (result_option r)).
End flow.

(** ** The token file (tokenstore.go)

    [Token] is [transport.Token]; [unmarshal] of what [marshal] wrote is
    [norm] of the token, which is the token but for the monotonic clock reading
    of its expiry time.  [os.ReadFile] fails because the file is not there, or
    otherwise. *)
Class TokenCodec := {
  Token : Type;
  marshal : Token -> option string;
  unmarshal : string -> option Token;
  norm : Token -> Token;
}.
Class TokenCodecLaws `{!TokenCodec} : Prop := {
  unmarshal_marshal t d : marshal t = Some d -> unmarshal d = Some (norm t);
}.
Inductive read_result := Data (d : string) | NotExist | ReadError (msg : string).
Class Disk := {
  disk : Type;
  disk_Read : string -> disk -> read_result;
  disk_MkdirAll : string -> M disk (result unit);
  disk_Write : string -> string -> M disk (result unit);
}.
Class DiskLaws `{!Disk} : Prop := {
  read_written p d s s' : disk_Write p d s = (Ok tt, s') -> disk_Read p s' = Data d;
}.

Section tokens.
Context `{!TokenCodec} `{!Disk}.
(** [ErrNoToken] or another error. *)
Inductive token_error := ErrNoToken | TokenError (msg : string).
Definition GetToken (s : FileTokenStore) (d : disk) : token_error + Token :=
  match disk_Read (ts_path s) d with
  | NotExist => inl ErrNoToken
  | ReadError e => inl (TokenError e)
  | Data data => match unmarshal data with Some t => inr t | None => inl ErrNoToken end
  end.
Definition SaveToken (s : FileTokenStore) (t : Token) : M disk (result unit) :=
  r ← disk_MkdirAll (filepath_Dir (ts_path s));
  match r with
  | Err e => mret (Err e)
  | Ok _ => match marshal t with
            | None => mret (Err "json")
            | Some data => disk_Write (ts_path s) data
            end
  end.
End tokens.
