(* ===== verification/BridgeTheorems.v ===== *)
(** * BridgeTheorems: the vire-mcp command, alone and against the portal. *)
From S2P Require Import Prelude GoStrings GoCrypto GoJson GoURL GoHTTP GoPath OAuthBackend Samples OAuthStores JWT OAuthServer OAuthTheorems Config Bridge.

(** ** The token file *)
Section tokens.
Context `{!TokenCodec} `{!TokenCodecLaws} `{!Disk} `{!DiskLaws}.

(** The token file: a token that was saved without an error is the one read
    back (its expiry without the monotonic clock reading); a file that is not
    there or does not hold a token counts as no token at all, and every other
    read error is reported as such. *)
Lemma token_store_roundtrip path t d d' :
  let s := NewFileTokenStore path in
  (SaveToken s t d = (Ok tt, d') -> GetToken s d' = inr (norm t)) /\
  (disk_Read path d = NotExist -> GetToken s d = inl ErrNoToken) /\
  (forall data, disk_Read path d = Data data -> unmarshal data = None -> GetToken s d = inl ErrNoToken) /\
  (forall e, disk_Read path d = ReadError e -> GetToken s d = inl (TokenError e)).
Proof.
  intros s. unfold GetToken, SaveToken. simpl. split_and!.
  - rewrite M_bind_unfold. destruct (disk_MkdirAll _ d) as [[u|e] d1]; [|done].
    destruct (marshal t) as [data|] eqn:Em; [|done]. intros Hw. rewrite (read_written _ _ _ _ Hw).
    by rewrite (unmarshal_marshal _ _ Em).
  - by intros ->.
  - by intros data -> ->.
  - by intros e ->.
Qed.
End tokens.

(** ** Preparing the session *)
Section portal.
Context `{!Env} `{!NetURL} `{!Unicode} `{!TimeCodec}.

(** The form the portal reads from a posted [url.Values]. *)
Definition posted (v : Values) : Values := ParseQuery (Values_Encode v).
Lemma posted_query q : posted (ParseQuery q) = ParseQuery q.
Proof. apply ParseQuery_Encode, ParseQuery_wf. Qed.

Lemma short_query cid : ParseQuery ("client_id=" +:+ QueryEscape cid) = {["client_id" := [cid]]}.
Proof.
  change ("client_id=" +:+ QueryEscape cid) with (enc_pair ("client_id", cid)).
  unfold ParseQuery. rewrite Split_last by (by apply enc_pair_no_byte). cbn [foldl].
  rewrite add_pair_enc. unfold put_pair. simpl. by rewrite lookup_empty, insert_empty.
Qed.

Lemma best_in_newest cid now (m : gmap string AuthSession) x :
  m !! SessionID x = Some x -> s_ClientID x = cid -> session_expired now x = false ->
  (forall id y, m !! id = Some y -> s_ClientID y = cid -> id ≠ SessionID x -> s_CreatedAt y < s_CreatedAt x) ->
  best_in cid now (map_to_list m) = Some x.
Proof.
  intros Hx Hc He Hold. unfold best_in.
  destruct (best_in_spec cid now (map_to_list m) None) as (H1' & _ & H3').
  destruct (H3' x) as (y & Hy & Hle).
  { apply list_elem_of_fmap. exists (SessionID x, x). split; [done|]. by apply elem_of_map_to_list. }
  { done. }
  rewrite Hy. f_equal. destruct (H1' y Hy) as [?|[Hin [Hyc _]]]; [done|].
  apply list_elem_of_fmap in Hin as ([id y'] & -> & Hin%elem_of_map_to_list). simpl in *.
  destruct (decide (id = SessionID x)) as [->|Hne]; [by simplify_eq|].
  specialize (Hold id y' Hin Hyc Hne). lia.
Qed.

(** [x] is the newest session of its client in [s]. *)
Definition newest_session (x : AuthSession) (s : OAuthServer) : Prop :=
  sessions (o_sessions s) !! SessionID x = Some x /\
  forall id y, sessions (o_sessions s) !! id = Some y -> s_ClientID y = s_ClientID x -> id ≠ SessionID x ->
    s_CreatedAt y < s_CreatedAt x.
(** Opening the short URL goes on with the newest pending session of the client. *)
Lemma short_url_resumes r s w x :
  let user := session_user (CookieValue r "vire_session") (o_jwtSecret s) (clock (S (w_tick w))) in
  Method r = "GET" -> RawQ r = "client_id=" +:+ QueryEscape (s_ClientID x) -> s_ClientID x ≠ "" ->
  newest_session x s -> session_expired (clock (w_tick w)) x = false ->
  HandleAuthorize rw0 r (s, w) =
    if decide (user = "") then
      (Redirect (set_cookie (mcp_session_cookie (SessionID x)) rw0) r ("/?mcp_session=" +:+ SessionID x) StatusFound,
       (s, tick (tick w)))
    else let '(res, st) := CompleteAuthorization (SessionID x) user (s, tick (tick w)) in
         (match res with
          | Ok url => Redirect rw0 r url StatusFound
          | Err _ => Redirect (set_cookie (mcp_session_cookie (SessionID x)) rw0) r ("/?mcp_session=" +:+ SessionID x) StatusFound
          end, st).
Proof.
  intros user Hm Hq Hne [Hx Hold] He. unfold HandleAuthorize. rewrite Hm. simpl.
  unfold handleAuthorizeGET, Query. rewrite Hq, short_query.
  change (Values_Get {["client_id" := [s_ClientID x]]} "client_id") with (s_ClientID x).
  change (Values_Get {["client_id" := [s_ClientID x]]} "redirect_uri") with "". rewrite decide_True by done.
  rewrite decide_False by done. rewrite on_sessions_bind.
  assert (GetByClientID (s_ClientID x) (o_sessions s, w) = (Some x, (o_sessions s, tick w))) as ->.
  { unfold GetByClientID. mrun. by rewrite (best_in_newest _ _ _ x) by done. }
  replace (set_o_sessions (o_sessions s) s) with s by (by destruct s).
  unfold setSessionCookieAndRedirect, extractSessionUserID. orun. cbn [w_tick tick]. fold user.
  case_decide; [done|]. rewrite M_bind_unfold. by destruct (CompleteAuthorization _ _ _) as [[url|e] st].
Qed.

(** Posting the query of an authorization URL creates a session for its client,
    with its redirect URI, state and challenge. *)
Lemma posted_login u r s w :
  let v := ParseQuery (RawQuery u) in
  Method r = "POST" -> Form r = posted v ->
  let '(rw, (s1, _)) := HandleAuthorize rw0 r (s, w) in
  rw_status rw = StatusOK ->
  Values_Get v "client_id" ≠ "" /\
  exists x, sessions (o_sessions s1) = <[SessionID x := x]> (sessions (o_sessions s)) /\
    s_ClientID x = Values_Get v "client_id" /\ s_RedirectURI x = Values_Get v "redirect_uri" /\
    s_State x = Values_Get v "state" /\ s_CodeChallenge x = Values_Get v "code_challenge".
Proof.
  intros v Hm Hf. unfold v in Hf. rewrite posted_query in Hf. fold v in Hf.
  unfold HandleAuthorize. rewrite Hm. simpl. unfold handleAuthorizePOST, FormValue. rewrite Hf.
  destruct (FormErr r); [done|]. destruct (decide (Values_Get v "redirect_uri" = "")); [done|].
  destruct (redirect_ok _); simpl; [|done]. destruct (decide (Values_Get v "client_id" = "" \/ _)) as [|Hp]; [done|].
  case_bool_decide; simpl; [|done]. case_bool_decide; simpl; [|done]. rewrite M_bind_unfold.
  match goal with |- context [createAuthSession ?a ?b ?c ?d ?e ?f ?g (s, w)] =>
    pose proof (createAuthSession_cases a b c d e f g s w) as Hc;
    destruct (createAuthSession a b c d e f g (s, w)) as [[sid|e'] [s1 w1]] end; [|by simpl].
  intros _. split; [tauto|]. destruct Hc as (_ & _ & _ & _ & _ & tick & Hs). eexists. by split; [exact Hs|].
Qed.

Context `{!ClientLib} (portal : lib -> OAuthServer * World).
(** [http.PostForm] to [url] runs the handler of POST /authorize on the posted form. *)
Definition posts_to_portal (url : string) : Prop := forall form l, exists r l',
  Method r = "POST" /\ Form r = posted form /\
  PostForm url form l = (Ok (rw_status (HandleAuthorize rw0 r (portal l)).1), l') /\
  portal l' = (HandleAuthorize rw0 r (portal l)).2.

(** C23. The login the bridge starts is the one the browser finishes.  Suppose a
    form posted to the /authorize URL of the portal runs its handler there.
    When the POST of [prepareAuthSession] succeeds, the portal has gained
    exactly one pending session, with the client, redirect URI, state and
    challenge of the authorization URL.  The short URL the browser then opens
    carries the client id alone; in every later state of the portal in which
    that session is held and unexpired and each other session of the client was
    created strictly before it, that URL goes on with that session, however the
    client id is spelled: a browser without a valid portal session is sent to
    the login page with the session's cookie, a logged-in one has the
    authorization of that session completed for its user. *)
Theorem bridge_login_reaches_session authURL u r l l' :
  let v := ParseQuery (RawQuery u) in
  url_Parse authURL = Some u -> posts_to_portal (base_of u +:+ "/authorize") ->
  prepareAuthSession authURL l = (Ok tt, l') ->
  Method r = "GET" -> browser_url authURL (Ok tt) = base_of u +:+ "/authorize?" +:+ RawQ r ->
  exists x, sessions (o_sessions (portal l').1) = <[SessionID x := x]> (sessions (o_sessions (portal l).1)) /\
    s_ClientID x = Values_Get v "client_id" /\ s_RedirectURI x = Values_Get v "redirect_uri" /\
    s_State x = Values_Get v "state" /\ s_CodeChallenge x = Values_Get v "code_challenge" /\
    forall s w, newest_session x s -> session_expired (clock (w_tick w)) x = false ->
      let user := session_user (CookieValue r "vire_session") (o_jwtSecret s) (clock (S (w_tick w))) in
      let '(rw, (s', w')) := HandleAuthorize rw0 r (s, w) in
      (user = "" -> s' = s /\ rw_status rw = StatusFound /\ sent_cookies rw = [mcp_session_cookie (SessionID x)]) /\
      (user ≠ "" -> let '(res, st) := CompleteAuthorization (SessionID x) user (s, tick (tick w)) in
         (s', w') = st /\ forall url, res = Ok url -> rw = Redirect rw0 r url StatusFound).
Proof.
  intros v Hu Hpp Hprep Hm Hurl. unfold browser_url in Hurl. rewrite Hu in Hurl.
  unfold prepareAuthSession in Hprep. rewrite Hu, M_bind_unfold in Hprep.
  destruct (Hpp (ParseQuery (RawQuery u)) l) as (r1 & l1 & Hm1 & Hf1 & Hpost & Hp).
  rewrite Hpost in Hprep. destruct (portal l) as [s w] eqn:Es.
  pose proof (posted_login u r1 s w Hm1 Hf1) as Hx. fold v in Hx.
  destruct (HandleAuthorize rw0 r1 (s, w)) as [rw1 [s1 w1]]. simpl in Hp, Hprep.
  destruct (rw_status rw1 =? StatusOK) eqn:E; [|done]. injection Hprep as <-. rewrite Hp. simpl.
  destruct Hx as (Hne & x & Hs & Hc & Hr & Hst & Hch); [by apply Z.eqb_eq|].
  exists x. split_and!; [done..|]. intros s2 w2 Hnew He.
  assert (RawQ r = "client_id=" +:+ QueryEscape (s_ClientID x)) as Hq.
  { rewrite Hc. unfold short_url in Hurl. fold v in Hurl. apply (inj (String.append (base_of u))) in Hurl.
    by apply (inj (String.append "/authorize?") ("client_id=" +:+ QueryEscape (Values_Get v "client_id"))) in Hurl. }
  cbv zeta. rewrite (short_url_resumes r s2 w2 x) by (done || by rewrite Hc). case_decide as Hus.
  - by split.
  - destruct (CompleteAuthorization _ _ _) as [res [s' w']]. split; [done|]. intros _. split; [done|]. by intros url ->.
Qed.
End portal.

(** ** Ports, pages and modes *)
Section bridge.
Context `{!ClientLib} `{!NetURL} `{!Unicode}.
Context (GOOS : string) (getenv : string -> string) (docker : bool) (proc_version : option string).
Context (NewStreamableHTTP : string -> option OAuthConfig -> M lib (result unit)).
Notation connect := (bridge_connect GOOS getenv docker proc_version NewStreamableHTTP).

Lemma Itoa_inj a b : - 2 ^ 63 <= a < 2 ^ 63 -> - 2 ^ 63 <= b < 2 ^ 63 -> Itoa a = Itoa b -> a = b.
Proof. intros Ha Hb E. apply ParseInt_Itoa in Ha, Hb. rewrite E in Ha. congruence. Qed.
Lemma append_suffix_inj s t u : s +:+ u = t +:+ u -> s = t.
Proof.
  intros E. assert (slen s = slen t) as Hl by (apply (f_equal slen) in E; rewrite !slen_append in E; lia).
  apply (f_equal (str_take (slen s))) in E. rewrite str_take_append, Hl, str_take_append in E. done.
Qed.
Lemma redirect_uri_inj p q : 0 <= p <= 65535 -> 0 <= q <= 65535 -> redirect_uri p = redirect_uri q -> p = q.
Proof.
  intros Hp Hq E. unfold redirect_uri in E. apply (inj (String.append "http://127.0.0.1:")) in E.
  apply append_suffix_inj in E. by apply Itoa_inj in E; [|lia..].
Qed.

(** In OAuth mode the bridge asks for a free port twice: the redirect URI it
    registers names the first, the callback server listens on the second.
    Whenever the system hands out two different ports, the browser is sent to
    an address where nothing listens. *)
Lemma bridge_callback_port_mismatch url l p1 l1 l2 p2 l3 :
  findFreePort l = (Ok p1, l1) ->
  NewStreamableHTTP (url +:+ "/mcp") (Some (oauth_config getenv url p1)) l1 = (Ok tt, l2) ->
  findFreePort l2 = (Ok p2, l3) -> 0 <= p1 <= 65535 -> 0 <= p2 <= 65535 -> p1 ≠ p2 ->
  connect (WithOAuth url) l =
    (let '(r, l4) := connectWithOAuth GOOS getenv docker proc_version p2 l3 in
     (_ ← r; Ok (mkConnected (url +:+ "/mcp") (Some (oauth_config getenv url p1, p2))), l4)) /\
  RedirectURI (oauth_config getenv url p1) ≠ redirect_uri p2.
Proof.
  intros H1' H2' H3' Hp1 Hp2 Hne. split.
  - unfold bridge_connect. rewrite M_bind_unfold, H1'. rewrite M_bind_unfold, H2'. rewrite M_bind_unfold, H3'.
    rewrite M_bind_unfold. cbn. by destruct (connectWithOAuth _ _ _ _ p2 l3).
  - intros E. apply Hne. by apply redirect_uri_inj.
Qed.

(** An error that is not a missing authorization ends the connection without
    opening a browser; a missing authorization is dealt with at most once per
    step. *)
Lemma other_error_no_flow m l l' port :
  client_Start l = (Some (OtherError m), l') ->
  connectWithOAuth GOOS getenv docker proc_version port l = (Err ("start: " +:+ m), l').
Proof. intros Hs. unfold connectWithOAuth, with_oauth. rewrite !M_bind_unfold, Hs. done. Qed.
End bridge.

(** The page shown for a failed authorization contains the description from the
    query as it is. *)
Lemma callback_page_unescaped r desc :
  Query r = {["error" := ["access_denied"]; "error_description" := [desc]]} ->
  rw_body (handle_callback rw0 r).2 = failed_page desc.
Proof. unfold handle_callback. intros ->. done. Qed.

(** An endpoint generated for development selects the direct mode, for the
    portal it was generated on. *)
Lemma index_of_eq sub s :
  index_of sub s = if HasPrefix s sub then Some 0%nat else match s with "" => None | String _ r => S <$> index_of sub r end.
Proof. by destruct s. Qed.
Lemma index_of_first sub pre rest :
  (forall n, (n < slen pre)%nat -> HasPrefix (str_drop n (pre +:+ sub +:+ rest)) sub = false) ->
  index_of sub (pre +:+ sub +:+ rest) = Some (slen pre).
Proof.
  induction pre as [|a pre IH]; intros Hn; [rewrite append_nil_l, index_of_eq; by rewrite HasPrefix_append|].
  rewrite index_of_eq. specialize (Hn 0%nat) as H0. cbn [str_drop] in H0. rewrite H0 by (simpl; lia).
  rewrite append_cons. rewrite IH; [done|]. intros n Hlt. specialize (Hn (S n)). rewrite append_cons in Hn.
  cbn [str_drop] in Hn. apply Hn. simpl. lia.
Qed.
Lemma rev_append_str s t : String.rev (s +:+ t) = String.rev t +:+ String.rev s.
Proof.
  induction s as [|a s IH]; [by rewrite append_nil_l, append_nil_r|].
  by rewrite append_cons, !rev_cons, IH, append_assoc.
Qed.
Lemma trim_right_kept c s t : t ≠ "" -> no_byte c t = true -> trim_right_byte c (s +:+ t) = s +:+ t.
Proof.
  intros Ht Hc. unfold trim_right_byte. rewrite rev_append_str, <-(no_byte_rev c t) in *.
  destruct (String.rev t) as [|a r] eqn:E; [by apply (f_equal String.rev) in E; rewrite rev_rev in E|].
  apply no_byte_cons in Hc as [Ha _]. rewrite append_cons. simpl. rewrite decide_False by done.
  by rewrite <-append_cons, <-E, <-rev_append_str, rev_rev.
Qed.
Lemma direct_mode getenv cfg base uid :
  getenv "VIRE_MCP_URL" = base +:+ "/mcp/" +:+ uid -> base ≠ "" -> uid ≠ "" -> no_byte "/" uid = true ->
  (forall n, (n < slen base)%nat -> HasPrefix (str_drop n (base +:+ "/mcp/" +:+ uid)) "/mcp/" = false) ->
  connection_mode getenv cfg = Direct (base +:+ "/mcp/" +:+ uid) base.
Proof.
  intros Hg Hb Hu Hn Hf. unfold connection_mode. rewrite Hg. rewrite decide_False by (by destruct base).
  assert (trim_right_byte "/" (base +:+ "/mcp/" +:+ uid) = base +:+ "/mcp/" +:+ uid) as ->.
  { rewrite <-append_assoc. by apply trim_right_kept. }
  rewrite (index_of_first "/mcp/" base uid Hf). destruct (slen base) eqn:El; [by destruct base|].
  by rewrite <-El, str_take_append.
Qed.

(** ** Witnesses *)
Section witnesses.
Import SampleInstances.

(** Tokens as their text; a disk with room for one-line files. *)
#[local] Instance text_codec : TokenCodec := {| Token := string; marshal := Some; unmarshal := Some; norm := id |}.
#[local] Instance text_codec_laws : TokenCodecLaws.
Proof. split. by intros t d [= ->]. Qed.
#[local] Instance map_disk : Disk := {|
  disk := gmap string string;
  disk_Read := fun p d => match d !! p with Some x => Data x | None => NotExist end;
  disk_MkdirAll := fun _ d => (Ok tt, d);
  disk_Write := fun p x d => if (slen x <? 80)%nat then (Ok tt, <[p := x]> d) else (Err "no space left on device", d) |}.
#[local] Instance map_disk_laws : DiskLaws.
Proof. split. intros p d s s'. simpl. destruct (_ <? _)%nat; [|done]. intros [= <-]. by rewrite lookup_insert_eq. Qed.

Definition bridge_url : URL :=
  mkURL "http" "" "" "portal.test" "/authorize"
    ("client_id=c%2F1&code_challenge=E9Melhoa2OwvFrEMTJguCHaoeK1t8URWbuGJSstw-cM&code_challenge_method=S256" +:+
     "&redirect_uri=http%3A%2F%2F127.0.0.1%3A4000%2Fcallback&response_type=code&state=xyz") "".
Definition bridge_server : OAuthServer := NewOAuthServer "http://portal.test" "http://vire:8080" "secret".
Definition post_request (form : Values) : Request :=
  mkRequest "POST" "/authorize" "/authorize" "" "portal.test" false ∅ [] false (posted form) (Some "").
Definition short_request : Request :=
  mkRequest "GET" "/authorize" "/authorize" "client_id=c%2F1" "portal.test" false ∅ [] false ∅ None.
(** A library whose state is the portal. *)
Definition portal_lib : ClientLib := {|
  lib := OAuthServer * World;
  client_Start := fun l => (None, l); client_Initialize := fun l => (None, l);
  client_ListTools := fun l => (Ok [], l); client_CallTool := fun _ _ l => (inr JNull, l);
  GetServerMetadata := fun l => (Ok tt, l); GetClientID := fun l => ("", l); RegisterClient := fun _ l => (Ok tt, l);
  Bridge.GenerateCodeVerifier := fun l => (Ok "v", l); Bridge.GenerateCodeChallenge := id;
  GenerateState := fun l => (Ok "s", l); SetExpectedState := fun _ l => (tt, l);
  GetAuthorizationURL := fun _ _ l => (Ok "http://portal.test/authorize", l);
  ProcessAuthorizationResponse := fun _ _ _ l => (Ok tt, l);
  PostForm := fun _ form l => let '(rw, l') := HandleAuthorize rw0 (post_request form) l in (Ok (rw_status rw), l');
  await_callback := fun _ l => (None, l); exec_Start := fun _ l => (Ok tt, l);
  net_Listen := fun l => (Ok 4000, l) |}.
Lemma bridge_login_reaches_session_witness :
  exists x, sessions (o_sessions
    (@prepareAuthSession portal_lib _ (sample_string bridge_url) (bridge_server, sample_world)).2.1) = {[SessionID x := x]} /\
    s_ClientID x = "c/1".
Proof.
  assert ((@prepareAuthSession portal_lib _ (sample_string bridge_url) (bridge_server, sample_world)).1 = Ok tt) as Hok
    by (vm_compute; reflexivity).
  destruct (@prepareAuthSession portal_lib _ _ _) as [res l'] eqn:Ep. simpl in Hok. subst res.
  destruct (@bridge_login_reaches_session _ _ _ _ portal_lib id) with
    (authURL := sample_string bridge_url) (u := bridge_url) (r := short_request) (l := (bridge_server, sample_world)) (l' := l')
    as (x & Hx & Hc & _).
  - vm_compute. reflexivity.
  - intros form l. exists (post_request form), (HandleAuthorize rw0 (post_request form) l).2. split; [reflexivity|]. split; [reflexivity|].
    cbn [PostForm portal_lib]. unfold id. destruct (HandleAuthorize rw0 (post_request form) l) as [rw l2]. split; reflexivity.
  - exact Ep.
  - reflexivity.
  - vm_compute. reflexivity.
  - exists x. split; [exact Hx|]. rewrite Hc. vm_compute. reflexivity.
Defined.

(** A library whose state is the next free port. *)
#[local] Instance counting_lib : ClientLib := {|
  lib := Z;
  client_Start := fun l => (None, l); client_Initialize := fun l => (None, l);
  client_ListTools := fun l => (Ok [], l); client_CallTool := fun _ _ l => (inr JNull, l);
  GetServerMetadata := fun l => (Ok tt, l); GetClientID := fun l => ("", l); RegisterClient := fun _ l => (Ok tt, l);
  Bridge.GenerateCodeVerifier := fun l => (Ok "v", l); Bridge.GenerateCodeChallenge := id;
  GenerateState := fun l => (Ok "s", l); SetExpectedState := fun _ l => (tt, l);
  GetAuthorizationURL := fun _ _ l => (Ok "http://portal.test/authorize", l);
  ProcessAuthorizationResponse := fun _ _ _ l => (Ok tt, l); PostForm := fun _ _ l => (Ok 200, l);
  await_callback := fun _ l => (None, l); exec_Start := fun _ l => (Ok tt, l);
  net_Listen := fun l => (Ok l, l + 1) |}.
End witnesses.
