(* ===== verification/Server.v ===== *)
(** * Server: middleware, routing and the API proxy
    (internal/server/middleware.go, routes.go, route_helpers.go, server.go). *)
From S2P Require Import Prelude GoStrings GoCrypto GoJson GoURL GoHTTP GoPath GoMux OAuthBackend Cache Samples OAuthStores JWT OAuthServer OAuthTheorems AuthHandlers.

(** ** Handlers that may panic *)
Inductive outcome := Returned (w : ResponseWriter) | Panicked (w : ResponseWriter).
Definition Handler (S : Type) := ResponseWriter -> Request -> M S outcome.
Definition written (o : outcome) : ResponseWriter := match o with Returned w | Panicked w => w end.

(** ** The writer of the logging middleware (middleware.go)

    [responseWriter] embeds the writer it wraps; setting headers and cookies and
    [Flush] go straight to it. *)
Record responseWriter := mkresponseWriter { lw_writer : ResponseWriter; statusCode : Z; bytesWritten : Z }.
Definition wrap_writer (w : ResponseWriter) : responseWriter := mkresponseWriter w StatusOK 0.
Definition responseWriter_WriteHeader (code : Z) (rw : responseWriter) : responseWriter :=
  mkresponseWriter (WriteHeader code (lw_writer rw)) code (bytesWritten rw).
Definition responseWriter_Write (b : string) (rw : responseWriter) : responseWriter :=
  mkresponseWriter (Write b (lw_writer rw)) (statusCode rw) (bytesWritten rw + Z.of_nat (slen b)).
Definition responseWriter_Unwrap (rw : responseWriter) : ResponseWriter := lw_writer rw.

(** What a handler does with a writer. *)
Inductive write_op := OpHeader (f : ResponseWriter -> ResponseWriter) | OpWriteHeader (code : Z) | OpWrite (b : string).
Definition apply_op (w : ResponseWriter) (o : write_op) : ResponseWriter :=
  match o with OpHeader f => f w | OpWriteHeader code => WriteHeader code w | OpWrite b => Write b w end.
Definition apply_wrapped (rw : responseWriter) (o : write_op) : responseWriter :=
  match o with
  | OpHeader f => mkresponseWriter (f (lw_writer rw)) (statusCode rw) (bytesWritten rw)
  | OpWriteHeader code => responseWriter_WriteHeader code rw
  | OpWrite b => responseWriter_Write b rw
  end.
(** The wrapper does not change what is sent, and it counts the bytes of the
    body. *)
Lemma wrapper_transparent ops rw :
  lw_writer (foldl apply_wrapped rw ops) = foldl apply_op (lw_writer rw) ops /\
  bytesWritten (foldl apply_wrapped rw ops) =
    bytesWritten rw + Z.of_nat (sum_list_with (fun o => match o with OpWrite b => slen b | _ => 0%nat end) ops).
Proof.
  revert rw. induction ops as [|o ops IH]; intros rw; simpl; [split; [done|lia]|].
  destruct (IH (apply_wrapped rw o)) as [-> ->]. by destruct o; simpl; split; try done; lia.
Qed.

Section middleware.
Context `{!Env} {S : Type}.
(** [uuid.New().String()] of github.com/google/uuid. *)
Context (uuid_New : M World string).
Notation MS := (M (S * World)).
Abbreviation Handlr := (Handler (S * World)).

Definition correlationIDMiddleware (next : Handlr) : Handlr := fun w r =>
  let id := get_header r "X-Request-ID" in
  let id := if decide (id = "") then get_header r "X-Correlation-ID" else id in
  id ← (if decide (id = "") then io uuid_New else mret id);
  next (rw_set "X-Correlation-ID" id w) r.
(** The log line is not modelled; the wrapper [responseWriter] below passes
    everything through. *)
Definition loggingMiddleware (next : Handlr) : Handlr := fun w r =>
  io time_Now ;; o ← next w r; io time_Now ;; mret o.
Definition corsMiddleware (next : Handlr) : Handlr := fun w r =>
  let w := rw_set "Access-Control-Allow-Headers" "Content-Type, Authorization"
             (rw_set "Access-Control-Allow-Methods" "GET, POST, PUT, DELETE, OPTIONS"
                (rw_set "Access-Control-Allow-Origin" "*" w)) in
  if decide (Method r = "OPTIONS") then mret (Returned (WriteHeader StatusOK w))
  else next w r.
Definition recoveryMiddleware (next : Handlr) : Handlr := fun w r =>
  o ← next w r;
  mret (match o with
        | Returned w => Returned w
        | Panicked w => Returned (http_Error w "Internal server error" StatusInternalServerError)
        end).
Definition csp : string :=
  "default-src 'self'; style-src 'self' 'unsafe-inline' https://fonts.googleapis.com; font-src 'self' https://fonts.gstatic.com; script-src 'self' 'unsafe-inline' 'unsafe-eval' https://cdn.jsdelivr.net; connect-src 'self' https://cdn.jsdelivr.net".
Definition security_headers (w : ResponseWriter) : ResponseWriter :=
  rw_set "Content-Security-Policy" csp
    (rw_set "Referrer-Policy" "strict-origin-when-cross-origin"
       (rw_set "X-XSS-Protection" "1; mode=block"
          (rw_set "X-Frame-Options" "DENY" (rw_set "X-Content-Type-Options" "nosniff" w)))).
Definition securityHeadersMiddleware (next : Handlr) : Handlr := fun w r => next (security_headers w) r.

(** The form of a request and its body. *)
Definition set_form (err : bool) (form : Values) (b : option string) (r : Request) : Request :=
  mkRequest (Method r) (Path r) (EscPath r) (RawQ r) (Host r) (TLS r) (ReqHeader r) (Cookies r) err form b.
(** [ParseForm] reads the body of this request (multipart bodies, which no form
    of the portal sends, are not modelled). *)
Definition media_type (r : Request) : string :=
  str_map lower_byte (TrimSpace (default "" (head (Split (get_header r "Content-Type") ";")))).
Definition posts_form (r : Request) : bool :=
  bool_decide (Method r ∈ ["POST"; "PUT"; "PATCH"]) && bool_decide (media_type r = "application/x-www-form-urlencoded").
(** [http.MaxBytesReader]: a longer body can no longer be read to its end; a form
    in it is lost, and [ParseForm] reports an error.  (A JSON decoder that finds
    a whole value before the limit, with only trailing bytes beyond it, would
    succeed in Go; here the body is unreadable for it too.) *)
Definition limit_body (limit : Z) (r : Request) : Request :=
  match ReqBody r with
  | Some b =>
      if limit <? Z.of_nat (slen b) then
        if posts_form r then set_form true (Query r) None r else set_form (FormErr r) (Form r) None r
      else r
  | None => r
  end.
(** [r.FormValue] parses the form, at most 10 MB of it, on its first call: the
    body is consumed, what was read stays in the request, and [ParseForm] reports
    no error any more. *)
Definition maxFormSize : Z := 10 * 2 ^ 20.
Definition parse_form (r : Request) : Request :=
  match ReqBody r with
  | Some b =>
      if posts_form r
      then set_form false (if maxFormSize <? Z.of_nat (slen b) then Query r else Form r) (Some "") r
      else set_form false (Form r) (Some b) r
  | None => set_form false (Form r) None r
  end.
Definition maxBodySizeMiddleware (maxBytes : Z) (next : Handlr) : Handlr := fun w r =>
  let limit := if decide (Path r = "/mcp") then 10 * 2 ^ 20 else maxBytes in
  next w (limit_body limit r).

Definition generateCSRFToken : M World string :=
  b ← rand_Read 32;
  match b with Some b => mret (hex_encode b) | None => uuid_New end.
Definition csrf_cookie (token : string) : SetCookie := mkSetCookie "_csrf" token "/" 0 false SameSiteStrict.
Definition csrf_exempt (path : string) : bool :=
  HasPrefix path "/api/" || HasPrefix path "/mcp" || bool_decide (path = "/authorize") ||
  bool_decide (path = "/register") || bool_decide (path = "/token").
Definition csrfMiddleware (next : Handlr) : Handlr := fun w r =>
  if decide (Method r = "GET" \/ Method r = "HEAD" \/ Method r = "OPTIONS") then
    if decide (Method r = "GET" /\ CookieValue r "_csrf" = "") then
      token ← io generateCSRFToken;
      next (set_cookie (csrf_cookie token) w) r
    else next w r
  else if csrf_exempt (Path r) then next w r
  else
    let cookie := CookieValue r "_csrf" in
    if decide (cookie = "")
    then mret (Returned (http_Error w "Forbidden: missing CSRF token" StatusForbidden))
    else
      let token := get_header r "X-CSRF-Token" in
      let r := if decide (token = "") then parse_form r else r in
      let token := if decide (token = "") then FormValue r "_csrf" else token in
      if decide (token = "" \/ token ≠ cookie)
      then mret (Returned (http_Error w "Forbidden: invalid CSRF token" StatusForbidden))
      else next w r.

Definition withMiddleware (handler : Handlr) : Handlr :=
  correlationIDMiddleware (loggingMiddleware (securityHeadersMiddleware (corsMiddleware
    (csrfMiddleware (maxBodySizeMiddleware (2 ^ 20) (recoveryMiddleware handler)))))).

(** ** Method dispatch (route_helpers.go) *)
Abbreviation MethodRouter := (gmap string Handlr).
Definition RouteByMethod (w : ResponseWriter) (r : Request) (routes : MethodRouter) : MS outcome :=
  match routes !! Method r with
  | None => mret (Returned (http_Error w "Method not allowed" StatusMethodNotAllowed))
  | Some handler => handler w r
  end.
Definition put_route (m : string) (h : option Handlr) (routes : MethodRouter) : MethodRouter :=
  match h with Some h => <[m := h]> routes | None => routes end.
Definition RouteResourceCollection (w : ResponseWriter) (r : Request) (list create : option Handlr) : MS outcome :=
  RouteByMethod w r (put_route "POST" create (put_route "GET" list ∅)).
Definition RouteResourceItem (w : ResponseWriter) (r : Request) (get update del : option Handlr) : MS outcome :=
  RouteByMethod w r (put_route "DELETE" del (put_route "PUT" update (put_route "GET" get ∅))).
End middleware.

(** ** Routes (routes.go) *)
Inductive Route :=
| RAuthorizationServer | RProtectedResource | RWellKnownNotFound
| RRegister | RAuthorize | RAuthorizeResume | RToken
| RDashboard | RMobileDashboard | RStrategy | RCash | RMCPPage | RHelp | RChangelog | RGlossary
| RDocs | RErrorPage | RLanding | RStatic | RMCP | RMCPDev | RProfile | RSaveProfile | RAdminUsers
| RLogin | RTestLogin | RLogout | RGoogleLogin | RGitHubLogin | ROAuthCallback | RGoogleCallback
| RGitHubCallback | RHealth | RServerHealth | RVersion | RShutdown | RAPIProxy.
#[export] Instance Route_eq_dec : EqDecision Route.
Proof. solve_decision. Defined.

(** [/x/{portfolio...}] matches what [/x/] does. *)
Definition setupRoutes (mcp dev : bool) : list (string * string * Route) :=
  [("GET", "/.well-known/oauth-authorization-server", RAuthorizationServer);
   ("GET", "/.well-known/oauth-authorization-server/mcp", RAuthorizationServer);
   ("GET", "/.well-known/oauth-protected-resource", RProtectedResource);
   ("GET", "/.well-known/oauth-protected-resource/mcp", RProtectedResource);
   ("", "/.well-known/", RWellKnownNotFound);
   ("POST", "/register", RRegister); ("GET", "/authorize", RAuthorize); ("POST", "/authorize", RAuthorize);
   ("GET", "/authorize/resume", RAuthorizeResume); ("POST", "/token", RToken);
   ("GET", "/dashboard", RDashboard); ("GET", "/dashboard/", RDashboard);
   ("GET", "/m", RMobileDashboard); ("GET", "/m/", RMobileDashboard);
   ("GET", "/strategy", RStrategy); ("GET", "/cash", RCash); ("GET", "/mcp-info", RMCPPage);
   ("GET", "/help", RHelp); ("GET", "/changelog", RChangelog); ("GET", "/glossary", RGlossary);
   ("GET", "/docs", RDocs); ("GET", "/error", RErrorPage); ("", "/", RLanding); ("", "/static/", RStatic)] ++
  (if mcp then [("", "/mcp", RMCP)] else []) ++ (if dev then [("", "/mcp/", RMCPDev)] else []) ++
  [("GET", "/profile", RProfile); ("POST", "/profile", RSaveProfile); ("GET", "/admin/users", RAdminUsers);
   ("POST", "/api/auth/login", RLogin); ("POST", "/api/auth/test-login", RTestLogin);
   ("POST", "/api/auth/logout", RLogout); ("GET", "/api/auth/login/google", RGoogleLogin);
   ("GET", "/api/auth/login/github", RGitHubLogin); ("GET", "/auth/callback", ROAuthCallback);
   ("GET", "/api/auth/callback/google", RGoogleCallback); ("GET", "/api/auth/callback/github", RGitHubCallback);
   ("", "/api/health", RHealth); ("", "/api/server-health", RServerHealth); ("", "/api/version", RVersion);
   ("POST", "/api/shutdown", RShutdown); ("", "/api/", RAPIProxy)].

(** ** Handlers of the server itself (routes.go) *)
Record Server := mkServer {
  s_apiURL : string;          (* Config.API.URL *)
  s_jwtSecret : string;       (* Config.Auth.JWTSecret *)
  s_devMode : bool;           (* Config.IsDevMode() *)
  s_cache : ResponseCache;
  s_shutdownChan : option nat; (* None: no channel; Some n: n signals sent on it *)
}.
(** [New]: the cache keeps 1000 responses for 30 seconds. *)
Definition Server_New (apiURL jwtSecret : string) (devMode : bool) : Server :=
  mkServer apiURL jwtSecret devMode (cache_New (30 * Second) 1000) None.
Definition SetShutdownChannel (s : Server) : Server :=
  mkServer (s_apiURL s) (s_jwtSecret s) (s_devMode s) (s_cache s) (Some 0%nat).
Definition set_cache (c : ResponseCache) (s : Server) : Server :=
  mkServer (s_apiURL s) (s_jwtSecret s) (s_devMode s) c (s_shutdownChan s).

Definition err_json (msg : string) : string := Marshal (JObj [("error", JStr msg)]).

Section server.
Context `{!Env} `{!NetURL} `{!Unicode}.
Notation MV := (M (Server * World)).

Definition handleWellKnownNotFound (w : ResponseWriter) (r : Request) : ResponseWriter :=
  Write (err_json "Not Found") (WriteHeader StatusNotFound (rw_set "Content-Type" "application/json" w)).

(** The signal is sent 100 ms later by a goroutine of its own. *)
Definition handleShutdown (w : ResponseWriter) (r : Request) : MV ResponseWriter :=
  dev ← read s_devMode;
  if negb dev then
    mret (Write (err_json "Shutdown endpoint disabled in production")
            (WriteHeader StatusForbidden (rw_set "Content-Type" "application/json" w)))
  else
    store (fun s => mkServer (s_apiURL s) (s_jwtSecret s) (s_devMode s) (s_cache s)
      (Datatypes.S <$> s_shutdownChan s)) ;;
    mret (Write ("Shutting down gracefully..." +:+ newline) (WriteHeader StatusOK w)).

(** Replaying a response: its headers are added, then status and body. *)
Definition replay (w : ResponseWriter) (c : CachedResponse) : ResponseWriter :=
  Write (Body c) (WriteHeader (StatusCode c) (rw_add_all (Headers c) w)).
Definition maxCacheableBody : Z := 5 * 1024 * 1024.
(** The request sent upstream: the client's headers, and the session's user id
    when there is one. *)
Definition proxy_request (s : Server) (userID : string) (r : Request) : option HTTPRequest :=
  q ← NewRequest (Method r) (s_apiURL s +:+ Path r +:+ (if decide (RawQ r = "") then "" else "?" +:+ RawQ r)) (ReqBody r);
  let q := req_with (ReqHeader r) q in
  Some (if decide (userID = "") then q else req_set "X-Vire-User-ID" userID q).
Definition proxy_key (userID : string) (r : Request) : string := MakeKey userID (Method r) (RequestURI r).
Definition cacheable (userID : string) (r : Request) (resp : HTTPResponse) (body : string) : bool :=
  bool_decide (Method r = "GET") && negb (bool_decide (userID = "")) && (200 <=? hr_status resp) &&
  (hr_status resp <? 300) && (Z.of_nat (slen body) <=? maxCacheableBody).
(** What the answer does to the cache: store, then the two invalidations. *)
Definition store_answer (userID : string) (r : Request) (resp : HTTPResponse) (body : string) (now : Z)
    (c : ResponseCache) : ResponseCache :=
  if cacheable userID r resp body
  then ResponseCache_Set (proxy_key userID r) (mkCachedResponse (hr_status resp) (hr_header resp) body) now c
  else c.
Definition forces_refresh (userID : string) (r : Request) : bool :=
  bool_decide (Values_Get (Query r) "force_refresh" = "true") && negb (bool_decide (userID = "")).
Definition writes (userID : string) (r : Request) : bool :=
  negb (bool_decide (Method r = "GET")) && negb (bool_decide (userID = "")).
Definition update_cache (userID : string) (r : Request) (resp : HTTPResponse) (body : string) (now : Z)
    (c : ResponseCache) : ResponseCache :=
  let c := store_answer userID r resp body now c in
  let c := if forces_refresh userID r then InvalidatePrefix (Path r) c else c in
  if writes userID r then InvalidatePrefix (Path r) c else c.
(** [cache.Get] with its readings of the clock: the entry is copied under the
    read lock; an expired one is looked up again under the write lock. *)
Definition cache_Get (key : string) : MV (option CachedResponse) :=
  e ← read (fun s => items (s_cache s) !! key);
  match e with
  | None => mret None
  | Some e =>
      now ← io time_Now;
      if After now (expiry e) then
        now2 ← io time_Now;
        store (fun s => set_cache (Get_expire key now2 (s_cache s)) s) ;; mret None
      else mret (Some (resp e))
  end.
Definition proxy_lookup (userID : string) (r : Request) : MV (option CachedResponse) :=
  if decide (Method r = "GET" /\ userID ≠ "") then cache_Get (proxy_key userID r) else mret None.
Definition proxy_forward (userID : string) (w : ResponseWriter) (r : Request) : MV ResponseWriter :=
  q ← read (fun s => proxy_request s userID r);
  match q with
  | None => mret (http_Error w (err_json "Failed to create proxy request") StatusInternalServerError)
  | Some q =>
      resp ← io (client_Do q);
      match resp with
      | Err _ => mret (http_Error w (err_json "API server unavailable") StatusServiceUnavailable)
      | Ok resp =>
          match ReadLimited (maxCacheableBody + 1) resp with
          | Err _ => mret (http_Error w (err_json "Failed to read API response") StatusBadGateway)
          | Ok body =>
              now ← io time_Now;                    (* read by [cache.Set] *)
              store (fun s => set_cache (update_cache userID r resp body now (s_cache s)) s) ;;
              mret (replay w (mkCachedResponse (hr_status resp) (hr_header resp) body))
          end
      end
  end.
Definition handleAPIProxy (w : ResponseWriter) (r : Request) : MV ResponseWriter :=
  apiURL ← read s_apiURL;
  if decide (apiURL = "")
  then mret (http_Error w (err_json "API server not configured") StatusServiceUnavailable)
  else if HasPrefix (Path r) "/api/internal/"
  then mret (http_Error w (err_json "Not Found") StatusNotFound)
  else
    secret ← read s_jwtSecret;
    claims ← io (IsLoggedIn r secret);
    let userID := match claims with Some c => Sub c | None => "" end in
    cached ← proxy_lookup userID r;
    match cached with
    | Some c => mret (replay w c)
    | None => proxy_forward userID w r
    end.
End server.
