(* ===== verification/Pages.v ===== *)
(** * Pages: the HTML pages and the small JSON endpoints
    (internal/handlers/landing.go, dashboard.go, mobile_dashboard.go, cash.go,
    strategy.go, mcp_page.go, profile.go, users.go, version.go, health.go,
    server_health.go, helpers.go).

    Rendering (html/template on the files of pages/) is the class [Templates];
    what the handlers compute is the data they hand to it.  A handler returns
    the response writer or panics with it ([outcome]).  The goroutines that
    fetch in parallel are given by the order [sched] in which their requests
    reach the network; [PagesTheorems] justifies this against a step relation. *)
From S2P Require Import Prelude GoStrings GoCrypto GoJson GoURL GoHTTP GoPath OAuthBackend Cache Samples OAuthStores JWT OAuthServer OAuthTheorems AuthHandlers Config VireClient Server.

(** ** Data of the pages *)
Record MCPPageTool := mkMCPPageTool { pt_Name : string; pt_Description : string; pt_Method : string; pt_Path : string }.
Record GlossaryTerm := mkGlossaryTerm { Term : string; Label : string; Definition_ : string; Formula : string }.
Record GlossaryCategory := mkGlossaryCategory { gc_Name : string; Terms : list GlossaryTerm }.

(** The values of a [map[string]interface{}]; [VJS] is [template.JS], inserted
    into the page without escaping. *)
Inductive tval :=
| VStr (s : string) | VBool (b : bool) | VInt (z : Z) | VJS (s : string)
| VTools (l : list MCPPageTool) | VUsers (l : list AdminUser) | VCategories (l : list GlossaryCategory).
Abbreviation PageData := (gmap string tval).

(** html/template: [ParsePages] is the pair of [ParseGlob] calls of the
    constructors, [None] where [template.Must] panics; [ExecuteTemplate] gives
    the writes made to the response and whether it then failed.
    [format_RFC3339] is [time.Unix(s, 0).UTC().Format(time.RFC3339)]. *)
Class Templates := {
  template : Type;
  ParsePages : string -> option template;
  ExecuteTemplate : template -> string -> PageData -> list string * bool;
  format_RFC3339 : Z -> string;
}.

Definition write_all (chunks : list string) (w : ResponseWriter) : ResponseWriter :=
  foldl (fun w d => Write d w) w chunks.

(** ** helpers.go *)
(** The request may go on, or the response that refuses it. *)
Definition RequireMethod (w : ResponseWriter) (r : Request) (method : string) : ResponseWriter + unit :=
  if bool_decide (Method r = method) || (bool_decide (method = "GET") && bool_decide (Method r = "HEAD"))
  then inr tt
  else inl (http_Error w "Method not allowed" StatusMethodNotAllowed).
Definition WriteJSON (w : ResponseWriter) (statusCode : Z) (data : json) : ResponseWriter :=
  write_json statusCode data w.
Definition WriteError (w : ResponseWriter) (statusCode : Z) (message : string) : ResponseWriter :=
  WriteJSON w statusCode (JStrMap [("status", "error"); ("error", message)]).

(** ** The raw text of one member: a field of type [json.RawMessage] *)
Section raw.
Context `{!Unicode}.
(** After the opening brace or a comma of a document known to be valid. *)
Fixpoint raw_members (fuel : nat) (name s : string) (acc : option string) : option string :=
  match fuel with
  | O => acc
  | S f =>
      match skip_ws s with
      | String q r0 =>
          match (if decide (q = quote) then parse_string r0 else None) with
          | None => acc
          | Some (k, t0) =>
              match skip_ws t0 with
              | String _ t1 =>
                  let s1 := skip_ws t1 in
                  match parse_value (parse_fuel s1) 1 s1 with
                  | None => acc
                  | Some (_, t) =>
                      let raw := str_take (slen s1 - slen t) s1 in
                      let acc := if decide (fold_name k = fold_name name) then Some raw else acc in
                      match skip_ws t with
                      | String a r => if decide (a = ","%char) then raw_members f name r acc else acc
                      | "" => acc
                      end
                  end
              | "" => acc
              end
          end
      | "" => acc
      end
  end.
(** The member [name] of the object [body], [None] where the field stays nil. *)
Definition raw_field (name body : string) : option string :=
  match skip_ws body with
  | String "{"%char r => raw_members (slen body) name r None
  | _ => None
  end.
End raw.

Section pages.
Context `{!Env} `{!NetURL} `{!Unicode} `{!Templates} `{!FileSys} (build : BuildInfo).

(** ** version.go *)
Definition unavailable : gmap string string := {["version" := "unavailable"]}.
(** [None]: the document is [null], the map stays nil, and storing into it
    panics. *)
Definition fetchServerVersionFields (apiURL : string) : M World (option (gmap string string)) :=
  if decide (apiURL = "") then mret (Some unavailable)
  else match NewRequest "GET" (apiURL +:+ "/api/version") None with
       | None => mret (Some unavailable)
       | Some q =>
           resp ← client_Do q;
           mret (match resp with
                 | Err _ => Some unavailable
                 | Ok resp =>
                     if negb (hr_status resp =? StatusOK) then Some unavailable
                     else match json_decode (hr_body resp) with
                          | None => Some unavailable
                          | Some JNull => None
                          | Some v =>
                              match dec_string_map v with
                              | None => Some unavailable
                              | Some data =>
                                  Some (if decide (default "" (data !! "version") = "")
                                        then <["version" := "unavailable"]> data else data)
                              end
                          end
                 end)
       end.
Definition GetServerVersion (apiURL : string) : M World (option string) :=
  fields ← fetchServerVersionFields apiURL;
  mret (fields ← fields; Some (default "unavailable" (fields !! "version"))).

Record VersionHandler := mkVersionHandler { ver_apiURL : string }.
Definition NewVersionHandler : VersionHandler := mkVersionHandler "".
Definition VersionHandler_SetAPIURL (url : string) (h : VersionHandler) : VersionHandler := mkVersionHandler url.
Definition VersionHandler_ServeHTTP (h : VersionHandler) (w : ResponseWriter) (r : Request) : M World outcome :=
  match RequireMethod w r "GET" with
  | inl w => mret (Returned w)
  | inr _ =>
      fields ← fetchServerVersionFields (ver_apiURL h);
      mret (match fields with
            | None => Panicked w
            | Some fields =>
                let portal : gmap string string := list_to_map
                  [("portal_version", Version build); ("portal_build", Build build); ("portal_commit", GitCommit build)] in
                Returned (WriteJSON w StatusOK (JStrMap (map_to_list (fields ∪ portal))))
            end)
  end.

(** ** health.go, server_health.go *)
Definition HealthHandler_ServeHTTP (w : ResponseWriter) (r : Request) : ResponseWriter :=
  match RequireMethod w r "GET" with
  | inl w => w
  | inr _ => WriteJSON w StatusOK (JStrMap [("status", "ok")])
  end.
Record ServerHealthHandler := mkServerHealthHandler { sh_apiURL : string }.
Definition NewServerHealthHandler (apiURL : string) : ServerHealthHandler := mkServerHealthHandler apiURL.
Definition ServerHealthHandler_ServeHTTP (h : ServerHealthHandler) (w : ResponseWriter) (r : Request)
    : M World ResponseWriter :=
  let down := WriteJSON w StatusServiceUnavailable (JStrMap [("status", "down")]) in
  match RequireMethod w r "GET" with
  | inl w => mret w
  | inr _ =>
      match NewRequest "GET" (sh_apiURL h +:+ "/api/health") None with
      | None => mret down
      | Some q =>
          resp ← client_Do q;
          mret (match resp with
                | Err _ => down
                | Ok resp => if hr_status resp =? StatusOK
                             then WriteJSON w StatusOK (JStrMap [("status", "ok")]) else down
                end)
      end
  end.

(** ** landing.go: what the page handlers share *)
Definition mobileKeywords : list string :=
  ["iphone"; "android"; "mobile"; "ipod"; "windows phone"; "blackberry"; "opera mini"; "iemobile"].
(** The loop: the first keyword found decides, unless the agent is an iPad. *)
Fixpoint mobile_go (ua : string) (keywords : list string) : bool :=
  match keywords with
  | [] => false
  | kw :: keywords => if Contains ua kw then negb (Contains ua "ipad") else mobile_go ua keywords
  end.
Definition isMobileBrowser (ua : string) : bool := mobile_go (ToLower ua) mobileKeywords.
Fixpoint find_dir (dirs : list string) : string :=
  match dirs with
  | [] => "."
  | dir :: dirs => match os_Stat dir with Some true => filepath_Abs dir | _ => find_dir dirs end
  end.
Definition FindPagesDir : string := find_dir ["./pages"; "../pages"; "../../pages"; "."].

Definition LookupFn : Type := string -> M World (result (option UserProfile)).
Definition GetFn : Type := string -> string -> M World (result string).

(** [PageHandler], [DashboardHandler], [MobileDashboardHandler], [CashHandler]
    and [StrategyHandler] have the same fields. *)
Record SSRHandler := mkSSRHandler {
  templates : template;
  devMode : bool;
  jwtSecret : string;
  userLookupFn : option LookupFn;
  apiURL : string;
  proxyGetFn : option GetFn;
}.
Definition new_handler (dev : bool) (secret : string) (lookup : option LookupFn) : option SSRHandler :=
  t ← ParsePages FindPagesDir; Some (mkSSRHandler t dev secret lookup "" None).
Definition set_apiURL (url : string) (h : SSRHandler) : SSRHandler :=
  mkSSRHandler (templates h) (devMode h) (jwtSecret h) (userLookupFn h) url (proxyGetFn h).
Definition set_proxyGetFn (fn : GetFn) (h : SSRHandler) : SSRHandler :=
  mkSSRHandler (templates h) (devMode h) (jwtSecret h) (userLookupFn h) (apiURL h) (Some fn).

Definition PageHandler := SSRHandler.
Definition NewPageHandler := new_handler.
Definition PageHandler_SetAPIURL := set_apiURL.
Definition PageHandler_SetProxyGetFn := set_proxyGetFn.
Definition DashboardHandler := SSRHandler.
Definition NewDashboardHandler := new_handler.
Definition DashboardHandler_SetAPIURL := set_apiURL.
Definition DashboardHandler_SetProxyGetFn := set_proxyGetFn.
Definition MobileDashboardHandler := SSRHandler.
Definition NewMobileDashboardHandler := new_handler.
Definition MobileDashboardHandler_SetAPIURL := set_apiURL.
Definition MobileDashboardHandler_SetProxyGetFn := set_proxyGetFn.
Definition CashHandler := SSRHandler.
Definition NewCashHandler := new_handler.
Definition CashHandler_SetAPIURL := set_apiURL.
Definition CashHandler_SetProxyGetFn := set_proxyGetFn.
Definition StrategyHandler := SSRHandler.
Definition NewStrategyHandler := new_handler.
Definition StrategyHandler_SetAPIURL := set_apiURL.
Definition StrategyHandler_SetProxyGetFn := set_proxyGetFn.

(** [if err := templates.ExecuteTemplate(w, name, data); err != nil { http.Error … }]. *)
Definition render_page (t : template) (name : string) (data : PageData) (w : ResponseWriter) : ResponseWriter :=
  let '(chunks, failed) := ExecuteTemplate t name data in
  let w := write_all chunks w in
  if failed then http_Error w "Internal Server Error" StatusInternalServerError else w.
(** The pages that ignore the error. *)
Definition render_quiet (t : template) (name : string) (data : PageData) (w : ResponseWriter) : ResponseWriter :=
  write_all (ExecuteTemplate t name data).1 w.

(** The user behind the session, where the handler has a lookup function. *)
Definition lookup_user (fn : option LookupFn) (sub : string) : M World (option UserProfile) :=
  match fn with
  | Some f => if decide (sub = "") then mret None else r ← f sub; mret (match r with Ok u => u | Err _ => None end)
  | None => mret None
  end.
Definition role_of (u : option UserProfile) : string := match u with Some u => up_Role u | None => "" end.
Definition navexa_missing (u : option UserProfile) : bool :=
  match u with Some u => negb (up_NavexaKeySet u) | None => false end.
Definition claims_sub (claims : option JWTClaims) : string := match claims with Some c => Sub c | None => "" end.
Definition is_some {A} (x : option A) : bool := match x with Some _ => true | None => false end.

(** The entries every page has.  The server version is asked for last; a panic
    there ends the handler. *)
Definition base_data (page : string) (dev loggedIn : bool) (role : string) (sv : string) : PageData :=
  list_to_map [("Page", VStr page); ("DevMode", VBool dev); ("LoggedIn", VBool loggedIn); ("UserRole", VStr role);
               ("PortalVersion", VStr (Version build)); ("ServerVersion", VStr sv)].
Definition with_version (url : string) (w : ResponseWriter) (k : string -> ResponseWriter) : M World outcome :=
  sv ← GetServerVersion url;
  mret (match sv with None => Panicked w | Some sv => Returned (k sv) end).
Definition extend (extra : list (string * tval)) (data : PageData) : PageData := list_to_map extra ∪ data.
Definition redirect_home (w : ResponseWriter) (r : Request) : ResponseWriter := Redirect w r "/" StatusFound.

(** ** landing.go: the public pages *)
Definition clear_session : SetCookie := mkSetCookie "vire_session" "" "/" (-1) true SameSiteStrict.
Definition ServePage (h : PageHandler) (templateName pageName : string) (w : ResponseWriter) (r : Request)
    : M World outcome :=
  claims ← IsLoggedIn r (jwtSecret h);
  let home := bool_decide (pageName = "home") in
  let w := if home then set_cookie clear_session w else w in
  let loggedIn := is_some claims && negb home in
  user ← (if loggedIn then lookup_user (userLookupFn h) (claims_sub claims) else mret None);
  with_version (apiURL h) w (fun sv =>
    render_page (templates h) templateName (base_data pageName (devMode h) loggedIn (role_of user) sv) w).

Definition error_messages : gmap string string := list_to_map
  [("server_unavailable", "The authentication server is unavailable. Please try again shortly.");
   ("auth_failed", "Authentication failed. Please try again.");
   ("invalid_credentials", "Invalid username or password.");
   ("missing_credentials", "Please provide both username and password.");
   ("bad_request", "Bad request. Please try again.")].
Definition error_message (reason : string) : string :=
  default "Something went wrong. Please try again." (error_messages !! reason).
(** Who is looking at a public page. *)
Definition visitor (h : PageHandler) (r : Request) : M World (option JWTClaims * option UserProfile) :=
  claims ← IsLoggedIn r (jwtSecret h);
  user ← lookup_user (userLookupFn h) (claims_sub claims);
  mret (claims, user).
Definition ServeErrorPage (h : PageHandler) (w : ResponseWriter) (r : Request) : M World outcome :=
  v ← visitor h r;
  let msg := error_message (Values_Get (Query r) "reason") in
  with_version (apiURL h) w (fun sv =>
    render_quiet (templates h) "error.html"
      (extend [("ErrorMessage", VStr msg)]
         (base_data "error" (devMode h) (is_some v.1) (role_of v.2) sv)) w).

Definition checkServerHealth (url : string) : M World bool :=
  if decide (url = "") then mret false
  else match NewRequest "GET" (url +:+ "/api/health") None with
       | None => mret false
       | Some q => resp ← client_Do q;
                   mret (match resp with Err _ => false | Ok resp => hr_status resp =? StatusOK end)
       end.
Definition ServeLandingPage (h : PageHandler) (w : ResponseWriter) (r : Request) : M World outcome :=
  let w := set_cookie clear_session w in
  serverUp ← checkServerHealth (apiURL h);
  with_version (apiURL h) w (fun sv =>
    render_quiet (templates h) "landing.html"
      (extend [("ServerStatus", VBool serverUp)] (base_data "home" (devMode h) false "" sv)) w).

(** *** Glossary, changelog, help *)
Definition dec_term : decoder GlossaryTerm := fun old v =>
  l ← dec_struct v;
  t ← dec_field "term" dec_string (Term old) l;
  la ← dec_field "label" dec_string (Label old) l;
  d ← dec_field "definition" dec_string (Definition_ old) l;
  f ← dec_field "formula" dec_string (Formula old) l;
  Some (mkGlossaryTerm t la d f).
Definition dec_category : decoder GlossaryCategory := fun old v =>
  l ← dec_struct v;
  n ← dec_field "name" dec_string (gc_Name old) l;
  t ← dec_field "terms" (dec_list (mkGlossaryTerm "" "" "" "") dec_term) (Terms old) l;
  Some (mkGlossaryCategory n t).
Definition dec_categories (v : json) : option (list GlossaryCategory) :=
  l ← dec_struct v; dec_field "categories" (dec_list (mkGlossaryCategory "" []) dec_category) [] l.
Definition fetch_glossary (h : PageHandler) : M World (list GlossaryCategory * string) :=
  match proxyGetFn h with
  | None => mret ([], "")
  | Some get =>
      body ← get "/api/glossary" "";
      mret (match body with
            | Err _ => ([], "Glossary data is not yet available.")
            | Ok body => (default [] (json_parse body ≫= dec_categories), "")
            end)
  end.
Definition ServeGlossaryPage (h : PageHandler) (w : ResponseWriter) (r : Request) : M World outcome :=
  v ← visitor h r;
  g ← fetch_glossary h;
  with_version (apiURL h) w (fun sv =>
    render_quiet (templates h) "glossary.html"
      (extend [("Categories", VCategories g.1); ("FetchError", VStr g.2);
               ("TermParam", VStr (Values_Get (Query r) "term"))]
         (base_data "glossary" (devMode h) (is_some v.1) (role_of v.2) sv)) w).

Definition changelog_entries (body : string) : string :=
  match json_parse body ≫= dec_struct with
  | Some _ => default "[]" (raw_field "items" body)
  | None => "[]"
  end.
Definition ServeChangelogPage (h : PageHandler) (w : ResponseWriter) (r : Request) : M World outcome :=
  v ← visitor h r;
  entries ← match proxyGetFn h with
            | None => mret "[]"
            | Some get => body ← get "/api/changelog?per_page=100&page=1" "";
                          mret (match body with Err _ => "[]" | Ok body => changelog_entries body end)
            end;
  with_version (apiURL h) w (fun sv =>
    render_quiet (templates h) "changelog.html"
      (extend [("EntriesJSON", VJS entries)]
         (base_data "changelog" (devMode h) (is_some v.1) (role_of v.2) sv)) w).

(** The raw items and the total; a total of the wrong type voids both. *)
Definition feedback_of (body : string) : string * Z :=
  match (v ← json_parse body; l ← dec_struct v; dec_field "total" dec_int64 0 l) with
  | Some total => (default "[]" (raw_field "items" body), total)
  | None => ("[]", 0)
  end.
Definition ServeHelpPage (h : PageHandler) (w : ResponseWriter) (r : Request) : M World outcome :=
  claims ← IsLoggedIn r (jwtSecret h);
  match claims with
  | None => mret (Returned (redirect_home w r))
  | Some c =>
      user ← lookup_user (userLookupFn h) (Sub c);
      fb ← match proxyGetFn h with
           | None => mret ("[]", 0)
           | Some get =>
               if decide (Sub c = "") then mret ("[]", 0)
               else body ← get "/api/feedback?per_page=50" (Sub c);
                    mret (match body with Err _ => ("[]", 0) | Ok body => feedback_of body end)
           end;
      with_version (apiURL h) w (fun sv =>
        render_quiet (templates h) "help.html"
          (extend [("FeedbackJSON", VJS fb.1); ("FeedbackTotal", VInt fb.2)]
             (base_data "help" (devMode h) true (role_of user) sv)) w)
  end.

(** *** Static files *)
(** [http.ServeFile] refuses a request path with a dot-dot element and then
    answers with the named file ([serve_content]). *)
Definition unbackslash (a : ascii) : ascii := if decide (a = backslash) then "/"%char else a.
Definition containsDotDot (p : string) : bool := bool_decide (".." ∈ Split (str_map unbackslash p) "/").
Definition ServeFile (serve_content : string -> Request -> ResponseWriter -> ResponseWriter)
    (w : ResponseWriter) (r : Request) (name : string) : ResponseWriter :=
  if containsDotDot (Path r) then http_Error w "invalid URL path" StatusBadRequest
  else serve_content name r w.
Definition NotFound (w : ResponseWriter) : ResponseWriter := http_Error w "404 page not found" StatusNotFound.
Definition static_dir : string := filepath_Join FindPagesDir "static".
Definition StaticFileHandler (serve_content : string -> Request -> ResponseWriter -> ResponseWriter)
    (w : ResponseWriter) (r : Request) : outcome :=
  if (slen (Path r) <? slen "/static/")%nat then Panicked w          (* slice bounds out of range *)
  else
    let fullPath := filepath_Join static_dir (str_drop (slen "/static/") (Path r)) in
    if negb (HasPrefix (filepath_Abs fullPath) (filepath_Abs static_dir)) then Returned (NotFound w)
    else Returned (ServeFile serve_content w r fullPath).

(** ** dashboard.go, mobile_dashboard.go: the selected portfolio *)
Record PortfolioList := mkPortfolioList { pl_names : list string; pl_Default : string }.
Definition dec_name : decoder string := fun old v => l ← dec_struct v; dec_field "name" dec_string old l.
Definition dec_portfolios (v : json) : option PortfolioList :=
  l ← dec_struct v;
  ps ← dec_field "portfolios" (dec_list "" dec_name) [] l;
  d ← dec_field "default" dec_string "" l;
  Some (mkPortfolioList ps d).
(** The portfolio of the URL if it is in the list, the default, the first. *)
Definition select_portfolio (urlPortfolio : string) (p : PortfolioList) : string :=
  let selected := if decide (urlPortfolio ∈ pl_names p) then urlPortfolio else "" in
  let selected := if decide (selected = "") then pl_Default p else selected in
  if decide (selected = "") then default "" (head (pl_names p)) else selected.
(** [strings.TrimPrefix(r.URL.Path, prefix)] when it is a slash and more. *)
Definition path_suffix (prefix path : string) : option string :=
  match TrimPrefix path prefix with
  | String a rest => if decide (a = "/"%char /\ rest ≠ "") then Some rest else None
  | "" => None
  end.
Definition url_portfolio (prefix path : string) : string :=
  default "" (path_suffix prefix path ≫= PathUnescape).

(** *** Goroutines
    [jobs] are the resources fetched in parallel, [slots] the variables they
    are stored in, one each; [sched] is the order in which the requests are
    answered.  A failed request leaves its slot as it was. *)
Definition run_job (get : GetFn) (userID : string) (jobs : list string) (i : nat) (slots : list string)
    : M World (list string) :=
  match jobs !! i with
  | None => mret slots
  | Some path => body ← get path userID;
                 mret (match body with Ok b => <[i := b]> slots | Err _ => slots end)
  end.
Fixpoint fetch_all (get : GetFn) (userID : string) (jobs : list string) (sched : list nat) (slots : list string)
    : M World (list string) :=
  match sched with
  | [] => mret slots
  | i :: sched => slots ← run_job get userID jobs i slots; fetch_all get userID jobs sched slots
  end.

(** The result of the server-side fetches: the list, the selection, the slots. *)
Record SSRData := mkSSRData { ssr_portfolios : string; ssr_selected : string; ssr_selectedJSON : string; ssr_slots : list string }.
Definition ssr_fetch (fn : option GetFn) (sub urlPortfolio : string) (jobs : string -> list string) (sched : list nat)
    : M World SSRData :=
  let nothing := mkSSRData "null" "" (Marshal (JStr "")) (replicate (length (jobs "")) "null") in
  match fn with
  | None => mret nothing
  | Some get =>
      if decide (sub = "") then mret nothing
      else
        body ← get "/api/portfolios" sub;
        match body with
        | Err _ => mret nothing
        | Ok body =>
            match json_parse body ≫= dec_portfolios with
            | None => mret (mkSSRData body "" (Marshal (JStr "")) (ssr_slots nothing))
            | Some p =>
                let selected := select_portfolio urlPortfolio p in
                slots ← (if decide (selected = "") then mret (ssr_slots nothing)
                         else fetch_all get sub (jobs (PathEscape selected)) sched (ssr_slots nothing));
                mret (mkSSRData body selected (Marshal (JStr selected)) slots)
            end
        end
  end.
Definition slot (d : SSRData) (i : nat) : tval := VJS (default "null" (ssr_slots d !! i)).

Definition dashboard_jobs (escaped : string) : list string :=
  ["/api/portfolios/" +:+ escaped; "/api/portfolios/" +:+ escaped +:+ "/timeline";
   "/api/portfolios/" +:+ escaped +:+ "/watchlist"; "/api/glossary"].
Definition DashboardHandler_ServeHTTP (h : DashboardHandler) (sched : list nat) (w : ResponseWriter) (r : Request)
    : M World outcome :=
  claims ← IsLoggedIn r (jwtSecret h);
  match claims with
  | None => mret (Returned (redirect_home w r))
  | Some c =>
      if isMobileBrowser (UserAgent r) then
        let mobilePath := match path_suffix "/dashboard" (Path r) with
          | Some rest => "/m/" +:+ rest | None => "/m" end in
        mret (Returned (Redirect w r mobilePath StatusFound))
      else
        user ← lookup_user (userLookupFn h) (Sub c);
        d ← ssr_fetch (proxyGetFn h) (Sub c) (url_portfolio "/dashboard" (Path r)) dashboard_jobs sched;
        with_version (apiURL h) w (fun sv =>
          render_page (templates h) "dashboard.html"
            (extend [("NavexaKeyMissing", VBool (navexa_missing user)); ("PortfoliosJSON", VJS (ssr_portfolios d));
                     ("PortfolioJSON", slot d 0); ("TimelineJSON", slot d 1); ("WatchlistJSON", slot d 2);
                     ("GlossaryJSON", slot d 3); ("SelectedPortfolio", VStr (ssr_selected d));
                     ("SelectedJSON", VJS (ssr_selectedJSON d))]
               (base_data "dashboard" (devMode h) true (role_of user) sv)) w)
  end.

Definition mobile_jobs (escaped : string) : list string :=
  ["/api/portfolios/" +:+ escaped; "/api/portfolios/" +:+ escaped +:+ "/timeline"].
Definition MobileDashboardHandler_ServeHTTP (h : MobileDashboardHandler) (sched : list nat) (w : ResponseWriter)
    (r : Request) : M World outcome :=
  claims ← IsLoggedIn r (jwtSecret h);
  match claims with
  | None => mret (Returned (redirect_home w r))
  | Some c =>
      user ← lookup_user (userLookupFn h) (Sub c);
      d ← ssr_fetch (proxyGetFn h) (Sub c) (url_portfolio "/m" (Path r)) mobile_jobs sched;
      with_version (apiURL h) w (fun sv =>
        render_page (templates h) "mobile.html"
          (extend [("NavexaKeyMissing", VBool (navexa_missing user)); ("PortfoliosJSON", VJS (ssr_portfolios d));
                   ("PortfolioJSON", slot d 0); ("TimelineJSON", slot d 1);
                   ("SelectedPortfolio", VStr (ssr_selected d)); ("SelectedJSON", VJS (ssr_selectedJSON d))]
             (base_data "mobile" (devMode h) true (role_of user) sv)) w)
  end.

(** ** cash.go, strategy.go: the default portfolio, fetched one after the other *)
Definition cash_jobs (escaped : string) : list string := ["/api/portfolios/" +:+ escaped +:+ "/cash-transactions"].
Definition CashHandler_ServeHTTP (h : CashHandler) (w : ResponseWriter) (r : Request) : M World outcome :=
  claims ← IsLoggedIn r (jwtSecret h);
  match claims with
  | None => mret (Returned (redirect_home w r))
  | Some c =>
      user ← lookup_user (userLookupFn h) (Sub c);
      d ← ssr_fetch (proxyGetFn h) (Sub c) "" cash_jobs [0%nat];
      with_version (apiURL h) w (fun sv =>
        render_page (templates h) "cash.html"
          (extend [("NavexaKeyMissing", VBool (navexa_missing user)); ("PortfoliosJSON", VJS (ssr_portfolios d));
                   ("TransactionsJSON", slot d 0)]
             (base_data "cash" (devMode h) true (role_of user) sv)) w)
  end.
Definition strategy_jobs (escaped : string) : list string :=
  ["/api/portfolios/" +:+ escaped +:+ "/strategy"; "/api/portfolios/" +:+ escaped +:+ "/plan"].
Definition StrategyHandler_ServeHTTP (h : StrategyHandler) (w : ResponseWriter) (r : Request) : M World outcome :=
  claims ← IsLoggedIn r (jwtSecret h);
  match claims with
  | None => mret (Returned (redirect_home w r))
  | Some c =>
      user ← lookup_user (userLookupFn h) (Sub c);
      d ← ssr_fetch (proxyGetFn h) (Sub c) "" strategy_jobs [0%nat; 1%nat];
      with_version (apiURL h) w (fun sv =>
        render_page (templates h) "strategy.html"
          (extend [("NavexaKeyMissing", VBool (navexa_missing user)); ("PortfoliosJSON", VJS (ssr_portfolios d));
                   ("StrategyJSON", slot d 0); ("PlanJSON", slot d 1)]
             (base_data "strategy" (devMode h) true (role_of user) sv)) w)
  end.

(** ** mcp_page.go: the tool catalog is read from the state [S] of the MCP handler *)
Section mcp_page.
Context {S : Type}.
Record MCPPageHandler := mkMCPPageHandler {
  mp_templates : template;
  mp_devMode : bool;
  mp_port : Z;
  mp_jwtSecret : string;
  catalogFn : S -> list MCPPageTool;
  mp_userLookupFn : option LookupFn;
  mp_devMCPEndpoint : option (string -> M World string);
  mp_apiURL : string;
  mp_baseURL : string;
}.
Definition NewMCPPageHandler (dev : bool) (port : Z) (secret : string) (fn : S -> list MCPPageTool)
    (lookup : option LookupFn) : option MCPPageHandler :=
  t ← ParsePages FindPagesDir; Some (mkMCPPageHandler t dev port secret fn lookup None "" "").
Definition MCPPage_SetAPIURL (url : string) (h : MCPPageHandler) : MCPPageHandler :=
  mkMCPPageHandler (mp_templates h) (mp_devMode h) (mp_port h) (mp_jwtSecret h) (catalogFn h) (mp_userLookupFn h)
    (mp_devMCPEndpoint h) url (mp_baseURL h).
Definition MCPPage_SetBaseURL (url : string) (h : MCPPageHandler) : MCPPageHandler :=
  mkMCPPageHandler (mp_templates h) (mp_devMode h) (mp_port h) (mp_jwtSecret h) (catalogFn h) (mp_userLookupFn h)
    (mp_devMCPEndpoint h) (mp_apiURL h) url.
Definition MCPPage_SetDevMCPEndpointFn (fn : string -> M World string) (h : MCPPageHandler) : MCPPageHandler :=
  mkMCPPageHandler (mp_templates h) (mp_devMode h) (mp_port h) (mp_jwtSecret h) (catalogFn h) (mp_userLookupFn h)
    (Some fn) (mp_apiURL h) (mp_baseURL h).
(** [if fn != nil && claims.Sub != "" { … = fn(claims.Sub) }] *)
Definition dev_endpoint (fn : option (string -> M World string)) (sub : string) : M World string :=
  match fn with
  | Some f => if decide (sub = "") then mret "" else f sub
  | None => mret ""
  end.
Definition mcp_endpoint (h : MCPPageHandler) : string :=
  (if decide (mp_baseURL h = "") then "http://localhost:" +:+ Itoa (mp_port h) else mp_baseURL h) +:+ "/mcp".
Definition MCPPageHandler_ServeHTTP (h : MCPPageHandler) (w : ResponseWriter) (r : Request) : M (S * World) outcome :=
  claims ← io (IsLoggedIn r (mp_jwtSecret h));
  match claims with
  | None => mret (Returned (redirect_home w r))
  | Some c =>
      tools ← read (catalogFn h);
      let toolCount := Z.of_nat (length tools) in
      let toolStatus := if 0 <? toolCount then Itoa toolCount else "NO TOOLS" in
      dev ← io (dev_endpoint (mp_devMCPEndpoint h) (Sub c));
      user ← io (lookup_user (mp_userLookupFn h) (Sub c));
      io (with_version (mp_apiURL h) w (fun sv =>
        render_page (mp_templates h) "mcp.html"
          (extend [("Tools", VTools tools); ("ToolCount", VInt toolCount); ("ToolStatus", VStr toolStatus);
                   ("MCPEndpoint", VStr (mcp_endpoint h)); ("DevMCPEndpoint", VStr dev); ("Port", VInt (mp_port h))]
             (base_data "mcp" (mp_devMode h) true (role_of user) sv)) w))
  end.
End mcp_page.

(** ** profile.go *)
Record ProfileHandler := mkProfileHandler {
  pr_templates : template;
  pr_devMode : bool;
  pr_jwtSecret : string;
  pr_userLookupFn : option LookupFn;
  userSaveFn : option (string -> gmap string string -> M World (result unit));
  pr_devMCPEndpoint : option (string -> M World string);
  pr_apiURL : string;
}.
Definition NewProfileHandler (dev : bool) (secret : string) (lookup : option LookupFn)
    (save : option (string -> gmap string string -> M World (result unit))) : option ProfileHandler :=
  t ← ParsePages FindPagesDir; Some (mkProfileHandler t dev secret lookup save None "").
Definition Profile_SetDevMCPEndpointFn (fn : string -> M World string) (h : ProfileHandler) : ProfileHandler :=
  mkProfileHandler (pr_templates h) (pr_devMode h) (pr_jwtSecret h) (pr_userLookupFn h) (userSaveFn h) (Some fn) (pr_apiURL h).
Definition Profile_SetAPIURL (url : string) (h : ProfileHandler) : ProfileHandler :=
  mkProfileHandler (pr_templates h) (pr_devMode h) (pr_jwtSecret h) (pr_userLookupFn h) (userSaveFn h)
    (pr_devMCPEndpoint h) url.

(** The entries shown in development mode only: the session token and its claims. *)
Definition dev_claims (r : Request) (c : JWTClaims) (now : Z) : list (string * tval) :=
  match Cookie r "vire_session" with Some t => [("JWTToken", VStr t)] | None => [] end ++
  [("JWTSub", VStr (Sub c)); ("JWTEmail", VStr (Email c)); ("JWTName", VStr (Name c));
   ("JWTProvider", VStr (Provider c)); ("JWTIssuer", VStr (Iss c)); ("JWTIssuedAt", VStr (format_RFC3339 (Iat c)));
   ("JWTExpires", VStr (format_RFC3339 (Exp c))); ("JWTExpired", VBool (Exp c <? Unix now))].
Definition HandleProfile (h : ProfileHandler) (w : ResponseWriter) (r : Request) : M World outcome :=
  claims ← IsLoggedIn r (pr_jwtSecret h);
  match claims with
  | None => mret (Returned (redirect_home w r))
  | Some c =>
      fallback ← (if decide (Name c = "") then lookup_user (pr_userLookupFn h) (Sub c) else mret None);
      let userName := if decide (Name c = "")
        then match fallback with Some u => up_Username u | None => "" end else Name c in
      sv ← GetServerVersion (pr_apiURL h);
      match sv with
      | None => mret (Panicked w)
      | Some sv =>
          let data : PageData := list_to_map
            [("Page", VStr "profile"); ("DevMode", VBool (pr_devMode h)); ("LoggedIn", VBool true);
             ("NavexaKeySet", VBool false); ("NavexaKeyPreview", VStr "");
             ("Saved", VBool (bool_decide (Values_Get (Query r) "saved" = "1")));
             ("CSRFToken", VStr (CookieValue r "_csrf"));
             ("PortalVersion", VStr (Version build)); ("ServerVersion", VStr sv);
             ("UserEmail", VStr (Email c)); ("UserName", VStr userName); ("AuthMethod", VStr (Provider c));
             ("IsOAuth", VBool (bool_decide (Provider c = "google") || bool_decide (Provider c = "github")))] in
          user ← lookup_user (pr_userLookupFn h) (Sub c);
          let data := match user with
            | Some u => extend [("NavexaKeySet", VBool (up_NavexaKeySet u));
                                ("NavexaKeyPreview", VStr (up_NavexaKeyPreview u)); ("UserRole", VStr (up_Role u))] data
            | None => data end in
          if pr_devMode h then
            now ← time_Now;
            dev ← dev_endpoint (pr_devMCPEndpoint h) (Sub c);
            let data := extend (dev_claims r c now) data in
            let data := if is_some (pr_devMCPEndpoint h) && negb (bool_decide (Sub c = ""))
                        then <["DevMCPEndpoint" := VStr dev]> data else data in
            mret (Returned (render_page (pr_templates h) "profile.html" data w))
          else mret (Returned (render_page (pr_templates h) "profile.html" data w))
      end
  end.
Definition HandleSaveProfile (h : ProfileHandler) (w : ResponseWriter) (r : Request) : M World ResponseWriter :=
  claims ← IsLoggedIn r (pr_jwtSecret h);
  if decide (claims_sub claims = "") then mret (http_Error w "Unauthorized" StatusUnauthorized)
  else match userSaveFn h with
       | None => mret (http_Error w "Internal Server Error" StatusInternalServerError)
       | Some save =>
           if FormErr r then mret (http_Error w "Bad Request" StatusBadRequest)
           else
             res ← save (claims_sub claims) {["navexa_key" := TrimSpace (FormValue r "navexa_key")]};
             mret (match res with
                   | Err _ => http_Error w "Internal Server Error" StatusInternalServerError
                   | Ok _ => Redirect w r "/profile?saved=1" StatusFound
                   end)
       end.
(** [ExtractJWTSub]: the signature is not checked, the expiry is. *)
Definition ExtractJWTSub (token : string) (now : Z) : string :=
  match ValidateJWT token "" now with Ok c => Sub c | Err _ => "" end.

(** ** users.go *)
Record AdminUsersHandler := mkAdminUsersHandler {
  ad_templates : template;
  ad_devMode : bool;
  ad_jwtSecret : string;
  ad_userLookupFn : option LookupFn;
  adminListUsersFn : option (string -> M World (result (list AdminUser)));
  serviceUserID : string;
  ad_apiURL : string;
}.
Definition NewAdminUsersHandler (dev : bool) (secret : string) (lookup : option LookupFn)
    (list_users : option (string -> M World (result (list AdminUser)))) (service : string) : option AdminUsersHandler :=
  t ← ParsePages FindPagesDir; Some (mkAdminUsersHandler t dev secret lookup list_users service "").
Definition AdminUsers_SetAPIURL (url : string) (h : AdminUsersHandler) : AdminUsersHandler :=
  mkAdminUsersHandler (ad_templates h) (ad_devMode h) (ad_jwtSecret h) (ad_userLookupFn h) (adminListUsersFn h)
    (serviceUserID h) url.
(** The list and the message shown instead of it. *)
Definition admin_list (h : AdminUsersHandler) : M World (list AdminUser * string) :=
  let off := ([], "Admin API not configured. Set VIRE_SERVICE_KEY to enable.") in
  match adminListUsersFn h with
  | None => mret off
  | Some list_users =>
      if decide (serviceUserID h = "") then mret off
      else r ← list_users (serviceUserID h);
           mret (match r with
                 | Ok us => (us, "")
                 | Err _ => ([], "Failed to load user list. Ensure vire-server is running.")
                 end)
  end.
Definition AdminUsersHandler_ServeHTTP (h : AdminUsersHandler) (w : ResponseWriter) (r : Request) : M World outcome :=
  claims ← IsLoggedIn r (ad_jwtSecret h);
  match claims with
  | None => mret (Returned (redirect_home w r))
  | Some c =>
      user ← lookup_user (ad_userLookupFn h) (Sub c);
      if negb (bool_decide (role_of user = "admin")) then mret (Returned (Redirect w r "/dashboard" StatusFound))
      else
        us ← admin_list h;
        with_version (ad_apiURL h) w (fun sv =>
          render_page (ad_templates h) "users.html"
            (extend [("Users", VUsers us.1); ("UserCount", VInt (Z.of_nat (length us.1))); ("FetchError", VStr us.2)]
               (base_data "users" (ad_devMode h) true (role_of user) sv)) w)
  end.
End pages.

(** ** The goroutines of a page

    Each goroutine calls [proxyGetFn], stores the body into its own variable
    and calls [wg.Done]; any of them may be the next to run.  The handler waits
    until the counter is zero. *)
Module Fanout.
Section fanout.
Context `{!Env} (get : GetFn) (userID : string) (jobs : list string).

Inductive phase := Running | Answered (body : result string) | Stored | Exited.
Record fstate := mkF { f_phases : list phase; f_slots : list string; f_wg : nat; f_world : World }.

(** [wg.Add(n)] and the [go] statements. *)
Definition launch (slots : list string) (w : World) : fstate :=
  mkF (replicate (length jobs) Running) slots (length jobs) w.
Definition put (body : result string) (i : nat) (slots : list string) : list string :=
  match body with Ok b => <[i := b]> slots | Err _ => slots end.
Inductive fstep : fstate -> fstate -> Prop :=
| F_call s i path body w' : f_phases s !! i = Some Running -> jobs !! i = Some path ->
    get path userID (f_world s) = (body, w') ->
    fstep s (mkF (<[i := Answered body]> (f_phases s)) (f_slots s) (f_wg s) w')
| F_store s i body : f_phases s !! i = Some (Answered body) ->
    fstep s (mkF (<[i := Stored]> (f_phases s)) (put body i (f_slots s)) (f_wg s) (f_world s))
| F_done s i : f_phases s !! i = Some Stored ->
    fstep s (mkF (<[i := Exited]> (f_phases s)) (f_slots s) (pred (f_wg s)) (f_world s)).
End fanout.
End Fanout.
