(* ===== verification/PagesTheorems.v ===== *)
(** * PagesTheorems: properties of the page handlers. *)
From S2P Require Import Prelude GoStrings GoCrypto GoJson GoURL GoHTTP GoPath OAuthBackend Cache Samples OAuthStores JWT OAuthServer OAuthTheorems AuthHandlers Config VireClient Server Pages.

(** ** Goroutines: termination, progress, and serialisation *)
Module FanoutTheorems.
Import Fanout.
Section fanout.
Context `{!Env} (get : GetFn) (userID : string) (jobs : list string).
Notation step := (fstep get userID jobs).

(** The work left to a goroutine, in steps. *)
Definition left_of (p : phase) : nat :=
  match p with Running => 3 | Answered _ => 2 | Stored => 1 | Exited => 0 end.
Definition live (p : phase) : nat := match p with Exited => 0 | _ => 1 end.
Definition work (s : fstate) : nat := sum_list_with left_of (f_phases s).

Lemma sum_insert (f : phase -> nat) l i x y :
  l !! i = Some x -> (sum_list_with f (<[i := y]> l) + f x = sum_list_with f l + f y)%nat.
Proof.
  revert i. induction l as [|z l IH]; intros [|i] Hi; simplify_eq/=; [lia|]. specialize (IH i Hi). lia.
Qed.
Lemma sum_ge (f : phase -> nat) l i x : l !! i = Some x -> (f x <= sum_list_with f l)%nat.
Proof.
  revert i. induction l as [|z l IH]; intros [|i] Hi; simplify_eq/=; [lia|]. specialize (IH i Hi). lia.
Qed.

Lemma step_work s s' : step s s' -> work s = Datatypes.S (work s').
Proof.
  unfold work. destruct 1 as [s i path body w' Hp _ _|s i body Hp|s i Hp]; simpl;
    [pose proof (sum_insert left_of _ _ _ (Answered body) Hp)|
     pose proof (sum_insert left_of _ _ _ Stored Hp)|pose proof (sum_insert left_of _ _ _ Exited Hp)];
    simpl in *; lia.
Qed.

(** The counter is the number of goroutines that have not called [Done]. *)
Record shape (s : fstate) : Prop := {
  sh_len : length (f_phases s) = length jobs;
  sh_wg : f_wg s = sum_list_with live (f_phases s);
}.
Lemma launch_shape slots w : shape (launch jobs slots w).
Proof.
  split; simpl; [by rewrite length_replicate|]. induction (length jobs) as [|n IH]; simpl; [done|]. lia.
Qed.
Lemma step_shape s s' : shape s -> step s s' -> shape s'.
Proof.
  intros [Hl Hw]. destruct 1 as [s i path body w' Hp _ _|s i body Hp|s i Hp]; split; simpl;
    try (by rewrite length_insert);
    [pose proof (sum_insert live _ _ _ (Answered body) Hp)|
     pose proof (sum_insert live _ _ _ Stored Hp)|pose proof (sum_insert live _ _ _ Exited Hp)];
    simpl in *; lia.
Qed.
Lemma shape_progress s : shape s -> f_wg s ≠ 0%nat -> exists s', step s s'.
Proof.
  intros [Hl Hw] Hn. rewrite Hw in Hn.
  assert (exists i p, f_phases s !! i = Some p /\ p ≠ Exited) as (i & p & Hi & Hp).
  { clear -Hn. induction (f_phases s) as [|p l IH]; simpl in Hn; [done|].
    destruct p; [exists 0%nat; eauto..|]. destruct IH as (i & p & ? & ?); [done|]. by exists (S i), p. }
  destruct p as [|body| |]; [|eexists; by eapply F_store|eexists; by eapply F_done|done].
  destruct (lookup_lt_is_Some_2 jobs i) as [path Hj]; [rewrite <-Hl; by eapply lookup_lt_Some|].
  destruct (get path userID (f_world s)) as [body w'] eqn:E. eexists. by eapply F_call.
Qed.

(** C20. Waiting for the goroutines of a dashboard always ends: every schedule
    makes at most three steps per goroutine, and as long as the counter of the
    wait group is not zero some goroutine can take one. *)
Theorem fanout_terminates slots w k s :
  nsteps step k (launch jobs slots w) s ->
  (k <= 3 * length jobs)%nat /\ (f_wg s = 0%nat \/ exists s', step s s').
Proof.
  intros Hs. assert (work (launch jobs slots w) = k + work s /\ shape s)%nat as [Hk Hsh].
  { pose proof (launch_shape slots w) as H0. induction Hs as [s|k s s' s'' Hst Hs IH]; [done|].
    apply step_work in Hst as Hw. destruct IH as [? ?]; [by eapply step_shape|]. split; [lia|done]. }
  assert (work (launch jobs slots w) = 3 * length jobs)%nat as Hw.
  { unfold work, launch. simpl. clear. induction (length jobs) as [|n IH]; simpl in *; lia. }
  split; [lia|]. destruct (decide (f_wg s = 0%nat)); [by left|right]. by apply shape_progress.
Qed.

(** *** Every schedule amounts to answering the requests one by one *)
Lemma put_ne body i j slots : i ≠ j -> put body i slots !! j = slots !! j.
Proof. intros. destruct body; simpl; [by rewrite list_lookup_insert_ne|done]. Qed.
Lemma fetch_all_snoc sched i slots w :
  fetch_all get userID jobs (sched ++ [i]) slots w =
  let '(slots', w') := fetch_all get userID jobs sched slots w in run_job get userID jobs i slots' w'.
Proof.
  revert slots w. induction sched as [|j sched IH]; intros slots w; simpl; rewrite !M_bind_unfold.
  - unfold mret, M_ret. by destruct (run_job _ _ _ _ _ _).
  - destruct (run_job _ _ _ j slots w) as [slots' w']. apply IH.
Qed.
Lemma run_job_eq i path slots w body w' :
  jobs !! i = Some path -> get path userID w = (body, w') ->
  run_job get userID jobs i slots w = (put body i slots, w').
Proof. intros Hj Hg. unfold run_job. rewrite Hj, M_bind_unfold, Hg. by destruct body. Qed.

Context (slots0 : list string) (w0 : World).
Hypothesis Hlen : length slots0 = length jobs.

(** [final] is what the slots will be once the answers so far are stored. *)
Definition slot_inv (i : nat) (p : phase) (now final : option string) : Prop :=
  match p with
  | Running => now = slots0 !! i /\ final = slots0 !! i
  | Answered body => now = slots0 !! i /\ final = put body i slots0 !! i
  | Stored | Exited => now = final
  end.
Record serial (s : fstate) (o : list nat) (final : list string) : Prop := {
  se_run : fetch_all get userID jobs o slots0 w0 = (final, f_world s);
  se_len : length (f_slots s) = length jobs /\ length final = length jobs;
  se_nodup : NoDup o;
  se_called : forall i, i ∈ o <-> exists p, f_phases s !! i = Some p /\ p ≠ Running;
  se_slots : forall i p, f_phases s !! i = Some p -> slot_inv i p (f_slots s !! i) (final !! i);
}.

Lemma length_put body i (slots : list string) : length (put body i slots) = length slots.
Proof. destruct body; simpl; [apply length_insert|done]. Qed.
Lemma put_lookup body i (s1 s2 : list string) :
  length s1 = length s2 -> s1 !! i = s2 !! i -> put body i s1 !! i = put body i s2 !! i.
Proof.
  intros Hl Hi. destruct body; simpl; [|done]. rewrite !list_lookup_insert.
  by repeat case_decide; try lia.
Qed.

Lemma serial_call s i path body w' o final :
  f_phases s !! i = Some Running -> jobs !! i = Some path -> get path userID (f_world s) = (body, w') ->
  serial s o final ->
  serial (mkF (<[i := Answered body]> (f_phases s)) (f_slots s) (f_wg s) w') (o ++ [i]) (put body i final).
Proof.
  intros Hp Hj Hg [Hr [Hl1 Hl2] Hn Hc Hs]. pose proof (lookup_lt_Some _ _ _ Hp) as Hlt.
  assert (i ∉ o) as Hi. { intros (p & ? & ?)%Hc. by simplify_eq. }
  split; simpl.
  - rewrite fetch_all_snoc, Hr. by eapply run_job_eq.
  - by rewrite length_put.
  - apply NoDup_app. split_and!; [done| |apply NoDup_singleton]. intros x Hx ->%list_elem_of_singleton. done.
  - intros j. rewrite elem_of_app, list_elem_of_singleton. destruct (decide (j = i)) as [->|Hij].
    + rewrite list_lookup_insert_eq by done. naive_solver.
    + rewrite list_lookup_insert_ne by done. rewrite Hc. naive_solver.
  - intros j p. destruct (decide (j = i)) as [->|Hij].
    + rewrite list_lookup_insert_eq by done. intros [= <-]. destruct (Hs _ _ Hp) as [Ha Hb]. split; [done|].
      apply put_lookup; [lia|done].
    + rewrite list_lookup_insert_ne by done. rewrite put_ne by done. apply Hs.
Qed.

(** Storing an answer and leaving move one goroutine between called phases. *)
Lemma serial_move s i q p slots' wg' o final :
  f_phases s !! i = Some q -> q ≠ Running -> p ≠ Running ->
  length slots' = length jobs -> slot_inv i p (slots' !! i) (final !! i) ->
  (forall j, j ≠ i -> slots' !! j = f_slots s !! j) ->
  serial s o final -> serial (mkF (<[i := p]> (f_phases s)) slots' wg' (f_world s)) o final.
Proof.
  intros Hp Hq Hpr Hl Hsi Hne [Hr [Hl1 Hl2] Hn Hc Hs]. pose proof (lookup_lt_Some _ _ _ Hp) as Hlt.
  split; simpl; [done|done|done| |].
  - intros j. rewrite Hc. destruct (decide (j = i)) as [->|];
      [rewrite list_lookup_insert_eq by done|rewrite list_lookup_insert_ne by done]; naive_solver.
  - intros j p'. destruct (decide (j = i)) as [->|Hij];
      [rewrite list_lookup_insert_eq by done|rewrite list_lookup_insert_ne by done].
    + by intros [= <-].
    + rewrite Hne by done. apply Hs.
Qed.

Lemma serial_step s s' o final :
  step s s' -> serial s o final -> exists o' final', serial s' o' final'.
Proof.
  intros Hst Hse. destruct Hst as [s i path body w' Hp Hj Hg|s i body Hp|s i Hp].
  - eauto using serial_call.
  - exists o, final. eapply serial_move; [done..| | | |done].
    + rewrite length_put. apply Hse.
    + simpl. destruct (se_slots _ _ _ Hse _ _ Hp) as [Ha ->]. apply put_lookup; [|done].
      rewrite Hlen. apply Hse.
    + intros j Hj. by rewrite put_ne.
  - exists o, final. eapply serial_move; [done..|apply Hse| |done|done].
    exact (se_slots _ _ _ Hse _ _ Hp).
Qed.

Lemma serial_launch : serial (launch jobs slots0 w0) [] slots0.
Proof.
  split; simpl; [done|done|constructor| |].
  - intros i. split; [by intros ?%not_elem_of_nil|]. intros (p & [-> _]%lookup_replicate & ?). done.
  - intros i p [-> _]%lookup_replicate. done.
Qed.

(** C21. When the wait is over, the variables hold what answering the requests
    one after the other, in some order, would have stored: the interleaving of
    the goroutines refines the sequential fetch of the handlers' model. *)
Theorem fanout_serialises s :
  rtc step (launch jobs slots0 w0) s -> f_wg s = 0%nat ->
  exists sched, sched ≡ₚ seq 0 (length jobs) /\
    fetch_all get userID jobs sched slots0 w0 = (f_slots s, f_world s).
Proof.
  intros Hs Hw. assert (shape s /\ exists o final, serial s o final) as (Hsh & o & final & Hse).
  { clear Hw. revert s Hs. refine (rtc_ind_r _ _ _ _).
    - split; [apply launch_shape|]. exists [], slots0. apply serial_launch.
    - intros s s' Hs Hst [Hsh (o & final & IH)]. split; [by eapply step_shape|]. by eapply serial_step. }
  assert (forall i p, f_phases s !! i = Some p -> p = Exited) as Hex.
  { intros i p Hi. rewrite (sh_wg _ Hsh) in Hw. pose proof (sum_ge live _ _ _ Hi). destruct p; simpl in *; lia || done. }
  exists o. split.
  - apply NoDup_Permutation; [apply Hse|apply NoDup_seq|]. intros i. rewrite (se_called _ _ _ Hse), elem_of_seq.
    rewrite <-(sh_len _ Hsh). split.
    + intros (p & Hp & _). apply lookup_lt_Some in Hp. lia.
    + intros [_ Hi]. destruct (lookup_lt_is_Some_2 (f_phases s) i) as [p Hp]; [lia|]. exists p. split; [done|].
      by rewrite (Hex _ _ Hp).
  - rewrite (se_run _ _ _ Hse). f_equal. apply list_eq. intros i.
    destruct (f_phases s !! i) as [p|] eqn:Hp.
    + pose proof (se_slots _ _ _ Hse _ _ Hp) as Hi. rewrite (Hex _ _ Hp) in Hi. done.
    + apply lookup_ge_None in Hp. rewrite (sh_len _ Hsh) in Hp. destruct (se_len _ _ _ Hse) as [? ?].
      rewrite !(proj2 (lookup_ge_None _ _)); [done|lia..].
Qed.
End fanout.

(** Two requests whose goroutines overlap: the second is answered first. *)
Definition both : GetFn (H := logging_env) := fun path user w => (Ok (path +:+ user), w).
Definition world0 : @World logging_env := @mkWorld logging_env [] 0 0.
Definition f_end : @fstate logging_env := @mkF logging_env [Exited; Exited] ["/au"; "/bu"] 0 world0.
Lemma two_goroutines : nsteps (@fstep logging_env both "u" ["/a"; "/b"]) 6 (@launch logging_env ["/a"; "/b"] [""; ""] world0) f_end.
Proof.
  eapply nsteps_l; [eapply (@F_call logging_env both "u" ["/a"; "/b"] _ 1 "/b"); reflexivity|].
  eapply nsteps_l; [eapply (@F_call logging_env both "u" ["/a"; "/b"] _ 0 "/a"); reflexivity|].
  eapply nsteps_l; [eapply (@F_store logging_env both "u" ["/a"; "/b"] _ 0); reflexivity|].
  eapply nsteps_l; [eapply (@F_store logging_env both "u" ["/a"; "/b"] _ 1); reflexivity|].
  eapply nsteps_l; [eapply (@F_done logging_env both "u" ["/a"; "/b"] _ 1); reflexivity|].
  eapply nsteps_l; [eapply (@F_done logging_env both "u" ["/a"; "/b"] _ 0); reflexivity|].
  apply nsteps_O.
Qed.
Lemma fanout_terminates_witness : (6 <= 3 * length ["/a"; "/b"])%nat.
Proof.
  exact (proj1 (@fanout_terminates logging_env both "u" ["/a"; "/b"] [""; ""] world0 6 f_end two_goroutines)).
Defined.
Lemma fanout_serialises_witness :
  exists sched, sched ≡ₚ [0; 1]%nat /\
    fetch_all (H := logging_env) both "u" ["/a"; "/b"] sched [""; ""] world0 = (["/au"; "/bu"], world0).
Proof.
  exact (@fanout_serialises logging_env both "u" ["/a"; "/b"] [""; ""] world0 eq_refl f_end
    (rtc_nsteps_2 _ _ _ two_goroutines) eq_refl).
Defined.
End FanoutTheorems.

(** ** Sessions *)
Section sessions.
Context `{!Env} `{!NetURL} `{!Unicode} `{!Templates} `{!FileSys} (build : BuildInfo).

Lemma logged_out_bind {A} r secret w (k : option JWTClaims -> M World A) :
  (IsLoggedIn r secret w).1 = None -> (IsLoggedIn r secret ≫= k) w = k None (IsLoggedIn r secret w).2.
Proof. intros Hn. rewrite M_bind_unfold. destruct (IsLoggedIn r secret w) as [? ?]. simpl in *. by subst. Qed.

(** The answer to a request without a session: a redirect to the landing page,
    without a request to vire-server. *)
Definition turned_away (rw : ResponseWriter) (r : Request) (w : World) (x : outcome * World) : Prop :=
  x.1 = Returned (redirect_home rw r) /\ w_srv x.2 = w_srv w.

(** Without a valid session every personal page answers with a redirect to
    the landing page and no request reaches vire-server, whatever the path,
    the query, the user agent and the handler's configuration; saving a profile
    is refused with 401. *)
Lemma pages_turn_away {S} (h : SSRHandler) (hm : MCPPageHandler (S := S)) (hp : ProfileHandler)
    (ha : AdminUsersHandler) secret sched rw r (s : S) w :
  jwtSecret h = secret -> mp_jwtSecret hm = secret -> pr_jwtSecret hp = secret -> ad_jwtSecret ha = secret ->
  (IsLoggedIn r secret w).1 = None ->
  turned_away rw r w (DashboardHandler_ServeHTTP build h sched rw r w) /\
  turned_away rw r w (MobileDashboardHandler_ServeHTTP build h sched rw r w) /\
  turned_away rw r w (CashHandler_ServeHTTP build h rw r w) /\
  turned_away rw r w (StrategyHandler_ServeHTTP build h rw r w) /\
  turned_away rw r w (ServeHelpPage build h rw r w) /\
  turned_away rw r w (HandleProfile build hp rw r w) /\
  turned_away rw r w (AdminUsersHandler_ServeHTTP build ha rw r w) /\
  (let '(o, (s', w')) := MCPPageHandler_ServeHTTP build hm rw r (s, w) in s' = s /\ turned_away rw r w (o, w')) /\
  (let '(rw', w') := HandleSaveProfile hp rw r w in rw' = http_Error rw "Unauthorized" StatusUnauthorized /\ w_srv w' = w_srv w).
Proof.
  intros Eh Em Ep Ea Hn.
  assert (w_srv (IsLoggedIn r secret w).2 = w_srv w) as Hs by apply IsLoggedIn_srv.
  unfold DashboardHandler_ServeHTTP, MobileDashboardHandler_ServeHTTP, CashHandler_ServeHTTP,
    StrategyHandler_ServeHTTP, ServeHelpPage, HandleProfile, AdminUsersHandler_ServeHTTP,
    MCPPageHandler_ServeHTTP, HandleSaveProfile.
  rewrite Eh, Em, Ep, Ea, io_bind, Hn, !logged_out_bind by done. unfold turned_away. simpl. by split_and!.
Qed.
End sessions.

(** ** Which portfolio a page shows *)
Section selection.
Implicit Types (p : PortfolioList) (n : string).

Lemma unescape_plain n : no_byte "%" n = true -> PathUnescape n = Some n.
Proof.
  unfold PathUnescape. induction n as [|a n IH]; [done|]. intros [Ha Hn]%no_byte_cons.
  simpl. rewrite decide_False by done. by rewrite (IH Hn).
Qed.
Lemma url_portfolio_plain prefix n :
  n ≠ "" -> url_portfolio prefix (prefix +:+ "/" +:+ n) = default "" (PathUnescape n).
Proof.
  intros Hn. unfold url_portfolio, path_suffix. rewrite TrimPrefix_append, append_char.
  by rewrite decide_True by done.
Qed.

(** The selection: an asked-for portfolio of the list, else the default, else
    the first of the list. *)
Lemma select_portfolio_spec n p :
  (n ∈ pl_names p -> n ≠ "" -> select_portfolio n p = n) /\
  (n ∉ pl_names p \/ n = "" -> pl_Default p ≠ "" -> select_portfolio n p = pl_Default p) /\
  (n ∉ pl_names p \/ n = "" -> pl_Default p = "" -> select_portfolio n p = default "" (head (pl_names p))).
Proof.
  unfold select_portfolio. split_and!.
  - intros Hin Hn. rewrite !(decide_True (P := n ∈ pl_names p)) by done. by rewrite !(decide_False (P := n = "")) by done.
  - intros Hn Hd. assert ((if decide (n ∈ pl_names p) then n else "") = "") as ->.
    { destruct Hn as [Hn| ->]; [by rewrite decide_False|by destruct (decide _)]. }
    by rewrite (decide_False (P := pl_Default p = "")).
  - intros Hn Hd. assert ((if decide (n ∈ pl_names p) then n else "") = "") as ->.
    { destruct Hn as [Hn| ->]; [by rewrite decide_False|by destruct (decide _)]. }
    by rewrite Hd.
Qed.

(** The portfolio shown under /dashboard/{name} and /m/{name}: the server
    has already decoded the path, and the handlers decode it once more.  A
    listed name without a percent sign is the one shown; a name that is not a
    valid escape, such as 50% growth, is not found even if it is listed, and the
    default is shown instead; a name that can be decoded again, such as 10%25,
    shows the portfolio of the decoded name, 10%. *)
Lemma dashboard_url_selects prefix n p :
  n ≠ "" ->
  let shown := select_portfolio (url_portfolio prefix (prefix +:+ "/" +:+ n)) p in
  (no_byte "%" n = true -> n ∈ pl_names p -> shown = n) /\
  (PathUnescape n = None -> pl_Default p ≠ "" -> shown = pl_Default p) /\
  (forall m, PathUnescape n = Some m -> m ∈ pl_names p -> m ≠ "" -> shown = m).
Proof.
  intros Hn shown. unfold shown. rewrite url_portfolio_plain by done. split_and!.
  - intros Hb Hin. rewrite unescape_plain by done. by apply select_portfolio_spec.
  - intros -> Hd. apply (proj1 (proj2 (select_portfolio_spec _ p))); [by right|done].
  - intros m -> Hm Hne. by apply (proj1 (select_portfolio_spec m p)).
Qed.
Definition two_portfolios : PortfolioList := mkPortfolioList ["10%25"; "50% growth"; "10%"; "SMSF"] "SMSF".
End selection.

(** The comment of [isMobileBrowser] excludes Android tablets; the agent of one
    counts as mobile all the same. *)
Lemma android_tablet_is_mobile `{!Unicode} :
  isMobileBrowser "Mozilla/5.0 (Linux; Android 13; SM-X906C) AppleWebKit/537.36 Chrome/80.0 Safari/537.36" = true /\
  isMobileBrowser "Mozilla/5.0 (iPad; CPU OS 13_3 like Mac OS X) Mobile/15E148 Safari/604.1" = false.
Proof. by split. Qed.

(** A version document that is a JSON null makes the handler panic: the answer
    is stored into a nil map. *)
Lemma null_version_panics `{!Env} `{!NetURL} `{!Unicode} (build : BuildInfo) h rw r w q resp st :
  Method r = "GET" -> ver_apiURL h ≠ "" -> NewRequest "GET" (ver_apiURL h +:+ "/api/version") None = Some q ->
  http_do q (w_srv w) = (Ok resp, st) -> hr_status resp = 200 -> json_decode (hr_body resp) = Some JNull ->
  (VersionHandler_ServeHTTP build h rw r w).1 = Panicked rw.
Proof.
  intros Hm Hu Hq Hdo Hs Hb. unfold VersionHandler_ServeHTTP, RequireMethod. rewrite Hm. simpl.
  rewrite M_bind_unfold. unfold fetchServerVersionFields. rewrite decide_False, Hq by done. rewrite M_bind_unfold.
  unfold client_Do. rewrite Hdo. cbn [mret M_ret]. rewrite Hs. simpl. by rewrite Hb.
Qed.

(** ** Static files *)
Section static.
Context `{!FileSys}.

Lemma stack_of_append rooted d x :
  plain x -> stack_of rooted (d +:+ "/" +:+ x) = x :: stack_of rooted d.
Proof.
  intros (H1 & H2 & H3 & H4). unfold stack_of. rewrite append_char, Split_app, foldl_app, (Split_last "/" x) by done.
  simpl. unfold step_path at 1. rewrite decide_False by tauto. by rewrite decide_False.
Qed.
(** A directory joined with a plain name is rendered from a non-empty stack. *)
Lemma filepath_Join_render d x : plain x ->
  exists rooted st, filepath_Join d x = render rooted st /\ st ≠ [] /\ clean_stack rooted st.
Proof.
  intros Hx. unfold filepath_Join, filepath_Clean. destruct (decide (d = "")) as [->|Hd].
  { destruct Hx as (H1 & H2 & H3 & H4). rewrite decide_False by done. exists (IsAbs x), [x].
    unfold stack_of. rewrite (Split_last "/" x) by done. simpl. unfold step_path.
    rewrite decide_False by tauto. rewrite decide_False by done. split_and!; [done..|].
    apply cs_plain; [done|constructor]. }
  set (rooted := IsAbs _). exists rooted, (x :: stack_of rooted d). rewrite stack_of_append by done.
  split_and!; [done..|]. apply cs_plain; [done|]. apply stack_of_clean.
Qed.

Lemma Split_unbackslash p :
  Split (str_map unbackslash p) "/" = Split p "/" ≫= (fun seg => Split (str_map unbackslash seg) "/").
Proof.
  induction p as [|a p IH]; [done|]. cbn [str_map Split].
  destruct (decide (a = "/"%char)) as [->|Ha]; [cbn; by rewrite IH|].
  pose proof (Split_nonnil p "/") as Hp. destruct (Split p "/") as [|x l]; [done|].
  rewrite IH. cbn [mbind list_bind str_map Split app]. destruct (decide (unbackslash a = "/"%char)); [done|].
  pose proof (Split_nonnil (str_map unbackslash x) "/") as Hx. by destruct (Split (str_map unbackslash x) "/").
Qed.
Lemma no_dotdot_segment pre p : containsDotDot (pre +:+ String "/" p) = false -> ".." ∉ Split p "/".
Proof.
  unfold containsDotDot. intros Hc%bool_decide_eq_false Hin. apply Hc. clear Hc.
  rewrite Split_unbackslash. apply list_elem_of_bind. exists "..". split; [by apply list_elem_of_singleton|].
  rewrite Split_app. apply elem_of_app. by right.
Qed.

Lemma static_path_split p :
  (slen p <? slen "/static/")%nat = false -> HasPrefix p "/static/" = true ->
  p = "/static" +:+ String "/" (str_drop (slen "/static/") p).
Proof. intros _ [r ->]%HasPrefix_spec. by rewrite str_drop_append. Qed.

(** C25. The static file handler reads no file outside pages/static: for every
    request path under /static/, two file systems that agree on the names below
    that directory give the same answer.  The prefix test of the handler does
    not achieve this by itself, it would accept the sibling static-old; the
    check of dot-dot segments in [http.ServeFile] does. *)
Theorem static_confined serve1 serve2 w r :
  HasPrefix (Path r) "/static/" = true ->
  (forall name, under static_dir name -> serve1 name r w = serve2 name r w) ->
  StaticFileHandler serve1 w r = StaticFileHandler serve2 w r.
Proof.
  intros Hp Hsame. unfold StaticFileHandler. destruct (_ <? _)%nat eqn:El; [done|].
  destruct (HasPrefix (filepath_Abs _) _); [|done]. simpl. f_equal. unfold ServeFile.
  destruct (containsDotDot (Path r)) eqn:Ec; [done|]. apply Hsame.
  rewrite (static_path_split _ El Hp) in Ec. apply no_dotdot_segment in Ec.
  destruct (filepath_Join_render FindPagesDir "static") as (rooted & st & Hj & Hn & Hc); [by vm_compute|].
  unfold static_dir. rewrite Hj. by apply filepath_Join_under.
Qed.
End static.

(** The prefix test alone accepts a sibling directory. *)
Definition sample_files : FileSys :=
  {| os_Stat := fun d => if decide (d = "./pages") then Some true else None; os_Getwd := Some "/srv/portal" |}.
Lemma prefix_test_accepts_sibling :
  let dir := @static_dir sample_files in
  let name := filepath_Join dir "../static-old/secret" in
  HasPrefix (@filepath_Abs sample_files name) (@filepath_Abs sample_files dir) = true /\ ~ under dir name.
Proof.
  split; [by vm_compute|]. vm_compute. intros [?|[rest ?]]; discriminate.
Qed.
Definition css_request (path : string) : Request :=
  mkRequest "GET" path path "" "portal.test" false ∅ [] false ∅ None.
Definition serve_outside (secret name : string) (r : Request) (w : ResponseWriter) : ResponseWriter :=
  Write (if HasPrefix name "/srv/portal/pages/static" then name else secret) w.
Lemma static_confined_witness :
  let r := css_request "/static/../../../srv/portal/.env" in
  @StaticFileHandler sample_files (serve_outside "one") rw0 r = @StaticFileHandler sample_files (serve_outside "two") rw0 r.
Proof.
  intros r. apply (@static_confined sample_files (serve_outside "one") (serve_outside "two") rw0 r).
  - vm_compute. reflexivity.
  - intros name [->|[rest ->]]; vm_compute; reflexivity.
Defined.
