(* ===== verification/ProxyTheorems.v ===== *)
(** * ProxyTheorems: the middleware chain, routing and the API proxy *)
From S2P Require Import Prelude GoStrings GoCrypto GoJson GoURL GoHTTP GoPath GoMux OAuthBackend Cache Samples OAuthStores JWT OAuthServer OAuthTheorems AuthHandlers Server.

Section proxy.
Context `{!Env} `{!NetURL} `{!Unicode}.

(** The user a request is made for: the subject of its session, or "". *)
Definition user_of (r : Request) (s : Server) (w : World) : string :=
  match (IsLoggedIn r (s_jwtSecret s) w).1 with Some c => Sub c | None => "" end.
Definition after_login (r : Request) (s : Server) (w : World) : World := (IsLoggedIn r (s_jwtSecret s) w).2.
(** The proxy is configured and the path is not an internal one. *)
Definition proxied (r : Request) (s : Server) : Prop :=
  s_apiURL s ≠ "" /\ HasPrefix (Path r) "/api/internal/" = false.

Lemma handleAPIProxy_eq w r s wd :
  proxied r s ->
  handleAPIProxy w r (s, wd) =
  let u := user_of r s wd in
  let '(c, st) := proxy_lookup u r (s, after_login r s wd) in
  match c with Some c => (replay w c, st) | None => proxy_forward u w r st end.
Proof.
  intros [Ha Hi]. unfold handleAPIProxy. mrun. rewrite decide_False by done. rewrite Hi. mrun.
  rewrite io_bind. cbv zeta. fold (after_login r s wd). fold (user_of r s wd).
  rewrite M_bind_unfold. by destruct (proxy_lookup _ _ _) as [[c|] st].
Qed.

(** The entry that answers a request, if any. *)
Definition fresh_entry (u : string) (r : Request) (s : Server) (now : Z) : option CachedResponse :=
  if decide (Method r = "GET" /\ u ≠ "") then
    e ← items (s_cache s) !! proxy_key u r; if After now (expiry e) then None else Some (resp e)
  else None.
Lemma proxy_lookup_eq u r s w :
  exists s' w', proxy_lookup u r (s, w) = (fresh_entry u r s (clock (w_tick w)), (s', w')) /\
    w_srv w' = w_srv w /\ s_apiURL s' = s_apiURL s /\ s_jwtSecret s' = s_jwtSecret s /\
    items (s_cache s') ⊆ items (s_cache s) /\ ttl (s_cache s') = ttl (s_cache s) /\
    (is_Some (fresh_entry u r s (clock (w_tick w))) -> s' = s).
Proof.
  unfold proxy_lookup, fresh_entry. destruct (decide (Method r = "GET" /\ u ≠ "")); [|exists s, w; split_and!; try done; naive_solver].
  unfold cache_Get. mrun.
  destruct (items (s_cache s) !! proxy_key u r) as [e|] eqn:He; simpl; mrun;
    [|by exists s, w; split_and!; try done; intros []].
  destruct (After (clock (w_tick w)) (expiry e)); mrun; eexists _, _; (split; [reflexivity|]).
  - split_and!; first [done | apply Get_expire_items_subset | by rewrite Get_expire_with_items | by intros []].
  - by split_and!.
Qed.

(** ** Identity *)
Lemma proxy_request_some s u r q :
  proxy_request s u r = Some q ->
  hq_method q = Method r /\ hq_body q = ReqBody r /\
  hq_url q = s_apiURL s +:+ Path r +:+ (if decide (RawQ r = "") then "" else "?" +:+ RawQ r) /\
  hq_header q = (if decide (u = "") then ReqHeader r else Header_Set "X-Vire-User-ID" u (ReqHeader r)).
Proof.
  unfold proxy_request, NewRequest. intros Hq.
  destruct (negb _ && _); [|done]. destruct (url_Parse _); [|done].
  cbn [mbind option_bind] in Hq. unfold req_with in Hq. cbn [hq_header] in Hq.
  rewrite Header_AddAll_empty in Hq. by destruct (decide (u = "")); injection Hq as <-.
Qed.

(** What may be sent upstream for a request made by the user [u]. *)
Definition forwarded (r : Request) (s : Server) (u : string) (q : HTTPRequest) : Prop :=
  s_apiURL s ≠ "" /\ HasPrefix (Path r) "/api/internal/" = false /\
  hq_method q = Method r /\ hq_body q = ReqBody r /\
  hq_url q = s_apiURL s +:+ Path r +:+ (if decide (RawQ r = "") then "" else "?" +:+ RawQ r) /\
  (u ≠ "" -> hq_header q !! "X-Vire-User-Id" = Some [u]) /\
  (u = "" -> hq_header q = ReqHeader r).
Lemma proxy_request_forwarded s0 s u r q :
  proxied r s0 -> s_apiURL s = s_apiURL s0 -> proxy_request s u r = Some q -> forwarded r s0 u q.
Proof.
  intros [Ha Hi] Hs (Hm & Hb & Hu & Hh)%proxy_request_some. rewrite Hs in Hu.
  unfold forwarded. split_and!; try done.
  - intros Hne. rewrite Hh, decide_False by done. apply (lookup_insert_eq _ "X-Vire-User-Id").
  - intros ->. by rewrite Hh.
Qed.

Section log.
Context (log : srv -> list HTTPRequest).
Hypothesis log_do : forall q s, log (http_do q s).2 = log s ++ [q].

Lemma proxy_forward_log u rw r s w :
  log (w_srv (proxy_forward u rw r (s, w)).2.2) =
    log (w_srv w) ++ (match proxy_request s u r with Some q => [q] | None => [] end).
Proof.
  unfold proxy_forward. mrun. destruct (proxy_request s u r) as [q|]; [|by rewrite app_nil_r].
  rewrite io_bind. unfold client_Do. pose proof (log_do q (w_srv w)) as Hl.
  destruct (http_do q (w_srv w)) as [[resp|e] st]; simpl in *; [|done].
  destruct (ReadLimited _ _); [|done]. by mrun.
Qed.

(** C7. Who vire-server believes the caller is: handling an API request sends at
    most one request upstream, and none when no API URL is configured or the
    path is under /api/internal/; what is sent has the client's method, path,
    query and body, and for a logged-in user carries exactly that user's id in
    X-Vire-User-ID, whatever the client put there.  Without a session the
    client's own headers are passed on, an X-Vire-User-ID it claims
    included. *)
Theorem proxy_identity rw r s w :
  exists l, log (w_srv (handleAPIProxy rw r (s, w)).2.2) = log (w_srv w) ++ l /\
    (length l <= 1)%nat /\ Forall (forwarded r s (user_of r s w)) l.
Proof.
  destruct (decide (s_apiURL s = "")) as [Ha|Ha].
  { exists []. unfold handleAPIProxy. mrun. rewrite decide_True, app_nil_r by done. auto. }
  destruct (HasPrefix (Path r) "/api/internal/") eqn:Hi.
  { exists []. unfold handleAPIProxy. mrun. rewrite decide_False, Hi, app_nil_r by done. auto. }
  rewrite (handleAPIProxy_eq rw r s w (conj Ha Hi)). cbv zeta.
  destruct (proxy_lookup_eq (user_of r s w) r s (after_login r s w)) as (s' & w' & -> & Hw & Hs & _).
  unfold after_login in Hw. rewrite IsLoggedIn_srv in Hw.
  destruct (fresh_entry _ _ _ _) as [c|]; [exists []; simpl; rewrite Hw, app_nil_r; auto|].
  eexists. rewrite proxy_forward_log, Hw. split; [reflexivity|].
  destruct (proxy_request s' _ r) as [q|] eqn:Hq; [|by auto]. split; [done|].
  apply Forall_singleton. by apply (proxy_request_forwarded s s').
Qed.
End log.

(** ** Caching *)
Lemma proxy_forward_ok u rw r s w q resp st body :
  proxy_request s u r = Some q -> http_do q (w_srv w) = (Ok resp, st) ->
  ReadLimited (maxCacheableBody + 1) resp = Ok body ->
  proxy_forward u rw r (s, w) =
    (replay rw (mkCachedResponse (hr_status resp) (hr_header resp) body),
     (set_cache (update_cache u r resp body (clock (w_tick w)) (s_cache s)) s,
      mkWorld st (S (w_tick w)) (w_draw w))).
Proof.
  intros Hq Hdo Hb. unfold proxy_forward. mrun. rewrite Hq, io_bind. unfold client_Do. rewrite Hdo. simpl.
  rewrite Hb. by mrun.
Qed.

Lemma Invalidate_lookup p c k e : items (InvalidatePrefix p c) !! k = Some e -> items c !! k = Some e.
Proof. intros Hk. eapply lookup_weaken; [done|apply InvalidatePrefix_subset]. Qed.

(** An answer over the limit is cut one byte behind it and sent on under the
    headers of the whole answer. *)
Lemma oversized_answer_cut u rw r s w q resp st :
  proxy_request s u r = Some q -> http_do q (w_srv w) = (Ok resp, st) ->
  maxCacheableBody + 1 <= Z.of_nat (slen (hr_body resp)) ->
  (proxy_forward u rw r (s, w)).1 =
    replay rw (mkCachedResponse (hr_status resp) (hr_header resp) (str_take (Z.to_nat (maxCacheableBody + 1)) (hr_body resp))).
Proof.
  intros Hq Hdo Hlen. rewrite (proxy_forward_ok u rw r s w q resp st (str_take (Z.to_nat (maxCacheableBody + 1)) (hr_body resp)));
    [done..|]. unfold ReadLimited. by rewrite (proj2 (Z.leb_le _ _)) by done.
Qed.

(** What is in the cache after an answer was either there before or is that
    answer under the key of the request. *)
Lemma update_cache_items u r resp body now c k e :
  items (update_cache u r resp body now c) !! k = Some e ->
  items c !! k = Some e \/
  (cacheable u r resp body = true /\ k = proxy_key u r /\
   Cache.resp e = mkCachedResponse (hr_status resp) (hr_header resp) body).
Proof.
  unfold update_cache. intros Hk. assert (items (store_answer u r resp body now c) !! k = Some e) as Hk'.
  { destruct (forces_refresh u r), (writes u r); repeat apply Invalidate_lookup in Hk; done. }
  unfold store_answer in Hk'. destruct (cacheable u r resp body); [|by left]. rewrite Set_unfold in Hk'. simpl in Hk'.
  destruct (decide (k = proxy_key u r)) as [->|Hne].
  - rewrite lookup_insert_eq in Hk'. injection Hk' as <-. right. done.
  - rewrite lookup_insert_ne in Hk' by done. left. eapply lookup_weaken; [done|apply set_base_subset].
Qed.

(** The entry stored for a cacheable answer that nothing invalidates. *)
Lemma update_cache_filled u r resp body now c :
  cacheable u r resp body = true -> Values_Get (Query r) "force_refresh" ≠ "true" ->
  exists n, items (update_cache u r resp body now c) !! proxy_key u r =
    Some (mkEntry (mkCachedResponse (hr_status resp) (hr_header resp) body) (now + ttl c) n).
Proof.
  intros Hc Hf. unfold update_cache, store_answer, forces_refresh, writes. rewrite Hc, Set_unfold.
  rewrite (bool_decide_false (Values_Get _ _ = _)) by done.
  unfold cacheable in Hc. bool_to_prop. rewrite (bool_decide_true (Method r = "GET")) by done. simpl.
  rewrite lookup_insert_eq. eauto.
Qed.

(** A request answered from an entry of the cache. *)
Lemma cache_hit r s w u e :
  s_apiURL s ≠ "" -> Method r = "GET" -> HasPrefix (Path r) "/api/internal/" = false ->
  user_of r s w = u -> u ≠ "" -> items (s_cache s) !! proxy_key u r = Some e ->
  clock (w_tick (after_login r s w)) <= expiry e ->
  exists w', handleAPIProxy rw0 r (s, w) = (replay rw0 (Cache.resp e), (s, w')) /\ w_srv w' = w_srv w.
Proof.
  intros Ha HG Hi Hu Hne He Hclk. rewrite (handleAPIProxy_eq rw0 r s w) by done. cbv zeta. rewrite Hu.
  destruct (proxy_lookup_eq u r s (after_login r s w)) as (s2 & w2 & -> & Hsrv & _ & _ & _ & _ & Hsame).
  assert (fresh_entry u r s (clock (w_tick (after_login r s w))) = Some (Cache.resp e)) as Hhit.
  { unfold fresh_entry. rewrite decide_True by done. rewrite He. simpl. unfold After.
    by rewrite (proj2 (Z.ltb_ge _ _)) by lia. }
  rewrite Hhit in Hsame |- *. rewrite Hsame by eauto. exists w2. split; [done|]. rewrite Hsrv. apply IsLoggedIn_srv.
Qed.

(** C31. A cached answer is the answer.  When vire-server answers a user's GET
    (one without force_refresh=true that the cache could not answer) with a 2xx
    of at most 5 MB, the answer is given to the user and kept under the user and
    the URI, with an expiry one time to live after the clock reading that stored
    it.  From then on, in every state of the server whose cache still holds that
    entry (no write below the path, no forced refresh and no eviction has removed
    it), each GET of the same URI by that user up to the expiry gets the same
    status, headers and body, without an exchange with vire-server and without a
    change of the server's state; after the expiry the entry answers nothing. *)
Theorem proxy_cache_replay r s w q resp st body :
  let u := user_of r s w in let w0 := after_login r s w in
  proxied r s -> u ≠ "" ->
  fresh_entry u r s (clock (w_tick w0)) = None ->
  proxy_request s u r = Some q -> http_do q (w_srv w0) = (Ok resp, st) ->
  ReadLimited (maxCacheableBody + 1) resp = Ok body ->
  cacheable u r resp body = true -> Values_Get (Query r) "force_refresh" ≠ "true" ->
  let '(rw1, (s1, w1)) := handleAPIProxy rw0 r (s, w) in
  rw1 = replay rw0 (mkCachedResponse (hr_status resp) (hr_header resp) body) /\
  exists e, items (s_cache s1) !! proxy_key u r = Some e /\ expiry e = clock (pred (w_tick w1)) + ttl (s_cache s) /\
  forall r2 s2 w2, items (s_cache s2) !! proxy_key u r = Some e -> s_apiURL s2 ≠ "" ->
    Method r2 = "GET" -> RequestURI r2 = RequestURI r ->
    HasPrefix (Path r2) "/api/internal/" = false -> user_of r2 s2 w2 = u ->
    let now := clock (w_tick (after_login r2 s2 w2)) in
    (now <= expiry e ->
     let '(rw2, (s2', w2')) := handleAPIProxy rw0 r2 (s2, w2) in
     rw2 = rw1 /\ s2' = s2 /\ w_srv w2' = w_srv w2) /\
    (expiry e < now -> fresh_entry u r2 s2 now = None).
Proof.
  intros u w0 Hp Hu Hmiss Hq Hdo Hb Hc Hf. rewrite (handleAPIProxy_eq rw0 r s w Hp). cbv zeta. fold u w0.
  destruct (proxy_lookup_eq u r s w0) as (s' & w' & -> & Hsrv & Ha & Hj & _ & Httl & _). rewrite Hmiss.
  assert (Method r = "GET") as HG by (unfold cacheable in Hc; by bool_to_prop).
  rewrite (proxy_forward_ok u rw0 r s' w' q resp st body);
    [|by unfold proxy_request in *; rewrite Ha|by rewrite Hsrv|done].
  split; [done|].
  destruct (update_cache_filled u r resp body (clock (w_tick w')) (s_cache s') Hc Hf) as [n Hn].
  rewrite Httl in Hn. eexists. split; [exact Hn|]. split; [done|].
  intros r2 s2 w2 He Ha2 HG2 Hri Hi2 Hu2.
  assert (proxy_key u r2 = proxy_key u r) as Hk by (unfold proxy_key; by rewrite HG2, Hri, HG). rewrite <-Hk in He. split.
  - intros Hclk. destruct (cache_hit r2 s2 w2 u _ Ha2 HG2 Hi2 Hu2 Hu He Hclk) as (w3 & -> & ?). done.
  - intros Hclk. unfold fresh_entry. rewrite decide_True by done. rewrite He. simpl. unfold After.
    by rewrite (proj2 (Z.ltb_lt _ _)).
Qed.

(** ** Invalidation *)
Definition refreshes (r : Request) : bool :=
  negb (bool_decide (Method r = "GET")) || bool_decide (Values_Get (Query r) "force_refresh" = "true").
Lemma Contains_key u m p q : Contains (MakeKey u m (p +:+ q)) p = true.
Proof.
  apply Contains_spec. exists (u +:+ ":" +:+ m +:+ ":"), q. unfold MakeKey. by rewrite !append_assoc.
Qed.
Lemma update_cache_invalidated u r resp body now c k :
  u ≠ "" -> refreshes r = true -> Contains k (Path r) = true ->
  items (update_cache u r resp body now c) !! k = None.
Proof.
  intros Hu Hr Hk. assert (forall c0, items (InvalidatePrefix (Path r) c0) !! k = None) as Hinv.
  { intros c0. simpl. apply map_lookup_filter_None. right. intros e _. simpl. congruence. }
  unfold update_cache, forces_refresh, writes. rewrite (bool_decide_false (u = "")) by done. simpl. rewrite !andb_true_r.
  unfold refreshes in Hr. destruct (negb (bool_decide (Method r = "GET"))); [apply Hinv|].
  simpl in Hr. rewrite Hr. apply Hinv.
Qed.

(** C32. Writes are seen: once vire-server has answered a logged-in user's write,
    or GET with force_refresh=true that the cache could not answer, the cache has
    no answer of any user left for a URI that starts with the (decoded) path of
    that request, the answer to that GET included, so the next such read goes to
    vire-server. *)
Theorem proxy_write_invalidates r s w q resp st body :
  let u := user_of r s w in let w0 := after_login r s w in
  proxied r s -> u ≠ "" -> refreshes r = true ->
  fresh_entry u r s (clock (w_tick w0)) = None ->
  proxy_request s u r = Some q -> http_do q (w_srv w0) = (Ok resp, st) ->
  ReadLimited (maxCacheableBody + 1) resp = Ok body ->
  let '(rw1, (s1, w1)) := handleAPIProxy rw0 r (s, w) in
  forall u2 r2 rest now, RequestURI r2 = Path r +:+ rest -> fresh_entry u2 r2 s1 now = None.
Proof.
  intros u w0 Hp Hu Hr Hmiss Hq Hdo Hb. rewrite (handleAPIProxy_eq rw0 r s w Hp). cbv zeta. fold u w0.
  destruct (proxy_lookup_eq u r s w0) as (s' & w' & -> & Hsrv & Ha & _). rewrite Hmiss.
  rewrite (proxy_forward_ok u rw0 r s' w' q resp st body);
    [|by unfold proxy_request in *; rewrite Ha|by rewrite Hsrv|done].
  intros u2 r2 rest now Huri. unfold fresh_entry. case_decide; [|done]. cbn [s_cache set_cache].
  rewrite update_cache_invalidated; [done|done|done|]. unfold proxy_key. rewrite Huri. apply Contains_key.
Qed.

(** ** Privacy *)
(** [log] lists the exchanges whose answers were stored: user, URI, answer. *)
Definition obtained (log : list (string * string * CachedResponse)) (c : ResponseCache) : Prop :=
  forall k e, items c !! k = Some e -> exists u uri, k = MakeKey u "GET" uri /\ (u, uri, resp e) ∈ log.
Definition stored_exchange (u : string) (r : Request) (resp : HTTPResponse) (body : string)
    : list (string * string * CachedResponse) :=
  if cacheable u r resp body
  then [(u, RequestURI r, mkCachedResponse (hr_status resp) (hr_header resp) body)] else [].

Lemma obtained_subset log c c' : items c' ⊆ items c -> obtained log c -> obtained log c'.
Proof. intros Hs Ho k e Hk. apply Ho. by eapply lookup_weaken. Qed.
Lemma obtained_update log c u r resp body now :
  obtained log c -> obtained (stored_exchange u r resp body ++ log) (update_cache u r resp body now c).
Proof.
  intros Ho k e [Hk|(Hc & -> & Hr)]%update_cache_items.
  - destruct (Ho k e Hk) as (u' & uri & ? & ?). exists u', uri. split; [done|]. apply elem_of_app. by right.
  - exists u, (RequestURI r). assert (Method r = "GET") as HG by (unfold cacheable in Hc; by bool_to_prop).
    split; [unfold proxy_key; by rewrite HG|]. unfold stored_exchange. rewrite Hc, Hr. by left.
Qed.

Lemma fresh_obtained log u r s now c :
  no_byte ":" u = true -> (forall x, x ∈ log -> no_byte ":" x.1.1 = true) -> obtained log (s_cache s) ->
  fresh_entry u r s now = Some c -> (u, RequestURI r, c) ∈ log.
Proof.
  intros Hcolon Hlog Ho Hf. unfold fresh_entry in Hf.
  destruct (decide (Method r = "GET" /\ u ≠ "")) as [[HG _]|]; [|done].
  destruct (items (s_cache s) !! proxy_key u r) as [e|] eqn:He; [|done]. simpl in Hf.
  destruct (After _ _); [done|]. injection Hf as <-.
  destruct (Ho _ _ He) as (u' & uri & Hk & Hin). unfold proxy_key in Hk. rewrite HG in Hk.
  specialize (Hlog _ Hin). simpl in Hlog. apply MakeKey_sep in Hk as (<- & _ & <-); done.
Qed.

(** No answer crosses users: let the cache hold only answers from a log of what
    users were given for a URI, and let no user id contain a colon.  Then a
    request answered from the cache gets an answer the log has for that very
    user and URI, and the cache afterwards holds only answers from the log and
    the answer just given to the requesting user for this URI; so the
    assumption holds again for the next request. *)
Lemma proxy_cache_private log r s w :
  let u := user_of r s w in
  proxied r s -> no_byte ":" u = true ->
  (forall x, x ∈ log -> no_byte ":" x.1.1 = true) -> obtained log (s_cache s) ->
  let '(rw, (s', w')) := handleAPIProxy rw0 r (s, w) in
  (forall c, fresh_entry u r s (clock (w_tick (after_login r s w))) = Some c ->
     rw = replay rw0 c /\ (u, RequestURI r, c) ∈ log) /\
  exists log', obtained (log' ++ log) (s_cache s') /\
    (forall x, x ∈ log' -> exists c, x = (u, RequestURI r, c) /\ rw = replay rw0 c).
Proof.
  intros u Hp Hcolon Hlog Ho. rewrite (handleAPIProxy_eq rw0 r s w Hp). cbv zeta. fold u.
  pose proof (fresh_obtained log u r s (clock (w_tick (after_login r s w)))) as Hfresh.
  destruct (proxy_lookup_eq u r s (after_login r s w)) as (s' & w' & -> & _ & _ & _ & Hsub & _).
  assert (obtained log (s_cache s')) as Ho' by by eapply obtained_subset.
  assert (forall rw, exists log', obtained (log' ++ log) (s_cache s') /\
    (forall x, x ∈ log' -> exists c, x = (u, RequestURI r, c) /\ rw = replay rw0 c)) as Hno
    by (intros rw; exists []; split; [done|by intros x ?%not_elem_of_nil]).
  destruct (fresh_entry _ _ _ _) as [c|].
  { split; [|apply Hno]. intros c' [= <-]. split; [done|by apply Hfresh]. }
  unfold proxy_forward. mrun. destruct (proxy_request s' u r) as [q|]; [|split; [done|apply Hno]].
  rewrite io_bind. destruct (client_Do q w') as [[resp|e] w'']; simpl; [|split; [done|apply Hno]].
  destruct (ReadLimited _ resp) as [body|]; [|split; [done|apply Hno]]. mrun. simpl. split; [done|].
  exists (stored_exchange u r resp body). split; [by apply obtained_update|].
  unfold stored_exchange. intros x Hx. destruct (cacheable _ _ _ _);
    [apply list_elem_of_singleton in Hx as ->; by eexists|by apply not_elem_of_nil in Hx].
Qed.
End proxy.

(** ** Routing *)
Section routing.
Definition matches (m p : string) (x : string * string * Route) : bool :=
  method_matches x.1.1 m && path_matches x.1.2 p.
Definition pick (best : option (string * string * Route)) (x : string * string * Route) :=
  match best with None => Some x | Some b => if more_specific x b then Some x else best end.

Lemma mux_match_filter routes m p :
  mux_match routes m p = snd <$> foldl pick None (List.filter (matches m p) routes).
Proof.
  unfold mux_match, mux_pattern. f_equal. generalize (@None (string * string * Route)).
  induction routes as [|x l IH]; intros b; [done|]. cbn [foldl List.filter]. rewrite IH.
  unfold match_step. fold (matches m p x). by destruct (matches m p x), b.
Qed.

(** The API paths with handlers of their own. *)
Definition portal_api_paths : list string :=
  ["/api/auth/login"; "/api/auth/test-login"; "/api/auth/logout"; "/api/auth/login/google";
   "/api/auth/login/github"; "/api/auth/callback/google"; "/api/auth/callback/github"; "/api/health";
   "/api/server-health"; "/api/version"; "/api/shutdown"].

(** The unescaped segments of a path. *)
Definition segs (p : string) : list string := unescape_seg <$> path_segs p.
Lemma api_segs rest : segs ("/api/" +:+ rest) = "api" :: (unescape_seg <$> Split rest "/").
Proof.
  unfold segs, path_segs. change ("/api/" +:+ rest) with ("/api" +:+ String "/" rest). by rewrite Split_app.
Qed.
Lemma filter_skip m p a pat x l :
  path_matches pat p = false -> List.filter (matches m p) ((a, pat, x) :: l) = List.filter (matches m p) l.
Proof. intros Hp. cbn [List.filter]. unfold matches at 1. simpl. by rewrite Hp, andb_false_r. Qed.
Lemma filter_keep m p pat x l :
  path_matches pat p = true -> List.filter (matches m p) (("", pat, x) :: l) = ("", pat, x) :: List.filter (matches m p) l.
Proof. intros Hp. cbn [List.filter]. unfold matches at 1. simpl. by rewrite Hp. Qed.
(** Patterns with another first literal can be left aside. *)
Definition other_head (y pat : string) : bool :=
  match literals pat with lit :: _ => negb (bool_decide (lit = y)) | [] => false end.
Lemma path_matches_head y ys pat p : segs p = y :: ys -> other_head y pat = true -> path_matches pat p = false.
Proof.
  unfold other_head, path_matches. fold (segs p). intros -> Ho. destruct (literals pat) as [|lit lits]; [done|].
  apply negb_true_iff, bool_decide_eq_false in Ho.
  destruct (is_tree pat); rewrite ?andb_false_iff; [left|]; apply bool_decide_false; simpl; naive_solver.
Qed.
Lemma filter_heads y ys m p routes :
  segs p = y :: ys ->
  List.filter (matches m p) routes = List.filter (matches m p) (List.filter (fun x => negb (other_head y x.1.2)) routes).
Proof.
  intros Hs. induction routes as [|[[a pat] x] l IH]; [done|]. cbn [List.filter]. cbn [fst snd].
  destruct (other_head y pat) eqn:Ho; simpl; [|by rewrite IH].
  unfold matches at 1. simpl. by rewrite (path_matches_head y ys), andb_false_r by done.
Qed.
(** A pattern that needs other segments does not match. *)
Lemma path_matches_other pat p : is_tree pat = false -> segs p ≠ literals pat -> path_matches pat p = false.
Proof. intros Ht Hn. unfold path_matches. rewrite Ht. by apply bool_decide_false. Qed.

Lemma api_matches mcp dev m rest :
  (forall pat, pat ∈ portal_api_paths -> segs ("/api/" +:+ rest) ≠ literals pat) ->
  List.filter (matches m ("/api/" +:+ rest)) (setupRoutes mcp dev) = [("", "/", RLanding); ("", "/api/", RAPIProxy)].
Proof.
  intros Hn. pose proof (api_segs rest) as Hs. set (p := "/api/" +:+ rest) in *.
  assert (path_matches "/" p = true /\ path_matches "/api/" p = true) as [Hroot Hapi].
  { unfold path_matches. fold (segs p). rewrite Hs. change (is_tree "/") with true. change (is_tree "/api/") with true.
    change (literals "/") with (@nil string). change (literals "/api/") with ["api"]. cbn [length take].
    rewrite !bool_decide_true by done. rewrite length_fmap.
    destruct (Split rest "/") eqn:E; [by destruct (Split_nonnil rest "/")|done]. }
  rewrite (filter_heads "api" _ m p _ Hs). clearbody p.
  assert (List.filter (fun x => negb (other_head "api" x.1.2)) (setupRoutes mcp dev) =
    ("", "/", RLanding) :: List.filter (fun x => HasPrefix x.1.2 "/api/") (setupRoutes mcp dev)) as ->
    by (destruct mcp, dev; vm_compute; reflexivity).
  rewrite filter_keep by done. f_equal.
  assert (forall x, x ∈ List.filter (fun x => HasPrefix x.1.2 "/api/") (setupRoutes mcp dev) ->
    x = ("", "/api/", RAPIProxy) \/ (is_tree x.1.2 = false /\ x.1.2 ∈ portal_api_paths)) as Hx.
  { assert (forallb (fun x => bool_decide (x = ("", "/api/", RAPIProxy)) ||
      (negb (is_tree x.1.2) && bool_decide (x.1.2 ∈ portal_api_paths)))
      (List.filter (fun x => HasPrefix x.1.2 "/api/") (setupRoutes mcp dev)) = true) as Hall
      by (destruct mcp, dev; vm_compute; reflexivity).
    intros x Hin%list_elem_of_In. rewrite forallb_forall in Hall. specialize (Hall x Hin).
    apply orb_true_iff in Hall as [?%bool_decide_eq_true|[?%negb_true_iff ?%bool_decide_eq_true]%andb_true_iff]; auto. }
  assert (exists l, List.filter (fun x => HasPrefix x.1.2 "/api/") (setupRoutes mcp dev) = l ++ [("", "/api/", RAPIProxy)] /\
    Forall (fun x => x ≠ ("", "/api/", RAPIProxy)) l) as (l & El & Fl).
  { exists (removelast (List.filter (fun x => HasPrefix x.1.2 "/api/") (setupRoutes mcp dev))). split; [destruct mcp, dev; vm_compute; reflexivity|].
    destruct mcp, dev; apply (bool_decide_unpack _); vm_compute; reflexivity. }
  rewrite El in Hx |- *. clear El. induction Fl as [|x l Hne Fl IH]; [by rewrite app_nil_l, filter_keep by done|].
  destruct (Hx x ltac:(by left)) as [->|[Ht Hin]]; [done|]. destruct x as [[a pat] rt]. rewrite <-app_comm_cons, filter_skip.
  - apply IH. intros y Hy. apply Hx. by right.
  - apply path_matches_other; [done|]. by apply Hn.
Qed.

(** Routing of the API: whatever the method, a path under /api/ that is not
    one of the portal's own endpoints reaches the proxy, and in particular no
    handler but the proxy sees a path under /api/internal/. *)
Lemma api_routes_to_proxy mcp dev m rest :
  (forall pat, pat ∈ portal_api_paths -> segs ("/api/" +:+ rest) ≠ literals pat) \/ HasPrefix rest "internal/" = true ->
  mux_match (setupRoutes mcp dev) m ("/api/" +:+ rest) = Some RAPIProxy.
Proof.
  intros Hor. rewrite mux_match_filter, api_matches; [done|].
  destruct Hor as [Hn|[x ->]%HasPrefix_spec]; [done|]. intros pat Hp. rewrite api_segs.
  change ("internal/" +:+ x) with ("internal" +:+ String "/" x). rewrite Split_app.
  repeat (apply elem_of_cons in Hp as [->|Hp]; [by vm_compute literals|]). by apply not_elem_of_nil in Hp.
Qed.
End routing.

(** ** Middleware *)
Section middleware.
Context `{!Env} {S : Type} (uuid_New : M World string).
Abbreviation Handlr := (Handler (S * World)).
Implicit Types (next : Handlr) (s : S).

(** The double-submit check of an unsafe request. *)
Definition csrf_token_of (r : Request) : string :=
  let t := get_header r "X-CSRF-Token" in if decide (t = "") then FormValue (parse_form r) "_csrf" else t.
(** The request behind the check: its form has been parsed when the check looked
    for the token there. *)
Definition csrf_safe (r : Request) : bool :=
  bool_decide (Method r = "GET") || bool_decide (Method r = "HEAD") || bool_decide (Method r = "OPTIONS") ||
  csrf_exempt (Path r).
Definition csrf_request (r : Request) : Request :=
  if negb (csrf_safe r) && bool_decide (get_header r "X-CSRF-Token" = "") then parse_form r else r.
Definition csrf_ok (r : Request) : bool :=
  csrf_safe r ||
  (negb (bool_decide (CookieValue r "_csrf" = "")) && bool_decide (csrf_token_of r = CookieValue r "_csrf")).

Lemma csrf_request_path r : Path (csrf_request r) = Path r.
Proof. unfold csrf_request, parse_form. destruct (_ && _); [|done]. destruct (ReqBody r); [|done]. by destruct (posts_form r). Qed.

(** Making an identifier does not talk to the network. *)
Definition uuid_quiet : Prop := forall w, w_srv (uuid_New w).2 = w_srv w.

Lemma generateCSRFToken_srv w : uuid_quiet -> w_srv (generateCSRFToken uuid_New w).2 = w_srv w.
Proof.
  intros Hq. unfold generateCSRFToken. rewrite M_bind_unfold. unfold rand_Read.
  destruct (rand_read _ _); [done|]. by rewrite Hq.
Qed.

Lemma csrf_cases next rw r s w :
  (csrf_ok r = false /\ exists msg,
     csrfMiddleware uuid_New next rw r (s, w) = (Returned (http_Error rw msg StatusForbidden), (s, w))) \/
  (csrf_ok r = true /\ exists rw' w', rw_header rw' = rw_header rw /\ rw_sent rw' = rw_sent rw /\
     (uuid_quiet -> w_srv w' = w_srv w) /\
     csrfMiddleware uuid_New next rw r (s, w) = next rw' (csrf_request r) (s, w')).
Proof.
  unfold csrf_ok, csrf_request, csrf_safe, csrfMiddleware.
  destruct (decide (Method r = "GET" \/ Method r = "HEAD" \/ Method r = "OPTIONS")) as [Hm|Hm].
  - right. assert (bool_decide (Method r = "GET") || bool_decide (Method r = "HEAD") || bool_decide (Method r = "OPTIONS") = true)
      as -> by (rewrite !orb_true_iff, !bool_decide_eq_true; tauto).
    split; [done|]. destruct (decide (Method r = "GET" /\ CookieValue r "_csrf" = "")).
    + rewrite io_bind. eexists (set_cookie _ rw), _. split_and!; [done..| |done]. apply generateCSRFToken_srv.
    + by exists rw, w.
  - rewrite !(bool_decide_false (Method r = _)) by tauto. simpl.
    destruct (csrf_exempt (Path r)); [right; split; [done|by exists rw, w]|]. simpl.
    destruct (decide (CookieValue r "_csrf" = "")) as [Hc|Hc].
    + left. rewrite bool_decide_true by done. split; [done|]. eexists. done.
    + rewrite (bool_decide_false (CookieValue r "_csrf" = "")) by done. cbv zeta.
      assert ((if decide (get_header r "X-CSRF-Token" = "")
               then FormValue (if decide (get_header r "X-CSRF-Token" = "") then parse_form r else r) "_csrf"
               else get_header r "X-CSRF-Token") = csrf_token_of r) as ->
        by (unfold csrf_token_of; cbv zeta; by destruct (decide (get_header r "X-CSRF-Token" = ""))).
      simpl.
      destruct (decide (csrf_token_of r = "" \/ csrf_token_of r ≠ CookieValue r "_csrf")) as [Ht|Ht].
      * left. rewrite bool_decide_false by (intros ?; destruct Ht as [Ht|]; congruence). split; [done|]. by eexists.
      * right. rewrite bool_decide_true by (destruct (decide (csrf_token_of r = CookieValue r "_csrf")); tauto).
        split; [done|]. exists rw, w. split_and!; try done.
        by destruct (decide (get_header r "X-CSRF-Token" = "")); [rewrite bool_decide_true|rewrite bool_decide_false].
Qed.

(** The headers every answer starts from. *)
Definition hardened (h : Header) : Prop :=
  Header_Get h "X-Content-Type-Options" = "nosniff" /\ Header_Get h "X-Frame-Options" = "DENY" /\
  Header_Get h "X-XSS-Protection" = "1; mode=block" /\
  Header_Get h "Referrer-Policy" = "strict-origin-when-cross-origin" /\
  Header_Get h "Content-Security-Policy" = csp /\ Header_Get h "Access-Control-Allow-Origin" = "*".
Definition base_writer (id : string) : ResponseWriter :=
  rw_set "Access-Control-Allow-Headers" "Content-Type, Authorization"
    (rw_set "Access-Control-Allow-Methods" "GET, POST, PUT, DELETE, OPTIONS"
       (rw_set "Access-Control-Allow-Origin" "*" (security_headers (rw_set "X-Correlation-ID" id rw0)))).
Lemma base_hardened id : hardened (rw_header (base_writer id)).
Proof. unfold hardened. split_and!; unfold Header_Get, base_writer; simpl; by simplify_map_eq. Qed.
Lemma hardened_Error h msg code : hardened (rw_header h) -> rw_sent h = None ->
  hardened (sent_header (http_Error h msg code)).
Proof.
  intros (H1' & H2' & H3' & H4' & H5' & H6') Hs. unfold http_Error, sent_header, Write, WriteHeader. simpl. rewrite Hs. simpl.
  unfold hardened. rewrite Header_Get_Set. split; [done|].
  rewrite !Header_Get_Set_ne by (vm_compute; congruence). done.
Qed.

Lemma chain_eq next r s w :
  let inner := csrfMiddleware uuid_New (maxBodySizeMiddleware (2 ^ 20) (recoveryMiddleware next)) in
  exists id w0, (uuid_quiet -> w_srv w0 = w_srv w) /\ withMiddleware uuid_New next rw0 r (s, w) =
    let '(o, (s1, w1)) := corsMiddleware inner (security_headers (rw_set "X-Correlation-ID" id rw0)) r (s, w0) in
    (o, (s1, mkWorld (w_srv w1) (Datatypes.S (w_tick w1)) (w_draw w1))).
Proof.
  intros inner.
  assert (forall rw w0, loggingMiddleware (securityHeadersMiddleware (corsMiddleware inner)) rw r (s, w0) =
    let '(o, (s1, w1)) := corsMiddleware inner (security_headers rw) r
      (s, mkWorld (w_srv w0) (Datatypes.S (w_tick w0)) (w_draw w0)) in
    (o, (s1, mkWorld (w_srv w1) (Datatypes.S (w_tick w1)) (w_draw w1)))) as Hlog.
  { intros rw w0. unfold loggingMiddleware, securityHeadersMiddleware. rewrite now_bind, M_bind_unfold.
    by destruct (corsMiddleware inner _ r _) as [o [s1 w1]]. }
  unfold withMiddleware, correlationIDMiddleware. fold inner.
  destruct (decide _); [rewrite io_bind|rewrite ret_bind]; rewrite Hlog; eexists _, _; (split; [|done]); [|done].
  intros Hq. simpl. by rewrite Hq.
Qed.

(** C33. The middleware chain: every request is answered without a panic
    escaping, under the security and CORS headers; a preflight is answered 200
    and an unsafe request that fails the CSRF check 403 without the handler
    running; every other request reaches the handler, with the body limited
    to 1 MB (10 MB for the MCP endpoint) and a writer that already carries the
    headers, and a panic of the handler becomes a 500.  A form that the CSRF
    check itself had to parse, looking for the token, has been read before the
    limit applies and reaches the handler parsed. *)
Theorem middleware_chain next r s w :
  let '(o, (s', w')) := withMiddleware uuid_New next rw0 r (s, w) in
  (exists rw, o = Returned rw) /\
  (Method r = "OPTIONS" -> s' = s /\ rw_status (written o) = StatusOK /\ hardened (sent_header (written o))) /\
  (csrf_ok r = false -> s' = s /\ rw_status (written o) = StatusForbidden /\ hardened (sent_header (written o))) /\
  (Method r ≠ "OPTIONS" -> csrf_ok r = true ->
   exists rw w1, hardened (rw_header rw) /\ rw_sent rw = None /\
     let '(o1, (s1, _)) := next rw (limit_body (if decide (Path r = "/mcp") then 10 * 2 ^ 20 else 2 ^ 20) (csrf_request r)) (s, w1) in
     s' = s1 /\ written o = match o1 with
       | Returned rw1 => rw1
       | Panicked rw1 => http_Error rw1 "Internal server error" StatusInternalServerError end).
Proof.
  destruct (chain_eq next r s w) as (id & w0 & _ & ->). unfold corsMiddleware.
  change (rw_set "Access-Control-Allow-Headers" _ _) with (base_writer id).
  pose proof (base_hardened id) as Hb.
  destruct (decide (Method r = "OPTIONS")) as [Ho|Ho].
  - simpl. split; [eauto|]. split; [done|]. split; [|done]. intros Hc. exfalso. unfold csrf_ok, csrf_safe in Hc.
    rewrite Ho in Hc. done.
  - set (rest := maxBodySizeMiddleware (2 ^ 20) (recoveryMiddleware next)).
    destruct (csrf_cases rest (base_writer id) r s w0) as [[Hc [msg ->]]|[Hc (rw & w1 & Hh & Hs & _ & ->)]].
    + split; [eauto|]. split; [done|]. split; [|congruence]. intros _. split; [done|].
      split; [by apply rw_status_http_Error|by apply hardened_Error].
    + unfold rest, maxBodySizeMiddleware, recoveryMiddleware. rewrite M_bind_unfold.
      rewrite csrf_request_path. destruct (next rw _ (s, w1)) as [o1 [s1 w2]] eqn:En. simpl.
      split; [destruct o1; eauto|]. split; [done|]. split; [congruence|]. intros _ _.
      exists rw, w1. rewrite Hh, Hs, En. split; [done|]. split; [done|]. by destruct o1.
Qed.
End middleware.

(** ** Witnesses *)
Section witnesses.
Import SampleInstances.

Definition portal_server : Server := Server_New "http://vire:8080" "secret" false.
(** Alice's session, minted at the first clock reading. *)
Definition alice_token : string := mintLoopbackJWT (1700000000 * Second) "alice" "secret".
Definition api_request (method path esc : string) (cookies : list (string * string)) : Request :=
  mkRequest method path esc "" "portal.test" false ∅ cookies false ∅ (Some "").
Definition alice_get : Request := api_request "GET" "/api/funds" "/api/funds" [("vire_session", alice_token)].
Definition alice_put : Request := api_request "PUT" "/api/funds" "/api/funds" [("vire_session", alice_token)].
Definition funds_world : World := @mkWorld sample_env {["http://vire:8080/api/funds" := "[1]"]} 0 0.

Lemma alice_logged_in : user_of alice_get portal_server funds_world = "alice".
Proof. vm_compute. reflexivity. Qed.

Definition quiet_world : @World logging_env := @mkWorld logging_env [] 0 0.
Lemma proxy_identity_witness :
  exists l, id (w_srv (handleAPIProxy (H := logging_env) rw0 alice_get (portal_server, quiet_world)).2.2) =
      id (w_srv quiet_world) ++ l /\ (length l <= 1)%nat /\
    Forall (forwarded alice_get portal_server (user_of (H := logging_env) alice_get portal_server quiet_world)) l.
Proof.
  exact (proxy_identity (H := logging_env) id (fun q s => eq_refl) rw0 alice_get portal_server quiet_world).
Defined.

Lemma proxy_cache_replay_witness :
  let '(rw1, (s1, w1)) := handleAPIProxy rw0 alice_get (portal_server, funds_world) in
  rw_body rw1 = "[1]".
Proof.
  destruct (proxy_request portal_server (user_of alice_get portal_server funds_world) alice_get) as [q|] eqn:E;
    [|exfalso; vm_compute in E; discriminate].
  pose proof (proxy_cache_replay alice_get portal_server funds_world q (http_resp 200 "[1]")
    (w_srv funds_world) "[1]") as Hr. cbv zeta in Hr.
  specialize (Hr ltac:(split; [discriminate|reflexivity]) ltac:(vm_compute; discriminate)
    ltac:(vm_compute; reflexivity) E).
  specialize (Hr ltac:(vm_compute in E; injection E as <-; vm_compute; reflexivity)).
  do 2 (specialize (Hr ltac:(vm_compute; reflexivity))). specialize (Hr ltac:(vm_compute; discriminate)).
  destruct (handleAPIProxy _ _ _) as [rw1 [s1 w1]]. destruct Hr as [-> _]. reflexivity.
Defined.

Lemma proxy_write_invalidates_witness :
  let '(rw1, (s1, w1)) := handleAPIProxy rw0 alice_put (portal_server, funds_world) in
  fresh_entry "alice" alice_get s1 0 = None.
Proof.
  destruct (proxy_request portal_server (user_of alice_put portal_server funds_world) alice_put) as [q|] eqn:E;
    [|exfalso; vm_compute in E; discriminate].
  pose proof (proxy_write_invalidates alice_put portal_server funds_world q (http_resp 204 "")
    (w_srv funds_world) "") as Hr. cbv zeta in Hr.
  specialize (Hr ltac:(split; [discriminate|reflexivity]) ltac:(vm_compute; discriminate) eq_refl
    ltac:(vm_compute; reflexivity) E).
  specialize (Hr ltac:(vm_compute in E; injection E as <-; vm_compute; reflexivity) eq_refl).
  destruct (handleAPIProxy _ _ _) as [rw1 [s1 w1]]. apply (Hr "alice" alice_get "" 0). reflexivity.
Defined.


(** Writes to a path with escaped characters are not seen: after alice's PUT of
    /api/funds/My%20Fund is answered, her cached copy of the very same URI is
    still served, because the cache is invalidated by the decoded path while
    its keys hold the escaped one. *)
Lemma escaped_write_leaves_stale_entry :
  let get := api_request "GET" "/api/funds/My Fund" "/api/funds/My%20Fund" [("vire_session", alice_token)] in
  let put := api_request "PUT" "/api/funds/My Fund" "/api/funds/My%20Fund" [("vire_session", alice_token)] in
  let w := @mkWorld sample_env {["http://vire:8080/api/funds/My Fund" := "[1]"]} 0 0 in
  let '(_, st1) := handleAPIProxy rw0 get (portal_server, w) in
  let '(rw2, (s2, w2)) := handleAPIProxy rw0 put st1 in
  rw_status rw2 = 204 /\ RequestURI get = RequestURI put /\
  fresh_entry "alice" get s2 (clock (w_tick w2)) = Some (mkCachedResponse 200 ∅ "[1]").
Proof. vm_compute. auto. Qed.
End witnesses.
