(* ===== verification/ProxyRace.v ===== *)
(** * ProxyRace: concurrent requests to the API proxy

    [handleAPIProxy] (internal/server/routes.go) runs in a goroutine per request
    on one shared cache.  Here it is cut into its atomic actions: the critical
    sections of the cache, the readings of the clock between them and the
    exchange with vire-server.  Any number of requests interleave, while
    vire-server and the clock move on their own. *)
From S2P Require Import Prelude Interleave GoStrings GoCrypto GoJson GoURL GoHTTP OAuthBackend Cache Samples OAuthStores JWT OAuthServer OAuthTheorems AuthHandlers Server ProxyTheorems.

(** Where a request is. *)
Inductive proxy_phase :=
| Arrived
| Looking (userID : string)                       (* before [cache.Get] *)
| Found (userID : string) (e : entry)             (* the entry was copied *)
| Stale (userID : string)                         (* it has expired *)
| Missed (userID : string)                        (* before the exchange *)
| Answered (userID : string) (resp : HTTPResponse) (body : string)
| Kept (userID : string) (resp : HTTPResponse) (body : string)
| Refreshed (userID : string) (resp : HTTPResponse) (body : string)
| Done (userID : string) (w : ResponseWriter).

(** What an observer of the proxy notes. *)
Inductive proxy_event :=
| Exchanged (userID : string) (r : Request) (q : HTTPRequest) (a : CachedResponse)
| Stored (userID : string) (r : Request) (a : CachedResponse) (now : Z)
| Dropped (path : string)
| Copied (userID : string) (r : Request) (e : entry)
| Hit (userID : string) (r : Request) (a : CachedResponse) (now : Z).

Definition answer_of (resp : HTTPResponse) (body : string) : CachedResponse :=
  mkCachedResponse (hr_status resp) (hr_header resp) body.

Section race.
Context `{!Env} `{!NetURL} `{!Unicode}.
Notation MV := (M (Server * World)).

(** One atomic action of a request, with what is noted. *)
Definition advance (r : Request) (p : proxy_phase) : MV (proxy_phase * list proxy_event) :=
  match p with
  | Arrived =>
      apiURL ← read s_apiURL;
      if decide (apiURL = "")
      then mret (Done "" (http_Error rw0 (err_json "API server not configured") StatusServiceUnavailable), [])
      else if HasPrefix (Path r) "/api/internal/"
      then mret (Done "" (http_Error rw0 (err_json "Not Found") StatusNotFound), [])
      else
        secret ← read s_jwtSecret;
        claims ← io (IsLoggedIn r secret);
        mret (Looking (match claims with Some c => Sub c | None => "" end), [])
  | Looking u =>
      if decide (Method r = "GET" /\ u ≠ "") then
        e ← read (fun s => items (s_cache s) !! proxy_key u r);
        mret (match e with Some e => (Found u e, [Copied u r e]) | None => (Missed u, []) end)
      else mret (Missed u, [])
  | Found u e =>
      now ← io time_Now;
      mret (if After now (expiry e) then (Stale u, [])
            else (Done u (replay rw0 (resp e)), [Hit u r (resp e) now]))
  | Stale u =>
      now2 ← io time_Now;
      store (fun s => set_cache (Get_expire (proxy_key u r) now2 (s_cache s)) s) ;;
      mret (Missed u, [])
  | Missed u =>
      q ← read (fun s => proxy_request s u r);
      match q with
      | None => mret (Done u (http_Error rw0 (err_json "Failed to create proxy request") StatusInternalServerError), [])
      | Some q =>
          resp ← io (client_Do q);
          mret (match resp with
                | Err _ => (Done u (http_Error rw0 (err_json "API server unavailable") StatusServiceUnavailable), [])
                | Ok resp =>
                    match ReadLimited (maxCacheableBody + 1) resp with
                    | Err _ => (Done u (http_Error rw0 (err_json "Failed to read API response") StatusBadGateway), [])
                    | Ok body => (Answered u resp body, [Exchanged u r q (answer_of resp body)])
                    end
                end)
      end
  | Answered u resp body =>
      now ← io time_Now;
      store (fun s => set_cache (store_answer u r resp body now (s_cache s)) s) ;;
      mret (Kept u resp body, if cacheable u r resp body then [Stored u r (answer_of resp body) now] else [])
  | Kept u resp body =>
      store (fun s => if forces_refresh u r then set_cache (InvalidatePrefix (Path r) (s_cache s)) s else s) ;;
      mret (Refreshed u resp body, if forces_refresh u r then [Dropped (Path r)] else [])
  | Refreshed u resp body =>
      store (fun s => if writes u r then set_cache (InvalidatePrefix (Path r) (s_cache s)) s else s) ;;
      mret (Done u (replay rw0 (answer_of resp body)), if writes u r then [Dropped (Path r)] else [])
  | Done u w => mret (Done u w, [])
  end.

(** ** Alone, a request does what [handleAPIProxy] does *)
Fixpoint advances (n : nat) (r : Request) (p : proxy_phase) : MV proxy_phase :=
  match n with O => mret p | S n => x ← advance r p; advances n r x.1 end.
Lemma advances_S n r p st : advances (S n) r p st = let '(x, st') := advance r p st in advances n r x.1 st'.
Proof. done. Qed.
Lemma advances_done n r u w st : advances n r (Done u w) st = (Done u w, st).
Proof. induction n; [done|]. rewrite advances_S. simpl. done. Qed.
Ltac settle := cbn [mret M_ret fst snd]; mrun; rewrite ?advances_done; try reflexivity.
Ltac act := rewrite advances_S; cbn [advance]; mrun; cbn [mret M_ret fst snd].

Lemma forward_alone n u r s w :
  advances (4 + n) r (Missed u) (s, w) =
    let '(rw, st) := proxy_forward u rw0 r (s, w) in (Done u rw, st).
Proof.
  change (4 + n)%nat with (S (S (S (S n)))). act. unfold proxy_forward. mrun.
  destruct (proxy_request s u r) as [q|]; [|settle].
  rewrite !io_bind. destruct (client_Do q w) as [[resp|e] w']; cbn [fst snd]; [|settle].
  destruct (ReadLimited _ resp) as [body|e]; [|settle]. settle. act. act. act. settle.
  unfold update_cache, answer_of. by destruct (forces_refresh u r), (writes u r).
Qed.

(** A request that nobody disturbs is finished after at most eight actions, with
    the answer, the cache and the world of [handleAPIProxy]. *)
Lemma proxy_alone r s w :
  exists u, advances 8 r Arrived (s, w) = let '(rw, st) := handleAPIProxy rw0 r (s, w) in (Done u rw, st).
Proof.
  act. unfold handleAPIProxy. mrun.
  destruct (decide (s_apiURL s = "")); [exists ""; settle|].
  destruct (HasPrefix _ _); [exists ""; settle|]. mrun. rewrite !io_bind.
  destruct (IsLoggedIn r (s_jwtSecret s) w) as [claims w1]. settle.
  set (u := match claims with Some c => Sub c | None => "" end). exists u.
  act. unfold proxy_lookup, cache_Get. destruct (decide (Method r = "GET" /\ u ≠ "")); [|settle; by apply (forward_alone 2)].
  mrun. destruct (items (s_cache s) !! proxy_key u r) as [e|]; settle; [|by apply (forward_alone 2)].
  act. destruct (After (clock (w_tick w1)) (expiry e)); settle. act. by apply (forward_alone 0).
Qed.

(** ** Interleavings

    vire-server and the clock move on their own. *)
Definition elsewhere (x y : Server * World) : Prop := x.1 = y.1.
Notation proxies := (threads (Server * World) Request proxy_phase proxy_event).
Notation pstep := (istep advance Arrived elsewhere).

(** The entry [e] under [k] is explained by the trace: it was stored [T] before
    it expires, no later invalidation covers its key, and what it holds was
    obtained from vire-server for the user and URI of the key. *)
Definition explained (T : Z) (s0 : Server) (tr : list proxy_event) (k : string) (e : entry) : Prop :=
  exists tr1 tr2 u r q n,
    tr = tr1 ++ Stored u r (resp e) n :: tr2 /\ k = proxy_key u r /\ Method r = "GET" /\ expiry e = n + T /\
    (forall p, Dropped p ∈ tr2 -> Contains k p = false) /\
    Exchanged u r q (resp e) ∈ tr1 /\ proxy_request s0 u r = Some q.

(** What holds of a request in a phase. *)
Definition phase_ok (s0 : Server) (tr : list proxy_event) (r : Request) (p : proxy_phase) : Prop :=
  match p with
  | Found u e => Copied u r e ∈ tr
  | Answered u resp body | Kept u resp body | Refreshed u resp body =>
      exists q, Exchanged u r q (answer_of resp body) ∈ tr /\ proxy_request s0 u r = Some q
  | Done u w =>
      (exists msg code, w = http_Error rw0 msg code) \/
      (exists a, w = replay rw0 a /\
        ((exists q, Exchanged u r q a ∈ tr /\ proxy_request s0 u r = Some q) \/ (exists now, Hit u r a now ∈ tr)))
  | _ => True
  end.
(** What holds of an event, given those before it. *)
Definition event_ok (T : Z) (s0 : Server) (tr : list proxy_event) (ev : proxy_event) : Prop :=
  match ev with
  | Copied u r e => Method r = "GET" /\ u ≠ "" /\ explained T s0 tr (proxy_key u r) e
  | Hit u r a now => exists e, Copied u r e ∈ tr /\ resp e = a /\ now <= expiry e
  | _ => True
  end.
(** What holds of the server. *)
Definition server_ok (T : Z) (s0 : Server) (tr : list proxy_event) (x : Server * World) : Prop :=
  (s_apiURL x.1 = s_apiURL s0 /\ ttl (s_cache x.1) = T) /\
  (forall k e, items (s_cache x.1) !! k = Some e -> explained T s0 tr k e).

Lemma explained_app T s0 tr tr' k e :
  (forall p, Dropped p ∈ tr' -> Contains k p = false) -> explained T s0 tr k e -> explained T s0 (tr ++ tr') k e.
Proof.
  intros Hd (tr1 & tr2 & u & r & q & n & -> & ? & ? & ? & Hno & ? & ?). exists tr1, (tr2 ++ tr'), u, r, q, n.
  rewrite <-(assoc_L (++)). split_and!; try done. intros p [?|?]%elem_of_app; auto.
Qed.
Lemma phase_ok_app s0 tr tr' r p : phase_ok s0 tr r p -> phase_ok s0 (tr ++ tr') r p.
Proof. destruct p; simpl; set_solver. Qed.

(** *** Every action keeps the invariant *)
Section action.
Context (T : Z) (s0 : Server) (tr : list proxy_event).
Notation kept := (act_ok (server_ok T s0) (phase_ok s0) (event_ok T s0) tr).
Notation sound := (server_ok T s0 tr).

Lemma noted_ok r s w p ev :
  sound (s, w) -> (forall p, ev ≠ Dropped p) -> event_ok T s0 tr ev -> phase_ok s0 (tr ++ [ev]) r p ->
  kept r ((p, [ev]), (s, w)).
Proof.
  intros [Hp Hc] Hd He Hph. apply act_noted; [split; [done|]|done..].
  intros k e Hk. apply explained_app; [|by apply Hc]. intros p' Hin%list_elem_of_singleton. by destruct (Hd p').
Qed.
Lemma server_ok_subset s w w' c :
  sound (s, w) -> items c ⊆ items (s_cache s) -> ttl c = ttl (s_cache s) -> sound (set_cache c s, w').
Proof. intros [[Hu Ht] Hc] Hs Hl. split; [by rewrite <-Ht|]. intros k e Hk. apply Hc. by eapply lookup_weaken. Qed.
Lemma dropped_ok r s w p path :
  sound (s, w) -> phase_ok s0 tr r p ->
  kept r ((p, [Dropped path]), (set_cache (InvalidatePrefix path (s_cache s)) s, w)).
Proof.
  intros [Hp Hc] Hph. apply act_noted; [split; [done|]|done|by apply phase_ok_app].
  intros k e Hk. simpl in Hk. apply map_lookup_filter_Some in Hk as [Hk Hno]. apply explained_app; [|by apply Hc].
  by intros p' [= ->]%list_elem_of_singleton.
Qed.
Lemma stored_ok r s w w' u resp body now :
  sound (s, w) -> phase_ok s0 tr r (Answered u resp body) -> cacheable u r resp body = true ->
  kept r ((Kept u resp body, [Stored u r (answer_of resp body) now]),
          (set_cache (store_answer u r resp body now (s_cache s)) s, w')).
Proof.
  intros [[Hu Ht] Hc] (q & Hq & Hr) Hca. apply act_noted; [|done|exists q; split; [set_solver|done]].
  unfold store_answer. rewrite Hca, Set_unfold. split; [done|]. intros k e Hk. simpl in Hk, Ht.
  destruct (decide (k = proxy_key u r)) as [->|Hne].
  - rewrite lookup_insert_eq in Hk. injection Hk as <-. exists tr, [], u, r, q, now. simpl. rewrite Ht.
    assert (Method r = "GET") by (unfold cacheable in Hca; by bool_to_prop).
    split_and!; try done. by intros p ?%not_elem_of_nil.
  - rewrite lookup_insert_ne in Hk by done. apply explained_app.
    + by intros p ?%list_elem_of_singleton.
    + apply Hc. eapply lookup_weaken; [done|apply set_base_subset].
Qed.
Lemma proxy_request_url s u r : s_apiURL s = s_apiURL s0 -> proxy_request s u r = proxy_request s0 u r.
Proof. intros E. unfold proxy_request. by rewrite E. Qed.
(** The world is not part of the invariant. *)
Lemma quiet_ok r s w w' p : sound (s, w) -> phase_ok s0 tr r p -> kept r ((p, []), (s, w')).
Proof. intros Hs Hp. by apply act_quiet. Qed.
Lemma error_ok r s w w' u msg code : sound (s, w) -> kept r ((Done u (http_Error rw0 msg code), []), (s, w')).
Proof. intros Hs. apply (quiet_ok r s w); [done|]. simpl. left. eauto. Qed.

Lemma advance_ok r p s w : sound (s, w) -> phase_ok s0 tr r p -> kept r (advance r p (s, w)).
Proof.
  intros Hs Hp. destruct p as [|u|u e|u|u|u resp body|u resp body|u resp body|u rw]; cbn [advance]; mrun.
  - destruct (decide _); [by apply (error_ok r s w)|]. destruct (HasPrefix _ _); [by apply (error_ok r s w)|].
    mrun. rewrite io_bind. by apply (quiet_ok r s w).
  - case_decide as Hg; mrun; [|by apply (quiet_ok r s w)].
    destruct (items (s_cache s) !! proxy_key u r) as [e|] eqn:He; [|by apply (quiet_ok r s w)].
    apply noted_ok; [done|done| |simpl; set_solver]. split_and!; [apply Hg..|]. by apply Hs.
  - destruct (After _ (expiry e)) eqn:Ha; [by apply (quiet_ok r s w)|]. unfold After in Ha. apply Z.ltb_ge in Ha.
    apply noted_ok; [done|done|by exists e|]. simpl. right. exists (resp e). split; [done|]. right. set_solver.
  - apply act_quiet; [|done]. apply (server_ok_subset s w); [done|apply Get_expire_items_subset|by rewrite Get_expire_with_items].
  - destruct (proxy_request s u r) as [q|] eqn:Hq; mrun; [|by apply (error_ok r s w)].
    rewrite io_bind. destruct (client_Do q w) as [[resp|e] w']; [|by apply (error_ok r s w)].
    cbn [fst snd]. destruct (ReadLimited _ resp) as [body|e]; [|by apply (error_ok r s w)].
    apply noted_ok; [done|done|done|]. simpl. exists q. rewrite <-(proxy_request_url s) by apply Hs. set_solver.
  - destruct (cacheable u r resp body) eqn:Hca; [by apply (stored_ok r s w)|]. unfold store_answer. rewrite Hca.
    apply act_quiet; [|done]. by apply (server_ok_subset s w).
  - destruct (forces_refresh u r); [by apply dropped_ok|by apply (quiet_ok r s w)].
  - assert (phase_ok s0 tr r (Done u (replay rw0 (answer_of resp body)))) as Hd.
    { simpl. right. exists (answer_of resp body). split; [done|]. by left. }
    destruct (writes u r); [by apply dropped_ok|by apply (quiet_ok r s w)].
  - by apply (quiet_ok r s w).
Qed.
End action.

Lemma proxies_ok s w (x : proxies) :
  items (s_cache s) = ∅ -> rtc pstep (start (s, w)) x ->
  threads_ok (server_ok (ttl (s_cache s)) s) (phase_ok s) (event_ok (ttl (s_cache s)) s) x.
Proof.
  intros He. apply (reachable_ok advance Arrived elsewhere).
  - intros tr ev r p. apply phase_ok_app.
  - done.
  - intros tr [s1 w1] [s2 w2] E. unfold elsewhere in E. simpl in E. by subst s2.
  - intros tr r p [s1 w1]. apply advance_ok.
  - split; [done|]. intros k e. simpl. by rewrite He, lookup_empty.
Qed.

(** ** What a user is shown *)
Definition from_cache (s : Server) (tr : list proxy_event) (u : string) (r : Request) (a : CachedResponse) : Prop :=
  exists tr1 tr2 tr3 tr4 tr5 r' q n e now,
    tr = tr1 ++ Exchanged u r' q a :: tr2 ++ Stored u r' a n :: tr3 ++ Copied u r e :: tr4 ++ Hit u r a now :: tr5 /\
    proxy_request s u r' = Some q /\ Method r = "GET" /\ Method r' = "GET" /\ RequestURI r' = RequestURI r /\
    now <= n + ttl (s_cache s) /\ (forall p, Dropped p ∈ tr3 -> Contains (proxy_key u r) p = false).

(** C6. Concurrent requests through the cache: however the goroutines of any
    number of API requests interleave, with vire-server and the clock moving on
    their own, a finished request shows an error page of the portal, the answer
    vire-server gave to this very request, or a cached answer.  A cached answer
    was given by vire-server to a GET of the same URI, the query included, made
    in the name of the same user, was stored at most the time to live before it
    is shown, and no invalidation that covers the URI ran between storing it and
    reading it.  (The server starts with an empty cache, and neither this user
    nor any user for whom vire-server was asked has a colon in the id; with
    colons the keys of two users can coincide, see [MakeKey_collision].) *)
Theorem proxy_race_coherent s w (x : proxies) t u r rw :
  items (s_cache s) = ∅ -> rtc pstep (start (s, w)) x -> th_threads x !! t = Some (r, Done u rw) ->
  no_byte ":" u = true -> (forall u' r' q a, Exchanged u' r' q a ∈ th_trace x -> no_byte ":" u' = true) ->
  (exists msg code, rw = http_Error rw0 msg code) \/
  (exists a, rw = replay rw0 a /\
    ((exists q, Exchanged u r q a ∈ th_trace x /\ proxy_request s u r = Some q) \/ from_cache s (th_trace x) u r a)).
Proof.
  intros He Hr Hl Hu Hall. destruct (proxies_ok s w x He Hr) as [_ Ht Hv].
  destruct (Ht t r _ Hl) as [?|(a & -> & [?|[now Hhit]])]; [by left|right; by eauto|].
  right. exists a. split; [done|]. right.
  apply list_elem_of_split in Hhit as (A & tr5 & EA). destruct (Hv A _ tr5 EA) as (e & Hcp & <- & Hnow).
  apply list_elem_of_split in Hcp as (B & tr4 & ->). rewrite <-(assoc_L (++)), <-app_comm_cons in EA.
  destruct (Hv B _ _ EA) as (HG & _ & tr1 & tr3 & u' & r' & q & n & -> & Hk & HG' & Hn & Hno & Hex & Hq).
  apply list_elem_of_split in Hex as (C & tr2 & ->). assert (Exchanged u' r' q (resp e) ∈ th_trace x) as Hin.
  { rewrite EA. set_solver. }
  pose proof Hk as Hk'. unfold proxy_key in Hk'. rewrite HG, HG' in Hk'.
  apply MakeKey_sep in Hk' as (<- & _ & Huri); [|done|by eapply Hall|done|done].
  exists C, tr2, tr3, tr4, tr5, r', q, n, e, now. split_and!; try done; [|lia].
  rewrite EA. by repeat first [rewrite <-(assoc_L (++)) | rewrite <-app_comm_cons].
Qed.
End race.

Section witnesses.
Import SampleInstances.
(** Alice's GET is answered by vire-server; her DELETE of the same resource
    arrives, is answered and has invalidated the cache; only then does the GET
    store its answer.  A third request of alice's reads it. *)
Definition alice_delete : Request := api_request "DELETE" "/api/funds" "/api/funds" [("vire_session", alice_token)].
Notation proxies := (threads (Server * World) Request proxy_phase proxy_event).
Notation turns := (run advance Arrived).
Definition after_delete : proxies :=
  turns [Arrive 1 alice_get; Act 1; Act 1; Act 1;
         Arrive 2 alice_delete; Act 2; Act 2; Act 2; Act 2; Act 2; Act 2] (start (portal_server, funds_world)).
Definition after_race : proxies :=
  turns [Arrive 3 alice_get; Act 1; Act 1; Act 1; Act 3; Act 3; Act 3] after_delete.
Definition finished (t : nat) (x : proxies) : option (string * Z * string) :=
  match th_threads x !! t with Some (_, Done u w) => Some (u, rw_status w, rw_body w) | _ => None end.
Lemma after_race_steps : rtc (istep advance Arrived elsewhere) (start (portal_server, funds_world)) after_race.
Proof. unfold after_race, after_delete. etrans; apply run_steps. Qed.

(** A write can be missed: the DELETE is finished before the third request
    arrives, vire-server has no such resource any more, and yet the third
    request shows the deleted one from the cache. *)
Lemma stale_answer_after_write :
  finished 2 after_delete = Some ("alice", 204, "") /\ th_threads after_delete !! 3%nat = None /\
  (w_srv (th_state after_race).2 : gmap string string) !! "http://vire:8080/api/funds" = None /\
  finished 3 after_race = Some ("alice", 200, "[1]").
Proof. vm_compute. auto. Qed.

Lemma race_request : fst <$> th_threads after_race !! 3%nat = Some alice_get.
Proof. vm_compute. reflexivity. Qed.
Lemma race_users :
  forallb (fun ev => match ev with Exchanged u _ _ _ => no_byte ":" u | _ => true end) (th_trace after_race) = true.
Proof. vm_compute. reflexivity. Qed.
Lemma finished_Some t x r u code body :
  finished t x = Some (u, code, body) -> fst <$> th_threads x !! t = Some r ->
  exists rw, th_threads x !! t = Some (r, Done u rw).
Proof.
  unfold finished. destruct (th_threads x !! t) as [[r' p]|]; [|done]. intros Hf [= ->]. destruct p; simplify_eq. by eexists.
Qed.
Lemma proxy_race_coherent_witness :
  exists rw, th_threads after_race !! 3%nat = Some (alice_get, Done "alice" rw) /\
    ((exists msg code, rw = http_Error rw0 msg code) \/
     exists a, rw = replay rw0 a /\
       ((exists q, Exchanged "alice" alice_get q a ∈ th_trace after_race /\
          proxy_request portal_server "alice" alice_get = Some q) \/
        from_cache portal_server (th_trace after_race) "alice" alice_get a)).
Proof.
  destruct (finished_Some 3 after_race alice_get "alice" 200 "[1]") as [rw E];
    [apply stale_answer_after_write|exact race_request|]. exists rw. split; [exact E|].
  apply (proxy_race_coherent portal_server funds_world after_race 3 "alice" alice_get rw);
    [reflexivity|exact after_race_steps|exact E|reflexivity|].
  intros u' r' q a Hin. pose proof race_users as Hall. rewrite forallb_forall in Hall. apply list_elem_of_In in Hin.
  exact (Hall _ Hin).
Defined.
End witnesses.
