(* ===== verification/Routing.v ===== *)
(** * Routing: the site map of the portal

    The patterns of [setupRoutes] are matched by specificity; this file states
    where each method and path ends up as a table to be read, and proves that the
    multiplexer agrees with it. *)
From S2P Require Import Prelude GoStrings GoURL GoHTTP GoPath GoMux OAuthBackend Server ProxyTheorems.

(** ** The site map, on the decoded segments of a clean path *)
Definition get_pages : list (list string * Route) :=
  [([".well-known"; "oauth-authorization-server"], RAuthorizationServer);
   ([".well-known"; "oauth-authorization-server"; "mcp"], RAuthorizationServer);
   ([".well-known"; "oauth-protected-resource"], RProtectedResource);
   ([".well-known"; "oauth-protected-resource"; "mcp"], RProtectedResource);
   (["authorize"], RAuthorize); (["authorize"; "resume"], RAuthorizeResume);
   (["dashboard"], RDashboard); (["m"], RMobileDashboard); (["strategy"], RStrategy); (["cash"], RCash);
   (["mcp-info"], RMCPPage); (["help"], RHelp); (["changelog"], RChangelog); (["glossary"], RGlossary);
   (["docs"], RDocs); (["error"], RErrorPage); (["profile"], RProfile); (["admin"; "users"], RAdminUsers);
   (["api"; "auth"; "login"; "google"], RGoogleLogin); (["api"; "auth"; "login"; "github"], RGitHubLogin);
   (["auth"; "callback"], ROAuthCallback); (["api"; "auth"; "callback"; "google"], RGoogleCallback);
   (["api"; "auth"; "callback"; "github"], RGitHubCallback)].
Definition post_forms : list (list string * Route) :=
  [(["register"], RRegister); (["authorize"], RAuthorize); (["token"], RToken); (["profile"], RSaveProfile);
   (["api"; "auth"; "login"], RLogin); (["api"; "auth"; "test-login"], RTestLogin); (["api"; "auth"; "logout"], RLogout);
   (["api"; "shutdown"], RShutdown)].
Definition any_method : list (list string * Route) :=
  [(["mcp"], RMCP); (["api"; "health"], RHealth); (["api"; "server-health"], RServerHealth); (["api"; "version"], RVersion)].

Fixpoint assoc (xs : list string) (l : list (list string * Route)) : option Route :=
  match l with
  | [] => None
  | (k, v) :: l => if decide (k = xs) then Some v else assoc xs l
  end.
Definition reads (m : string) : bool := bool_decide (m = "GET") || bool_decide (m = "HEAD").
Definition exact_route (m : string) (xs : list string) : option Route :=
  match (if reads m then assoc xs get_pages else if decide (m = "POST") then assoc xs post_forms else None) with
  | Some route => Some route
  | None => assoc xs any_method
  end.
(** Below a directory; the landing page has everything else. *)
Definition below (m dir : string) : Route :=
  if decide (dir = "api") then RAPIProxy
  else if decide (dir = "static") then RStatic
  else if decide (dir = "mcp") then RMCPDev
  else if decide (dir = ".well-known") then RWellKnownNotFound
  else if reads m && bool_decide (dir = "dashboard") then RDashboard
  else if reads m && bool_decide (dir = "m") then RMobileDashboard
  else RLanding.
Definition site_map (m : string) (xs : list string) : Route :=
  match exact_route m xs with
  | Some route => route
  | None => match xs with dir :: _ :: _ => below m dir | _ => RLanding end
  end.
(** The directories that are pages for no method: asked for without their slash
    they are redirected to. *)
Definition bare_directories : list (list string) := [["api"]; ["static"]; [".well-known"]].

(** ** The multiplexer on segments *)
Notation patterns := (setupRoutes true true).
Notation pattern := (string * string * Route)%type.
Definition segs_match (pat : string) (xs : list string) : bool :=
  let lits := literals pat in
  if is_tree pat then bool_decide (take (length lits) xs = lits) && (length lits <? length xs)%nat
  else bool_decide (xs = lits).
Definition segs_step (m : string) (xs : list string) (best : option pattern) (x : pattern) : option pattern :=
  if method_matches x.1.1 m && segs_match x.1.2 xs
  then match best with None => Some x | Some b => if more_specific x b then Some x else best end
  else best.
Definition segs_pattern (l : list pattern) (m : string) (xs : list string) : option pattern :=
  foldl (segs_step m xs) None l.
Lemma mux_pattern_segs (l : list pattern) m p : mux_pattern l m p = segs_pattern l m (segs p).
Proof. reflexivity. Qed.

(** Only four methods make a difference. *)
Definition method_class (m : string) : string := if decide (m ∈ ["GET"; "HEAD"; "POST"]) then m else "PUT".
Lemma method_class_matches pat m :
  pat ∈ [""; "GET"; "POST"] -> method_matches pat m = method_matches pat (method_class m).
Proof.
  intros Hp. unfold method_class. destruct (decide _) as [|Hm]; [done|]. rewrite !not_elem_of_cons in Hm.
  destruct Hm as (H1 & H2 & H3 & _). unfold method_matches.
  rewrite !elem_of_cons, elem_of_nil in Hp. destruct Hp as [->|[->|[->|[]]]]; [done| |].
  - by rewrite !(bool_decide_false (_ = m)), (bool_decide_false (m = "HEAD")) by congruence.
  - by rewrite !(bool_decide_false (_ = m)) by congruence.
Qed.
Lemma pattern_methods : Forall (fun x : pattern => x.1.1 ∈ [""; "GET"; "POST"]) patterns.
Proof. apply (bool_decide_unpack _). vm_compute. reflexivity. Qed.
Lemma segs_pattern_class l m xs : Forall (fun x : pattern => x.1.1 ∈ [""; "GET"; "POST"]) l ->
  segs_pattern l m xs = segs_pattern l (method_class m) xs.
Proof.
  unfold segs_pattern. generalize (@None pattern) as best. intros best Hl. revert best.
  induction Hl as [|x l Hx _ IH]; intros best; [done|]. cbn [foldl]. rewrite IH. unfold segs_step at 2 4.
  by rewrite (method_class_matches _ m) by done.
Qed.
Lemma site_map_class m xs : site_map m xs = site_map (method_class m) xs.
Proof.
  unfold site_map, exact_route, below.
  assert (reads m = reads (method_class m) /\ (m = "POST" <-> method_class m = "POST")) as [<- Hp].
  { unfold method_class. destruct (decide _) as [|Hm]; [done|]. rewrite !not_elem_of_cons in Hm.
    destruct Hm as (H1 & H2 & H3 & _). unfold reads. rewrite !bool_decide_false by done. naive_solver. }
  destruct (decide (m = "POST")), (decide (method_class m = "POST")); tauto || done.
Qed.

(** Exact patterns that do not match can be left aside. *)
Definition exact_of (l : list pattern) : list (list string) :=
  literals <$> ((fun x : pattern => x.1.2) <$> List.filter (fun x => negb (is_tree x.1.2)) l).
Notation exact_paths := (exact_of patterns).
Definition classes : list string := ["GET"; "HEAD"; "POST"; "PUT"].
Lemma method_class_in m : method_class m ∈ classes.
Proof. unfold method_class, classes. destruct (decide _) as [Hm|]; set_solver. Qed.

Lemma segs_pattern_trees (l : list pattern) m xs :
  xs ∉ exact_of l ->
  segs_pattern l m xs = segs_pattern (List.filter (fun x => is_tree x.1.2) l) m xs.
Proof.
  unfold segs_pattern, exact_of. generalize (@None pattern) as best. induction l as [|x l IH]; intros best Hx; [done|].
  cbn [foldl List.filter] in *. destruct (is_tree x.1.2) eqn:Ht; cbn [negb] in Hx; [cbn [foldl]; by apply IH|].
  cbn [fmap list_fmap] in Hx. apply not_elem_of_cons in Hx as [Hne Hx]. rewrite <-IH by done. f_equal.
  unfold segs_step, segs_match. by rewrite Ht, bool_decide_false, andb_false_r.
Qed.

(** The pattern of a list that is an exact path: checked one by one. *)
Lemma exact_paths_checked :
  forallb (fun m => forallb (fun xs => bool_decide (snd <$> segs_pattern patterns m xs = Some (site_map m xs)))
    exact_paths) classes = true.
Proof. vm_compute. reflexivity. Qed.

(** The subtrees: one directory each, and the root. *)
Definition tree_heads : list string := [".well-known"; "dashboard"; "m"; "static"; "mcp"; "api"].
Definition trees : list pattern :=
  [("", "/.well-known/", RWellKnownNotFound); ("GET", "/dashboard/", RDashboard); ("GET", "/m/", RMobileDashboard);
   ("", "/", RLanding); ("", "/static/", RStatic); ("", "/mcp/", RMCPDev); ("", "/api/", RAPIProxy)].
Lemma tree_patterns : List.filter (fun x : pattern => is_tree x.1.2) patterns = trees.
Proof. vm_compute. reflexivity. Qed.
Lemma trees_checked m x y l :
  m ∈ classes -> x ∈ tree_heads -> segs_pattern trees m (x :: y :: l) ≫= (fun z => Some z.2) = Some (below m x).
Proof.
  unfold classes, tree_heads. rewrite !elem_of_cons, !elem_of_nil.
  intros [->|[->|[->|[->|[]]]]] [->|[->|[->|[->|[->|[->|[]]]]]]]; vm_compute; reflexivity.
Qed.
(** A subtree needs its directory and something below it. *)
Lemma tree_needs pat h xs :
  is_tree pat = true -> literals pat = [h] -> (head xs ≠ Some h \/ length xs ≤ 1)%nat -> segs_match pat xs = false.
Proof.
  intros Ht Hl Hx. unfold segs_match. rewrite Ht, Hl. cbn [length].
  destruct xs as [|x [|y xs]]; simpl in *; [done|by rewrite andb_false_r|].
  rewrite bool_decide_false; [done|]. destruct Hx; [|lia]. congruence.
Qed.
Lemma trees_other m xs :
  xs ≠ [] -> (forall h, h ∈ tree_heads -> head xs ≠ Some h) \/ (length xs <= 1)%nat ->
  segs_pattern trees m xs = Some ("", "/", RLanding).
Proof.
  intros Hn Hx.
  assert (forall pat h, is_tree pat = true -> literals pat = [h] -> h ∈ tree_heads -> segs_match pat xs = false) as Hs.
  { intros pat h Ht Hl Hh. apply (tree_needs pat h); [done..|]. destruct Hx as [Hx|Hx]; [left; by apply Hx|by right]. }
  assert (segs_match "/" xs = true) as Hroot by (destruct xs; [done|reflexivity]).
  unfold segs_pattern, trees. cbn [foldl]. unfold segs_step. cbn [fst snd].
  rewrite (Hs "/.well-known/" ".well-known"), (Hs "/dashboard/" "dashboard"), (Hs "/m/" "m"), Hroot,
    (Hs "/static/" "static"), (Hs "/mcp/" "mcp"), (Hs "/api/" "api") by (done || (unfold tree_heads; set_solver)).
  by rewrite !andb_false_r.
Qed.

(** Keys of the tables are exact patterns. *)
Lemma assoc_None xs l : xs ∉ l.*1 -> assoc xs l = None.
Proof.
  induction l as [|[k v] l IH]; [done|]. rewrite fmap_cons, not_elem_of_cons. simpl. intros [Hk Hl].
  rewrite decide_False by congruence. by apply IH.
Qed.
Lemma tables_exact : Forall (fun k => k ∈ exact_paths) (get_pages.*1 ++ post_forms.*1 ++ any_method.*1).
Proof. apply (bool_decide_unpack _). vm_compute. reflexivity. Qed.
Lemma exact_route_None m xs : xs ∉ exact_paths -> exact_route m xs = None.
Proof.
  intros Hx. pose proof tables_exact as Ht. rewrite Forall_forall in Ht.
  assert (xs ∉ get_pages.*1 /\ xs ∉ post_forms.*1 /\ xs ∉ any_method.*1) as (H1 & H2 & H3)
    by (split_and!; intros Hin; apply Hx, Ht; rewrite !elem_of_app; tauto).
  unfold exact_route. rewrite (assoc_None xs any_method), (assoc_None xs get_pages), (assoc_None xs post_forms) by done.
  by destruct (reads m), (decide (m = "POST")).
Qed.

Lemma below_other m dir : dir ∉ tree_heads -> below m dir = RLanding.
Proof.
  unfold tree_heads, below. rewrite !not_elem_of_cons. intros (H1 & H2 & H3 & H4 & H5 & H6 & _).
  rewrite !decide_False by done. by rewrite !bool_decide_false, andb_false_r by done.
Qed.

(** The multiplexer follows the site map. *)
Lemma segs_pattern_site m xs : xs ≠ [] -> snd <$> segs_pattern patterns m xs = Some (site_map m xs).
Proof.
  intros Hn. rewrite (segs_pattern_class patterns m xs pattern_methods), (site_map_class m).
  pose proof (method_class_in m) as Hm. set (c := method_class m) in *. clearbody c. clear m.
  destruct (decide (xs ∈ exact_paths)) as [Hx|Hx].
  - pose proof exact_paths_checked as Hall. rewrite forallb_forall in Hall.
    specialize (Hall c (proj1 (list_elem_of_In _ _) Hm)). rewrite forallb_forall in Hall.
    specialize (Hall xs (proj1 (list_elem_of_In _ _) Hx)). by apply bool_decide_eq_true in Hall.
  - rewrite (segs_pattern_trees patterns c xs Hx), tree_patterns. unfold site_map. rewrite (exact_route_None c xs Hx).
    destruct xs as [|x [|y l]]; [done|by rewrite trees_other by (done || (right; simpl; lia))|].
    destruct (decide (x ∈ tree_heads)) as [Hh|Hh].
    + pose proof (trees_checked c x y l Hm Hh) as Ht. by destruct (segs_pattern trees c (x :: y :: l)).
    + rewrite below_other by done. rewrite trees_other; [done|done|]. left. intros h Hin [= ->]. done.
Qed.

(** ** Redirects to a directory *)
Lemma segs_pattern_in l m xs z : segs_pattern l m xs = Some z -> z ∈ l.
Proof.
  unfold segs_pattern. enough (forall best, foldl (segs_step m xs) best l = Some z -> best = Some z \/ z ∈ l) as He.
  { intros Hz. by destruct (He None Hz). }
  induction l as [|x l IH]; intros best Hz; [by left|]. cbn [foldl] in Hz. rewrite elem_of_cons.
  destruct (IH _ Hz) as [Hs|]; [|by auto]. unfold segs_step in Hs.
  destruct (_ && _); [|by left]. destruct best as [b|]; [destruct (more_specific x b)|]; naive_solver.
Qed.
Lemma no_empty_exact xs : xs ++ [""] ∉ exact_paths.
Proof.
  assert (Forall (fun k => last k ≠ Some "") exact_paths) as Ha by (apply (bool_decide_unpack _); vm_compute; reflexivity).
  intros Hx. rewrite Forall_forall in Ha. apply (Ha _ Hx). apply last_snoc.
Qed.

(** [exactMatch] on the pattern chosen for a path without its slash, and for the
    path with it. *)
Definition is_page (o : option pattern) : bool := match o with Some z => negb (is_tree z.1.2) | None => false end.
Definition is_directory (n : nat) (o : option pattern) : bool :=
  match o with Some z => negb (is_tree z.1.2) || (length (path_segs z.1.2) =? n)%nat | None => false end.
Lemma directory_redirect m xs : xs ≠ [] ->
  negb (is_page (segs_pattern patterns m xs)) && is_directory (S (length xs)) (segs_pattern patterns m (xs ++ [""])) =
  bool_decide (xs ∈ bare_directories).
Proof.
  intros Hn. rewrite !(segs_pattern_class patterns m _ pattern_methods).
  pose proof (method_class_in m) as Hm. set (c := method_class m) in *. clearbody c. clear m.
  destruct xs as [|x [|y l]]; [done| |].
  - destruct (decide (x ∈ tree_heads)) as [Hh|Hh].
    + assert (forallb (fun m => forallb (fun x => Bool.eqb (negb (is_page (segs_pattern patterns m [x])) &&
        is_directory 2 (segs_pattern patterns m [x; ""])) (bool_decide ([x] ∈ bare_directories))) tree_heads) classes = true) as Hall
        by (vm_compute; reflexivity).
      rewrite forallb_forall in Hall. specialize (Hall c (proj1 (list_elem_of_In _ _) Hm)).
      rewrite forallb_forall in Hall. specialize (Hall x (proj1 (list_elem_of_In _ _) Hh)).
      by apply Bool.eqb_prop in Hall.
    + rewrite (segs_pattern_trees patterns c _ (no_empty_exact [x])), tree_patterns.
      rewrite trees_other; [|done|left; intros h Hin [= ->]; done].
      change (is_directory _ (Some _)) with false. rewrite andb_false_r. symmetry. apply bool_decide_false.
      unfold bare_directories, tree_heads in *. set_solver.
  - rewrite (segs_pattern_trees patterns c _ (no_empty_exact (x :: y :: l))), tree_patterns.
    assert (is_directory (S (length (x :: y :: l))) (segs_pattern trees c ((x :: y :: l) ++ [""])) = false) as ->.
    { destruct (segs_pattern trees c _) as [z|] eqn:Ez; [|done]. apply segs_pattern_in in Ez.
      assert (Forall (fun z : pattern => is_tree z.1.2 = true /\ (length (path_segs z.1.2) <= 2)%nat) trees) as Ha
        by (apply (bool_decide_unpack _); vm_compute; reflexivity).
      rewrite Forall_forall in Ha. destruct (Ha _ Ez) as [Ht Hl]. simpl. rewrite Ht. simpl.
      apply Nat.eqb_neq. lia. }
    rewrite andb_false_r. symmetry. apply bool_decide_false. unfold bare_directories.
    rewrite !elem_of_cons, elem_of_nil. naive_solver.
Qed.

Lemma path_segs_slash p : HasPrefix p "/" = true -> path_segs (p +:+ "/") = path_segs p ++ [""] /\ path_segs p ≠ [].
Proof.
  intros [r ->]%HasPrefix_spec. unfold path_segs. rewrite Split_trailing.
  change ("/" +:+ r) with ("" +:+ String "/" r). rewrite Split_app. simpl. split; [done|apply Split_nonnil].
Qed.
Lemma slash_redirect_spec m p :
  HasPrefix p "/" = true -> slash_redirect patterns m p = bool_decide (segs p ∈ bare_directories).
Proof.
  intros Hp. destruct (path_segs_slash p Hp) as [Hps Hne]. unfold slash_redirect.
  destruct (HasSuffix p "/") eqn:Hs.
  - rewrite andb_false_r. symmetry. apply bool_decide_false. apply HasSuffix_spec in Hs as [q ->].
    unfold segs, path_segs. rewrite Split_trailing. destruct (Split q "/") as [|x l] eqn:E; [by apply Split_nonnil in E|].
    cbn [app tail]. rewrite fmap_app. change (unescape_seg <$> [""]) with [""].
    intros Hin. assert (Forall (fun k => last k ≠ Some "") bare_directories) as Ha by (apply (bool_decide_unpack _); vm_compute; reflexivity).
    rewrite Forall_forall in Ha. apply (Ha _ Hin). apply last_snoc.
  - rewrite andb_true_r. rewrite <-(directory_redirect m (segs p)).
    2:{ unfold segs. intros E. by apply fmap_nil_inv in E. }
    rewrite !mux_pattern_segs. unfold segs at 2. rewrite Hps, fmap_app. change (unescape_seg <$> [""]) with [""].
    fold (segs p). f_equal.
    + f_equal. unfold exact_match, is_page. destruct (segs_pattern patterns m (segs p)) as [z|]; [|done].
      rewrite Hs. simpl. by destruct (is_tree z.1.2).
    + unfold exact_match, is_directory. destruct (segs_pattern patterns m (segs p ++ [""])) as [z|]; [|done].
      assert (HasSuffix (p +:+ "/") "/" = true) as -> by (apply HasSuffix_spec; by eexists).
      rewrite Hps, length_app. unfold segs. rewrite length_fmap. cbn [length andb].
      replace (length (path_segs p) + 1)%nat with (S (length (path_segs p))) by lia.
      destruct (is_tree z.1.2); cbn [negb orb]; [|done].
      case_bool_decide as Hl; symmetry; [by apply Nat.eqb_eq|by apply Nat.eqb_neq].
Qed.

(** Where a request goes. *)
Lemma find_handler_site r :
  Method r ≠ "CONNECT" ->
  let path := cleanPath (EscPath r) in
  find_handler patterns r =
    if decide (segs path ∈ bare_directories) then MovedTo (cleanPath (Path r) +:+ "/")
    else if decide (path = EscPath r) then ToRoute (site_map (Method r) (segs path))
    else MovedTo path.
Proof.
  intros Hm path. unfold find_handler. rewrite decide_False by done. fold path.
  assert (HasPrefix path "/" = true) as Hp by apply cleanPath_slash. rewrite slash_redirect_spec by done.
  case_bool_decide as Hb; [by rewrite decide_True|]. rewrite decide_False by done.
  case_bool_decide as Hc; cbn [negb]; [rewrite decide_True by done|by rewrite decide_False].
  unfold chosen, mux_match. rewrite mux_pattern_segs, segs_pattern_site; [done|].
  unfold segs. intros E. apply fmap_nil_inv in E. by destruct (path_segs_slash path Hp).
Qed.
