(* ===== verification/MCP.v ===== *)
(** * MCP: the MCP endpoint and its proxy to vire-server
    (internal/mcp/context.go, proxy.go, catalog.go, handlers.go, tools.go,
    version.go, handler.go, get_page.go, dev_handler.go).

    The MCP server library (github.com/mark3labs/mcp-go) is a parameter: a tool
    call is what it hands to a handler, the registered tools are what is given
    to it, and serving a request is delegated to it. *)
From S2P Require Import Prelude GoStrings GoCrypto GoJson GoURL GoHTTP OAuthBackend Samples OAuthStores JWT Config.

(** ** User context (context.go): the user id attached to a request's context *)
Definition UserContext := string.

(** ** float64 (encoding/json, fmt): how a JSON number is printed once it has been
    decoded into an interface value *)
Class Float64 := {
  sprint_num : string -> string;     (* fmt.Sprint *)
  marshal_num : string -> string;    (* json.Marshal *)
}.

(** ** Proxy (proxy.go) *)
Record MCPProxy := mkMCPProxy { p_serverURL : string; p_userHeaders : Header }.
Definition maxResponseSize : Z := 50 * 2 ^ 20.

Definition NewMCPProxy (serverURL : string) (cfg : Config) (b : BuildInfo) : MCPProxy :=
  let h := ∅ in
  let h := match Portfolios (User cfg) with [] => h | l => Header_Set "X-Vire-Portfolios" (Join l ",") h end in
  let h := if decide (DisplayCurrency (User cfg) = "") then h
           else Header_Set "X-Vire-Display-Currency" (DisplayCurrency (User cfg)) h in
  mkMCPProxy serverURL
    (Header_Set "X-Vire-Portal-Commit" (GitCommit b)
       (Header_Set "X-Vire-Portal-Build" (Build b) (Header_Set "X-Vire-Portal-Version" (Version b) h))).

Definition sanitizeHeaderValue (s : string) : string := str_filter (fun a => negb (is_crlf a)) s.

Section proxy.
Context `{!Env} `{!NetURL} `{!Unicode}.

(** [Set] for every value: the last one stays. *)
Definition set_all (src dst : Header) : Header :=
  union_with (fun a _ => Some a) (omap (fun l => match last l with Some x => Some [x] | None => None end) src) dst.
Definition applyUserHeaders (p : MCPProxy) (uc : option UserContext) (q : HTTPRequest) : HTTPRequest :=
  let h := set_all (p_userHeaders p) (hq_header q) in
  let h := match uc with
    | Some u => if decide (u = "") then h else Header_Set "X-Vire-User-ID" (sanitizeHeaderValue u) h
    | None => h end in
  mkHTTPRequest (hq_method q) (hq_url q) h (hq_body q) (hq_host q) (hq_follow q).

Definition dec_error (v : json) : option string := l ← dec_struct v; dec_field "error" dec_string "" l.
Definition parseErrorResponse (statusCode : Z) (body : string) : string :=
  match json_parse body ≫= dec_error with
  | Some e => if decide (e = "") then "server returned " +:+ Itoa statusCode +:+ ": " +:+ body else e
  | None => "server returned " +:+ Itoa statusCode +:+ ": " +:+ body
  end.
(** Sending a prepared request: the common end of [get], [del] and [doJSON]. *)
Definition send (q : HTTPRequest) : M World (result string) :=
  resp ← client_Do q;
  mret (match resp with
        | Err e => Err ("server request failed: " +:+ e)
        | Ok resp =>
            match ReadLimited maxResponseSize resp with
            | Err e => Err ("failed to read response: " +:+ e)
            | Ok body =>
                if 400 <=? hr_status resp then Err (parseErrorResponse (hr_status resp) body) else Ok body
            end
        end).
Definition proxy_get (p : MCPProxy) (uc : option UserContext) (path : string) : M World (result string) :=
  match NewRequest "GET" (p_serverURL p +:+ path) None with
  | None => mret (Err "invalid request")
  | Some q => send (applyUserHeaders p uc q)
  end.
Definition proxy_del (p : MCPProxy) (uc : option UserContext) (path : string) : M World (result string) :=
  match NewRequest "DELETE" (p_serverURL p +:+ path) None with
  | None => mret (Err "invalid request")
  | Some q => send (applyUserHeaders p uc (req_set "Content-Type" "application/json" q))
  end.
Definition doJSON (p : MCPProxy) (uc : option UserContext) (method path : string) (data : option json)
    : M World (result string) :=
  match NewRequest method (p_serverURL p +:+ path) (Marshal <$> data) with
  | None => mret (Err "invalid request")
  | Some q => send (applyUserHeaders p uc (req_set "Content-Type" "application/json" q))
  end.
Definition proxy_post p uc := doJSON p uc "POST".
Definition proxy_put p uc := doJSON p uc "PUT".
Definition proxy_patch p uc := doJSON p uc "PATCH".
End proxy.

(** ** Catalog (catalog.go) *)
Record CatalogParam := mkCatalogParam {
  cp_Name : string; cp_Type : string; cp_Description : string; cp_Required : bool;
  cp_In : string; cp_DefaultFrom : string }.
Record CatalogTool := mkCatalogTool {
  ct_Name : string; ct_Description : string; ct_Method : string; ct_Path : string;
  ct_Params : list CatalogParam }.
Definition maxCatalogSize : Z := 2 ^ 20.
Definition allowedMethods : list string := ["GET"; "POST"; "PUT"; "PATCH"; "DELETE"].

Section catalog.
Context `{!Env} `{!NetURL} `{!Unicode} `{!Float64}.

Definition dec_param (old : CatalogParam) (v : json) : option CatalogParam :=
  l ← dec_struct v;
  nm ← dec_field "name" dec_string (cp_Name old) l;
  ty ← dec_field "type" dec_string (cp_Type old) l;
  ds ← dec_field "description" dec_string (cp_Description old) l;
  rq ← dec_field "required" dec_bool (cp_Required old) l;
  ii ← dec_field "in" dec_string (cp_In old) l;
  df ← dec_field "default_from" dec_string (cp_DefaultFrom old) l;
  Some (mkCatalogParam nm ty ds rq ii df).
Definition zero_param : CatalogParam := mkCatalogParam "" "" "" false "" "".
Definition dec_tool (old : CatalogTool) (v : json) : option CatalogTool :=
  l ← dec_struct v;
  nm ← dec_field "name" dec_string (ct_Name old) l;
  ds ← dec_field "description" dec_string (ct_Description old) l;
  me ← dec_field "method" dec_string (ct_Method old) l;
  pa ← dec_field "path" dec_string (ct_Path old) l;
  ps ← dec_field "params" (dec_list zero_param dec_param) (ct_Params old) l;
  Some (mkCatalogTool nm ds me pa ps).
Definition zero_tool : CatalogTool := mkCatalogTool "" "" "" "" [].

Definition FetchCatalog (p : MCPProxy) : M World (result (list CatalogTool)) :=
  r ← proxy_get p None "/api/mcp/tools";
  mret (match r with
        | Err e => Err e
        | Ok body =>
            if maxCatalogSize <? Z.of_nat (slen body)
            then Err ("catalog response too large: " +:+ Itoa (Z.of_nat (slen body)) +:+ " bytes (max " +:+ Itoa maxCatalogSize +:+ ")")
            else match json_parse body ≫= dec_list zero_tool dec_tool [] with
                 | Some tools => Ok tools
                 | None => Err "failed to parse tool catalog"
                 end
        end).

(** The error texts, which are only logged, leave out the quoted tool name. *)
Definition ValidateCatalogTool (ct : CatalogTool) : result unit :=
  if decide (ct_Name ct = "") then Err "tool has empty name"
  else if decide (ct_Method ct = "") then Err "tool has empty method"
  else if negb (bool_decide (ToUpper (ct_Method ct) ∈ allowedMethods)) then Err "tool has unsupported method"
  else if decide (ct_Path ct = "") then Err "tool has empty path"
  else if negb (HasPrefix (ct_Path ct) "/api/") then Err "tool has invalid path (must start with /api/)"
  else if Contains (ct_Path ct) ".." then Err "tool has invalid path (contains ..)"
  else Ok tt.
Fixpoint validate_go (seen : gset string) (catalog : list CatalogTool) : list CatalogTool :=
  match catalog with
  | [] => []
  | ct :: rest =>
      if negb (is_ok (ValidateCatalogTool ct)) then validate_go seen rest
      else if decide (ct_Name ct ∈ seen) then validate_go seen rest
      else ct :: validate_go ({[ct_Name ct]} ∪ seen) rest
  end.
Definition ValidateCatalog (catalog : list CatalogTool) : list CatalogTool := validate_go ∅ catalog.

(** *** Tool schemas: the options given to [mcp.NewTool] *)
Inductive PropKind := PNumber | PBoolean | PStringArray | PString.
Record ToolProp := mkToolProp { tp_name : string; tp_kind : PropKind; tp_desc : option string; tp_required : bool }.
Record Tool := mkTool { tool_name : string; tool_desc : string; tool_props : list ToolProp }.
Definition buildParamOption (p : CatalogParam) : ToolProp :=
  mkToolProp (cp_Name p)
    (if decide (cp_Type p = "number") then PNumber
     else if decide (cp_Type p = "boolean") then PBoolean
     else if decide (cp_Type p = "array") then PStringArray else PString)
    (if decide (cp_Description p = "") then None else Some (cp_Description p)) (cp_Required p).
Definition BuildMCPTool (ct : CatalogTool) : Tool :=
  mkTool (ct_Name ct) (ct_Description ct)
    (buildParamOption <$> filter (fun p => cp_In p = "path" \/ cp_In p = "query" \/ cp_In p = "body") (ct_Params ct)).

(** *** Tool calls *)
(** [r.GetArguments()] and [r.GetString] of the library. *)
Record CallToolRequest := mkCallToolRequest {
  GetArguments : option (gmap string json);
  GetString : string -> string -> string;
}.
Record CallToolResult := mkCallToolResult { res_text : string; res_IsError : bool }.
Definition errorResult (message : string) : CallToolResult := mkCallToolResult message true.
Definition textResult (text : string) : CallToolResult := mkCallToolResult text false.

(** [fmt.Sprint] of an interface value decoded from JSON. *)
Fixpoint Sprint (v : json) : string :=
  match v with
  | JNull => "<nil>"
  | JBool b => if b then "true" else "false"
  | JNum lit => sprint_num lit
  | JStr s => s
  | JArr l => "[" +:+ Join (Sprint <$> l) " " +:+ "]"
  | JObj l => "map[" +:+ Join ((fun kv => kv.1 +:+ ":" +:+ kv.2)
                <$> merge_sort (fun a b => String.le a.1 b.1) (map_to_list
                      (list_to_map (rev ((fun kv => (kv.1, Sprint kv.2)) <$> l)) : gmap string string))) " " +:+ "]"
  end.

Definition dec_default (v : json) : option string := l ← dec_struct v; dec_field "default" dec_string "" l.
(** The part before the first comma. *)
Fixpoint first_of_list (s : string) : string :=
  match s with
  | "" => ""
  | String a r => if decide (a = ","%char) then "" else String a (first_of_list r)
  end.
Definition resolveDefaultPortfolio (p : MCPProxy) (uc : option UserContext) : M World string :=
  let portfolios := Header_Get (p_userHeaders p) "X-Vire-Portfolios" in
  if negb (bool_decide (portfolios = "")) then mret (first_of_list portfolios)
  else
    r ← proxy_get p uc "/api/portfolios/default";
    mret (match r with
          | Err _ => ""
          | Ok body => default "" (json_parse body ≫= dec_default)
          end).
Definition resolvePortfolio (p : MCPProxy) (uc : option UserContext) (r : CallToolRequest) : M World string :=
  let name := GetString r "portfolio_name" "" in
  if decide (name = "") then resolveDefaultPortfolio p uc else mret name.
Definition resolveDefaultValue (p : MCPProxy) (uc : option UserContext) (defaultFrom : string) : M World (option json) :=
  if decide (defaultFrom = "user_config.default_portfolio")
  then s ← resolveDefaultPortfolio p uc; mret (Some (JStr s))
  else mret None.
(** The value of a parameter; None is Go's nil, as is an explicit JSON null. *)
Definition any (v : json) : option json := match v with JNull => None | v => Some v end.
Definition resolveParamValue (p : MCPProxy) (uc : option UserContext) (r : CallToolRequest) (param : CatalogParam)
    : M World (option json) :=
  let fallback := if decide (cp_DefaultFrom param = "") then mret None
                  else resolveDefaultValue p uc (cp_DefaultFrom param) in
  if decide (cp_Type param ∈ ["number"; "boolean"; "array"; "object"]) then
    match GetArguments r ≫= lookup (cp_Name param) with
    | Some v => mret (any v)
    | None => fallback
    end
  else
    let val := GetString r (cp_Name param) "" in
    if decide (val = "") then fallback else mret (Some (JStr val)).

Record CallParts := mkCallParts { cl_path : string; cl_query : Values; cl_body : gmap string json }.
Fixpoint resolve_params (p : MCPProxy) (uc : option UserContext) (r : CallToolRequest)
    (params : list CatalogParam) (st : CallParts) : M World (result CallParts) :=
  match params with
  | [] => mret (Ok st)
  | param :: params =>
      val ← resolveParamValue p uc r param;
      if decide (cp_In param = "path") then
        match val with
        | Some v =>
            if decide (Sprint v = "") then
              if cp_Required param then mret (Err ("Error: " +:+ cp_Name param +:+ " parameter is required"))
              else resolve_params p uc r params st
            else resolve_params p uc r params
                   (mkCallParts (ReplaceAll (cl_path st) ("{" +:+ cp_Name param +:+ "}") (PathEscape (Sprint v)))
                      (cl_query st) (cl_body st))
        | None =>
            if cp_Required param then mret (Err ("Error: " +:+ cp_Name param +:+ " parameter is required"))
            else resolve_params p uc r params st
        end
      else if decide (cp_In param = "query") then
        resolve_params p uc r params
          (match val with
           | Some v => if decide (Sprint v = "") then st
                       else mkCallParts (cl_path st) (Values_Set (cp_Name param) (Sprint v) (cl_query st)) (cl_body st)
           | None => st end)
      else if decide (cp_In param = "body") then
        resolve_params p uc r params
          (match val with
           | Some v => mkCallParts (cl_path st) (cl_query st) (<[cp_Name param := v]> (cl_body st))
           | None => st end)
      else resolve_params p uc r params st
  end.
(** A decoded value re-encoded: numbers as float64, map keys sorted. *)
Fixpoint recode (v : json) : json :=
  match v with
  | JNum lit => JNum (marshal_num lit)
  | JArr l => JArr (recode <$> l)
  | JObj l => JObj (merge_sort (fun a b => String.le a.1 b.1)
                      (map_to_list (list_to_map (rev ((fun kv => (kv.1, recode kv.2)) <$> l)) : gmap string json)))
  | v => v
  end.
Definition bodyOrNil (body : gmap string json) : option json :=
  if decide (body = ∅) then None
  else Some (JObj (merge_sort (fun a b => String.le a.1 b.1) (map_to_list (recode <$> body)))).
Definition full_path (st : CallParts) : string :=
  if decide (cl_query st = ∅) then cl_path st else cl_path st +:+ "?" +:+ Values_Encode (cl_query st).
Definition GenericToolHandler (p : MCPProxy) (ct : CatalogTool) (uc : option UserContext) (r : CallToolRequest)
    : M World CallToolResult :=
  st ← resolve_params p uc r (ct_Params ct) (mkCallParts (ct_Path ct) ∅ ∅);
  match st with
  | Err e => mret (errorResult e)
  | Ok st =>
      let path := full_path st in
      let body := bodyOrNil (cl_body st) in
      let answer res := match res with
        | Ok b => textResult b | Err e => errorResult ("Error: " +:+ e) end in
      let m := ToUpper (ct_Method ct) in
      if decide (m = "GET") then res ← proxy_get p uc path; mret (answer res)
      else if decide (m = "POST") then res ← proxy_post p uc path body; mret (answer res)
      else if decide (m = "PUT") then res ← proxy_put p uc path body; mret (answer res)
      else if decide (m = "PATCH") then res ← proxy_patch p uc path body; mret (answer res)
      else if decide (m = "DELETE") then res ← proxy_del p uc path; mret (answer res)
      else mret (errorResult ("Error: unsupported method " +:+ ct_Method ct))
  end.
End catalog.

(** ** The registered tools: name and handler, as given to the MCP server *)
Inductive ToolHandler := HCatalog (ct : CatalogTool) | HVersion | HGetPage.
Definition ServerTool : Type := Tool * ToolHandler.
Definition VersionTool : Tool :=
  mkTool "get_version" "Get Vire MCP server version and status. Use this to verify connectivity." [].
Definition GetPageTool : Tool :=
  mkTool "portal_get_page" "Fetch a rendered portal page as HTML. Returns the full HTML of the requested page as seen by the authenticated user. Use this to review page layout, content accuracy, and data rendering without requiring screenshots."
    [mkToolProp "page" PString
       (Some "Page to fetch. One of: dashboard, strategy, cash, glossary, changelog, help, mcp-info, profile, docs") true].
(** The MCP server of the library, as far as its tools go: [AddTool] adds or
    replaces one, [SetTools] replaces them all, [ListTools] has them by name. *)
Class ToolServer := {
  MCPServer : Type;
  NewMCPServer : MCPServer;
  AddTool : ServerTool -> MCPServer -> MCPServer;
  SetTools : list ServerTool -> MCPServer -> MCPServer;
  ListTools : MCPServer -> gmap string ServerTool;
}.
(** What the library documents of them. *)
Class ToolServerLaws `{!ToolServer} : Prop := {
  new_tools : ListTools NewMCPServer = ∅;
  add_tool t s : ListTools (AddTool t s) = <[tool_name t.1 := t]> (ListTools s);
  set_tools l s : ListTools (SetTools l s) = foldl (fun m t => <[tool_name t.1 := t]> m) ∅ l;
}.
Definition catalog_tool (ct : CatalogTool) : ServerTool := (BuildMCPTool ct, HCatalog ct).
Definition RegisterToolsFromCatalog `{!ToolServer} (catalog : list CatalogTool) (m : MCPServer) : MCPServer :=
  foldl (fun m ct => AddTool (catalog_tool ct) m) m catalog.

Section handler.
Context `{!Env} `{!NetURL} `{!Unicode} `{!Float64} `{!ToolServer}.

(** ** get_version (version.go) *)
Definition version_json (v b c : string) : json :=
  JObj [("version", JStr v); ("build", JStr b); ("commit", JStr c)].
Definition VersionToolHandler (p : MCPProxy) (b : BuildInfo) (uc : option UserContext) : M World CallToolResult :=
  r ← proxy_get p uc "/api/version";
  let get (m : gmap string string) k := default "" (m !! k) in
  let server := match r with
    | Err _ => []
    | Ok body =>
        match json_parse body ≫= dec_string_map with
        | Some m => [("vire_server", version_json (get m "version") (get m "build") (get m "git_commit"))]
        | None => []
        end
    end in
  mret (textResult (Marshal (JObj (("vire_portal", version_json (Version b) (Build b) (GitCommit b)) :: server)))).

(** ** portal_get_page (get_page.go) *)
Definition allowedPages : gmap string string := list_to_map
  [("dashboard", "/dashboard"); ("strategy", "/strategy"); ("cash", "/cash"); ("glossary", "/glossary");
   ("changelog", "/changelog"); ("help", "/help"); ("mcp-info", "/mcp-info"); ("profile", "/profile"); ("docs", "/docs")].
Definition maxPageResponseSize : Z := 5 * 2 ^ 20.
(** The page name in the first error is printed with %q, here without its
    escapes of special characters. *)
Definition GetPageToolHandler (portalBaseURL jwtSecret : string) (uc : option UserContext) (r : CallToolRequest)
    : M World CallToolResult :=
  let page := GetString r "page" "" in
  match allowedPages !! page with
  | None => mret (errorResult ("Error: " +:+ String quote (page +:+ String quote "") +:+ " is not a valid page. Choose one of: dashboard, strategy, cash, glossary, changelog, help, mcp-info, profile, docs"))
  | Some path =>
      match uc with
      | None => mret (errorResult "Error: authentication required")
      | Some u =>
          now ← time_Now;
          let token := mintLoopbackJWT now u jwtSecret in
          match NewRequest "GET" (portalBaseURL +:+ path) None with
          | None => mret (errorResult "Error: failed to build request")
          | Some q =>
              resp ← client_Do (req_set "Cookie" ("vire_session=" +:+ token) q);
              mret (match resp with
                    | Err e => errorResult ("Error: portal request failed: " +:+ e)
                    | Ok resp =>
                        match ReadLimited maxPageResponseSize resp with
                        | Err e => errorResult ("Error: failed to read response: " +:+ e)
                        | Ok body =>
                            if negb (hr_status resp =? 200)
                            then errorResult ("Error: portal returned status " +:+ Itoa (hr_status resp) +:+ ": " +:+ body)
                            else textResult body
                        end
                    end)
          end
      end
  end.

(** ** The endpoint (handler.go) *)
Record MCPHandler := mkMCPHandler {
  m_catalog : list CatalogTool;
  m_jwtSecret : string;
  m_portalBaseURL : string;
  m_mcpSrv : MCPServer;
  m_proxy : MCPProxy;
  m_stopped : bool;           (* stopWatch is closed *)
}.
Notation MH := (M (MCPHandler * World)).

(** The catalog fetch at start: up to [n] attempts, the error of the last one. *)
Fixpoint fetch_retry (p : MCPProxy) (n : nat) : M World (result (list CatalogTool)) :=
  match n with
  | O => mret (Ok [])
  | S k =>
      r ← FetchCatalog p;
      match r with
      | Ok c => mret (Ok c)
      | Err e => match k with O => mret (Err e) | S _ => fetch_retry p k end
      end
  end.
Definition NewHandler (cfg : Config) (b : BuildInfo) : M World MCPHandler :=
  let proxy := NewMCPProxy (API_URL cfg) cfg b in
  fetched ← fetch_retry proxy (Z.to_nat (Z.max 0 (CatalogRetries cfg)));
  let validated := match fetched with Ok c => ValidateCatalog c | Err _ => [] end in
  mret (mkMCPHandler validated (JWTSecret (Auth cfg)) (BaseURL cfg)
          (AddTool (GetPageTool, HGetPage)
             (AddTool (VersionTool, HVersion) (RegisterToolsFromCatalog validated NewMCPServer)))
          proxy false).
Definition Catalog : MH (list CatalogTool) := read m_catalog.

Definition refreshed_tools (validated : list CatalogTool) : list ServerTool :=
  (catalog_tool <$> validated) ++ [(VersionTool, HVersion); (GetPageTool, HGetPage)].
(** The two writes of a refresh: the library's tools, then, under the handler's
    lock, the catalog. *)
Definition set_mcpSrv (f : MCPServer -> MCPServer) (h : MCPHandler) : MCPHandler :=
  mkMCPHandler (m_catalog h) (m_jwtSecret h) (m_portalBaseURL h) (f (m_mcpSrv h)) (m_proxy h) (m_stopped h).
Definition set_catalog (catalog : list CatalogTool) (h : MCPHandler) : MCPHandler :=
  mkMCPHandler catalog (m_jwtSecret h) (m_portalBaseURL h) (m_mcpSrv h) (m_proxy h) (m_stopped h).
Definition RefreshCatalog : MH (result Z) :=
  p ← read m_proxy;
  r ← io (FetchCatalog p);
  match r with
  | Err e => mret (Err ("fetch catalog: " +:+ e))
  | Ok catalog =>
      let validated := ValidateCatalog catalog in
      store (set_mcpSrv (SetTools (refreshed_tools validated))) ;;
      store (set_catalog validated) ;;
      mret (Ok (Z.of_nat (length validated)))
  end.

Definition dec_build (v : json) : option string := l ← dec_struct v; dec_field "build" dec_string "" l.
Definition fetchServerBuild : MH string :=
  p ← read m_proxy;
  r ← io (proxy_get p None "/api/version");
  mret (match r with Err _ => "" | Ok body => default "" (json_parse body ≫= dec_build) end).
Definition triggerRefresh : MH unit := RefreshCatalog ;; mret tt.
(** One poll of [watchServerVersion]; the loop carries [lastBuild]. *)
Definition watch_tick (lastBuild : string) : MH string :=
  build ← fetchServerBuild;
  if decide (build = "") then mret lastBuild
  else if decide (lastBuild = "") then triggerRefresh ;; mret build
  else if negb (bool_decide (build = lastBuild)) then triggerRefresh ;; mret build
  else mret lastBuild.
Definition Close : MH unit :=
  store (fun h => mkMCPHandler (m_catalog h) (m_jwtSecret h) (m_portalBaseURL h) (m_mcpSrv h) (m_proxy h) true).

Definition sanitizeHost (host : string) : string :=
  ReplaceAll (ReplaceAll (ReplaceAll host (String "013"%char "") "") (String "010"%char "") "")
    (String quote "") "".
(** The user attached to a request: the Bearer token first, then the cookie,
    then, without a secret, the unverified subject of the cookie. *)
Definition withUserContext (secret : string) (r : Request) : M World (option UserContext) :=
  let authHeader := get_header r "Authorization" in
  now ← time_Now;
  let bearer := if HasPrefix authHeader "Bearer " then
      match validateJWT (TrimPrefix authHeader "Bearer ") secret now with
      | Ok c => if decide (m_Sub c = "") then None else Some (m_Sub c) | Err _ => None end
    else None in
  match bearer with
  | Some u => mret (Some u)
  | None =>
      let cookie := CookieValue r "vire_session" in
      if decide (cookie = "") then mret None
      else
        now ← time_Now;
        mret (match validateJWT cookie secret now with
              | Ok c => if decide (m_Sub c = "") then None else Some (m_Sub c)
              | Err _ => None
              end) ≫= fun u =>
        match u with
        | Some u => mret (Some u)
        | None =>
            if decide (secret = "") then
              let sub := extractJWTSub cookie in
              mret (if decide (sub = "") then None else Some sub)
            else mret None
        end
  end.

(** The library's handler behind the endpoint. *)
Context (streamable : ResponseWriter -> Request -> UserContext -> MH ResponseWriter).
Definition resource_metadata (r : Request) : string :=
  (if TLS r || EqualFold (get_header r "X-Forwarded-Proto") "https" then "https" else "http")
    +:+ "://" +:+ sanitizeHost (Host r) +:+ "/.well-known/oauth-protected-resource".
Definition challenge (r : Request) : string :=
  "Bearer resource_metadata=" +:+ String quote (resource_metadata r +:+ String quote "").
Definition ServeHTTP (w : ResponseWriter) (r : Request) : MH ResponseWriter :=
  secret ← read m_jwtSecret;
  uc ← io (withUserContext secret r);
  match uc with
  | None =>
      mret (Write (Encode (JStrMap [("error", "unauthorized");
              ("error_description", "Authentication required to access MCP endpoint")]))
              (WriteHeader StatusUnauthorized (rw_set "Content-Type" "application/json"
                 (rw_set "WWW-Authenticate" (challenge r) w))))
  | Some u => streamable w r u
  end.
End handler.

(** ** The development endpoint (dev_handler.go) *)
(** [cipher.NewGCM] of an AES cipher under a 32-byte key. *)
Class AEAD := {
  NonceSize : nat;
  Seal : string -> string -> string -> string;            (* key, nonce, plaintext *)
  Open : string -> string -> string -> option string;     (* key, nonce, ciphertext *)
}.
Class AEADLaws `{!AEAD} : Prop := {
  open_seal key nonce text : slen nonce = NonceSize -> Open key nonce (Seal key nonce text) = Some text;
}.

Definition deriveKey (secret : list Z) : list Z :=
  let head := take 32 secret in
  head ++ ((fun i => Z.lxor (Z.of_nat i) (nth (i mod length secret) head 0)) <$> seq (length secret) (32 - length secret)).

Section dev.
Context `{!Env} `{!NetURL} `{!AEAD}.
Record DevHandler := mkDevHandler { d_devMode : bool; d_portalURL : string; d_key : option string }.
(** The cipher exists unless the secret is empty. *)
Definition NewDevHandler (jwtSecret : string) (devMode : bool) (portalURL : string) : DevHandler :=
  mkDevHandler devMode portalURL
    (if decide (jwtSecret = "") then None else Some (string_of (deriveKey (bytes_of jwtSecret)))).
Definition encryptUID (dh : DevHandler) (userID : string) : M World (result string) :=
  match d_key dh with
  | None => mret (Err "cipher not initialized")
  | Some key =>
      nonce ← rand_Read NonceSize;
      mret (match nonce with
            | None => Err "rand"
            | Some nonce => Ok (EncodeToString (nonce +:+ Seal key nonce userID))
            end)
  end.
Definition decryptUID (dh : DevHandler) (encrypted : string) : result string :=
  match d_key dh with
  | None => Err "cipher not initialized"
  | Some key =>
      match DecodeString encrypted with
      | None => Err "illegal base64 data"
      | Some ciphertext =>
          if (slen ciphertext <? NonceSize)%nat then Err "ciphertext too short"
          else match Open key (str_take NonceSize ciphertext) (str_drop NonceSize ciphertext) with
               | Some plaintext => Ok plaintext
               | None => Err "cipher: message authentication failed"
               end
      end
  end.
Definition GenerateEndpoint (dh : DevHandler) (userID : string) : M World string :=
  if negb (d_devMode dh) || bool_decide (d_key dh = None) then mret ""
  else
    e ← encryptUID dh userID;
    mret (match e with
          | Err _ => ""
          | Ok encrypted =>
              (if decide (d_portalURL dh = "") then "http://localhost:8881" else d_portalURL dh) +:+ "/mcp/" +:+ encrypted
          end).
(** The user a development endpoint serves, or the answer that refuses. *)
Definition dev_user (dh : DevHandler) (w : ResponseWriter) (r : Request) : ResponseWriter + UserContext :=
  if negb (d_devMode dh) then inl (http_Error w "not found" StatusNotFound)
  else
    let path := trim_byte "/" (TrimPrefix (Path r) "/mcp/") in
    if bool_decide (path = "") || Contains path "/"
    then inl (http_Error w "invalid endpoint" StatusBadRequest)
    else match decryptUID dh path with
         | Err _ => inl (http_Error w "invalid endpoint" StatusNotFound)
         | Ok userID => inr userID
         end.
Definition Dev_ServeHTTP {S} (streamable : ResponseWriter -> Request -> UserContext -> M S ResponseWriter)
    (dh : DevHandler) (w : ResponseWriter) (r : Request) : M S ResponseWriter :=
  match dev_user dh w r with
  | inl w => mret w
  | inr u => streamable w r u
  end.
End dev.
