(* ===== verification/MCPTheorems.v ===== *)
(** * MCPTheorems: correctness of the MCP endpoint and its proxy *)
From S2P Require Import Prelude GoStrings GoCrypto GoJson GoURL GoHTTP ApiPath OAuthBackend Samples OAuthStores JWT Config MCP.

(** ** Catalog validation *)
Section catalog.
Context `{!Env} `{!NetURL} `{!Unicode} `{!Float64}.

(** What a usable tool is. *)
Definition tool_ok (ct : CatalogTool) : Prop :=
  ct_Name ct ≠ "" /\ ToUpper (ct_Method ct) ∈ allowedMethods /\
  HasPrefix (ct_Path ct) "/api/" = true /\ Contains (ct_Path ct) ".." = false.

Lemma ToUpper_empty : ToUpper "" = "".
Proof. done. Qed.
Lemma ValidateCatalogTool_spec ct : is_ok (ValidateCatalogTool ct) = true <-> tool_ok ct.
Proof.
  unfold ValidateCatalogTool, tool_ok. split.
  - intros Hv. case_decide; [done|]. case_decide; [done|]. case_bool_decide; [|done]. simpl in Hv.
    case_decide; [done|]. destruct (HasPrefix _ _); [|done]. by destruct (Contains _ _).
  - intros (Hn & Hm & Hp & Hd). rewrite decide_False by done.
    rewrite decide_False by (intros He; rewrite He, ToUpper_empty in Hm; by apply (bool_decide_pack _) in Hm).
    rewrite bool_decide_true by done. simpl. rewrite decide_False by (intros He; by rewrite He in Hp).
    by rewrite Hp, Hd.
Qed.

Lemma validate_go_spec catalog : forall seen,
  let l := validate_go seen catalog in
  l `sublist_of` catalog /\ Forall tool_ok l /\ NoDup (ct_Name <$> l) /\
  (forall ct, ct ∈ l -> ct_Name ct ∉ seen) /\
  (forall ct, ct ∈ catalog -> tool_ok ct -> ct_Name ct ∈ seen \/ ct_Name ct ∈ ct_Name <$> l).
Proof.
  induction catalog as [|ct rest IH]; intros seen; simpl.
  { split_and!; try done; [constructor..| |]; by intros ? ?%not_elem_of_nil. }
  destruct (is_ok (ValidateCatalogTool ct)) eqn:Hv; simpl.
  2:{ destruct (IH seen) as (H1' & H2' & H3' & H4' & H5'). split_and!; try done; [by apply sublist_cons|].
      intros ct' [->|Hin]%elem_of_cons Hok; [|by apply H5'].
      apply ValidateCatalogTool_spec in Hok. congruence. }
  destruct (decide (ct_Name ct ∈ seen)) as [Hs|Hs].
  - destruct (IH seen) as (H1' & H2' & H3' & H4' & H5'). split_and!; try done; [by apply sublist_cons|].
    intros ct' [->|Hin]%elem_of_cons Hok; [by left|by apply H5'].
  - destruct (IH ({[ct_Name ct]} ∪ seen)) as (H1' & H2' & H3' & H4' & H5'). split_and!.
    + by apply sublist_skip.
    + constructor; [by apply ValidateCatalogTool_spec|done].
    + rewrite fmap_cons. apply NoDup_cons. split; [|done].
      intros (ct' & Hn & Hin)%list_elem_of_fmap. apply (H4' ct' Hin). rewrite <-Hn. set_solver.
    + intros ct' [->|Hin]%elem_of_cons; [done|]. specialize (H4' ct' Hin). set_solver.
    + intros ct' [->|Hin]%elem_of_cons Hok; rewrite fmap_cons; [right; by left|].
      destruct (H5' ct' Hin Hok) as [Hs'|Hs']; [|right; by right].
      apply elem_of_union in Hs' as [->%elem_of_singleton|?]; [right; by left|by left].
Qed.

(** The catalog that is served: what [ValidateCatalog] keeps is a subsequence
    of the fetched catalog in which every tool has a name, an allowed method
    and a path under /api/ without dot-dot, no name occurs twice, and no name
    that a usable tool carries is lost. *)
Lemma ValidateCatalog_spec catalog :
  let l := ValidateCatalog catalog in
  l `sublist_of` catalog /\ Forall tool_ok l /\ NoDup (ct_Name <$> l) /\
  (forall ct, ct ∈ catalog -> tool_ok ct -> ct_Name ct ∈ ct_Name <$> l).
Proof.
  destruct (validate_go_spec catalog ∅) as (H1' & H2' & H3' & _ & H5'). split_and!; try done.
  intros ct Hin Hok. destruct (H5' ct Hin Hok) as [?|?]; [set_solver|done].
Qed.
End catalog.

(** ** Registration *)
Section registration.
Context `{!Env} `{!NetURL} `{!Unicode} `{!Float64} `{!ToolServer} `{!ToolServerLaws}.

Notation put := (fun m t => <[tool_name t.1 := t]> m).
Lemma put_all_lookup l : forall (m : gmap string ServerTool) n t,
  NoDup ((fun t : ServerTool => tool_name t.1) <$> l) ->
  foldl put m l !! n = Some t <->
    (t ∈ l /\ tool_name t.1 = n) \/ (n ∉ (fun t : ServerTool => tool_name t.1) <$> l /\ m !! n = Some t).
Proof.
  induction l as [|x l IH]; intros m n t Hn; simpl.
  { split; [intros H'; right; split; [by apply not_elem_of_nil|done]|intros [[[]%elem_of_nil _]|[_ ?]]; done]. }
  rewrite fmap_cons in Hn. apply NoDup_cons in Hn as [Hx Hn]. rewrite IH by done.
  fold (fmap (M := list) (fun t : ServerTool => tool_name t.1)). rewrite not_elem_of_cons, elem_of_cons.
  destruct (decide (n = tool_name x.1)) as [->|Hne].
  - rewrite lookup_insert_eq. split.
    + intros [[? ?]|[_ [= ->]]]; [left; split; [by right|done]|left; split; [by left|done]].
    + intros [[[->|Ht] Hnm]|[[? _] _]]; [by right|by left|done].
  - rewrite lookup_insert_ne by done. split.
    + intros [[? ?]|[? ?]]; [left; split; [by right|done]|by right].
    + intros [[[->|Ht] Hnm]|[[_ ?] ?]]; [done|by left|by right].
Qed.

Definition local_names : list string := ["get_version"; "portal_get_page"].
(** The tools of a server: the portal's own two under their names, and under
    every other name the catalog's tool of that name. *)
Definition serves (catalog : list CatalogTool) (m : gmap string ServerTool) : Prop :=
  forall n t, m !! n = Some t <->
    (n = "get_version" /\ t = (VersionTool, HVersion)) \/
    (n = "portal_get_page" /\ t = (GetPageTool, HGetPage)) \/
    (n ∉ local_names /\ exists ct, ct ∈ catalog /\ ct_Name ct = n /\ t = catalog_tool ct).

Lemma serves_put catalog :
  NoDup (ct_Name <$> catalog) ->
  serves catalog (<["portal_get_page" := (GetPageTool, HGetPage)]>
    (<["get_version" := (VersionTool, HVersion)]> (foldl put ∅ (catalog_tool <$> catalog)))).
Proof.
  intros Hn n t. assert (NoDup ((fun t : ServerTool => tool_name t.1) <$> (catalog_tool <$> catalog))) as Hn'.
  { rewrite <-list_fmap_compose. exact Hn. }
  unfold local_names. rewrite !not_elem_of_cons.
  destruct (decide (n = "portal_get_page")) as [->|H1'].
  { rewrite lookup_insert_eq. naive_solver. }
  rewrite lookup_insert_ne by done. destruct (decide (n = "get_version")) as [->|H2'].
  { rewrite lookup_insert_eq. naive_solver. }
  rewrite lookup_insert_ne, put_all_lookup by done. split.
  - intros [[(ct & -> & Hin)%list_elem_of_fmap <-]|[_ Hm]]; [|by rewrite lookup_empty in Hm].
    right; right. split; [split_and!; [done..|apply not_elem_of_nil]|]. by exists ct.
  - intros [[? _]|[[? _]|[_ (ct & Hin & <- & ->)]]]; [done|done|]. left. split; [|done].
    by apply list_elem_of_fmap_2.
Qed.

Lemma Register_tools l : forall s,
  ListTools (RegisterToolsFromCatalog l s) = foldl put (ListTools s) (catalog_tool <$> l).
Proof.
  unfold RegisterToolsFromCatalog. induction l as [|ct l IH]; intros s; [done|]. simpl. by rewrite IH, add_tool.
Qed.
Lemma started_serves l :
  NoDup (ct_Name <$> l) ->
  serves l (ListTools (AddTool (GetPageTool, HGetPage) (AddTool (VersionTool, HVersion)
    (RegisterToolsFromCatalog l NewMCPServer)))).
Proof. intros. rewrite !add_tool, Register_tools, new_tools. by apply serves_put. Qed.
Lemma refreshed_serves l s :
  NoDup (ct_Name <$> l) -> serves l (ListTools (SetTools (refreshed_tools l) s)).
Proof. intros. rewrite set_tools. unfold refreshed_tools. rewrite foldl_app. simpl. by apply serves_put. Qed.

(** *** The life of a handler *)
Record handler_inv (h : MCPHandler) : Prop := {
  inv_tools_ok : Forall tool_ok (m_catalog h);
  inv_names : NoDup (ct_Name <$> m_catalog h);
  inv_serves : serves (m_catalog h) (ListTools (m_mcpSrv h));
}.
Lemma validated_inv catalog secret url s p b :
  (NoDup (ct_Name <$> ValidateCatalog catalog) -> serves (ValidateCatalog catalog) (ListTools s)) ->
  handler_inv (mkMCPHandler (ValidateCatalog catalog) secret url s p b).
Proof.
  intros Hs. destruct (validate_go_spec catalog ∅) as (_ & H2' & H3' & _).
  split; simpl; [exact H2'|exact H3'|by apply Hs].
Qed.

(** Refreshing the catalog: when the fetch succeeds, the catalog and the
    registered tools are replaced together, by the validated catalog and the
    tools for it with the portal's own two, and the number of tools is
    returned; when it fails nothing changes and the error is returned. *)
Lemma RefreshCatalog_spec h w :
  let '(res, (h', w')) := RefreshCatalog (h, w) in
  match (FetchCatalog (m_proxy h) w).1 with
  | Err e => h' = h /\ res = Err ("fetch catalog: " +:+ e)
  | Ok catalog =>
      res = Ok (Z.of_nat (length (ValidateCatalog catalog))) /\
      m_catalog h' = ValidateCatalog catalog /\
      serves (ValidateCatalog catalog) (ListTools (m_mcpSrv h')) /\
      m_jwtSecret h' = m_jwtSecret h /\ m_portalBaseURL h' = m_portalBaseURL h /\ m_proxy h' = m_proxy h
  end.
Proof.
  unfold RefreshCatalog. mrun. rewrite M_bind_unfold. unfold io, zoom. simpl.
  destruct (FetchCatalog (m_proxy h) w) as [[catalog|e] w']; simpl; [|done].
  split_and!; try done. apply refreshed_serves. apply (validate_go_spec catalog ∅).
Qed.
Lemma RefreshCatalog_inv h w : handler_inv h -> handler_inv (RefreshCatalog (h, w)).2.1.
Proof.
  unfold RefreshCatalog. mrun. rewrite M_bind_unfold. unfold io, zoom. simpl.
  destruct (FetchCatalog (m_proxy h) w) as [[catalog|e] w']; simpl; [|done].
  intros _. apply validated_inv. apply refreshed_serves.
Qed.

Lemma RefreshCatalog_keeps h w :
  m_jwtSecret (RefreshCatalog (h, w)).2.1 = m_jwtSecret h /\ m_proxy (RefreshCatalog (h, w)).2.1 = m_proxy h.
Proof.
  unfold RefreshCatalog. mrun. rewrite M_bind_unfold. unfold io, zoom. simpl.
  by destruct (FetchCatalog (m_proxy h) w) as [[catalog|e] w'].
Qed.

(** A poll of the version watcher: no build, or the build it knows, leaves the
    handler alone; any other runs [RefreshCatalog] once and is remembered, even
    when that refresh fails. *)
Lemma watch_tick_spec last h w :
  let '(build, (h1, w1)) := fetchServerBuild (h, w) in
  h1 = h /\
  watch_tick last (h, w) =
    (if decide (build = "" \/ build = last) then (last, (h, w1))
     else (build, (RefreshCatalog (h, w1)).2)).
Proof.
  destruct (fetchServerBuild (h, w)) as [build [h1 w1]] eqn:Hf.
  assert (h1 = h) as ->.
  { unfold fetchServerBuild in Hf. revert Hf. mrun. rewrite M_bind_unfold. unfold io, zoom. simpl.
    destruct (proxy_get _ _ _ w). by intros [= _ <- _]. }
  split; [done|]. unfold watch_tick. rewrite M_bind_unfold, Hf.
  assert (forall b : string, (triggerRefresh ;; mret b) (h, w1) = (b, (RefreshCatalog (h, w1)).2)) as Ht.
  { intros b. unfold triggerRefresh. rewrite !M_bind_unfold. by destruct (RefreshCatalog (h, w1)) as [r [h2 w2]]. }
  destruct (decide (build = "")) as [->|Hb]; [by rewrite decide_True by (by left)|].
  destruct (decide (last = "")) as [->|Hl].
  - rewrite decide_False by tauto. apply Ht.
  - case_bool_decide as He; simpl.
    + rewrite decide_True by (by right). done.
    + rewrite decide_False by tauto. apply Ht.
Qed.

(** What happens to a handler: it is created, then the version watcher polls it
    (carrying the last build it saw), it is refreshed, or it is closed; a closed
    handler is no longer polled.  Between the steps the rest of the portal and
    vire-server run: the world of each step is arbitrary. *)
Inductive handler_reachable (cfg : Config) (b : BuildInfo) : MCPHandler -> string -> Prop :=
| hr_new w w' : handler_reachable cfg b (NewHandler cfg b w).1
                  (fetchServerBuild ((NewHandler cfg b w).1, w')).1
| hr_poll h last w :
    handler_reachable cfg b h last -> m_stopped h = false ->
    handler_reachable cfg b (watch_tick last (h, w)).2.1 (watch_tick last (h, w)).1
| hr_refresh h last w :
    handler_reachable cfg b h last -> handler_reachable cfg b (RefreshCatalog (h, w)).2.1 last
| hr_close h last w :
    handler_reachable cfg b h last -> handler_reachable cfg b (Close (h, w)).2.1 last.

Lemma NewHandler_inv cfg b w : handler_inv (NewHandler cfg b w).1.
Proof.
  unfold NewHandler. rewrite M_bind_unfold. destruct (fetch_retry _ _ w) as [[catalog|e] w']; simpl.
  - apply validated_inv. apply started_serves.
  - apply (validated_inv []). apply started_serves.
Qed.

(** C8. The MCP server always serves a validated catalog: in every state a handler
    can reach, through failed and successful fetches, polls, refreshes and
    closing, its catalog has only usable tools with distinct names, the
    registered tools are exactly the catalog's tools and the portal's own two,
    which no catalog entry can displace, and its secret and upstream are those
    it was configured with.  (The states are those between these operations; a
    refresh itself replaces the tools first and the catalog right after.) *)
Theorem mcp_handler_invariant cfg b h last :
  handler_reachable cfg b h last ->
  Forall tool_ok (m_catalog h) /\ NoDup (ct_Name <$> m_catalog h) /\
  serves (m_catalog h) (ListTools (m_mcpSrv h)) /\
  m_jwtSecret h = JWTSecret (Auth cfg) /\ m_proxy h = NewMCPProxy (API_URL cfg) cfg b.
Proof.
  intros Hr. enough (handler_inv h /\ m_jwtSecret h = JWTSecret (Auth cfg) /\
    m_proxy h = NewMCPProxy (API_URL cfg) cfg b) as ([] & ? & ?) by done.
  induction Hr as [w w'|h last w _ (IHi & IHs & IHp) _|h last w _ (IHi & IHs & IHp)|h last w _ (IHi & IHs & IHp)].
  - split; [apply NewHandler_inv|]. unfold NewHandler. rewrite M_bind_unfold. by destruct (fetch_retry _ _ w).
  - pose proof (watch_tick_spec last h w) as Hw. destruct (fetchServerBuild (h, w)) as [build [h1 w1]].
    destruct Hw as [_ ->]. destruct (decide _); [done|]. simpl. split; [by apply RefreshCatalog_inv|].
    pose proof (RefreshCatalog_keeps h w1) as [-> ->]. done.
  - split; [by apply RefreshCatalog_inv|]. pose proof (RefreshCatalog_keeps h w) as [-> ->]. done.
  - split; [|done]. destruct IHi. by split.
Qed.
End registration.

(** ** Tool calls *)
Section calls.
Context `{!Env} `{!NetURL} `{!Unicode} `{!Float64}.

Lemma replace_prefix p s c old new :
  no_byte c p = true -> ReplaceAll (p +:+ s) (String c old) new = p +:+ ReplaceAll s (String c old) new.
Proof.
  unfold ReplaceAll. induction p as [|a p IH]; intros Hp; [done|]. apply no_byte_cons in Hp as [Ha Hp].
  rewrite append_cons. cbn [replace_go]. assert (String.prefix (String c old) (String a (p +:+ s)) = false) as ->.
  { simpl. by destruct (ascii_dec c a). }
  by rewrite (IH Hp), append_cons.
Qed.

(** A path as the portal builds it: under /api/ as written, and no dot-dot
    segment in it. *)
Definition api_path (s : string) : Prop := HasPrefix s "/api/" = true /\ no_dotdot (Some 0%nat) s = true.
Lemma api_path_replace s name v :
  dots_only v = false -> api_path s -> api_path (ReplaceAll s ("{" +:+ name +:+ "}") (PathEscape v)).
Proof.
  intros Hv [[x ->]%HasPrefix_spec Hn]. split; [|by apply no_dotdot_replace].
  rewrite append_char, replace_prefix by done. apply HasPrefix_append.
Qed.
Lemma tool_ok_path ct : ValidateCatalogTool ct = Ok tt -> api_path (ct_Path ct).
Proof.
  intros Hv. assert (tool_ok ct) as (_ & _ & Hp & Hd) by (apply ValidateCatalogTool_spec; by rewrite Hv).
  split; [done|]. by apply no_dotdot_plain.
Qed.

(** No value the call resolves for a path parameter consists of dots alone. *)
Definition path_args_named (p : MCPProxy) (uc : option UserContext) (r : CallToolRequest) (params : list CatalogParam) : Prop :=
  forall param v w, param ∈ params -> cp_In param = "path" ->
    (resolveParamValue p uc r param w).1 = Some v -> Sprint v ≠ "" -> dots_only (Sprint v) = false.
Lemma resolve_params_path p uc r params : path_args_named p uc r params -> forall st w st',
  api_path (cl_path st) -> (resolve_params p uc r params st w).1 = Ok st' -> api_path (cl_path st').
Proof.
  induction params as [|param params IH]; intros Ha st w st' Hs; simpl; [by intros [= <-]|].
  assert (path_args_named p uc r params) as Ha' by (intros q v w1 Hq; by apply Ha; right).
  pose proof (fun v => Ha param v w ltac:(by left)) as Hval. specialize (IH Ha').
  rewrite M_bind_unfold. destruct (resolveParamValue p uc r param w) as [val w']. simpl in Hval.
  destruct (decide (cp_In param = "path")) as [Hin|].
  { destruct val as [v|].
    - destruct (decide (Sprint v = "")).
      + destruct (cp_Required param); [done|]. by apply IH.
      + apply IH. apply api_path_replace; [by apply Hval|done].
    - destruct (cp_Required param); [done|]. by apply IH. }
  destruct (decide (cp_In param = "query")).
  { apply IH. destruct val as [v|]; [|done]. by destruct (decide (Sprint v = "")). }
  destruct (decide (cp_In param = "body")).
  { apply IH. by destruct val. }
  by apply IH.
Qed.

(** The query goes after the path and does not move it. *)
Lemma url_path_query s q : url_path (s +:+ "?" +:+ q) = url_path s.
Proof. induction s as [|a s IH]; [done|]. rewrite append_cons. simpl. destruct (path_end a); [done|]. by rewrite IH. Qed.
Lemma full_path_under st :
  api_path (cl_path st) -> HasPrefix (full_path st) "/api/" = true /\ under_api (full_path st).
Proof.
  intros [Hp Hn]. pose proof (no_dotdot_under _ Hp Hn) as Hu. unfold full_path.
  destruct (decide (cl_query st = ∅)); [done|]. split.
  - apply HasPrefix_spec in Hp as [x ->]. rewrite append_assoc. apply HasPrefix_append.
  - unfold under_api in *. by rewrite url_path_query.
Qed.

(** ** Identity headers *)
Lemma sanitize_no_crlf s : no_byte "013" (sanitizeHeaderValue s) = true /\ no_byte "010" (sanitizeHeaderValue s) = true.
Proof.
  unfold sanitizeHeaderValue. induction s as [|a s IH]; [done|]. simpl.
  destruct (negb (is_crlf a)) eqn:E; [|done]. unfold no_byte in *. simpl. destruct IH as [-> ->].
  rewrite !andb_true_r. split; apply bool_decide_eq_true; intros ->; done.
Qed.

(** The identity header of a request made for a user context. *)
Definition identity (uc : option UserContext) : option (list string) :=
  match uc with
  | Some u => if decide (u = "") then None else Some [sanitizeHeaderValue u]
  | None => None
  end.
Lemma applyUserHeaders_identity cfg b url uc q :
  hq_header q !! "X-Vire-User-Id" = None ->
  hq_header (applyUserHeaders (NewMCPProxy url cfg b) uc q) !! "X-Vire-User-Id" = identity uc.
Proof.
  intros Hq. set (p := NewMCPProxy url cfg b).
  assert (set_all (p_userHeaders p) (hq_header q) !! "X-Vire-User-Id" = None) as Hs.
  { unfold set_all. rewrite lookup_union_with, lookup_omap, Hq.
    assert (p_userHeaders p !! "X-Vire-User-Id" = None) as ->; [|done].
    unfold p, NewMCPProxy. simpl. unfold Header_Set. rewrite !lookup_insert_ne by (vm_compute; congruence).
    destruct (decide (DisplayCurrency (User cfg) = "")), (Portfolios (User cfg));
      rewrite ?lookup_insert_ne by (vm_compute; congruence); apply lookup_empty. }
  unfold applyUserHeaders, identity. cbn [hq_header]. destruct uc as [u|]; [|done].
  destruct (decide (u = "")); [done|]. apply (lookup_insert_eq _ "X-Vire-User-Id").
Qed.

(** *** What a tool call sends *)
Section tool_requests.
Context (log : srv -> list HTTPRequest).
Hypothesis log_do : forall q s, log (http_do q s).2 = log s ++ [q].
Notation sends := (sends log).

Context (cfg : Config) (b : BuildInfo) (url : string) (uc : option UserContext).
Notation p := (NewMCPProxy url cfg b).
(** A request to vire-server's API made for the user of [uc]: to a path that
    begins with /api/ and, its dot segments resolved, is still under /api. *)
Definition api_request (q : HTTPRequest) : Prop :=
  hq_header q !! "X-Vire-User-Id" = identity uc /\
  exists path, hq_url q = url +:+ path /\ HasPrefix path "/api/" = true /\ under_api path.

Lemma api_request_new m path body (f : HTTPRequest -> HTTPRequest) q :
  NewRequest m (url +:+ path) body = Some q -> HasPrefix path "/api/" = true /\ under_api path ->
  f q = q \/ f q = req_set "Content-Type" "application/json" q ->
  api_request (applyUserHeaders p uc (f q)).
Proof.
  unfold NewRequest. intros Hq Hp Hf. destruct (_ && _); [|done]. destruct (url_Parse _); [|done].
  injection Hq as <-. split.
  - apply applyUserHeaders_identity. destruct Hf as [->| ->]; [done|].
    unfold req_set, Header_Set. cbn [hq_header]. by rewrite lookup_insert_ne by (vm_compute; congruence).
  - exists path. split; [|done]. by destruct Hf as [->| ->].
Qed.
Lemma sends_send q : api_request q -> sends api_request (send q).
Proof. intros Hq. apply sends_bind; [by apply (sends_do log log_do)|]. intros w. apply sends_ret. Qed.
Lemma sends_get path : HasPrefix path "/api/" = true /\ under_api path -> sends api_request (proxy_get p uc path).
Proof.
  intros Hp. unfold proxy_get. simpl. destruct (NewRequest _ _ _) as [q|] eqn:Hq; [|apply sends_ret].
  apply sends_send, (api_request_new _ _ _ id _ Hq Hp). by left.
Qed.
Lemma sends_del path : HasPrefix path "/api/" = true /\ under_api path -> sends api_request (proxy_del p uc path).
Proof.
  intros Hp. unfold proxy_del. simpl. destruct (NewRequest _ _ _) as [q|] eqn:Hq; [|apply sends_ret].
  apply sends_send, (api_request_new _ _ _ (req_set "Content-Type" "application/json") _ Hq Hp). by right.
Qed.
Lemma sends_doJSON m path d : HasPrefix path "/api/" = true /\ under_api path -> sends api_request (doJSON p uc m path d).
Proof.
  intros Hp. unfold doJSON. simpl. destruct (NewRequest _ _ _) as [q|] eqn:Hq; [|apply sends_ret].
  apply sends_send, (api_request_new _ _ _ (req_set "Content-Type" "application/json") _ Hq Hp). by right.
Qed.

Lemma sends_default : sends api_request (resolveDefaultPortfolio p uc).
Proof.
  unfold resolveDefaultPortfolio. destruct (negb _); [apply sends_ret|].
  apply sends_bind; [|intros w; apply sends_ret]. apply sends_get. split; [done|]. right. reflexivity.
Qed.
Lemma sends_value r param : sends api_request (resolveParamValue p uc r param).
Proof.
  unfold resolveParamValue, resolveDefaultValue.
  repeat split_one; try apply sends_ret; (apply sends_bind; [apply sends_default|intros; apply sends_ret]).
Qed.
Lemma sends_params r params : forall st, sends api_request (resolve_params p uc r params st).
Proof.
  induction params as [|param params IH]; intros st; [apply sends_ret|]. simpl.
  apply sends_bind; [apply sends_value|]. intros w. repeat split_one; first [apply IH|apply sends_ret].
Qed.

(** C9. Tool calls are confined and attributed.  For a tool that passed validation,
    and a call in which no path parameter gets a value of dots alone (such as
    the dot-dot that [dotdot_argument_reaches_path] shows to move a request one
    level up), every request the tool handler sends, the lookup of a default
    portfolio included, goes to the configured server, to a path that is /api
    or below it once its dot segments are resolved, whatever else the arguments
    contain (slashes, question marks, dots, escapes), and carries exactly the
    caller's id, stripped of line breaks, as its only X-Vire-User-ID, or no such header
    without a caller. *)
Theorem tool_calls_confined ct r :
  ValidateCatalogTool ct = Ok tt -> path_args_named p uc r (ct_Params ct) ->
  sends api_request (GenericToolHandler p ct uc r).
Proof.
  intros Hpath%tool_ok_path Ha. unfold GenericToolHandler. apply sends_bind; [apply sends_params|].
  intros w. destruct (resolve_params _ _ _ _ _ w).1 as [st|e] eqn:Hst; [|apply sends_ret].
  apply resolve_params_path in Hst; [|exact Ha|exact Hpath]. apply full_path_under in Hst.
  repeat (split_one; [apply sends_bind; [|intros; apply sends_ret]|]);
    first [by apply sends_get|by apply sends_doJSON|by apply sends_del|apply sends_ret].
Qed.
End tool_requests.

(** ** Authentication of the endpoint *)
Definition bearer_request (token : string) (r : Request) : Prop :=
  get_header r "Authorization" = "Bearer " +:+ token.

(** The user of a session cookie at the MCP endpoint, read at [now]. *)
Definition cookie_user (secret cookie : string) (now : Z) : option UserContext :=
  if decide (cookie = "") then None else
  match (match validateJWT cookie secret now with
         | Ok c => if decide (m_Sub c = "") then None else Some (m_Sub c)
         | Err _ => None
         end) with
  | Some u => Some u
  | None => if decide (secret = "") then
              if decide (extractJWTSub cookie = "") then None else Some (extractJWTSub cookie)
            else None
  end.

(** C17. The tokens the authorization server issues open the MCP endpoint for their
    user (for a clock between 1970 and 2262): a request that presents one as a
    Bearer token under the same secret is served as that user up to one hour
    after minting, whatever session cookie comes with it; later it is served
    only if a session cookie names a user, and then as the user of the cookie,
    so without a cookie not at all.  The user is the one the token was minted
    for as JSON carries it: itself when it is valid UTF-8. *)
Theorem access_token_opens_mcp secret now u sc c i r w :
  clock_ok now -> u ≠ "" ->
  bearer_request (mintAccessToken secret now u sc c i) r ->
  let served := (withUserContext secret r w).1 in
  (Unix (clock (w_tick w)) <= Unix now + 3600 -> served = Some (to_utf8 u)) /\
  (Unix now + 3600 < Unix (clock (w_tick w)) ->
   served = cookie_user secret (CookieValue r "vire_session") (clock (S (w_tick w)))) /\
  cookie_user secret "" (clock (S (w_tick w))) = None /\
  (is_utf8 u = true -> to_utf8 u = u).
Proof.
  intros Hn Hu Hb. cbv zeta. unfold withUserContext. rewrite M_bind_unfold. cbn [time_Now]. rewrite Hb.
  rewrite HasPrefix_append, TrimPrefix_append. rewrite (minted_valid secret now _ u sc c i) by done. split_and!.
  - intros Hle. rewrite (proj2 (Z.ltb_ge _ _)) by lia. cbn [m_Sub]. rewrite decide_False; [done|].
    destruct u; [done|apply to_utf8_ne].
  - intros Hlt. rewrite (proj2 (Z.ltb_lt _ _)) by lia. unfold cookie_user. case_decide; [done|].
    rewrite !M_bind_unfold. cbn -[validateJWT extractJWTSub].
    destruct (match validateJWT _ _ _ with Ok _ => _ | Err _ => _ end); [done|]. by case_decide.
  - done.
  - apply is_utf8_fixed.
Qed.
End calls.

(** ** The endpoint *)
Section endpoint.
Context `{!Env} `{!NetURL} `{!Unicode} `{!Float64} `{!ToolServer}.

Lemma ReplaceAll_remove c s : ReplaceAll s (String c "") "" = str_filter (fun a => bool_decide (a ≠ c)) s.
Proof.
  unfold ReplaceAll. induction s as [|a s IH]; [done|]. cbn [replace_go str_filter]. simpl.
  destruct (ascii_dec c a) as [->|Hne].
  - rewrite bool_decide_false by auto. destruct s; done.
  - rewrite bool_decide_true by done. by rewrite IH.
Qed.
Lemma no_byte_filter c d s :
  no_byte c s = true \/ c = d -> no_byte c (str_filter (fun a => bool_decide (a ≠ d)) s) = true.
Proof.
  intros Hor. induction s as [|a s IH]; [done|]. simpl. destruct (bool_decide (a ≠ d)) eqn:Ed; bool_to_prop.
  - apply no_byte_cons. destruct Hor as [[Ha Hs]%no_byte_cons|Hcd]; [by auto|]. subst. by auto.
  - apply IH. destruct Hor as [[_ Hs]%no_byte_cons|]; auto.
Qed.

Lemma sanitizeHost_safe h :
  no_byte "013" (sanitizeHost h) = true /\ no_byte "010" (sanitizeHost h) = true /\ no_byte quote (sanitizeHost h) = true.
Proof.
  unfold sanitizeHost. rewrite !ReplaceAll_remove. split_and!.
  - do 2 (apply no_byte_filter; left). apply no_byte_filter. by right.
  - apply no_byte_filter; left. apply no_byte_filter. by right.
  - apply no_byte_filter. by right.
Qed.

Context (streamable : ResponseWriter -> Request -> UserContext -> M (MCPHandler * World) ResponseWriter).

(** C34. Unauthenticated MCP requests: a request without an accepted token or
    session is answered 401 with a WWW-Authenticate challenge and never
    reaches the MCP server, and whatever Host the client sent the challenge
    has no line break and no quote but the two around the metadata URL. *)
Theorem unauthenticated_mcp_refused h r w :
  (withUserContext (m_jwtSecret h) r w).1 = None ->
  let '(rw, (h', w')) := ServeHTTP streamable rw0 r (h, w) in
  h' = h /\ rw_status rw = StatusUnauthorized /\
  Header_Get (sent_header rw) "WWW-Authenticate" = challenge r /\
  challenge r = "Bearer resource_metadata=" +:+ String quote (resource_metadata r +:+ String quote "") /\
  no_byte quote (resource_metadata r) = true /\ no_byte "013" (resource_metadata r) = true /\
  no_byte "010" (resource_metadata r) = true.
Proof.
  intros Hu. unfold ServeHTTP. mrun. rewrite M_bind_unfold. unfold io, zoom. simpl.
  destruct (withUserContext (m_jwtSecret h) r w) as [uc w']. simpl in Hu. subst uc. simpl.
  split; [done|]. split; [done|]. split; [done|]. split; [done|].
  destruct (sanitizeHost_safe (Host r)) as (H1' & H2' & H3'). unfold resource_metadata.
  destruct (TLS r || EqualFold _ _); rewrite !no_byte_append, ?H1', ?H2', ?H3'; done.
Qed.
End endpoint.

(** ** The development endpoint *)
Section dev.
Context `{!Env} `{!NetURL} `{!AEAD} `{!AEADLaws}.

Lemma deriveKey_length secret : secret ≠ [] -> length (deriveKey secret) = 32%nat.
Proof.
  intros Hs. unfold deriveKey. rewrite length_app, length_take, length_fmap, length_seq. lia.
Qed.

(** C36. Development endpoints, for a secret that is not empty and a cipher whose
    nonces have a positive size: the URL generated for a user in development
    mode is the portal's base URL and a path that the endpoint decrypts back to
    that user, whichever nonce was drawn; outside development mode no URL is
    generated and the endpoint answers 404. *)
Theorem dev_endpoint_roundtrip secret devMode portalURL u nonce r w :
  secret ≠ "" -> (0 < NonceSize)%nat ->
  rand_read (w_draw w) NonceSize = Some nonce -> slen nonce = NonceSize ->
  let dh := NewDevHandler secret devMode portalURL in
  let base := if decide (portalURL = "") then "http://localhost:8881" else portalURL in
  if devMode then
    exists path, (GenerateEndpoint dh u w).1 = base +:+ path /\
      (Path r = path -> dev_user dh rw0 r = inr u)
  else (GenerateEndpoint dh u w).1 = "" /\
       dev_user dh rw0 r = inl (http_Error rw0 "not found" StatusNotFound).
Proof.
  intros Hs Hn Hr Hl dh base. destruct devMode; [|done].
  set (key := string_of (deriveKey (bytes_of secret))).
  assert (d_key dh = Some key) as Hk by (unfold dh, NewDevHandler; simpl; by rewrite decide_False).
  set (sealed := nonce +:+ Seal key nonce u).
  exists ("/mcp/" +:+ EncodeToString sealed). split.
  - unfold GenerateEndpoint. rewrite Hk. simpl. rewrite M_bind_unfold. unfold encryptUID. rewrite Hk.
    rewrite M_bind_unfold. unfold rand_Read. rewrite Hr. reflexivity.
  - intros Hp. unfold dev_user. simpl. rewrite Hp, TrimPrefix_append.
    assert (no_byte "/" (EncodeToString sealed) = true) as Hslash by by apply EncodeToString_no_byte.
    rewrite (trim_no_byte "/") by done. rewrite (Contains_no_byte "/") by done.
    assert (sealed ≠ "") as Hne.
    { unfold sealed. destruct nonce; [simpl in Hl; lia|done]. }
    assert (EncodeToString sealed ≠ "") as He.
    { intros He. pose proof (DecodeString_EncodeToString sealed) as Hd. rewrite He in Hd. by injection Hd as <-. }
    rewrite bool_decide_false by done. simpl. unfold decryptUID. rewrite Hk, DecodeString_EncodeToString.
    assert ((slen sealed <? NonceSize)%nat = false) as ->.
    { apply Nat.ltb_ge. unfold sealed. rewrite slen_append. lia. }
    unfold sealed. rewrite <-Hl, str_take_append, str_drop_append. by rewrite open_seal.
Qed.

(** The development key is 32 bytes for every secret, and bytes of the secret
    beyond the 32nd do not enter it: it is padding, not a digest of the
    secret. *)
Lemma deriveKey_spec secret tail :
  secret ≠ [] ->
  length (deriveKey secret) = 32%nat /\
  (length secret = 32%nat -> deriveKey (secret ++ tail) = deriveKey secret).
Proof.
  intros Hs. split; [by apply deriveKey_length|]. intros Hl. unfold deriveKey.
  rewrite !length_app, Hl. replace (32 - 32)%nat with 0%nat by lia. replace (32 - (32 + length tail))%nat with 0%nat by lia.
  rewrite take_app_le by lia. done.
Qed.
End dev.

(** ** Witnesses *)
Section witnesses.
Import SampleInstances.
#[local] Instance sample_float : Float64 := {| sprint_num := id; marshal_num := id |}.
(** A toy cipher: the key and nonce are not used. *)
#[local] Instance sample_aead : AEAD :=
  {| NonceSize := 12; Seal := fun _ _ t => "x" +:+ t; Open := fun _ _ c => Some (str_drop 1 c) |}.
#[local] Instance sample_aead_laws : AEADLaws.
Proof. split. intros key nonce text _. reflexivity. Qed.

Definition plain_request (path auth : string) : Request :=
  mkRequest "POST" path path "" "portal.test" false
    (if decide (auth = "") then ∅ else Header_Set "Authorization" auth ∅) [] false ∅ (Some "").
Lemma access_token_opens_mcp_witness :
  (withUserContext "secret" (plain_request "/mcp"
     ("Bearer " +:+ mintAccessToken "secret" (1700000000 * Second) "alice" "openid" "c1" "http://l")) sample_world).1 = Some "alice".
Proof.
  destruct (access_token_opens_mcp "secret" (1700000000 * Second) "alice" "openid" "c1" "http://l"
    (plain_request "/mcp" ("Bearer " +:+ mintAccessToken "secret" (1700000000 * Second) "alice" "openid" "c1" "http://l"))
    sample_world) as (Hv & _); [split; vm_compute; congruence|discriminate|vm_compute; reflexivity|].
  apply Hv. vm_compute. discriminate.
Defined.

Definition report_tool : CatalogTool :=
  mkCatalogTool "get_report" "" "get" "/api/portfolios/{name}/report"
    [mkCatalogParam "name" "string" "" true "path" ""].
Definition name_call (v : string) : CallToolRequest :=
  mkCallToolRequest None (fun k d => if decide (k = "name") then v else d).
Definition idle_proxy : MCPProxy := mkMCPProxy "http://vire:8080" ∅.
Lemma report_tool_ok : tool_ok report_tool.
Proof. apply ValidateCatalogTool_spec. vm_compute. reflexivity. Qed.
(** The check against dot-dot covers the catalog's path only: the argument ".."
    of a path parameter passes unescaped into the request path of a validated
    tool, one level up. *)
Lemma dotdot_argument_reaches_path :
  tool_ok report_tool /\
  (resolve_params idle_proxy None (name_call "..") (ct_Params report_tool) (mkCallParts (ct_Path report_tool) ∅ ∅) sample_world).1 =
    Ok (mkCallParts "/api/portfolios/../report" ∅ ∅).
Proof. split; [apply report_tool_ok|]. vm_compute. reflexivity. Qed.

Lemma tool_calls_confined_witness :
  let p := NewMCPProxy "http://vire:8080" NewDefaultConfig (mkBuildInfo "1" "b" "c") in
  sends (H := logging_env) id (api_request "http://vire:8080" (Some "alice"))
    (GenericToolHandler (H := logging_env) p report_tool (Some "alice") (name_call "../../x?y")).
Proof.
  apply (tool_calls_confined (H := logging_env) id (fun q s => eq_refl) NewDefaultConfig (mkBuildInfo "1" "b" "c")
    "http://vire:8080" (Some "alice") report_tool (name_call "../../x?y")).
  - vm_compute. reflexivity.
  - intros param v w ->%list_elem_of_singleton _ [= <-] _. reflexivity.
Defined.

(** Tools in a map. *)
#[local] Instance sample_tools : ToolServer := {|
  MCPServer := gmap string ServerTool; NewMCPServer := ∅;
  AddTool := fun t s => <[tool_name t.1 := t]> s;
  SetTools := fun l _ => foldl (fun m t => <[tool_name t.1 := t]> m) ∅ l;
  ListTools := id |}.
#[local] Instance sample_tools_laws : ToolServerLaws.
Proof. done. Qed.
Lemma mcp_handler_invariant_witness :
  let h := (NewHandler NewDefaultConfig (mkBuildInfo "1" "b" "c") sample_world).1 in
  ListTools (m_mcpSrv h) !! "get_version" = Some (VersionTool, HVersion).
Proof.
  intros h. destruct (mcp_handler_invariant NewDefaultConfig (mkBuildInfo "1" "b" "c") h _
    (hr_new _ _ sample_world sample_world)) as (_ & _ & Hs & _).
  apply Hs. by left.
Defined.

Definition idle_handler : MCPHandler := mkMCPHandler [] "secret" "http://l" NewMCPServer idle_proxy false.
Lemma unauthenticated_mcp_refused_witness :
  rw_status (ServeHTTP (fun w _ _ => mret w) rw0 (plain_request "/mcp" "") (idle_handler, sample_world)).1 = 401.
Proof.
  pose proof (unauthenticated_mcp_refused (fun w _ _ => mret w) idle_handler (plain_request "/mcp" "")
    sample_world ltac:(vm_compute; reflexivity)) as Hu.
  destruct (ServeHTTP _ _ _ _) as [rw [h' w']]. destruct Hu as (_ & Hs & _). exact Hs.
Defined.

Lemma dev_endpoint_roundtrip_witness :
  exists path, (GenerateEndpoint (NewDevHandler "secret" true "") "alice" sample_world).1 =
    "http://localhost:8881" +:+ path.
Proof.
  destruct (dev_endpoint_roundtrip "secret" true "" "alice" (String.concat "" (repeat (String "000" "") 12))
    (plain_request "/mcp/x" "") sample_world) as (path & Hp & _);
    [discriminate|simpl; lia|reflexivity|reflexivity|]. exists path. exact Hp.
Defined.
End witnesses.
