(* ===== verification/App.v ===== *)
(** * App: the wiring of the application (internal/app/app.go) and the portal as
    one handler (internal/server/routes.go, server.go).

    What the handlers share and change is the state [Portal]: the OAuth server,
    the MCP handler and the HTTP server with its cache. *)
From S2P Require Import Prelude GoStrings GoCrypto GoJson GoURL GoHTTP GoPath GoMux OAuthBackend Cache Samples OAuthStores JWT OAuthServer OAuthTheorems AuthHandlers Config VireClient Server Pages MCP.

Section app.
Context `{!Env} `{!NetURL} `{!Unicode} `{!TimeCodec} `{!Float64} `{!ToolServer} `{!AEAD} `{!Templates} `{!FileSys}.
Context (build : BuildInfo).
(** [os.Hostname], "" when it fails; the arguments of [DevUsers]. *)
Context (os_Hostname : string) (exe_path : option string) (stat_file : string -> bool)
  (os_ReadFile : string -> result string).

Definition catalogAdapter (h : MCPHandler) : list MCPPageTool :=
  (fun ct => mkMCPPageTool (ct_Name ct) (ct_Description ct) (ct_Method ct) (ct_Path ct)) <$> m_catalog h.

(** The handlers without state of their own, and those with. *)
Record App := mkApp {
  a_Config : Config;
  a_PageHandler : PageHandler;
  a_VersionHandler : VersionHandler;
  a_AuthHandler : AuthHandler;
  a_DashboardHandler : DashboardHandler;
  a_StrategyHandler : StrategyHandler;
  a_CashHandler : CashHandler;
  a_MCPPageHandler : MCPPageHandler (S := MCPHandler);
  a_ProfileHandler : ProfileHandler;
  a_ServerHealthHandler : ServerHealthHandler;
  a_MobileDashboardHandler : MobileDashboardHandler;
  a_MCPDevHandler : DevHandler;
  a_AdminUsersHandler : AdminUsersHandler;
}.
Record Portal := mkPortal { p_oauth : OAuthServer; p_mcp : MCPHandler; p_server : Server }.

(** ** initHandlers *)
Definition userLookup (cfg : Config) : LookupFn := fun id =>
  r ← GetUser (NewVireClient (API_URL cfg)) id; mret (u ← r; Ok (Some u)).
Definition userSave (cfg : Config) (id : string) (fields : gmap string string) : M World (result unit) :=
  r ← UpdateUser (NewVireClient (API_URL cfg)) id fields; mret (_ ← r; Ok tt).
Definition proxyGet (cfg : Config) : GetFn := ProxyGet (NewVireClient (API_URL cfg)).
Definition portal_id (cfg : Config) : string :=
  if decide (PortalID (Service cfg) = "") then os_Hostname else PortalID (Service cfg).
Definition service_user (cfg : Config) : string :=
  if decide (Key (Service cfg) = "") then "" else "service:" +:+ portal_id cfg.

(** [None]: a template does not parse, and [template.Must] panics. *)
Definition initHandlers (cfg : Config) : M World (option (App * (OAuthServer * MCPHandler))) :=
  let secret := JWTSecret (Auth cfg) in
  let dev := IsDevMode cfg in
  let lookup := Some (userLookup cfg) in
  let ssr (new : bool -> string -> option LookupFn -> option SSRHandler) :=
    h ← new dev secret lookup; Some (set_proxyGetFn (proxyGet cfg) (set_apiURL (API_URL cfg) h)) in
  match ssr NewPageHandler with
  | None => mret None
  | Some page =>
      let auth := NewAuthHandler dev (API_URL cfg) (CallbackURL (Auth cfg)) secret in
      mcp ← NewHandler cfg build;
      let mcpdev := NewDevHandler secret dev (BaseURL cfg) in
      mret (
        profile ← NewProfileHandler dev secret lookup (Some (userSave cfg));
        dashboard ← ssr NewDashboardHandler;
        mobile ← ssr NewMobileDashboardHandler;
        strategy ← ssr NewStrategyHandler;
        cash ← ssr NewCashHandler;
        mcppage ← NewMCPPageHandler dev (Port (cfg_Server cfg)) secret catalogAdapter lookup;
        admin ← NewAdminUsersHandler dev secret lookup (Some (AdminListUsers (NewVireClient (API_URL cfg)))) (service_user cfg);
        Some (mkApp cfg page (VersionHandler_SetAPIURL (API_URL cfg) NewVersionHandler) (SetOAuthServer auth)
                dashboard strategy cash
                (MCPPage_SetDevMCPEndpointFn (GenerateEndpoint mcpdev)
                   (MCPPage_SetBaseURL (BaseURL cfg) (MCPPage_SetAPIURL (API_URL cfg) mcppage)))
                (Profile_SetDevMCPEndpointFn (GenerateEndpoint mcpdev) (Profile_SetAPIURL (API_URL cfg) profile))
                (NewServerHealthHandler (API_URL cfg)) mobile mcpdev
                (AdminUsers_SetAPIURL (API_URL cfg) admin),
              (NewOAuthServer (BaseURL cfg) (API_URL cfg) secret, mcp)))
  end.

(** ** New: the goroutines it starts are returned *)
Definition admin_sync (cfg : Config) : M World unit :=
  r ← RegisterService (API_URL cfg) (portal_id cfg) (Key (Service cfg));
  match r with
  | Err _ => mret tt
  | Ok serviceUserID => SyncAdmins (API_URL cfg) (AdminEmails cfg) serviceUserID
  end.
Definition background (cfg : Config) : list (M World unit) :=
  (if IsDevMode cfg then [DevUsers exe_path stat_file os_ReadFile (API_URL cfg)] else []) ++
  (if decide (Key (Service cfg) ≠ "" /\ AdminEmails cfg ≠ []) then [admin_sync cfg] else []).
Definition App_New (cfg : Config) : M World (option (App * (OAuthServer * MCPHandler) * list (M World unit))) :=
  x ← initHandlers cfg;
  mret (x ← x; Some (x, background cfg)).
Definition App_Close : M (MCPHandler * World) unit := Close.

(** ** The portal as one handler *)
Notation MP := (M (Portal * World)).
Definition on_oauth {A} (m : M (OAuthServer * World) A) : MP A :=
  zoom (fun p => (p_oauth p.1, p.2)) (fun q p => (mkPortal q.1 (p_mcp p.1) (p_server p.1), q.2)) m.
Definition on_mcp {A} (m : M (MCPHandler * World) A) : MP A :=
  zoom (fun p => (p_mcp p.1, p.2)) (fun q p => (mkPortal (p_oauth p.1) q.1 (p_server p.1), q.2)) m.
Definition on_server {A} (m : M (Server * World) A) : MP A :=
  zoom (fun p => (p_server p.1, p.2)) (fun q p => (mkPortal (p_oauth p.1) (p_mcp p.1) q.1, q.2)) m.
Definition returned (m : MP ResponseWriter) : MP outcome := w ← m; mret (Returned w).

Context (streamable : ResponseWriter -> Request -> UserContext -> M (MCPHandler * World) ResponseWriter).
Context (serve_content : string -> Request -> ResponseWriter -> ResponseWriter).

(** The handler of each route ([setupRoutes]); [sched] orders the goroutines of
    the two dashboards. *)
Definition serve (a : App) (sched : list nat) (route : Route) : Handler (Portal * World) := fun w r =>
  match route with
  | RAuthorizationServer => returned (mret (HandleAuthorizationServer w r))
  | RProtectedResource => returned (mret (HandleProtectedResource w r))
  | RWellKnownNotFound => returned (mret (handleWellKnownNotFound w r))
  | RRegister => returned (on_oauth (HandleRegister w r))
  | RAuthorize => returned (on_oauth (HandleAuthorize w r))
  | RAuthorizeResume => returned (on_oauth (HandleAuthorizeResume w r))
  | RToken => returned (on_oauth (HandleToken w r))
  | RDashboard => io (DashboardHandler_ServeHTTP build (a_DashboardHandler a) sched w r)
  | RMobileDashboard => io (MobileDashboardHandler_ServeHTTP build (a_MobileDashboardHandler a) sched w r)
  | RStrategy => io (StrategyHandler_ServeHTTP build (a_StrategyHandler a) w r)
  | RCash => io (CashHandler_ServeHTTP build (a_CashHandler a) w r)
  | RMCPPage => on_mcp (MCPPageHandler_ServeHTTP build (a_MCPPageHandler a) w r)
  | RHelp => io (ServeHelpPage build (a_PageHandler a) w r)
  | RChangelog => io (ServeChangelogPage build (a_PageHandler a) w r)
  | RGlossary => io (ServeGlossaryPage build (a_PageHandler a) w r)
  | RDocs => io (ServePage build (a_PageHandler a) "docs.html" "docs" w r)
  | RErrorPage => io (ServeErrorPage build (a_PageHandler a) w r)
  | RLanding => io (ServeLandingPage build (a_PageHandler a) w r)
  | RStatic => mret (StaticFileHandler serve_content w r)
  | RMCP => returned (on_mcp (ServeHTTP streamable w r))
  | RMCPDev => returned (on_mcp (Dev_ServeHTTP streamable (a_MCPDevHandler a) w r))
  | RProfile => io (HandleProfile build (a_ProfileHandler a) w r)
  | RSaveProfile => returned (io (HandleSaveProfile (a_ProfileHandler a) w r))
  | RAdminUsers => io (AdminUsersHandler_ServeHTTP build (a_AdminUsersHandler a) w r)
  | RLogin => returned (on_oauth (HandleLogin (a_AuthHandler a) w r))
  | RTestLogin => returned (on_oauth (HandleTestLogin (a_AuthHandler a) w r))
  | RLogout => returned (mret (HandleLogout w r))
  | RGoogleLogin => returned (on_oauth (HandleGoogleLogin (a_AuthHandler a) w r))
  | RGitHubLogin => returned (on_oauth (HandleGitHubLogin (a_AuthHandler a) w r))
  | ROAuthCallback => returned (on_oauth (HandleOAuthCallback (a_AuthHandler a) w r))
  | RGoogleCallback => returned (on_oauth (HandleGoogleCallback (a_AuthHandler a) w r))
  | RGitHubCallback => returned (on_oauth (HandleGitHubCallback (a_AuthHandler a) w r))
  | RHealth => returned (mret (HealthHandler_ServeHTTP w r))
  | RServerHealth => returned (io (ServerHealthHandler_ServeHTTP (a_ServerHealthHandler a) w r))
  | RVersion => io (VersionHandler_ServeHTTP build (a_VersionHandler a) w r)
  | RShutdown => returned (on_server (handleShutdown w r))
  | RAPIProxy => returned (on_server (handleAPIProxy w r))
  end.
(** [ServeMux]: the handler of the route, a permanent redirect, or an error. *)
Definition router (a : App) (sched : list nat) : Handler (Portal * World) := fun w r =>
  match find_handler (setupRoutes true true) r with
  | ToRoute route => serve a sched route w r
  | MovedTo path =>
      mret (Returned (Redirect w r (url_String (mkURL "" "" "" "" path (RawQ r) "")) StatusMovedPermanently))
  | NotAllowed ms =>
      mret (Returned (http_Error (rw_set "Allow" (Join ms ", ") w) "Method Not Allowed" StatusMethodNotAllowed))
  | NoHandler => mret (Returned (NotFound w))
  end.
Definition portal_handler (uuid_New : M World string) (a : App) (sched : list nat) : Handler (Portal * World) :=
  withMiddleware uuid_New (router a sched).
(** [server.New] on the application. *)
Definition new_portal (a : App) (st : OAuthServer * MCPHandler) : Portal :=
  mkPortal st.1 st.2 (Server_New (API_URL (a_Config a)) (JWTSecret (Auth (a_Config a))) (IsDevMode (a_Config a))).
End app.
