(* ===== verification/AppTheorems.v ===== *)
(** * AppTheorems: properties of the assembled portal. *)
From S2P Require Import Prelude GoStrings GoCrypto GoJson GoURL GoHTTP GoPath ApiPath GoMux OAuthBackend Cache Samples OAuthStores JWT OAuthServer OAuthTheorems AuthHandlers Config VireClient Server Pages PagesTheorems ProxyTheorems Routing MCP MCPTheorems App.

Section app.
Context `{!Env} `{!NetURL} `{!Unicode} `{!TimeCodec} `{!Float64} `{!ToolServer} `{!AEAD} `{!Templates} `{!FileSys}.
Context (build : BuildInfo) (os_Hostname : string).
Implicit Types (cfg : Config) (a : App).

(** ** What the wiring establishes *)
Record wired (cfg : Config) (a : App) : Prop := {
  wi_cfg : a_Config a = cfg;
  wi_ssr : forall h, h ∈ [a_PageHandler a; a_DashboardHandler a; a_MobileDashboardHandler a; a_StrategyHandler a; a_CashHandler a] ->
    jwtSecret h = JWTSecret (Auth cfg) /\ apiURL h = API_URL cfg /\
    userLookupFn h = Some (userLookup cfg) /\ proxyGetFn h = Some (proxyGet cfg);
  wi_mcp : mp_jwtSecret (a_MCPPageHandler a) = JWTSecret (Auth cfg) /\ mp_apiURL (a_MCPPageHandler a) = API_URL cfg /\
    mp_userLookupFn (a_MCPPageHandler a) = Some (userLookup cfg) /\
    mp_devMCPEndpoint (a_MCPPageHandler a) = Some (GenerateEndpoint (a_MCPDevHandler a));
  wi_profile : pr_jwtSecret (a_ProfileHandler a) = JWTSecret (Auth cfg) /\ pr_apiURL (a_ProfileHandler a) = API_URL cfg /\
    pr_userLookupFn (a_ProfileHandler a) = Some (userLookup cfg) /\ userSaveFn (a_ProfileHandler a) = Some (userSave cfg) /\
    pr_devMCPEndpoint (a_ProfileHandler a) = Some (GenerateEndpoint (a_MCPDevHandler a));
  wi_admin : ad_jwtSecret (a_AdminUsersHandler a) = JWTSecret (Auth cfg) /\ ad_apiURL (a_AdminUsersHandler a) = API_URL cfg /\
    ad_userLookupFn (a_AdminUsersHandler a) = Some (userLookup cfg) /\
    adminListUsersFn (a_AdminUsersHandler a) = Some (AdminListUsers (NewVireClient (API_URL cfg))) /\
    serviceUserID (a_AdminUsersHandler a) = service_user os_Hostname cfg;
}.

Lemma initHandlers_wired cfg w a st w' :
  initHandlers build os_Hostname cfg w = (Some (a, st), w') -> wired cfg a.
Proof.
  unfold initHandlers, NewPageHandler, NewDashboardHandler, NewMobileDashboardHandler, NewStrategyHandler,
    NewCashHandler, NewProfileHandler, NewMCPPageHandler, NewAdminUsersHandler, new_handler.
  destruct (ParsePages FindPagesDir) as [t|]; [|done]. cbn [mbind option_bind].
  rewrite M_bind_unfold. destruct (NewHandler cfg build w) as [mcp w1]. intros [= <- <- <-].
  split; simpl; try done. intros h Hh. rewrite !elem_of_cons, elem_of_nil in Hh. naive_solver.
Qed.

(** ** Personal pages *)
Definition personal : list Route :=
  [RDashboard; RMobileDashboard; RStrategy; RCash; RMCPPage; RHelp; RProfile; RAdminUsers].
Context (streamable : ResponseWriter -> Request -> UserContext -> M (MCPHandler * World) ResponseWriter).
Context (serve_content : string -> Request -> ResponseWriter -> ResponseWriter) (uuid_New : M World string).
Notation handle := (portal_handler build streamable serve_content uuid_New).

Lemma limit_body_cases n r : limit_body n r = r \/ exists e f b, limit_body n r = set_form e f b r.
Proof.
  unfold limit_body. destruct (ReqBody r); [|by left]. destruct (_ <? _); [|by left]. right. destruct (posts_form r); eauto.
Qed.
Lemma IsLoggedIn_limit n r secret : IsLoggedIn (limit_body n r) secret = IsLoggedIn r secret.
Proof. by destruct (limit_body_cases n r) as [->|(e & f & b & ->)]. Qed.
Lemma limit_body_route {R} (routes : list (string * string * R)) n r :
  find_handler routes (limit_body n r) = find_handler routes r.
Proof. by destruct (limit_body_cases n r) as [->|(e & f & b & ->)]. Qed.

Lemma serve_personal cfg a sched route rw r p w :
  wired cfg a -> route ∈ personal -> (IsLoggedIn r (JWTSecret (Auth cfg)) w).1 = None ->
  let '(o, (p', w')) := serve build streamable serve_content a sched route rw r (p, w) in
  p' = p /\ turned_away rw r w (o, w').
Proof.
  intros Hw Hr Hn. destruct (wi_mcp _ _ Hw) as [Em _]. destruct (wi_profile _ _ Hw) as [Ep _].
  destruct (wi_admin _ _ Hw) as [Ea _].
  assert (forall h, h ∈ [a_PageHandler a; a_DashboardHandler a; a_MobileDashboardHandler a; a_StrategyHandler a; a_CashHandler a] ->
    _) as Hall by exact (fun h Hh => pages_turn_away build h (a_MCPPageHandler a) (a_ProfileHandler a)
      (a_AdminUsersHandler a) _ sched rw r (p_mcp p) w (proj1 (wi_ssr _ _ Hw h Hh)) Em Ep Ea Hn).
  pose proof (Hall (a_PageHandler a) ltac:(set_solver)) as (_ & _ & _ & _ & Hhelp & Hprof & Hadm & Hmcp & _).
  pose proof (Hall (a_DashboardHandler a) ltac:(set_solver)) as (Hdash & _).
  pose proof (Hall (a_MobileDashboardHandler a) ltac:(set_solver)) as (_ & Hmob & _).
  pose proof (Hall (a_StrategyHandler a) ltac:(set_solver)) as (_ & _ & _ & Hstr & _).
  pose proof (Hall (a_CashHandler a) ltac:(set_solver)) as (_ & _ & Hcash & _).
  assert (forall m, turned_away rw r w (m w) ->
    let '(o, (p', w')) := io m (p, w) in p' = p /\ turned_away rw r w (o, w')) as Hio.
  { intros m Hm. unfold io, zoom. simpl. by destruct (m w). }
  unfold personal in Hr. rewrite !elem_of_cons, elem_of_nil in Hr.
  destruct Hr as [-> |[-> |[-> |[-> |[-> |[-> |[-> |[-> |[]]]]]]]]]; cbn [serve];
    try (apply Hio; assumption).
  unfold on_mcp, zoom. simpl. destruct (MCPPageHandler_ServeHTTP _ _ _ _ _) as [o [m w']].
  destruct Hmcp as [-> Ht]. by destruct p.
Qed.

Lemma redirect_home_spec rw r :
  rw_sent rw = None ->
  rw_status (redirect_home rw r) = StatusFound /\
  sent_header (redirect_home rw r) = Header_Set "Location" "/" (rw_header rw).
Proof.
  intros Hs. unfold redirect_home, Redirect.
  assert (redirect_location (Path r) "/" = "/") as ->.
  { unfold redirect_location. destruct (url_Parse "/"); [|done]. by destruct (decide _). }
  unfold rw_status, sent_header, WriteHeader. simpl. by rewrite Hs.
Qed.

(** C10. The assembled portal shows no personal page without a session: a GET to
    the dashboard, the mobile dashboard, strategy, cash, MCP, help, profile or
    user administration page, under any path that is routed to it, is answered
    through the whole middleware chain with a redirect to the landing page
    under the security headers; no request reaches vire-server and neither the
    OAuth server nor the MCP handler nor the cache changes. *)
Theorem pages_require_session cfg a sched route r p w :
  wired cfg a -> uuid_quiet uuid_New -> Method r = "GET" ->
  find_handler (setupRoutes true true) r = ToRoute route -> route ∈ personal ->
  (forall w', (IsLoggedIn r (JWTSecret (Auth cfg)) w').1 = None) ->
  let '(o, (p', w')) := handle a sched rw0 r (p, w) in
  rw_status (written o) = StatusFound /\ Header_Get (sent_header (written o)) "Location" = "/" /\
  hardened (sent_header (written o)) /\ p' = p /\ w_srv w' = w_srv w.
Proof.
  intros Hw Hq Hm Hmux Hr Hn. unfold portal_handler.
  destruct (chain_eq uuid_New (router build streamable serve_content a sched) r p w) as (id & w0 & Hw0 & ->).
  unfold corsMiddleware. change (rw_set "Access-Control-Allow-Headers" _ _) with (base_writer id).
  rewrite decide_False by (by rewrite Hm).
  set (rest := maxBodySizeMiddleware _ _).
  destruct (csrf_cases uuid_New rest (base_writer id) r p w0) as [[Hc _]|[_ (rw & w1 & Hh & Hs & Hw1 & ->)]].
  { exfalso. unfold csrf_ok, csrf_safe in Hc. by rewrite Hm in Hc. }
  assert (csrf_request r = r) as -> by (unfold csrf_request, csrf_safe; by rewrite Hm).
  unfold rest, maxBodySizeMiddleware, recoveryMiddleware. rewrite M_bind_unfold. unfold router.
  rewrite limit_body_route, Hmux. set (r' := limit_body _ r).
  pose proof (serve_personal cfg a sched route rw r' p w1 Hw Hr) as Hserve.
  unfold r' in Hserve at 1. rewrite IsLoggedIn_limit in Hserve. specialize (Hserve (Hn w1)).
  destruct (serve _ _ _ _ _ _ _ _ _) as [o [p' w']]. destruct Hserve as [-> [Ho Hsrv]]. simpl in Ho. subst o. simpl.
  destruct (redirect_home_spec rw r') as [Hst Hsh]; [by rewrite Hs|]. rewrite Hst, Hsh.
  split; [done|]. split; [apply Header_Get_Set|]. split.
  - rewrite Hh. pose proof (base_hardened id) as Hb. unfold hardened in *.
    rewrite !Header_Get_Set_ne by (vm_compute; congruence). done.
  - split; [done|]. simpl in Hsrv. rewrite Hsrv, Hw1, Hw0 by done. done.
Qed.

(** ** What the pages ask of vire-server *)
Section requests.
Context (log : srv -> list HTTPRequest).
Hypothesis log_do : forall q s, log (http_do q s).2 = log s ++ [q].

(** What [m] sends when it runs in the world [w]. *)
Definition sends_at {A} (Q : HTTPRequest -> Prop) (m : M World A) (w : World) : Prop :=
  exists l, log (w_srv (m w).2) = log (w_srv w) ++ l /\ Forall Q l.

Lemma sends_at_bind {A B} Q (m : M World A) (k : A -> M World B) w :
  sends_at Q m w -> sends_at Q (k (m w).1) (m w).2 -> sends_at Q (m ≫= k) w.
Proof.
  intros (l1 & E1 & F1) (l2 & E2 & F2). exists (l1 ++ l2). rewrite M_bind_unfold.
  destruct (m w) as [x w1]. simpl in *. rewrite E2, E1, app_assoc. split; [done|by apply Forall_app].
Qed.
Lemma sends_at_ret {A} Q (x : A) w : sends_at Q (mret x) w.
Proof. exists []. by rewrite app_nil_r. Qed.
Lemma sends_at_quiet {A} Q (m : M World A) w : w_srv (m w).2 = w_srv w -> sends_at Q m w.
Proof. intros E. exists []. by rewrite E, app_nil_r. Qed.
Lemma sends_at_do (Q : HTTPRequest -> Prop) q w : Q q -> sends_at Q (client_Do q) w.
Proof. intros Hq. exists [q]. rewrite (log_client_Do log log_do). split; [done|by constructor]. Qed.

(** A GET of the configured server, without a body, to a path that stays under
    /api, under no identity or under the session's. *)
Definition page_request (cfg : Config) (sub : string) (q : HTTPRequest) : Prop :=
  hq_method q = "GET" /\ hq_body q = None /\ (exists path, hq_url q = API_URL cfg +:+ path /\ under_api path) /\
  (hq_header q = ∅ \/ sub ≠ "" /\ hq_header q = {["X-Vire-User-Id" := [sub]]}).
Context (cfg : Config) (sub : string).
Notation Q := (page_request cfg sub).

Lemma page_get path q : under_api path -> NewRequest "GET" (API_URL cfg +:+ path) None = Some q -> Q q.
Proof.
  intros Hp. unfold NewRequest. simpl. destruct (url_Parse _); [|done]. intros [= <-].
  split_and!; [done|done|by exists path|by left].
Qed.
Lemma page_get_user path q : under_api path -> sub ≠ "" -> NewRequest "GET" (API_URL cfg +:+ path) None = Some q ->
  Q (req_set "X-Vire-User-ID" sub q).
Proof.
  intros Hp Hs Hq. unfold NewRequest in Hq. simpl in Hq. destruct (url_Parse _); [|done]. injection Hq as <-.
  split_and!; [done|done|by exists path|right; split; [done|]]. simpl. unfold Header_Set. by rewrite insert_empty.
Qed.
Lemma exchange_sends q w : Q q -> sends_at Q (exchange q) w.
Proof. intros Hq. apply sends_at_bind; [by apply sends_at_do|apply sends_at_ret]. Qed.
Lemma userLookup_sends id w : no_byte "/" id = true -> sends_at Q (userLookup cfg id) w.
Proof.
  intros Hid.
  apply sends_at_bind; [|apply sends_at_ret]. apply sends_at_bind; [|apply sends_at_ret]. unfold client_Get.
  destruct (NewRequest _ _ _) as [q|] eqn:E; [|apply sends_at_ret]. apply exchange_sends.
  eapply (page_get ("/api/users/" +:+ id)); [|exact E]. by apply (under_api_one "users" id).
Qed.
Lemma lookup_sends id w : no_byte "/" id = true -> sends_at Q (lookup_user (Some (userLookup cfg)) id) w.
Proof.
  intros Hid.
  unfold lookup_user. destruct (decide _); [apply sends_at_ret|].
  apply sends_at_bind; [by apply userLookup_sends|apply sends_at_ret].
Qed.
Lemma proxyGet_sends path uid w : under_api path -> uid = sub \/ uid = "" -> sends_at Q (proxyGet cfg path uid) w.
Proof.
  intros Hp Hu. unfold proxyGet, ProxyGet. simpl v_baseURL.
  destruct (NewRequest _ _ _) as [q|] eqn:E; [|apply sends_at_ret].
  apply sends_at_bind; [|apply sends_at_ret]. apply exchange_sends. destruct (decide (uid = "")) as [|Hne].
  - by apply (page_get path).
  - destruct Hu as [-> | ->]; [|done]. by apply (page_get_user path).
Qed.
Lemma with_version_sends rw k w : sends_at Q (with_version (API_URL cfg) rw k) w.
Proof.
  apply sends_at_bind; [|apply sends_at_ret]. apply sends_at_bind; [|apply sends_at_ret].
  unfold fetchServerVersionFields. destruct (decide _); [apply sends_at_ret|].
  destruct (NewRequest _ _ _) as [q|] eqn:E; [|apply sends_at_ret].
  apply sends_at_bind; [|apply sends_at_ret]. apply sends_at_do. eapply (page_get "/api/version"); [by right|exact E].
Qed.
Lemma fetch_all_sends jobs sched : Forall under_api jobs ->
  forall slots w, sends_at Q (fetch_all (proxyGet cfg) sub jobs sched slots) w.
Proof.
  intros Hj. induction sched as [|i sched IH]; intros slots w; [apply sends_at_ret|].
  apply sends_at_bind; [|apply IH]. unfold run_job. destruct (jobs !! i) as [path|] eqn:Ei; [|apply sends_at_ret].
  eapply Forall_lookup_1 in Hj; [|exact Ei].
  apply sends_at_bind; [|apply sends_at_ret]. apply proxyGet_sends; [done|by left].
Qed.
Lemma ssr_fetch_sends url jobs sched w :
  (forall x, Forall under_api (jobs (PathEscape x))) ->
  sends_at Q (ssr_fetch (Some (proxyGet cfg)) sub url jobs sched) w.
Proof.
  intros Hj. unfold ssr_fetch. destruct (decide (sub = "")); [apply sends_at_ret|].
  apply sends_at_bind; [apply proxyGet_sends; [by right|by left]|].
  destruct (_ .1) as [body|]; [|apply sends_at_ret]. destruct (json_parse body ≫= _); [|apply sends_at_ret].
  apply sends_at_bind; [|apply sends_at_ret].
  destruct (decide _); [apply sends_at_ret|by apply fetch_all_sends].
Qed.
Lemma api_jobs x : Forall under_api (dashboard_jobs (PathEscape x)) /\ Forall under_api (mobile_jobs (PathEscape x)) /\
  Forall under_api (cash_jobs (PathEscape x)) /\ Forall under_api (strategy_jobs (PathEscape x)).
Proof.
  assert (named "portfolios") as Hn by done. assert (one_segment "portfolios") as Ho by done.
  pose proof (PathEscape_segment x) as Hx. assert (under_api ("/api/portfolios/" +:+ PathEscape x)) as H1'
    by (apply (under_api_one "portfolios"); [done..|apply Hx]).
  assert (forall y, no_byte "/" y = true -> named (url_path y) -> under_api ("/api/portfolios/" +:+ PathEscape x +:+ "/" +:+ y))
    as H2' by (intros y; by apply (under_api_two "portfolios")).
  unfold dashboard_jobs, mobile_jobs, cash_jobs, strategy_jobs. rewrite !Forall_cons, !Forall_nil.
  split_and!; first [done|exact H1'|by right|by apply (H2' "timeline")|by apply (H2' "watchlist")
    |by apply (H2' "cash-transactions")|by apply (H2' "strategy")|by apply (H2' "plan")].
Qed.
Lemma GenerateEndpoint_sends dh id w : sends_at Q (GenerateEndpoint dh id) w.
Proof.
  apply sends_at_quiet. unfold GenerateEndpoint, encryptUID. destruct (_ || _); [done|]. rewrite M_bind_unfold.
  by destruct (d_key dh).
Qed.
Lemma dev_endpoint_sends dh id w : sends_at Q (dev_endpoint (Some (GenerateEndpoint dh)) id) w.
Proof. unfold dev_endpoint. destruct (decide _); [apply sends_at_ret|apply GenerateEndpoint_sends]. Qed.
End requests.

(** One step of a computation in such a proof. *)
Ltac send_step :=
  lazymatch goal with
  | |- sends_at _ _ (mret _) _ => apply sends_at_ret
  | |- sends_at _ _ (with_version _ _ _) _ => by apply with_version_sends
  | |- sends_at _ _ (lookup_user _ _) _ => by apply lookup_sends
  | |- sends_at _ _ (ssr_fetch _ _ _ _ _) _ => apply ssr_fetch_sends; [done|intros x; apply (api_jobs x)]
  | |- sends_at _ _ (dev_endpoint _ _) _ => by apply dev_endpoint_sends
  | |- sends_at _ _ time_Now _ => by apply sends_at_quiet
  | |- sends_at _ _ (_ ≫= _) _ => apply sends_at_bind
  | |- sends_at _ _ (match ?x with _ => _ end) _ => destruct x eqn:?
  | |- sends_at _ _ (let _ := _ in _) _ => cbv zeta
  end.

Section page_requests.
Context (log : srv -> list HTTPRequest).
Hypothesis log_do : forall q s, log (http_do q s).2 = log s ++ [q].
Context (cfg : Config) (a : App).
Hypothesis Hwired : wired cfg a.

Definition sub_of (r : Request) (w : World) : string := claims_sub (IsLoggedIn r (JWTSecret (Auth cfg)) w).1.
(** The user id of the session goes into the path of its lookup as it is; an id
    without a slash is one segment there. *)
Definition plain_user (r : Request) (w : World) : Prop := no_byte "/" (sub_of r w) = true.

(** After the session check the page runs as the session's user. *)
Lemma sends_at_session {A} r (k : option JWTClaims -> M World A) w :
  plain_user r w ->
  (forall claims w', no_byte "/" (claims_sub claims) = true -> sends_at log (page_request cfg (claims_sub claims)) (k claims) w') ->
  sends_at log (page_request cfg (sub_of r w)) (IsLoggedIn r (JWTSecret (Auth cfg)) ≫= k) w.
Proof.
  intros Hp Hk. apply sends_at_bind; [apply sends_at_quiet, IsLoggedIn_srv|]. by apply Hk.
Qed.

Lemma ssr_pages_send h sched rw r w :
  plain_user r w ->
  h ∈ [a_PageHandler a; a_DashboardHandler a; a_MobileDashboardHandler a; a_StrategyHandler a; a_CashHandler a] ->
  Forall (fun m : M World outcome => sends_at log (page_request cfg (sub_of r w)) m w)
    [DashboardHandler_ServeHTTP build h sched rw r; MobileDashboardHandler_ServeHTTP build h sched rw r;
     CashHandler_ServeHTTP build h rw r; StrategyHandler_ServeHTTP build h rw r].
Proof.
  intros Hpu Hh. destruct (wi_ssr _ _ Hwired h Hh) as (Hs & Ha & Hl & Hg).
  unfold DashboardHandler_ServeHTTP, MobileDashboardHandler_ServeHTTP, CashHandler_ServeHTTP, StrategyHandler_ServeHTTP.
  rewrite Hs, Ha, Hl, Hg.
  repeat constructor; (apply sends_at_session; [done|]); intros [c|] w' Hc; cbn [claims_sub] in *; repeat send_step.
Qed.
Lemma visitor_sends h r w :
  plain_user r w ->
  h ∈ [a_PageHandler a; a_DashboardHandler a; a_MobileDashboardHandler a; a_StrategyHandler a; a_CashHandler a] ->
  sends_at log (page_request cfg (sub_of r w)) (visitor h r) w.
Proof.
  intros Hpu Hh. destruct (wi_ssr _ _ Hwired h Hh) as (Hs & Ha & Hl & Hg). unfold visitor. rewrite Hs, Hl.
  apply sends_at_session; [done|]. intros claims w' Hc. destruct claims as [c|]; cbn [claims_sub] in *; repeat send_step.
Qed.
Lemma GetServerVersion_sends sub w : sends_at log (page_request cfg sub) (GetServerVersion (API_URL cfg)) w.
Proof.
  pose proof (with_version_sends log log_do cfg sub rw0 (fun _ => rw0) w) as (l & El & Fl).
  exists l. split; [|done]. rewrite <-El. unfold with_version. rewrite M_bind_unfold.
  by destruct (GetServerVersion (API_URL cfg) w).
Qed.

Lemma public_pages_send rw r w :
  plain_user r w ->
  let h := a_PageHandler a in
  Forall (fun m : M World outcome => sends_at log (page_request cfg (sub_of r w)) m w)
    [ServeHelpPage build h rw r; ServeChangelogPage build h rw r; ServeGlossaryPage build h rw r;
     ServePage build h "docs.html" "docs" rw r; ServeErrorPage build h rw r; ServeLandingPage build h rw r].
Proof.
  intros Hpu h. assert (h ∈ [a_PageHandler a; a_DashboardHandler a; a_MobileDashboardHandler a; a_StrategyHandler a;
    a_CashHandler a]) as Hh by set_solver.
  pose proof (visitor_sends h r w Hpu Hh) as Hv. destruct (wi_ssr _ _ Hwired h Hh) as (Hs & Ha & Hl & Hg).
  unfold ServeHelpPage, ServeChangelogPage, ServeGlossaryPage, ServePage, ServeErrorPage, ServeLandingPage,
    fetch_glossary. rewrite Hs, Ha, Hl, Hg.
  repeat constructor.
  - apply sends_at_session; [done|]. intros [c|] w' Hc; cbn [claims_sub] in *; repeat send_step.
    apply proxyGet_sends; [done|by right|by left].
  - apply sends_at_bind; [done|]. repeat send_step.
    apply proxyGet_sends; [done|by right|by right].
  - apply sends_at_bind; [done|]. repeat send_step.
    apply proxyGet_sends; [done|by right|by right].
  - apply sends_at_session; [done|]. intros [c|] w' Hc; cbn [claims_sub] in *; repeat send_step.
  - apply sends_at_bind; [done|]. repeat send_step.
  - unfold checkServerHealth. repeat send_step. apply sends_at_do; [done|].
    eapply (page_get cfg _ "/api/health"); [by right|eassumption].
Qed.

Lemma profile_page_sends rw r w :
  plain_user r w ->
  sends_at log (page_request cfg (sub_of r w)) (HandleProfile build (a_ProfileHandler a) rw r) w.
Proof.
  intros Hpu. destruct (wi_profile _ _ Hwired) as (Hs & Ha & Hl & _ & Hd). unfold HandleProfile. rewrite Hs, Ha, Hl, Hd.
  apply sends_at_session; [done|]. intros [c|] w' Hc; cbn [claims_sub] in *; [|repeat send_step].
  apply sends_at_bind; [destruct (decide _); repeat send_step|].
  apply sends_at_bind; [apply GetServerVersion_sends|]. repeat send_step.
Qed.
(** The MCP page with the catalog read out. *)
Definition mcp_page (page : MCPPageHandler (S := MCPHandler)) (m : MCPHandler) (rw : ResponseWriter) (r : Request)
    : M World outcome :=
  claims ← IsLoggedIn r (mp_jwtSecret page);
  match claims with
  | None => mret (Returned (redirect_home rw r))
  | Some c =>
      dev ← dev_endpoint (mp_devMCPEndpoint page) (Sub c);
      user ← lookup_user (mp_userLookupFn page) (Sub c);
      with_version (mp_apiURL page) rw (fun sv =>
        let tools := catalogFn page m in
        let n := Z.of_nat (length tools) in
        render_page (mp_templates page) "mcp.html"
          (extend [("Tools", VTools tools); ("ToolCount", VInt n);
                   ("ToolStatus", VStr (if 0 <? n then Itoa n else "NO TOOLS"));
                   ("MCPEndpoint", VStr (mcp_endpoint page)); ("DevMCPEndpoint", VStr dev); ("Port", VInt (mp_port page))]
             (base_data build "mcp" (mp_devMode page) true (role_of user) sv)) rw)
  end.
Lemma mcp_page_sends rw r (m : MCPHandler) w :
  plain_user r w ->
  let '(o, (m', w')) := MCPPageHandler_ServeHTTP build (a_MCPPageHandler a) rw r (m, w) in
  m' = m /\ exists l, log (w_srv w') = log (w_srv w) ++ l /\ Forall (page_request cfg (sub_of r w)) l.
Proof.
  intros Hpu. destruct (wi_mcp _ _ Hwired) as (Hs & Ha & Hl & Hd).
  set (page := a_MCPPageHandler a) in *.
  assert (MCPPageHandler_ServeHTTP build page rw r (m, w) =
    let '(o, w') := mcp_page page m rw r w in (o, (m, w'))) as ->.
  { unfold MCPPageHandler_ServeHTTP, mcp_page. rewrite io_bind, M_bind_unfold.
    destruct (IsLoggedIn r (mp_jwtSecret page) w) as [[c|] w1]; [|done].
    cbn [fst snd]. rewrite !M_bind_unfold. cbn [read gets fst snd]. rewrite io_bind.
    destruct (dev_endpoint _ _ w1) as [d w2]. cbn [fst snd]. rewrite io_bind, M_bind_unfold.
    destruct (lookup_user _ _ w2) as [u w3]. cbn [fst snd]. unfold io, zoom. cbn [fst snd].
    by destruct (with_version _ _ _ w3). }
  assert (sends_at log (page_request cfg (sub_of r w)) (mcp_page page m rw r) w) as (l & El & Fl).
  { unfold mcp_page. rewrite Hs, Ha, Hl, Hd. apply sends_at_session; [done|].
    intros [c|] w' Hc; cbn [claims_sub] in *; repeat send_step. }
  destruct (mcp_page page m rw r w) as [o w']. split; [done|]. by exists l.
Qed.

(** *** The user administration page *)

(** The listing of the users under the portal's service account. *)
Definition list_users_request (q : HTTPRequest) : Prop :=
  hq_method q = "GET" /\ hq_body q = None /\ hq_url q = API_URL cfg +:+ "/api/admin/users" /\
  hq_header q = {["X-Vire-Service-Id" := [service_user os_Hostname cfg]]}.
(** vire-server reports the role admin for the user of the session. *)
Definition reported_admin (r : Request) (w : World) : Prop :=
  exists c w1 u, IsLoggedIn r (JWTSecret (Auth cfg)) w = (Some c, w1) /\
    (GetUser (NewVireClient (API_URL cfg)) (Sub c) w1).1 = Ok u /\ up_Role u = "admin".
Lemma sends_at_mono {A} (P Q : HTTPRequest -> Prop) (m : M World A) w :
  (forall q, P q -> Q q) -> sends_at log P m w -> sends_at log Q m w.
Proof. intros Hpq (l & El & Fl). exists l. split; [done|]. by eapply Forall_impl. Qed.
Lemma admin_page_sends rw r w :
  plain_user r w ->
  sends_at log (fun q => page_request cfg (sub_of r w) q \/ list_users_request q /\ reported_admin r w)
    (AdminUsersHandler_ServeHTTP build (a_AdminUsersHandler a) rw r) w.
Proof.
  intros Hpu. destruct (wi_admin _ _ Hwired) as (Hs & Ha & Hl & Hf & Hu).
  set (P := fun q => _ \/ _).
  assert (forall q, page_request cfg (sub_of r w) q -> P q) as HP by (intros q Hq; by left).
  unfold AdminUsersHandler_ServeHTTP. rewrite Hs, Ha, Hl. unfold plain_user, sub_of in *.
  apply sends_at_bind; [apply sends_at_quiet, IsLoggedIn_srv|].
  destruct (IsLoggedIn r (JWTSecret (Auth cfg)) w) as [[c|] w1] eqn:Ei; cbn [fst snd claims_sub] in *; [|apply sends_at_ret].
  apply sends_at_bind; [apply (sends_at_mono _ _ _ _ HP); by apply lookup_sends|].
  case_bool_decide as Hrole; cbn [negb]; [|apply sends_at_ret].
  assert (reported_admin r w) as Hadm.
  { exists c, w1. unfold lookup_user, userLookup in Hrole. destruct (decide (Sub c = "")); [done|].
    rewrite !M_bind_unfold in Hrole. destruct (GetUser _ _ w1) as [[u|e] w2]; [|done]. by exists u. }
  apply sends_at_bind; [|apply (sends_at_mono _ _ _ _ HP); by apply with_version_sends].
  unfold admin_list. rewrite Hf, Hu. case_decide; [apply sends_at_ret|].
  apply sends_at_bind; [|apply sends_at_ret]. unfold AdminListUsers, list_request, NewRequest. simpl.
  destruct (url_Parse _); [|apply sends_at_ret]. cbn [fmap option_fmap option_map].
  apply sends_at_bind; [|apply sends_at_ret]. apply sends_at_bind; [|apply sends_at_ret]. apply sends_at_do; [done|].
  right. split; [|done]. by split_and!.
Qed.

(** The pages a browser reads. *)
Definition page_routes : list Route :=
  [RDashboard; RMobileDashboard; RStrategy; RCash; RMCPPage; RHelp; RChangelog; RGlossary; RDocs; RErrorPage;
   RLanding; RProfile; RAdminUsers].

(** C11. What the pages ask of vire-server: whatever page a request is routed to
    and in whatever order the goroutines run, only GET requests to the
    configured server are sent, without a body, and to a path that is /api or
    below it once its dot segments are resolved (the user id of the session,
    which the lookup of the user puts into the path as it is, being free of
    slashes).  They carry no identity or the user id of the verified session.
    The one exception is the user administration page, which lists the users
    under the portal's service account, and only if vire-server has just
    reported the role admin for the user of the session.  The state of the
    portal does not change. *)
Theorem page_requests_confined sched route rw r p w :
  route ∈ page_routes -> find_handler (setupRoutes true true) r = ToRoute route -> plain_user r w ->
  let '(o, (p', w')) := router build streamable serve_content a sched rw r (p, w) in
  p' = p /\ exists l, log (w_srv w') = log (w_srv w) ++ l /\
    Forall (fun q => page_request cfg (sub_of r w) q \/
                     route = RAdminUsers /\ list_users_request q /\ reported_admin r w) l.
Proof.
  intros Hr Hmux Hpu. unfold router. rewrite Hmux. set (P := fun q => _ \/ _).
  assert (forall q, page_request cfg (sub_of r w) q -> P q) as HP by (intros q Hq; by left).
  assert (forall m : M World outcome, sends_at log P m w ->
    let '(o, (p', w')) := io m (p, w) in
    p' = p /\ exists l, log (w_srv w') = log (w_srv w) ++ l /\ Forall P l) as Hio.
  { intros m (l & El & Fl). unfold io, zoom. simpl. destruct (m w) as [o w']. split; [done|]. by exists l. }
  pose proof (fun h Hh => ssr_pages_send h sched rw r w Hpu Hh) as Hssr.
  pose proof (Hssr (a_DashboardHandler a) ltac:(set_solver)) as (Hd & _)%Forall_cons.
  pose proof (Hssr (a_MobileDashboardHandler a) ltac:(set_solver)) as (_ & (Hm & _)%Forall_cons)%Forall_cons.
  pose proof (Hssr (a_CashHandler a) ltac:(set_solver)) as (_ & (_ & (Hc & _)%Forall_cons)%Forall_cons)%Forall_cons.
  pose proof (Hssr (a_StrategyHandler a) ltac:(set_solver)) as
    (_ & (_ & (_ & (Hst & _)%Forall_cons)%Forall_cons)%Forall_cons)%Forall_cons.
  pose proof (public_pages_send rw r w Hpu) as Hpub. cbv zeta in Hpub. rewrite !Forall_cons in Hpub.
  destruct Hpub as (H1' & H2' & H3' & H4' & H5' & H6' & _). pose proof (profile_page_sends rw r w Hpu) as Hprof.
  unfold page_routes in Hr. rewrite !elem_of_cons, elem_of_nil in Hr.
  destruct Hr as [-> |[-> |[-> |[-> |[-> |[-> |[-> |[-> |[-> |[-> |[-> |[-> |[-> |[]]]]]]]]]]]]]]; cbn [serve];
    try (apply Hio, (sends_at_mono _ _ _ _ HP); assumption).
  - pose proof (mcp_page_sends rw r (p_mcp p) w Hpu) as Hmcp. unfold on_mcp, zoom. simpl.
    destruct (MCPPageHandler_ServeHTTP _ _ _ _ _) as [o [m w']]. destruct Hmcp as [-> (l & El & Fl)].
    destruct p. split; [done|]. exists l. split; [done|]. by eapply Forall_impl.
  - apply Hio. eapply sends_at_mono; [|by apply admin_page_sends]. intros q [Hq|[Hq Ha]]; [by left|by right].
Qed.
End page_requests.

(** ** User administration *)
Lemma service_user_id cfg : Key (Service cfg) ≠ "" -> service_user os_Hostname cfg = "service:" +:+ portal_id os_Hostname cfg.
Proof. intros Hk. unfold service_user. by rewrite decide_False. Qed.

(** C24. The user administration page is for administrators: the role is the one
    vire-server reports for the user of the session.  Without the role admin
    the browser is sent to the dashboard and the list is not even asked for;
    with it, and a service key, the page shows the users vire-server lists for
    the portal's service account, and none when the listing fails. *)
Theorem admin_page_gate cfg a rw r w c w1 :
  wired cfg a -> IsLoggedIn r (JWTSecret (Auth cfg)) w = (Some c, w1) -> Sub c ≠ "" ->
  let '(answer, w2) := GetUser (NewVireClient (API_URL cfg)) (Sub c) w1 in
  let page := AdminUsersHandler_ServeHTTP build (a_AdminUsersHandler a) rw r w in
  ((forall u, answer = Ok u -> up_Role u ≠ "admin") ->
   page = (Returned (Redirect rw r "/dashboard" StatusFound), w2)) /\
  (forall u, answer = Ok u -> up_Role u = "admin" -> Key (Service cfg) ≠ "" ->
   let '(listed, w3) := AdminListUsers (NewVireClient (API_URL cfg)) ("service:" +:+ portal_id os_Hostname cfg) w2 in
   let users := default [] (result_option listed) in
   exists data : string -> PageData,
     page = with_version (API_URL cfg) rw (fun sv =>
       render_page (ad_templates (a_AdminUsersHandler a)) "users.html" (data sv) rw) w3 /\
     forall sv, data sv !! "Users" = Some (VUsers users) /\
                data sv !! "UserCount" = Some (VInt (Z.of_nat (length users))) /\
                data sv !! "UserRole" = Some (VStr "admin")).
Proof.
  intros Hw Hin Hsub. destruct (wi_admin _ _ Hw) as (Es & Ea & El & Ef & Eu).
  destruct (GetUser _ _ w1) as [answer w2] eqn:Eg.
  assert (AdminUsersHandler_ServeHTTP build (a_AdminUsersHandler a) rw r w =
    (let user := result_option answer in
     if negb (bool_decide (role_of user = "admin")) then mret (Returned (Redirect rw r "/dashboard" StatusFound))
     else us ← admin_list (a_AdminUsersHandler a);
       with_version (API_URL cfg) rw (fun sv =>
         render_page (ad_templates (a_AdminUsersHandler a)) "users.html"
           (extend [("Users", VUsers us.1); ("UserCount", VInt (Z.of_nat (length us.1))); ("FetchError", VStr us.2)]
              (base_data build "users" (ad_devMode (a_AdminUsersHandler a)) true (role_of user) sv)) rw)) w2) as Hpage.
  { unfold AdminUsersHandler_ServeHTTP. rewrite Es, Ea, El, M_bind_unfold, Hin.
    unfold lookup_user. rewrite decide_False by done. unfold userLookup. rewrite !M_bind_unfold, Eg.
    by destruct answer. }
  rewrite Hpage. cbv zeta. split.
  - intros Hn. rewrite bool_decide_false; [done|]. destruct answer as [u|]; simpl; [by apply Hn|done].
  - intros u -> Hu Hk. cbn [result_option role_of]. rewrite bool_decide_true by done. cbn [negb].
    unfold admin_list. rewrite Ef, Eu, service_user_id by done. rewrite decide_False by done.
    rewrite !M_bind_unfold. destruct (AdminListUsers _ _ w2) as [listed w3]. rewrite Hu.
    exists (fun sv => extend
      [("Users", VUsers (default [] (result_option listed)));
       ("UserCount", VInt (Z.of_nat (length (default [] (result_option listed)))));
       ("FetchError", VStr (if is_ok listed then "" else "Failed to load user list. Ensure vire-server is running."))]
      (base_data build "users" (ad_devMode (a_AdminUsersHandler a)) true "admin" sv)).
    split; [by destruct listed|done].
Qed.

(** ** Routing *)
(** C13. The portal follows its site map: every request but a CONNECT is handed to
    the handler that [site_map] names for its method and the decoded segments of
    its path, when that path is clean: the exact pages first, for the methods
    that have them (HEAD like GET), then the handler of the directory (the API
    proxy below /api, static files, the development endpoint below /mcp, a 404
    below /.well-known, dashboards for GET), and the landing page for everything
    else, wrong methods included, so the multiplexer's own 404 and 405 are never
    given.  A path that is not clean is answered by a 301 to the clean one, and
    /api, /static and /.well-known by a 301 to the path with a slash, each with
    the query of the request. *)
Theorem requests_follow_site_map a sched rw r p w :
  Method r ≠ "CONNECT" ->
  let path := cleanPath (EscPath r) in
  let moved to := (Returned (Redirect rw r (url_String (mkURL "" "" "" "" to (RawQ r) "")) StatusMovedPermanently), (p, w)) in
  router build streamable serve_content a sched rw r (p, w) =
    (if decide (segs path ∈ bare_directories) then moved (cleanPath (Path r) +:+ "/")
     else if decide (path = EscPath r)
     then serve build streamable serve_content a sched (site_map (Method r) (segs path)) rw r (p, w)
     else moved path) /\
  cleanPath path = path.
Proof.
  intros Hm. cbv zeta. split; [|apply cleanPath_idem]. unfold router. rewrite find_handler_site by done. cbv zeta.
  destruct (decide (segs _ ∈ _)); [done|]. by destruct (decide (cleanPath (EscPath r) = EscPath r)).
Qed.

(** ** Paths without a page

    Every path no other pattern matches is served as the landing page, which
    closes the session of the browser that asked for it. *)
Lemma unknown_path_logs_out a sched rw r p w :
  Method r = "GET" -> EscPath r = "/favicon.ico" ->
  let '(o, _) := router build streamable serve_content a sched rw r (p, w) in
  clear_session ∈ rw_cookies (written o).
Proof.
  intros Hm Hp. unfold router.
  assert (find_handler (setupRoutes true true) r = ToRoute RLanding) as ->.
  { unfold find_handler. rewrite Hm, Hp. vm_compute. reflexivity. }
  cbn [serve]. unfold ServeLandingPage, io, zoom. simpl. rewrite M_bind_unfold.
  destruct (checkServerHealth _ w) as [up w1]. unfold with_version. rewrite M_bind_unfold.
  destruct (GetServerVersion _ w1) as [[sv|] w2]; simpl; [|set_solver].
  unfold render_quiet, write_all. match goal with |- context [foldl _ _ ?l] => generalize l as chunks end.
  assert (clear_session ∈ rw_cookies (set_cookie clear_session rw)) as Hc by set_solver.
  revert Hc. generalize (set_cookie clear_session rw) as rw1.
  intros rw1 Hc chunks. revert rw1 Hc. induction chunks as [|d chunks IH]; intros rw1 Hc; [done|]. simpl.
  apply IH. unfold Write, WriteHeader. by destruct (rw_sent rw1).
Qed.
End app.

(** ** Witnesses *)
Section witnesses.
#[local] Existing Instances sample_unicode sample_time sample_neturl sample_float sample_aead sample_tools sample_files.
#[local] Instance sample_templates : Templates := {|
  template := unit; ParsePages := fun _ => Some tt;
  ExecuteTemplate := fun _ name _ => ([name], true); format_RFC3339 := Itoa |}.
Definition b0 : BuildInfo := mkBuildInfo "1" "b" "c".
Definition portal_config : Config :=
  mkConfig "prod" "" (mkServerConfig 8080 "localhost") "http://vire:8080" "" (mkAuthConfig "secret" "" "")
    (mkServiceConfig "key" "portal1") (User NewDefaultConfig) (Logging NewDefaultConfig) 1.
Lemma built `{!Env} (w : World) :
  exists a st w', initHandlers b0 "host" portal_config w = (Some (a, st), w') /\ wired "host" portal_config a.
Proof.
  assert (is_Some (initHandlers b0 "host" portal_config w).1) as [x Hx].
  { unfold initHandlers. simpl. rewrite M_bind_unfold. by destruct (NewHandler portal_config b0 w). }
  destruct (initHandlers b0 "host" portal_config w) as [[[a st]|] w'] eqn:E; [|done].
  exists a, st, w'. split; [done|]. by eapply initHandlers_wired.
Qed.
Definition alice_token : string :=
  mintAccessToken "secret" (1700000000 * Second) "alice" "openid" "c1" "http://l".
Definition page_get_request (path token : string) : Request :=
  mkRequest "GET" path path "" "portal.test" false ∅
    (if decide (token = "") then [] else [("vire_session", token)]) false ∅ None.
Definition no_stream `{!Env} (rw : ResponseWriter) (r : Request) (uc : UserContext) : M (MCPHandler * World) ResponseWriter :=
  mret rw.
Definition no_file (name : string) (r : Request) (w : ResponseWriter) : ResponseWriter := w.
Definition no_uuid `{!Env} : M World string := mret "id".
Definition quiet_world : @World logging_env := @mkWorld logging_env [] 0 0.

Lemma pages_require_session_witness :
  exists a st w, initHandlers (H := logging_env) b0 "host" portal_config quiet_world = (Some (a, st), w) /\
    rw_status (written (portal_handler (H := logging_env) b0 no_stream no_file no_uuid a [] rw0
      (page_get_request "/dashboard/SMSF" "") (new_portal a st, w)).1) = StatusFound.
Proof.
  destruct (built (H := logging_env) quiet_world) as (a & st & w & E & Hw).
  exists a, st, w. split; [exact E|].
  pose proof (pages_require_session (H := logging_env) b0 "host" no_stream no_file no_uuid portal_config a [] RDashboard
    (page_get_request "/dashboard/SMSF" "") (new_portal a st) w Hw (fun _ => eq_refl) eq_refl eq_refl
    ltac:(unfold personal; set_solver) (fun _ => eq_refl)) as Hp.
  destruct (portal_handler _ _ _ _ _ _ _ _ _) as [o [p' w']]. apply Hp.
Defined.

Lemma page_requests_confined_witness :
  exists a st w l, initHandlers (H := logging_env) b0 "host" portal_config quiet_world = (Some (a, st), w) /\
    w_srv (router (H := logging_env) b0 no_stream no_file a [1; 0]%nat rw0
      (page_get_request "/dashboard" alice_token) (new_portal a st, w)).2.2 = w_srv w ++ l /\
    Forall (fun q => page_request portal_config "alice" q \/ RDashboard = RAdminUsers) l.
Proof.
  destruct (built (H := logging_env) quiet_world) as (a & st & w & E & Hw).
  assert (sub_of portal_config (page_get_request "/dashboard" alice_token) w = "alice") as Hs.
  { clear -E. apply (f_equal snd) in E. simpl in E. subst w. vm_compute. reflexivity. }
  assert (plain_user (H := logging_env) portal_config (page_get_request "/dashboard" alice_token) w) as Hpu.
  { unfold plain_user. rewrite Hs. reflexivity. }
  pose proof (page_requests_confined (H := logging_env) b0 "host" no_stream no_file id (fun q s => eq_refl) portal_config a Hw
    [1; 0]%nat RDashboard rw0 (page_get_request "/dashboard" alice_token) (new_portal a st) w
    ltac:(unfold page_routes; by left) eq_refl Hpu) as Hp.
  destruct (router _ _ _ _ _ _ _ _) as [o [p' w']] eqn:Er. destruct Hp as (_ & l & Hl & Hf).
  exists a, st, w, l. rewrite Er. split; [exact E|]. split; [exact Hl|].
  rewrite Hs in Hf. eapply Forall_impl; [exact Hf|]. intros q [Hq|[Hq _]]; [by left|by right].
Defined.

Lemma requests_follow_site_map_witness :
  exists a st w, initHandlers (H := logging_env) b0 "host" portal_config quiet_world = (Some (a, st), w) /\
    rw_status (written (router (H := logging_env) b0 no_stream no_file a [] rw0
      (page_get_request "//dashboard/x/../SMSF" "") (new_portal a st, w)).1) = StatusMovedPermanently.
Proof.
  destruct (built (H := logging_env) quiet_world) as (a & st & w & E & Hw).
  destruct (requests_follow_site_map (H := logging_env) b0 no_stream no_file a [] rw0
    (page_get_request "//dashboard/x/../SMSF" "") (new_portal a st) w ltac:(discriminate)) as [Hr _].
  exists a, st, w. split; [exact E|]. rewrite Hr.
  rewrite decide_False by (apply (bool_decide_unpack _); vm_compute; reflexivity).
  rewrite decide_False by (apply (bool_decide_unpack _); vm_compute; reflexivity). reflexivity.
Defined.

Definition admin_world : @World sample_env := @mkWorld sample_env
  (<["http://vire:8080/api/users/alice" := Marshal (JObj [("data", JStrMap [("role", "admin")])])]>
     {["http://vire:8080/api/admin/users" := Marshal (JObj [("users", JArr [JStrMap [("email", "bob@x")]])])]}) 0 0.
Lemma admin_page_gate_witness :
  exists a st w w' data, initHandlers (H := sample_env) b0 "host" portal_config admin_world = (Some (a, st), w) /\
    AdminUsersHandler_ServeHTTP (H := sample_env) b0 (a_AdminUsersHandler a) rw0
      (page_get_request "/admin/users" alice_token) admin_world =
    with_version (H := sample_env) "http://vire:8080" rw0 (fun sv =>
      render_page (ad_templates (H := sample_env) (a_AdminUsersHandler a)) "users.html" (data sv) rw0) w' /\
    forall sv : string, (data sv : PageData) !! "UserCount" = Some (VInt 1).
Proof.
  destruct (built (H := sample_env) admin_world) as (a & st & w & E & Hw).
  assert (Sub <$> (IsLoggedIn (H := sample_env) (page_get_request "/admin/users" alice_token) "secret" admin_world).1 = Some "alice")
    as Hc by (vm_compute; reflexivity).
  pose proof (IsLoggedIn_srv (H := sample_env) (page_get_request "/admin/users" alice_token) "secret" admin_world) as Hs.
  destruct (IsLoggedIn _ _ _) as [[c|] w1] eqn:Ei; [|discriminate]. simpl in Hs. injection Hc as Hc.
  pose proof (admin_page_gate (H := sample_env) b0 "host" portal_config a rw0
    (page_get_request "/admin/users" alice_token) admin_world c w1 Hw Ei ltac:(by rewrite Hc)) as Hg.
  rewrite Hc in Hg. destruct w1 as [s1 t1 d1]. simpl in Hs. subst s1.
  set (w1 := mkWorld _ t1 d1) in *.
  assert ((GetUser (H := sample_env) (NewVireClient "http://vire:8080") "alice" w1).1 =
    Ok (mkUserProfile "" "" "admin" false "")) as Eu by (vm_compute; reflexivity).
  assert (w_srv (GetUser (H := sample_env) (NewVireClient "http://vire:8080") "alice" w1).2 = w_srv admin_world) as Es
    by (vm_compute; reflexivity).
  destruct (GetUser (H := sample_env) _ _ _) as [answer [s2 t2 d2]]. simpl in Eu, Es. subst answer s2.
  destruct Hg as [_ Hg]. specialize (Hg _ eq_refl eq_refl ltac:(discriminate)).
  set (w2 := mkWorld _ t2 d2) in *.
  assert ((length <$> result_option (AdminListUsers (H := sample_env) (NewVireClient "http://vire:8080")
    ("service:" +:+ portal_id "host" portal_config) w2).1) = Some 1%nat) as El by (vm_compute; reflexivity).
  destruct (AdminListUsers (H := sample_env) _ _ _) as [[us|] w3]; [|discriminate]. injection El as El.
  destruct Hg as (data & Hpage & Hd). eexists a, st, w, w3, data. split; [exact E|]. split; [exact Hpage|].
  intros sv. destruct (Hd sv) as (_ & Hn & _). rewrite Hn. simpl. rewrite El. reflexivity.
Defined.
End witnesses.
