(* ===== verification/PortalInvariant.v ===== *)
(** * PortalInvariant: what no request can change

    The well-formedness of the state of the assembled portal ([Portal]): the
    OAuth server, the MCP handler and the HTTP server with its cache.  Every
    handler is followed through the rules of [Keeps], and the portal as a whole
    through its requests, the polls of the version watcher and its end. *)
From S2P Require Import Prelude GoStrings GoCrypto GoJson GoURL GoHTTP GoPath GoMux OAuthBackend Cache Samples OAuthStores Keeps JWT OAuthServer OAuthTheorems AuthHandlers Config VireClient Server Pages PagesTheorems ProxyTheorems MCP MCPTheorems App AppTheorems.

(** ** The OAuth server

    What is preserved of each store is a parameter: it has to survive the
    writes to the map of that store. *)
Section oauth.
Context `{!Env} `{!NetURL} `{!Unicode} `{!TimeCodec}.
Record stores_ok (secret : string) (Pc : ClientStore -> Prop) (Ps : SessionStore -> Prop) (Pd : CodeStore -> Prop)
    (Pt : TokenStore -> Prop) (s : OAuthServer) : Prop := {
  so_secret : o_jwtSecret s = secret; so_clients : Pc (o_clients s); so_sessions : Ps (o_sessions s);
  so_codes : Pd (o_codes s); so_tokens : Pt (o_tokens s) }.
Class StoresLaws (Pc : ClientStore -> Prop) (Ps : SessionStore -> Prop) (Pd : CodeStore -> Prop)
    (Pt : TokenStore -> Prop) : Prop := {
  clients_put c q : Pc q -> Pc (set_clients <[ClientID c := c]> q);
  sessions_put x q : Ps q -> Ps (set_sessions <[SessionID x := x]> q);
  sessions_delete id q : Ps q -> Ps (set_sessions (delete id) q);
  codes_put c q : Pd q -> Pd (set_codes <[Code c := c]> q);
  codes_fetched code c q : Pd q -> Pd (set_codes (cache_fetched code c) q);
  codes_consume code now q : Pd q -> Pd (set_codes (fun m => (consume_held code now m).2) q);
  tokens_put t q : Pt q -> Pt (set_tokens <[Token t := t]> q);
  tokens_delete k q : Pt q -> Pt (set_tokens (delete k) q) }.

Context (secret : string) (Pc : ClientStore -> Prop) (Ps : SessionStore -> Prop) (Pd : CodeStore -> Prop) (Pt : TokenStore -> Prop).
Context `{!StoresLaws Pc Ps Pd Pt}.
Notation oauth_ok := (stores_ok secret Pc Ps Pd Pt).
#[local] Hint Extern 1 (Pc (set_clients _ _)) => apply clients_put : keeps.
#[local] Hint Extern 1 (Ps (set_sessions _ _)) => apply sessions_put || apply sessions_delete : keeps.
#[local] Hint Extern 1 (Pd (set_codes _ _)) => apply codes_put || apply codes_fetched : keeps.
#[local] Hint Extern 1 (Pt (set_tokens _ _)) => apply tokens_put || apply tokens_delete : keeps.
#[local] Hint Resolve keeps_store : keeps.

Lemma keeps_on_clients {A} (m : M (ClientStore * World) A) : keeps Pc m -> keeps oauth_ok (on_clients m).
Proof. apply leads_zoom; [by intros s w []|]. by intros q s w [] ?. Qed.
Lemma keeps_on_sessions {A} (m : M (SessionStore * World) A) : keeps Ps m -> keeps oauth_ok (on_sessions m).
Proof. apply leads_zoom; [by intros s w []|]. by intros q s w [] ?. Qed.
Lemma keeps_on_codes {A} (m : M (CodeStore * World) A) : keeps Pd m -> keeps oauth_ok (on_codes m).
Proof. apply leads_zoom; [by intros s w []|]. by intros q s w [] ?. Qed.
Lemma keeps_on_tokens {A} (m : M (TokenStore * World) A) : keeps Pt m -> keeps oauth_ok (on_tokens m).
Proof. apply leads_zoom; [by intros s w []|]. by intros q s w [] ?. Qed.
#[local] Hint Resolve keeps_on_clients keeps_on_sessions keeps_on_codes keeps_on_tokens : keeps.

Lemma ClientStore_Put_keeps c : keeps Pc (ClientStore_Put c).
Proof. unfold ClientStore_Put. keep. Qed.
Lemma ClientStore_Get_keeps id : keeps Pc (ClientStore_Get id).
Proof. unfold ClientStore_Get. keep. Qed.
Lemma SessionStore_Put_keeps x : keeps Ps (SessionStore_Put x).
Proof. unfold SessionStore_Put. keep. Qed.
Lemma SessionStore_Get_keeps id : keeps Ps (SessionStore_Get id).
Proof. unfold SessionStore_Get. keep. Qed.
Lemma SessionStore_Delete_keeps id : keeps Ps (SessionStore_Delete id).
Proof. unfold SessionStore_Delete. keep. Qed.
Lemma GetByClientID_keeps id : keeps Ps (GetByClientID id).
Proof. unfold GetByClientID. keep. Qed.
Lemma CodeStore_Put_keeps c : keeps Pd (CodeStore_Put c).
Proof. unfold CodeStore_Put. keep. Qed.
Lemma consume_in_keeps code : keeps Pd (consume_in code).
Proof. intros q w. apply (codes_consume code (clock (w_tick w)) q). Qed.
#[local] Hint Resolve consume_in_keeps : keeps.
Lemma ConsumeCode_keeps code : keeps Pd (ConsumeCode code).
Proof. unfold ConsumeCode. keep. Qed.
Lemma TokenStore_Put_keeps t : keeps Pt (TokenStore_Put t).
Proof. unfold TokenStore_Put. keep. Qed.
Lemma TokenStore_Get_keeps k : keeps Pt (TokenStore_Get k).
Proof. unfold TokenStore_Get. keep. Qed.
Lemma TokenStore_Delete_keeps k : keeps Pt (TokenStore_Delete k).
Proof. unfold TokenStore_Delete. keep. Qed.
#[local] Hint Resolve ClientStore_Put_keeps ClientStore_Get_keeps SessionStore_Put_keeps SessionStore_Get_keeps
  SessionStore_Delete_keeps GetByClientID_keeps CodeStore_Put_keeps ConsumeCode_keeps TokenStore_Put_keeps
  TokenStore_Get_keeps TokenStore_Delete_keeps : keeps.

Lemma CompleteAuthorization_keeps sid user : keeps oauth_ok (CompleteAuthorization sid user).
Proof. unfold CompleteAuthorization. keep. Qed.
Lemma createAuthSession_keeps cl ru rt cc cm st sc : keeps oauth_ok (createAuthSession cl ru rt cc cm st sc).
Proof. unfold createAuthSession. keep. Qed.
Lemma issue_tokens_keeps w r u sc cl : keeps oauth_ok (issue_tokens w r u sc cl).
Proof. unfold issue_tokens, server_mintAccessToken. keep. Qed.
#[local] Hint Resolve CompleteAuthorization_keeps createAuthSession_keeps issue_tokens_keeps : keeps.
Lemma setSessionCookieAndRedirect_keeps w r sid : keeps oauth_ok (setSessionCookieAndRedirect w r sid).
Proof. unfold setSessionCookieAndRedirect, extractSessionUserID. keep. Qed.
#[local] Hint Resolve setSessionCookieAndRedirect_keeps : keeps.

Lemma HandleRegister_keeps w r : keeps oauth_ok (HandleRegister w r).
Proof. unfold HandleRegister. keep. Qed.
Lemma HandleAuthorize_keeps w r : keeps oauth_ok (HandleAuthorize w r).
Proof. unfold HandleAuthorize, handleAuthorizeGET, handleAuthorizePOST. keep. Qed.
Lemma HandleAuthorizeResume_keeps w r : keeps oauth_ok (HandleAuthorizeResume w r).
Proof. unfold HandleAuthorizeResume. keep. Qed.
Lemma HandleToken_keeps w r : keeps oauth_ok (HandleToken w r).
Proof. unfold HandleToken, handleAuthCodeGrant, handleRefreshTokenGrant. keep. Qed.

Lemma finish_login_keeps h w r token : keeps oauth_ok (finish_login h w r token).
Proof. unfold finish_login, tryCompleteMCPSession, complete_authorization, OAuthServer_completer. keep. Qed.
#[local] Hint Resolve finish_login_keeps : keeps.
Lemma HandleLogin_keeps h w r : keeps oauth_ok (HandleLogin h w r).
Proof. unfold HandleLogin. keep. Qed.
Lemma HandleTestLogin_keeps h w r : keeps oauth_ok (HandleTestLogin h w r).
Proof. unfold HandleTestLogin. keep. Qed.
Lemma HandleOAuthCallback_keeps h w r : keeps oauth_ok (HandleOAuthCallback h w r).
Proof. unfold HandleOAuthCallback. keep. Qed.
Lemma proxyOAuthRedirect_keeps h w r provider : keeps oauth_ok (proxyOAuthRedirect h w r provider).
Proof. unfold proxyOAuthRedirect. keep. Qed.
Lemma proxyOAuthCallback_keeps h w r : keeps oauth_ok (proxyOAuthCallback h w r).
Proof. unfold proxyOAuthCallback. keep. Qed.
End oauth.
#[export] Hint Extern 1 (StoresLaws _ _ _ _) => apply _ : keeps.
(** What an endpoint of the authorization server or a login keeps. *)
#[export] Hint Extern 1 (keeps (stores_ok _ _ _ _ _) _) => first
  [ apply HandleRegister_keeps | apply HandleAuthorize_keeps | apply HandleAuthorizeResume_keeps | apply HandleToken_keeps
  | apply HandleLogin_keeps | apply HandleTestLogin_keeps | apply HandleOAuthCallback_keeps
  | apply proxyOAuthRedirect_keeps | apply proxyOAuthCallback_keeps ] : keeps.

(** ** The stores of the portal

    Every record is filed under its own id, and all stores are on one backend. *)
Section oauth_wf.
Context `{!Env} (b : option OAuthBackend).
Definition clients_wf (q : ClientStore) : Prop := map_Forall (fun k c => ClientID c = k) (clients q) /\ cl_backend q = b.
Definition sessions_wf (q : SessionStore) : Prop := map_Forall (fun k x => SessionID x = k) (sessions q) /\ se_backend q = b.
Definition codes_wf (q : CodeStore) : Prop := co_backend q = b.
Definition tokens_wf (q : TokenStore) : Prop := map_Forall (fun k t => Token t = k) (tokens q) /\ to_backend q = b.
#[export] Instance filed_laws : StoresLaws clients_wf sessions_wf codes_wf tokens_wf.
Proof.
  split; intros; unfold clients_wf, sessions_wf, codes_wf, tokens_wf in *; destruct_and?; try split; try done;
    first [by apply map_Forall_insert_2 | by apply map_Forall_delete].
Qed.
(** The codes [K] are in the map. *)
Definition codes_include (K : gset string) (q : CodeStore) : Prop := K ⊆ dom (codes q).
#[export] Instance kept_codes_laws K : StoresLaws (fun _ => True) (fun _ => True) (codes_include K) (fun _ => True).
Proof.
  split; try done; unfold codes_include; intros; simpl.
  - set_solver.
  - unfold cache_fetched. destruct (codes q !! code); set_solver.
  - unfold consume_held. destruct (codes q !! code) as [c|] eqn:E; [|done].
    destruct (code_expired now c); [done|]. destruct (Used c); [done|]. simpl. set_solver.
Qed.
End oauth_wf.
Notation oauth_wf b secret := (stores_ok secret (clients_wf b) (sessions_wf b) (codes_wf b) (tokens_wf b)).

(** ** The HTTP server *)
Section server.
Context `{!Env} `{!NetURL} `{!Unicode}.
Context (apiURL secret : string).
(** What may be in the cache. *)
Definition cached_ok (e : entry) : Prop :=
  200 <= StatusCode (resp e) < 300 /\ Z.of_nat (slen (Body (resp e))) <= maxCacheableBody.
(** [n] bounds the number of insertions so far. *)
Record server_wf (n : Z) (s : Server) : Prop := {
  vw_api : s_apiURL s = apiURL; vw_secret : s_jwtSecret s = secret;
  vw_cache : cache_wf (s_cache s); vw_max : maxEntries (s_cache s) = 1000; vw_next : nextIdx (s_cache s) <= n;
  vw_entries : map_Forall (fun _ e => cached_ok e) (items (s_cache s)) }.

Lemma server_wf_subset n s c :
  server_wf n s -> items c ⊆ items (s_cache s) -> c = with_items (items c) (s_cache s) -> server_wf n (set_cache c s).
Proof.
  intros [] Hsub Hc. split; simpl; try done.
  - rewrite Hc. by apply cache_wf_subset.
  - by rewrite Hc.
  - by rewrite Hc.
  - intros k e He. eapply lookup_weaken in He; [|exact Hsub]. by eauto.
Qed.
Lemma server_wf_invalidate n s path : server_wf n s -> server_wf n (set_cache (InvalidatePrefix path (s_cache s)) s).
Proof. intros Hs. apply server_wf_subset; [done|apply InvalidatePrefix_subset|done]. Qed.
Lemma server_wf_mono n n' s : n <= n' -> server_wf n s -> server_wf n' s.
Proof. intros Hn []. split; try done. lia. Qed.
Lemma server_wf_store n s u r resp body now :
  n < 2 ^ 63 - 1 -> server_wf n s -> server_wf (n + 1) (set_cache (store_answer u r resp body now (s_cache s)) s).
Proof.
  intros Hn Hs. unfold store_answer. destruct (cacheable u r resp body) eqn:Hc.
  - destruct Hs as [Ha Hj Hw Hm Hx He]. pose proof (wf_next _ Hw). unfold cacheable in Hc. bool_to_prop.
    split; cbn [s_apiURL s_jwtSecret s_cache set_cache]; try done.
    + apply Set_wf; [done| |lia]. unfold proxy_key, MakeKey. by destruct u.
    + by rewrite Set_unfold.
    + rewrite Set_unfold. simpl. rewrite wrap64_id by lia. lia.
    + rewrite Set_unfold. apply map_Forall_insert_2; [by split; simpl; [lia|]|].
      intros k e Hk. eapply lookup_weaken in Hk; [|apply set_base_subset]. by eauto.
  - apply (server_wf_mono n); [lia|]. by destruct s.
Qed.
Lemma server_wf_update n s u r resp body now :
  n < 2 ^ 63 - 1 -> server_wf n s -> server_wf (n + 1) (set_cache (update_cache u r resp body now (s_cache s)) s).
Proof.
  intros Hn Hs. apply (server_wf_store n s u r resp body now Hn) in Hs. unfold update_cache.
  destruct (forces_refresh u r), (writes u r); [..|done];
    repeat first [done | apply (server_wf_invalidate _ (set_cache _ _))].
Qed.
Lemma cache_Get_keeps n key : keeps (server_wf n) (cache_Get key).
Proof.
  unfold cache_Get. keep. apply keeps_store. intros s Hs. apply server_wf_subset; [done|..].
  - apply Get_expire_items_subset.
  - apply Get_expire_with_items.
Qed.
#[local] Hint Resolve cache_Get_keeps : keeps.
Lemma proxy_lookup_keeps n u r : keeps (server_wf n) (proxy_lookup u r).
Proof. unfold proxy_lookup. keep. Qed.

(** A request inserts at most once. *)
Lemma leads_wf_weaken {A} n (m : M (Server * World) A) : keeps (server_wf n) m -> leads (server_wf n) (server_wf (n + 1)) m.
Proof. apply leads_mono; [done|]. intros s. apply server_wf_mono. lia. Qed.
Lemma proxy_forward_leads n u w r : n < 2 ^ 63 - 1 -> leads (server_wf n) (server_wf (n + 1)) (proxy_forward u w r).
Proof.
  intros Hn. unfold proxy_forward. eapply leads_bind; [apply keeps_read|]. intros [q|]; [|apply leads_wf_weaken; keep].
  eapply leads_bind; [apply keeps_io|]. intros [resp|e]; [|apply leads_wf_weaken; keep].
  destruct (ReadLimited _ resp) as [body|e]; [|apply leads_wf_weaken; keep].
  eapply leads_bind; [apply keeps_io|]. intros now. eapply leads_bind; [|intros; apply keeps_ret].
  apply leads_store. intros s. by apply server_wf_update.
Qed.
Lemma handleAPIProxy_leads n w r : n < 2 ^ 63 - 1 -> leads (server_wf n) (server_wf (n + 1)) (handleAPIProxy w r).
Proof.
  intros Hn. unfold handleAPIProxy. eapply leads_bind; [apply keeps_read|]. intros api.
  case_decide; [apply leads_wf_weaken; keep|]. destruct (HasPrefix _ _); [apply leads_wf_weaken; keep|].
  eapply leads_bind; [apply keeps_read|]. intros sec. eapply leads_bind; [apply keeps_io|]. intros claims.
  eapply leads_bind; [apply proxy_lookup_keeps|]. intros [c|]; [apply leads_wf_weaken; keep|by apply proxy_forward_leads].
Qed.
Lemma handleShutdown_keeps n w r : keeps (server_wf n) (handleShutdown w r).
Proof. unfold handleShutdown. keep. apply keeps_store. by intros s []. Qed.
End server.

(** ** The middleware *)
Section middleware.
Context `{!Env} `{!Unicode} (uuid_New : M World string).
Lemma withMiddleware_leads {S} (I J : S -> Prop) (next : Handler (S * World)) w r :
  (forall s, I s -> J s) -> (forall w r, leads I J (next w r)) -> leads I J (withMiddleware uuid_New next w r).
Proof.
  intros Hij Hn.
  unfold withMiddleware, correlationIDMiddleware, loggingMiddleware, securityHeadersMiddleware, corsMiddleware,
    csrfMiddleware, maxBodySizeMiddleware, recoveryMiddleware.
  eapply leads_bind; [case_decide; apply keeps_ret || apply keeps_io|]. intros id.
  eapply leads_bind; [apply keeps_io|]. intros _.
  eapply leads_bind; [|intros o; eapply leads_bind; [apply keeps_io|intros; apply keeps_ret]].
  case_decide; [by apply leads_ret|].
  assert (forall w r, leads I J (next w r ≫= fun o => mret (match o with
    | Returned w => Returned w
    | Panicked w => Returned (http_Error w "Internal server error" StatusInternalServerError) end))) as Hr.
  { intros w' r'. eapply leads_bind; [apply Hn|intros; apply keeps_ret]. }
  repeat first [case_decide | destruct (csrf_exempt _)]; try apply Hr; try (by apply leads_ret);
    (eapply leads_bind; [apply keeps_io|]; intros token; apply Hr).
Qed.
End middleware.

(** ** The portal *)
Section portal.
Context `{!Env} `{!NetURL} `{!Unicode} `{!TimeCodec} `{!Float64} `{!ToolServer} `{!ToolServerLaws} `{!AEAD} `{!Templates} `{!FileSys}.
Context (build : BuildInfo) (os_Hostname : string).
Context (streamable : ResponseWriter -> Request -> UserContext -> M (MCPHandler * World) ResponseWriter).
Context (serve_content : string -> Request -> ResponseWriter -> ResponseWriter) (uuid_New : M World string).
(** Serving MCP requests changes neither the registered tools nor the handler. *)
Definition same_tools (h h' : MCPHandler) : Prop :=
  m_catalog h' = m_catalog h /\ ListTools (m_mcpSrv h') = ListTools (m_mcpSrv h) /\
  m_jwtSecret h' = m_jwtSecret h /\ m_proxy h' = m_proxy h.
Hypothesis streamable_same : forall w r uc h wd, same_tools h (streamable w r uc (h, wd)).2.1.

Section invariant.
Context (cfg : Config).
Definition portal_backend : option OAuthBackend :=
  if decide (API_URL cfg = "") then None else Some (NewOAuthBackend (API_URL cfg)).
Definition mcp_wf (h : MCPHandler) : Prop :=
  handler_inv h /\ m_jwtSecret h = JWTSecret (Auth cfg) /\ m_proxy h = NewMCPProxy (API_URL cfg) cfg build.
Record portal_wf (n : Z) (p : Portal) : Prop := {
  pw_oauth : oauth_wf portal_backend (JWTSecret (Auth cfg)) (p_oauth p);
  pw_mcp : mcp_wf (p_mcp p);
  pw_server : server_wf (API_URL cfg) (JWTSecret (Auth cfg)) n (p_server p) }.

Lemma portal_wf_mono n p : portal_wf n p -> portal_wf (n + 1) p.
Proof. intros []. split; try done. apply (server_wf_mono _ _ n); [lia|done]. Qed.
Lemma leads_next {A} n (m : M (Portal * World) A) : keeps (portal_wf n) m -> leads (portal_wf n) (portal_wf (n + 1)) m.
Proof. apply leads_mono; [done|apply portal_wf_mono]. Qed.

Lemma keeps_on_oauth {A} n (m : M (OAuthServer * World) A) :
  keeps (oauth_wf portal_backend (JWTSecret (Auth cfg))) m -> keeps (portal_wf n) (on_oauth m).
Proof. apply leads_zoom; [by intros p w []|]. by intros q p w [] ?. Qed.
Lemma keeps_on_mcp {A} n (m : M (MCPHandler * World) A) : keeps mcp_wf m -> keeps (portal_wf n) (on_mcp m).
Proof. apply leads_zoom; [by intros p w []|]. by intros q p w [] ?. Qed.
Lemma leads_on_server {A} n n' (m : M (Server * World) A) :
  leads (server_wf (API_URL cfg) (JWTSecret (Auth cfg)) n) (server_wf (API_URL cfg) (JWTSecret (Auth cfg)) n') m ->
  leads (portal_wf n) (portal_wf n') (on_server m).
Proof. apply leads_zoom; [by intros p w []|]. by intros q p w [] ?. Qed.
Lemma leads_returned n n' m : leads (portal_wf n) (portal_wf n') m -> leads (portal_wf n) (portal_wf n') (returned m).
Proof. intros Hm. eapply leads_bind; [exact Hm|intros; apply keeps_ret]. Qed.

Lemma keeps_returned n m : keeps (portal_wf n) m -> keeps (portal_wf n) (returned m).
Proof. apply leads_returned. Qed.
Lemma shutdown_keeps n w r : keeps (portal_wf n) (on_server (handleShutdown w r)).
Proof. apply leads_on_server, handleShutdown_keeps. Qed.

Lemma same_tools_wf h h' : same_tools h h' -> mcp_wf h -> mcp_wf h'.
Proof.
  intros (Hc & Ht & Hs & Hp) ([Hok Hnd Hsv] & Hs' & Hp'). split; [|by rewrite Hs, Hp].
  split; rewrite ?Hc; [done..|]. by rewrite Ht.
Qed.
Lemma streamable_keeps w r uc : keeps mcp_wf (streamable w r uc).
Proof. intros h wd. by apply same_tools_wf. Qed.
#[local] Hint Resolve streamable_keeps keeps_on_oauth keeps_on_mcp keeps_returned shutdown_keeps : keeps.
Lemma ServeHTTP_keeps w r : keeps mcp_wf (ServeHTTP streamable w r).
Proof. unfold ServeHTTP. keep. Qed.
Lemma Dev_ServeHTTP_keeps d w r : keeps mcp_wf (Dev_ServeHTTP streamable d w r).
Proof. unfold Dev_ServeHTTP. keep. Qed.
Lemma MCPPage_keeps h w r : keeps mcp_wf (MCPPageHandler_ServeHTTP build h w r).
Proof. unfold MCPPageHandler_ServeHTTP. keep. Qed.
#[local] Hint Resolve ServeHTTP_keeps Dev_ServeHTTP_keeps MCPPage_keeps : keeps.

Lemma serve_leads a sched n route w r :
  n < 2 ^ 63 - 1 -> leads (portal_wf n) (portal_wf (n + 1)) (serve build streamable serve_content a sched route w r).
Proof.
  intros Hn. destruct route; cbn [serve];
    try (apply leads_returned, leads_on_server, handleAPIProxy_leads; exact Hn); apply leads_next;
    unfold HandleGoogleLogin, HandleGitHubLogin, HandleGoogleCallback, HandleGitHubCallback; eauto with keeps.
Qed.
Lemma request_leads a sched n r :
  n < 2 ^ 63 - 1 ->
  leads (portal_wf n) (portal_wf (n + 1)) (portal_handler build streamable serve_content uuid_New a sched rw0 r).
Proof.
  intros Hn. apply withMiddleware_leads; [apply portal_wf_mono|]. intros w r'. unfold router.
  destruct (find_handler _ r'); [by apply serve_leads|apply leads_next; keep..].
Qed.

Lemma watch_tick_keeps last h w : mcp_wf h -> mcp_wf (watch_tick last (h, w)).2.1.
Proof.
  intros (Hi & Hs & Hp). pose proof (watch_tick_spec last h w) as Hw.
  destruct (fetchServerBuild (h, w)) as [b [h1 w1]]. destruct Hw as [_ ->]. destruct (decide _); [done|]. cbn [snd].
  destruct (RefreshCatalog_keeps h w1) as [Es Ep]. split; [by apply RefreshCatalog_inv|]. by rewrite Es, Ep.
Qed.
Lemma started_wf a st w w' :
  initHandlers build os_Hostname cfg w = (Some (a, st), w') -> portal_wf 0 (new_portal a st).
Proof.
  intros Hi. pose proof (wi_cfg _ _ _ (initHandlers_wired _ _ _ _ _ _ _ Hi)) as Hcfg.
  assert (st = (NewOAuthServer (BaseURL cfg) (API_URL cfg) (JWTSecret (Auth cfg)), (NewHandler cfg build w).1)) as ->.
  { revert Hi. unfold initHandlers, NewPageHandler, NewDashboardHandler, NewMobileDashboardHandler, NewStrategyHandler,
      NewCashHandler, NewProfileHandler, NewMCPPageHandler, NewAdminUsersHandler, new_handler.
    destruct (ParsePages FindPagesDir) as [t|]; [|done]. cbn [mbind option_bind].
    rewrite M_bind_unfold. destruct (NewHandler cfg build w) as [mcp w1]. by intros [= _ <- _]. }
  unfold new_portal. rewrite Hcfg. split; cbn [p_oauth p_mcp p_server fst snd].
  - unfold NewOAuthServer, portal_backend. destruct (decide (API_URL cfg = "")); by repeat split.
  - split; [apply NewHandler_inv|]. unfold NewHandler. rewrite M_bind_unfold. by destruct (fetch_retry _ _ w).
  - by split.
Qed.
End invariant.

(** ** The life of the portal

    Requests through the whole middleware chain, polls of the version watcher
    with the last build it saw, the shutdown channel main installs, and the
    end.  The world of each step is arbitrary: the rest of the world moves. *)
Inductive portal_step (a : App) : Portal -> Portal -> Prop :=
| ps_request p sched r w :
    portal_step a p (portal_handler build streamable serve_content uuid_New a sched rw0 r (p, w)).2.1
| ps_poll p last w :
    m_stopped (p_mcp p) = false ->
    portal_step a p (mkPortal (p_oauth p) (watch_tick last (p_mcp p, w)).2.1 (p_server p))
| ps_channel p : portal_step a p (mkPortal (p_oauth p) (p_mcp p) (SetShutdownChannel (p_server p)))
| ps_close p w : portal_step a p (mkPortal (p_oauth p) (App_Close (p_mcp p, w)).2.1 (p_server p)).

Lemma portal_step_wf cfg a n p p' :
  n < 2 ^ 63 - 1 -> portal_step a p p' -> portal_wf cfg n p -> portal_wf cfg (n + 1) p'.
Proof.
  intros Hn [q sched r w|q last w _|q|q w] Hp; [by apply request_leads|apply portal_wf_mono; destruct Hp as [Ho Hm Hs]..].
  - split; try done. by apply watch_tick_keeps.
  - split; try done. by destruct Hs.
  - split; try done. destruct Hm as ([] & ? & ?). split; [by split|done].
Qed.
Lemma portal_steps_wf cfg a n p0 p :
  nsteps (portal_step a) n p0 p -> Z.of_nat n < 2 ^ 63 -> portal_wf cfg 0 p0 -> portal_wf cfg (Z.of_nat n) p.
Proof.
  intros Hs Hn Hz. revert p Hs. induction n as [|n IH]; intros p Hs; [by inversion Hs; subst|].
  apply nsteps_inv_r in Hs as (q & Hs & Hst). replace (Z.of_nat (S n)) with (Z.of_nat n + 1) by lia.
  eapply portal_step_wf; [lia|exact Hst|]. apply IH; [lia|done].
Qed.

(** ** Codes accumulate

    [Cleanup] of the stores has no caller: no step of the portal removes an
    authorization code from memory, expired or used, so the map only grows. *)
Section accumulate.
Context (P : OAuthServer -> Prop).
Definition oauth_part (p : Portal) : Prop := P (p_oauth p).
Lemma part_on_oauth {A} (m : M (OAuthServer * World) A) : keeps P m -> keeps oauth_part (on_oauth m).
Proof. by apply leads_zoom. Qed.
Lemma part_on_mcp {A} (m : M (MCPHandler * World) A) : keeps oauth_part (on_mcp m).
Proof. intros p w Hp. unfold on_mcp, zoom. by destruct (m _). Qed.
Lemma part_on_server {A} (m : M (Server * World) A) : keeps oauth_part (on_server m).
Proof. intros p w Hp. unfold on_server, zoom. by destruct (m _). Qed.
Lemma part_returned m : keeps oauth_part m -> keeps oauth_part (returned m).
Proof. intros Hm. apply keeps_bind; [done|]. intros. apply keeps_ret. Qed.
End accumulate.
#[local] Hint Resolve part_on_oauth part_on_mcp part_on_server part_returned : keeps.
Lemma request_keeps_codes secret K a sched w r :
  keeps (oauth_part (stores_ok secret (fun _ => True) (fun _ => True) (codes_include K) (fun _ => True)))
    (portal_handler build streamable serve_content uuid_New a sched w r).
Proof.
  apply withMiddleware_leads; [done|]. intros w' r'. unfold router.
  destruct (find_handler _ r') as [route| | |]; [|apply keeps_ret..]. destruct route; cbn [serve];
    match goal with |- leads ?I ?I ?m => change (keeps I m) end;
    unfold HandleGoogleLogin, HandleGitHubLogin, HandleGoogleCallback, HandleGitHubCallback; eauto with keeps.
Qed.
Lemma codes_accumulate a p p' :
  portal_step a p p' -> dom (codes (o_codes (p_oauth p))) ⊆ dom (codes (o_codes (p_oauth p'))).
Proof.
  intros [q sched r w|q last w _|q|q w]; try done.
  assert (oauth_part (stores_ok (o_jwtSecret (p_oauth q)) (fun _ => True) (fun _ => True)
    (codes_include (dom (codes (o_codes (p_oauth q))))) (fun _ => True)) q) as Hq by (by split; unfold codes_include).
  apply (request_keeps_codes _ _ a sched rw0 r q w Hq).
Qed.

(** C12. What no request can change.  Whatever requests the assembled portal
    serves, in any number below 2^63 and with whatever answers from vire-server,
    and however the version watcher polls between them: the three components
    keep the signing secret of the configuration and the address of the
    configured server; clients, sessions and refresh
    tokens are filed under their own ids; the response cache holds at most a
    thousand answers, each of them a success of at most 5 MB; and the MCP server
    offers exactly the portal's own tools and those of a validated catalog. *)
Theorem portal_invariant cfg a st w w' n p :
  initHandlers build os_Hostname cfg w = (Some (a, st), w') ->
  nsteps (portal_step a) n (new_portal a st) p -> Z.of_nat n < 2 ^ 63 ->
  let s := p_oauth p in let h := p_mcp p in let v := p_server p in
  (o_jwtSecret s = JWTSecret (Auth cfg) /\ m_jwtSecret h = JWTSecret (Auth cfg) /\ s_jwtSecret v = JWTSecret (Auth cfg)) /\
  (s_apiURL v = API_URL cfg /\ m_proxy h = NewMCPProxy (API_URL cfg) cfg build /\
   Forall (fun b => b = portal_backend cfg)
     [cl_backend (o_clients s); se_backend (o_sessions s); co_backend (o_codes s); to_backend (o_tokens s)]) /\
  (map_Forall (fun k c => ClientID c = k) (clients (o_clients s)) /\
   map_Forall (fun k x => SessionID x = k) (sessions (o_sessions s)) /\
   map_Forall (fun k t => Token t = k) (tokens (o_tokens s))) /\
  (Z.of_nat (size (items (s_cache v))) <= 1000 /\ map_Forall (fun _ e => cached_ok e) (items (s_cache v))) /\
  (Forall tool_ok (m_catalog h) /\ NoDup (ct_Name <$> m_catalog h) /\ serves (m_catalog h) (ListTools (m_mcpSrv h))).
Proof.
  intros Hi Hs Hn. cbv zeta.
  destruct (portal_steps_wf cfg a n _ p Hs Hn (started_wf cfg a st w w' Hi)) as [[Hsec [] [] Hcb []] ([] & ? & ?) []].
  pose proof (wf_size _ vw_cache0) as Hsz. rewrite vw_max0 in Hsz.
  split_and!; try done. by repeat constructor.
Qed.
End portal.

(** ** Witness *)
Section witnesses.
#[local] Existing Instances sample_unicode sample_time sample_neturl sample_float sample_aead sample_tools sample_tools_laws sample_files sample_templates.
Lemma portal_invariant_witness :
  exists a st w, initHandlers (H := logging_env) b0 "host" portal_config quiet_world = (Some (a, st), w) /\
    s_jwtSecret (p_server (portal_handler (H := logging_env) b0 no_stream no_file no_uuid a [] rw0
      (page_get_request "/api/portfolios" alice_token) (new_portal a st, w)).2.1) = "secret".
Proof.
  destruct (built (H := logging_env) quiet_world) as (a & st & w & E & _).
  exists a, st, w. split; [exact E|].
  pose proof (portal_invariant (H := logging_env) b0 "host" no_stream no_file no_uuid
    (fun _ _ _ _ _ => ltac:(by repeat split)) portal_config a st quiet_world w 1 _ E
    (nsteps_once _ _ (ps_request b0 no_stream no_file no_uuid a (new_portal a st) []
      (page_get_request "/api/portfolios" alice_token) w)) ltac:(done)) as ((_ & _ & Hs) & _).
  exact Hs.
Defined.
End witnesses.
