(* ===== verification/PortalMain.v ===== *)
(** * PortalMain: the vire-portal command (cmd/vire-portal/main.go,
    internal/server/server.go Start and Shutdown).

    What happens before the portal listens is a function of the flags, the
    environment and the files; from then on the process is a step relation:
    signals, requests being served, the version watcher, log entries, the
    deadline of the shutdown, and the statements of [main]. *)
From S2P Require Import Prelude GoStrings GoCrypto GoJson GoURL GoHTTP GoPath OAuthBackend Samples OAuthStores JWT OAuthServer OAuthTheorems AuthHandlers Config VireClient LogStore Server Pages MCP MCPTheorems App.

Record Flags := mkFlags {
  configFiles : list string;
  serverPort : Z;
  serverPortP : Z;
  serverHost : string;
  showVersion : bool;
}.

(** [configPaths.Set]: every -config and -c adds a file. *)
Definition configPaths_Set (value : string) (c : list string) : list string := c ++ [value].

Section startup.
Context `{!Unicode} `{!FileSys}.
Context (getenv : string -> string) (ReadFile : string -> option string)
  (toml_Unmarshal : string -> Config -> option Config) (os_Executable : option string) (os_Hostname : string).

Definition portalConfigSearchPaths : list string :=
  let candidates := ["vire-portal.toml"; "config/vire-portal.toml"; "docker/vire-portal.toml"] in
  match os_Executable with
  | None => candidates
  | Some exe =>
      let binDir := filepath_Dir exe in
      dedup_paths ∅ ([filepath_Join binDir "vire-portal.toml";
                      filepath_Join binDir "config/vire-portal.toml"] ++ candidates)
  end.
Definition path_there (p : string) : bool := bool_decide (os_Stat p ≠ None).

(** How [main] gets to a configuration, or where it exits. *)
Inductive startup :=
| ExitVersion                        (* prints the version, status 0 *)
| ExitLoad (msg : string)            (* status 1 *)
| ExitInvalid (issues : list string) (* status 1 *)
| Ready (cfg : Config).
Definition finalPort (f : Flags) : Z := if serverPortP f =? 0 then serverPort f else serverPortP f.
Definition config_files (f : Flags) : list string :=
  match configFiles f with
  | [] => match find path_there portalConfigSearchPaths with Some p => [p] | None => [] end
  | files => files
  end.
Definition configure (f : Flags) : startup :=
  if showVersion f then ExitVersion
  else match LoadFromFiles getenv ReadFile toml_Unmarshal (config_files f) with
       | Err e => ExitLoad e
       | Ok cfg =>
           let cfg := ApplyFlagOverrides cfg (finalPort f) (serverHost f) in
           match Validate cfg with
           | [] => Ready cfg
           | issues => ExitInvalid issues
           end
       end.

(** The remote log store, when a service key is configured. *)
Definition log_store (cfg : Config) : option LogSys :=
  if decide (Key (Service cfg) = "") then None
  else
    let portalID := if decide (PortalID (Service cfg) = "") then os_Hostname else PortalID (Service cfg) in
    Some (NewHTTPLogStore (API_URL cfg) ("service:" +:+ portalID)).
Definition addr (cfg : Config) : string := SrvHost (cfg_Server cfg) +:+ ":" +:+ Itoa (Port (cfg_Server cfg)).
End startup.

(** ** The running process *)
Section lifecycle.
Context `{!Env} `{!NetURL} `{!Unicode} `{!TimeCodec} `{!Float64} `{!ToolServer}.

(** Where [main] is: in the select, then at one of the calls after it, two of
    which wait: [srv.Shutdown] has closed the listener and waits for the requests
    being served, [logStore.Close] has let go of its mutex and sends. *)
Inductive main_phase :=
| Selecting | Stopping | Draining | ClosingApp | ClosingLog | SendingLog (remaining : list logIngestEntry)
| Finished | Failed.
Record process := mkProcess {
  pr_phase : main_phase;
  pr_signal : bool;              (* sigChan, one place *)
  pr_requests : nat;             (* goroutines of /api/shutdown that wait to send on shutdownChan *)
  pr_listening : bool;           (* the HTTP server accepts requests *)
  pr_active : nat;               (* requests being served *)
  pr_expired : bool;             (* the ten seconds given to srv.Shutdown are over *)
  pr_mcp : MCPHandler;           (* application.MCPHandler *)
  pr_watcher : option string;    (* its version watcher with the last build it saw, until it returns *)
  pr_world : World;
  pr_log : option (LogSys * list logIngestEntry);  (* the remote log store, and the entries it accepted *)
}.
Definition launched (log : option LogSys) (mcp : MCPHandler) (last : string) (w : World) : process :=
  mkProcess Selecting false 0 true 0 false mcp (Some last) w ((fun y => (y, [])) <$> log).
Definition exited (p : process) : Prop := pr_phase p = Finished \/ pr_phase p = Failed.

(** What the rest of the process and of the world does. *)
Inductive env_step (dev : bool) : process -> process -> Prop :=
| E_signal ph sg n up k ex m wt w l :
    env_step dev (mkProcess ph sg n up k ex m wt w l) (mkProcess ph true n up k ex m wt w l)
| E_accept ph sg n k ex m wt w l :                      (* a connection, while the listener is open *)
    env_step dev (mkProcess ph sg n true k ex m wt w l) (mkProcess ph sg n true (S k) ex m wt w l)
| E_respond ph sg n up k ex m wt w l :                  (* a handler returns *)
    env_step dev (mkProcess ph sg n up (S k) ex m wt w l) (mkProcess ph sg n up k ex m wt w l)
| E_request ph sg n up k ex m wt w l :                  (* the handler of /api/shutdown, in development *)
    dev = true ->
    env_step dev (mkProcess ph sg n up (S k) ex m wt w l) (mkProcess ph sg (S n) up (S k) ex m wt w l)
| E_exchange ph sg n up k ex m wt w w' l :              (* handlers talk to vire-server *)
    env_step dev (mkProcess ph sg n up (S k) ex m wt w l) (mkProcess ph sg n up (S k) ex m wt w' l)
| E_deadline sg n up k ex m wt w l :                    (* context.WithTimeout *)
    env_step dev (mkProcess Draining sg n up k ex m wt w l) (mkProcess Draining sg n up k true m wt w l)
| E_poll ph sg n up k ex m last w l :                   (* the ticker of the version watcher *)
    env_step dev (mkProcess ph sg n up k ex m (Some last) w l)
      (mkProcess ph sg n up k ex (watch_tick last (m, w)).2.1 (Some (watch_tick last (m, w)).1)
         (watch_tick last (m, w)).2.2 l)
| E_watched ph sg n up k ex m last w l :                (* it sees stopWatch closed and returns *)
    m_stopped m = true ->
    env_step dev (mkProcess ph sg n up k ex m (Some last) w l) (mkProcess ph sg n up k ex m None w l)
| E_log ph sg n up k ex m wt w y acc w' y' acc' :       (* a log entry, the flush timer, a sending goroutine *)
    lstep (mkL y w acc) (mkL y' w' acc') -> l_closed (ls_store y') = l_closed (ls_store y) ->
    env_step dev (mkProcess ph sg n up k ex m wt w (Some (y, acc))) (mkProcess ph sg n up k ex m wt w' (Some (y', acc')))
| E_start_failed ph sg n k ex m wt w l :                (* ListenAndServe fails: os.Exit(1) *)
    env_step dev (mkProcess ph sg n true k ex m wt w l) (mkProcess Failed sg n false k ex m wt w l).

(** The statements of [main] after the server is started. *)
Inductive main_step : process -> process -> Prop :=
| M_signal n up k ex m wt w l :                         (* case <-sigChan *)
    main_step (mkProcess Selecting true n up k ex m wt w l) (mkProcess Stopping false n up k ex m wt w l)
| M_request sg n up k ex m wt w l :                     (* case <-shutdownChan *)
    main_step (mkProcess Selecting sg (S n) up k ex m wt w l) (mkProcess Stopping sg n up k ex m wt w l)
| M_shutdown sg n up k ex m wt w l :                    (* srv.Shutdown closes the listener and waits *)
    main_step (mkProcess Stopping sg n up k ex m wt w l) (mkProcess Draining sg n false k ex m wt w l)
| M_drained sg n up ex m wt w l :                       (* it returns: no request is being served *)
    main_step (mkProcess Draining sg n up 0 ex m wt w l) (mkProcess ClosingApp sg n up 0 ex m wt w l)
| M_deadline sg n up k m wt w l :                       (* it returns the context's error, which is logged *)
    main_step (mkProcess Draining sg n up k true m wt w l) (mkProcess ClosingApp sg n up k true m wt w l)
| M_close_app sg n up k ex m wt w l :                   (* application.Close *)
    main_step (mkProcess ClosingApp sg n up k ex m wt w l)
      (mkProcess ClosingLog sg n up k ex (App_Close (m, w)).2.1 wt (App_Close (m, w)).2.2 l)
| M_no_log sg n up k ex m wt w :
    main_step (mkProcess ClosingLog sg n up k ex m wt w None) (mkProcess Finished sg n up k ex m wt w None)
| M_close_log sg n up k ex m wt w y acc :               (* logStore.Close under its mutex *)
    main_step (mkProcess ClosingLog sg n up k ex m wt w (Some (y, acc)))
      (mkProcess (SendingLog (Close_locked y).1) sg n up k ex m wt w (Some ((Close_locked y).2, acc)))
| M_send_log sg n up k ex m wt w y acc remaining :      (* it sends the rest; main returns *)
    main_step (mkProcess (SendingLog remaining) sg n up k ex m wt w (Some (y, acc)))
      (mkProcess Finished sg n up k ex m wt (send_remaining (ls_store y) remaining w).2 (Some (y, acc))).
End lifecycle.

(** ** Theorems *)
Section startup_theorems.
Context `{!Unicode} `{!FileSys}.
Context (getenv : string -> string) (ReadFile : string -> option string)
  (toml_Unmarshal : string -> Config -> option Config) (os_Executable : option string).

(** What the rest of the program relies on. *)
Record config_wf (cfg : Config) : Prop := {
  wf_api : TrimSpace (API_URL cfg) ≠ "";
  wf_secret : IsDevMode cfg = true \/ TrimSpace (JWTSecret (Auth cfg)) ≠ "";
  wf_port : 1 <= Port (cfg_Server cfg) <= 65535;
  wf_environment : ToLower (TrimSpace (Environment cfg)) ≠ "development" /\
                   ToLower (TrimSpace (Environment cfg)) ≠ "production";
}.

Lemma normalizeEnvironment_short env :
  ToLower (TrimSpace (normalizeEnvironment env)) ≠ "development" /\
  ToLower (TrimSpace (normalizeEnvironment env)) ≠ "production".
Proof.
  unfold normalizeEnvironment. destruct (decide _); [by vm_compute|]. by destruct (decide _); [vm_compute|].
Qed.

(** *** Where a setting comes from *)
Inductive Setting : Type -> Type :=
| SEnvironment : Setting string | SAdminUsers : Setting string | SPort : Setting Z | SHost : Setting string
| SAPIURL : Setting string | SPortal : Setting string | SJWTSecret : Setting string | SCallbackURL : Setting string
| SAuthPortalURL : Setting string | SServiceKey : Setting string | SPortalID : Setting string
| SPortfolios : Setting (list string) | SDisplayCurrency : Setting string | SLevel : Setting string
| SFormat : Setting string | SOutputs : Setting (list string) | SFilePath : Setting string
| SMaxSizeMB : Setting Z | SMaxBackups : Setting Z | SCatalogRetries : Setting Z.
Definition get_setting {A} (k : Setting A) (c : Config) : A :=
  match k in Setting A return A with
  | SEnvironment => Environment c | SAdminUsers => AdminUsers c | SPort => Port (cfg_Server c)
  | SHost => SrvHost (cfg_Server c) | SAPIURL => API_URL c | SPortal => Portal_URL c
  | SJWTSecret => JWTSecret (Auth c) | SCallbackURL => CallbackURL (Auth c) | SAuthPortalURL => PortalURL (Auth c)
  | SServiceKey => Key (Service c) | SPortalID => PortalID (Service c) | SPortfolios => Portfolios (User c)
  | SDisplayCurrency => DisplayCurrency (User c) | SLevel => Config.Level (Logging c) | SFormat => Format (Logging c)
  | SOutputs => Outputs (Logging c) | SFilePath => FilePath (Logging c) | SMaxSizeMB => MaxSizeMB (Logging c)
  | SMaxBackups => MaxBackups (Logging c) | SCatalogRetries => CatalogRetries c
  end.
(** The environment variable of a setting, if it is set to something. *)
Definition env_value (name : string) : option string := if decide (getenv name = "") then None else Some (getenv name).
Definition env_setting {A} (k : Setting A) : option A :=
  match k in Setting A return option A with
  | SEnvironment => env_value "VIRE_ENV" | SAdminUsers => env_value "VIRE_ADMIN_USERS"
  | SPort => env_value "VIRE_SERVER_PORT" ≫= Atoi | SHost => env_value "VIRE_SERVER_HOST"
  | SAPIURL => env_value "VIRE_API_URL" | SPortal | SAuthPortalURL => env_value "VIRE_PORTAL_URL"
  | SJWTSecret => env_value "VIRE_AUTH_JWT_SECRET" | SCallbackURL => env_value "VIRE_AUTH_CALLBACK_URL"
  | SServiceKey => env_value "VIRE_SERVICE_KEY" | SPortalID => env_value "VIRE_PORTAL_ID"
  | SPortfolios => (fun v => [v]) <$> env_value "VIRE_DEFAULT_PORTFOLIO"
  | SDisplayCurrency => env_value "VIRE_DISPLAY_CURRENCY"
  | SLevel => env_value "VIRE_LOG_LEVEL" | SFormat => env_value "VIRE_LOG_FORMAT"
  | SOutputs => None | SFilePath => None | SMaxSizeMB => None | SMaxBackups => None | SCatalogRetries => None
  end.
Definition flag_setting (f : Flags) {A} (k : Setting A) : option A :=
  match k in Setting A return option A with
  | SPort => if 0 <? finalPort f then Some (finalPort f) else None
  | SHost => if decide (serverHost f = "") then None else Some (serverHost f)
  | _ => None
  end.

(** What [toml.Unmarshal] documents: a setting the document names gets its value
    there, the others keep theirs. *)
Context (toml_setting : forall A, Setting A -> string -> option A).
Hypothesis toml_sets : forall A (k : Setting A) data c c',
  toml_Unmarshal data c = Some c' -> get_setting k c' = default (get_setting k c) (toml_setting A k data).
(** The value the last of the files to name the setting gives it. *)
Fixpoint file_setting {A} (k : Setting A) (paths : list string) (v : A) : A :=
  match paths with
  | [] => v
  | path :: paths =>
      file_setting k paths
        (if decide (path = "") then v else default v (ReadFile path ≫= toml_setting A k))
  end.
Lemma load_files_setting {A} (k : Setting A) paths : forall c c',
  load_files ReadFile toml_Unmarshal paths c = Ok c' -> get_setting k c' = file_setting k paths (get_setting k c).
Proof.
  induction paths as [|path paths IH]; intros c c'; cbn [load_files file_setting]; [by intros [= <-]|].
  case_decide; [apply IH|]. destruct (ReadFile path) as [data|]; [|done]. cbn [mbind option_bind].
  destruct (toml_Unmarshal data c) as [c1|] eqn:E; [|done]. intros Hl. apply IH in Hl.
  by rewrite Hl, (toml_sets A k data c c1 E).
Qed.

(** Flag, then environment, then files, then default. *)
Definition setting_from (f : Flags) {A} (k : Setting A) : A :=
  default (default (file_setting k (config_files os_Executable f) (get_setting k NewDefaultConfig)) (env_setting k))
    (flag_setting f k).
Lemma env_or_setting name old : env_or getenv name old = default old (env_value name).
Proof. unfold env_or, env_value. by destruct (decide (getenv name = "")). Qed.
Lemma applyEnvOverrides_setting {A} (k : Setting A) c :
  get_setting k (applyEnvOverrides getenv c) = default (get_setting k c) (env_setting k).
Proof.
  destruct k; cbn [get_setting env_setting applyEnvOverrides Environment AdminUsers cfg_Server API_URL Portal_URL
    Auth Service User Logging CatalogRetries Port SrvHost JWTSecret CallbackURL PortalURL Key PortalID Portfolios
    DisplayCurrency Config.Level Format Outputs FilePath MaxSizeMB MaxBackups]; rewrite ?env_or_setting; try done.
  all: unfold env_value; try (by destruct (decide _)).
  destruct (decide (getenv "VIRE_SERVER_PORT" = "")) as [->|Hne]; [done|]. by destruct (getenv "VIRE_SERVER_PORT").
Qed.

(** C22. A configuration the portal runs with is well formed: it has an API URL,
    a JWT secret unless in development mode, a port that is a TCP port and a
    normalised environment name.  And each of its twenty settings has the
    documented origin: the command line (the port, the shorthand -p before
    -port, and the host), else the environment variable, else the last of the
    configuration files that names it, else the default in the code; the
    environment name normalised after that.  Of TOML it is only assumed that
    decoding a document sets the settings it names and keeps the others. *)
Theorem ready_config_wf f cfg :
  configure getenv ReadFile toml_Unmarshal os_Executable f = Ready cfg ->
  config_wf cfg /\
  (forall A (k : Setting A),
     match k in Setting A return A -> A -> Prop with
     | SEnvironment => fun v x => v = normalizeEnvironment x
     | _ => fun v x => v = x
     end (get_setting k cfg) (setting_from f k)).
Proof.
  unfold configure. destruct (showVersion f); [done|]. unfold LoadFromFiles.
  destruct (load_files _ _ _ _) as [c0|] eqn:El; [|done]. cbn [mbind result_bind].
  set (c := ApplyFlagOverrides _ _ _). destruct (Validate c) eqn:Ev; [|done]. intros [= <-].
  destruct (proj1 (Validate_spec c)) as [Hv _]. destruct (Hv Ev) as (Ha & Hs & Hp). split.
  - split; [done|done|done|]. apply normalizeEnvironment_short.
  - intros A k. unfold setting_from.
    pose proof (applyEnvOverrides_setting k c0) as He. rewrite (load_files_setting k _ _ _ El) in He. rewrite <-He.
    clear He. unfold c. destruct k; cbn [flag_setting default from_option]; try done.
    + cbn [get_setting ApplyFlagOverrides cfg_Server Port]. by destruct (0 <? finalPort f).
    + cbn [get_setting ApplyFlagOverrides cfg_Server SrvHost]. by destruct (decide (serverHost f = "")).
Qed.

(** Removing the duplicates does not change which file is found; the file beside
    the executable comes first. *)
Lemma discovery_unchanged exe :
  os_Executable = Some exe ->
  (forall p q, abs_key p = abs_key q -> path_there p = path_there q) ->
  find path_there (portalConfigSearchPaths os_Executable) =
  find path_there ([filepath_Join (filepath_Dir exe) "vire-portal.toml";
                    filepath_Join (filepath_Dir exe) "config/vire-portal.toml";
                    "vire-portal.toml"; "config/vire-portal.toml"; "docker/vire-portal.toml"]).
Proof.
  intros -> Hth. unfold portalConfigSearchPaths. apply dedup_find; [done|]. intros p Hp. by apply elem_of_empty in Hp.
Qed.
End startup_theorems.

Section shutdown.
Context `{!Env} `{!NetURL} `{!Unicode} `{!TimeCodec} `{!Float64} `{!ToolServer} (dev : bool).

(** The steps of [main] that are still to come, at most. *)
Definition steps_left (ph : main_phase) : nat :=
  match ph with
  | Selecting => 6 | Stopping => 5 | Draining => 4 | ClosingApp => 3 | ClosingLog => 2 | SendingLog _ => 1
  | Finished | Failed => 0
  end.
Definition closed_log (l : option (LogSys * list logIngestEntry)) : Prop :=
  match l with
  | None => True
  | Some (y, _) => l_closed (ls_store y) = true /\ l_buf (ls_store y) = []
  end.
(** What holds at each point of the shutdown. *)
Definition is_failed (ph : main_phase) : bool := match ph with Failed => true | _ => false end.
Record phase_inv (p : process) : Prop := {
  pi_server : (steps_left (pr_phase p) <= 4)%nat -> pr_listening p = false;
  pi_drained : (steps_left (pr_phase p) <= 3)%nat -> is_failed (pr_phase p) = false -> pr_active p = 0%nat \/ pr_expired p = true;
  pi_app : (steps_left (pr_phase p) <= 2)%nat -> is_failed (pr_phase p) = false -> m_stopped (pr_mcp p) = true;
  pi_log : (steps_left (pr_phase p) <= 1)%nat -> is_failed (pr_phase p) = false -> closed_log (pr_log p);
  pi_sending : forall rest, pr_phase p = SendingLog rest -> is_Some (pr_log p);
}.

(** A closed handler stays closed, and a closed store stays empty. *)
Lemma RefreshCatalog_stopped h w : m_stopped (RefreshCatalog (h, w)).2.1 = m_stopped h.
Proof.
  unfold RefreshCatalog. mrun. rewrite M_bind_unfold. unfold io, zoom. simpl.
  by destruct (FetchCatalog (m_proxy h) w) as [[catalog|e] w'].
Qed.
Lemma watch_tick_stopped last h w : m_stopped (watch_tick last (h, w)).2.1 = m_stopped h.
Proof.
  pose proof (watch_tick_spec last h w) as Hw. destruct (fetchServerBuild (h, w)) as [build [h1 w1]].
  destruct Hw as [_ ->]. destruct (decide _); [done|]. apply RefreshCatalog_stopped.
Qed.
Lemma lstep_closed y w acc y' w' acc' :
  lstep (mkL y w acc) (mkL y' w' acc') -> closed_log (Some (y, acc)) -> closed_log (Some (y', acc')).
Proof.
  intros Hs [Hc Hb]. inversion Hs; subst; simpl in *.
  - unfold Store. by rewrite Hc.
  - unfold timerFlush. by rewrite Hc.
  - done.
  - unfold closing, Close_locked. by rewrite Hb.
Qed.

Lemma env_step_inv p q : env_step dev p q -> ~ exited p -> phase_inv p -> phase_inv q.
Proof.
  intros Hs Hex [I1 I2 I3 I4 I5]. destruct Hs; split; simpl in *; try done; try (by intros; discriminate).
  all: try (intros; specialize (I1 ltac:(lia)); done).
  all: try (intros Hl Hf; destruct (I2 Hl Hf); [lia|by right]).
  all: try (intros Hl Hf; rewrite watch_tick_stopped; by apply I3).
  intros Hl Hf. by eapply lstep_closed; [eassumption|apply I4].
Qed.
Lemma main_step_inv p q : main_step p q -> phase_inv p -> phase_inv q.
Proof.
  intros Hs [I1 I2 I3 I4 I5].
  destruct Hs; split; simpl in *; try done; try lia; try (intros; (apply I1 || apply I2 || apply I3 || apply I4); (lia || done));
    auto; by eexists.
Qed.

(** A run with [n] statements of [main] in it. *)
Inductive run : nat -> process -> process -> Prop :=
| run_refl p : run 0 p p
| run_env n p q r : run n p q -> ~ exited q -> env_step dev q r -> run n p r
| run_main n p q r : run n p q -> main_step q r -> run (S n) p r.

Lemma run_inv n p q : run n p q -> phase_inv p ->
  phase_inv q /\ (n + steps_left (pr_phase q) <= steps_left (pr_phase p))%nat.
Proof.
  induction 1 as [p|n p q r _ IH Hex Hs|n p q r _ IH Hs]; intros Hp; [by split|..];
    destruct (IH Hp) as [Hq Hn]; (split; [first [by eapply env_step_inv|by eapply main_step_inv]|]);
    destruct Hs; simpl in *; lia.
Qed.
Lemma launched_inv log mcp last w : phase_inv (launched log mcp last w).
Proof. split; simpl; try done; lia. Qed.

(** C19. Shutdown: in every run, whatever the requests being served, the version
    watcher, the log and the signals do, [main] executes at most six statements
    after the server has started.  As long as the process has not exited and a
    signal or a shutdown request has arrived, or the shutdown is under way, its
    next statement can be executed, with one exception: while requests are being
    served [srv.Shutdown] waits for them, and then the deadline of ten seconds
    unblocks it.  When [main] goes on from there no new request is accepted, and
    either no request is being served any more or the deadline has passed; when
    it returns, [application.Close] has told the version watcher to stop, and the
    log store is closed with an empty buffer.  (A listener that fails ends the
    process by [os.Exit(1)] instead.) *)
Theorem shutdown_completes log mcp last w n p :
  run n (launched log mcp last w) p ->
  (n <= 6)%nat /\
  (~ exited p -> steps_left (pr_phase p) ≠ 6%nat \/ pr_signal p = true \/ pr_requests p ≠ 0%nat ->
   (exists q, main_step p q) \/
   pr_phase p = Draining /\ pr_active p ≠ 0%nat /\ pr_expired p = false /\
   exists q, env_step dev p q /\ pr_expired q = true /\ exists q', main_step q q') /\
  (pr_phase p ≠ Failed ->
   ((steps_left (pr_phase p) <= 3)%nat -> pr_listening p = false /\ (pr_active p = 0%nat \/ pr_expired p = true)) /\
   (pr_phase p = Finished -> m_stopped (pr_mcp p) = true /\ closed_log (pr_log p))).
Proof.
  intros Hr. destruct (run_inv _ _ _ Hr (launched_inv log mcp last w)) as [[I1 I2 I3 I4 I5] Hn]. simpl in Hn.
  split; [lia|]. split.
  - intros Hex Hask. destruct p as [ph sg m up k ex mh wt w' l]. simpl in *. destruct ph as [| | | | |rest| |]; simpl in *.
    + left. destruct sg; [eexists; apply M_signal|]. destruct m; [naive_solver|]. eexists. apply M_request.
    + left. eexists. apply M_shutdown.
    + destruct k; [left; eexists; apply M_drained|]. destruct ex; [left; eexists; apply M_deadline|].
      right. split_and!; try done. eexists. split; [apply E_deadline|]. split; [done|]. eexists. apply M_deadline.
    + left. eexists. apply M_close_app.
    + left. destruct l as [[y acc]|]; eexists; [apply M_close_log|apply M_no_log].
    + left. destruct (I5 rest eq_refl) as [[y acc] ->]. eexists. apply M_send_log.
    + exfalso. apply Hex. by left.
    + exfalso. apply Hex. by right.
  - intros Hf. assert (is_failed (pr_phase p) = false) as Hf' by (by destruct (pr_phase p)). split.
    + intros Hl. split; [apply I1; lia|by apply I2].
    + intros Hfin. split; [apply I3|apply I4]; rewrite ?Hfin; simpl; (lia || done).
Qed.

(** *** Batches in flight
    [Close] sends what is in the buffer; a batch that a full buffer handed to a
    goroutine is not waited for, and main returns. *)
Definition entry0 : LogEvent := mkLogEvent 0 InfoLevel "hello" "" "" "" "" ∅.
Definition stored (base sid : string) (k : nat) : LogSys * list logIngestEntry :=
  Nat.iter k (fun x => ((Store entry0 x.1).2, if is_ok (Store entry0 x.1).1 then x.2 ++ [ingest_entry entry0] else x.2))
    (NewHTTPLogStore base sid, []).
Lemma Store_closed e y : l_closed (ls_store (Store e y).2) = l_closed (ls_store y).
Proof.
  unfold Store, flushLocked. destruct (l_closed (ls_store y)) eqn:E; [done|].
  destruct (_ <=? _)%nat; simpl; [|done]. by destruct (l_buf (ls_store y) ++ _).
Qed.
Lemma run_stored base sid mcp last w k :
  run 0 (launched (Some (NewHTTPLogStore base sid)) mcp last w)
    (mkProcess Selecting false 0 true 0 false mcp (Some last) w (Some ((stored base sid k).1, (stored base sid k).2))).
Proof.
  induction k as [|k IH]; [constructor|]. eapply run_env; [exact IH|by intros []|].
  change (stored base sid (S k)) with ((Store entry0 (stored base sid k).1).2,
    if is_ok (Store entry0 (stored base sid k).1).1 then (stored base sid k).2 ++ [ingest_entry entry0] else (stored base sid k).2).
  apply E_log; [apply l_store|apply Store_closed].
Qed.
Lemma exit_drops_batch_in_flight base sid mcp last w :
  exists p y acc, run 6 (launched (Some (NewHTTPLogStore base sid)) mcp last w) p /\ pr_phase p = Finished /\
    pr_log p = Some (y, acc) /\ length acc = 50%nat /\ ls_spawned y = [acc] /\ pr_world p = w.
Proof.
  eexists _, _, _. split.
  { eapply run_main; [eapply run_main; [eapply run_main; [eapply run_main; [eapply run_main; [eapply run_main;
      [eapply run_env|]|]|]|]|]|].
    - apply (run_stored base sid mcp last w 50).
    - by intros [].
    - apply E_signal.
    - apply M_signal.
    - apply M_shutdown.
    - apply M_drained.
    - apply M_close_app.
    - apply M_close_log.
    - apply M_send_log. }
  split; [done|]. split; [done|]. by vm_compute.
Qed.
End shutdown.

(** ** Witnesses *)
Section witnesses.
#[local] Existing Instances sample_unicode sample_neturl sample_time.
#[local] Instance no_files : FileSys := {| os_Stat := fun _ => None; os_Getwd := None |}.
Definition dev_env (name : string) : string :=
  if decide (name = "VIRE_ENV") then "Development"
  else if decide (name = "VIRE_SERVER_PORT") then "70000" else "".
(** A reader of documents that set the host. *)
Definition host_toml (data : string) (c : Config) : option Config :=
  Some (ApplyFlagOverrides c 0 (TrimPrefix data "host=")).
Definition host_setting (A : Type) (k : Setting A) (data : string) : option A :=
  match k in Setting A return option A with
  | SHost => if decide (TrimPrefix data "host=" = "") then None else Some (TrimPrefix data "host=")
  | _ => None
  end.
Lemma host_toml_sets A (k : Setting A) data c c' :
  host_toml data c = Some c' -> get_setting k c' = default (get_setting k c) (host_setting A k data).
Proof. intros [= <-]. destruct k; simpl; try done. by destruct (decide (TrimPrefix data "host=" = "")). Qed.
(** The flag repairs the port from the environment, which is out of range; the
    host is that of the second file. *)
Lemma ready_config_wf_witness :
  exists cfg, configure dev_env (fun p => Some ("host=" +:+ p)) host_toml None (mkFlags ["a"; "b"] 9000 0 "" false) = Ready cfg /\
    config_wf cfg /\ Port (cfg_Server cfg) = 9000 /\ SrvHost (cfg_Server cfg) = "b".
Proof.
  destruct (configure dev_env (fun p => Some ("host=" +:+ p)) host_toml None (mkFlags ["a"; "b"] 9000 0 "" false))
    as [| | |cfg] eqn:E; [vm_compute in E; discriminate..|].
  destruct (ready_config_wf dev_env (fun p => Some ("host=" +:+ p)) host_toml None host_setting host_toml_sets
    (mkFlags ["a"; "b"] 9000 0 "" false) cfg E) as (Hw & Hk).
  exists cfg. split; [reflexivity|]. split; [exact Hw|].
  pose proof (Hk Z SPort) as Hp. pose proof (Hk string SHost) as Hh. simpl in Hp, Hh. rewrite Hp, Hh.
  split; reflexivity.
Defined.

(** A signal while one request is being served; it is answered, and the portal,
    which has no remote log, stops. *)
#[local] Existing Instances sample_float sample_tools.
Definition no_handler : MCPHandler :=
  mkMCPHandler [] "secret" "http://l" NewMCPServer (mkMCPProxy "http://vire:8080" ∅) false.
Definition stopped_process : process (H := sample_env) :=
  mkProcess Finished false 0 false 0 false (App_Close (no_handler, sample_world)).2.1 (Some "") sample_world None.
Lemma signal_run : run (H := sample_env) false 5 (launched None no_handler "" sample_world) stopped_process.
Proof.
  eapply run_main; [eapply run_main; [eapply run_main; [eapply run_env; [eapply run_main; [eapply run_main;
    [eapply run_env; [eapply run_env; [apply run_refl| |]| |]|]|]| |]|]|]|].
  - by intros [].
  - apply (E_accept (H := sample_env)).
  - by intros [].
  - apply (E_signal (H := sample_env)).
  - apply (M_signal (H := sample_env)).
  - apply (M_shutdown (H := sample_env)).
  - by intros [].
  - apply (E_respond (H := sample_env)).
  - apply (M_drained (H := sample_env)).
  - apply (M_close_app (H := sample_env)).
  - apply (M_no_log (H := sample_env)).
Qed.
Lemma shutdown_completes_witness :
  m_stopped (pr_mcp stopped_process) = true /\ (5 <= 6)%nat.
Proof.
  destruct (shutdown_completes (H := sample_env) false None no_handler "" sample_world 5 _ signal_run) as (Hn & _ & Hf).
  split; [apply (Hf ltac:(discriminate)); reflexivity|exact Hn].
Defined.
End witnesses.
