(* ===== verification/VireData.v ===== *)
(** * VireData: the data types of internal/vire/models

    One record per struct, with the fields of the source in their order; named
    string types with their constants.  A pointer or a nil-able value is an
    [option], an integer or a duration a Z, an instant a [Time] and a value of
    type interface{} the JSON value it is decoded from. *)
From S2P Require Import Prelude GoStrings GoFloat GoTime GoJson GoURL GoHTTP.

(** ** Strategy (strategy.go) *)
Definition RuleAction := string.
Definition RuleOperator := string.
Definition AccountType := string.
Record RuleCondition := mkRuleCondition {
  rc_Field : string; rc_Operator : RuleOperator; rc_Value : json }.
Record Rule := mkRule {
  ru_Name : string; ru_Conditions : list RuleCondition; ru_Action : RuleAction; ru_Reason : string;
  ru_Priority : Z; ru_Enabled : bool }.
Record CompanyFilter := mkCompanyFilter {
  cf_MinMarketCap : float64; cf_MaxMarketCap : float64; cf_MaxPE : float64; cf_MinQtrReturnPct : float64;
  cf_MinDividendYield : float64; cf_MaxBeta : float64; cf_AllowedSectors : list string;
  cf_ExcludedSectors : list string; cf_AllowedCountries : list string }.
Record RiskAppetite := mkRiskAppetite {
  ra_Level : string; ra_MaxDrawdownPct : float64; ra_Description : string }.
Record TargetReturns := mkTargetReturns {
  tr_AnnualPct : float64; tr_Timeframe : string }.
Record IncomeRequirements := mkIncomeRequirements {
  ir_DividendYieldPct : float64; ir_Description : string }.
Record SectorPreferences := mkSectorPreferences {
  sp_Preferred : list string; sp_Excluded : list string }.
Record PositionSizing := mkPositionSizing {
  po_MaxPositionPct : float64; po_MaxSectorPct : float64 }.
Record ReferenceStrategy := mkReferenceStrategy {
  rs_Name : string; rs_Description : string }.
Record PortfolioStrategy := mkPortfolioStrategy {
  st_PortfolioName : string; st_Version : Z; st_AccountType : AccountType;
  st_InvestmentUniverse : list string; st_RiskAppetite : RiskAppetite; st_TargetReturns : TargetReturns;
  st_IncomeRequirements : IncomeRequirements; st_SectorPreferences : SectorPreferences;
  st_PositionSizing : PositionSizing; st_ReferenceStrategies : list ReferenceStrategy; st_Rules : list Rule;
  st_CompanyFilter : CompanyFilter; st_RebalanceFrequency : string; st_Notes : string;
  st_Disclaimer : string; st_CreatedAt : Time; st_UpdatedAt : Time; st_LastReviewedAt : Time }.

(** ** Plan (plan.go) *)
Definition PlanItemType := string.
Definition PlanItemTypeTime : PlanItemType := "time".
Definition PlanItemTypeEvent : PlanItemType := "event".
Definition PlanItemStatus := string.
Definition PlanItemStatusPending : PlanItemStatus := "pending".
Definition PlanItemStatusTriggered : PlanItemStatus := "triggered".
Definition PlanItemStatusCompleted : PlanItemStatus := "completed".
Definition PlanItemStatusExpired : PlanItemStatus := "expired".
Definition PlanItemStatusCancelled : PlanItemStatus := "cancelled".
Record PlanItem := mkPlanItem {
  it_ID : string; it_Type : PlanItemType; it_Description : string; it_Status : PlanItemStatus;
  it_Deadline : option Time; it_Conditions : list RuleCondition; it_Ticker : string; it_Action : RuleAction;
  it_TargetValue : float64; it_CreatedAt : Time; it_UpdatedAt : Time; it_CompletedAt : option Time;
  it_Notes : string }.
Record PortfolioPlan := mkPortfolioPlan {
  pn_PortfolioName : string; pn_Version : Z; pn_Items : list PlanItem; pn_Notes : string;
  pn_CreatedAt : Time; pn_UpdatedAt : Time }.

(** ** Watchlist (watchlist.go) *)
Definition WatchlistVerdict := string.
Definition WatchlistVerdictPass : WatchlistVerdict := "PASS".
Definition WatchlistVerdictWatch : WatchlistVerdict := "WATCH".
Definition WatchlistVerdictFail : WatchlistVerdict := "FAIL".
Definition ValidWatchlistVerdict (v : WatchlistVerdict) : bool :=
  bool_decide (v = WatchlistVerdictPass) || bool_decide (v = WatchlistVerdictWatch) || bool_decide (v = WatchlistVerdictFail).
Record WatchlistItem := mkWatchlistItem {
  wi_Ticker : string; wi_Name : string; wi_Verdict : WatchlistVerdict; wi_Reason : string;
  wi_KeyMetrics : string; wi_Notes : string; wi_ReviewedAt : Time; wi_CreatedAt : Time; wi_UpdatedAt : Time }.
Record PortfolioWatchlist := mkPortfolioWatchlist {
  wl_PortfolioName : string; wl_Version : Z; wl_Items : list WatchlistItem; wl_Notes : string;
  wl_CreatedAt : Time; wl_UpdatedAt : Time }.

(** ** Holdings and their review (portfolio.go, navexa.go, signals.go, market.go) *)
Record NavexaTrade := mkNavexaTrade {
  nt_ID : string; nt_HoldingID : string; nt_PortfolioID : string; nt_Symbol : string; nt_Type : string;
  nt_Date : string; nt_Units : float64; nt_Price : float64; nt_Fees : float64; nt_Value : float64;
  nt_Currency : string }.
Record Holding := mkHolding {
  ho_Ticker : string; ho_Exchange : string; ho_Name : string; ho_Units : float64;
  ho_HoldingCostAvg : float64; ho_CurrentPrice : float64; ho_HoldingValueMarket : float64;
  ho_HoldingWeightPct : float64; ho_CostBasis : float64; ho_GrossProceeds : float64;
  ho_IncomeDividendsNavexa : float64; ho_CapitalReturnXirrPct : float64; ho_TimeWeightedReturnPct : float64;
  ho_HoldingReturnNet : float64; ho_HoldingReturnNetPct : float64; ho_Currency : string; ho_Country : string;
  ho_Trades : list (option NavexaTrade); ho_LastUpdated : Time }.
Record NavexaHolding := mkNavexaHolding {
  nh_ID : string; nh_PortfolioID : string; nh_Ticker : string; nh_Exchange : string; nh_Name : string;
  nh_Units : float64; nh_HoldingCostAvg : float64; nh_TotalCost : float64; nh_CurrentPrice : float64;
  nh_HoldingValueMarket : float64; nh_GainLoss : float64; nh_GainLossPct : float64;
  nh_DividendYield : float64; nh_IncomeDividendsNavexa : float64; nh_CapitalGainPct : float64;
  nh_TotalReturnValue : float64; nh_TotalReturnPct : float64; nh_TotalReturnPctTWRR : float64;
  nh_Currency : string; nh_LastUpdated : Time }.
Record PriceSignals := mkPriceSignals {
  ps_Current : float64; ps_Change : float64; ps_ChangePct : float64; ps_SMA20 : float64; ps_SMA50 : float64;
  ps_SMA200 : float64; ps_DistanceToSMA20 : float64; ps_DistanceToSMA50 : float64;
  ps_DistanceToSMA200 : float64 }.
Record TechnicalSignals := mkTechnicalSignals {
  te_RSI : float64; te_RSISignal : string; te_MACD : float64; te_MACDSignal : float64;
  te_MACDHistogram : float64; te_MACDCrossover : string; te_VolumeRatio : float64; te_VolumeSignal : string;
  te_ATR : float64; te_ATRPct : float64; te_SMA20CrossSMA50 : string; te_SMA50CrossSMA200 : string;
  te_PriceCrossSMA200 : string; te_NearSupport : bool; te_NearResistance : bool; te_SupportLevel : float64;
  te_ResistanceLevel : float64 }.
Record PBASSignal := mkPBASSignal {
  pb_Score : float64; pb_BusinessMomentum : float64; pb_PriceMomentum : float64; pb_Divergence : float64;
  pb_Interpretation : string; pb_Description : string; pb_Comment : string }.
Record VLISignal := mkVLISignal {
  vl_Score : float64; vl_VolumeStrength : float64; vl_LiquidityScore : float64; vl_Interpretation : string;
  vl_Description : string }.
Definition RegimeType := string.
Definition TrendType := string.
Record RegimeSignal := mkRegimeSignal {
  re_Current : RegimeType; re_Previous : RegimeType; re_DaysInRegime : Z; re_Confidence : float64;
  re_Description : string }.
Record RSSignal := mkRSSignal {
  rl_Score : float64; rl_VsMarket : float64; rl_VsSector : float64; rl_Rank : Z; rl_TotalInSector : Z;
  rl_Interpretation : string }.
Record TickerSignals := mkTickerSignals {
  ts_Ticker : string; ts_ComputeTimestamp : Time; ts_Price : PriceSignals; ts_Technical : TechnicalSignals;
  ts_PBAS : PBASSignal; ts_VLI : VLISignal; ts_Regime : RegimeSignal; ts_RS : RSSignal; ts_Trend : TrendType;
  ts_TrendDescription : string; ts_RiskFlags : list string; ts_RiskDescription : string }.
Record HistoricalPeriod := mkHistoricalPeriod {
  hp_Date : string; hp_Revenue : float64; hp_NetIncome : float64; hp_GrossProfit : float64;
  hp_EBITDA : float64 }.
Record ETFHolding := mkETFHolding {
  eh_Name : string; eh_Ticker : string; eh_Weight : float64 }.
Record SectorWeight := mkSectorWeight {
  sw_Sector : string; sw_Weight : float64 }.
Record CountryWeight := mkCountryWeight {
  cw_Country : string; cw_Weight : float64 }.
Record AnalystRatings := mkAnalystRatings {
  ar_Rating : string; ar_TargetPrice : float64; ar_StrongBuy : Z; ar_Buy : Z; ar_Hold : Z; ar_Sell : Z;
  ar_StrongSell : Z }.
Record Fundamentals := mkFundamentals {
  fu_Ticker : string; fu_MarketCap : float64; fu_PE : float64; fu_PB : float64; fu_EPS : float64;
  fu_DividendYield : float64; fu_Beta : float64; fu_SharesOutstanding : Z; fu_SharesFloat : Z;
  fu_Sector : string; fu_Industry : string; fu_CountryISO : string; fu_ISIN : string;
  fu_Description : string; fu_LastUpdated : Time; fu_IsETF : bool; fu_ExpenseRatio : float64;
  fu_ManagementStyle : string; fu_AnnualisedReturn : float64; fu_TopHoldings : list ETFHolding;
  fu_SectorWeights : list SectorWeight; fu_CountryWeights : list CountryWeight; fu_WebURL : string;
  fu_EnrichedAt : Time; fu_AnalystRatings : option AnalystRatings; fu_ForwardPE : float64;
  fu_PEGRatio : float64; fu_ProfitMargin : float64; fu_OperatingMarginTTM : float64;
  fu_ReturnOnEquityTTM : float64; fu_ReturnOnAssetsTTM : float64; fu_RevenueTTM : float64;
  fu_RevenuePerShareTTM : float64; fu_GrossProfitTTM : float64; fu_EBITDA : float64;
  fu_EPSEstimateCurrent : float64; fu_EPSEstimateNext : float64; fu_RevGrowthYOY : float64;
  fu_EarningsGrowthYOY : float64; fu_MostRecentQuarter : string;
  fu_HistoricalFinancials : list HistoricalPeriod }.
Record AnalyzedArticle := mkAnalyzedArticle {
  aa_Title : string; aa_URL : string; aa_Source : string; aa_Credibility : string; aa_Relevance : string;
  aa_Summary : string }.
Record NewsIntelligence := mkNewsIntelligence {
  ni_Summary : string; ni_OverallSentiment : string; ni_KeyThemes : list string; ni_ImpactWeek : string;
  ni_ImpactMonth : string; ni_ImpactYear : string; ni_Articles : list AnalyzedArticle; ni_GeneratedAt : Time }.
Record FilingSummary := mkFilingSummary {
  fs_Date : Time; fs_Headline : string; fs_Type : string; fs_PriceSensitive : bool; fs_Revenue : string;
  fs_RevenueGrowth : string; fs_Profit : string; fs_ProfitGrowth : string; fs_Margin : string;
  fs_EPS : string; fs_Dividend : string; fs_ContractValue : string; fs_Customer : string;
  fs_AcqTarget : string; fs_AcqPrice : string; fs_GuidanceRevenue : string; fs_GuidanceProfit : string;
  fs_KeyFacts : list string; fs_Period : string; fs_DocumentKey : string; fs_AnalyzedAt : Time }.
Record PeriodSummary := mkPeriodSummary {
  pd_Period : string; pd_Revenue : string; pd_RevenueGrowth : string; pd_Profit : string;
  pd_ProfitGrowth : string; pd_Margin : string; pd_EPS : string; pd_Dividend : string;
  pd_GuidanceGiven : string; pd_GuidanceOutcome : string }.
Record TimelineEvent := mkTimelineEvent {
  ev_Date : string; ev_Event : string; ev_Detail : string; ev_Impact : string }.
Record CompanyTimeline := mkCompanyTimeline {
  tl_BusinessModel : string; tl_Sector : string; tl_Industry : string; tl_Periods : list PeriodSummary;
  tl_KeyEvents : list TimelineEvent; tl_NextReportingDate : string; tl_WorkOnHand : string;
  tl_RepeatBusinessRate : string; tl_GeneratedAt : Time }.
Definition ComplianceStatus := string.
Record ComplianceResult := mkComplianceResult {
  co_Status : ComplianceStatus; co_Reasons : list string; co_RuleHits : list string }.
Record HoldingReview := mkHoldingReview {
  rv_Holding : Holding; rv_Signals : option TickerSignals; rv_Fundamentals : option Fundamentals;
  rv_OvernightMove : float64; rv_OvernightPct : float64; rv_NewsImpact : string;
  rv_NewsIntelligence : option NewsIntelligence; rv_FilingSummaries : list FilingSummary;
  rv_Timeline : option CompanyTimeline; rv_ActionRequired : string; rv_ActionReason : string;
  rv_Compliance : option ComplianceResult }.

(** ** Constants of the named string types *)
Definition RuleActionSell : RuleAction := "SELL".
Definition RuleActionBuy : RuleAction := "BUY".
Definition RuleActionWatch : RuleAction := "WATCH".
Definition RuleActionHold : RuleAction := "HOLD".
Definition RuleActionAlert : RuleAction := "ALERT".
Definition RuleOpGT : RuleOperator := ">".
Definition RuleOpGTE : RuleOperator := ">=".
Definition RuleOpLT : RuleOperator := "<".
Definition RuleOpLTE : RuleOperator := "<=".
Definition RuleOpEQ : RuleOperator := "==".
Definition RuleOpNE : RuleOperator := "!=".
Definition RuleOpIn : RuleOperator := "in".
Definition RuleOpNotIn : RuleOperator := "not_in".
Definition AccountTypeSMSF : AccountType := "smsf".
Definition AccountTypeTrading : AccountType := "trading".
Definition DefaultDisclaimer : string := "This portfolio strategy is a personal planning document and does not constitute financial advice. Always consult a licensed financial adviser before making investment decisions.".
Definition ComplianceStatusCompliant : ComplianceStatus := "compliant".
Definition ComplianceStatusNonCompliant : ComplianceStatus := "non_compliant".
Definition ComplianceStatusUnknown : ComplianceStatus := "unknown".
Definition RegimeBreakout : RegimeType := "breakout".
Definition RegimeTrendUp : RegimeType := "trend_up".
Definition RegimeTrendDown : RegimeType := "trend_down".
Definition RegimeAccumulation : RegimeType := "accumulation".
Definition RegimeDistribution : RegimeType := "distribution".
Definition RegimeRange : RegimeType := "range".
Definition RegimeDecay : RegimeType := "decay".
Definition RegimeUndefined : RegimeType := "undefined".
Definition TrendBullish : TrendType := "bullish".
Definition TrendBearish : TrendType := "bearish".
Definition TrendNeutral : TrendType := "neutral".
Definition AlertType := string.
Definition AlertTypeSignal : AlertType := "signal".
Definition AlertTypePrice : AlertType := "price".
Definition AlertTypeNews : AlertType := "news".
Definition AlertTypeVolume : AlertType := "volume".
Definition AlertTypeRisk : AlertType := "risk".
Definition AlertTypeStrategy : AlertType := "strategy".

(** ** Types that are only exchanged: reports, snapshots, quotes, screening *)
Record SectorAllocation := mkSectorAllocation {
  sa_Sector : string; sa_Weight : float64; sa_Holdings : list string }.
Record PortfolioBalance := mkPortfolioBalance {
  bl_SectorAllocations : list SectorAllocation; bl_DefensiveWeight : float64; bl_GrowthWeight : float64;
  bl_IncomeWeight : float64; bl_ConcentrationRisk : string; bl_DiversificationNote : string }.
Record Alert := mkAlert {
  al_Type : AlertType; al_Severity : string; al_Ticker : string; al_Message : string; al_Signal : string }.
Record PortfolioReview := mkPortfolioReview {
  pr_PortfolioName : string; pr_ReviewDate : Time; pr_PortfolioValue : float64;
  pr_EquityHoldingsCost : float64; pr_PortfolioDayChange : float64; pr_PortfolioDayChangePct : float64;
  pr_FXRate : float64; pr_HoldingReviews : list HoldingReview; pr_Alerts : list Alert; pr_Summary : string;
  pr_Recommendations : list string; pr_PortfolioBalance : option PortfolioBalance }.
Record Portfolio := mkPortfolio {
  pf_ID : string; pf_Name : string; pf_NavexaID : string; pf_Holdings : list Holding;
  pf_PortfolioValue : float64; pf_EquityHoldingsCost : float64; pf_EquityHoldingsReturn : float64;
  pf_EquityHoldingsReturnPct : float64; pf_CapitalGross : float64; pf_CapitalAvailable : float64;
  pf_PortfolioReturn : float64; pf_PortfolioReturnPct : float64; pf_Currency : string; pf_FXRate : float64;
  pf_LastSynced : Time; pf_CreatedAt : Time; pf_UpdatedAt : Time }.
Record SnapshotHolding := mkSnapshotHolding {
  sh_Ticker : string; sh_Name : string; sh_Units : float64; sh_HoldingCostAvg : float64;
  sh_CostBasis : float64; sh_ClosePrice : float64; sh_HoldingValueMarket : float64;
  sh_HoldingWeightPct : float64 }.
Record PortfolioSnapshot := mkPortfolioSnapshot {
  sn_PortfolioName : string; sn_AsOfDate : Time; sn_PriceDate : Time; sn_Holdings : list SnapshotHolding;
  sn_EquityHoldingsValue : float64; sn_EquityHoldingsCost : float64 }.
Record GrowthDataPoint := mkGrowthDataPoint {
  gd_Date : Time; gd_EquityHoldingsValue : float64; gd_EquityHoldingsCost : float64; gd_HoldingCount : Z }.
Record StrategyWarning := mkStrategyWarning {
  sx_Severity : string; sx_Field : string; sx_Message : string }.
Record NavexaPortfolio := mkNavexaPortfolio {
  np_ID : string; np_Name : string; np_Currency : string; np_TotalValue : float64; np_TotalCost : float64;
  np_TotalGain : float64; np_TotalGainPct : float64; np_DateCreated : string; np_CreatedAt : Time }.
Record NavexaPerformance := mkNavexaPerformance {
  nf_PortfolioID : string; nf_TotalValue : float64; nf_TotalCost : float64; nf_TotalReturn : float64;
  nf_TotalReturnPct : float64; nf_AnnualisedReturn : float64; nf_Volatility : float64;
  nf_SharpeRatio : float64; nf_MaxDrawdown : float64; nf_PeriodReturns : gmap string float64;
  nf_AsOfDate : Time }.
Record TickerReport := mkTickerReport {
  tk_Ticker : string; tk_Name : string; tk_IsETF : bool; tk_Markdown : string }.
Record PortfolioReport := mkPortfolioReport {
  rp_Portfolio : string; rp_GeneratedAt : Time; rp_SummaryMarkdown : string;
  rp_TickerReports : list TickerReport; rp_Tickers : list string }.
Record ParamDefinition := mkParamDefinition {
  pm_Name : string; pm_Type : string; pm_Description : string; pm_Required : bool; pm_In : string;
  pm_DefaultFrom : string }.
Record ToolDefinition := mkToolDefinition {
  td_Name : string; td_Description : string; td_Method : string; td_Path : string;
  td_Params : list ParamDefinition }.
Record RealTimeQuote := mkRealTimeQuote {
  rq_Code : string; rq_Open : float64; rq_High : float64; rq_Low : float64; rq_Close : float64;
  rq_PreviousClose : float64; rq_Change : float64; rq_ChangePct : float64; rq_Volume : Z;
  rq_Timestamp : Time; rq_Source : string }.
Record EODBar := mkEODBar {
  eb_Date : Time; eb_Open : float64; eb_High : float64; eb_Low : float64; eb_Close : float64;
  eb_AdjClose : float64; eb_Volume : Z }.
Record NewsItem := mkNewsItem {
  nw_Title : string; nw_URL : string; nw_Source : string; nw_PublishedAt : Time; nw_Sentiment : string;
  nw_Summary : string }.
Record CompanyFiling := mkCompanyFiling {
  cg_Date : Time; cg_Headline : string; cg_Type : string; cg_PDFURL : string; cg_DocumentKey : string;
  cg_PriceSensitive : bool; cg_Relevance : string; cg_PDFPath : string }.
Record MarketData := mkMarketData {
  md_Ticker : string; md_Exchange : string; md_Name : string; md_EOD : list EODBar;
  md_Fundamentals : option Fundamentals; md_News : list (option NewsItem); md_LastUpdated : Time;
  md_NewsIntelligence : option NewsIntelligence; md_Filings : list CompanyFiling;
  md_FilingSummaries : list FilingSummary; md_CompanyTimeline : option CompanyTimeline;
  md_EODUpdatedAt : Time; md_FundamentalsUpdatedAt : Time; md_NewsUpdatedAt : Time;
  md_NewsIntelUpdatedAt : Time; md_FilingsUpdatedAt : Time; md_FilingsIntelUpdatedAt : Time;
  md_FilingSummariesUpdatedAt : Time; md_CompanyTimelineUpdatedAt : Time; md_DataVersion : string }.
Record PriceData := mkPriceData {
  pc_Current : float64; pc_Open : float64; pc_High : float64; pc_Low : float64; pc_PreviousClose : float64;
  pc_Change : float64; pc_ChangePct : float64; pc_Volume : Z; pc_AvgVolume : Z; pc_High52Week : float64;
  pc_Low52Week : float64; pc_LastUpdated : Time }.
Record StockData := mkStockData {
  sd_Ticker : string; sd_Exchange : string; sd_Name : string; sd_Price : option PriceData;
  sd_Fundamentals : option Fundamentals; sd_Signals : option TickerSignals; sd_News : list (option NewsItem);
  sd_NewsIntelligence : option NewsIntelligence; sd_Filings : list CompanyFiling;
  sd_FilingSummaries : list FilingSummary; sd_Timeline : option CompanyTimeline }.
Record SnipeBuy := mkSnipeBuy {
  sb_Ticker : string; sb_Exchange : string; sb_Name : string; sb_Score : float64; sb_Price : float64;
  sb_TargetPrice : float64; sb_UpsidePct : float64; sb_Signals : option TickerSignals;
  sb_Reasons : list string; sb_RiskFactors : list string; sb_Sector : string; sb_Analysis : string }.
Record ScreenCandidate := mkScreenCandidate {
  sc_Ticker : string; sc_Exchange : string; sc_Name : string; sc_Score : float64; sc_Price : float64;
  sc_PE : float64; sc_EPS : float64; sc_DividendYield : float64; sc_MarketCap : float64; sc_Sector : string;
  sc_Industry : string; sc_QuarterlyReturns : list float64; sc_AvgQtrReturn : float64;
  sc_Signals : option TickerSignals; sc_NewsSentiment : string; sc_NewsCredibility : string;
  sc_Strengths : list string; sc_Concerns : list string; sc_Analysis : string }.
Record Symbol := mkSymbol {
  sy_Code : string; sy_Name : string; sy_Country : string; sy_Exchange : string; sy_Currency : string;
  sy_Type : string }.
Record EODResponse := mkEODResponse {
  er_Data : list EODBar }.
Record BulkEODBar := mkBulkEODBar {
  be_Code : string; be_Date : Time; be_Open : float64; be_High : float64; be_Low : float64;
  be_Close : float64; be_AdjClose : float64; be_Volume : Z }.
Record TechnicalResponse := mkTechnicalResponse {
  tp_Data : gmap string json }.
Record ScreenerFilter := mkScreenerFilter {
  sf_Field : string; sf_Operator : string; sf_Value : json }.
Record ScreenerOptions := mkScreenerOptions {
  so_Filters : list ScreenerFilter; so_Signals : list string; so_Sort : string; so_Limit : Z; so_Offset : Z }.
Record ScreenerResult := mkScreenerResult {
  sl_Code : string; sl_Name : string; sl_Exchange : string; sl_Sector : string; sl_Industry : string;
  sl_MarketCap : float64; sl_EarningsShare : float64; sl_DividendYield : float64; sl_AdjustedClose : float64;
  sl_CurrencySymbol : string; sl_Refund1dPct : float64; sl_Refund5dPct : float64; sl_AvgVol200d : float64 }.
Record FunnelStage := mkFunnelStage {
  fg_Name : string; fg_InputCount : Z; fg_OutputCount : Z; fg_Duration : Z; fg_Filters : string }.
Record FunnelResult := mkFunnelResult {
  fr_Candidates : list (option ScreenCandidate); fr_Stages : list FunnelStage; fr_Exchange : string;
  fr_Sector : string; fr_Duration : Z }.
Record SearchRecord := mkSearchRecord {
  sq_ID : string; sq_Type : string; sq_Exchange : string; sq_Filters : string; sq_ResultCount : Z;
  sq_Results : string; sq_Stages : string; sq_StrategyName : string; sq_StrategyVer : Z; sq_CreatedAt : Time }.
