(* ===== verification/VireInterfaces.v ===== *)
(** * VireInterfaces: the contracts of internal/vire/interfaces

    A Go interface is the record of its methods: a method takes the request
    context and its arguments and acts on the world of whoever implements it.  A
    pointer is an [option], a slice of bytes a string and the variadic options
    of a query a list; what an implementation writes through a pointer it is
    given is not part of the record.  The repository implements none of them;
    the key-value storage is called by [VireCommon]. *)
From S2P Require Import Prelude GoStrings GoFloat GoTime GoJson GoURL GoHTTP VireData.

(** ** Options

    A price query (clients.go): an option changes the parameters in place; a
    call applies its options in order. *)
Record EODParams := mkEODParams {
  ep_From : Time; ep_To : Time; ep_Period : string; ep_Order : string; ep_Limit : Z }.
Definition EODOption := EODParams -> EODParams.
Definition WithDateRange (from to : Time) : EODOption :=
  fun p => mkEODParams from to (ep_Period p) (ep_Order p) (ep_Limit p).
Definition WithPeriod (period : string) : EODOption :=
  fun p => mkEODParams (ep_From p) (ep_To p) period (ep_Order p) (ep_Limit p).
Definition WithLimit (limit : Z) : EODOption :=
  fun p => mkEODParams (ep_From p) (ep_To p) (ep_Period p) (ep_Order p) limit.

Record SearchListOptions := mkSearchListOptions {
  slo_Type : string;
  slo_Exchange : string;
  slo_Limit : Z }.
Record GrowthOptions := mkGrowthOptions {
  gro_From : Time;
  gro_To : Time }.
Record ReviewOptions := mkReviewOptions {
  rvo_FocusSignals : list string;
  rvo_IncludeNews : bool }.
Record StockDataInclude := mkStockDataInclude {
  sdi_Price : bool;
  sdi_Fundamentals : bool;
  sdi_Signals : bool;
  sdi_News : bool }.
Record SnipeOptions := mkSnipeOptions {
  sno_Exchange : string;
  sno_Limit : Z;
  sno_Criteria : list string;
  sno_Sector : string;
  sno_IncludeNews : bool;
  sno_Strategy : option PortfolioStrategy }.
Record FunnelOptions := mkFunnelOptions {
  fno_Exchange : string;
  fno_Limit : Z;
  fno_Sector : string;
  fno_IncludeNews : bool;
  fno_Strategy : option PortfolioStrategy }.
Record ScreenOptions := mkScreenOptions {
  sco_Exchange : string;
  sco_Limit : Z;
  sco_MaxPE : float64;
  sco_MinQtrReturnPct : float64;
  sco_Sector : string;
  sco_IncludeNews : bool;
  sco_Strategy : option PortfolioStrategy }.
Record ReportOptions := mkReportOptions {
  rpo_ForceRefresh : bool;
  rpo_IncludeNews : bool;
  rpo_FocusSignals : list string }.

Section interfaces.
Context {Ctx W : Type}.

(** ** Clients of the data providers (clients.go) *)
Record EODHDClient := mkEODHDClient {
  eodhd_GetRealTimeQuote : Ctx -> string -> M W (result (option RealTimeQuote));
  eodhd_GetEOD : Ctx -> string -> list EODOption -> M W (result (option EODResponse));
  eodhd_GetBulkEOD : Ctx -> string -> list string -> M W (result (gmap string EODBar));
  eodhd_GetFundamentals : Ctx -> string -> M W (result (option Fundamentals));
  eodhd_GetTechnicals : Ctx -> string -> string -> M W (result (option TechnicalResponse));
  eodhd_GetNews : Ctx -> string -> Z -> M W (result (list (option NewsItem)));
  eodhd_GetExchangeSymbols : Ctx -> string -> M W (result (list (option Symbol)));
  eodhd_ScreenStocks : Ctx -> ScreenerOptions -> M W (result (list (option ScreenerResult))) }.
Record ASXClient := mkASXClient {
  asx_GetRealTimeQuote : Ctx -> string -> M W (result (option RealTimeQuote)) }.
Record NavexaClient := mkNavexaClient {
  navexa_GetPortfolios : Ctx -> M W (result (list (option NavexaPortfolio)));
  navexa_GetPortfolio : Ctx -> string -> M W (result (option NavexaPortfolio));
  navexa_GetHoldings : Ctx -> string -> M W (result (list (option NavexaHolding)));
  navexa_GetPerformance : Ctx -> string -> string -> string -> M W (result (option NavexaPerformance));
  navexa_GetEnrichedHoldings : Ctx -> string -> string -> string -> M W (result (list (option NavexaHolding)));
  navexa_GetHoldingTrades : Ctx -> string -> M W (result (list (option NavexaTrade))) }.
Record GeminiClient := mkGeminiClient {
  gemini_GenerateContent : Ctx -> string -> M W (result string);
  gemini_GenerateWithURLContext : Ctx -> string -> list string -> M W (result string);
  gemini_GenerateWithURLContextTool : Ctx -> string -> M W (result string);
  gemini_AnalyzeStock : Ctx -> string -> option StockData -> M W (result string) }.

(** ** Storage (storage.go) *)
Record PortfolioStorage := mkPortfolioStorage {
  pfs_GetPortfolio : Ctx -> string -> M W (result (option Portfolio));
  pfs_SavePortfolio : Ctx -> option Portfolio -> M W (result unit);
  pfs_ListPortfolios : Ctx -> M W (result (list string));
  pfs_DeletePortfolio : Ctx -> string -> M W (result unit) }.
Record MarketDataStorage := mkMarketDataStorage {
  mds_GetMarketData : Ctx -> string -> M W (result (option MarketData));
  mds_SaveMarketData : Ctx -> option MarketData -> M W (result unit);
  mds_GetMarketDataBatch : Ctx -> list string -> M W (result (list (option MarketData)));
  mds_GetStaleTickers : Ctx -> string -> Z -> M W (result (list string)) }.
Record SignalStorage := mkSignalStorage {
  sgs_GetSignals : Ctx -> string -> M W (result (option TickerSignals));
  sgs_SaveSignals : Ctx -> option TickerSignals -> M W (result unit);
  sgs_GetSignalsBatch : Ctx -> list string -> M W (result (list (option TickerSignals))) }.
Record ReportStorage := mkReportStorage {
  rps_GetReport : Ctx -> string -> M W (result (option PortfolioReport));
  rps_SaveReport : Ctx -> option PortfolioReport -> M W (result unit);
  rps_ListReports : Ctx -> M W (result (list string));
  rps_DeleteReport : Ctx -> string -> M W (result unit) }.
Record KeyValueStorage := mkKeyValueStorage {
  kv_Get : Ctx -> string -> M W (result string);
  kv_Set : Ctx -> string -> string -> M W (result unit);
  kv_Delete : Ctx -> string -> M W (result unit);
  kv_GetAll : Ctx -> M W (result (gmap string string)) }.
Record StrategyStorage := mkStrategyStorage {
  sts_GetStrategy : Ctx -> string -> M W (result (option PortfolioStrategy));
  sts_SaveStrategy : Ctx -> option PortfolioStrategy -> M W (result unit);
  sts_DeleteStrategy : Ctx -> string -> M W (result unit);
  sts_ListStrategies : Ctx -> M W (result (list string)) }.
Record PlanStorage := mkPlanStorage {
  pls_GetPlan : Ctx -> string -> M W (result (option PortfolioPlan));
  pls_SavePlan : Ctx -> option PortfolioPlan -> M W (result unit);
  pls_DeletePlan : Ctx -> string -> M W (result unit);
  pls_ListPlans : Ctx -> M W (result (list string)) }.
Record SearchHistoryStorage := mkSearchHistoryStorage {
  shs_SaveSearch : Ctx -> option SearchRecord -> M W (result unit);
  shs_GetSearch : Ctx -> string -> M W (result (option SearchRecord));
  shs_ListSearches : Ctx -> SearchListOptions -> M W (result (list (option SearchRecord)));
  shs_DeleteSearch : Ctx -> string -> M W (result unit) }.
Record WatchlistStorage := mkWatchlistStorage {
  wls_GetWatchlist : Ctx -> string -> M W (result (option PortfolioWatchlist));
  wls_SaveWatchlist : Ctx -> option PortfolioWatchlist -> M W (result unit);
  wls_DeleteWatchlist : Ctx -> string -> M W (result unit);
  wls_ListWatchlists : Ctx -> M W (result (list string)) }.
Record StorageManager := mkStorageManager {
  sm_PortfolioStorage : M W PortfolioStorage;
  sm_MarketDataStorage : M W MarketDataStorage;
  sm_SignalStorage : M W SignalStorage;
  sm_KeyValueStorage : M W KeyValueStorage;
  sm_ReportStorage : M W ReportStorage;
  sm_StrategyStorage : M W StrategyStorage;
  sm_PlanStorage : M W PlanStorage;
  sm_SearchHistoryStorage : M W SearchHistoryStorage;
  sm_WatchlistStorage : M W WatchlistStorage;
  sm_DataPath : M W string;
  sm_WriteRaw : string -> string -> string -> M W (result unit);
  sm_PurgeDerivedData : Ctx -> M W (result (gmap string Z));
  sm_PurgeReports : Ctx -> M W (result Z);
  sm_Close : M W (result unit) }.

(** ** Services (services.go) *)
Record QuoteService := mkQuoteService {
  qs_GetRealTimeQuote : Ctx -> string -> M W (result (option RealTimeQuote)) }.
Record PortfolioService := mkPortfolioService {
  pfv_SyncPortfolio : Ctx -> string -> bool -> M W (result (option Portfolio));
  pfv_GetPortfolio : Ctx -> string -> M W (result (option Portfolio));
  pfv_ListPortfolios : Ctx -> M W (result (list string));
  pfv_ReviewPortfolio : Ctx -> string -> ReviewOptions -> M W (result (option PortfolioReview));
  pfv_GetPortfolioSnapshot : Ctx -> string -> Time -> M W (result (option PortfolioSnapshot));
  pfv_GetPortfolioGrowth : Ctx -> string -> M W (result (list GrowthDataPoint));
  pfv_GetDailyGrowth : Ctx -> string -> GrowthOptions -> M W (result (list GrowthDataPoint)) }.
Record MarketService := mkMarketService {
  mkv_CollectMarketData : Ctx -> list string -> bool -> bool -> M W (result unit);
  mkv_GetStockData : Ctx -> string -> StockDataInclude -> M W (result (option StockData));
  mkv_FindSnipeBuys : Ctx -> SnipeOptions -> M W (result (list (option SnipeBuy)));
  mkv_ScreenStocks : Ctx -> ScreenOptions -> M W (result (list (option ScreenCandidate)));
  mkv_FunnelScreen : Ctx -> FunnelOptions -> M W (result (option FunnelResult));
  mkv_RefreshStaleData : Ctx -> string -> M W (result unit) }.
Record ReportService := mkReportService {
  rpv_GenerateReport : Ctx -> string -> ReportOptions -> M W (result (option PortfolioReport));
  rpv_GenerateTickerReport : Ctx -> string -> string -> M W (result (option PortfolioReport)) }.
Record StrategyService := mkStrategyService {
  stv_GetStrategy : Ctx -> string -> M W (result (option PortfolioStrategy));
  stv_SaveStrategy : Ctx -> option PortfolioStrategy -> M W (result (list StrategyWarning));
  stv_DeleteStrategy : Ctx -> string -> M W (result unit);
  stv_ValidateStrategy : Ctx -> option PortfolioStrategy -> M W (list StrategyWarning) }.
Record SignalService := mkSignalService {
  sgv_DetectSignals : Ctx -> list string -> list string -> bool -> M W (result (list (option TickerSignals)));
  sgv_ComputeSignals : Ctx -> string -> option MarketData -> M W (result (option TickerSignals)) }.
Record WatchlistService := mkWatchlistService {
  wlv_GetWatchlist : Ctx -> string -> M W (result (option PortfolioWatchlist));
  wlv_SaveWatchlist : Ctx -> option PortfolioWatchlist -> M W (result unit);
  wlv_DeleteWatchlist : Ctx -> string -> M W (result unit);
  wlv_AddOrUpdateItem : Ctx -> string -> option WatchlistItem -> M W (result (option PortfolioWatchlist));
  wlv_UpdateItem : Ctx -> string -> string -> option WatchlistItem -> M W (result (option PortfolioWatchlist));
  wlv_RemoveItem : Ctx -> string -> string -> M W (result (option PortfolioWatchlist)) }.
Record PlanService := mkPlanService {
  plv_GetPlan : Ctx -> string -> M W (result (option PortfolioPlan));
  plv_SavePlan : Ctx -> option PortfolioPlan -> M W (result unit);
  plv_DeletePlan : Ctx -> string -> M W (result unit);
  plv_AddPlanItem : Ctx -> string -> option PlanItem -> M W (result (option PortfolioPlan));
  plv_UpdatePlanItem : Ctx -> string -> string -> option PlanItem -> M W (result (option PortfolioPlan));
  plv_RemovePlanItem : Ctx -> string -> string -> M W (result (option PortfolioPlan));
  plv_CheckPlanEvents : Ctx -> string -> M W (result (list PlanItem));
  plv_CheckPlanDeadlines : Ctx -> string -> M W (result (list PlanItem));
  plv_ValidatePlanAgainstStrategy : Ctx -> option PortfolioPlan -> option PortfolioStrategy -> M W (list StrategyWarning) }.
End interfaces.
Arguments EODHDClient : clear implicits.
Arguments ASXClient : clear implicits.
Arguments NavexaClient : clear implicits.
Arguments GeminiClient : clear implicits.
Arguments StorageManager : clear implicits.
Arguments PortfolioStorage : clear implicits.
Arguments MarketDataStorage : clear implicits.
Arguments SignalStorage : clear implicits.
Arguments ReportStorage : clear implicits.
Arguments KeyValueStorage : clear implicits.
Arguments StrategyStorage : clear implicits.
Arguments PlanStorage : clear implicits.
Arguments SearchHistoryStorage : clear implicits.
Arguments WatchlistStorage : clear implicits.
Arguments QuoteService : clear implicits.
Arguments PortfolioService : clear implicits.
Arguments MarketService : clear implicits.
Arguments ReportService : clear implicits.
Arguments StrategyService : clear implicits.
Arguments SignalService : clear implicits.
Arguments WatchlistService : clear implicits.
Arguments PlanService : clear implicits.
