(* ===== verification/VireModels.v ===== *)
(** * VireModels: the documents of a portfolio (internal/vire/models)

    The strategy, plan and watchlist documents as Markdown, tickers of the data
    provider and the lookup in a watchlist, on the types of [VireData]. *)
From S2P Require Import Prelude GoStrings GoFloat GoTime GoJson GoURL GoHTTP MCP Samples VireData.

Section models.
Context `{!Unicode}.

Definition eodhExchange (exchange : string) : string :=
  let u := ToUpper exchange in
  if bool_decide (u ∈ ["ASX"; "AU"]) then "AU"
  else if bool_decide (u ∈ ["NYSE"; "NASDAQ"; "US"; "BATS"; "AMEX"; "ARCA"]) then "US"
  else if bool_decide (u ∈ ["LSE"; "LON"]) then "LSE"
  else if bool_decide (u = "") then "AU"
  else exchange.
Definition Holding_EODHDTicker (h : Holding) : string := ho_Ticker h +:+ "." +:+ eodhExchange (ho_Exchange h).
Definition NavexaHolding_EODHDTicker (h : NavexaHolding) : string := nh_Ticker h +:+ "." +:+ eodhExchange (nh_Exchange h).

(** The item, and its index; -1 when there is none. *)
Fixpoint find_ticker (ticker : string) (items : list WatchlistItem) (i : Z) : option WatchlistItem * Z :=
  match items with
  | [] => (None, -1)
  | item :: items => if EqualFold (wi_Ticker item) ticker then (Some item, i) else find_ticker ticker items (i + 1)
  end.
Definition FindByTicker (w : PortfolioWatchlist) (ticker : string) : option WatchlistItem * Z :=
  find_ticker ticker (wl_Items w) 0.
End models.

Definition AllSignalTypes : list string :=
  ["sma"; "rsi"; "volume"; "pbas"; "vli"; "regime"; "relative_strength"; "trend"; "support_resistance"; "macd"].

(** ** Rendering *)
Definition text (l : list string) : string := foldr String.append "" l.
Definition ln (s : string) : string := s +:+ newline.
Definition when (b : bool) (s : string) : string := if b then s else "".
Definition given (s : string) : bool := negb (bool_decide (s = "")).
Definition positive_f (x : float64) : bool := f64_gt x f64_0.
Definition stamp (what : string) (t : Time) : string := when (negb (IsZero t)) (" | " +:+ what +:+ " " +:+ format_date t).
(** The heading of a section. *)
Definition heading (s : string) : string := ln (ln ("## " +:+ s)).
Definition notes_section (notes : string) : string :=
  when (given notes) (text [heading "Notes"; notes; newline; newline]).

Section strategy.
Context `{!Float64}.
Definition joined (what : string) (l : list string) : string :=
  when (negb (bool_decide (l = []))) (ln ("- **" +:+ what +:+ ":** " +:+ Join l ", ")).
Definition condition_text (c : RuleCondition) : string :=
  rc_Field c +:+ " " +:+ rc_Operator c +:+ " " +:+ Sprint (rc_Value c).
Definition rule_row (i : Z) (r : Rule) : string :=
  ln (text ["| "; Itoa (i + 1); " | "; ru_Name r; " | "; Join (condition_text <$> ru_Conditions r) " AND "; " | ";
            ru_Action r; " | "; Itoa (ru_Priority r); " | "; if ru_Enabled r then "yes" else "no"; " |"]).
Definition reference_line (r : ReferenceStrategy) : string :=
  if given (rs_Description r) then ln ("- **" +:+ rs_Name r +:+ ":** " +:+ rs_Description r) else ln ("- " +:+ rs_Name r).
Definition filter_given (cf : CompanyFilter) : bool :=
  positive_f (cf_MinMarketCap cf) || positive_f (cf_MaxMarketCap cf) || positive_f (cf_MaxPE cf) ||
  positive_f (cf_MinQtrReturnPct cf) || positive_f (cf_MinDividendYield cf) || positive_f (cf_MaxBeta cf) ||
  negb (bool_decide (cf_AllowedSectors cf = [])) || negb (bool_decide (cf_ExcludedSectors cf = [])) ||
  negb (bool_decide (cf_AllowedCountries cf = [])).
Definition filter_section (cf : CompanyFilter) : string :=
  when (filter_given cf) (text
    [heading "Company Filter";
     when (positive_f (cf_MinMarketCap cf))
       (ln ("- **Min Market Cap:** $" +:+ fmt_f 0 (f64_div (cf_MinMarketCap cf) (f64_of_Z 1000000)) +:+ "M"));
     when (positive_f (cf_MaxMarketCap cf))
       (ln ("- **Max Market Cap:** $" +:+ fmt_f 0 (f64_div (cf_MaxMarketCap cf) (f64_of_Z 1000000000)) +:+ "B"));
     when (positive_f (cf_MaxPE cf)) (ln ("- **Max P/E:** " +:+ fmt_f 1 (cf_MaxPE cf)));
     when (positive_f (cf_MinQtrReturnPct cf))
       (ln ("- **Min Quarterly Return:** " +:+ fmt_f 1 (cf_MinQtrReturnPct cf) +:+ "% annualised"));
     when (positive_f (cf_MinDividendYield cf))
       (ln ("- **Min Dividend Yield:** " +:+ fmt_f 2 (f64_mul (cf_MinDividendYield cf) (f64_of_Z 100)) +:+ "%"));
     when (positive_f (cf_MaxBeta cf)) (ln ("- **Max Beta:** " +:+ fmt_f 2 (cf_MaxBeta cf)));
     joined "Allowed Sectors" (cf_AllowedSectors cf); joined "Excluded Sectors" (cf_ExcludedSectors cf);
     joined "Allowed Countries" (cf_AllowedCountries cf); newline]).
Definition percent_line (what : string) (x : float64) : string :=
  when (positive_f x) (ln ("- **" +:+ what +:+ ":** " +:+ fmt_f 1 x +:+ "%")).
Definition described (s : string) : string := when (given s) (ln ("- " +:+ s)).
Definition PortfolioStrategy_ToMarkdown (s : PortfolioStrategy) : string :=
  let risk := st_RiskAppetite s in
  let income := st_IncomeRequirements s in
  let sectors := st_SectorPreferences s in
  text
    [ln (ln ("# Portfolio Strategy: " +:+ st_PortfolioName s));
     when (given (st_AccountType s)) (ln ("**Account Type:** " +:+ st_AccountType s));
     when (negb (bool_decide (st_InvestmentUniverse s = [])))
       (ln ("**Investment Universe:** " +:+ Join (st_InvestmentUniverse s) ", "));
     newline;
     heading "Risk Appetite";
     when (given (ra_Level risk)) (ln ("- **Level:** " +:+ ra_Level risk));
     percent_line "Max Drawdown" (ra_MaxDrawdownPct risk);
     described (ra_Description risk);
     newline;
     heading "Target Returns";
     percent_line "Annual Target" (tr_AnnualPct (st_TargetReturns s));
     when (given (tr_Timeframe (st_TargetReturns s))) (ln ("- **Timeframe:** " +:+ tr_Timeframe (st_TargetReturns s)));
     newline;
     when (positive_f (ir_DividendYieldPct income) || given (ir_Description income))
       (text [heading "Income Requirements"; percent_line "Dividend Yield Target" (ir_DividendYieldPct income);
              described (ir_Description income); newline]);
     when (negb (bool_decide (sp_Preferred sectors = [])) || negb (bool_decide (sp_Excluded sectors = [])))
       (text [heading "Sector Preferences"; joined "Preferred" (sp_Preferred sectors);
              joined "Excluded" (sp_Excluded sectors); newline]);
     heading "Position Sizing";
     percent_line "Max Single Position" (po_MaxPositionPct (st_PositionSizing s));
     percent_line "Max Sector Allocation" (po_MaxSectorPct (st_PositionSizing s));
     newline;
     when (negb (bool_decide (length (st_ReferenceStrategies s) = 0%nat)))
       (text ([heading "Reference Strategies"] ++ (reference_line <$> st_ReferenceStrategies s) ++ [newline]));
     when (negb (bool_decide (length (st_Rules s) = 0%nat)))
       (text ([heading "Trading Rules"; ln "| # | Name | Conditions | Action | Priority | Enabled |";
               ln "|---|------|------------|--------|----------|--------|"] ++
              imap (fun i r => rule_row (Z.of_nat i) r) (st_Rules s) ++ [newline]));
     filter_section (st_CompanyFilter s);
     when (given (st_RebalanceFrequency s)) (ln (ln ("**Rebalancing:** " +:+ st_RebalanceFrequency s)));
     notes_section (st_Notes s);
     when (given (st_Disclaimer s)) (ln (ln "---") +:+ ln (ln ("*" +:+ st_Disclaimer s +:+ "*")));
     ln (ln "---");
     "Version " +:+ Itoa (st_Version s); stamp "Created" (st_CreatedAt s); stamp "Updated" (st_UpdatedAt s);
     stamp "Last Reviewed" (st_LastReviewedAt s); newline].
End strategy.

(** *** Plan: one reading of the clock for each item with a deadline *)
Section plan.
Context `{!Env} `{!Int64Conv}.
Definition status_icon (status : PlanItemStatus) : string :=
  if decide (status = PlanItemStatusTriggered) then "🟡"
  else if decide (status = PlanItemStatusCompleted) then "✅"
  else if decide (status = PlanItemStatusExpired) then "⏰"
  else if decide (status = PlanItemStatusCancelled) then "❌"
  else "⬜".
Definition due_text (deadline : Time) (now : Z) : string :=
  let remaining := time_Sub (t_ns deadline) now in
  if 0 <? remaining
  then " (due " +:+ format_date deadline +:+ ", " +:+ Itoa (int64_of (f64_div (Hours remaining) (f64_of_Z 24))) +:+ " days remaining)"
  else " (due " +:+ format_date deadline +:+ ", **overdue**)".
Definition due (item : PlanItem) : M World string :=
  match it_Deadline item with
  | Some deadline =>
      if decide (it_Type item = PlanItemTypeTime) then now ← time_Now; mret (due_text deadline now) else mret ""
  | None => mret ""
  end.
(** The entry of an item with its deadline text. *)
Definition plan_entry (item : PlanItem) (d : string) : string :=
  text ["- "; status_icon (it_Status item); " **["; it_ID item; "]** "; it_Description item; d;
        when (given (it_Ticker item)) (" | Ticker: " +:+ it_Ticker item);
        when (given (it_Action item)) (" | Action: " +:+ it_Action item);
        newline;
        when (given (it_Notes item)) (ln ("  - *" +:+ it_Notes item +:+ "*"))].
Definition writePlanItem (item : PlanItem) : M World string := d ← due item; mret (plan_entry item d).

(** The items by status: triggered, pending, completed, other. *)
Definition with_status (status : PlanItemStatus) (items : list PlanItem) : list PlanItem :=
  filter (fun i => it_Status i = status) items.
Definition other_status (items : list PlanItem) : list PlanItem :=
  filter (fun i => it_Status i ∉ [PlanItemStatusTriggered; PlanItemStatusPending; PlanItemStatusCompleted]) items.
Definition plan_section (title : string) (items : list PlanItem) : M World string :=
  match items with
  | [] => mret ""
  | _ => l ← mapM writePlanItem items; mret (heading title +:+ text l)
  end.
Definition plan_body (items : list PlanItem) : M World string :=
  match items with
  | [] => mret (ln (ln "No plan items."))
  | _ =>
      t ← plan_section "Triggered" (with_status PlanItemStatusTriggered items);
      p ← plan_section "Pending" (with_status PlanItemStatusPending items);
      c ← plan_section "Completed" (with_status PlanItemStatusCompleted items);
      o ← plan_section "Other" (other_status items);
      mret (text [t; p; c; o])
  end.
Definition PortfolioPlan_ToMarkdown (p : PortfolioPlan) : M World string :=
  body ← plan_body (pn_Items p);
  mret (text [ln (ln ("# Portfolio Plan: " +:+ pn_PortfolioName p)); body; notes_section (pn_Notes p); ln (ln "---");
              "Version " +:+ Itoa (pn_Version p); stamp "Created" (pn_CreatedAt p); stamp "Updated" (pn_UpdatedAt p); newline]).
End plan.

(** *** Watchlist *)
Definition verdict_icon (v : WatchlistVerdict) : string :=
  if decide (v = WatchlistVerdictPass) then "+"
  else if decide (v = WatchlistVerdictWatch) then "?"
  else if decide (v = WatchlistVerdictFail) then "-"
  else "~".
Definition writeWatchlistItem (item : WatchlistItem) : string :=
  text ["- ["; verdict_icon (wi_Verdict item); "] **"; wi_Ticker item; "**";
        when (given (wi_Name item)) (" — " +:+ wi_Name item);
        when (negb (IsZero (wi_ReviewedAt item))) (" (reviewed " +:+ format_date (wi_ReviewedAt item) +:+ ")");
        newline;
        when (given (wi_Reason item)) (ln ("  - " +:+ wi_Reason item));
        when (given (wi_KeyMetrics item)) (ln ("  - Metrics: " +:+ wi_KeyMetrics item));
        when (given (wi_Notes item)) (ln ("  - *" +:+ wi_Notes item +:+ "*"))].
Definition with_verdict (v : WatchlistVerdict) (items : list WatchlistItem) : list WatchlistItem :=
  filter (fun i => wi_Verdict i = v) items.
Definition watchlist_section (v : WatchlistVerdict) (items : list WatchlistItem) : string :=
  match with_verdict v items with
  | [] => ""
  | l => text ([heading v] ++ (writeWatchlistItem <$> l) ++ [newline])
  end.
Definition watchlist_body (items : list WatchlistItem) : string :=
  match items with
  | [] => ln (ln "No watchlist items.")
  | _ => text [watchlist_section WatchlistVerdictPass items; watchlist_section WatchlistVerdictWatch items;
               watchlist_section WatchlistVerdictFail items]
  end.
Definition PortfolioWatchlist_ToMarkdown (w : PortfolioWatchlist) : string :=
  text [ln (ln ("# Watchlist: " +:+ wl_PortfolioName w)); watchlist_body (wl_Items w); notes_section (wl_Notes w);
        ln (ln "---");
        "Version " +:+ Itoa (wl_Version w) +:+ " | " +:+ Itoa (Z.of_nat (length (wl_Items w))) +:+ " items";
        stamp "Created" (wl_CreatedAt w); stamp "Updated" (wl_UpdatedAt w); newline].

(** ** Theorems *)
Section exchange.
Context `{!Unicode}.

(** The code of an exchange is its own code: mapping twice changes nothing; an
    exchange the table does not know is kept as it is. *)
Lemma eodhExchange_idem e : eodhExchange (eodhExchange e) = eodhExchange e.
Proof.
  assert (eodhExchange e ∈ ["AU"; "US"; "LSE"] \/ eodhExchange e = e) as [Hin|E]; [| |by rewrite !E].
  { unfold eodhExchange. repeat case_match; first [by right|left; set_solver]. }
  rewrite !elem_of_cons, elem_of_nil in Hin. by destruct Hin as [->|[->|[->|[]]]].
Qed.
Lemma eodhExchange_unknown : eodhExchange "TSX" = "TSX" /\ eodhExchange "" = "AU" /\ eodhExchange "nasdaq" = "US".
Proof. by vm_compute. Qed.

Lemma find_ticker_spec ticker items i :
  match find_ticker ticker items i with
  | (Some item, n) => exists k : nat, n = i + Z.of_nat k /\ items !! k = Some item /\ EqualFold (wi_Ticker item) ticker = true /\
      Forall (fun x => EqualFold (wi_Ticker x) ticker = false) (take k items)
  | (None, n) => n = -1 /\ Forall (fun x => EqualFold (wi_Ticker x) ticker = false) items
  end.
Proof.
  revert i. induction items as [|x items IH]; intros i; simpl; [done|].
  destruct (EqualFold (wi_Ticker x) ticker) eqn:E.
  - exists 0%nat. split_and!; [lia|done|done|constructor].
  - specialize (IH (i + 1)). destruct (find_ticker ticker items (i + 1)) as [[item|] n].
    + destruct IH as (k & -> & Hk & He & Hf). exists (S k). split_and!; [lia|done|done|by constructor].
    + destruct IH as [-> Hf]. split; [done|by constructor].
Qed.
(** Looking up a ticker on the watchlist: the answer is the first item whose
    ticker equals it up to case, with its index; when no item does, it is nil
    and -1. *)
Lemma FindByTicker_spec w ticker :
  match FindByTicker w ticker with
  | (Some item, n) => 0 <= n /\ wl_Items w !! Z.to_nat n = Some item /\ EqualFold (wi_Ticker item) ticker = true /\
      Forall (fun x => EqualFold (wi_Ticker x) ticker = false) (take (Z.to_nat n) (wl_Items w))
  | (None, n) => n = -1 /\ Forall (fun x => EqualFold (wi_Ticker x) ticker = false) (wl_Items w)
  end.
Proof.
  pose proof (find_ticker_spec ticker (wl_Items w) 0) as H'. unfold FindByTicker.
  destruct (find_ticker ticker (wl_Items w) 0) as [[item|] n]; [|done].
  destruct H' as (k & -> & Hk & He & Hf). rewrite Z.add_0_l, Nat2Z.id. split; [lia|done].
Qed.
End exchange.

Section plan_theorems.
Context `{!Env} `{!Int64Conv}.

(** A section of entries, each made of an item and its text. *)
Definition rendered (title : string) (entries : list (PlanItem * string)) : string :=
  match entries with [] => "" | _ => heading title +:+ text (entries.*2) end.
Definition entries_of (items : list PlanItem) (entries : list (PlanItem * string)) : Prop :=
  entries.*1 = items /\ Forall (fun x => exists d, x.2 = plan_entry x.1 d) entries.

Lemma mapM_entries items w : exists entries, entries_of items entries /\ (mapM writePlanItem items w).1 = entries.*2.
Proof.
  revert w. induction items as [|x items IH]; intros w; [by exists []|]. cbn [mapM]. rewrite M_bind_unfold.
  unfold writePlanItem at 1. rewrite M_bind_unfold. destruct (due x w) as [d w1]. cbn [mret M_ret].
  rewrite M_bind_unfold. destruct (IH w1) as (es & [Hf Hs] & He). destruct (mapM writePlanItem items w1) as [l w2].
  simpl in He. subst l. exists ((x, plan_entry x d) :: es). split; [|done]. split; [by rewrite fmap_cons, Hf|].
  constructor; [by exists d|done].
Qed.
Lemma plan_section_entries title items w :
  exists entries, entries_of items entries /\ (plan_section title items w).1 = rendered title entries.
Proof.
  destruct items as [|x items]; [by exists []|]. unfold plan_section. rewrite M_bind_unfold.
  destruct (mapM_entries (x :: items) w) as (es & [Hf Hs] & He).
  destruct (mapM writePlanItem (x :: items) w) as [l w']. simpl in He. subst l. exists es. split; [done|].
  unfold rendered. by destruct es.
Qed.
Lemma by_status_perm items :
  with_status PlanItemStatusTriggered items ++ with_status PlanItemStatusPending items ++
  with_status PlanItemStatusCompleted items ++ other_status items ≡ₚ items.
Proof.
  unfold with_status, other_status. induction items as [|x items IH]; [done|]. rewrite !filter_cons.
  destruct (decide (it_Status x = PlanItemStatusTriggered)) as [E|]; [rewrite E; simpl; by constructor|].
  destruct (decide (it_Status x = PlanItemStatusPending)) as [E|]; [rewrite E; simpl; rewrite <-Permutation_middle; by constructor|].
  destruct (decide (it_Status x = PlanItemStatusCompleted)) as [E|].
  { rewrite E. simpl. rewrite (assoc_L (++)), <-Permutation_middle, <-(assoc_L (++)). by constructor. }
  rewrite decide_True by set_solver. rewrite !(assoc_L (++)), <-Permutation_middle, <-!(assoc_L (++)). by constructor.
Qed.

Lemma Forall_entries (P : PlanItem -> Prop) `{!forall x, Decision (P x)} items (es : list (PlanItem * string)) :
  es.*1 = filter P items -> Forall (fun x => P x.1) es.
Proof.
  intros E. apply Forall_forall. intros x Hx. apply (list_elem_of_fmap_2 fst) in Hx. rewrite E in Hx.
  by apply list_elem_of_filter in Hx as [? _].
Qed.

(** C38. The plan document lists every item exactly once: under the headings
    Triggered, Pending, Completed and Other, in this order and each left out when
    it has none, stand the entries of the items with that status, and together
    they are the items of the plan. *)
Theorem plan_markdown_complete p w :
  pn_Items p ≠ [] ->
  exists triggered pending completed other : list (PlanItem * string),
    (triggered ++ pending ++ completed ++ other).*1 ≡ₚ pn_Items p /\
    Forall (fun x => exists d, x.2 = plan_entry x.1 d) (triggered ++ pending ++ completed ++ other) /\
    Forall (fun x => it_Status x.1 = PlanItemStatusTriggered) triggered /\
    Forall (fun x => it_Status x.1 = PlanItemStatusPending) pending /\
    Forall (fun x => it_Status x.1 = PlanItemStatusCompleted) completed /\
    Forall (fun x => it_Status x.1 ∉ [PlanItemStatusTriggered; PlanItemStatusPending; PlanItemStatusCompleted]) other /\
    exists tail, (PortfolioPlan_ToMarkdown p w).1 =
      text [ln (ln ("# Portfolio Plan: " +:+ pn_PortfolioName p)); rendered "Triggered" triggered;
            rendered "Pending" pending; rendered "Completed" completed; rendered "Other" other; tail].
Proof.
  intros Hne. unfold PortfolioPlan_ToMarkdown. rewrite M_bind_unfold. unfold plan_body.
  destruct (pn_Items p) as [|x0 items0] eqn:Ep; [done|]. rewrite <-Ep. clear Hne. set (items := pn_Items p).
  rewrite M_bind_unfold. destruct (plan_section_entries "Triggered" (with_status PlanItemStatusTriggered items) w) as (t & [Ht Ft] & Et).
  destruct (plan_section "Triggered" _ w) as [s1 w1]. simpl in Et. subst s1. rewrite M_bind_unfold.
  destruct (plan_section_entries "Pending" (with_status PlanItemStatusPending items) w1) as (q & [Hq Fq] & Eq).
  destruct (plan_section "Pending" _ w1) as [s2 w2]. simpl in Eq. subst s2. rewrite M_bind_unfold.
  destruct (plan_section_entries "Completed" (with_status PlanItemStatusCompleted items) w2) as (c & [Hc Fc] & Ec).
  destruct (plan_section "Completed" _ w2) as [s3 w3]. simpl in Ec. subst s3. rewrite M_bind_unfold.
  destruct (plan_section_entries "Other" (other_status items) w3) as (o & [Ho Fo] & Eo).
  destruct (plan_section "Other" _ w3) as [s4 w4]. simpl in Eo. subst s4.
  exists t, q, c, o. split; [rewrite !fmap_app, Ht, Hq, Hc, Ho; apply by_status_perm|].
  split; [rewrite !Forall_app; tauto|].
  split_and!; [exact (Forall_entries _ _ _ Ht)|exact (Forall_entries _ _ _ Hq)|exact (Forall_entries _ _ _ Hc)|exact (Forall_entries _ _ _ Ho)|].
  exists (text [notes_section (pn_Notes p); ln (ln "---"); "Version " +:+ Itoa (pn_Version p);
    stamp "Created" (pn_CreatedAt p); stamp "Updated" (pn_UpdatedAt p); newline]).
  cbn [mret M_ret fst text foldr]. by rewrite !append_nil_r, !append_assoc.
Qed.
End plan_theorems.

Definition sample_plan : PortfolioPlan :=
  let item id st := mkPlanItem id "event" "rebalance" st None [] "BHP" "" f64_0 zero_time zero_time None "" in
  mkPortfolioPlan "SMSF" 3 [item "1" PlanItemStatusCompleted; item "2" PlanItemStatusExpired; item "3" PlanItemStatusTriggered]
    "" zero_time zero_time.
Lemma plan_markdown_complete_witness :
  exists triggered pending completed other tail,
    (triggered ++ pending ++ completed ++ other).*1 ≡ₚ pn_Items sample_plan /\
    (@PortfolioPlan_ToMarkdown sample_env amd64_conv sample_plan sample_world).1 =
      text [ln (ln "# Portfolio Plan: SMSF"); rendered "Triggered" triggered; rendered "Pending" pending;
            rendered "Completed" completed; rendered "Other" other; tail].
Proof.
  destruct (@plan_markdown_complete sample_env amd64_conv sample_plan sample_world ltac:(discriminate))
    as (t & q & c & o & Hp & _ & _ & _ & _ & _ & tail & E).
  exists t, q, c, o, tail. split; [exact Hp|exact E].
Defined.

(** The watchlist shows the items with one of the three verdicts; the others are
    counted but not shown. *)
Lemma watchlist_shows_valid items :
  with_verdict WatchlistVerdictPass items ++ with_verdict WatchlistVerdictWatch items ++ with_verdict WatchlistVerdictFail items ≡ₚ
  filter (fun i => ValidWatchlistVerdict (wi_Verdict i) = true) items.
Proof.
  unfold with_verdict. induction items as [|x items IH]; [done|]. rewrite !filter_cons.
  destruct (decide (wi_Verdict x = WatchlistVerdictPass)) as [E|]; [rewrite E; simpl; by constructor|].
  destruct (decide (wi_Verdict x = WatchlistVerdictWatch)) as [E|].
  { rewrite E. simpl. rewrite <-Permutation_middle. by constructor. }
  destruct (decide (wi_Verdict x = WatchlistVerdictFail)) as [E|].
  { rewrite E. simpl. rewrite (assoc_L (++)), <-Permutation_middle, <-(assoc_L (++)). by constructor. }
  rewrite decide_False; [done|]. unfold ValidWatchlistVerdict. rewrite !orb_true_iff, !bool_decide_eq_true. tauto.
Qed.
Lemma watchlist_drops_unknown_verdict item :
  ValidWatchlistVerdict (wi_Verdict item) = false -> watchlist_body [item] = "".
Proof.
  unfold ValidWatchlistVerdict. intros H'. rewrite !orb_false_iff, !bool_decide_eq_false in H'. destruct H' as [[? ?] ?].
  unfold watchlist_body, watchlist_section, with_verdict. rewrite !filter_cons_False by done. done.
Qed.
