(* ===== verification/VireCommon.v ===== *)
(** * VireCommon: the shared package internal/vire/common

    Configuration, freshness rules, the per-request user context, logger set-up
    and the formatting of amounts.  Files, the environment and TOML are
    arguments, the key-value storage is an implementation of its interface; what
    the code asks of the logging library is the list of writers it adds. *)
From Stdlib Require Import SpecFloat.
From S2P Require Import Prelude GoStrings GoFloat GoTime GoJson GoURL GoHTTP GoPath MCP Samples VireData VireInterfaces VireModels.

(** ** config.go *)
Record ServerConfig := mkServerConfig { sv_Host : string; sv_Port : Z }.
Record FileConfig := mkFileConfig { fc_Path : string; fc_Versions : Z }.
Record GCSConfig := mkGCSConfig { gcs_Bucket : string; gcs_Prefix : string; gcs_CredentialsFile : string }.
Record S3Config := mkS3Config {
  s3_Bucket : string; s3_Prefix : string; s3_Region : string; s3_Endpoint : string; s3_AccessKey : string;
  s3_SecretKey : string }.
Record StorageConfig := mkStorageConfig {
  sto_Backend : string; sto_UserData : FileConfig; sto_Data : FileConfig; sto_GCS : GCSConfig; sto_S3 : S3Config }.
Record EODHDConfig := mkEODHDConfig { eo_BaseURL : string; eo_APIKey : string; eo_RateLimit : Z; eo_Timeout : string }.
Record NavexaConfig := mkNavexaConfig { nx_BaseURL : string; nx_APIKey : string; nx_RateLimit : Z; nx_Timeout : string }.
Record GeminiConfig := mkGeminiConfig { gm_APIKey : string; gm_Model : string; gm_MaxURLs : Z; gm_MaxContentSize : string }.
Record ClientsConfig := mkClientsConfig { cl_EODHD : EODHDConfig; cl_Navexa : NavexaConfig; cl_Gemini : GeminiConfig }.
(** [lg_LogStore]: an external log store is given. *)
Record LoggingConfig := mkLoggingConfig {
  lg_Level : string; lg_Format : string; lg_Outputs : list string; lg_FilePath : string; lg_MaxSizeMB : Z;
  lg_MaxBackups : Z; lg_LogStore : bool }.
Record Config := mkConfig {
  c_Environment : string; c_Portfolios : list string; c_DisplayCurrency : string; c_Server : ServerConfig;
  c_Storage : StorageConfig; c_Clients : ClientsConfig; c_Logging : LoggingConfig }.

Definition DefaultPortfolio (c : Config) : string := default "" (head (c_Portfolios c)).
Definition NewDefaultConfig : Config :=
  mkConfig "prod" [] "AUD" (mkServerConfig "0.0.0.0" 4242)
    (mkStorageConfig "file" (mkFileConfig "data/user" 5) (mkFileConfig "data/data" 0)
       (mkGCSConfig "" "" "") (mkS3Config "" "" "" "" "" ""))
    (mkClientsConfig (mkEODHDConfig "https://eodhd.com/api" "" 10 "30s")
       (mkNavexaConfig "https://api.navexa.com.au" "" 5 "30s") (mkGeminiConfig "" "gemini-2.0-flash" 20 "34MB"))
    (mkLoggingConfig "info" "json" ["console"; "file"] "./logs/vire.log" 100 3 false).

(** *** [time.ParseDuration] *)
(** Leading digits, at most 2^63. *)
Fixpoint leadingInt (x : Z) (s : string) : option (Z * string) :=
  match s with
  | String a r =>
      if is_digit a then
        if 2 ^ 63 / 10 <? x then None
        else let y := 10 * x + (ord a - 48) in if 2 ^ 63 <? y then None else leadingInt y r
      else Some (x, s)
  | "" => Some (x, s)
  end.
(** Leading digits of a fraction and the power of ten; digits that do not fit
    are skipped. *)
Fixpoint leadingFraction (x : Z) (scale : float64) (overflow : bool) (s : string) : Z * float64 * string :=
  match s with
  | String a r =>
      if is_digit a then
        if overflow || ((2 ^ 63 - 1) / 10 <? x) then leadingFraction x scale true r
        else let y := 10 * x + (ord a - 48) in
             if 2 ^ 63 <? y then leadingFraction x scale true r
             else leadingFraction y (f64_mul scale (f64_of_Z 10)) false r
      else (x, scale, s)
  | "" => (x, scale, s)
  end.
Fixpoint span_unit (s : string) : string * string :=
  match s with
  | String a r => if decide (a = "."%char) then ("", s) else if is_digit a then ("", s)
                  else let '(u, t) := span_unit r in (String a u, t)
  | "" => ("", "")
  end.
Definition unit_of (u : string) : option Z :=
  if decide (u = "ns") then Some 1
  else if decide (u = "us" \/ u = "µs" \/ u = "μs") then Some 1000
  else if decide (u = "ms") then Some 1000000
  else if decide (u = "s") then Some Second
  else if decide (u = "m") then Some Minute
  else if decide (u = "h") then Some Hour
  else None.
(** The terms, number and unit; every one consumes at least a byte. *)
Fixpoint duration_terms (fuel : nat) (d : Z) (s : string) : option Z :=
  match fuel with
  | O => None
  | S fuel =>
      match s with
      | "" => Some d
      | String a _ =>
          if negb (bool_decide (a = "."%char) || is_digit a) then None
          else
            '(v, s1) ← leadingInt 0 s;
            let pre := negb (slen s1 =? slen s)%nat in
            let '(f, scale, s2, post) :=
              match s1 with
              | String b r => if decide (b = "."%char)
                              then let '(f, sc, t) := leadingFraction 0 (f64_of_Z 1) false r in
                                   (f, sc, t, negb (slen t =? slen r)%nat)
                              else (0, f64_of_Z 1, s1, false)
              | "" => (0, f64_of_Z 1, s1, false)
              end in
            if negb pre && negb post then None
            else
              let '(u, s3) := span_unit s2 in
              unit ← (if decide (u = "") then None else unit_of u);
              if 2 ^ 63 / unit <? v then None
              else
                let v := v * unit in
                let v := if 0 <? f
                         then v + default 0 (f64_trunc (f64_mul (f64_of_Z f) (f64_div (f64_of_Z unit) scale))) else v in
                if 2 ^ 63 <? v then None
                else if 2 ^ 63 <? d + v then None
                else duration_terms fuel (d + v) s3
      end
  end.
Definition ParseDuration (s : string) : option Z :=
  let '(neg, s) := match s with
    | String a r => if decide (a = "-"%char) then (true, r) else if decide (a = "+"%char) then (false, r) else (false, s)
    | "" => (false, s) end in
  if decide (s = "0") then Some 0
  else if decide (s = "") then None
  else d ← duration_terms (S (slen s)) 0 s;
       if neg then Some (- d) else if 2 ^ 63 - 1 <? d then None else Some d.
Example durations :
  ParseDuration "30s" = Some (30 * Second) /\ ParseDuration "1h15m30.918s" = Some 4530918000000 /\
  ParseDuration "-1.5h" = Some (- 5400 * Second) /\ ParseDuration "30" = None /\ ParseDuration "0" = Some 0 /\
  ParseDuration "9223372036854775808ns" = None /\ ParseDuration ".5s.5s" = Some Second.
Proof. vm_compute. done. Qed.

Definition EODHDConfig_GetTimeout (c : EODHDConfig) : Z := default (30 * Second) (ParseDuration (eo_Timeout c)).
Definition NavexaConfig_GetTimeout (c : NavexaConfig) : Z := default (30 * Second) (ParseDuration (nx_Timeout c)).

Section config.
Context `{!Unicode}.
Context (getenv : string -> string) (stat_missing : string -> bool) (ReadFile : string -> result string)
  (toml_Unmarshal : string -> Config -> result Config).

Definition set_portfolios (dp : string) (l : list string) : list string :=
  match l with
  | [] => [dp]
  | p :: _ => if decide (p = dp) then l else dp :: filter (fun p => p ≠ dp) l
  end.
Definition env (name old : string) (f : string -> string) : string :=
  if decide (getenv name = "") then old else f (getenv name).
Definition applyEnvOverrides (c : Config) : Config :=
  let st := c_Storage c in
  let lg := c_Logging c in
  mkConfig (env "VIRE_ENV" (c_Environment c) id)
    (if decide (getenv "VIRE_DEFAULT_PORTFOLIO" = "") then c_Portfolios c
     else set_portfolios (getenv "VIRE_DEFAULT_PORTFOLIO") (c_Portfolios c))
    (env "VIRE_DISPLAY_CURRENCY" (c_DisplayCurrency c) ToUpper)
    (mkServerConfig (env "VIRE_HOST" (sv_Host (c_Server c)) id)
       (if decide (getenv "VIRE_PORT" = "") then sv_Port (c_Server c)
        else default (sv_Port (c_Server c)) (Atoi (getenv "VIRE_PORT"))))
    (mkStorageConfig (sto_Backend st)
       (mkFileConfig (env "VIRE_DATA_PATH" (fc_Path (sto_UserData st)) (fun p => filepath_Join p "user")) (fc_Versions (sto_UserData st)))
       (mkFileConfig (env "VIRE_DATA_PATH" (fc_Path (sto_Data st)) (fun p => filepath_Join p "data")) (fc_Versions (sto_Data st)))
       (sto_GCS st) (sto_S3 st))
    (c_Clients c)
    (mkLoggingConfig (env "VIRE_LOG_LEVEL" (lg_Level lg) id) (lg_Format lg) (lg_Outputs lg) (lg_FilePath lg)
       (lg_MaxSizeMB lg) (lg_MaxBackups lg) (lg_LogStore lg)).
Definition normalizeEnvironment (e : string) : string :=
  let s := ToLower (TrimSpace e) in
  if decide (s = "development") then "dev" else if decide (s = "production") then "prod" else e.
Definition IsProduction (c : Config) : bool := bool_decide (ToLower (TrimSpace (c_Environment c)) = "prod").
Definition valid_currency (s : string) : string :=
  let dc := ToUpper s in if decide (dc = "AUD" \/ dc = "USD") then dc else "AUD".
Definition finish_config (c : Config) : Config :=
  mkConfig (normalizeEnvironment (c_Environment c)) (c_Portfolios c) (valid_currency (c_DisplayCurrency c)) (c_Server c)
    (c_Storage c) (c_Clients c) (c_Logging c).
(** The files in order; the empty name and files that are not there are skipped. *)
Fixpoint load_all (paths : list string) (c : Config) : result Config :=
  match paths with
  | [] => Ok c
  | path :: paths =>
      if decide (path = "") then load_all paths c
      else if stat_missing path then load_all paths c
      else match ReadFile path with
           | Err e => Err ("failed to read config file " +:+ path +:+ ": " +:+ e)
           | Ok data =>
               match toml_Unmarshal data c with
               | Err e => Err ("failed to parse config file " +:+ path +:+ ": " +:+ e)
               | Ok c => load_all paths c
               end
           end
  end.
Definition LoadConfig (paths : list string) : result Config :=
  c ← load_all paths NewDefaultConfig; Ok (finish_config (applyEnvOverrides c)).

(** The value the key-value storage holds under a key; [None] when the storage
    is nil, fails or holds nothing. *)
Definition kv_lookup {Ctx W} (ctx : Ctx) (kvStorage : option (KeyValueStorage Ctx W)) (key : string) : M W (option string) :=
  match kvStorage with
  | None => mret None
  | Some kv =>
      answer ← kv_Get kv ctx key;
      mret (match answer with Ok val => if decide (val = "") then None else Some val | Err _ => None end)
  end.
Definition ResolveDefaultPortfolio {Ctx W} (ctx : Ctx) (kvStorage : option (KeyValueStorage Ctx W))
    (configDefault : string) : M W string :=
  val ← kv_lookup ctx kvStorage "default_portfolio";
  mret (match val with
        | Some val => val
        | None => if decide (getenv "VIRE_DEFAULT_PORTFOLIO" = "") then configDefault else getenv "VIRE_DEFAULT_PORTFOLIO"
        end).
Definition keyToEnvMapping (name : string) : list string :=
  if decide (name = "eodhd_api_key") then ["EODHD_API_KEY"; "VIRE_EODHD_API_KEY"]
  else if decide (name = "navexa_api_key") then ["NAVEXA_API_KEY"; "VIRE_NAVEXA_API_KEY"]
  else if decide (name = "gemini_api_key") then ["GEMINI_API_KEY"; "VIRE_GEMINI_API_KEY"; "GOOGLE_API_KEY"]
  else [].
Definition ResolveAPIKey {Ctx W} (ctx : Ctx) (kvStorage : option (KeyValueStorage Ctx W)) (name fallback : string) :
    M W (result string) :=
  match find (fun v => negb (bool_decide (getenv v = ""))) (keyToEnvMapping name) with
  | Some v => mret (Ok (getenv v))
  | None =>
      apiKey ← kv_lookup ctx kvStorage name;
      mret (match apiKey with
            | Some k => Ok k
            | None => if decide (fallback = "")
                      then Err ("API key '" +:+ name +:+ "' not found in environment or KV store") else Ok fallback
            end)
  end.
End config.

(** ** freshness.go *)
Definition FreshnessTodayBar : Z := Hour.
Definition FreshnessFundamentals : Z := 7 * 24 * Hour.
Definition FreshnessNews : Z := 6 * Hour.
Definition FreshnessSignals : Z := Hour.
Definition FreshnessReport : Z := Hour.
Definition FreshnessPortfolio : Z := 30 * Minute.
Definition FreshnessNewsIntel : Z := 30 * 24 * Hour.
Definition FreshnessFilings : Z := 30 * 24 * Hour.
Definition FreshnessTimeline : Z := 7 * 24 * Hour.
Definition FreshnessRealTimeQuote : Z := 15 * Minute.
Definition IsFresh `{!Env} (updated : Time) (ttl : Z) : M World bool :=
  if IsZero updated then mret false
  else now ← time_Now; mret (time_Sub now (t_ns updated) <? ttl).

(** ** userctx.go *)
Record UserContext := mkUserContext { uc_Portfolios : list string; uc_DisplayCurrency : string; uc_NavexaAPIKey : string }.
Section userctx.
Context `{!Unicode} {NavexaClient : Type}.
(** The values of a [context.Context] under the two keys of the package.  The
    type of the client stays a parameter: the methods of [NavexaClient] take
    such a context themselves. *)
Record Ctx := mkCtx { userContextKey : option UserContext; navexaClientOverride : option NavexaClient }.
Definition WithUserContext (ctx : Ctx) (uc : option UserContext) : Ctx := mkCtx uc (navexaClientOverride ctx).
Definition UserContextFromContext (ctx : Ctx) : option UserContext := userContextKey ctx.
Definition WithNavexaClient (ctx : Ctx) (client : option NavexaClient) : Ctx := mkCtx (userContextKey ctx) client.
Definition NavexaClientFromContext (ctx : Ctx) : option NavexaClient := navexaClientOverride ctx.
Definition ResolvePortfolios (ctx : Ctx) (configPortfolios : list string) : list string :=
  match UserContextFromContext ctx with
  | Some uc => match uc_Portfolios uc with [] => configPortfolios | l => l end
  | None => configPortfolios
  end.
Definition ResolveDisplayCurrency (ctx : Ctx) (configCurrency : string) : string :=
  match UserContextFromContext ctx with
  | Some uc =>
      if decide (uc_DisplayCurrency uc = "") then configCurrency
      else let dc := ToUpper (uc_DisplayCurrency uc) in
           if decide (dc = "AUD" \/ dc = "USD") then dc else configCurrency
  | None => configCurrency
  end.
End userctx.

(** ** version.go: [Version], [Build] and [GitCommit] are set by the linker *)
Definition SchemaVersion : string := "5".
Definition GetFullVersion (version build commit : string) : string :=
  version +:+ " (build: " +:+ build +:+ ", commit: " +:+ commit +:+ ")".

(** ** logging.go *)
Inductive writer :=
| ConsoleWriter | FileWriter (fileName : string) (maxSize maxBackups : Z) | MemoryWriter | LogStoreWriter | DiscardWriter.
Record Logger := mkLogger { l_writers : list writer; l_level : string; l_correlation : string }.
(** [int64(cfg.MaxSizeMB) * 1024 * 1024] wraps. *)
Definition file_writer (cfg : LoggingConfig) : writer :=
  let maxSize := wrap64 (lg_MaxSizeMB cfg * 1024 * 1024) in
  FileWriter (if decide (lg_FilePath cfg = "") then "logs/vire.log" else lg_FilePath cfg)
    (if maxSize <=? 0 then 500 * 1024 else maxSize)
    (if lg_MaxBackups cfg <=? 0 then 20 else lg_MaxBackups cfg).
Definition output_writer (cfg : LoggingConfig) (out : string) : list writer :=
  if decide (out = "console") then [ConsoleWriter] else if decide (out = "file") then [file_writer cfg] else [].
Definition NewLoggerFromConfig (cfg : LoggingConfig) : Logger :=
  let outputs := match lg_Outputs cfg with [] => ["console"; "file"] | l => l end in
  mkLogger ((outputs ≫= output_writer cfg) ++ [MemoryWriter] ++ (if lg_LogStore cfg then [LogStoreWriter] else []))
    (if decide (lg_Level cfg = "") then "info" else lg_Level cfg) "".
Definition NewLogger (level : string) : Logger :=
  NewLoggerFromConfig (mkLoggingConfig level "" ["console"; "file"] "" 0 0 false).
Definition NewDefaultLogger : Logger := NewLogger "info".
Definition NewSilentLogger : Logger := mkLogger [DiscardWriter] "" "".
Definition AttachLogStore (l : Logger) : Logger := mkLogger (l_writers l ++ [LogStoreWriter]) (l_level l) (l_correlation l).
Definition WithCorrelationId (l : Logger) (id : string) : Logger := mkLogger (l_writers l) (l_level l) id.

(** *** A logger on an [io.Writer]

    The writer is a state with its [Write].  The type of an event and its
    decoding belong to the logging library; so does the smallest level.  Go
    visits the fields in the order [range] gives. *)
Record LogEvent := mkLogEvent {
  le_Level : Z; le_Message : string; le_Fields : gmap string json; le_Error : string }.
Section adapter.
Context `{!Float64} {Out : Type} (out_Write : string -> M Out (result Z)) (Unmarshal_event : string -> option LogEvent)
  (TraceLevel : Z) (range : gmap string json -> list (string * json)).
Record writerAdapter := mkwriterAdapter { wa_level : Z }.
Definition event_text (evt : LogEvent) : string :=
  le_Message evt +:+ text ((fun kv => " " +:+ kv.1 +:+ "=" +:+ Sprint kv.2) <$> range (le_Fields evt)) +:+
  (if decide (le_Error evt = "") then "" else " error=" +:+ le_Error evt) +:+ newline.
Definition writerAdapter_Write (w : writerAdapter) (p : string) : M Out (result Z) :=
  match Unmarshal_event p with
  | None => out_Write p
  | Some evt => if le_Level evt <? wa_level w then mret (Ok (Z.of_nat (slen p))) else out_Write (event_text evt)
  end.
Definition writerAdapter_WithLevel (w : writerAdapter) (level : Z) : writerAdapter := mkwriterAdapter level.
(** The adapter replaces the console writer of the library's registry. *)
Definition NewLoggerWithOutput (level : string) (console : option writerAdapter) : Logger * option writerAdapter :=
  (mkLogger [MemoryWriter] level "", Some (mkwriterAdapter TraceLevel)).

(** Events below the level of the adapter are dropped and count as written;
    every other input is one write to the output. *)
Lemma adapter_filters w p o :
  writerAdapter_Write w p o =
  match Unmarshal_event p with
  | Some evt => if decide (wa_level w <= le_Level evt) then out_Write (event_text evt) o else (Ok (Z.of_nat (slen p)), o)
  | None => out_Write p o
  end.
Proof.
  unfold writerAdapter_Write. destruct (Unmarshal_event p) as [evt|]; [|done].
  destruct (Z.ltb_spec (le_Level evt) (wa_level w)); [by rewrite decide_False by lia|by rewrite decide_True by lia].
Qed.
End adapter.

(** ** format.go *)
Section format.
Context `{!Unicode} `{!Int64Conv}.
(** Dollars and cents of an amount that is not negative. *)
Definition money_parts (v : float64) : Z * Z :=
  let whole := int64_of v in
  let cents := int64_of (f64_add (f64_mul (f64_sub v (f64_of_Z whole)) (f64_of_Z 100)) f64_half) in
  if 100 <=? cents then (wrap64 (whole + 1), cents - 100) else (whole, cents).
(** The loop that cuts three bytes at a time off the end. *)
Fixpoint group_go (fuel : nat) (s : string) (parts : list string) : list string :=
  match fuel with
  | O => s :: parts
  | S fuel => if (3 <? slen s)%nat then group_go fuel (str_take (slen s - 3) s) (str_drop (slen s - 3) s :: parts)
              else s :: parts
  end.
Definition grouped (s : string) : string := if (3 <? slen s)%nat then Join (group_go (slen s) s []) "," else s.
Definition format_with (sym : string) (v : float64) : string :=
  let negative := f64_lt v f64_0 in
  let '(whole, cents) := money_parts (if negative then f64_neg v else v) in
  (if negative then "-" else "") +:+ sym +:+ grouped (Itoa whole) +:+ "." +:+ fmt_02d cents.
Definition FormatMoney (v : float64) : string := format_with "$" v.
Definition FormatSignedMoney (v : float64) : string := if f64_ge v f64_0 then "+" +:+ FormatMoney v else FormatMoney v.
Definition FormatSignedPct (v : float64) : string :=
  if f64_ge v f64_0 then "+" +:+ fmt_f 2 v +:+ "%" else fmt_f 2 v +:+ "%".
Definition currencySymbol (currency : string) : string :=
  let c := ToUpper currency in
  if decide (c = "AUD") then "A$" else if decide (c = "USD") then "US$" else "$".
Definition FormatMoneyWithCurrency (v : float64) (currency : string) : string := format_with (currencySymbol currency) v.
Definition FormatSignedMoneyWithCurrency (v : float64) (currency : string) : string :=
  if f64_ge v f64_0 then "+" +:+ FormatMoneyWithCurrency v currency else FormatMoneyWithCurrency v currency.
Definition FormatMarketCap (v : float64) : string :=
  if f64_ge v (f64_of_Z 1000000000) then "$" +:+ fmt_f 2 (f64_div v (f64_of_Z 1000000000)) +:+ "B"
  else "$" +:+ fmt_f 2 (f64_div v (f64_of_Z 1000000)) +:+ "M".

Definition IsETF (hr : HoldingReview) : bool :=
  let name := ToUpper (ho_Name (rv_Holding hr)) in
  match rv_Fundamentals hr with
  | Some f => if fu_IsETF f then true
              else if Contains name " ETF" || HasSuffix name " ETF" then true
              else bool_decide (fu_Sector f = "") && bool_decide (fu_Industry f = "")
  | None => Contains name " ETF" || HasSuffix name " ETF"
  end.
End format.

(** The values of format_test.go. *)
Section format_test.
#[local] Existing Instance sample_unicode.
#[local] Existing Instance amd64_conv.
Example format_vectors :
  let f z := f64_div (f64_of_Z z) (f64_of_Z 100) in
  FormatMoney (f 123456) = "$1,234.56" /\ FormatMoney (f 0) = "$0.00" /\ FormatMoney (f (-50000)) = "-$500.00" /\
  FormatMoney (f 100000099) = "$1,000,000.99" /\ FormatMoneyWithCurrency (f (-50000)) "usd" = "-US$500.00" /\
  FormatMoney (f64_lit 4611686018427387904 (-63)) = "$0.50" /\ FormatSignedPct (f 1234) = "+12.34%" /\
  FormatMarketCap (f64_of_Z 2500000000) = "$2.50B".
Proof. vm_compute. done. Qed.
(** A negative zero counts as not negative and is printed with its sign. *)
Lemma signed_pct_negative_zero : FormatSignedPct (S754_zero true) = "+-0.00%".
Proof. done. Qed.
End format_test.

(** ** Theorems on the configuration *)
Section config_theorems.
Context `{!Unicode} {NavexaClient : Type}.
Context (getenv : string -> string) (stat_missing : string -> bool) (ReadFile : string -> result string)
  (toml_Unmarshal : string -> Config -> result Config).

(** The display currency is always one of the two that are supported: for
    every configuration that loads, whatever the files and the environment say,
    and every request context, amounts are shown in AUD or USD. *)
Lemma display_currency_supported paths c (ctx : Ctx (NavexaClient := NavexaClient)) :
  LoadConfig getenv stat_missing ReadFile toml_Unmarshal paths = Ok c ->
  ResolveDisplayCurrency ctx (c_DisplayCurrency c) ∈ ["AUD"; "USD"].
Proof.
  unfold LoadConfig. destruct (load_all _ _ _ _ _) as [c0|]; [|done]. intros [= <-]. simpl.
  assert (forall s, valid_currency s ∈ ["AUD"; "USD"]) as Hv.
  { intros s. unfold valid_currency. case_decide; set_solver. }
  unfold ResolveDisplayCurrency. destruct (UserContextFromContext ctx) as [uc|]; [|apply Hv].
  case_decide; [apply Hv|]. case_decide; [set_solver|apply Hv].
Qed.

(** The default portfolio of the environment comes first; no other portfolio is
    lost and none appears twice that did not before. *)
Lemma env_default_portfolio c :
  getenv "VIRE_DEFAULT_PORTFOLIO" ≠ "" ->
  let dp := getenv "VIRE_DEFAULT_PORTFOLIO" in
  let c' := applyEnvOverrides getenv c in
  DefaultPortfolio c' = dp /\
  (forall p, p ∈ c_Portfolios c' <-> p = dp \/ p ∈ c_Portfolios c) /\
  (NoDup (c_Portfolios c) -> NoDup (c_Portfolios c')).
Proof.
  intros Hne dp c'. unfold DefaultPortfolio, c', applyEnvOverrides. cbn [c_Portfolios]. rewrite decide_False by done.
  fold dp. unfold set_portfolios. destruct (c_Portfolios c) as [|p l]; [split; [done|]; split; [set_solver|]; intros _; apply NoDup_singleton|].
  case_decide as E; [subst p; split; [done|]; split; [set_solver|done]|]. split; [done|]. split.
  - intros q. rewrite elem_of_cons, list_elem_of_filter. destruct (decide (q = dp)); set_solver.
  - intros Hnd. constructor; [rewrite list_elem_of_filter; tauto|by apply NoDup_filter].
Qed.

Lemma kv_lookup_nonempty {C W} (ctx : C) (kvs : option (KeyValueStorage C W)) key w k :
  (kv_lookup ctx kvs key w).1 = Some k -> k ≠ "".
Proof.
  unfold kv_lookup. destruct kvs as [kv|]; [|done]. rewrite M_bind_unfold.
  destruct (kv_Get kv ctx key w) as [[x|] w']; simpl; [|done]. case_decide; [done|]. by intros [= <-].
Qed.
(** An API key comes from the environment, else from the storage, else from the
    fallback; it is never empty, and the storage is asked only when the
    environment has no key. *)
Lemma api_key_priority {C W} (ctx : C) (kvs : option (KeyValueStorage C W)) name fallback w :
  let '(answer, w') := ResolveAPIKey getenv ctx kvs name fallback w in
  let '(stored, w1) := kv_lookup ctx kvs name w in
  let no_env := forall v, v ∈ keyToEnvMapping name -> getenv v = "" in
  match answer with
  | Ok k => k ≠ "" /\
      ((exists v, v ∈ keyToEnvMapping name /\ k = getenv v) /\ w' = w \/
       no_env /\ w' = w1 /\ (stored = Some k \/ stored = None /\ k = fallback))
  | Err _ => no_env /\ w' = w1 /\ stored = None /\ fallback = ""
  end.
Proof.
  unfold ResolveAPIKey. pose proof (kv_lookup_nonempty ctx kvs name w) as Hne.
  destruct (find _ _) as [v|] eqn:Ef.
  - apply find_some in Ef as [Hin Hv]. apply negb_true_iff, bool_decide_eq_false in Hv. simpl.
    destruct (kv_lookup ctx kvs name w) as [stored w1]. split; [done|].
    left. split; [|done]. exists v. split; [by apply list_elem_of_In|done].
  - assert (forall v, v ∈ keyToEnvMapping name -> getenv v = "") as Hno.
    { intros v Hv%list_elem_of_In. pose proof (find_none _ _ Ef v Hv) as H'. simpl in H'.
      by apply negb_false_iff, bool_decide_eq_true in H'. }
    rewrite M_bind_unfold. destruct (kv_lookup ctx kvs name w) as [[k|] w1]; simpl.
    + split; [by apply Hne|]. right. auto.
    + case_decide; [done|]. split; [done|]. right. auto.
Qed.
End config_theorems.

Lemma wrap64_range z : - 2 ^ 63 <= wrap64 z < 2 ^ 63.
Proof. unfold wrap64. pose proof (Z.mod_pos_bound (z + 2 ^ 63) (2 ^ 64)). lia. Qed.
(** The logger's limits are sound for every configuration, also when the size
    in megabytes overflows: a file writer has a positive size that fits 64 bits
    and a positive number of backups; the memory writer is always there; and
    there is a console or file writer only for an output that is named, or when
    none is. *)
Lemma logger_limits cfg :
  let ws := l_writers (NewLoggerFromConfig cfg) in
  (forall name size backups, FileWriter name size backups ∈ ws -> name ≠ "" /\ 0 < size < 2 ^ 63 /\ 0 < backups) /\
  MemoryWriter ∈ ws /\
  (ConsoleWriter ∈ ws <-> "console" ∈ lg_Outputs cfg \/ lg_Outputs cfg = []) /\
  ((exists name size backups, FileWriter name size backups ∈ ws) <-> "file" ∈ lg_Outputs cfg \/ lg_Outputs cfg = []) /\
  (LogStoreWriter ∈ ws <-> lg_LogStore cfg = true).
Proof.
  intros ws. set (outs := match lg_Outputs cfg with [] => ["console"; "file"] | l => l end).
  assert (forall w, w ∈ ws <-> (exists out, out ∈ outs /\ w ∈ output_writer cfg out) \/ w = MemoryWriter \/
    w = LogStoreWriter /\ lg_LogStore cfg = true) as Hws.
  { intros w. unfold ws, NewLoggerFromConfig. cbn [l_writers]. fold outs. rewrite elem_of_app, list_elem_of_bind, elem_of_app.
    destruct (lg_LogStore cfg); set_solver. }
  assert (forall w out, w ∈ output_writer cfg out -> out = "console" /\ w = ConsoleWriter \/ out = "file" /\ w = file_writer cfg) as Hout.
  { intros w out. unfold output_writer. repeat case_decide; set_solver. }
  assert (forall o, o = "console" \/ o = "file" -> (o ∈ outs <-> o ∈ lg_Outputs cfg \/ lg_Outputs cfg = [])) as Houts.
  { intros o Ho. unfold outs. destruct (lg_Outputs cfg); set_solver. }
  split_and!.
  - intros name size backups [(out & _ & [[_ ?]|[_ E]]%Hout)|[?|[? _]]]%Hws; [done| |done..]. unfold file_writer in E.
    injection E as -> -> ->. pose proof (wrap64_range (lg_MaxSizeMB cfg * 1024 * 1024)).
    split; [by case_decide|]. split; [destruct (_ <=? _) eqn:El|destruct (lg_MaxBackups cfg <=? 0) eqn:El]; lia.
  - apply Hws. tauto.
  - rewrite <-Houts, Hws by tauto. split.
    + intros [(out & Hin & [[-> _]|[_ E]]%Hout)|[?|[? _]]]; [done|done..].
    + intros Hin. left. exists "console". split; [done|]. simpl. set_solver.
  - rewrite <-Houts by tauto. split.
    + intros (name & size & backups & [(out & Hin & [[_ ?]|[-> _]]%Hout)|[?|[? _]]]%Hws); done.
    + intros Hin. assert (file_writer cfg ∈ ws) as Hf; [|unfold file_writer in Hf; eauto].
      apply Hws. left. exists "file". split; [done|]. change (file_writer cfg ∈ [file_writer cfg]). set_solver.
  - rewrite Hws. split; [intros [(out & _ & [[_ ?]|[_ E]]%Hout)|[?|[_ ?]]]; done|tauto].
Qed.

Lemma IsFresh_spec `{!Env} updated ttl w :
  - 2 ^ 63 < ttl < 2 ^ 63 ->
  (IsFresh updated ttl w).1 = true <-> IsZero updated = false /\ clock (w_tick w) - t_ns updated < ttl.
Proof.
  intros Ht. unfold IsFresh. destruct (IsZero updated); simpl; [split; [done|by intros [? _]]|].
  rewrite Z.ltb_lt. unfold time_Sub, saturate. split; [intros H'; split; [done|lia]|intros [_ ?]; lia].
Qed.


