(* ===== verification/VireMoney.v ===== *)
(** * VireMoney: what the amounts of internal/vire/common/format.go show

    The printed amount is the value rounded to the cent, and the text is the
    sign, the symbol, the whole part in groups of three and two digits. *)
From Stdlib Require Import SpecFloat.
From S2P Require Import Prelude GoStrings GoFloat GoJson Samples VireCommon.

(** A number of 53 bits that is not negative, with its value. *)
Definition nonneg53 (x : float64) (v : Z) : Prop :=
  (x = S754_zero false /\ v = 0) \/
  (exists m e, x = S754_finite false m e /\ -1074 <= e /\ Zpos m < 2 ^ 53 /\ v = dyad (Zpos m) e).
Lemma nonneg53_nonneg x v : nonneg53 x v -> nonneg x v.
Proof. intros [H|(m & e & -> & He & _ & ->)]; [by left|right; by exists m, e]. Qed.
Lemma dyad_unit m : dyad m 0 = m * 2 ^ 4000.
Proof. done. Qed.

(** The whole part of such a number and what it leaves are such numbers. *)
Lemma whole_and_rest x v :
  nonneg53 x v -> v < 2 ^ 62 * 2 ^ 4000 ->
  exists W F, v = dyad W 0 + F /\ W = v / 2 ^ 4000 /\ 0 <= F < 2 ^ 4000 /\ 0 <= W < 2 ^ 62 /\
    (forall r, rounds (dyad W 0) r -> r = dyad W 0) /\ (forall r, rounds F r -> r = F).
Proof.
  intros Hx Hlt. pose proof (nonneg_pos x v (nonneg53_nonneg _ _ Hx)) as Hv.
  assert (0 < 2 ^ 4000) as HS by (apply Z.pow_pos_nonneg; lia).
  exists (v / 2 ^ 4000), (v `mod` 2 ^ 4000). rewrite dyad_unit.
  split; [rewrite Z.mul_comm; apply Z.div_mod; lia|]. split; [done|].
  split; [by apply Z.mod_pos_bound|].
  split; [split; [by apply Z.div_pos|apply Z.div_lt_upper_bound; [done|by rewrite Z.mul_comm]]|].
  destruct Hx as [[-> ->]|(m & e & -> & He & Hm & ->)].
  { rewrite Z.div_0_l, Z.mod_0_l by lia. split; intros r Hr; apply (rounds_exact 0 0); (lia || exact Hr). }
  unfold dyad in *. destruct (decide (0 <= e)) as [Hp|Hn].
  - assert (Zpos m * 2 ^ (e + 4000) = Zpos m * 2 ^ e * 2 ^ 4000) as E by (rewrite (Z.pow_add_r 2 e 4000) by lia; ring).
    assert (e <= 800) as He8.
    { apply Z.nlt_ge. intros Hgt. rewrite E in Hlt. apply Z.mul_lt_mono_pos_r in Hlt; [|done].
      assert (2 ^ 62 <= 2 ^ e) by (apply Z.pow_le_mono_r; lia). nia. }
    rewrite E, Z.div_mul, Z.mod_mul by lia. split; intros r Hr.
    + rewrite <-E in *. by apply (rounds_exact (Zpos m) e).
    + apply (rounds_exact 0 0); (lia || exact Hr).
  - assert (2 ^ 4000 = 2 ^ (- e) * 2 ^ (e + 4000)) as E by (rewrite <-Z.pow_add_r by lia; f_equal; lia).
    assert (0 < 2 ^ (e + 4000)) by (apply Z.pow_pos_nonneg; lia). assert (0 < 2 ^ (- e)) by (apply Z.pow_pos_nonneg; lia).
    rewrite E, Z.div_mul_cancel_r, Z.mul_mod_distr_r, <-E by lia.
    pose proof (Z.mod_pos_bound (Zpos m) (2 ^ (- e)) ltac:(lia)). pose proof (Z.mod_le (Zpos m) (2 ^ (- e)) ltac:(lia) ltac:(lia)).
    assert (0 <= Zpos m / 2 ^ (- e)) by (apply Z.div_pos; lia).
    assert (Zpos m / 2 ^ (- e) <= Zpos m) by (apply Z.div_le_upper_bound; [lia|nia]).
    split; intros r Hr; [apply (rounds_exact _ 0)|apply (rounds_exact _ e)]; (lia || exact Hr).
Qed.

(** The cents of a rest: the rest times a hundred, rounded half up, up to the
    2^-45 that the rounding of the sum can add. *)
Lemma cents_value x F :
  nonneg x F -> 0 <= F < 2 ^ 4000 ->
  exists k, f64_trunc (f64_add (f64_mul x (f64_of_Z 100)) f64_half) = Some k /\ 0 <= k <= 100 /\
    dyad ((2 * k - 1) * 2 ^ 44 - 1) (-45) < 100 * F < dyad (2 * k + 1) (-1).
Proof.
  intros Hx HF. assert (dyad 1 900 = 2 ^ 900 * 2 ^ 4000) as E9 by (unfold dyad; rewrite <-Z.pow_add_r by lia; done).
  assert (forall m, dyad m (-45) * 2 ^ 45 = m * 2 ^ 4000) as E45.
  { intros m. unfold dyad. rewrite <-Z.mul_assoc, <-Z.pow_add_r by lia. done. }
  assert (forall m, dyad m (-1) * 2 = m * 2 ^ 4000) as E1.
  { intros m. unfold dyad. rewrite <-Z.mul_assoc. change 2 with (2 ^ 1) at 2. rewrite <-Z.pow_add_r by lia. done. }
  pose proof (trunc_value) as Htr. revert HF E9 E45 E1 Htr. 
  assert (0 < 2 ^ 4000) as HS by (apply Z.pow_pos_nonneg; lia). revert HS.
  pose proof (mul_rounds x (f64_of_Z 100) F (dyad 100 0) (100 * F) Hx) as Hmul. rewrite dyad_unit in Hmul. revert Hmul.
  pose proof dyad_unit as Hu. revert Hu. generalize (2 ^ 4000). intros S Hu Hmul HS HF E9 E45 E1 Htr.
  assert (nonneg (f64_of_Z 100) (100 * S)) as H100.
  { destruct (of_Z_rounds 100) as (r & Hr & Hrr); [lia|rewrite Hu, E9; lia|].
    rewrite (rounds_exact 100 0 r ltac:(lia) ltac:(lia) Hrr), Hu in Hr. done. }
  assert (nonneg f64_half (dyad 1 (-1))) as Hhalf.
  { destruct (normalize_rounds 1 (-1)) as (r & Hr & Hrr); [lia..|rewrite E9; specialize (E1 1); lia|].
    by rewrite (rounds_exact 1 (-1) r ltac:(lia) ltac:(lia) Hrr) in Hr. }
  destruct (Hmul H100) as (c & Hc & Hcr); [ring|rewrite E9; lia|].
  assert (forall B b, 0 <= B < 2 ^ 53 -> -1074 <= b <= 800 -> 100 * F <= dyad B b -> c <= dyad B b) as Hc1
    by (intros B b HB Hb; by apply Hcr).
  assert (c <= 100 * S) as Hc100 by (rewrite <-Hu; apply Hc1; [lia..|rewrite Hu; lia]).
  destruct (add_rounds _ _ c _ Hc Hhalf) as (d & Hd & Hdr); [rewrite E9; specialize (E1 1); lia|].
  pose proof (nonneg_pos _ _ Hd) as Hd0. exists (d / S). split; [by apply Htr|].
  pose proof (Z.mul_div_le d S HS) as Hlo. pose proof (Z.mul_succ_div_gt d S HS) as Hhi.
  assert (0 <= d / S) as Hk0 by (by apply Z.div_pos). revert Hlo Hhi Hk0. generalize (d / S). intros k Hlo Hhi Hk0.
  assert (k <= 100) as Hk.
  { assert (d <= dyad 201 (-1)) as H201 by (apply Hdr; [lia..|]; pose proof (E1 201); pose proof (E1 1); lia).
    pose proof (E1 201). nia. }
  split; [lia|]. split; apply Z.nle_gt; intros Hle.
  - assert (0 < k) as Hkp.
    { pose proof (E45 ((2 * k - 1) * 2 ^ 44 - 1)). destruct (decide (k = 0)) as [->|]; [|lia]. lia. }
    assert (c <= dyad ((2 * k - 1) * 2 ^ 44 - 1) (-45)) as Hcle by (apply Hc1; [lia..|done]).
    assert (d <= dyad (k * 2 ^ 45 - 1) (-45)) as Hdle.
    { apply Hdr; [lia..|]. pose proof (E45 ((2 * k - 1) * 2 ^ 44 - 1)). pose proof (E1 1). pose proof (E45 (k * 2 ^ 45 - 1)). lia. }
    pose proof (E45 (k * 2 ^ 45 - 1)). lia.
  - assert (dyad (2 * k + 1) (-1) <= c) as Hcge by (apply Hcr; [lia..|done]).
    assert (dyad (k + 1) 0 <= d) as Hdge.
    { apply Hdr; [lia..|]. pose proof (E1 (2 * k + 1)). pose proof (E1 1). rewrite Hu. lia. }
    rewrite Hu in Hdge. lia.
Qed.

(** [T] hundredths are [v] (in units of 2^-4000) rounded half up, up to 2^-45. *)
Definition rounded_cents (v T : Z) : Prop :=
  dyad ((2 * T - 1) * 2 ^ 44 - 1) (-45) < 100 * v < dyad (2 * T + 1) (-1).
Lemma money_parts_value `{!Int64Conv} x v :
  nonneg53 x v -> v < 2 ^ 62 * 2 ^ 4000 ->
  exists T, 0 <= T < 2 ^ 69 /\ T / 100 < 2 ^ 63 /\ money_parts x = (T / 100, T `mod` 100) /\ rounded_cents v T.
Proof.
  intros Hx Hv. destruct (whole_and_rest x v Hx Hv) as (W & F & Ev & EW & HF & HW & HrW & HrF).
  apply nonneg53_nonneg in Hx.
  assert (int64_of x = W) as Ei.
  { unfold int64_of. rewrite (trunc_value x v Hx), <-EW. by rewrite (proj2 (Z.leb_le _ _)), (proj2 (Z.ltb_lt _ _)) by lia. }
  assert (2 ^ 62 * 2 ^ 4000 < dyad 1 900) as H900.
  { unfold dyad. rewrite Z.mul_1_l, <-Z.pow_add_r by lia. apply Z.pow_lt_mono_r; lia. }
  assert (nonneg (f64_sub x (f64_of_Z W)) F) as Hrest.
  { destruct (of_Z_rounds W) as (r & Hr & Hrr); [lia..|]. apply HrW in Hrr. subst r.
    destruct (sub_rounds x (f64_of_Z W) v (dyad W 0) Hx Hr) as (r & Hs & Hsr); [lia..|].
    replace (v - dyad W 0) with F in Hsr by lia. by rewrite (HrF r Hsr) in Hs. }
  destruct (cents_value _ F Hrest HF) as (k & Ek & Hk & Hb). exists (100 * W + k).
  split; [lia|].
  assert (rounded_cents v (100 * W + k)) as Hrc.
  { unfold rounded_cents. assert (forall m, dyad m (-45) * 2 ^ 45 = m * 2 ^ 4000) as E45.
    { intros m. unfold dyad. rewrite <-Z.mul_assoc, <-Z.pow_add_r by lia. done. }
    assert (forall m, dyad m (-1) * 2 = m * 2 ^ 4000) as E1.
    { intros m. unfold dyad. rewrite <-Z.mul_assoc. change 2 with (2 ^ 1) at 2. rewrite <-Z.pow_add_r by lia. done. }
    pose proof (E45 ((2 * k - 1) * 2 ^ 44 - 1)). pose proof (E45 ((2 * (100 * W + k) - 1) * 2 ^ 44 - 1)).
    pose proof (E1 (2 * k + 1)). pose proof (E1 (2 * (100 * W + k) + 1)). rewrite dyad_unit in Ev.
    generalize dependent (2 ^ 4000). intros. lia. }
  split; [apply Z.div_lt_upper_bound; lia|]. split; [|done].
  unfold money_parts. rewrite Ei. set (y := f64_add _ _) in *.
  assert (int64_of y = k) as ->.
  { unfold int64_of. rewrite Ek. by rewrite (proj2 (Z.leb_le _ _)), (proj2 (Z.ltb_lt _ _)) by lia. }
  destruct (Z.leb_spec 100 k).
  - assert (k = 100) as -> by lia. rewrite wrap64_id by lia.
    replace (100 * W + 100) with ((W + 1) * 100) by lia. by rewrite Z.div_mul, Z.mod_mul by lia.
  - rewrite (Z.mul_comm 100 W), Z.div_add_l, Z.div_small, Z.add_0_r by lia.
    by rewrite (Z.add_comm (W * 100)), Z.mod_add, Z.mod_small by lia.
Qed.

(** ** The text *)
(** Groups of three, the first of one to three. *)
Definition groups (s : string) (l : list string) : Prop :=
  exists g gs, l = g :: gs /\ (1 <= slen g <= 3)%nat /\ Forall (fun p => slen p = 3%nat) gs /\ Join l "" = s.
Lemma Join_cons x l : Join (x :: l) "" = x +:+ Join l "".
Proof. destruct l; [cbn; by rewrite append_nil_r|done]. Qed.
Lemma group_go_spec fuel s parts :
  s ≠ "" -> (slen s <= fuel)%nat -> Forall (fun p => slen p = 3%nat) parts ->
  groups (s +:+ Join parts "") (group_go fuel s parts).
Proof.
  revert s parts. induction fuel as [|fuel IH]; intros s parts Hne Hf Hp.
  { destruct s; [done|simpl in Hf; lia]. }
  cbn [group_go]. destruct (Nat.ltb_spec 3 (slen s)) as [Hlt|Hge].
  - replace (s +:+ Join parts "") with (str_take (slen s - 3) s +:+ Join (str_drop (slen s - 3) s :: parts) "").
    2: { by rewrite Join_cons, <-append_assoc, str_take_drop. }
    apply IH.
    + intros E. apply (f_equal slen) in E. rewrite slen_str_take in E by lia. simpl in E. lia.
    + rewrite slen_str_take by lia. lia.
    + constructor; [rewrite slen_str_drop; lia|done].
  - exists s, parts. split_and!; [done| |lia|done|by rewrite Join_cons]. destruct s; [done|simpl; lia].
Qed.
Lemma grouped_spec s : s ≠ "" -> exists l, grouped s = Join l "," /\ groups s l.
Proof.
  intros Hs. unfold grouped. destruct (Nat.ltb_spec 3 (slen s)).
  - exists (group_go (slen s) s []). split; [done|]. rewrite <-(append_nil_r s) at 1. by apply (group_go_spec (slen s) s []).
  - exists [s]. split; [done|]. exists s, []. split_and!; [done|destruct s; [done|simpl; lia]|lia|done|done].
Qed.
Lemma Itoa_not_empty z : - 2 ^ 63 <= z < 2 ^ 63 -> Itoa z ≠ "".
Proof. intros Hz E. pose proof (ParseInt_Itoa z Hz) as H. by rewrite E in H. Qed.
Lemma fmt_02d_spec c : 0 <= c < 100 -> slen (fmt_02d c) = 2%nat /\ ParseInt (fmt_02d c) = Some c.
Proof.
  intros Hc. assert (forallb (fun n => bool_decide (slen (fmt_02d (Z.of_nat n)) = 2%nat) &&
    bool_decide (ParseInt (fmt_02d (Z.of_nat n)) = Some (Z.of_nat n))) (seq 0 100) = true) as H by (vm_compute; done).
  rewrite forallb_forall in H. specialize (H (Z.to_nat c)). rewrite in_seq, Z2Nat.id, andb_true_iff, !bool_decide_eq_true in H by lia.
  apply H. lia.
Qed.

(** The text of an amount of [T] hundredths: sign, symbol, the whole part in
    groups of three, the point and two digits. *)
Definition amount_text (negative : bool) (sym : string) (T : Z) (s : string) : Prop :=
  exists l cents, s = (if negative then "-" else "") +:+ sym +:+ Join l "," +:+ "." +:+ cents /\
    groups (Itoa (T / 100)) l /\ slen cents = 2%nat /\ ParseInt cents = Some (T `mod` 100).

(** The absolute value that is printed. *)
Lemma absolute_value x v :
  f64_wf x = true -> f64_value x = Some v -> Z.abs v < 2 ^ 62 * 2 ^ 4000 ->
  (x = S754_zero true /\ v = 0) \/ nonneg53 (if f64_lt x f64_0 then f64_neg x else x) (Z.abs v).
Proof.
  intros Hwf Hv Hlt. destruct x as [[]|s| |s m e]; [by left; injection Hv as <-|right; left; by injection Hv as <-|done|done|].
  right. right. exists m, e. assert (-1074 <= e /\ Zpos m < 2 ^ 53) as [He Hm].
  { cbn in Hwf. apply andb_true_iff in Hwf as [Hc _]. apply Zeq_bool_eq in Hc. unfold fexp, emin in Hc.
    destruct (digits2_pos_bounds m) as [_ Hhi]. split; [lia|].
    assert (2 ^ Zpos (digits2_pos m) <= 2 ^ 53) by (apply Z.pow_le_mono_r; lia). lia. }
  injection Hv as <-. assert (0 < dyad (Zpos m) e) by (apply dyad_pos; lia).
  destruct s; cbn [cond_Zopp] in *; (split; [done|]); (split; [done|]); (split; [done|]); lia.
Qed.

(** C37. An amount is printed as its value rounded to the cent: for every finite
    double below 2^62 in size the text is a minus sign exactly for the negative
    numbers, the symbol, the whole part in groups of three digits and two digits
    of cents, and the hundredths it shows are the absolute value rounded half
    up, but for ties within 2^-45 of a cent below a half. *)
Theorem money_display `{!Int64Conv} sym x v :
  f64_wf x = true -> f64_value x = Some v -> Z.abs v < 2 ^ 62 * 2 ^ 4000 ->
  exists T, 0 <= T /\ amount_text (f64_lt x f64_0) sym T (format_with sym x) /\ rounded_cents (Z.abs v) T.
Proof.
  intros Hwf Hv Hlt. assert (exists T, 0 <= T /\ T / 100 < 2 ^ 63 /\ rounded_cents (Z.abs v) T /\
    money_parts (if f64_lt x f64_0 then f64_neg x else x) = (T / 100, T `mod` 100)) as (T & HT & Hw & Hr & Hm).
  { destruct (absolute_value x v Hwf Hv Hlt) as [[-> ->]|Hx].
    - exists 0. split_and!; [lia|done| |by vm_compute]. unfold rounded_cents. split; [|by apply dyad_pos].
      unfold dyad. apply Z.mul_neg_pos; [done|]. by apply Z.pow_pos_nonneg.
    - destruct (money_parts_value _ _ Hx Hlt) as (T & HT & Hw & Hm & Hr). exists T. by split_and!; [lia| | |]. }
  exists T. split_and!; [done| |done]. unfold format_with. rewrite Hm.
  assert (0 <= T / 100) by (by apply Z.div_pos). pose proof (Z.mod_pos_bound T 100 ltac:(lia)).
  destruct (grouped_spec (Itoa (T / 100))) as (l & -> & Hl); [apply Itoa_not_empty; lia|].
  destruct (fmt_02d_spec (T `mod` 100)) as [Hlen Hval]; [lia|]. by exists l, (fmt_02d (T `mod` 100)).
Qed.

Lemma money_display_witness :
  let x := f64_div (f64_of_Z (-123456789)) (f64_of_Z 100) in
  @format_with amd64_conv "A$" x = "-A$1,234,567.89" /\
  exists T, 0 <= T /\ amount_text (f64_lt x f64_0) "A$" T (@format_with amd64_conv "A$" x) /\
    rounded_cents (Z.abs (default 0 (f64_value x))) T.
Proof.
  intros x. split; [vm_compute; reflexivity|].
  apply (@money_display amd64_conv "A$" x (default 0 (f64_value x))); vm_compute; reflexivity.
Defined.
