(* ===== verification/LoggerSetup.v ===== *)
(** * LoggerSetup: the loggers of the two commands

    setupLogger of cmd/vire-portal/main.go and the logger cmd/vire-mcp/main.go
    builds: the logging section of the portal's configuration ([Config]) handed
    to the shared package ([VireCommon]). *)
From S2P Require Import Prelude GoStrings GoTime GoPath Samples Config Bridge VireData VireCommon.

Definition setupLogger (cfg : Config.Config) : Logger :=
  let l := Config.Logging cfg in
  NewLoggerFromConfig (mkLoggingConfig (Config.Level l) "" (Config.Outputs l) (Config.FilePath l)
    (Config.MaxSizeMB l) (Config.MaxBackups l) false).
Definition bridge_logger (cfg : Config.Config) : Logger :=
  let l := Config.Logging cfg in
  NewLoggerFromConfig (mkLoggingConfig (Config.Level l) (Config.Format l) (Config.Outputs l) (Config.FilePath l)
    (Config.MaxSizeMB l) (Config.MaxBackups l) false).

(** The two commands build the same logger from the same configuration. *)
Lemma loggers_agree cfg : setupLogger cfg = bridge_logger cfg.
Proof. done. Qed.

(** VIRE_LOG_FORMAT and logging.format change nothing: the environment can set
    the format to anything without an effect on the logger. *)
Lemma log_format_ignored (getenv1 getenv2 : string -> string) cfg :
  (forall k, k ≠ "VIRE_LOG_FORMAT" -> getenv1 k = getenv2 k) ->
  setupLogger (Config.applyEnvOverrides getenv1 cfg) = setupLogger (Config.applyEnvOverrides getenv2 cfg).
Proof.
  intros E. unfold setupLogger, Config.applyEnvOverrides, Config.env_or. cbn.
  by rewrite (E "VIRE_LOG_LEVEL") by done.
Qed.

(** Whatever the configuration of a command, the files it logs to are bounded. *)
Lemma command_logs_bounded cfg name size backups :
  FileWriter name size backups ∈ l_writers (setupLogger cfg) ++ l_writers (bridge_logger cfg) ->
  name ≠ "" /\ 0 < size < 2 ^ 63 /\ 0 < backups.
Proof.
  intros [Hin|Hin]%elem_of_app; eapply (proj1 (logger_limits _)), Hin.
Qed.
